(* ===== verification/_CoqProject ===== *)
-Q . S2P
Prelude.v
Mem.v
Common.v
DList.v
Buddy.v
Paging.v
Multiboot.v
FrameAlloc.v
FrameRefine.v
FrameZones.v
FrameSession.v
FrameInit.v
FrameExample.v
FrameClaims.v
Fb.v
FbSpec.v
Console.v
Printk.v
PrintkSpec.v
ConsoleSpec.v
Panic.v
Acpi.v
AcpiSpec.v
Obj.v
Vmem.v
FrameClient.v
FrameBoot.v
ObjSpec.v
PageTable.v
VmemSpec.v
VmemMap.v
AddrSpace.v
Demand.v
SpaceInit.v
Destroy.v
Clone.v
CloneSpace.v
ExampleRun.v
SpaceExample.v
VmemUnmap.v
VmemClaims.v
SpaceClaims.v
FaultExample.v
LifeClaims.v
Kst.v
Arch.v
Sched.v
ProcSpec.v
Apic.v
Syscall.v
User.v
Early.v
EarlySpec.v
BootSpec.v
KMain.v
SchedSpec.v
SyscallSpec.v
FirstSpace.v
Thread.v
FirstTask.v
Fork.v
Machine.v
MachineSim.v
Reap.v
Preempt.v
BootClaims.v
SchedClaims.v
ForkExample.v
MachineClaims.v
FirstClaims.v
StartClaims.v
TaskClaims.v
PreemptClaims.v
BaseClaims.v
ConsoleClaims.v
