(* ===== verification/Prelude.v ===== *)
(** * HeavenOS: a verification library

    HeavenOS is a small x86-64 kernel. The bootloader leaves a description of
    the machine (kernel/multiboot.c); boot/early.c builds the page tables the
    kernel starts with; [kmain] (kernel/kernel.c) brings up the screen
    (drivers/fb.c, kernel/console.c, kernel/printk.c), the firmware's tables
    (drivers/acpi.c), the timer (drivers/apic.c), the allocator of physical
    memory (mm/frame_alloc.c), and hands over to the scheduler (sched/sched.c),
    which makes the first user task. Tasks live in address spaces (mm/vmem.c,
    whose areas are objects of mm/obj.c), enter the kernel through system calls
    and interrupts (kernel/syscall.c, arch/x86/irq.c) and wait for one another
    by switching contexts (arch/x86). This library translates that C code into
    executable definitions and proves what it does, right or wrong.

    ** The machine

    - Memory (Mem.v) is one finite map from 64-bit virtual addresses to bytes,
      read and written little-endian at widths of 1, 2, 4 and 8 bytes. An
      access of the kernel to an address outside the upper half of the address
      space is a [Fault]; every address of that half is taken to be mapped. The
      part of the memory that the kernel sees twice, through the direct mapping
      and through the mapping of its own sections, is one address each time:
      that the two show the same bytes is not modelled, and no code is known to
      rely on it. Early boot runs with physical addresses; each is translated
      to the address the direct mapping shows it at.
    - Integers are [Z] with the wrap-around written out ([u64], [u32], [s32],
      ...); structures are addresses with the offsets of the packed C layout.
    - A computation (Prelude.v, [K S A]) maps a state to a result and a new
      state, or to a [halt]: a failed assertion or panic, a fault, something C
      leaves undefined, or [NoFuel].
    - Fuel bounds only the loops that C does not bound itself: searches through
      rings ([length] of the ring plus one is enough, and the theorems on areas
      ask for that), the tags of the boot information and the entries of
      its memory map (one more than their number), the polling of the timer's gate (one more than the inputs read),
      and the endless loop of the scheduler (the number of rounds to run). All
      theorems that say an operation returns exclude [NoFuel] with the fuel they
      name. Counted loops recurse on their counter.
    - Answers of the hardware (ports, the timer's counter) are a list of
      inputs; writes to ports are a trace.
    - A handler that gives up the processor is a value of [resum] (Kst.v):
      [Switch prev next k] says that context [prev] is left for [next], and [k]
      is the rest of the handler, run on whatever state it finds when [prev]
      is switched back to.

    ** The files, from the bottom up

    - Prelude.v, Mem.v, Common.v: the monad, memory, the macros and string
      functions of common.h. DList.v: utils/list.c, and the abstraction of a
      ring of nodes as a list, [dll].
    - The frame allocator. FrameAlloc.v translates mm/frame_alloc.c. Buddy.v is
      the specification: a buddy allocator on lists of block numbers, with its
      invariant [binv]. FrameRefine.v proves that [zone_alloc] and
      [zone_dealloc] implement it on memory; FrameZones.v lifts this to all
      zones; FrameSession.v to sessions of a client that allocates, writes and
      frees; FrameInit.v is [zone_add]; FrameExample.v an instance;
      FrameClaims.v the properties. FrameClient.v holds the interfaces the rest
      of the kernel is verified against: [FrameSource], a supply of new frames,
      and [FrameContract], which adds the frees; [frames_ok] (for new frames) and
      [frames_fine] (for frees) implement them. FrameBoot.v is the loop of
      [frame_alloc_init], from the boot loader's memory map to that interface;
      the line it prints at the end needs the console and is in KMain.v.
    - Virtual memory. Paging.v: the macros of mm/paging.h. Obj.v and ObjSpec.v:
      mm/obj.c. Vmem.v: mm/vmem.c whole. PageTable.v: the processor's
      translation and what it means that tables form a tree. VmemSpec.v,
      VmemMap.v and VmemUnmap.v: one page mapped or unmapped. AddrSpace.v: the
      invariant [space] of an address space, tables and areas together;
      SpaceInit.v and Demand.v: the operations that make and use one;
      Destroy.v takes one apart, Clone.v (the pages) and CloneSpace.v (the
      whole) make a second. VmemClaims.v, SpaceClaims.v and LifeClaims.v: the
      properties; ExampleRun.v runs an example, SpaceExample.v and FaultExample.v
      are the instances.
    - Output. Fb.v, Console.v, Printk.v translate drivers/fb.c,
      kernel/console.c (with its font) and kernel/printk.c; FbSpec.v,
      PrintkSpec.v and ConsoleSpec.v hold their invariants; Panic.v is the message
      of kernel/panic.c; ConsoleClaims.v the properties.
    - Boot and drivers. Multiboot.v, Early.v, Acpi.v, Apic.v and KMain.v
      translate kernel/multiboot.c, boot/early.c, drivers/acpi.c,
      drivers/apic.c and kernel/kernel.c; EarlySpec.v, AcpiSpec.v and
      BootSpec.v their lemmas; BootClaims.v the properties.
    - Tasks. Kst.v: the state of the kernel as a whole and suspended
      computations. Arch.v: arch/x86 (descriptors, system registers, kernel
      stacks of threads). Sched.v: sched/sched.c. Syscall.v: kernel/syscall.c
      and arch/x86/irq.c. User.v: the first user program, sched/user.c, as a
      program over system calls. SchedSpec.v and SyscallSpec.v hold the lemmas,
      SchedClaims.v the properties of single calls.
    - Tasks and memory together. FirstSpace.v: the address space of the first
      task ([setup_vmem]); Thread.v: kernel stacks, new and copied; FirstTask.v:
      [setup_init_task]; Fork.v: [sys_fork]; Reap.v: the scheduler's [reap].
      FirstClaims.v and TaskClaims.v are the properties, ForkExample.v an
      instance. StartClaims.v joins them to the memory map of FrameBoot.v: the
      state [kmain] hands to [sched_start].
    - The machine as a whole. ProcSpec.v is the specification: the life of
      tasks as an abstract machine with its events and its invariant. Machine.v
      is the kernel as a step relation [mstep] over its memory and the context
      of every task: the scheduler's loop, system calls, interrupts, switches.
      MachineSim.v proves that each step is an event of the specification
      ([rep] relates the two), MachineClaims.v what follows for all runs. The
      steps take handlers as units; Preempt.v cuts the handlers up at their
      accesses to memory, with the timer's interrupt in between, and
      PreemptClaims.v shows what this breaks and what it does not.
    - BaseClaims.v: the properties of the base components.

    ** What is shown

    - Allocation of memory: in any session of allocations and writes, blocks in
      use never overlap, are zero when handed out and are not touched by later
      calls; requests return; NULL means that no block is left. Nothing is
      assumed of the bitmaps for this, and the zones [zone_add] makes qualify.
    - Frees are right only on a condition, because [zone_add] gives the bitmap of
      every order the size for the highest one, so that the bitmaps of different
      orders share bytes (it is shown that they always do, and that a free after
      three allocations then faults). The condition is that the bitmaps were
      clear when the zone was made and that the pairs of buddies in use share no
      bit ([bits_apart]). It is met on the zones the code makes while what is in
      use lies in about their last quarter ([made_upper_distinct]), as in all
      the instances; sessions with frees, [vmem_unmap_page], [vmem_destroy] and
      [reap] are proved under it ([frames_fine]), and nothing is claimed
      of a free without it. The parameter [F] says whether a theorem covers
      frees ([True]) or not; a theorem stated for every [F] holds without any
      assumption on the bitmaps.
    - The allocator's start: on a memory map whose usable regions are more than
      1024 pages, at most ten, and a maximal block apart (a zone can end that
      far past its region), [frame_alloc_init] returns the number of pages of
      its zones, keeps them above the kernel's image and the boot information,
      leaves [sched_start] the state the theorems on tasks begin with, and prints
      its line without touching the allocator, when the screen is elsewhere.
    - Address spaces: what the processor translates after a page is mapped,
      unmapped or faulted in, exactly; the invariant of the areas; which faults
      are refused; that a clone has the same areas and translations, with
      copies of its own of the allocated pages, large pages included; that
      destruction gives back every table and every allocated page, once. The
      tables of the early boot translate the direct mapping and the kernel's
      sections.
    - Tasks: which task the scheduler runs, that an exit wakes the parent
      waiting for it and its wait returns, which requests are refused without
      effect. In the runs of the machine of Machine.v, the kernel refines the
      life of tasks, no wake-up is lost and every suspended call goes on where it
      may. These are not all runs of the kernel; what they assume is in the rules
      of [mstep]: that interrupts arrive in programs and in the scheduler, not
      inside system calls; that the memory the memory management and stores for
      users write is not the task table; and that the number given to [wait] is
      one of the table.
    - The beginning and the end of tasks: [setup_init_task] makes a task that can
      be switched to, with the intended translations and no other, whenever 138
      frames are free ([first_task_frames]: the top table, 134 more tables, two
      pages of areas' records and a kernel stack); the kernel
      started with it refines the life of tasks; a fork makes a second task with
      the parent's registers and a copy of its memory, and leaves the parent as
      it was; reaping a task gives back all its frames and nothing else, which
      is one of the assumptions of [mstep].
    - Interrupts inside calls, which the kernel allows: a call that none
      disturbs is the call as written; a sleep survives any of them; a wait or
      an exit can lose a wake-up, and a wake-up lost is lost for good.
    - Output: every format of ASCII text and the conversions u, x, d and s prints
      without leaving the screen; glyphs, scrolling, and the digits of numbers; a panic is reported
      without another, unless its message prints an address.
    - Firmware and boot data: the last tag of each kind is found, the first
      first table with a signature is returned if its checksum is right, the timer is
      programmed with the measured number of ticks, in both builds: the Makefile
      defines QEMU_PIT_HACK unless RELEASE is set, which turns the condition of
      the wait in [apic_setup_timer] round, and the definition takes the option
      as an argument ([l_qemu_pit_hack] in [kmain]).
    - Errors: where the code fails, the failure is a theorem (the buffer of
      printk that every kernel address overflows, so that the boot ends in
      [acpi_init]; overlapping areas that are accepted; a fork without a free
      entry; a preemption test the wrong way round; and others).

    ** Not modelled

    - Assembly: the entry stubs of interrupts and system calls, the exchange of
      registers in context_switch, the change to long mode. What the C code
      relies on of them is in the types: a saved frame of registers in memory,
      a hand-over of control.
    - That a panic inside a call prints its message: there [panic] is the end of
      the run; the message is the subject of Panic.v alone.
    - The table of interrupt gates and the masking of the old interrupt
      controller, which only program the hardware; [lgdt], [ltr] and [hlt].
    - The copy of a table's signature into the message of the panics of
      drivers/acpi.c: the panic is the end of the run all the same.
    - Instructions of user programs other than system calls.

    ** Left to do

    An invariant over all address spaces at once, from which the rest of what
    [mstep] assumes of the memory management follows; [wait] with an address for
    the status; the loop over the MADT; memory maps with more regions than zones. *)

From stdpp Require Export base numbers list gmap strings.
From Stdlib Require Export ZArith Lia.

#[global] Open Scope Z_scope.

(** ** Results and the state monad

    Kernel code either returns, or halts the machine: a failed [kassert] or a
    call of [panic] never returns ([Panic]); an access to an address that no
    kernel mapping covers raises a page fault in kernel mode ([Fault]); an
    access C leaves undefined, outside a static or automatic array or to an
    uninitialised variable, is not given a result ([Undefined]); and a loop
    whose fuel ran out is reported as such ([NoFuel]), so that no theorem
    can confuse it with a result. *)

Inductive halt : Type :=
  | Panic (msg : string)
  | Fault (addr : Z)
  | Undefined (what : string)
  | NoFuel.

#[export] Instance halt_eq_dec : EqDecision halt.
Proof. solve_decision. Defined.

Inductive res (A : Type) : Type :=
  | Ret (a : A)
  | Halt (h : halt).
Arguments Ret {A} _.
Arguments Halt {A} _.

(** A computation over a state of type [S] that returns an [A]. *)
Definition K (S A : Type) : Type := S -> res (A * S).

Section Monad.
Context {S : Type}.

Definition kret {A} (a : A) : K S A := fun s => Ret (a, s).
Definition kbind {A B} (m : K S A) (f : A -> K S B) : K S B :=
  fun s => match m s with
           | Ret (a, s') => f a s'
           | Halt h => Halt h
           end.
Definition khalt {A} (h : halt) : K S A := fun _ => Halt h.
Definition panic {A} (msg : string) : K S A := khalt (Panic msg).
Definition kget : K S S := fun s => Ret (s, s).
Definition kput (s : S) : K S unit := fun _ => Ret (tt, s).
Definition kassert (b : bool) (msg : string) : K S unit :=
  if b then kret tt else panic msg.

Lemma kbind_Ret {A B} (m : K S A) (f : A -> K S B) s a s' :
  m s = Ret (a, s') -> kbind m f s = f a s'.
Proof. unfold kbind. by intros ->. Qed.

Lemma kbind_Halt {A B} (m : K S A) (f : A -> K S B) s h :
  m s = Halt h -> kbind m f s = Halt h.
Proof. unfold kbind. by intros ->. Qed.

Lemma kbind_inv {A B} (m : K S A) (f : A -> K S B) s b s'' :
  kbind m f s = Ret (b, s'') ->
  exists a s', m s = Ret (a, s') /\ f a s' = Ret (b, s'').
Proof. unfold kbind. destruct (m s) as [[a s']|]; naive_solver. Qed.

Lemma kbind_assoc {A B C} (m : K S A) (f : A -> K S B) (g : B -> K S C) s :
  kbind (kbind m f) g s = kbind m (fun a => kbind (f a) g) s.
Proof. unfold kbind. by destruct (m s) as [[a s']|]. Qed.

Lemma kget_bind {B} (f : S -> K S B) s : kbind kget f s = f s s.
Proof. done. Qed.

Lemma kassert_true {B} b msg (f : unit -> K S B) s :
  b = true -> kbind (kassert b msg) f s = f tt s.
Proof. by intros ->. Qed.

Lemma kassert_false {B} b msg (f : unit -> K S B) s :
  b = false -> kbind (kassert b msg) f s = Halt (Panic msg).
Proof. by intros ->. Qed.
End Monad.

(** Running a computation on a part of a larger state. *)
Definition klift {S T A} (get : T -> S) (set : S -> T -> T) (m : K S A) : K T A :=
  fun t => match m (get t) with
           | Ret (a, s') => Ret (a, set s' t)
           | Halt h => Halt h
           end.

Lemma klift_Halt {S T A} (get : T -> S) set (m : K S A) t h : m (get t) = Halt h -> klift get set m t = Halt h.
Proof. intros H. unfold klift. by rewrite H. Qed.

Declare Scope k_scope.
Delimit Scope k_scope with K.
Notation "'let!' x ':=' m 'in' k" := (kbind m (fun x => k))
  (at level 10, x pattern, m at level 100, k at level 200,
   format "'let!'  x  ':='  m  'in' '//' k") : k_scope.
Notation "m ';;' k" := (kbind m (fun _ => k))
  (at level 100, k at level 200, right associativity) : k_scope.

(** ** Fixed-width integers

    A [uint64_t], a pointer or a [size_t] is an integer in [0, 2^64); results
    of C arithmetic on them are reduced by [u64], and so on for the smaller
    widths. *)

Abbreviation two64 := 18446744073709551616 (only parsing).
Definition u64 (x : Z) : Z := x mod two64.
Definition u32 (x : Z) : Z := x mod 4294967296.
Definition u16 (x : Z) : Z := x mod 65536.
Definition u8 (x : Z) : Z := x mod 256.
(** [int32_t] and [int]: two's complement. *)
Definition s32 (x : Z) : Z := (x + 2147483648) mod 4294967296 - 2147483648.
(** [int64_t]. *)
Definition s64 (x : Z) : Z := (x + 9223372036854775808) mod two64 - 9223372036854775808.

Lemma u64_small x : 0 <= x < two64 -> u64 x = x.
Proof. apply Z.mod_small. Qed.
Lemma u64_range x : 0 <= u64 x < two64.
Proof. by apply Z.mod_pos_bound. Qed.
Lemma u64_add_l a b : u64 (u64 a + b) = u64 (a + b).
Proof. apply Z.add_mod_idemp_l. done. Qed.
Lemma u64_sub_l a b : u64 (u64 a - b) = u64 (a - b).
Proof. apply Zminus_mod_idemp_l. Qed.
Lemma u8_small x : 0 <= x < 256 -> u8 x = x.
Proof. apply Z.mod_small. Qed.
Lemma u8_range x : 0 <= u8 x < 256.
Proof. by apply Z.mod_pos_bound. Qed.
Lemma u8_u8 x : u8 (u8 x) = u8 x.
Proof. apply u8_small, u8_range. Qed.

Create HintDb kern.
#[export] Hint Resolve u64_range u8_range : kern.
#[export] Hint Rewrite u8_u8 u64_add_l u64_sub_l : kern.

(** ** Ranges *)

Definition in_range (p n a : Z) : Prop := p <= a < p + n.
Definition apart (p n q k : Z) : Prop := p + n <= q \/ q + k <= p.

#[export] Instance in_range_dec p n a : Decision (in_range p n a).
Proof. unfold in_range. apply _. Defined.
#[export] Instance apart_dec p n q k : Decision (apart p n q k).
Proof. unfold apart. apply _. Defined.

(** ** Powers of two and alignment *)

Definition aligned (n a : Z) : Prop := (n | a).

Lemma aligned_add n a b : aligned n a -> aligned n b -> aligned n (a + b).
Proof. apply Z.divide_add_r. Qed.
Lemma aligned_mul_l n k : aligned n (k * n).
Proof. apply Z.divide_factor_r. Qed.
Lemma aligned_trans n m a : (n | m) -> aligned m a -> aligned n a.
Proof. apply Z.divide_trans. Qed.
Lemma aligned_mod n a : 0 < n -> aligned n a <-> a mod n = 0.
Proof. intros. unfold aligned. by rewrite Z.mod_divide by lia. Qed.

(** Distinct multiples of [n] are at least [n] apart. *)
Lemma aligned_ne_apart n a b :
  0 < n -> aligned n a -> aligned n b -> a <> b -> a + n <= b \/ b + n <= a.
Proof.
  intros Hn [x ->] [y ->] Hne.
  assert (x <> y) as [?|?]%Z.lt_gt_cases by congruence; [left|right]; nia.
Qed.

Lemma pow2_pos k : 0 <= k -> 0 < 2 ^ k.
Proof. intros; by apply Z.pow_pos_nonneg. Qed.

Lemma pow2_divide j k : 0 <= j <= k -> (2 ^ j | 2 ^ k).
Proof.
  intros. exists (2 ^ (k - j)). rewrite <- Z.pow_add_r by lia. f_equal; lia.
Qed.

(** ** Single-bit lemmas, for the bitmaps, the flags and the buddy addresses *)

Lemma testbit_pow2 k i : 0 <= k -> Z.testbit (2 ^ k) i = bool_decide (i = k).
Proof.
  intros. case_bool_decide; subst.
  - by apply Z.pow2_bits_true.
  - by apply Z.pow2_bits_false.
Qed.

Lemma land_pow2_eqb x k :
  0 <= k -> (Z.land x (2 ^ k) =? 0) = negb (Z.testbit x k).
Proof.
  intros Hk. apply eq_true_iff_eq. rewrite Z.eqb_eq, negb_true_iff. split.
  - intros H. rewrite <- (Z.bits_0 k), <- H, Z.land_spec, Z.pow2_bits_true by done.
    by rewrite andb_true_r.
  - intros H. apply Z.bits_inj'. intros i Hi.
    rewrite Z.land_spec, Z.bits_0, testbit_pow2 by done.
    case_bool_decide; subst; [by rewrite H | apply andb_false_r].
Qed.

Lemma land_ones_0 a k : 0 <= k -> Z.land a (Z.ones k) = 0 -> a mod 2 ^ k = 0.
Proof. intros. by rewrite <- Z.land_ones. Qed.

(** Masking off the low [k] bits rounds down to a multiple of [2^k]. *)
Lemma land_lnot_mask a k :
  0 <= k -> Z.land a (Z.lnot (Z.shiftl 1 k - 1)) = a / 2 ^ k * 2 ^ k.
Proof.
  intros. rewrite Z.shiftl_1_l. replace (2 ^ k - 1) with (Z.ones k) by (rewrite Z.ones_equiv; lia).
  rewrite <- Z.ldiff_land, Z.ldiff_ones_r, Z.shiftl_mul_pow2, Z.shiftr_div_pow2 by done. done.
Qed.

(** Toggling bit [k] of a multiple of [2^k] adds or removes [2^k]. *)
Lemma lxor_pow2_even x k :
  0 <= k -> Z.testbit x k = false -> Z.lxor x (2 ^ k) = x + 2 ^ k.
Proof.
  intros Hk Hx. rewrite Z.add_nocarry_lxor; [done|].
  apply Z.bits_inj'; intros i Hi. rewrite Z.land_spec, Z.bits_0, testbit_pow2 by done.
  case_bool_decide; subst; [by rewrite Hx | apply andb_false_r].
Qed.

Lemma lxor_pow2_odd x k :
  0 <= k -> Z.testbit x k = true -> Z.lxor x (2 ^ k) = x - 2 ^ k.
Proof.
  intros Hk Hx.
  assert (Hf : Z.testbit (Z.lxor x (2 ^ k)) k = false).
  { by rewrite Z.lxor_spec, Hx, Z.pow2_bits_true. }
  pose proof (lxor_pow2_even _ k Hk Hf) as E.
  rewrite Z.lxor_assoc, Z.lxor_nilpotent, Z.lxor_0_r in E. lia.
Qed.

(** ** Function update, for the finite families indexed by an order *)

Definition fupd {A} (f : nat -> A) (k : nat) (v : A) : nat -> A :=
  fun j => if decide (j = k) then v else f j.

Lemma fupd_eq {A} (f : nat -> A) k v : fupd f k v k = v.
Proof. unfold fupd. by case_decide. Qed.
Lemma fupd_ne {A} (f : nat -> A) k v j : j <> k -> fupd f k v j = f j.
Proof. unfold fupd. by case_decide. Qed.
#[export] Hint Rewrite @fupd_eq : kern.
#[export] Hint Rewrite @fupd_ne using (congruence || lia) : kern.

(** ** Pairwise relations on a list *)

Fixpoint pairwise {A} (R : A -> A -> Prop) (l : list A) : Prop :=
  match l with
  | [] => True
  | x :: l => (forall y, y ∈ l -> R x y) /\ pairwise R l
  end.

Lemma pairwise_middle {A} (R : A -> A -> Prop) l1 x l2 :
  (forall y z, R y z -> R z y) ->
  pairwise R (l1 ++ x :: l2) -> pairwise R (l1 ++ l2) /\ (forall y, y ∈ l1 ++ l2 -> R x y).
Proof.
  intros Hsym. induction l1 as [|y l1 IH]; simpl; [tauto|]. intros [Hy Hl].
  destruct (IH Hl) as [IH1 IH2]. split; [set_solver|].
  intros w [->|Hw]%elem_of_cons; [apply Hsym, Hy; set_solver | by apply IH2].
Qed.

(** ** Tactics *)

(** Case analysis on the boolean comparison in the goal or a hypothesis. *)
Ltac cmp_cases :=
  repeat match goal with
  | H : context [?a =? ?b] |- _ => destruct (Z.eqb_spec a b); try lia
  | H : context [?a <? ?b] |- _ => destruct (Z.ltb_spec a b); try lia
  | H : context [?a <=? ?b] |- _ => destruct (Z.leb_spec a b); try lia
  | |- context [?a =? ?b] => destruct (Z.eqb_spec a b); try lia
  | |- context [?a <? ?b] => destruct (Z.ltb_spec a b); try lia
  | |- context [?a <=? ?b] => destruct (Z.leb_spec a b); try lia
  end.

(** One step of symbolic execution: the head of the goal's computation is a
    bind whose first part is known to return by [H] (side goals are left). *)
Ltac kstep H := first [ rewrite (kbind_Ret _ _ _ _ _ H)
                      | erewrite kbind_Ret; [| eapply H ] ].
