(* ===== verification/Mem.v ===== *)
(** * Kernel memory

    The memory every component of the kernel shares: a finite map from virtual
    addresses to bytes (an absent address reads as zero), with the
    little-endian accesses of 8 to 64 bits the C code makes through pointers.

    An access below the kernel half of the address space
    ([KERNEL_HIGHER_HALF_START], mm/mem_layout.h) is not covered by a kernel
    mapping, so it raises a page fault; in particular a dereference of [NULL]
    or of a small offset from it does. *)

From S2P Require Import Prelude.

Abbreviation mem := (gmap Z Z).

Definition PAGE_SIZE : Z := 4096.
Definition KERNEL_HIGHER_HALF_START : Z := 0xffff800000000000.
Definition KERNEL_SECTIONS_START : Z := 0xffffffff80000000.
Definition KERNEL_SECTIONS_SIZE : Z := 2 * 2 ^ 30.
Definition KERNEL_DIRECT_PHYS_MAPPING_START : Z := 0xffff888000000000.
Definition KERNEL_DIRECT_PHYS_MAPPING_SIZE : Z := 64 * 2 ^ 40.

Definition rd8 (m : mem) (a : Z) : Z := u8 (default 0 (m !! a)).
Definition wr8 (m : mem) (a v : Z) : mem := <[a := u8 v]> m.

(** Little-endian load and store of [n] bytes. *)
Fixpoint ld (n : nat) (m : mem) (a : Z) : Z :=
  match n with
  | O => 0
  | S n => rd8 m a + 256 * ld n m (a + 1)
  end.

Fixpoint st (n : nat) (m : mem) (a v : Z) : mem :=
  match n with
  | O => m
  | S n => st n (wr8 m a v) (a + 1) (v / 256)
  end.

Definition kok (a n : Z) : bool :=
  (KERNEL_HIGHER_HALF_START <=? a) && (a + n <=? two64).

Definition load (n : nat) (a : Z) : K mem Z :=
  fun m => if kok a (Z.of_nat n) then Ret (ld n m a, m) else Halt (Fault a).
Definition store (n : nat) (a v : Z) : K mem unit :=
  fun m => if kok a (Z.of_nat n) then Ret (tt, st n m a v) else Halt (Fault a).

Abbreviation load8 := (load 1).
Abbreviation load32 := (load 4).
Abbreviation load64 := (load 8).
Abbreviation store8 := (store 1).
Abbreviation store32 := (store 4).
Abbreviation store64 := (store 8).
Abbreviation ld64 := (ld 8).
Abbreviation st64 := (st 8).

(** ** Ranges and frames *)

(** [m'] agrees with [m] on every address of [P]. *)
Definition agree (P : Z -> Prop) (m m' : mem) : Prop :=
  forall a, P a -> rd8 m' a = rd8 m a.

(** Memories that no load distinguishes. *)
Definition mem_equiv (m m' : mem) : Prop := forall a, rd8 m a = rd8 m' a.

#[export] Instance mem_equiv_equivalence : Equivalence mem_equiv.
Proof.
  split; [done | intros ?? H a; by rewrite H | intros ??? H H' a; by rewrite H].
Qed.

Lemma agree_refl P m : agree P m m.
Proof. done. Qed.
Lemma agree_trans P m1 m2 m3 : agree P m1 m2 -> agree P m2 m3 -> agree P m1 m3.
Proof. intros H H' a Ha. by rewrite H', H. Qed.
Lemma agree_weaken (P Q : Z -> Prop) m m' :
  agree P m m' -> (forall a, Q a -> P a) -> agree Q m m'.
Proof. intros H HQ a ?. by apply H, HQ. Qed.
#[export] Hint Resolve agree_refl : kern.

(** ** Bytes *)

Lemma rd8_range m a : 0 <= rd8 m a < 256.
Proof. apply u8_range. Qed.

Lemma rd8_wr8 m a v b : rd8 (wr8 m a v) b = if decide (b = a) then u8 v else rd8 m b.
Proof.
  unfold rd8, wr8. case_decide; subst.
  - rewrite lookup_insert_eq. apply u8_u8.
  - by rewrite lookup_insert_ne.
Qed.

Lemma rd8_st_out n m a v b :
  b < a \/ a + Z.of_nat n <= b -> rd8 (st n m a v) b = rd8 m b.
Proof.
  revert m a v; induction n as [|n IH]; intros m a v Hb; [done|].
  simpl. rewrite IH, rd8_wr8 by lia. case_decide; [lia | done].
Qed.

(** The byte at offset [b - a] of a stored word. *)
Lemma rd8_st_in n m a v b :
  a <= b < a + Z.of_nat n -> rd8 (st n m a v) b = u8 (v / 256 ^ (b - a)).
Proof.
  revert m a v; induction n as [|n IH]; intros m a v Hb; [lia|].
  simpl. destruct (decide (b = a)) as [->|].
  - rewrite rd8_st_out, rd8_wr8 by lia. case_decide; [|done].
    by rewrite Z.sub_diag, Z.div_1_r.
  - rewrite IH by lia. rewrite Z.div_div by lia.
    change 256 with (256 ^ 1) at 1. rewrite <- Z.pow_add_r by lia. do 2 f_equal.
    f_equal. lia.
Qed.

Lemma st_agree n m a v : agree (fun x => ~ in_range a (Z.of_nat n) x) m (st n m a v).
Proof. intros x Hx. apply rd8_st_out. unfold in_range in Hx. lia. Qed.

(** ** Words *)

Lemma ld_ext n m m' a :
  (forall x, in_range a (Z.of_nat n) x -> rd8 m' x = rd8 m x) -> ld n m' a = ld n m a.
Proof.
  unfold in_range.
  revert a; induction n as [|n IH]; intros a H; [done|]. simpl.
  rewrite H, IH by (intros; try apply H; lia). done.
Qed.

Lemma ld_agree n P m m' a :
  agree P m m' -> (forall x, in_range a (Z.of_nat n) x -> P x) -> ld n m' a = ld n m a.
Proof. intros H HP. apply ld_ext. auto. Qed.

#[export] Instance ld_proper n : Proper (mem_equiv ==> eq ==> eq) (ld n).
Proof. intros m m' H a ? <-. symmetry. by apply ld_ext. Qed.

Lemma ld_range n m a : 0 <= ld n m a < 256 ^ Z.of_nat n.
Proof.
  revert a; induction n as [|n IH]; intros a; [simpl; lia|].
  rewrite Nat2Z.inj_succ, Z.pow_succ_r by lia. simpl.
  specialize (IH (a + 1)). pose proof (rd8_range m a). lia.
Qed.

Lemma ld64_range m a : 0 <= ld64 m a < two64.
Proof. apply (ld_range 8). Qed.

Lemma ld_st_same n m a v : ld n (st n m a v) a = v mod 256 ^ Z.of_nat n.
Proof.
  revert m a v; induction n as [|n IH]; intros m a v; [simpl; by rewrite Z.mod_1_r|].
  rewrite Nat2Z.inj_succ, Z.pow_succ_r by lia. simpl.
  rewrite rd8_st_out, IH, rd8_wr8 by lia. case_decide; [|done].
  rewrite (Z.rem_mul_r v 256) by lia. done.
Qed.

Lemma ld_st_ne n k m a v b :
  apart a (Z.of_nat n) b (Z.of_nat k) -> ld k (st n m a v) b = ld k m b.
Proof.
  unfold apart. intros H. apply ld_ext. unfold in_range. intros x Hx.
  apply rd8_st_out. lia.
Qed.

Lemma ld64_st64_same m a v : ld64 (st64 m a v) a = u64 v.
Proof. apply (ld_st_same 8). Qed.

Lemma ld64_st64_ne m a v b : apart a 8 b 8 -> ld64 (st64 m a v) b = ld64 m b.
Proof. apply (ld_st_ne 8 8). Qed.

(** Resolve the loads of a chain of stores; the addresses must be linear. *)
Ltac ld_simp :=
  repeat first [ rewrite ld64_st64_same | rewrite ld64_st64_ne by (unfold apart; lia) ].

(** Two aligned words of which one is written. *)
Lemma ld64_st64 m a v b :
  aligned 8 a -> aligned 8 b ->
  ld64 (st64 m a v) b = if decide (b = a) then u64 v else ld64 m b.
Proof.
  intros Ha Hb. case_decide; subst; [apply ld64_st64_same|].
  apply ld64_st64_ne. unfold apart.
  destruct (aligned_ne_apart 8 a b); auto; lia.
Qed.

(** ** Successful accesses *)

Lemma kok_true a n :
  KERNEL_HIGHER_HALF_START <= a -> a + n <= two64 -> kok a n = true.
Proof. unfold kok. intros. apply andb_true_intro; split; by apply Z.leb_le. Qed.

Lemma kok_spec a n : kok a n = true <-> KERNEL_HIGHER_HALF_START <= a /\ a + n <= two64.
Proof. unfold kok. by rewrite andb_true_iff, !Z.leb_le. Qed.

Lemma kok_sub a n b k : kok a n = true -> a <= b -> b + k <= a + n -> kok b k = true.
Proof. rewrite !kok_spec. lia. Qed.

Lemma load_ok n a m : kok a (Z.of_nat n) = true -> load n a m = Ret (ld n m a, m).
Proof. unfold load. by intros ->. Qed.
Lemma store_ok n a v m : kok a (Z.of_nat n) = true -> store n a v m = Ret (tt, st n m a v).
Proof. unfold store. by intros ->. Qed.
Lemma load_fault n a m : kok a (Z.of_nat n) = false -> load n a m = Halt (Fault a).
Proof. unfold load. by intros ->. Qed.
Lemma store_fault n a v m : kok a (Z.of_nat n) = false -> store n a v m = Halt (Fault a).
Proof. unfold store. by intros ->. Qed.

Lemma bind_load {B} n a (f : Z -> K mem B) m :
  kok a (Z.of_nat n) = true -> kbind (load n a) f m = f (ld n m a) m.
Proof. intros. by rewrite (kbind_Ret _ _ _ _ _ (load_ok n a m H)). Qed.
Lemma bind_store {B} n a v (f : unit -> K mem B) m :
  kok a (Z.of_nat n) = true -> kbind (store n a v) f m = f tt (st n m a v).
Proof. intros. by rewrite (kbind_Ret _ _ _ _ _ (store_ok n a v m H)). Qed.

#[export] Hint Resolve rd8_range ld64_range st_agree : kern.
#[global] Arguments ld : simpl never.
#[global] Arguments st : simpl never.
#[global] Opaque u64 u8.

Lemma ld_1 m a : ld 1 m a = rd8 m a.
Proof. change (ld 1 m a) with (rd8 m a + 256 * 0). lia. Qed.
Lemma st_1 m a v : st 1 m a v = wr8 m a v.
Proof. done. Qed.
