(* ===== verification/Common.v ===== *)
(** * common.h: rounding and bit macros, memory and string functions

    The macros [ROUNDDOWN], [ROUNDUP], [ALIGN_UP], [DIV_ROUNDUP] and the
    [*_BIT] family, and the freestanding [memset], [memcpy], [memmove],
    [memcmp] and [strlen] every component uses. Loops run on a counter that is
    the C variable [sz], [n] or [count], so the recursion on it is the loop;
    [strlen] has no bound of its own and takes fuel. *)

From S2P Require Import Prelude Mem.

(** ** Rounding, on [uint64_t] operands *)

Definition ROUNDDOWN (a n : Z) : Z := u64 (a - a mod n).
Definition ROUNDUP (a n : Z) : Z := ROUNDDOWN (u64 (u64 (a + n) - 1)) n.
Definition DIV_ROUNDUP (x r : Z) : Z := u64 (u64 (x + r) - 1) / r.
Definition ALIGN_UP (x r : Z) : Z := u64 (DIV_ROUNDUP x r * r).

Definition CACHE_LINE_SIZE_BYTES : Z := 64.
Definition GB : Z := 2 ^ 30.
Definition MB : Z := 2 ^ 20.

(** ** Bits *)

Definition GET_BIT (val bit : Z) : Z := Z.land (Z.shiftr val bit) 1.
Definition SET_BIT (val bit : Z) : Z := Z.lor val (Z.shiftl 1 bit).
Definition CLEAR_BIT (val bit : Z) : Z := Z.land val (Z.lnot (Z.shiftl 1 bit)).
Definition FLIP_BIT (val bit : Z) : Z := Z.lxor val (Z.shiftl 1 bit).

(** Error codes *)
Definition ENOSYS : Z := 1.
Definition ENOMEM : Z := 2.
Definition EINVAL : Z := 3.
Definition ECHILD : Z := 4.

(** ** Memory functions *)

Fixpoint memset_loop (ptr ch : Z) (sz : nat) : K mem unit :=
  match sz with
  | O => kret tt
  | S sz => (store8 ptr ch ;; memset_loop (u64 (ptr + 1)) ch sz)%K
  end.
Definition memset (p ch sz : Z) : K mem unit := memset_loop p ch (Z.to_nat sz).

Fixpoint memcpy_loop (d s : Z) (sz : nat) : K mem unit :=
  match sz with
  | O => kret tt
  | S sz =>
      (let! v := load8 s in
       store8 d v ;;
       memcpy_loop (u64 (d + 1)) (u64 (s + 1)) sz)%K
  end.
Definition memcpy (dst src sz : Z) : K mem unit := memcpy_loop dst src (Z.to_nat sz).

Fixpoint memcmp_loop (s1 s2 : Z) (count : nat) : K mem Z :=
  match count with
  | O => kret 0
  | S count =>
      (let! a := load8 s1 in
       let! b := load8 s2 in
       if negb (a =? b) then kret (if a <? b then -1 else 1)
       else memcmp_loop (u64 (s1 + 1)) (u64 (s2 + 1)) count)%K
  end.
Definition memcmp (str1 str2 count : Z) : K mem Z := memcmp_loop str1 str2 (Z.to_nat count).

Fixpoint strlen_loop (fuel : nat) (str len : Z) : K mem Z :=
  match fuel with
  | O => khalt NoFuel
  | S fuel =>
      (let! c := load8 (u64 (str + len)) in
       if c =? 0 then kret len else strlen_loop fuel str (u64 (len + 1)))%K
  end.
Definition strlen (fuel : nat) (str : Z) : K mem Z := strlen_loop fuel str 0.

(** [rep movs]: [c] copies of [w] bytes from [s] to [d], both pointers moving
    by [step] after each one ([cld]: [w]; [std]: [-w]). *)
Fixpoint rep_movs (w : nat) (step d s : Z) (c : nat) : K mem unit :=
  match c with
  | O => kret tt
  | S c =>
      (let! v := load w s in
       store w d v ;;
       rep_movs w step (u64 (d + step)) (u64 (s + step)) c)%K
  end.

Definition memmove (dst src n : Z) : K mem unit :=
  let s := src in
  let d := dst in
  if (s <? d) && (u64 (s + n) >? d) then
    let s := u64 (s + n) in
    let d := u64 (d + n) in
    if Z.lor (Z.lor (Z.land s 7) (Z.land d 7)) (Z.land n 7) =? 0
    then rep_movs 8 (-8) (u64 (d - 8)) (u64 (s - 8)) (Z.to_nat (n / 8))
    else rep_movs 1 (-1) (u64 (d - 1)) (u64 (s - 1)) (Z.to_nat n)
  else
    if Z.lor (Z.lor (Z.land s 7) (Z.land d 7)) (Z.land n 7) =? 0
    then rep_movs 8 8 d s (Z.to_nat (n / 8))
    else rep_movs 1 1 d s (Z.to_nat n).

(** ** Rounding lemmas *)

Lemma ROUNDDOWN_spec a n :
  0 < n -> 0 <= a < two64 ->
  ROUNDDOWN a n = n * (a / n).
Proof.
  intros Hn Ha. unfold ROUNDDOWN.
  pose proof (Z.div_mod a n). pose proof (Z.mod_pos_bound a n).
  pose proof (Z.mod_le a n). rewrite u64_small by lia. lia.
Qed.

Lemma ROUNDUP_spec a n :
  0 < n -> 0 <= a -> a + n - 1 < two64 ->
  ROUNDUP a n = n * ((a + n - 1) / n).
Proof.
  intros Hn Ha Hb. unfold ROUNDUP. destruct (decide (a + n < two64)).
  - rewrite (u64_small (a + n)), (u64_small (a + n - 1)) by lia.
    apply ROUNDDOWN_spec; lia.
  - assert (a + n = two64) as E by lia. rewrite E.
    change (u64 (u64 two64 - 1)) with (two64 - 1). apply ROUNDDOWN_spec; lia.
Qed.

Lemma ROUNDUP_bounds a n :
  0 < n -> 0 <= a -> a + n - 1 < two64 -> a <= ROUNDUP a n < a + n.
Proof.
  intros. rewrite ROUNDUP_spec by lia.
  pose proof (Z.div_mod (a + n - 1) n). pose proof (Z.mod_pos_bound (a + n - 1) n). lia.
Qed.

Lemma ROUNDUP_aligned a n :
  0 < n -> 0 <= a -> a + n - 1 < two64 -> aligned n (ROUNDUP a n).
Proof. intros. rewrite ROUNDUP_spec by lia. apply Z.divide_factor_l. Qed.

Lemma ROUNDDOWN_bounds a n :
  0 < n -> 0 <= a < two64 -> ROUNDDOWN a n <= a < ROUNDDOWN a n + n.
Proof.
  intros. rewrite ROUNDDOWN_spec by lia.
  pose proof (Z.div_mod a n). pose proof (Z.mod_pos_bound a n). lia.
Qed.

Lemma ROUNDDOWN_aligned a n :
  0 < n -> 0 <= a < two64 -> aligned n (ROUNDDOWN a n).
Proof. intros. rewrite ROUNDDOWN_spec by lia. apply Z.divide_factor_l. Qed.

(** Rounding an aligned value changes nothing. *)
Lemma ROUNDUP_id a n :
  0 < n -> 0 <= a -> a + n - 1 < two64 -> aligned n a -> ROUNDUP a n = a.
Proof.
  intros Hn Ha Hb [k ->]. rewrite ROUNDUP_spec by lia.
  replace (k * n + n - 1) with (n - 1 + k * n) by lia.
  rewrite Z.div_add, Z.div_small; lia.
Qed.

(** ** Bit lemmas: the macros read and write one bit *)

Lemma GET_BIT_testbit val bit :
  0 <= bit -> GET_BIT val bit = Z.b2z (Z.testbit val bit).
Proof.
  intros. unfold GET_BIT. change 1 with (Z.ones 1) at 1.
  rewrite Z.land_ones, <- Z.bit0_mod, Z.shiftr_spec by lia. done.
Qed.

Lemma SET_BIT_testbit val bit i :
  0 <= bit -> 0 <= i ->
  Z.testbit (SET_BIT val bit) i = bool_decide (i = bit) || Z.testbit val i.
Proof.
  intros. unfold SET_BIT. rewrite Z.lor_spec, Z.shiftl_1_l, testbit_pow2 by done.
  apply orb_comm.
Qed.

Lemma CLEAR_BIT_testbit val bit i :
  0 <= bit -> 0 <= i ->
  Z.testbit (CLEAR_BIT val bit) i = negb (bool_decide (i = bit)) && Z.testbit val i.
Proof.
  intros. unfold CLEAR_BIT.
  rewrite Z.land_spec, Z.lnot_spec, Z.shiftl_1_l, testbit_pow2 by done.
  apply andb_comm.
Qed.

Lemma FLIP_BIT_testbit val bit i :
  0 <= bit -> 0 <= i ->
  Z.testbit (FLIP_BIT val bit) i = xorb (bool_decide (i = bit)) (Z.testbit val i).
Proof.
  intros. unfold FLIP_BIT. rewrite Z.lxor_spec, Z.shiftl_1_l, testbit_pow2 by done.
  apply xorb_comm.
Qed.

(** The same bit read back through a byte of memory. *)
Lemma u8_testbit v i : 0 <= i < 8 -> Z.testbit (u8 v) i = Z.testbit v i.
Proof. intros. Transparent u8. unfold u8. Opaque u8. change 256 with (2 ^ 8). apply Z.mod_pow2_bits_low; lia. Qed.

(** ** memset: the range is filled, everything else is left alone *)

Definition filled (p n ch : Z) (m m' : mem) : Prop :=
  forall a, rd8 m' a = if decide (in_range p n a) then u8 ch else rd8 m a.

Lemma memset_loop_ok ch n p m :
  (n <> 0%nat -> kok p (Z.of_nat n) = true) ->
  exists m', memset_loop p ch n m = Ret (tt, m') /\ filled p (Z.of_nat n) ch m m'.
Proof.
  revert p m; induction n as [|n IH]; intros p m Hk.
  - exists m. split; [done|]. intros a. case_decide as Ha; [unfold in_range in Ha; lia|done].
  - specialize (Hk ltac:(done)). apply kok_spec in Hk. simpl.
    rewrite bind_store by (apply kok_spec; lia). rewrite st_1.
    destruct (IH (u64 (p + 1)) (wr8 m p ch)) as (m' & -> & Hm').
    { intros Hn. assert (KERNEL_HIGHER_HALF_START > 0) by done.
      rewrite u64_small by lia. apply kok_spec. lia. }
    exists m'. split; [done|]. intros a. rewrite Hm'.
    assert (n <> 0%nat -> u64 (p + 1) = p + 1) as Hp.
    { intros. assert (KERNEL_HIGHER_HALF_START > 0) by done. apply u64_small. lia. }
    rewrite rd8_wr8. unfold in_range. destruct n; repeat case_decide; lia.
Qed.

Lemma memset_ok p ch n m :
  0 < n -> kok p n = true ->
  exists m', memset p ch n m = Ret (tt, m') /\ filled p n ch m m'.
Proof.
  intros Hn Hk. unfold memset.
  destruct (memset_loop_ok ch (Z.to_nat n) p m) as (m' & H); rewrite Z2Nat.id in * by lia; eauto.
Qed.

Lemma filled_agree p n ch m m' : filled p n ch m m' -> agree (fun a => ~ in_range p n a) m m'.
Proof. intros H a Ha. rewrite H. by case_decide. Qed.

(** ** memmove: a simultaneous copy, whatever the overlap *)

(** [m'] is [m] with the [n] bytes at [s] copied to [d] all at once. *)
Definition copied (d s n : Z) (m m' : mem) : Prop :=
  forall a, rd8 m' a = if decide (in_range d n a) then rd8 m (s + (a - d)) else rd8 m a.

(** Copying a word copies its bytes. *)
Lemma st_ld_copied w d s m : copied d s (Z.of_nat w) m (st w m d (ld w m s)).
Proof.
  intros a. case_decide as Ha; [|by apply st_agree].
  unfold in_range in Ha. rewrite rd8_st_in by lia.
  revert s d a Ha; induction w as [|w IH]; intros s d a Ha; [lia|].
  change (ld (S w) m s) with (rd8 m s + 256 * ld w m (s + 1)).
  pose proof (rd8_range m s). destruct (decide (a = d)) as [->|].
  - rewrite Z.sub_diag, Z.div_1_r, Z.add_0_r.
    Transparent u8. unfold u8. Opaque u8.
    rewrite (Z.mul_comm 256), Z.mod_add, Z.mod_small by lia. done.
  - replace (256 ^ (a - d)) with (256 * 256 ^ (a - (d + 1))).
    2:{ rewrite <- Z.pow_succ_r by lia. f_equal. lia. }
    rewrite <- Z.div_div by lia.
    rewrite (Z.mul_comm 256 (ld _ _ _)), Z.div_add, (Z.div_small (rd8 m s)), Z.add_0_l by lia.
    rewrite (IH (s + 1) (d + 1)) by lia. f_equal. lia.
Qed.

(** A forward run is a simultaneous copy when the destination is not inside
    the part of the source still to be read. *)
Lemma rep_movs_forward w c d s m :
  (0 < w)%nat ->
  (c <> 0%nat -> kok d (Z.of_nat w * Z.of_nat c) = true /\ kok s (Z.of_nat w * Z.of_nat c) = true) ->
  d <= s \/ s + Z.of_nat w * Z.of_nat c <= d ->
  exists m', rep_movs w (Z.of_nat w) d s c m = Ret (tt, m') /\
             copied d s (Z.of_nat w * Z.of_nat c) m m'.
Proof.
  intros Hw. revert d s m; induction c as [|c IH]; intros d s m Hk Hds.
  - exists m. split; [done|]. intros a. case_decide as Ha; [unfold in_range in Ha; lia|done].
  - destruct (Hk ltac:(done)) as [[Hd1 Hd2]%kok_spec [Hs1 Hs2]%kok_spec].
    assert (KERNEL_HIGHER_HALF_START > 0) by done. simpl rep_movs.
    set (wc := Z.of_nat w * Z.of_nat c) in *.
    replace (Z.of_nat w * Z.of_nat (S c)) with (wc + Z.of_nat w) in * by (unfold wc; lia).
    assert (0 <= wc) by (unfold wc; nia).
    assert (c <> 0%nat -> 0 < wc) by (unfold wc; nia).
    rewrite bind_load by (apply kok_spec; lia). rewrite bind_store by (apply kok_spec; lia).
    set (m1 := st _ _ _ _).
    destruct (decide (c = 0%nat)) as [->|Hc].
    { exists m1. split; [done|]. replace (wc + Z.of_nat w) with (Z.of_nat w) by (unfold wc; lia).
      apply st_ld_copied. }
    rewrite (u64_small (d + _)), (u64_small (s + _)) by lia.
    destruct (IH (d + Z.of_nat w) (s + Z.of_nat w) m1) as (m' & -> & Hm').
    { intros _. split; apply kok_spec; lia. }
    { lia. }
    exists m'. split; [done|]. intros a. rewrite Hm'. unfold m1.
    repeat rewrite st_ld_copied. unfold in_range.
    repeat case_decide; try (f_equal; lia); lia.
Qed.

(** A backward run, both pointers on the last word, is one when the
    destination is above the source. *)
Lemma rep_movs_backward w c d s m :
  (0 < w)%nat ->
  (c <> 0%nat -> kok d (Z.of_nat w * Z.of_nat c) = true /\ kok s (Z.of_nat w * Z.of_nat c) = true) ->
  s <= d ->
  exists m', rep_movs w (- Z.of_nat w)
               (u64 (d + Z.of_nat w * Z.of_nat c - Z.of_nat w))
               (u64 (s + Z.of_nat w * Z.of_nat c - Z.of_nat w)) c m = Ret (tt, m') /\
             copied d s (Z.of_nat w * Z.of_nat c) m m'.
Proof.
  intros Hw. revert m; induction c as [|c IH]; intros m Hk Hds.
  - exists m. split; [done|]. intros a. case_decide as Ha; [unfold in_range in Ha; lia|done].
  - destruct (Hk ltac:(done)) as [[Hd1 Hd2]%kok_spec [Hs1 Hs2]%kok_spec].
    assert (KERNEL_HIGHER_HALF_START > 0) by done. simpl rep_movs.
    set (wc := Z.of_nat w * Z.of_nat c).
    replace (Z.of_nat w * Z.of_nat (S c)) with (wc + Z.of_nat w) in * by (unfold wc; lia).
    assert (0 <= wc) by (unfold wc; nia).
    rewrite (u64_small (d + _ - _)), (u64_small (s + _ - _)) by lia.
    rewrite bind_load by (apply kok_spec; lia). rewrite bind_store by (apply kok_spec; lia).
    set (m1 := st _ _ _ _).
    destruct (IH m1) as (m' & Hrun & Hm').
    { intros _. split; apply kok_spec; lia. }
    { lia. }
    exists m'. split.
    + rewrite <- Hrun. f_equal; f_equal; unfold wc; lia.
    + intros a. rewrite Hm'. unfold m1.
      repeat rewrite st_ld_copied. unfold in_range.
      repeat case_decide; try (f_equal; lia); lia.
Qed.

Lemma lor3_land7 a b c :
  Z.lor (Z.lor (Z.land a 7) (Z.land b 7)) (Z.land c 7) = 0 -> c mod 8 = 0.
Proof. intros [_ H]%Z.lor_eq_0_iff. by apply (land_ones_0 c 3). Qed.

Lemma memmove_ok dst src n m :
  0 <= n -> kok dst n = true -> kok src n = true ->
  exists m', memmove dst src n m = Ret (tt, m') /\ copied dst src n m m'.
Proof.
  intros Hn Hd Hs. pose proof Hd as [Hd1 Hd2]%kok_spec. pose proof Hs as [Hs1 Hs2]%kok_spec.
  assert (KERNEL_HIGHER_HALF_START > 0) by done. unfold memmove.
  assert (Z.of_nat 8 * Z.of_nat (Z.to_nat (n / 8)) = n \/ n mod 8 <> 0) as H8.
  { pose proof (Z.div_mod n 8). pose proof (Z.div_pos n 8). lia. }
  assert (Z.of_nat 1 * Z.of_nat (Z.to_nat n) = n) as H1 by lia.
  destruct (_ && _) eqn:Hover.
  - apply andb_true_iff in Hover as [Hlt Hgt]. apply Z.ltb_lt in Hlt.
    rewrite (u64_small (src + n)) in Hgt by lia. apply Z.gtb_lt in Hgt.
    autorewrite with kern.
    destruct (_ =? 0) eqn:Hal.
    + apply Z.eqb_eq, lor3_land7 in Hal. destruct H8 as [H8|]; [|done].
      destruct (rep_movs_backward 8 (Z.to_nat (n / 8)) dst src m) as (m' & Hm');
        rewrite ?H8 in *; eauto; lia.
    + destruct (rep_movs_backward 1 (Z.to_nat n) dst src m) as (m' & Hm');
        rewrite ?H1 in *; eauto; lia.
  - assert (dst <= src \/ src + n <= dst) as Hds.
    { apply andb_false_iff in Hover as [Hge|Hle]; [apply Z.ltb_ge in Hge; lia|].
      rewrite Z.gtb_ltb in Hle. apply Z.ltb_ge in Hle.
      destruct (decide (src < dst)); [rewrite u64_small in Hle by lia|]; lia. }
    destruct (_ =? 0) eqn:Hal.
    + apply Z.eqb_eq, lor3_land7 in Hal. destruct H8 as [H8|]; [|done].
      destruct (rep_movs_forward 8 (Z.to_nat (n / 8)) dst src m) as (m' & Hm');
        rewrite ?H8 in *; eauto; lia.
    + destruct (rep_movs_forward 1 (Z.to_nat n) dst src m) as (m' & Hm');
        rewrite ?H1 in *; eauto; lia.
Qed.

(** memcpy copies byte by byte from the first on. *)
Lemma memcpy_loop_movs c d s m : memcpy_loop d s c m = rep_movs 1 1 d s c m.
Proof.
  revert d s m; induction c as [|c IH]; intros d s m; [done|]. cbn [memcpy_loop rep_movs]. unfold kbind.
  change (load8 s m) with (load 1 s m). destruct (load 1 s m) as [[v m1]|]; [|done].
  change (store8 d v m1) with (store 1 d v m1). destruct (store 1 d v m1) as [[u m2]|]; [|done]. apply IH.
Qed.

Lemma memcpy_ok dst src n m :
  0 <= n -> kok dst n = true -> kok src n = true -> dst <= src \/ src + n <= dst ->
  exists m', memcpy dst src n m = Ret (tt, m') /\ copied dst src n m m'.
Proof.
  intros Hn Hd Hs Hov. unfold memcpy. rewrite memcpy_loop_movs. assert (H1 : Z.of_nat 1 * Z.of_nat (Z.to_nat n) = n) by lia.
  destruct (rep_movs_forward 1 (Z.to_nat n) dst src m) as (m' & Hm'); rewrite ?H1 in *; eauto; lia.
Qed.
