(* ===== verification/DList.v ===== *)
(** * utils/list.c: the intrusive circular doubly-linked list

    A [list_node_t] is two words of memory, [next] at offset 0 and [prev] at
    offset 8, embedded in the object it links: a free block (frame_alloc.c) or
    a memory area (vmem.c). The operations are translated on kernel memory;
    [dll m h xs] is the abstraction: the ring headed by [h] links exactly the
    nodes [xs], in order. *)

From S2P Require Import Prelude Mem Common.

Definition NULL : Z := 0.

(** [node->prev] is at offset 8 ([node->next] is at the node itself). *)
Definition prev_of (node : Z) : Z := node + 8.

Definition list_empty (node : Z) : K mem bool :=
  (kassert (negb (node =? NULL)) "node != NULL" ;;
   let! next := load64 node in
   kret (next =? node))%K.

Definition list_init (node : Z) : K mem unit :=
  (kassert (negb (node =? NULL)) "node != NULL" ;;
   store64 node node ;;
   store64 (prev_of node) node)%K.

Definition list_insert_after (node new : Z) : K mem unit :=
  (kassert (negb (node =? NULL)) "node != NULL" ;;
   kassert (negb (new =? NULL)) "new != NULL" ;;
   let! old_list_next := load64 node in
   store64 node new ;;
   store64 (prev_of new) node ;;
   store64 new old_list_next ;;
   store64 (prev_of old_list_next) new)%K.

Definition list_extract (node : Z) : K mem unit :=
  (kassert (negb (node =? NULL)) "node != NULL" ;;
   let! empty := list_empty node in
   kassert (negb empty) "!list_empty(node)" ;;
   let! prev_elem := load64 (prev_of node) in
   let! next_elem := load64 node in
   store64 prev_elem next_elem ;;
   store64 (prev_of next_elem) prev_elem)%K.

(** ** The abstraction *)

Definition link (m : mem) (a b : Z) : Prop :=
  ld64 m a = b /\ ld64 m (prev_of b) = a.

(** The nodes [l] are linked in order between [a] and [b]. *)
Fixpoint seg (m : mem) (a : Z) (l : list Z) (b : Z) : Prop :=
  match l with
  | [] => link m a b
  | x :: l => link m a x /\ seg m x l b
  end.

Definition node_ok (a : Z) : Prop := kok a 16 = true.

Record dll (m : mem) (h : Z) (xs : list Z) : Prop := {
  dll_seg : seg m h xs h;
  dll_nodup : NoDup (h :: xs);
  dll_ok : forall a, a ∈ h :: xs -> node_ok a;
  dll_apart : forall a b, a ∈ h :: xs -> b ∈ h :: xs -> a <> b -> apart a 16 b 16;
}.

Lemma seg_app m a l1 x l2 b :
  seg m a (l1 ++ x :: l2) b <-> seg m a l1 x /\ seg m x l2 b.
Proof. revert a; induction l1 as [|y l1 IH]; intros a; simpl; [done|]. rewrite IH. tauto. Qed.

(** The ring can be read from any of its nodes. *)
Lemma dll_rotate m h l1 x l2 : dll m h (l1 ++ x :: l2) -> dll m x (l2 ++ h :: l1).
Proof.
  intros [Hs Hn Hok Hap].
  assert (h :: l1 ++ x :: l2 ≡ₚ x :: l2 ++ h :: l1) as HP by solve_Permutation.
  split.
  - apply seg_app. apply seg_app in Hs. tauto.
  - by rewrite <- HP.
  - intros a. rewrite <- HP. apply Hok.
  - intros a b. rewrite <- HP. apply Hap.
Qed.

(** The pointers to the next node stay in the ring. *)
Lemma dll_next m h xs a : dll m h xs -> a ∈ h :: xs -> ld64 m a ∈ h :: xs.
Proof.
  intros Hd Ha. assert (H : exists l, dll m a l /\ a :: l ≡ₚ h :: xs).
  { apply elem_of_cons in Ha as [->|Ha]; [by exists xs|]. apply list_elem_of_split in Ha as (l1 & l2 & ->).
    exists (l2 ++ h :: l1). split; [by apply dll_rotate|solve_Permutation]. }
  destruct H as (l & [Hs _ _ _] & HP). rewrite <- HP. destruct l as [|y l]; cbn [seg] in Hs.
  - destruct Hs as [-> _]. apply list_elem_of_here.
  - destruct Hs as [[-> _] _]. apply list_elem_of_further, list_elem_of_here.
Qed.

(** The [n] nodes after [a]. *)
Fixpoint follow (m : mem) (n : nat) (a : Z) : list Z :=
  match n with O => [] | S n => let y := ld64 m a in y :: follow m n y end.

Lemma follow_in m h xs n : dll m h xs -> forall a y, a ∈ h :: xs -> y ∈ follow m n a -> y ∈ h :: xs.
Proof.
  intros Hd. induction n as [|n IH]; intros a y Ha; cbn [follow]; [by intros ?%not_elem_of_nil|].
  pose proof (dll_next _ _ _ _ Hd Ha). intros [->|Hy]%elem_of_cons; [done|by eapply IH].
Qed.

(** A segment only reads the [next] of all but its last node and the [prev] of
    all but its first one. *)
Lemma seg_agree P m m' a l b :
  agree P m m' ->
  (forall y x, y ∈ a :: l -> in_range y 8 x -> P x) ->
  (forall y x, y ∈ l ++ [b] -> in_range (prev_of y) 8 x -> P x) ->
  seg m a l b -> seg m' a l b.
Proof.
  intros Hag. revert a; induction l as [|y l IH]; simpl; intros a Hn Hp Hs.
  - destruct Hs as [H1 H2]. split; rewrite (ld_agree 8 P m m') by
      (first [done | intros x Hx; by eapply Hn, Hx; set_solver
             | intros x Hx; by eapply Hp, Hx; set_solver]); done.
  - destruct Hs as [[H1 H2] Hs]. repeat split.
    + rewrite (ld_agree 8 P m m'); [done|done|]. intros x Hx. eapply Hn, Hx; set_solver.
    + rewrite (ld_agree 8 P m m'); [done|done|]. intros x Hx. eapply Hp, Hx; set_solver.
    + apply IH; [|..|done]; intros z x Hz; [eapply Hn | eapply Hp]; set_solver.
Qed.

(** Memory outside the 16 bytes of each node does not matter. *)
Lemma dll_agree P m m' h xs :
  agree P m m' -> (forall y x, y ∈ h :: xs -> in_range y 16 x -> P x) ->
  dll m h xs -> dll m' h xs.
Proof.
  intros Hag HP [Hs Hn Hok Hap]. split; try done.
  eapply seg_agree; [done|..|done]; intros y x Hy Hx; eapply (HP y); try set_solver;
    unfold in_range, prev_of in *; lia.
Qed.

(** Writing a link field of a node keeps the segments that do not use it. *)
Lemma seg_st_next m c v a l b :
  c ∉ a :: l -> (forall y, y ∈ a :: l ++ [b] -> y <> c -> apart y 16 c 16) ->
  seg m a l b -> seg (st64 m c v) a l b.
Proof.
  intros Hc Hap. eapply seg_agree; [apply st_agree|..]; unfold apart, in_range, prev_of in *.
  - intros y x Hy Hx. assert (y <> c) as Hne by set_solver.
    destruct (Hap y); [set_solver|done|..]; lia.
  - intros y x Hy Hx. destruct (decide (y = c)); [subst; lia|].
    destruct (Hap y); [set_solver|done|..]; lia.
Qed.

Lemma seg_st_prev m c v a l b :
  c ∉ l ++ [b] -> (forall y, y ∈ a :: l ++ [b] -> y <> c -> apart y 16 c 16) ->
  seg m a l b -> seg (st64 m (prev_of c) v) a l b.
Proof.
  intros Hc Hap. eapply seg_agree; [apply st_agree|..]; unfold apart, in_range, prev_of in *.
  - intros y x Hy Hx. destruct (decide (y = c)); [subst; lia|].
    destruct (Hap y); [set_solver|done|..]; lia.
  - intros y x Hy Hx. assert (y <> c) as Hne by set_solver.
    destruct (Hap y); [set_solver|done|..]; lia.
Qed.

Lemma node_ok_bounds a : node_ok a -> KERNEL_HIGHER_HALF_START <= a /\ a + 16 <= two64.
Proof. by intros ?%kok_spec. Qed.

Lemma node_ok_nonnull a : node_ok a -> negb (a =? NULL) = true.
Proof.
  intros [H _]%node_ok_bounds. destruct (Z.eqb_spec a NULL); [|done].
  unfold NULL, KERNEL_HIGHER_HALF_START in *. lia.
Qed.

Lemma node_ok_next a : node_ok a -> kok a 8 = true.
Proof. intros [??]%node_ok_bounds. apply kok_spec. lia. Qed.
Lemma node_ok_prev a : node_ok a -> kok (prev_of a) 8 = true.
Proof. intros [??]%node_ok_bounds. apply kok_spec. unfold prev_of. lia. Qed.
Lemma node_ok_u64 a : node_ok a -> u64 a = a.
Proof.
  intros [??]%node_ok_bounds. apply u64_small.
  unfold KERNEL_HIGHER_HALF_START in *. lia.
Qed.
#[export] Hint Resolve node_ok_next node_ok_prev node_ok_nonnull : kern.

Lemma dll_head_ok m h xs : dll m h xs -> node_ok h.
Proof. intros H. eapply dll_ok; [done|set_solver]. Qed.

(** The first node of the ring after the head. *)
Definition node_first (h : Z) (xs : list Z) : Z := match xs with [] => h | x :: _ => x end.

Lemma dll_first m h xs : dll m h xs -> ld64 m h = node_first h xs.
Proof. intros [Hs _ _ _]. destruct xs; apply Hs. Qed.

(** ** What the operations do *)

Lemma list_empty_ok m h xs :
  dll m h xs -> list_empty h m = Ret (bool_decide (xs = []), m).
Proof.
  intros H. pose proof (dll_head_ok _ _ _ H). unfold list_empty.
  rewrite kassert_true, bind_load by auto with kern. rewrite (dll_first _ _ _ H).
  unfold kret. do 2 f_equal. destruct xs as [|x xs]; simpl.
  - by rewrite Z.eqb_refl.
  - destruct (Z.eqb_spec x h) as [->|]; [|done].
    pose proof (dll_nodup _ _ _ H) as Hn. apply NoDup_cons in Hn. set_solver.
Qed.

Definition list_init_mem (m : mem) (h : Z) : mem := st64 (st64 m h h) (prev_of h) h.

Lemma list_init_run m h : node_ok h -> list_init h m = Ret (tt, list_init_mem m h).
Proof.
  intros. unfold list_init. rewrite kassert_true, bind_store, store_ok by auto with kern. done.
Qed.

Lemma list_init_dll m h : node_ok h -> dll (list_init_mem m h) h [].
Proof.
  intros Hok. unfold list_init_mem. split.
  - split; unfold prev_of.
    + rewrite ld64_st64_ne, ld64_st64_same by (unfold apart; lia). by apply node_ok_u64.
    + rewrite ld64_st64_same. by apply node_ok_u64.
  - apply NoDup_singleton.
  - intros a. by rewrite list_elem_of_singleton; intros ->.
  - intros a b. rewrite !list_elem_of_singleton. naive_solver.
Qed.

Definition insert_mem (m : mem) (h new old : Z) : mem :=
  st64 (st64 (st64 (st64 m h new) (prev_of new) h) new old) (prev_of old) new.

Lemma list_insert_after_run m h xs new :
  dll m h xs -> node_ok new ->
  list_insert_after h new m = Ret (tt, insert_mem m h new (node_first h xs)).
Proof.
  intros H Hnew. pose proof (dll_head_ok _ _ _ H). unfold list_insert_after.
  rewrite !kassert_true, bind_load by auto with kern. rewrite (dll_first _ _ _ H).
  rewrite !bind_store, store_ok; auto with kern.
  apply node_ok_prev, (dll_ok _ _ _ H). destruct xs; set_solver.
Qed.

Lemma insert_mem_dll m h xs new :
  dll m h xs -> node_ok new -> (forall a, a ∈ h :: xs -> apart new 16 a 16) ->
  dll (insert_mem m h new (node_first h xs)) h (new :: xs).
Proof.
  intros Hd Hnew Hap. pose proof (dll_head_ok _ _ _ Hd) as Hh.
  destruct Hd as [Hs Hn Hok Hapart].
  assert (Hfresh : new ∉ h :: xs).
  { intros Hin. specialize (Hap new Hin). unfold apart in Hap. lia. }
  assert (Hap' : forall y, y ∈ h :: xs -> apart y 16 new 16).
  { intros y Hy. specialize (Hap y Hy). unfold apart in *. lia. }
  pose proof (Hap h ltac:(set_solver)) as Haph.
  split.
  - unfold insert_mem. simpl. destruct xs as [|x t]; simpl in *.
    + unfold link, prev_of, apart in *. repeat split;
        ld_simp;
        auto using node_ok_u64.
    + destruct Hs as [_ Hs].
      assert (h <> x /\ x ∉ t ++ [h] /\ h ∉ x :: t) as (Hhx & Hxt & Hht).
      { rewrite !NoDup_cons in Hn. set_solver. }
      pose proof (Hap x ltac:(set_solver)) as Hapx.
      pose proof (Hapart h x ltac:(set_solver) ltac:(set_solver) Hhx) as Haphx.
      repeat split.
      1-4: unfold link, prev_of, apart in *;
        ld_simp;
        apply node_ok_u64; auto; apply Hok; set_solver.
      apply seg_st_prev; [done| intros; apply Hapart; set_solver |].
      apply seg_st_next; [set_solver| intros; apply Hap'; set_solver |].
      apply seg_st_prev; [set_solver| intros; apply Hap'; set_solver |].
      apply seg_st_next; [done| intros; apply Hapart; set_solver | done].
  - rewrite !NoDup_cons in *. set_solver.
  - intros a Ha. assert (a = new \/ a ∈ h :: xs) as [->|] by set_solver; auto.
  - intros a b Ha Hb Hne.
    assert (a = new \/ a ∈ h :: xs) as [->|Ha'] by set_solver;
      assert (b = new \/ b ∈ h :: xs) as [->|Hb'] by set_solver; auto; done.
Qed.

(** ** Extraction *)

Definition node_last (h : Z) (xs : list Z) : Z := default h (last xs).

Definition extract_mem (m : mem) (p n : Z) : mem := st64 (st64 m p n) (prev_of n) p.

(** Extraction seen from the ring's own head [h], whose next node is [x]. *)
Lemma extract_mem_first m h x xs :
  dll m h (x :: xs) -> dll (extract_mem m h (node_first h xs)) h xs.
Proof.
  intros Hd. pose proof (dll_head_ok _ _ _ Hd) as Hh. destruct Hd as [Hs Hn Hok Hap].
  assert (Hsub : forall a, a ∈ h :: xs -> a ∈ h :: x :: xs) by set_solver.
  destruct Hs as [_ Hs]. split.
  - unfold extract_mem. destruct xs as [|y t]; simpl in *.
    + unfold link, prev_of, apart in *. split;
        ld_simp;
        auto using node_ok_u64.
    + destruct Hs as [_ Hs].
      assert (h <> y /\ y ∉ t ++ [h] /\ h ∉ y :: t) as (Hhx & Hxt & Hht).
      { rewrite !NoDup_cons in Hn. set_solver. }
      pose proof (Hap h y ltac:(set_solver) ltac:(set_solver) Hhx) as Haphx.
      repeat split.
      1-2: unfold link, prev_of, apart in *;
        ld_simp;
        apply node_ok_u64; auto; apply Hok; set_solver.
      apply seg_st_prev; [done| intros; apply Hap; set_solver |].
      apply seg_st_next; [done| intros; apply Hap; set_solver | done].
  - rewrite !NoDup_cons in *. set_solver.
  - auto.
  - auto.
Qed.

Lemma seg_last m a l b : seg m a l b -> ld64 m (prev_of b) = node_last a l.
Proof.
  revert a; induction l as [|x l IH]; simpl; intros a Hs; [apply Hs|].
  destruct Hs as [_ Hs]. rewrite (IH _ Hs). unfold node_last. rewrite last_cons. by destruct (last l).
Qed.

Lemma seg_first m a l b : seg m a l b -> ld64 m a = node_first b l.
Proof. destruct l; simpl; intros Hs; apply Hs. Qed.

Lemma list_extract_run m h l1 x l2 :
  dll m h (l1 ++ x :: l2) ->
  list_extract x m = Ret (tt, extract_mem m (node_last h l1) (node_first h l2)).
Proof.
  intros H. pose proof (dll_rotate _ _ _ _ _ H) as Hr.
  pose proof (dll_head_ok _ _ _ Hr) as Hx. unfold list_extract.
  rewrite kassert_true by auto with kern. kstep (list_empty_ok _ _ _ Hr).
  rewrite kassert_true by (by destruct l2).
  destruct H as [Hs Hn Hok Hap]. apply seg_app in Hs as [Hs1 Hs2].
  rewrite !bind_load by auto with kern.
  rewrite (seg_last _ _ _ _ Hs1), (seg_first _ _ _ _ Hs2).
  assert (node_last h l1 ∈ h :: l1 ++ x :: l2).
  { unfold node_last. destruct (last l1) as [z|] eqn:E; simpl; [|set_solver].
    apply last_Some in E as [l' ->]. set_solver. }
  assert (node_first h l2 ∈ h :: l1 ++ x :: l2) by (destruct l2; set_solver).
  rewrite bind_store, store_ok; auto with kern.
Qed.

(** Removing any node of the ring leaves the others in order. *)
Lemma extract_mem_dll m h l1 x l2 :
  dll m h (l1 ++ x :: l2) ->
  dll (extract_mem m (node_last h l1) (node_first h l2)) h (l1 ++ l2).
Proof.
  intros H. destruct l1 as [|y l1 _] using rev_ind; [by eapply extract_mem_first|].
  replace (node_last h (l1 ++ [y])) with y by (unfold node_last; by rewrite last_snoc).
  rewrite <- app_assoc in *. simpl in *.
  assert (dll m y (x :: l2 ++ h :: l1)) as Hr.
  { apply dll_rotate in H. by simpl in H. }
  apply extract_mem_first in Hr.
  replace (node_first y (l2 ++ h :: l1)) with (node_first h l2) in Hr by (by destruct l2).
  by apply dll_rotate in Hr.
Qed.

(** The memory the two updates may change. *)
Lemma insert_mem_agree m h new old (P : Z -> Prop) :
  (forall x, P x -> ~ in_range h 16 x /\ ~ in_range new 16 x /\ ~ in_range old 16 x) ->
  agree P m (insert_mem m h new old).
Proof.
  intros HP x Hx. specialize (HP x Hx). unfold insert_mem, in_range, prev_of in *.
  rewrite !rd8_st_out by lia. done.
Qed.

Lemma extract_mem_agree m p n (P : Z -> Prop) :
  (forall x, P x -> ~ in_range p 16 x /\ ~ in_range n 16 x) ->
  agree P m (extract_mem m p n).
Proof.
  intros HP x Hx. specialize (HP x Hx). unfold extract_mem, in_range, prev_of in *.
  rewrite !rd8_st_out by lia. done.
Qed.

Lemma list_init_mem_agree m h (P : Z -> Prop) :
  (forall x, P x -> ~ in_range h 16 x) -> agree P m (list_init_mem m h).
Proof.
  intros HP x Hx. specialize (HP x Hx). unfold list_init_mem, in_range, prev_of in *.
  rewrite !rd8_st_out by lia. done.
Qed.

Lemma node_first_elem h xs : node_first h xs ∈ h :: xs.
Proof. destruct xs; set_solver. Qed.
Lemma node_last_elem h l1 : node_last h l1 ∈ h :: l1.
Proof.
  unfold node_last. destruct (last l1) eqn:E; simpl; [|set_solver].
  apply last_Some in E as [l' ->]. set_solver.
Qed.
