(* ===== verification/Buddy.v ===== *)
(** * The abstract buddy allocator

    The specification mm/frame_alloc.c refines: per order a list of free
    blocks, given by their page number inside the zone, and one bit per pair of
    buddies. [b_alloc] and [b_free] are the algorithms of [zone_alloc] and
    [zone_dealloc] on that state; [binv] is the invariant they keep, and [cov]
    the set of free pages, which is all a client cares about.

    The deep facts are here: a state that satisfies the invariant is the unique
    fully coalesced form of its set of free pages, so an allocation fails only
    when no free aligned run exists, and a free undoes an allocation. *)

From S2P Require Import Prelude.

Definition MAX_ORDER : nat := 10.

(** [2^k] pages. *)
Definition pages (k : nat) : Z := 2 ^ Z.of_nat k.

(** [clean] says that the bitmaps were clear when the zone was made: [zone_add]
    does not clear them. No operation reads it. *)
Record buddy := Buddy { fl : nat -> list Z; bit : nat -> Z -> bool; clean : Prop }.

(** The other half of the pair a block of order [k] belongs to, and the index
    of that pair among those of its order. *)
Definition buddy_of (k : nat) (x : Z) : Z := Z.lxor x (pages k).
Definition pair_index (k : nat) (x : Z) : Z := x / pages k / 2.

Definition set_bit (k : nat) (p : Z) (v : bool) (f : nat -> Z -> bool) : nat -> Z -> bool :=
  fupd f k (fun q => if q =? p then v else f k q).

(** Orders below [MAX_ORDER] have a bitmap. *)
Definition upd_bit (k : nat) (p : Z) (v : bool) (f : nat -> Z -> bool) : nat -> Z -> bool :=
  if (k <? MAX_ORDER)%nat then set_bit k p v f else f.

Definition take (b : buddy) (k : nat) (x : Z) : buddy :=
  Buddy (fupd (fl b) k (filter (fun y => y <> x) (fl b k)))
        (upd_bit k (pair_index k x) false (bit b)) (clean b).

Definition put (b : buddy) (k : nat) (x : Z) : buddy :=
  Buddy (fupd (fl b) k (x :: fl b k)) (upd_bit k (pair_index k x) true (bit b)) (clean b).

(** Give back the upper halves of a block of order [order + d] at [x]. *)
Fixpoint split_down (order d : nat) (x : Z) (b : buddy) : buddy :=
  match d with
  | O => b
  | S d => split_down order d x (put b (order + d) (buddy_of (order + d) x))
  end.

(** The smallest order from [i] on, within [n] of them, with a free block. *)
Fixpoint search (b : buddy) (i n : nat) : option (nat * Z) :=
  match n with
  | O => None
  | S n => match fl b i with
           | [] => search b (S i) n
           | x :: _ => Some (i, x)
           end
  end.

Definition b_alloc (b : buddy) (order : nat) : option (Z * buddy) :=
  match search b order (S MAX_ORDER - order) with
  | None => None
  | Some (i, x) => Some (x, split_down order (i - order) x (take b i x))
  end.

(** Merge with the buddy as long as the pair's bit says it is free. *)
Fixpoint coalesce (b : buddy) (x : Z) (k n : nat) : buddy :=
  match n with
  | O => put b k x
  | S n =>
      if bit b k (pair_index k x)
      then coalesce (take b k (buddy_of k x)) (Z.min x (buddy_of k x)) (S k) n
      else put b k x
  end.

Definition b_free (b : buddy) (x : Z) (order : nat) : buddy :=
  coalesce b x order (MAX_ORDER - order).

(** ** Arithmetic of buddies *)

Lemma pages_pos k : 0 < pages k.
Proof. apply pow2_pos. lia. Qed.
Lemma pages_S k : pages (S k) = 2 * pages k.
Proof. unfold pages. rewrite Nat2Z.inj_succ, Z.pow_succ_r by lia. done. Qed.
Lemma pages_divide j k : (j <= k)%nat -> (pages j | pages k).
Proof. intros. apply pow2_divide. lia. Qed.
Lemma pages_le j k : (j <= k)%nat -> pages j <= pages k.
Proof. intros. apply Z.pow_le_mono_r; lia. Qed.
#[export] Hint Resolve pages_pos pages_divide : kern.

(** A block and its buddy are the two halves of the pair. *)
Lemma buddy_cases k x :
  (pages k | x) ->
  let p := pair_index k x in
  (x = p * (2 * pages k) /\ buddy_of k x = x + pages k) \/
  (x = p * (2 * pages k) + pages k /\ buddy_of k x = x - pages k).
Proof.
  intros [q ->]. pose proof (pages_pos k). unfold pair_index, buddy_of.
  rewrite Z.div_mul by lia.
  assert (Ht : Z.testbit (q * pages k) (Z.of_nat k) = Z.odd q).
  { unfold pages. rewrite Z.mul_pow2_bits by lia. rewrite Z.sub_diag. apply Z.bit0_odd. }
  assert (Hq : q = 2 * (q / 2) + Z.b2z (Z.odd q)) by (rewrite <- Z.div2_div; apply Z.div2_odd).
  unfold pages in *. destruct (Z.odd q) eqn:Hodd; [right|left]; simpl Z.b2z in Hq.
  - rewrite lxor_pow2_odd by (try done; lia). split; [nia|done].
  - rewrite lxor_pow2_even by (try done; lia). split; [nia|done].
Qed.

Section Buddies.
Context (k : nat) (x : Z) (Hx : (pages k | x)).

Lemma buddy_involutive : buddy_of k (buddy_of k x) = x.
Proof. unfold buddy_of. by rewrite Z.lxor_assoc, Z.lxor_nilpotent, Z.lxor_0_r. Qed.

Lemma buddy_ne : buddy_of k x <> x.
Proof. pose proof (pages_pos k). destruct (buddy_cases k x Hx); simpl in *; lia. Qed.

Lemma buddy_divide : (pages k | buddy_of k x).
Proof.
  destruct (buddy_cases k x Hx) as [[_ ->]|[_ ->]];
    [apply Z.divide_add_r | apply Z.divide_sub_r]; done.
Qed.

Lemma pair_index_eq y :
  (pages k | y) -> pair_index k y = pair_index k x <-> y = x \/ y = buddy_of k x.
Proof.
  intros Hy. pose proof (pages_pos k).
  pose proof (buddy_cases k x Hx) as Hcx. pose proof (buddy_cases k y Hy) as Hcy.
  simpl in *. split.
  - intros E. rewrite E in Hcy. lia.
  - intros E. assert (-1 < pair_index k y - pair_index k x < 1); [|lia]. nia.
Qed.

Lemma buddy_min : (pages (S k) | Z.min x (buddy_of k x)).
Proof.
  rewrite pages_S. exists (pair_index k x). pose proof (pages_pos k).
  destruct (buddy_cases k x Hx); simpl in *; lia.
Qed.

(** The merged block is the two halves together. *)
Lemma buddy_merge p :
  in_range (Z.min x (buddy_of k x)) (pages (S k)) p <->
  in_range x (pages k) p \/ in_range (buddy_of k x) (pages k) p.
Proof.
  rewrite pages_S. pose proof (pages_pos k). unfold in_range.
  destruct (buddy_cases k x Hx); simpl in *; lia.
Qed.
End Buddies.

Lemma buddy_upper k x : (pages (S k) | x) -> buddy_of k x = x + pages k.
Proof.
  intros H. pose proof (pages_pos k).
  assert (Hx : (pages k | x)) by (etrans; [apply pages_divide|done]; lia).
  destruct (buddy_cases k x Hx) as [[_ ?]|[Hp _]]; [done|].
  rewrite pages_S in H. destruct H as [q Hq]. simpl in *.
  assert (pages k * (1 - 2 * (q - pair_index k x)) = 0) as E by lia.
  apply Z.mul_eq_0 in E. lia.
Qed.

(** Two aligned blocks are nested or disjoint. *)
Lemma blocks_nested j k x y :
  (j <= k)%nat -> (pages j | x) -> (pages k | y) ->
  (y <= x /\ x + pages j <= y + pages k) \/ apart x (pages j) y (pages k).
Proof.
  intros Hjk Hx Hy. pose proof (pages_pos j). unfold apart.
  assert (Hy' : (pages j | y)) by (etrans; [by apply pages_divide|done]).
  assert (Hyk : (pages j | y + pages k)) by (apply Z.divide_add_r; auto with kern).
  destruct Hx as [a ->], Hy' as [c ->], Hyk as [d Hd]. rewrite Hd.
  assert (a < c \/ d <= a \/ c <= a < d) as [?|[?|?]] by lia; nia.
Qed.

(** ** The invariant *)

Definition free (b : buddy) (k : nat) (x : Z) : Prop := x ∈ fl b k.

(** The page [p] lies in a free block. *)
Definition cov (b : buddy) (p : Z) : Prop := exists k x, free b k x /\ in_range x (pages k) p.

(** [b] is a state of an allocator for the pages [0, N). *)
Record binv (N : Z) (b : buddy) : Prop := {
  bi_size : (pages MAX_ORDER | N);
  bi_range : forall k x, free b k x ->
    (k <= MAX_ORDER)%nat /\ 0 <= x /\ x + pages k <= N /\ (pages k | x);
  bi_nodup : forall k, NoDup (fl b k);
  bi_disj : forall k x j y, free b k x -> free b j y -> (k, x) <> (j, y) ->
    apart x (pages k) y (pages j);
  bi_bit : forall k x, (k < MAX_ORDER)%nat -> 0 <= x < N -> (pages k | x) ->
    bit b k (pair_index k x) =
      bool_decide (x ∈ fl b k) || bool_decide (buddy_of k x ∈ fl b k);
  bi_coal : forall k x, (k < MAX_ORDER)%nat -> free b k x -> ~ free b k (buddy_of k x);
}.

(** A block is busy when none of its pages is free. *)
Definition busy (b : buddy) (k : nat) (x : Z) : Prop :=
  forall p, in_range x (pages k) p -> ~ cov b p.

Lemma busy_apart N b k x j y :
  binv N b -> busy b k x -> free b j y -> (pages k | x) -> apart x (pages k) y (pages j).
Proof.
  intros Hb Hbusy Hy Hx. destruct (bi_range _ _ Hb _ _ Hy) as (_ & _ & _ & Hyd).
  pose proof (pages_pos k). pose proof (pages_pos j).
  destruct (decide (apart x (pages k) y (pages j))) as [|Hn]; [done|]. exfalso.
  unfold apart in Hn. apply (Hbusy (Z.max x y)).
  - unfold in_range. lia.
  - exists j, y. split; [done|]. unfold in_range. lia.
Qed.

Lemma busy_not_free b k x : busy b k x -> ~ free b k x.
Proof.
  intros Hbusy Hf. apply (Hbusy x).
  - unfold in_range. pose proof (pages_pos k). lia.
  - exists k, x. split; [done|]. unfold in_range. pose proof (pages_pos k). lia.
Qed.

Lemma buddy_in_zone N k x :
  (pages MAX_ORDER | N) -> (k < MAX_ORDER)%nat -> (pages k | x) -> 0 <= x < N ->
  0 <= buddy_of k x /\ buddy_of k x + pages k <= N.
Proof.
  intros HN Hk Hx Hr. pose proof (pages_pos k).
  assert (HN' : (pages (S k) | N)) by (etrans; [by apply pages_divide|done]).
  rewrite pages_S in HN'. destruct HN' as [n Hn].
  pose proof (buddy_cases k x Hx) as Hc. simpl in Hc.
  set (q := pair_index k x) in *.
  assert (0 <= q < n) as [Hq0 Hqn].
  { split; [apply Z.nlt_ge | apply Z.nle_gt]; intros ?; nia. }
  assert (q * (2 * pages k) + 2 * pages k <= N) by nia.
  assert (0 <= q * (2 * pages k)) by nia. lia.
Qed.

(** *** The free lists after the primitive updates *)

Lemma free_take b k x j y : free (take b k x) j y <-> free b j y /\ (j, y) <> (k, x).
Proof.
  unfold free, take. simpl. destruct (decide (j = k)) as [->|].
  - rewrite fupd_eq, list_elem_of_filter. naive_solver.
  - rewrite fupd_ne by done. naive_solver.
Qed.

Lemma free_put b k x j y : free (put b k x) j y <-> free b j y \/ (j, y) = (k, x).
Proof.
  unfold free, put. simpl. destruct (decide (j = k)) as [->|].
  - rewrite fupd_eq, elem_of_cons. naive_solver.
  - rewrite fupd_ne by done. naive_solver.
Qed.

Lemma bit_upd f k p v j q :
  upd_bit k p v f j q =
    if decide ((k < MAX_ORDER)%nat /\ j = k /\ q = p) then v else f j q.
Proof.
  unfold upd_bit, set_bit. destruct (Nat.ltb_spec k MAX_ORDER).
  - destruct (decide (j = k)) as [->|].
    + rewrite fupd_eq. destruct (Z.eqb_spec q p); case_decide; naive_solver.
    + rewrite fupd_ne by done. case_decide; naive_solver.
  - case_decide; [lia|done].
Qed.

Lemma cov_take N b k x p :
  binv N b -> free b k x ->
  cov (take b k x) p <-> cov b p /\ ~ in_range x (pages k) p.
Proof.
  intros Hb Hx. split.
  - intros (j & y & [Hy Hne]%free_take & Hp). split; [by exists j, y|].
    pose proof (bi_disj _ _ Hb _ _ _ _ Hy Hx Hne). unfold apart, in_range in *. lia.
  - intros [(j & y & Hy & Hp) Hn]. exists j, y. split; [|done].
    apply free_take. split; [done|]. intros [= -> ->]. done.
Qed.

Lemma cov_put b k x p : cov (put b k x) p <-> cov b p \/ in_range x (pages k) p.
Proof.
  split.
  - intros (j & y & [Hy|[= -> ->]]%free_put & Hp); [left; by exists j, y | by right].
  - intros [(j & y & Hy & Hp)|Hp]; [exists j, y | exists k, x]; rewrite free_put; eauto.
Qed.

Lemma take_busy N b k x : binv N b -> free b k x -> busy (take b k x) k x.
Proof. intros Hb Hx p Hp. rewrite (cov_take N) by done. tauto. Qed.

(** *** Taking a free block out, and putting a busy one in *)

Lemma take_inv N b k x : binv N b -> free b k x -> binv N (take b k x).
Proof.
  intros Hb Hx. destruct (bi_range _ _ Hb _ _ Hx) as (Hk & Hx0 & HxN & Hxd). split.
  - apply Hb.
  - intros j y [Hy _]%free_take. by apply Hb.
  - intros j. unfold take. simpl. destruct (decide (j = k)) as [->|].
    + rewrite fupd_eq. apply NoDup_filter, Hb.
    + rewrite fupd_ne by done. apply Hb.
  - intros j y i z [Hy _]%free_take [Hz _]%free_take. by apply Hb.
  - intros j y Hj Hy Hyd. unfold take at 1. simpl bit. rewrite bit_upd.
    assert (Hbit := bi_bit _ _ Hb j y Hj Hy Hyd).
    pose proof (free_take b k x j y) as E1. pose proof (free_take b k x j (buddy_of j y)) as E2.
    unfold free in E1, E2.
    destruct (decide (j = k)) as [->|Hjk].
    + pose proof (bi_coal _ _ Hb k x Hj Hx) as Hcoal. unfold free in Hcoal, Hx.
      pose proof (pair_index_eq k x Hxd y Hyd) as Hpair.
      destruct (decide (_ /\ _ /\ _)) as [(_ & _ & Hp)|Hn].
      * symmetry. rewrite (bool_decide_false (y ∈ _)), (bool_decide_false (buddy_of k y ∈ _)); [done|..].
        -- rewrite E2. intros [Hin Hne]. apply Hpair in Hp as [->| ->]; [done|].
           rewrite buddy_involutive in *. done.
        -- rewrite E1. intros [Hin Hne]. apply Hpair in Hp as [->| ->]; done.
      * rewrite Hbit. f_equal; apply bool_decide_ext.
        -- rewrite E1. split; [|tauto]. intros ?. split; [done|]. intros [= ->]. tauto.
        -- rewrite E2. split; [|tauto]. intros ?. split; [done|]. intros [= <-].
           rewrite buddy_involutive in *. tauto.
    + destruct (decide (_ /\ _ /\ _)); [naive_solver|]. rewrite Hbit.
      f_equal; apply bool_decide_ext; rewrite ?E1, ?E2; naive_solver.
  - intros j y Hj [Hy _]%free_take [Hy' _]%free_take. exact (bi_coal _ _ Hb _ _ Hj Hy Hy').
Qed.

Lemma put_inv N b k x :
  binv N b -> (k <= MAX_ORDER)%nat -> 0 <= x -> x + pages k <= N -> (pages k | x) ->
  busy b k x -> ((k < MAX_ORDER)%nat -> ~ free b k (buddy_of k x)) ->
  binv N (put b k x).
Proof.
  intros Hb Hk Hx0 HxN Hxd Hbusy Hcoal.
  assert (Hnf : ~ free b k x) by (by apply busy_not_free).
  split.
  - apply Hb.
  - intros j y [Hy|[= -> ->]]%free_put; [by apply Hb | done].
  - intros j. unfold put. simpl. destruct (decide (j = k)) as [->|].
    + rewrite fupd_eq. apply NoDup_cons. split; [done | apply Hb].
    + rewrite fupd_ne by done. apply Hb.
  - intros j y i z [Hy|[= -> ->]]%free_put [Hz|[= -> ->]]%free_put Hne; [by apply Hb|..|done].
    + pose proof (busy_apart _ _ _ _ _ _ Hb Hbusy Hy Hxd). unfold apart in *. lia.
    + by eapply busy_apart.
  - intros j y Hj Hy Hyd. unfold put at 1. simpl bit. rewrite bit_upd.
    assert (Hbit := bi_bit _ _ Hb j y Hj Hy Hyd).
    pose proof (free_put b k x j y) as E1. pose proof (free_put b k x j (buddy_of j y)) as E2.
    unfold free in E1, E2.
    destruct (decide (j = k)) as [->|Hjk].
    + pose proof (pair_index_eq k x Hxd y Hyd) as Hpair.
      destruct (decide (_ /\ _ /\ _)) as [(_ & _ & Hp)|Hn].
      * symmetry. apply orb_true_iff. rewrite !bool_decide_eq_true, E1, E2.
        apply Hpair in Hp as [->| ->]; [tauto|]. rewrite buddy_involutive. tauto.
      * rewrite Hbit. f_equal; apply bool_decide_ext.
        -- rewrite E1. split; [tauto|]. intros [?|[= ->]]; [done|]. tauto.
        -- rewrite E2. split; [tauto|]. intros [?|[= <-]]; [done|].
           rewrite buddy_involutive in *. tauto.
    + destruct (decide (_ /\ _ /\ _)); [naive_solver|]. rewrite Hbit.
      f_equal; apply bool_decide_ext; rewrite ?E1, ?E2; naive_solver.
  - intros j y Hj [Hy|[= -> ->]]%free_put [Hy'|Heq]%free_put.
    + exact (bi_coal _ _ Hb _ _ Hj Hy Hy').
    + injection Heq as -> Hyx. apply (Hcoal Hj). rewrite <- Hyx, buddy_involutive. done.
    + by apply Hcoal.
    + injection Heq as Hyx. by apply (buddy_ne k x).
Qed.

(** ** Allocation *)

Lemma split_down_inv N order d x b :
  binv N b -> (order + d <= MAX_ORDER)%nat -> 0 <= x -> x + pages (order + d) <= N ->
  (pages (order + d) | x) -> busy b (order + d) x ->
  binv N (split_down order d x b) /\
  (forall p, cov (split_down order d x b) p <->
     cov b p \/ (in_range x (pages (order + d)) p /\ ~ in_range x (pages order) p)).
Proof.
  revert b; induction d as [|d IH]; intros b Hb Hd Hx0 HxN Hxd Hbusy; simpl split_down.
  - split; [done|]. intros p. rewrite Nat.add_0_r. tauto.
  - rewrite Nat.add_succ_r in *. set (j := (order + d)%nat) in *.
    assert (Hup : buddy_of j x = x + pages j) by (by apply buddy_upper).
    rewrite pages_S in HxN. pose proof (pages_pos j).
    assert (Hxj : (pages j | x)) by (etrans; [apply pages_divide|done]; lia).
    assert (Hhalf : forall p, in_range x (pages (S j)) p <->
              in_range x (pages j) p \/ in_range (buddy_of j x) (pages j) p).
    { intros p. rewrite Hup, pages_S. unfold in_range. lia. }
    assert (Hlow : busy b j x) by (intros p Hp; apply Hbusy, Hhalf; tauto).
    assert (Hput : binv N (put b j (buddy_of j x))).
    { apply put_inv; try done; [lia|lia|lia|by apply buddy_divide|..].
      - intros p Hp. apply Hbusy, Hhalf. tauto.
      - intros _. rewrite buddy_involutive. by apply busy_not_free. }
    destruct (IH _ Hput) as [IH1 IH2]; [lia..|done| |].
    { intros p Hp. rewrite cov_put. intros [Hc|Hc]; [by eapply Hlow|].
      rewrite Hup in Hc. unfold in_range in *. lia. }
    split; [done|]. intros p. rewrite IH2, cov_put, Hhalf, Hup.
    assert (pages order <= pages j) by (apply pages_le; lia).
    unfold in_range. split; [|tauto]. intros [[?|?]|?]; try tauto. right. lia.
Qed.

Lemma search_Some b i n k x :
  search b i n = Some (k, x) -> free b k x /\ (i <= k < i + n)%nat.
Proof.
  revert i; induction n as [|n IH]; intros i; simpl; [done|].
  destruct (fl b i) as [|y l] eqn:E.
  - intros [? ?]%IH. split; [done|lia].
  - intros [= -> ->]. unfold free. rewrite E. split; [set_solver|lia].
Qed.

Lemma search_None b i n :
  search b i n = None -> forall k, (i <= k < i + n)%nat -> fl b k = [].
Proof.
  revert i; induction n as [|n IH]; intros i; simpl; [lia|].
  destruct (fl b i) as [|y l] eqn:E; [|done]. intros Hs k Hk.
  destruct (decide (k = i)) as [->|]; [done|]. apply (IH (S i)); [done|lia].
Qed.

(** The block returned was free, is aligned, and is the only thing that stops
    being free. *)
Lemma b_alloc_Some N b order x b' :
  binv N b -> (order <= MAX_ORDER)%nat -> b_alloc b order = Some (x, b') ->
  binv N b' /\ 0 <= x /\ x + pages order <= N /\ (pages order | x) /\
  (forall p, in_range x (pages order) p -> cov b p) /\
  (forall p, cov b' p <-> cov b p /\ ~ in_range x (pages order) p).
Proof.
  intros Hb Ho. unfold b_alloc. destruct (search _ _ _) as [[i y]|] eqn:Es; [|done].
  intros [= -> <-]. apply search_Some in Es as [Hf Hi].
  destruct (bi_range _ _ Hb _ _ Hf) as (Hik & Hx0 & HxN & Hxd).
  assert (order + (i - order) = i)%nat as Ei by lia.
  assert (pages order <= pages i) by (apply pages_le; lia).
  destruct (split_down_inv N order (i - order) x (take b i x)) as [H1 H2];
    rewrite ?Ei in *; try done.
  { by apply take_inv. }
  { by eapply take_busy. }
  assert (Hcov : forall p, in_range x (pages i) p -> cov b p) by (by intros p Hp; exists i, x).
  assert (Hsub : forall p, in_range x (pages order) p -> in_range x (pages i) p)
    by (unfold in_range; lia).
  split; [done|]. split; [done|]. split; [lia|]. split.
  { etrans; [apply pages_divide|exact Hxd]. lia. }
  split; [auto|]. intros p. rewrite H2, (cov_take N) by done.
  destruct (decide (in_range x (pages i) p)); naive_solver.
Qed.

Lemma split_down_clean order d x b : clean (split_down order d x b) = clean b.
Proof. revert b; induction d as [|d IH]; intros b; [done|]. cbn [split_down]. by rewrite IH. Qed.

Lemma coalesce_clean b x k n : clean (coalesce b x k n) = clean b.
Proof. revert b x k; induction n as [|n IH]; intros b x k; cbn [coalesce]; [done|]. destruct (bit b k _); [by rewrite IH|done]. Qed.

Lemma b_alloc_clean b order x b' : b_alloc b order = Some (x, b') -> clean b' = clean b.
Proof.
  unfold b_alloc. destruct (search _ _ _) as [[i y]|]; [|done]. intros [= _ <-]. by rewrite split_down_clean.
Qed.

Lemma b_free_clean b x order : clean (b_free b x order) = clean b.
Proof. apply coalesce_clean. Qed.

(** ** Freeing *)

Lemma coalesce_inv N n b x k :
  binv N b -> (k + n = MAX_ORDER)%nat -> 0 <= x -> x + pages k <= N -> (pages k | x) ->
  busy b k x ->
  binv N (coalesce b x k n) /\
  (forall p, cov (coalesce b x k n) p <-> cov b p \/ in_range x (pages k) p).
Proof.
  revert b x k; induction n as [|n IH]; intros b x k Hb Hk Hx0 HxN Hxd Hbusy; simpl coalesce.
  - split; [|apply cov_put]. apply put_inv; try done; lia.
  - pose proof (pages_pos k). assert (Hnf : ~ free b k x) by (by apply busy_not_free).
    rewrite (bi_bit _ _ Hb), (bool_decide_false (x ∈ _)) by (done || lia). simpl orb.
    case_bool_decide as Hbud.
    + change (free b k (buddy_of k x)) in Hbud.
      assert (Hbd : (pages k | buddy_of k x)) by (by apply buddy_divide).
      destruct (bi_range _ _ Hb _ _ Hbud) as (_ & Hy0 & HyN & _).
      destruct (IH (take b k (buddy_of k x)) (Z.min x (buddy_of k x)) (S k)) as [IH1 IH2].
      * by apply take_inv.
      * lia.
      * lia.
      * rewrite pages_S. destruct (buddy_cases k x Hxd) as [[? E]|[? E]]; rewrite E in *; lia.
      * by apply buddy_min.
      * intros p Hp. rewrite (cov_take N) by done. intros [Hc Hn].
        apply buddy_merge in Hp as [Hp|Hp]; [by eapply Hbusy | done | done].
      * split; [done|]. intros p. rewrite IH2, (cov_take N), buddy_merge by done.
        destruct (decide (in_range (buddy_of k x) (pages k) p)); [|tauto].
        split; [|tauto]. intros _. left. by exists k, (buddy_of k x).
    + split; [|apply cov_put]. apply put_inv; try done; lia.
Qed.

Lemma b_free_inv N b x order :
  binv N b -> (order <= MAX_ORDER)%nat -> 0 <= x -> x + pages order <= N ->
  (pages order | x) -> busy b order x ->
  binv N (b_free b x order) /\
  (forall p, cov (b_free b x order) p <-> cov b p \/ in_range x (pages order) p).
Proof. intros. apply coalesce_inv; try done. lia. Qed.

(** ** Maximal coalescing *)

(** A fully free aligned block lies inside one free block. *)
Lemma covered_in_one N b k x :
  binv N b -> (k <= MAX_ORDER)%nat -> 0 <= x -> x + pages k <= N -> (pages k | x) ->
  (forall p, in_range x (pages k) p -> cov b p) ->
  exists j y, free b j y /\ (k <= j)%nat /\ y <= x /\ x + pages k <= y + pages j.
Proof.
  intros Hb. revert x; induction k as [|k IH]; intros x Hk Hx0 HxN Hxd Hcov.
  - change (pages 0) with 1 in *.
    destruct (Hcov x) as (j & y & Hy & Hr); [unfold in_range; lia|].
    exists j, y. unfold in_range in Hr. split; [done|lia].
  - pose proof (pages_pos k). pose proof (buddy_upper k x Hxd) as Hup.
    rewrite pages_S in *.
    assert (Hxk : (pages k | x)).
    { etrans; [|exact Hxd]. apply Z.divide_factor_r. }
    assert (Hmerge : forall z, z = x \/ z = buddy_of k x ->
      exists j y, free b j y /\ (k <= j)%nat /\ y <= z /\ z + pages k <= y + pages j).
    { intros z Hz. apply IH; try lia.
      - destruct Hz as [->| ->]; [done | by apply buddy_divide].
      - intros p Hp. apply Hcov. unfold in_range in *. lia. }
    destruct (Hmerge x) as (j & y & Hy & Hj & Hy1 & Hy2); [by left|].
    destruct (Hmerge (buddy_of k x)) as (i & z & Hz & Hi & Hz1 & Hz2); [by right|].
    destruct (bi_range _ _ Hb _ _ Hy) as (_ & _ & _ & Hyd).
    destruct (bi_range _ _ Hb _ _ Hz) as (_ & _ & _ & Hzd).
    pose proof (pages_pos j). pose proof (pages_pos i).
    destruct (decide (k < j)%nat) as [Hlt|].
    { exists j, y. split; [done|]. split; [lia|].
      destruct (blocks_nested (S k) j x y) as [?|Hap];
        rewrite ?pages_S in *; unfold apart in *; first [done | lia]. }
    destruct (decide (k < i)%nat) as [Hlt|].
    { exists i, z. split; [done|]. split; [lia|].
      destruct (blocks_nested (S k) i x z) as [?|Hap];
        rewrite ?pages_S in *; unfold apart in *; first [done | lia]. }
    exfalso. assert (j = k) as -> by lia. assert (i = k) as -> by lia.
    apply (bi_coal _ _ Hb k x); [lia|..].
    + replace x with y by lia. done.
    + replace (buddy_of k x) with z by lia. done.
Qed.

Lemma cov_dec N b p : binv N b -> Decision (cov b p).
Proof.
  intros Hb. destruct (decide (Exists (fun k => Exists (fun x => in_range x (pages k) p) (fl b k))
                                (seq 0 (S MAX_ORDER)))) as [He|He].
  - left. apply Exists_exists in He as (k & _ & (y & Hy & Hp)%Exists_exists). by exists k, y.
  - right. intros (k & y & Hy & Hp). apply He, Exists_exists. exists k. split.
    + apply elem_of_seq. destruct (bi_range _ _ Hb _ _ Hy). lia.
    + apply Exists_exists. by exists y.
Qed.

(** An allocation fails only if every aligned run of its size has a busy page. *)
Lemma b_alloc_None N b order x :
  binv N b -> (order <= MAX_ORDER)%nat -> b_alloc b order = None ->
  0 <= x -> x + pages order <= N -> (pages order | x) ->
  exists p, in_range x (pages order) p /\ ~ cov b p.
Proof.
  intros Hb Ho Hnone Hx0 HxN Hxd. unfold b_alloc in Hnone.
  destruct (search _ _ _) as [[i y]|] eqn:Es; [done|].
  assert (Hdec : forall p, Decision (cov b p)) by (intros p; by apply (cov_dec N)).
  destruct (decide (Forall (fun i => cov b (x + Z.of_nat i)) (seq 0 (Z.to_nat (pages order)))))
    as [Hall|Hn].
  - exfalso. destruct (covered_in_one N b order x) as (j & y & Hy & Hj & _); try done.
    { intros p Hp. unfold in_range in Hp. rewrite Forall_forall in Hall.
      replace p with (x + Z.of_nat (Z.to_nat (p - x))) by lia.
      apply Hall, elem_of_seq. lia. }
    destruct (bi_range _ _ Hb _ _ Hy) as (Hjm & _).
    pose proof (search_None _ _ _ Es j ltac:(lia)) as E. unfold free in Hy. rewrite E in Hy.
    set_solver.
  - apply not_Forall_Exists in Hn; [|apply _]. apply Exists_exists in Hn as (i & Hi & Hc).
    exists (x + Z.of_nat i). split; [|done]. apply elem_of_seq in Hi.
    pose proof (pages_pos order). unfold in_range. lia.
Qed.

(** The free blocks are determined by the set of free pages. *)
Lemma binv_canonical N b b' k x :
  binv N b -> binv N b' -> (forall p, cov b p <-> cov b' p) -> free b k x -> free b' k x.
Proof.
  intros Hb Hb' Hcov Hx. destruct (bi_range _ _ Hb _ _ Hx) as (Hk & Hx0 & HxN & Hxd).
  destruct (covered_in_one N b' k x) as (j & y & Hy & Hkj & Hy1 & Hy2); try done.
  { intros p Hp. apply Hcov. by exists k, x. }
  destruct (bi_range _ _ Hb' _ _ Hy) as (Hj & Hy0 & HyN & Hyd).
  destruct (covered_in_one N b j y) as (i & z & Hz & Hji & Hz1 & Hz2); try done.
  { intros p Hp. apply Hcov. by exists j, y. }
  pose proof (pages_pos k). pose proof (pages_pos j).
  destruct (decide ((k, x) = (i, z))) as [[= <- <-]|Hne].
  - assert (j = k) as -> by lia. replace x with y by lia. done.
  - pose proof (bi_disj _ _ Hb _ _ _ _ Hx Hz Hne) as Hap. unfold apart in Hap. lia.
Qed.

(** ** Pairs in use *)

Definition pair_in (N : Z) (k : nat) (p : Z) : Prop := (k < MAX_ORDER)%nat /\ 0 <= p < N / pages (S k).

(** The pages of a pair of blocks of order [k]. *)
Definition pair_pages (k : nat) (p q : Z) : Prop := in_range (p * pages (S k)) (pages (S k)) q.

(** A pair is in use when one of its pages is. *)
Definition live (N : Z) (b : buddy) (k : nat) (p : Z) : Prop := pair_in N k p /\ exists q, pair_pages k p q /\ ~ cov b q.

Lemma live_mono N b b' k p : (forall q, cov b' q -> cov b q) -> live N b k p -> live N b' k p.
Proof. intros H [Hp (q & Hq & Hc)]. split; [done|]. exists q. split; [done|]. intros Hc'. by apply Hc, H. Qed.

Lemma pair_index_div k x : pair_index k x = x / pages (S k).
Proof. pose proof (pages_pos k). unfold pair_index. by rewrite Z.div_div, pages_S, (Z.mul_comm 2) by lia. Qed.

Lemma pair_index_page k x q : pair_pages k (pair_index k x) q <-> pair_index k q = pair_index k x.
Proof.
  rewrite !pair_index_div. unfold pair_pages, in_range. pose proof (pages_pos (S k)).
  set (n := pages (S k)) in *. split.
  - intros Hq. symmetry. apply Z.div_unique with (q - x / n * n); [lia|]. lia.
  - intros <-. pose proof (Z.div_mod q n ltac:(lia)). pose proof (Z.mod_pos_bound q n ltac:(lia)). lia.
Qed.

Lemma pair_index_in N k x : (pages MAX_ORDER | N) -> (k < MAX_ORDER)%nat -> 0 <= x < N -> pair_in N k (pair_index k x).
Proof.
  intros HN Hk Hx. split; [done|]. rewrite pair_index_div. pose proof (pages_pos (S k)).
  assert ((pages (S k) | N)) as [n ->] by (etrans; [by apply pages_divide|done]).
  rewrite Z.div_mul by lia. split; [apply Z.div_pos; lia|]. apply Z.div_lt_upper_bound; lia.
Qed.

(** The pairs above a page only depend on the pair just below them. *)
Lemma pair_index_above k j x y : (k <= j)%nat -> pair_index k x = pair_index k y -> pair_index j x = pair_index j y.
Proof.
  intros Hkj. rewrite !pair_index_div. pose proof (pages_pos (S k)).
  assert (E : pages (S j) = pages (S k) * pages (j - k)).
  { unfold pages. rewrite <- Z.pow_add_r by lia. f_equal. lia. }
  pose proof (pages_pos (j - k)). intros Hxy. rewrite E, <- !Z.div_div by lia. by rewrite Hxy.
Qed.

Lemma busy_live N b k x j : binv N b -> (j < MAX_ORDER)%nat -> 0 <= x < N -> busy b k x -> live N b j (pair_index j x).
Proof.
  intros Hb Hj Hx Hbusy. split; [apply pair_index_in; [apply Hb|done|done]|]. exists x. split; [by apply pair_index_page|].
  apply Hbusy. unfold in_range. pose proof (pages_pos k). lia.
Qed.

(** Only pairs in use have their bit set: a pair wholly free is merged. *)
Lemma bit_live N b k p : binv N b -> pair_in N k p -> bit b k p = true -> live N b k p.
Proof.
  intros Hb [Hk Hp] Hbit. pose proof (pages_pos k). pose proof (pages_S k) as HS.
  assert (HN : (pages (S k) | N)) by (etrans; [by apply pages_divide|apply Hb]).
  set (x := p * pages (S k)). assert (Hxd : (pages (S k) | x)) by apply Z.divide_factor_r.
  assert (Hxk : (pages k | x)) by (etrans; [|exact Hxd]; apply pages_divide; lia).
  assert (Hpx : pair_index k x = p) by (rewrite pair_index_div; apply Z.div_mul; lia).
  assert (HxN : 0 <= x /\ x + pages (S k) <= N).
  { destruct HN as [n ->]. rewrite Z.div_mul in Hp by lia. unfold x. split; [lia|]. nia. }
  rewrite <- Hpx, (bi_bit _ _ Hb) in Hbit by (done || lia).
  assert (Hone : exists h, (h = x \/ h = buddy_of k x) /\ free b k h /\ ~ free b k (buddy_of k h)).
  { apply orb_true_iff in Hbit. rewrite !bool_decide_eq_true in Hbit.
    destruct Hbit as [Hf|Hf]; eexists; (split; [|split; [exact Hf|by apply (bi_coal _ _ Hb)]]); auto. }
  destruct Hone as (h & Hh & Hf & Hnf).
  assert (Hdec : forall q, Decision (cov b q)) by (intros q; by apply (cov_dec N)).
  destruct (decide (Forall (fun i => cov b (x + Z.of_nat i)) (seq 0 (Z.to_nat (pages (S k)))))) as [Hall|Hn].
  - exfalso. destruct (covered_in_one N b (S k) x) as (j & y & Hy & Hj & H1 & H2); try done; [lia|lia| |].
    { intros q Hq. unfold in_range in Hq. rewrite Forall_forall in Hall.
      replace q with (x + Z.of_nat (Z.to_nat (q - x))) by lia. apply Hall, elem_of_seq. lia. }
    assert (Hne : (k, h) <> (j, y)) by (intros [= ? _]; lia).
    pose proof (bi_disj _ _ Hb _ _ _ _ Hf Hy Hne) as Hap.
    rewrite (buddy_upper k x Hxd) in Hh. unfold apart in Hap. lia.
  - apply not_Forall_Exists in Hn; [|apply _]. apply Exists_exists in Hn as (i & Hi & Hc).
    split; [done|]. exists (x + Z.of_nat i). split; [|done]. apply elem_of_seq in Hi. unfold pair_pages, in_range. fold x. lia.
Qed.
