(* ===== verification/Paging.v ===== *)
(** * mm/paging.h: page-table entries and virtual addresses

    The flag bits, the address field of an entry, the split of a virtual
    address into its four table indices, and the direct physical mapping. *)

From S2P Require Import Prelude Mem Common.

Definition PTE_PRESENT : Z := Z.shiftl 1 0.
Definition PTE_WRITEABLE : Z := Z.shiftl 1 1.
Definition PTE_USER : Z := Z.shiftl 1 2.
Definition PTE_PAGE_SIZE : Z := Z.shiftl 1 7.
Definition PTE_ALLOC : Z := Z.shiftl 1 10.

Definition PTE_FLAGS_MASK : Z := Z.shiftl 1 12 - 1.
Definition PTE_ADDR_MASK : Z := Z.shiftl 1 48 - 1.
Definition PTE_ADDR (pte : Z) : Z := Z.land (Z.land pte PTE_ADDR_MASK) (Z.lnot PTE_FLAGS_MASK).

Definition PML4E_FROM_ADDR (addr : Z) : Z := Z.land (Z.shiftr addr 39) 0x1ff.
Definition PDPE_FROM_ADDR (addr : Z) : Z := Z.land (Z.shiftr addr 30) 0x1ff.
Definition PDE_FROM_ADDR (addr : Z) : Z := Z.land (Z.shiftr addr 21) 0x1ff.
Definition PTE_FROM_ADDR (addr : Z) : Z := Z.land (Z.shiftr addr 12) 0x1ff.

Definition PHYS_TO_VIRT (addr : Z) : Z := u64 (KERNEL_DIRECT_PHYS_MAPPING_START + addr).
Definition VIRT_TO_PHYS (addr : Z) : Z := u64 (addr - KERNEL_DIRECT_PHYS_MAPPING_START).

Definition MAKE_ADDR (m p d t o : Z) : Z :=
  Z.lor
    (Z.lor (Z.lor (Z.lor (Z.lor (u64 (Z.shiftl m 39)) (u64 (Z.shiftl p 30)))
                         (u64 (Z.shiftl d 21)))
                  (u64 (Z.shiftl t 12))) o)
    (if Z.land (Z.shiftr m 8) 1 =? 0 then 0 else u64 (Z.shiftl (Z.shiftl 1 16 - 1) 48)).

(** The addresses an x86-64 processor accepts: bits 48 to 63 repeat bit 47. *)
Definition canonical (va : Z) : Prop :=
  0 <= va < two64 /\ forall i, 48 <= i < 64 -> Z.testbit va i = Z.testbit va 47.

(** ** Bit-level reasoning *)

Lemma testbit_small x k i : 0 <= x < 2 ^ k -> k <= i -> Z.testbit x i = false.
Proof.
  intros Hx Hi. destruct (decide (0 <= k)).
  - rewrite <- (Z.mod_small x (2 ^ k)) by done. apply Z.mod_pow2_bits_high. lia.
  - rewrite Z.pow_neg_r in Hx by lia. lia.
Qed.

Lemma u64_testbit x i : 0 <= i -> Z.testbit (u64 x) i = (i <? 64) && Z.testbit x i.
Proof.
  intros. Transparent u64. unfold u64. Opaque u64. change two64 with (2 ^ 64).
  destruct (Z.ltb_spec i 64); simpl.
  - apply Z.mod_pow2_bits_low. lia.
  - apply Z.mod_pow2_bits_high. lia.
Qed.

Lemma ones_testbit n i : 0 <= n -> 0 <= i -> Z.testbit (Z.ones n) i = (i <? n).
Proof. intros. rewrite Z.testbit_ones_nonneg by lia. done. Qed.

(** Push [Z.testbit] to the leaves of an expression of masks and shifts. *)
Ltac zbits :=
  repeat first
    [ rewrite Z.land_spec | rewrite Z.lor_spec | rewrite Z.lxor_spec
    | rewrite Z.lnot_spec by lia
    | rewrite Z.shiftr_spec by lia | rewrite Z.shiftl_spec by lia
    | rewrite u64_testbit by lia | rewrite ones_testbit by lia ].

(** Decide the comparisons and drop the bits that are out of a field. *)
Ltac zbits_solve :=
  cmp_cases; simpl;
  repeat match goal with
  | |- context [Z.testbit ?x ?i] =>
      first [ rewrite (Z.testbit_neg_r x i) by lia
            | rewrite (ones_testbit _ i) by lia
            | rewrite (testbit_small x 9 i) by lia
            | rewrite (testbit_small x 12 i) by lia ]
  end;
  cmp_cases; simpl; rewrite ?orb_false_r, ?andb_true_r, ?andb_false_r; try done.

(** A number without bits from [n] on is below [2^n]. *)
Lemma bits_bound x n : 0 <= n -> (forall i, n <= i -> Z.testbit x i = false) -> 0 <= x < 2 ^ n.
Proof.
  intros Hn Hx. assert (x = x mod 2 ^ n) as ->.
  { apply Z.bits_inj'. intros i Hi. destruct (Z.ltb_spec i n).
    - by rewrite Z.mod_pow2_bits_low.
    - rewrite Z.mod_pow2_bits_high by lia. by apply Hx. }
  apply Z.mod_pos_bound. lia.
Qed.

Section MakeAddr.
Context (m p d t o : Z).
Hypothesis Hm : 0 <= m < 512.
Hypothesis Hp : 0 <= p < 512.
Hypothesis Hd : 0 <= d < 512.
Hypothesis Ht : 0 <= t < 512.
Hypothesis Ho : 0 <= o < 4096.

Lemma MAKE_ADDR_testbit i :
  0 <= i ->
  Z.testbit (MAKE_ADDR m p d t o) i =
    if i <? 12 then Z.testbit o i
    else if i <? 21 then Z.testbit t (i - 12)
    else if i <? 30 then Z.testbit d (i - 21)
    else if i <? 39 then Z.testbit p (i - 30)
    else if i <? 48 then Z.testbit m (i - 39)
    else (i <? 64) && Z.testbit m 8.
Proof.
  intros Hi. unfold MAKE_ADDR. change (Z.shiftl 1 16 - 1) with (Z.ones 16).
  change (Z.land (Z.shiftr m 8) 1) with (GET_BIT m 8). rewrite GET_BIT_testbit by done.
  destruct (Z.testbit m 8) eqn:H8; simpl (_ =? 0); cbv iota; zbits; rewrite ?Z.bits_0;
    change (2 ^ 9) with 512 in *; change (2 ^ 12) with 4096 in *.
  all: zbits_solve.
Qed.

(** An index field is the value put in it. *)
Ltac table_index :=
  unfold PML4E_FROM_ADDR, PDPE_FROM_ADDR, PDE_FROM_ADDR, PTE_FROM_ADDR;
  apply Z.bits_inj'; intros i Hi; change 0x1ff with (Z.ones 9); zbits;
  rewrite MAKE_ADDR_testbit by lia; change 512 with (2 ^ 9) in *; zbits_solve;
  f_equal; lia.

Lemma MAKE_ADDR_PML4E : PML4E_FROM_ADDR (MAKE_ADDR m p d t o) = m.
Proof. table_index. Qed.
Lemma MAKE_ADDR_PDPE : PDPE_FROM_ADDR (MAKE_ADDR m p d t o) = p.
Proof. table_index. Qed.
Lemma MAKE_ADDR_PDE : PDE_FROM_ADDR (MAKE_ADDR m p d t o) = d.
Proof. table_index. Qed.
Lemma MAKE_ADDR_PTE : PTE_FROM_ADDR (MAKE_ADDR m p d t o) = t.
Proof. table_index. Qed.
Lemma MAKE_ADDR_offset : MAKE_ADDR m p d t o mod 4096 = o.
Proof.
  change 4096 with (2 ^ 12). rewrite <- Z.land_ones by lia.
  apply Z.bits_inj'; intros i Hi. zbits. rewrite MAKE_ADDR_testbit by lia.
  change 4096 with (2 ^ 12) in *. zbits_solve.
Qed.

Lemma MAKE_ADDR_canonical : canonical (MAKE_ADDR m p d t o).
Proof.
  split.
  - apply (bits_bound _ 64); [lia|]. intros i Hi. rewrite MAKE_ADDR_testbit by lia. by cmp_cases.
  - intros i Hi. rewrite !MAKE_ADDR_testbit by lia. by cmp_cases.
Qed.
End MakeAddr.

Lemma index_range x k : 0 <= Z.land (Z.shiftr x k) 0x1ff < 512.
Proof. change 0x1ff with (Z.ones 9). rewrite Z.land_ones by lia. by apply Z.mod_pos_bound. Qed.

Lemma MAKE_ADDR_of_indices va :
  canonical va ->
  MAKE_ADDR (PML4E_FROM_ADDR va) (PDPE_FROM_ADDR va) (PDE_FROM_ADDR va) (PTE_FROM_ADDR va)
            (va mod PAGE_SIZE) = va.
Proof.
  intros [Hva Hcan]. apply Z.bits_inj'. intros i Hi.
  pose proof (Z.mod_pos_bound va PAGE_SIZE ltac:(done)) as Hoff.
  rewrite MAKE_ADDR_testbit; try apply index_range; [|exact Hoff|done].
  unfold PML4E_FROM_ADDR, PDPE_FROM_ADDR, PDE_FROM_ADDR, PTE_FROM_ADDR, PAGE_SIZE.
  change 0x1ff with (Z.ones 9). change 4096 with (2 ^ 12).
  destruct (Z.ltb_spec i 12); [by apply Z.mod_pow2_bits_low|].
  do 4 (match goal with |- context [i <? ?n] => destruct (Z.ltb_spec i n) end;
        [zbits; rewrite (proj2 (Z.ltb_lt _ 9)), andb_true_r by lia; f_equal; lia|]).
  destruct (Z.ltb_spec i 64).
  - zbits. change (8 + 39) with 47. cbn [Z.ltb]. rewrite (Hcan i) by lia. by rewrite andb_true_r.
  - symmetry. change two64 with (2 ^ 64) in Hva. by apply (testbit_small va 64).
Qed.
