(* ===== verification/Multiboot.v ===== *)
(** * kernel/multiboot.c: the boot information left by the bootloader

    The globals of the file are the record [mb_state]; the tags and the memory
    map are read from memory at their packed offsets. The loop over the tags
    and the iterator are translated with fuel: a tag of size zero makes the C
    loop run for ever. *)

From S2P Require Import Prelude Mem Common.

Definition MB_MEMMAP_TYPE_RAM : Z := 1.
Definition MB_MEMMAP_TYPE_ACPI : Z := 3.
Definition MB_MEMMAP_TYPE_HIBER : Z := 4.
Definition MB_MEMMAP_TYPE_DEFECTIVE : Z := 5.

Definition MB_TAG_ALIGNMENT : Z := 8.
Definition MB_TAG_END : Z := 0.
Definition MB_TAG_MEMMAP : Z := 6.
Definition MB_TAG_FB : Z := 8.
Definition MB_TAG_RSDP_V1 : Z := 14.
Definition MB_TAG_RSDP_V2 : Z := 15.

Record mb_state := MbState {
  mb_boot_info : Z;
  mb_fb_info : Z;
  mb_memmap_info : Z;
  mb_acpi_rsdp_v1 : Z;
  mb_acpi_rsdp_v2 : Z;
}.

(** sizeof(mb_boot_info_header_t), sizeof(mb_memmap_info_t). *)
Definition boot_info_header_size : Z := 8.
Definition memmap_info_size : Z := 16.

(** Field offsets of the packed structures. *)
Definition tag_type (tag : Z) : K mem Z := load32 tag.
Definition tag_size (tag : Z) : K mem Z := load32 (u64 (tag + 4)).
Definition memmap_entry_size (info : Z) : K mem Z := load32 (u64 (info + 8)).
Definition entry_base_addr (e : Z) : K mem Z := load64 e.
Definition entry_length (e : Z) : K mem Z := load64 (u64 (e + 8)).
Definition entry_type (e : Z) : K mem Z := load32 (u64 (e + 16)).

(** The effect of one tag on the globals. *)
Definition mb_record_tag (st : mb_state) (type tag : Z) : mb_state :=
  let '(MbState info fb mm v1 v2) := st in
  if type =? MB_TAG_MEMMAP then MbState info fb tag v1 v2
  else if type =? MB_TAG_FB then MbState info tag mm v1 v2
  else if type =? MB_TAG_RSDP_V1 then MbState info fb mm tag v2
  else if type =? MB_TAG_RSDP_V2 then MbState info fb mm v1 tag
  else st.

Fixpoint mb_tags_loop (fuel : nat) (st : mb_state) (iter : Z) : K mem mb_state :=
  match fuel with
  | O => khalt NoFuel
  | S fuel =>
      (let! type := tag_type iter in
       let! size := tag_size iter in
       if type =? MB_TAG_END then kret st
       else mb_tags_loop fuel (mb_record_tag st type iter)
              (ROUNDUP (u64 (iter + size)) MB_TAG_ALIGNMENT))%K
  end.

Definition mb_parse_boot_info (fuel : nat) (st : mb_state) (early_data : Z) : K mem mb_state :=
  (kassert (negb (early_data =? 0)) "early_data != NULL" ;;
   let! info := load64 early_data in
   mb_tags_loop fuel
     (MbState info (mb_fb_info st) (mb_memmap_info st) (mb_acpi_rsdp_v1 st) (mb_acpi_rsdp_v2 st))
     (u64 (info + boot_info_header_size)))%K.

(** The iterator is its [curr_entry] pointer. *)
Definition mb_memmap_iter_init (st : mb_state) : K mem Z :=
  (kassert (negb (mb_memmap_info st =? 0)) "mb_memmap_info != NULL" ;;
   kret (u64 (mb_memmap_info st + memmap_info_size)))%K.

(** The entry, or 0 ([NULL]), and the advanced iterator. *)
Definition mb_memmap_iter_next (st : mb_state) (curr_entry : Z) : K mem (Z * Z) :=
  (let! size := tag_size (mb_memmap_info st) in
   if u64 (mb_memmap_info st + size) <=? curr_entry then kret (0, curr_entry)
   else
     let! entry_size := memmap_entry_size (mb_memmap_info st) in
     kret (curr_entry, u64 (curr_entry + entry_size)))%K.

Definition mb_memory_region (st : mb_state) : K mem (Z * Z) :=
  (let! total_size := load32 (mb_boot_info st) in
   kret (mb_boot_info st, u64 (mb_boot_info st + ALIGN_UP total_size PAGE_SIZE)))%K.
