(* ===== verification/FrameAlloc.v ===== *)
(** * mm/frame_alloc.c: the physical frame allocator

    A buddy allocator over zones of physical memory, seen through the direct
    mapping. A zone's per-order free lists are rings of [list_node_t]s written
    into the free blocks themselves, headed by nodes inside the zone structure;
    the bitmaps are bytes at the start of the zone's memory. Both live in
    kernel memory here too; the scalar fields of [allocator_zone_t], whose
    address is never taken, are a record. *)

From S2P Require Import Prelude Mem Common DList Buddy Paging Multiboot.

Definition MAX_ZONE_COUNT : nat := 10.

Record allocator_zone := Zone {
  zone_addr : Z;            (* address of the structure: its list heads *)
  bitmaps : list Z;         (* orders[i].bitmap *)
  start_addr : Z;
  end_addr : Z;
  pages_count : Z;
}.

(** sizeof(allocator_zone_t), and &zone->orders[i].free_blocks_head: a
    [free_blocks_list_t] is a list node and a pointer. *)
Definition sizeof_zone : Z := 24 * 11 + 24.
Definition orders_head (zone : allocator_zone) (i : nat) : Z := zone_addr zone + 24 * Z.of_nat i.
Definition bitmap (zone : allocator_zone) (i : nat) : Z := nth i (bitmaps zone) NULL.

Definition block_bytes (order : nat) : Z := u64 (Z.shiftl 1 (Z.of_nat order) * PAGE_SIZE).
Definition block_index (zone : allocator_zone) (block : Z) (order : nat) : Z :=
  u64 (block - start_addr zone) / block_bytes order.
Definition buddy_index (zone : allocator_zone) (block : Z) (order : nat) : Z :=
  block_index zone block order / 2.

(** &bitmap[buddy_index / 8], and bitmap[...] = op(bitmap[...], buddy_index % 8). *)
Definition bitmap_byte (zone : allocator_zone) (order : nat) (bi : Z) : Z :=
  u64 (bitmap zone order + bi / 8).
Definition bitmap_update (op : Z -> Z -> Z) (zone : allocator_zone) (order : nat) (bi : Z) : K mem unit :=
  (let! v := load8 (bitmap_byte zone order bi) in
   store8 (bitmap_byte zone order bi) (op v (bi mod 8)))%K.

(** ** Allocation in a zone *)

(** for (j = i - 1; j >= order; j--), with j = order + d. *)
Fixpoint split_block (zone : allocator_zone) (order d : nat) (curr_split_block : Z) : K mem Z :=
  match d with
  | O => kret curr_split_block
  | S d =>
      let j := (order + d)%nat in
      let first_half := curr_split_block in
      let second_half := FLIP_BIT curr_split_block (12 + Z.of_nat j) in
      (bitmap_update SET_BIT zone j (buddy_index zone curr_split_block j) ;;
       list_init second_half ;;
       list_insert_after (orders_head zone j) second_half ;;
       split_block zone order d first_half)%K
  end.

(** for (i = order; i <= MAX_ORDER; i++), [n] iterations left. *)
Fixpoint zone_alloc_larger (zone : allocator_zone) (order i n : nat) : K mem Z :=
  match n with
  | O => kret NULL
  | S n =>
      (let! empty := list_empty (orders_head zone i) in
       if empty then zone_alloc_larger zone order (S i) n
       else
         let! curr_split_block := load64 (orders_head zone i) in
         list_extract curr_split_block ;;
         (if (i <? MAX_ORDER)%nat
          then bitmap_update FLIP_BIT zone i (buddy_index zone curr_split_block i)
          else kret tt) ;;
         let! block := split_block zone order (i - order) curr_split_block in
         memset block 0 (block_bytes order) ;;
         kret block)%K
  end.

Definition zone_alloc (zone : allocator_zone) (order : nat) : K mem Z :=
  (kassert (negb (zone_addr zone =? NULL)) "zone != NULL" ;;
   kassert (order <=? MAX_ORDER)%nat "order <= MAX_ORDER" ;;
   let! empty := list_empty (orders_head zone order) in
   if negb empty then
     let! block := load64 (orders_head zone order) in
     list_extract block ;;
     bitmap_update FLIP_BIT zone order (buddy_index zone block order) ;;
     memset block 0 (block_bytes order) ;;
     kret block
   else zone_alloc_larger zone order order (S MAX_ORDER - order))%K.

(** ** Deallocation in a zone *)

(** for (; free_order < MAX_ORDER; free_order++), [n] iterations left. *)
Fixpoint zone_dealloc_loop (zone : allocator_zone) (free_block_addr : Z) (free_order n : nat) :
    K mem (Z * nat) :=
  match n with
  | O => kret (free_block_addr, free_order)
  | S n =>
      let buddy_addr := FLIP_BIT free_block_addr (12 + Z.of_nat free_order) in
      let bi := buddy_index zone free_block_addr free_order in
      (let! v := load8 (bitmap_byte zone free_order bi) in
       if GET_BIT v (bi mod 8) =? 0 then
         bitmap_update SET_BIT zone free_order bi ;;
         kret (free_block_addr, free_order)
       else
         bitmap_update CLEAR_BIT zone free_order bi ;;
         list_extract buddy_addr ;;
         zone_dealloc_loop zone
           (if buddy_addr <? free_block_addr then buddy_addr else free_block_addr)
           (S free_order) n)%K
  end.

Definition zone_dealloc (zone : allocator_zone) (addr : Z) (order : nat) : K mem unit :=
  (kassert (negb (zone_addr zone =? NULL)) "zone != NULL" ;;
   kassert (Z.land addr (Z.lnot (PAGE_SIZE - 1)) =? addr) "(addr & ~(PAGE_SIZE - 1)) == addr" ;;
   kassert (order <=? MAX_ORDER)%nat "order <= MAX_ORDER" ;;
   let! (free_block_addr, free_order) := zone_dealloc_loop zone addr order (MAX_ORDER - order) in
   kassert (Z.land addr (Z.lnot (Z.shiftl 1 (12 + Z.of_nat free_order) - 1)) =? free_block_addr)
           "free block is the merged block" ;;
   list_init free_block_addr ;;
   list_insert_after (orders_head zone free_order) free_block_addr)%K.

(** ** Sizes and the zones *)

(** while ((1 << order) < (int)pages) order++; *)
Fixpoint pages2order_loop {S : Type} (fuel : nat) (order : nat) (pages : Z) : K S nat :=
  match fuel with
  | O => khalt NoFuel
  | Datatypes.S fuel =>
      if Z.shiftl 1 (Z.of_nat order) <? s32 pages
      then pages2order_loop fuel (Datatypes.S order) pages
      else kret order
  end.

Definition pages2order {S : Type} (pages : Z) : K S nat :=
  (kassert (pages <=? Z.shiftl 1 (Z.of_nat MAX_ORDER)) "pages <= (1 << MAX_ORDER)" ;;
   pages2order_loop (Datatypes.S MAX_ORDER) 0 pages)%K.

(** The state of the allocator: kernel memory, the zones in use
    ([allocator_zones[0 .. zones_count)]) and the address of that array. *)
Record fa_state := FaState {
  fa_mem : mem;
  allocator_zones : list allocator_zone;
  allocator_zones_addr : Z;
}.

Definition in_mem {A} (m : K mem A) : K fa_state A :=
  klift fa_mem (fun m' s => FaState m' (allocator_zones s) (allocator_zones_addr s)) m.

Fixpoint frames_alloc_loop (zones : list allocator_zone) (order : nat) : K mem Z :=
  match zones with
  | [] => kret NULL
  | zone :: zones =>
      (let! block := zone_alloc zone order in
       if negb (block =? NULL) then kret block else frames_alloc_loop zones order)%K
  end.

Definition frames_alloc (n : Z) : K fa_state Z :=
  (let! order := pages2order n in
   let! s := kget in
   in_mem (frames_alloc_loop (allocator_zones s) order))%K.

Fixpoint frames_free_loop (zones : list allocator_zone) (addr : Z) (order : nat) : K mem unit :=
  match zones with
  | [] => panic "frames_free on unknown address"
  | zone :: zones =>
      if (start_addr zone <=? addr) && (addr <? end_addr zone)
      then zone_dealloc zone addr order
      else frames_free_loop zones addr order
  end.

Definition frames_free (addr n : Z) : K fa_state unit :=
  (let! order := pages2order n in
   let! s := kget in
   in_mem (frames_free_loop (allocator_zones s) addr order))%K.

Definition frame_alloc : K fa_state Z := frames_alloc 1.
Definition frame_free (addr : Z) : K fa_state unit := frames_free addr 1.

(** ** Building a zone *)

(** required_bitmap_size, in bytes: the sum over i = 0 .. MAX_ORDER. *)
Definition required_bitmap_size (pages_count : Z) : Z :=
  fold_left (fun acc i => u64 (acc + DIV_ROUNDUP (pages_count / Z.shiftl 1 (Z.of_nat i) / 2) 8))
            (seq 0 (S MAX_ORDER)) 0.

(** for (i = 0; i < MAX_ORDER; i++): the bitmap pointers and the empty lists. *)
Fixpoint zone_orders_loop (zone : allocator_zone) (bitmap_size bitmap_ptr : Z) (i n : nat)
    (acc : list Z) : K mem (list Z) :=
  match n with
  | O => kret acc
  | S n =>
      let order_bitmap_size :=
        DIV_ROUNDUP (pages_count zone / Z.shiftl 1 (Z.of_nat MAX_ORDER) / 2) 8 in
      let bitmap_ptr' := u64 (bitmap_ptr + order_bitmap_size) in
      (kassert (bitmap_ptr' <? u64 (bitmap_ptr' + bitmap_size * PAGE_SIZE))
               "bitmap_ptr < bitmap_ptr + bitmap_size * PAGE_SIZE" ;;
       list_init (orders_head zone i) ;;
       zone_orders_loop zone bitmap_size bitmap_ptr' (S i) n (acc ++ [bitmap_ptr]))%K
  end.

(** for (i = 0; i < pages_count / (1 << MAX_ORDER); i++), [n] left. *)
Fixpoint zone_blocks_loop (zone : allocator_zone) (i : Z) (n : nat) : K mem unit :=
  match n with
  | O => kret tt
  | S n =>
      let block_ptr :=
        u64 (start_addr zone + i * Z.shiftl 1 (Z.of_nat MAX_ORDER) * PAGE_SIZE) in
      (list_init block_ptr ;;
       list_insert_after (orders_head zone MAX_ORDER) block_ptr ;;
       zone_blocks_loop zone (i + 1) n)%K
  end.

(** start_addr and end_addr of the zone made from [pages_count] pages at [addr]. *)
Definition zone_bounds (addr pages_count : Z) : Z * Z * Z :=
  let bitmap_size := DIV_ROUNDUP (required_bitmap_size pages_count) PAGE_SIZE in
  let max_block := PAGE_SIZE * Z.shiftl 1 (Z.of_nat MAX_ORDER) in
  let start_addr := u64 (addr + PAGE_SIZE * bitmap_size) in
  let pages_count := u64 (pages_count - bitmap_size) in
  let start_addr := ROUNDUP start_addr max_block in
  let end_addr := ROUNDDOWN (u64 (start_addr + u64 (pages_count * PAGE_SIZE))) max_block in
  (bitmap_size, start_addr, end_addr).

Definition zone_fill (zone : allocator_zone) (bitmap_size bitmap_ptr : Z) : K mem allocator_zone :=
  (let! ptrs := zone_orders_loop zone bitmap_size bitmap_ptr 0 MAX_ORDER [] in
   let zone := Zone (zone_addr zone) (ptrs ++ [NULL])
                    (start_addr zone) (end_addr zone) (pages_count zone) in
   list_init (orders_head zone MAX_ORDER) ;;
   zone_blocks_loop zone 0
     (Z.to_nat (pages_count zone / Z.shiftl 1 (Z.of_nat MAX_ORDER))) ;;
   kret zone)%K.

Definition zone_add (addr pages : Z) : K fa_state Z :=
  (kassert (Z.land addr (Z.lnot (PAGE_SIZE - 1)) =? addr) "(addr & ~(PAGE_SIZE - 1)) == addr" ;;
   kassert (Z.shiftl 1 (Z.of_nat MAX_ORDER) <? pages) "pages_count > (1 << MAX_ORDER)" ;;
   let! s := kget in
   let zones_count := length (allocator_zones s) in
   kassert (zones_count <? MAX_ZONE_COUNT)%nat "zones_count < MAX_ZONE_COUNT" ;;
   let '(bitmap_size, start, end_) := zone_bounds addr pages in
   let zone := Zone (u64 (allocator_zones_addr s + sizeof_zone * Z.of_nat zones_count)) []
                    start end_ (u64 (end_ - start) / PAGE_SIZE) in
   let! zone := in_mem (zone_fill zone bitmap_size addr) in
   let! s := kget in
   kput (FaState (fa_mem s) (allocator_zones s ++ [zone]) (allocator_zones_addr s)) ;;
   kret (pages_count zone))%K.

(** ** frame_alloc_init *)

(** The region of one memory-map entry that is left once the kernel's own
    memory, below [reserved_end], is cut off: [None] is [continue]. *)
Definition usable_region (reserved_end base_addr length : Z) : option (Z * Z) :=
  let base_addr := ROUNDUP (PHYS_TO_VIRT base_addr) PAGE_SIZE in
  let region_size := length / PAGE_SIZE in
  let cut :=
    if base_addr <? reserved_end then
      if u64 (base_addr + u64 (region_size * PAGE_SIZE)) <=? reserved_end then None
      else Some (reserved_end, u64 (region_size - (reserved_end - base_addr) / PAGE_SIZE))
    else Some (base_addr, region_size) in
  match cut with
  | None => None
  | Some (base, size) =>
      if size <? Z.shiftl 1 (Z.of_nat MAX_ORDER) then None else Some (base, size)
  end.

Fixpoint frame_alloc_init_loop (fuel : nat) (mb : mb_state) (it reserved_end pgcnt : Z) :
    K fa_state Z :=
  match fuel with
  | O => khalt NoFuel
  | S fuel =>
      (let! (mmap_entry, it) := in_mem (mb_memmap_iter_next mb it) in
       if mmap_entry =? NULL then kret pgcnt
       else
         let! type := in_mem (entry_type mmap_entry) in
         if negb (type =? MB_MEMMAP_TYPE_RAM) && negb (type =? MB_MEMMAP_TYPE_HIBER)
         then frame_alloc_init_loop fuel mb it reserved_end pgcnt
         else
           let! base := in_mem (entry_base_addr mmap_entry) in
           let! length := in_mem (entry_length mmap_entry) in
           match usable_region reserved_end base length with
           | None => frame_alloc_init_loop fuel mb it reserved_end pgcnt
           | Some (base_addr, region_size) =>
               let! added := zone_add base_addr region_size in
               frame_alloc_init_loop fuel mb it reserved_end (u64 (pgcnt + added))
           end)%K
  end.

(** [frame_alloc_init] up to its last line, which prints the number of frames
    that is returned here (KMain.v); [phys_end_kernel_sections] is the linker's
    symbol. *)
Definition frame_alloc_init_zones (fuel : nat) (mb : mb_state) (phys_end_kernel_sections : Z) :
    K fa_state Z :=
  (let! it := in_mem (mb_memmap_iter_init mb) in
   let! (_, region_end) := in_mem (mb_memory_region mb) in
   let reserved_end := PHYS_TO_VIRT phys_end_kernel_sections in
   let reserved_end := if reserved_end <? region_end then region_end else reserved_end in
   frame_alloc_init_loop fuel mb it (ROUNDUP reserved_end PAGE_SIZE) 0)%K.
