(* ===== verification/FrameRefine.v ===== *)
(** * The frame allocator refines the abstract buddy allocator

    For a zone whose structures do not overlap ([zone_layout]), the memory
    represents an abstract state ([lists_rep], [bits_rep]) and [zone_alloc] and
    [zone_dealloc] are [b_alloc] and [b_free] on it; what they write outside
    the free pages is confined to the zone's own list heads and bitmaps. *)

From S2P Require Import Prelude Mem Common DList Buddy Paging FrameAlloc.

(** Bytes of the bitmap of order [k] in a zone of [N] pages. *)
Definition bitmap_bytes (N : Z) (k : nat) : Z := (N / pages (S k) + 7) / 8.
Definition heads_bytes : Z := 24 * 11.

Record zone_layout (z : allocator_zone) (N : Z) : Prop := {
  zl_start : KERNEL_HIGHER_HALF_START <= start_addr z;
  zl_aligned : (PAGE_SIZE * pages MAX_ORDER | start_addr z);
  zl_pages : 0 <= N /\ (pages MAX_ORDER | N);
  zl_end : end_addr z = start_addr z + PAGE_SIZE * N /\ end_addr z < two64;
  zl_heads : kok (zone_addr z) heads_bytes = true;
  zl_bitmaps : forall k, (k < MAX_ORDER)%nat -> kok (bitmap z k) (bitmap_bytes N k) = true;
  zl_heads_zone : apart (zone_addr z) heads_bytes (start_addr z) (PAGE_SIZE * N);
  zl_heads_bitmaps : forall k, (k < MAX_ORDER)%nat ->
    apart (zone_addr z) heads_bytes (bitmap z k) (bitmap_bytes N k);
  zl_bitmaps_zone : forall k, (k < MAX_ORDER)%nat ->
    apart (bitmap z k) (bitmap_bytes N k) (start_addr z) (PAGE_SIZE * N);
}.

(** The bitmaps of different orders share no byte. No zone of the kernel is like
    that; what its zones do have is [distinct_bits], of the pairs in use. *)
Definition bitmaps_apart (N : Z) (z : allocator_zone) : Prop :=
  forall j k, (j < MAX_ORDER)%nat -> (k < MAX_ORDER)%nat -> j <> k ->
    apart (bitmap z j) (bitmap_bytes N j) (bitmap z k) (bitmap_bytes N k).

(** The address of page [x] of the zone. *)
Definition page_addr (z : allocator_zone) (x : Z) : Z := start_addr z + PAGE_SIZE * x.

Definition lists_rep (z : allocator_zone) (m : mem) (f : nat -> list Z) : Prop :=
  forall k, (k <= MAX_ORDER)%nat -> dll m (orders_head z k) (page_addr z <$> f k).

(** The number in memory of the bit of a pair, and the bit. *)
Definition bit_at (z : allocator_zone) (k : nat) (p : Z) : Z := 8 * bitmap z k + p.
Definition mem_bit (z : allocator_zone) (m : mem) (k : nat) (p : Z) : bool :=
  Z.testbit (rd8 m (bitmap z k + p / 8)) (p mod 8).

(** No two pairs of [D] share a bit. *)
Definition distinct_bits (z : allocator_zone) (D : nat -> Z -> Prop) : Prop :=
  forall j p k q, D j p -> D k q -> bit_at z j p = bit_at z k q -> j = k /\ p = q.

(** A bit of the memory is set when the bit of one of its pairs is. *)
Definition bits_image (N : Z) (z : allocator_zone) (m : mem) (g : nat -> Z -> bool) : Prop :=
  forall k p, pair_in N k p ->
    mem_bit z m k p = true <-> exists j q, pair_in N j q /\ bit_at z j q = bit_at z k p /\ g j q = true.

(** The bits are those of the abstract state as long as the pairs in use do not
    share bits, if the bitmaps were clear in the beginning. *)
Definition bits_rep (N : Z) (z : allocator_zone) (m : mem) (b : buddy) : Prop :=
  clean b -> distinct_bits z (live N b) -> bits_image N z m (bit b).

Definition zone_rep (N : Z) (z : allocator_zone) (m : mem) (b : buddy) : Prop :=
  lists_rep z m (fl b) /\ bits_rep N z m b.

(** What an operation may write: the zone's own metadata and the pages of [C]. *)
Definition zone_writes (N : Z) (z : allocator_zone) (C : Z -> Prop) (a : Z) : Prop :=
  in_range (zone_addr z) heads_bytes a \/
  (exists k, (k < MAX_ORDER)%nat /\ in_range (bitmap z k) (bitmap_bytes N k) a) \/
  (exists p, C p /\ in_range (page_addr z p) PAGE_SIZE a).

Definition untouched (N : Z) (z : allocator_zone) (C : Z -> Prop) (m m' : mem) : Prop :=
  agree (fun a => ~ zone_writes N z C a) m m'.

Lemma untouched_trans N z C m1 m2 m3 :
  untouched N z C m1 m2 -> untouched N z C m2 m3 -> untouched N z C m1 m3.
Proof. apply agree_trans. Qed.

Lemma untouched_mono N z (C D : Z -> Prop) m m' :
  untouched N z C m m' -> (forall p, C p -> D p) -> untouched N z D m m'.
Proof.
  intros H HCD. eapply agree_weaken; [exact H|]. intros a Ha [?|[?|(p & Hp & ?)]]; apply Ha;
    [by left | by right; left | right; right; eauto].
Qed.

Section Zone.
Context (z : allocator_zone) (N : Z) (Hz : zone_layout z N).

(** ** Address arithmetic *)

Lemma in_zone x k :
  0 <= x -> x + pages k <= N ->
  KERNEL_HIGHER_HALF_START <= start_addr z <= page_addr z x /\
  page_addr z x + PAGE_SIZE * pages k <= start_addr z + PAGE_SIZE * N < two64.
Proof.
  intros. destruct (zl_end _ _ Hz) as [? ?]. pose proof (zl_start _ _ Hz).
  unfold page_addr, PAGE_SIZE in *. lia.
Qed.

Lemma block_bytes_eq k : (k <= MAX_ORDER)%nat -> block_bytes k = PAGE_SIZE * pages k.
Proof.
  intros Hk. unfold block_bytes. rewrite Z.shiftl_1_l.
  change (2 ^ Z.of_nat k) with (pages k).
  pose proof (pages_le k MAX_ORDER Hk). pose proof (pages_pos k).
  change (pages MAX_ORDER) with 1024 in *. rewrite u64_small; unfold PAGE_SIZE; lia.
Qed.

Lemma buddy_index_eq k x :
  (k <= MAX_ORDER)%nat -> 0 <= x -> x + pages k <= N ->
  buddy_index z (page_addr z x) k = pair_index k x.
Proof.
  intros Hk Hx0 HxN. unfold buddy_index, block_index, pair_index.
  destruct (in_zone x k) as [H1 H2]; [done..|].
  rewrite block_bytes_eq by done. pose proof (pages_pos k).
  assert (KERNEL_HIGHER_HALF_START > 0) by done.
  rewrite u64_small by (unfold page_addr, PAGE_SIZE in *; lia).
  unfold page_addr. rewrite Z.add_simpl_l, Z.div_mul_cancel_l by (unfold PAGE_SIZE; lia).
  done.
Qed.

Lemma flip_page_addr k x :
  (k < MAX_ORDER)%nat ->
  FLIP_BIT (page_addr z x) (12 + Z.of_nat k) = page_addr z (buddy_of k x).
Proof.
  intros Hk. destruct (zl_aligned _ _ Hz) as [s Hs].
  unfold FLIP_BIT, page_addr, buddy_of, pages, PAGE_SIZE in *. rewrite Hs.
  change (2 ^ Z.of_nat MAX_ORDER) with 1024. rewrite Z.shiftl_1_l.
  replace (s * (4096 * 1024) + 4096 * x) with ((s * 1024 + x) * 2 ^ 12) by lia.
  rewrite <- Z.shiftl_mul_pow2 by lia.
  replace (2 ^ (12 + Z.of_nat k)) with (Z.shiftl (2 ^ Z.of_nat k) 12).
  2:{ rewrite Z.shiftl_mul_pow2, <- Z.pow_add_r by lia. f_equal. lia. }
  rewrite <- Z.shiftl_lxor, Z.shiftl_mul_pow2 by lia.
  assert (Ht : Z.testbit (s * 1024 + x) (Z.of_nat k) = Z.testbit x (Z.of_nat k)).
  { rewrite <- (Z.mod_pow2_bits_low (s * 1024 + x) 10), <- (Z.mod_pow2_bits_low x 10)
      by (unfold MAX_ORDER in Hk; lia).
    f_equal. change (2 ^ 10) with 1024. rewrite Z.add_comm, Z.mod_add; lia. }
  destruct (Z.testbit x (Z.of_nat k)) eqn:E.
  - rewrite !lxor_pow2_odd by (done || lia). lia.
  - rewrite !lxor_pow2_even by (done || lia). lia.
Qed.

(** ** The list nodes of the zone *)

Lemma head_bounds k :
  (k <= MAX_ORDER)%nat ->
  zone_addr z <= orders_head z k /\ orders_head z k + 16 <= zone_addr z + heads_bytes.
Proof. unfold orders_head, heads_bytes, MAX_ORDER. lia. Qed.

Lemma head_ok k : (k <= MAX_ORDER)%nat -> node_ok (orders_head z k).
Proof.
  intros Hk%head_bounds. pose proof (zl_heads _ _ Hz) as [??]%kok_spec.
  apply kok_spec. lia.
Qed.

Lemma heads_apart j k : j <> k -> apart (orders_head z j) 16 (orders_head z k) 16.
Proof. unfold apart, orders_head. lia. Qed.

Lemma block_bounds b k x :
  binv N b -> free b k x ->
  start_addr z <= page_addr z x /\
  page_addr z x + PAGE_SIZE * pages k <= start_addr z + PAGE_SIZE * N.
Proof.
  intros Hb Hx. destruct (bi_range _ _ Hb _ _ Hx) as (_ & ? & ? & _).
  destruct (in_zone x k); [done..|]. lia.
Qed.

Lemma page_bytes k : 16 <= PAGE_SIZE * pages k.
Proof. pose proof (pages_pos k). unfold PAGE_SIZE. lia. Qed.

Lemma block_ok k x : 0 <= x -> x + pages k <= N -> node_ok (page_addr z x).
Proof.
  intros. destruct (in_zone x k) as [? ?]; [done..|]. pose proof (page_bytes k).
  apply kok_spec. lia.
Qed.

Lemma blocks_apart x k y j :
  apart x (pages k) y (pages j) -> apart (page_addr z x) 16 (page_addr z y) 16.
Proof.
  pose proof (pages_pos k). pose proof (pages_pos j).
  unfold apart, page_addr, PAGE_SIZE. lia.
Qed.

Lemma head_block_apart b j k x :
  (j <= MAX_ORDER)%nat -> binv N b -> free b k x ->
  apart (orders_head z j) 16 (page_addr z x) 16.
Proof.
  intros Hj%head_bounds Hb Hx. pose proof (block_bounds _ _ _ Hb Hx).
  pose proof (page_bytes k). pose proof (zl_heads_zone _ _ Hz). unfold apart in *. lia.
Qed.

Lemma ring_elem b k y :
  y ∈ orders_head z k :: (page_addr z <$> fl b k) <->
  y = orders_head z k \/ exists x, y = page_addr z x /\ free b k x.
Proof. rewrite elem_of_cons, list_elem_of_fmap. done. Qed.

(** The nodes of two different rings are apart. *)
Lemma rings_apart b j k y y' :
  (j <= MAX_ORDER)%nat -> (k <= MAX_ORDER)%nat -> binv N b -> j <> k ->
  y ∈ orders_head z j :: (page_addr z <$> fl b j) ->
  y' ∈ orders_head z k :: (page_addr z <$> fl b k) ->
  apart y 16 y' 16.
Proof.
  intros Hj Hk Hb Hjk Hy Hy'.
  apply ring_elem in Hy as [->|(x & -> & Hx)], Hy' as [->|(x' & -> & Hx')].
  - by apply heads_apart.
  - by eapply head_block_apart.
  - assert (apart (orders_head z k) 16 (page_addr z x) 16) as Hap by (by eapply head_block_apart).
    unfold apart in *. lia.
  - eapply blocks_apart, (bi_disj _ _ Hb); [done..|]. congruence.
Qed.

Lemma ring_writes b k y a (C : Z -> Prop) :
  (k <= MAX_ORDER)%nat -> (forall p, cov b p -> C p) ->
  y ∈ orders_head z k :: (page_addr z <$> fl b k) -> in_range y 16 a ->
  zone_writes N z C a.
Proof.
  intros Hk HC [->|(x & -> & Hx)]%ring_elem Ha.
  - left. pose proof (head_bounds k Hk). unfold in_range in *. lia.
  - right; right. exists x. split.
    + apply HC. exists k, x. split; [done|]. pose proof (pages_pos k). unfold in_range. lia.
    + unfold in_range, PAGE_SIZE in *. lia.
Qed.

Lemma ring_bitmap_apart b j k y :
  (j < MAX_ORDER)%nat -> (k <= MAX_ORDER)%nat -> binv N b ->
  y ∈ orders_head z k :: (page_addr z <$> fl b k) ->
  apart (bitmap z j) (bitmap_bytes N j) y 16.
Proof.
  intros Hj Hk Hb [->|(x & -> & Hx)]%ring_elem.
  - pose proof (head_bounds k Hk). pose proof (zl_heads_bitmaps _ _ Hz j Hj).
    unfold apart in *. lia.
  - pose proof (block_bounds _ _ _ Hb Hx). pose proof (page_bytes k).
    pose proof (zl_bitmaps_zone _ _ Hz j Hj). unfold apart in *. lia.
Qed.

Lemma pair_byte k p :
  (k < MAX_ORDER)%nat -> 0 <= p < N / pages (S k) ->
  in_range (bitmap z k) (bitmap_bytes N k) (bitmap z k + p / 8) /\
  bitmap_byte z k p = bitmap z k + p / 8 /\
  kok (bitmap z k + p / 8) 1 = true.
Proof.
  intros Hk Hp. pose proof (zl_bitmaps _ _ Hz k Hk) as [H1 H2]%kok_spec.
  assert (KERNEL_HIGHER_HALF_START > 0) by done.
  assert (0 <= p / 8 < bitmap_bytes N k).
  { unfold bitmap_bytes. split; [apply Z.div_pos; lia|].
    apply Z.div_lt_upper_bound; [done|].
    pose proof (Z.div_mod (N / pages (S k) + 7) 8). 
    pose proof (Z.mod_pos_bound (N / pages (S k) + 7) 8). lia. }
  unfold in_range, bitmap_byte. rewrite kok_spec. split; [lia|].
  split; [apply u64_small; lia | lia].
Qed.

(** Bits are only read through the bitmaps. *)
Lemma bits_image_agree P m m' g :
  agree P m m' ->
  (forall k a, (k < MAX_ORDER)%nat -> in_range (bitmap z k) (bitmap_bytes N k) a -> P a) ->
  bits_image N z m g -> bits_image N z m' g.
Proof.
  intros Hag HP Hg k p [Hk Hp]. destruct (pair_byte k p Hk Hp) as [Hin _].
  unfold mem_bit. rewrite Hag by (by eapply HP). by apply Hg.
Qed.

Lemma bits_rep_agree P m m' b :
  agree P m m' ->
  (forall k a, (k < MAX_ORDER)%nat -> in_range (bitmap z k) (bitmap_bytes N k) a -> P a) ->
  bits_rep N z m b -> bits_rep N z m' b.
Proof. intros Hag HP Hg Hc Hd. eapply bits_image_agree; [exact Hag|exact HP|by apply Hg]. Qed.

(** In the middle of an operation: the bits under an assumption [A] that the
    operation does not change. *)
Definition bits_if (A : Prop) (m : mem) (g : nat -> Z -> bool) : Prop := A -> bits_image N z m g.

Lemma bits_if_agree A P m m' g :
  agree P m m' ->
  (forall k a, (k < MAX_ORDER)%nat -> in_range (bitmap z k) (bitmap_bytes N k) a -> P a) ->
  bits_if A m g -> bits_if A m' g.
Proof. intros Hag HP Hg HA. eapply bits_image_agree; [exact Hag|exact HP|by apply Hg]. Qed.

Definition zone_if (A : Prop) (m : mem) (b : buddy) : Prop := lists_rep z m (fl b) /\ bits_if A m (bit b).

(** Two pairs share a bit when they share its byte and its place there. *)
Lemma same_bit j p k q :
  bit_at z j p = bit_at z k q <-> bitmap z j + p / 8 = bitmap z k + q / 8 /\ p mod 8 = q mod 8.
Proof.
  unfold bit_at. pose proof (Z.div_mod p 8). pose proof (Z.div_mod q 8).
  pose proof (Z.mod_pos_bound p 8). pose proof (Z.mod_pos_bound q 8). lia.
Qed.

(** Only pairs in use have their bit set, so that set bits are apart when the
    bits of the pairs in use are. *)
Definition pair_set (b : buddy) (k : nat) (p : Z) : Prop := pair_in N k p /\ bit b k p = true.

Lemma set_distinct b : binv N b -> distinct_bits z (live N b) -> distinct_bits z (pair_set b).
Proof. intros Hb Hd j p k q [Hp Hp'] [Hq Hq']. apply Hd; by apply bit_live. Qed.

(** ** Extracting and inserting a block *)

Lemma extract_step A b k l1 x l2 m g :
  binv N b -> (k <= MAX_ORDER)%nat -> fl b k = l1 ++ x :: l2 ->
  lists_rep z m (fl b) -> bits_if A m g ->
  exists m', list_extract (page_addr z x) m = Ret (tt, m') /\
    lists_rep z m' (fupd (fl b) k (l1 ++ l2)) /\ bits_if A m' g /\
    untouched N z (cov b) m m'.
Proof.
  intros Hb Hk Hfl Hl Hg. pose proof (Hl k Hk) as Hd.
  rewrite Hfl, fmap_app, fmap_cons in Hd.
  set (h := orders_head z k) in *. set (a1 := page_addr z <$> l1) in *.
  set (a2 := page_addr z <$> l2) in *.
  assert (Hin1 : node_last h a1 ∈ h :: (page_addr z <$> fl b k)).
  { rewrite Hfl, fmap_app. pose proof (node_last_elem h a1). set_solver. }
  assert (Hin2 : node_first h a2 ∈ h :: (page_addr z <$> fl b k)).
  { rewrite Hfl, fmap_app, fmap_cons. pose proof (node_first_elem h a2). set_solver. }
  eexists. split; [by eapply list_extract_run|]. split; [|split].
  - intros j Hj. destruct (decide (j = k)) as [->|Hjk].
    + rewrite fupd_eq, fmap_app. by eapply extract_mem_dll.
    + rewrite fupd_ne by done. eapply dll_agree; [| |by apply Hl].
      * apply (extract_mem_agree _ _ _ (fun a =>
          ~ in_range (node_last h a1) 16 a /\ ~ in_range (node_first h a2) 16 a)). done.
      * intros y a Hy Ha.
        pose proof (rings_apart b j k y _ Hj Hk Hb Hjk Hy Hin1).
        pose proof (rings_apart b j k y _ Hj Hk Hb Hjk Hy Hin2).
        unfold apart, in_range in *. lia.
  - eapply bits_if_agree; [|clear Hg|exact Hg].
    + apply (extract_mem_agree _ _ _ (fun a =>
        ~ in_range (node_last h a1) 16 a /\ ~ in_range (node_first h a2) 16 a)). done.
    + intros j a Hj Ha. simpl.
      pose proof (ring_bitmap_apart b j k _ Hj Hk Hb Hin1).
      pose proof (ring_bitmap_apart b j k _ Hj Hk Hb Hin2).
      unfold apart, in_range in *. lia.
  - apply extract_mem_agree. intros a Ha.
    split; intros Hr; apply Ha; eapply (ring_writes b k _ _ _ Hk);
      [done|exact Hin1|done|done|exact Hin2|done].
Qed.

Lemma insert_step A b k x m g :
  binv N b -> (k <= MAX_ORDER)%nat -> 0 <= x -> x + pages k <= N -> (pages k | x) ->
  busy b k x -> lists_rep z m (fl b) -> bits_if A m g ->
  exists m1 m2, list_init (page_addr z x) m = Ret (tt, m1) /\
    list_insert_after (orders_head z k) (page_addr z x) m1 = Ret (tt, m2) /\
    lists_rep z m2 (fl (put b k x)) /\ bits_if A m2 g /\
    untouched N z (fun p => cov b p \/ in_range x (pages k) p) m m2.
Proof.
  intros Hb Hk Hx0 HxN Hxd Hbusy Hl Hg.
  set (h := orders_head z k). set (a := page_addr z x).
  assert (Ha : node_ok a) by (by eapply block_ok).
  destruct (in_zone x k Hx0 HxN) as [Hlo Hhi]. pose proof (page_bytes k) as H16.
  assert (Hfresh : forall j y, (j <= MAX_ORDER)%nat ->
            y ∈ orders_head z j :: (page_addr z <$> fl b j) -> apart a 16 y 16).
  { intros j y Hj [->|(x' & -> & Hx')]%ring_elem.
    - pose proof (head_bounds j Hj). pose proof (zl_heads_zone _ _ Hz).
      unfold apart in *. fold a in Hlo, Hhi. lia.
    - eapply blocks_apart, busy_apart; eauto. }
  assert (Hbm : forall j, (j < MAX_ORDER)%nat -> apart (bitmap z j) (bitmap_bytes N j) a 16).
  { intros j Hj. pose proof (zl_bitmaps_zone _ _ Hz j Hj). fold a in Hlo, Hhi.
    unfold apart in *. lia. }
  assert (Hl1 : lists_rep z (list_init_mem m a) (fl b)).
  { intros j Hj. eapply dll_agree; [| |by apply Hl].
    - apply (list_init_mem_agree _ _ (fun c => ~ in_range a 16 c)). done.
    - intros y c Hy Hc. pose proof (Hfresh j y Hj Hy). unfold apart, in_range in *. lia. }
  pose proof (Hl1 k Hk) as Hd. fold h in Hd. set (ys := page_addr z <$> fl b k) in *.
  assert (Hfst : node_first h ys ∈ h :: ys) by apply node_first_elem.
  exists (list_init_mem m a), (insert_mem (list_init_mem m a) h a (node_first h ys)).
  assert (Hag : forall P : Z -> Prop,
    (forall c, P c -> ~ in_range h 16 c /\ ~ in_range a 16 c /\ ~ in_range (node_first h ys) 16 c) ->
    agree P m (insert_mem (list_init_mem m a) h a (node_first h ys))).
  { intros P HP. eapply agree_trans; [apply list_init_mem_agree | by apply insert_mem_agree].
    intros c Hc. by apply HP. }
  set (P := fun c => ~ in_range h 16 c /\ ~ in_range a 16 c /\
                     ~ in_range (node_first h ys) 16 c).
  assert (HagP : agree P m (insert_mem (list_init_mem m a) h a (node_first h ys)))
    by (by apply Hag).
  split; [by apply list_init_run|]. split; [by apply list_insert_after_run|].
  split; [|split].
  - intros j Hj. unfold put. simpl fl. destruct (decide (j = k)) as [->|Hjk].
    + rewrite fupd_eq. apply insert_mem_dll; [done..|]. intros y Hy. by apply (Hfresh k).
    + rewrite fupd_ne by done. eapply dll_agree; [exact HagP| |by apply Hl].
      intros y c Hy Hc. unfold P. pose proof (Hfresh j y Hj Hy).
      pose proof (rings_apart b j k y h Hj Hk Hb Hjk Hy ltac:(set_solver)).
      pose proof (rings_apart b j k y _ Hj Hk Hb Hjk Hy Hfst).
      unfold apart, in_range in *. lia.
  - eapply bits_if_agree; [exact HagP|clear Hg|exact Hg].
    intros j c Hj Hc. unfold P. pose proof (Hbm j Hj).
    pose proof (ring_bitmap_apart b j k h Hj Hk Hb ltac:(set_solver)).
    pose proof (ring_bitmap_apart b j k _ Hj Hk Hb Hfst).
    unfold apart, in_range in *. lia.
  - apply Hag. intros c Hc. split_and!; intros Hr; apply Hc.
    + eapply (ring_writes b k h); [done|tauto|set_solver|done].
    + right; right. exists x. split; [right; unfold in_range; pose proof (pages_pos k); lia|].
      unfold in_range, PAGE_SIZE in *. fold a. lia.
    + eapply (ring_writes b k); [done|tauto|exact Hfst|done].
Qed.

(** ** Updating one bit of a bitmap *)

Lemma bit_step (A : Prop) op b k p v m g :
  binv N b -> (k < MAX_ORDER)%nat -> 0 <= p < N / pages (S k) ->
  (forall i, A -> 0 <= i < 8 ->
     Z.testbit (op (rd8 m (bitmap z k + p / 8)) (p mod 8)) i =
       if decide (i = p mod 8) then v else Z.testbit (rd8 m (bitmap z k + p / 8)) i) ->
  (v = false -> A -> forall j q, pair_in N j q -> g j q = true -> bit_at z j q = bit_at z k p -> j = k /\ q = p) ->
  lists_rep z m (fl b) -> bits_if A m g ->
  exists m', bitmap_update op z k p m = Ret (tt, m') /\
    lists_rep z m' (fl b) /\ bits_if A m' (set_bit k p v g) /\
    (forall C, untouched N z C m m').
Proof.
  intros Hb Hk Hp Hop Hone Hl Hg. destruct (pair_byte k p Hk Hp) as (Hin & Hbyte & Hok).
  unfold bitmap_update. rewrite Hbyte, bind_load, store_ok, ld_1, st_1 by done.
  set (B := bitmap z k + p / 8) in *. set (w := op _ _) in *.
  exists (wr8 m B w). split; [done|].
  assert (Hag : agree (fun a => a <> B) m (wr8 m B w)).
  { intros a Ha. rewrite rd8_wr8. by case_decide. }
  split; [|split].
  - intros j Hj. eapply dll_agree; [exact Hag| |by apply Hl].
    intros y a Hy Ha. pose proof (ring_bitmap_apart b k j y Hk Hj Hb Hy).
    unfold apart, in_range in *. lia.
  - intros HA j q Hq. pose proof (Z.mod_pos_bound q 8).
    assert (Hset : forall i r, set_bit k p v g i r = if decide (i = k /\ r = p) then v else g i r).
    { intros i r. unfold set_bit. destruct (decide (i = k)) as [->|]; [|rewrite fupd_ne by done; case_decide; tauto].
      rewrite fupd_eq. destruct (Z.eqb_spec r p); case_decide; tauto. }
    assert (Hbit : mem_bit z (wr8 m B w) j q = if decide (bit_at z j q = bit_at z k p) then v else mem_bit z m j q).
    { unfold mem_bit. rewrite rd8_wr8. case_decide as HB.
      - rewrite u8_testbit, Hop by (done || lia). case_decide as Hm; case_decide as Hs; [done|..].
        + exfalso. apply Hs, same_bit. by split.
        + exfalso. apply Hm. apply same_bit in Hs. apply Hs.
        + by rewrite HB.
      - case_decide as Hs; [|done]. apply same_bit in Hs. exfalso. apply HB. apply Hs. }
    rewrite Hbit. case_decide as Hs.
    + split.
      * intros ->. exists k, p. split; [done|]. split; [done|]. rewrite Hset. by case_decide; [|tauto].
      * intros (i & r & Hr & Hrs & Hrg). rewrite Hset in Hrg. case_decide as E; [done|].
        destruct v; [done|]. exfalso. apply E. apply Hone; try done. congruence.
    + rewrite (Hg HA j q Hq). split; intros (i & r & Hr & Hrs & Hrg); exists i, r; (split; [done|]); (split; [done|]);
        rewrite Hset in *; (case_decide as E; [|done]); destruct E as [-> ->]; congruence.
  - intros C a Ha. apply Hag. intros ->. apply Ha. right; left. by exists k.
Qed.

Lemma pair_bound k x :
  (k < MAX_ORDER)%nat -> 0 <= x -> x + pages k <= N -> (pages k | x) ->
  0 <= pair_index k x < N / pages (S k).
Proof.
  intros Hk Hx0 HxN Hxd. destruct (zl_pages _ _ Hz) as [_ HN]. pose proof (pages_pos k).
  assert (HN' : (pages (S k) | N)) by (etrans; [by apply pages_divide|done]).
  rewrite pages_S in *. destruct HN' as [n ->]. rewrite Z.div_mul by lia.
  pose proof (buddy_cases k x Hxd) as Hc. simpl in Hc.
  set (q := pair_index k x) in *. split; [apply Z.nlt_ge | apply Z.nle_gt]; intros ?; nia.
Qed.

(** The three uses: the pair's bit is set, cleared, or flipped. *)
Section BitOps.
Context (A : Prop) (b : buddy) (k : nat) (x : Z) (m : mem) (g : nat -> Z -> bool).
Hypothesis Hb : binv N b.
Hypothesis Hk : (k < MAX_ORDER)%nat.
Hypothesis Hx : 0 <= x /\ x + pages k <= N.
Hypothesis Hxd : (pages k | x).
Hypothesis Hl : lists_rep z m (fl b).
Hypothesis Hg : bits_if A m g.

(** No other pair with its bit set shares the bit of this one. *)
Definition alone : Prop :=
  forall j q, pair_in N j q -> g j q = true -> bit_at z j q = bit_at z k (pair_index k x) -> j = k /\ q = pair_index k x.

Lemma bitop_step op v :
  (forall w i, 0 <= i < 8 -> (A -> Z.testbit w (pair_index k x mod 8) = true <-> exists j q, pair_in N j q /\
      bit_at z j q = bit_at z k (pair_index k x) /\ g j q = true) -> A ->
     Z.testbit (op w (pair_index k x mod 8)) i =
       if decide (i = pair_index k x mod 8) then v else Z.testbit w i) ->
  (v = false -> A -> alone) ->
  exists m', bitmap_update op z k (buddy_index z (page_addr z x) k) m = Ret (tt, m') /\
    lists_rep z m' (fl b) /\ bits_if A m' (upd_bit k (pair_index k x) v g) /\
    (forall C, untouched N z C m m').
Proof.
  intros Hop Hone. pose proof (pair_bound k x Hk (proj1 Hx) (proj2 Hx) Hxd) as Hp.
  unfold upd_bit. destruct (Nat.ltb_spec k MAX_ORDER) as [_|]; [|lia].
  rewrite buddy_index_eq by (unfold MAX_ORDER in *; lia).
  apply (bit_step A op b); try done. intros i HA Hi. apply Hop; [done| |exact HA]. intros _. exact (Hg HA k (pair_index k x) (conj Hk Hp)).
Qed.

Lemma set_step :
  exists m', bitmap_update SET_BIT z k (buddy_index z (page_addr z x) k) m = Ret (tt, m') /\
    lists_rep z m' (fl b) /\ bits_if A m' (upd_bit k (pair_index k x) true g) /\
    (forall C, untouched N z C m m').
Proof.
  apply bitop_step; [|done]. intros w i Hi _ _. pose proof (Z.mod_pos_bound (pair_index k x) 8).
  rewrite SET_BIT_testbit by lia. by case_decide; case_bool_decide.
Qed.

Lemma clear_step :
  (A -> alone) ->
  exists m', bitmap_update CLEAR_BIT z k (buddy_index z (page_addr z x) k) m = Ret (tt, m') /\
    lists_rep z m' (fl b) /\ bits_if A m' (upd_bit k (pair_index k x) false g) /\
    (forall C, untouched N z C m m').
Proof.
  intros Hone. apply bitop_step; [|done]. intros w i Hi _ _. pose proof (Z.mod_pos_bound (pair_index k x) 8).
  rewrite CLEAR_BIT_testbit by lia. by case_decide; case_bool_decide.
Qed.

Lemma flip_step :
  g k (pair_index k x) = true -> (A -> alone) ->
  exists m', bitmap_update FLIP_BIT z k (buddy_index z (page_addr z x) k) m = Ret (tt, m') /\
    lists_rep z m' (fl b) /\ bits_if A m' (upd_bit k (pair_index k x) false g) /\
    (forall C, untouched N z C m m').
Proof.
  intros Hset Hone. apply bitop_step; [|done]. intros w i Hi Hw HA.
  pose proof (Z.mod_pos_bound (pair_index k x) 8).
  rewrite FLIP_BIT_testbit by lia. case_decide; case_bool_decide; subst; try done.
  rewrite (proj2 (Hw HA)); [done|]. exists k, (pair_index k x). split; [|done]. split; [done|].
  apply pair_bound; [exact Hk|apply Hx|apply Hx|exact Hxd].
Qed.
End BitOps.

(** ** Splitting *)

Lemma split_block_refines A order d x b m :
  binv N b -> (order + d <= MAX_ORDER)%nat -> 0 <= x -> x + pages (order + d) <= N ->
  (pages (order + d) | x) -> busy b (order + d) x -> zone_if A m b ->
  exists m', split_block z order d (page_addr z x) m = Ret (page_addr z x, m') /\
    zone_if A m' (split_down order d x b) /\
    untouched N z (fun p => cov b p \/ in_range x (pages (order + d)) p) m m'.
Proof.
  revert b m; induction d as [|d IH]; intros b m Hb Hd Hx0 HxN Hxd Hbusy [Hl Hg];
    simpl split_block; simpl split_down.
  - exists m. split; [done|]. split; [done|]. by apply agree_refl.
  - rewrite Nat.add_succ_r in *. set (j := (order + d)%nat) in *.
    pose proof (pages_pos j). rewrite pages_S in HxN.
    assert (Hxj : (pages j | x)) by (etrans; [apply pages_divide|done]; lia).
    assert (Hup : buddy_of j x = x + pages j) by (by apply buddy_upper).
    assert (Hyd : (pages j | buddy_of j x)) by (by apply buddy_divide).
    assert (Hhalf : forall p, in_range x (pages (S j)) p <->
              in_range x (pages j) p \/ in_range (buddy_of j x) (pages j) p).
    { intros p. rewrite Hup, pages_S. unfold in_range. lia. }
    assert (Hlow : busy b j x) by (intros p Hp; apply Hbusy, Hhalf; tauto).
    assert (Hbup : busy b j (buddy_of j x)) by (intros p Hp; apply Hbusy, Hhalf; tauto).
    destruct (set_step A b j x m (bit b)) as (m1 & Hm1 & Hl1 & Hg1 & Hu1); try done; [lia|].
    kstep Hm1. rewrite flip_page_addr by lia.
    destruct (insert_step A b j (buddy_of j x) m1 (upd_bit j (pair_index j x) true (bit b)))
      as (m2 & m3 & Hm2 & Hm3 & Hl3 & Hg3 & Hu3); try done; [lia..|].
    kstep Hm2. kstep Hm3.
    assert (Hput : binv N (put b j (buddy_of j x))).
    { apply put_inv; try done; [lia..|]. intros _. rewrite buddy_involutive.
      by apply busy_not_free. }
    destruct (IH (put b j (buddy_of j x)) m3) as (m' & Hm' & Hrep & Hu); try done; [lia..| | |].
    { intros p Hp. rewrite cov_put. intros [Hc|Hc]; [by eapply Hlow|].
      rewrite Hup in Hc. unfold in_range in *. lia. }
    { split; [done|]. simpl bit.
      replace (pair_index j (buddy_of j x)) with (pair_index j x); [done|].
      symmetry. apply pair_index_eq; auto. }
    exists m'. split; [done|]. split; [done|].
    eapply untouched_trans; [apply Hu1|]. eapply untouched_trans; eapply untouched_mono;
      [exact Hu3| |exact Hu|]; simpl; intros p; rewrite ?cov_put, Hhalf; tauto.
Qed.

(** ** Allocation *)

Lemma take_fl b k l1 x l2 j :
  binv N b -> fl b k = l1 ++ x :: l2 -> fupd (fl b) k (l1 ++ l2) j = fl (take b k x) j.
Proof.
  intros Hb Hfl. unfold take. simpl fl. destruct (decide (j = k)) as [->|Hjk].
  - rewrite !fupd_eq, Hfl. pose proof (bi_nodup _ _ Hb k) as Hn. rewrite Hfl in Hn.
    apply NoDup_app in Hn as (_ & Hn1 & Hn2). apply NoDup_cons in Hn2 as [Hn2 _].
    assert (Hall : forall l : list Z, x ∉ l -> filter (fun y => y <> x) l = l).
    { intros l. induction l as [|y l IH]; intros Hx; [done|].
      rewrite filter_cons_True, IH by set_solver. done. }
    rewrite filter_app, filter_cons_False, !Hall; [done|done| |tauto].
    intros Hx. apply (Hn1 x Hx). set_solver.
  - by rewrite !fupd_ne.
Qed.

Lemma lists_rep_ext m f f' : (forall k, f k = f' k) -> lists_rep z m f -> lists_rep z m f'.
Proof. intros E Hl k Hk. rewrite <- E. by apply Hl. Qed.

Lemma head_of_list b k m x l :
  lists_rep z m (fl b) -> (k <= MAX_ORDER)%nat -> fl b k = x :: l ->
  ld64 m (orders_head z k) = page_addr z x.
Proof. intros Hl Hk Hfl. rewrite (dll_first _ _ _ (Hl k Hk)), Hfl. done. Qed.

(** Taking the first block of a list out, bitmap included. *)
Lemma take_head_step (A : Prop) b k x l m :
  binv N b -> (A -> distinct_bits z (pair_set b)) -> (k <= MAX_ORDER)%nat -> fl b k = x :: l -> zone_if A m b ->
  exists m1 m2, list_extract (page_addr z x) m = Ret (tt, m1) /\
    (if (k <? MAX_ORDER)%nat
     then bitmap_update FLIP_BIT z k (buddy_index z (page_addr z x) k)
     else kret tt) m1 = Ret (tt, m2) /\
    zone_if A m2 (take b k x) /\ untouched N z (cov b) m m2.
Proof.
  intros Hb HA Hk Hfl [Hl Hg].
  assert (Hx : free b k x) by (unfold free; rewrite Hfl; set_solver).
  destruct (bi_range _ _ Hb _ _ Hx) as (_ & Hx0 & HxN & Hxd).
  destruct (extract_step A b k [] x l m (bit b)) as (m1 & Hm1 & Hl1 & Hg1 & Hu1); try done.
  apply (lists_rep_ext _ _ (fl (take b k x))) in Hl1; [|by intros j; apply (take_fl b k [])].
  exists m1. destruct (Nat.ltb_spec k MAX_ORDER) as [Hlt|Hge].
  - assert (Hbit : bit b k (pair_index k x) = true).
    { rewrite (bi_bit _ _ Hb) by (done || (pose proof (pages_pos k); lia)).
      by rewrite (bool_decide_true (x ∈ fl b k)). }
    destruct (flip_step A (take b k x) k x m1 (bit b)) as (m2 & Hm2 & Hl2 & Hg2 & Hu2); try done.
    { by apply take_inv. }
    { intros HAA j q Hq Hqb Hs. apply (HA HAA); [by split| |done]. split; [|done].
      apply pair_index_in; [apply Hb|done|]. pose proof (pages_pos k). lia. }
    exists m2. split_and!; try done. eapply untouched_trans; [done|apply Hu2].
  - exists m1. split_and!; try done.
    split; [done|]. unfold take. simpl bit. unfold upd_bit.
    destruct (Nat.ltb_spec k MAX_ORDER); [lia|done].
Qed.

(** The representation lives outside the busy blocks. *)
Lemma zone_if_busy A b k x m m' :
  binv N b -> (k <= MAX_ORDER)%nat -> 0 <= x -> x + pages k <= N -> (pages k | x) ->
  busy b k x ->
  agree (fun a => ~ in_range (page_addr z x) (PAGE_SIZE * pages k) a) m m' ->
  zone_if A m b -> zone_if A m' b.
Proof.
  intros Hb Hk Hx0 HxN Hxd Hbusy Hag [Hl Hg].
  destruct (in_zone x k Hx0 HxN) as [Hlo Hhi]. split.
  - intros j Hj. eapply dll_agree; [exact Hag| |by apply Hl].
    intros y a Hy Ha Hr. apply ring_elem in Hy as [->|(y' & -> & Hy')].
    + pose proof (head_bounds j Hj). pose proof (zl_heads_zone _ _ Hz).
      unfold apart, in_range in *. lia.
    + pose proof (busy_apart _ _ _ _ _ _ Hb Hbusy Hy' Hxd). pose proof (pages_pos j).
      unfold apart, in_range, page_addr, PAGE_SIZE in *. lia.
  - eapply bits_if_agree; [exact Hag| |exact Hg].
    intros j a Hj Ha Hr. pose proof (zl_bitmaps_zone _ _ Hz j Hj).
    unfold apart, in_range in *. lia.
Qed.

(** The representation, as what holds under its own assumption. *)
Lemma zone_rep_if m b : zone_rep N z m b <-> zone_if (clean b /\ distinct_bits z (live N b)) m b.
Proof. unfold zone_rep, bits_rep, zone_if, bits_if. tauto. Qed.

Lemma zone_rep_busy b k x m m' :
  binv N b -> (k <= MAX_ORDER)%nat -> 0 <= x -> x + pages k <= N -> (pages k | x) ->
  busy b k x ->
  agree (fun a => ~ in_range (page_addr z x) (PAGE_SIZE * pages k) a) m m' ->
  zone_rep N z m b -> zone_rep N z m' b.
Proof. rewrite !zone_rep_if. apply zone_if_busy. Qed.

(** The block of order [i] just taken is split down to [order] and zeroed. *)
Lemma alloc_tail_refines A order i x b m :
  binv N b -> free b i x -> (order <= i)%nat -> zone_if A m (take b i x) ->
  exists m', (let! block := split_block z order (i - order) (page_addr z x) in
              memset block 0 (block_bytes order) ;; kret block)%K m
             = Ret (page_addr z x, m') /\
    zone_if A m' (split_down order (i - order) x (take b i x)) /\
    untouched N z (cov b) m m' /\
    (forall a, in_range (page_addr z x) (PAGE_SIZE * pages order) a -> rd8 m' a = 0).
Proof.
  intros Hb Hx Ho Hrep. destruct (bi_range _ _ Hb _ _ Hx) as (Hi & Hx0 & HxN & Hxd).
  assert (order + (i - order) = i)%nat as Ei by lia.
  pose proof (pages_le order i Ho) as Hple. pose proof (pages_pos order).
  assert (Hinv : binv N (take b i x)) by (by apply take_inv).
  assert (Hbusy : busy (take b i x) i x) by (by eapply take_busy).
  destruct (split_block_refines A order (i - order) x (take b i x) m) as (m1 & Hm1 & Hr1 & Hu1);
    rewrite ?Ei; try done.
  destruct (split_down_inv N order (i - order) x (take b i x)) as [Hinv' Hcov'];
    rewrite ?Ei in *; try done.
  kstep Hm1. destruct (in_zone x order Hx0 ltac:(lia)) as [Hlo Hhi].
  rewrite block_bytes_eq by lia. pose proof (page_bytes order).
  destruct (memset_ok (page_addr z x) 0 (PAGE_SIZE * pages order) m1) as (m2 & Hm2 & Hf);
    [lia|apply kok_spec; lia|].
  kstep Hm2. exists m2. split; [done|].
  assert (Hxo : (pages order | x)) by (etrans; [apply pages_divide|exact Hxd]; lia).
  split; [|split].
  - eapply (zone_if_busy A _ order x); [done|lia|done|lia|done| | |exact Hr1].
    + intros p Hp. rewrite Hcov'. intros [Hc|[_ Hn]]; [|done].
      apply (Hbusy p); [unfold in_range in *; lia|done].
    + by eapply filled_agree.
  - eapply untouched_trans.
    + eapply untouched_mono; [exact Hu1|]. simpl. intros p [Hc|Hc].
      * apply (cov_take N) in Hc; tauto.
      * by exists i, x.
    + intros a Ha. rewrite Hf. case_decide as Hr; [|done]. exfalso. apply Ha.
      right; right. exists (x + (a - page_addr z x) / PAGE_SIZE). split.
      * exists i, x. split; [done|]. pose proof (Z.div_pos (a - page_addr z x) PAGE_SIZE).
        unfold in_range in *.
        assert ((a - page_addr z x) / PAGE_SIZE < pages order).
        { apply Z.div_lt_upper_bound; unfold PAGE_SIZE in *; lia. }
        unfold PAGE_SIZE in *. lia.
      * pose proof (Z.div_mod (a - page_addr z x) PAGE_SIZE).
        pose proof (Z.mod_pos_bound (a - page_addr z x) PAGE_SIZE).
        unfold in_range, page_addr, PAGE_SIZE in *. lia.
  - intros a Ha. rewrite Hf. by case_decide.
Qed.

Lemma zone_alloc_larger_refines (A : Prop) order i n b m :
  binv N b -> (A -> distinct_bits z (pair_set b)) -> (order <= i)%nat -> (i + n = S MAX_ORDER)%nat -> zone_if A m b ->
  match search b i n with
  | None => zone_alloc_larger z order i n m = Ret (NULL, m)
  | Some (k, x) => exists m',
      zone_alloc_larger z order i n m = Ret (page_addr z x, m') /\
      zone_if A m' (split_down order (k - order) x (take b k x)) /\
      untouched N z (cov b) m m' /\
      (forall a, in_range (page_addr z x) (PAGE_SIZE * pages order) a -> rd8 m' a = 0)
  end.
Proof.
  intros Hb HA. revert i; induction n as [|n IH]; intros i Hoi Hi Hrep; simpl; [done|].
  pose proof Hrep as [Hl Hg]. assert (Hik : (i <= MAX_ORDER)%nat) by lia.
  kstep (list_empty_ok _ _ _ (Hl i Hik)).
  destruct (fl b i) as [|x l] eqn:Hfl.
  - apply IH; [lia..|done].
  - rewrite bool_decide_false by done.
    rewrite bind_load by (by apply node_ok_next, head_ok).
    rewrite (head_of_list b i m x l) by done.
    destruct (take_head_step A b i x l m) as (m1 & m2 & Hm1 & Hm2 & Hrep2 & Hu2); try done.
    kstep Hm1. kstep Hm2.
    destruct (alloc_tail_refines A order i x b m2) as (m' & Hm' & Hrep' & Hu' & Hzero); try done.
    { unfold free. rewrite Hfl. set_solver. }
    exists m'. split_and!; try done. by eapply untouched_trans.
Qed.

Lemma zone_alloc_if (A : Prop) order b m :
  binv N b -> (A -> distinct_bits z (pair_set b)) -> (order < MAX_ORDER)%nat -> zone_if A m b ->
  match b_alloc b order with
  | None => zone_alloc z order m = Ret (NULL, m)
  | Some (x, b') => exists m',
      zone_alloc z order m = Ret (page_addr z x, m') /\ zone_if A m' b' /\
      untouched N z (cov b) m m' /\
      (forall a, in_range (page_addr z x) (PAGE_SIZE * pages order) a -> rd8 m' a = 0)
  end.
Proof.
  intros Hb HA Ho Hrep. pose proof Hrep as [Hl Hg]. unfold zone_alloc.
  assert (Hz0 : zone_addr z =? NULL = false).
  { pose proof (zl_heads _ _ Hz) as [H1 _]%kok_spec. apply Z.eqb_neq.
    unfold NULL, KERNEL_HIGHER_HALF_START in *. lia. }
  rewrite Hz0, !kassert_true by (try done; apply Nat.leb_le; lia).
  kstep (list_empty_ok _ _ _ (Hl order ltac:(lia))).
  assert (Hloop := zone_alloc_larger_refines A order order (S MAX_ORDER - order) b m Hb HA
                     ltac:(lia) ltac:(lia) Hrep).
  unfold b_alloc. replace (S MAX_ORDER - order)%nat with (S (MAX_ORDER - order)) in * by lia.
  simpl search in *. destruct (fl b order) as [|x l] eqn:Hfl.
  - simpl bool_decide. destruct (search _ _ _) as [[k x]|]; done.
  - rewrite bool_decide_false by done. cbv beta iota delta [negb].
    rewrite bind_load by (apply node_ok_next, head_ok; lia).
    rewrite (head_of_list b order m x l) by (done || lia).
    destruct (take_head_step A b order x l m) as (m1 & m2 & Hm1 & Hm2 & Hrep2 & Hu2); try done; [lia|].
    kstep Hm1. destruct (Nat.ltb_spec order MAX_ORDER) as [_|]; [|lia]. kstep Hm2.
    destruct (alloc_tail_refines A order order x b m2) as (m' & Hm' & Hrep' & Hu' & Hzero); try done.
    { unfold free. rewrite Hfl. set_solver. }
    exists m'. split_and!; try done; [|by eapply untouched_trans].
    rewrite Nat.sub_diag in Hm'. exact Hm'.
Qed.

(** [zone_alloc] is [b_alloc], below the maximal order. *)
Lemma zone_alloc_refines order b m :
  binv N b -> (order < MAX_ORDER)%nat -> zone_rep N z m b ->
  match b_alloc b order with
  | None => zone_alloc z order m = Ret (NULL, m)
  | Some (x, b') => exists m',
      zone_alloc z order m = Ret (page_addr z x, m') /\ zone_rep N z m' b' /\
      untouched N z (cov b) m m' /\
      (forall a, in_range (page_addr z x) (PAGE_SIZE * pages order) a -> rd8 m' a = 0)
  end.
Proof.
  intros Hb Ho Hrep. destruct (b_alloc b order) as [[x b']|] eqn:Hal.
  - destruct (b_alloc_Some N b order x b' Hb ltac:(lia) Hal) as (Hb' & _ & _ & _ & _ & Hcov).
    assert (Hmono : distinct_bits z (live N b') -> distinct_bits z (live N b)).
    { intros Hd j p k q Hp Hq. apply Hd; (eapply live_mono; [|done]); intros r Hr; by apply Hcov. }
    pose proof (zone_alloc_if (clean b /\ distinct_bits z (live N b')) order b m Hb) as H. rewrite Hal in H.
    destruct H as (m' & Hrun & [Hl Hg] & H); [intros [_ Hd]; by apply set_distinct, Hmono|done| |].
    + destruct Hrep as [Hl Hg]. split; [done|]. intros [Hc Hd]. by apply Hg, Hmono.
    + exists m'. split; [done|]. split; [|done]. split; [done|]. intros Hc Hd. apply Hg. split; [|done].
      by rewrite <- (b_alloc_clean b order x b' Hal).
  - pose proof (zone_alloc_if False order b m Hb) as H. rewrite Hal in H. apply H; [done|done|].
    by split; [apply Hrep|intros []].
Qed.

(** ** Deallocation *)

Lemma min_page_addr x y :
  (if page_addr z y <? page_addr z x then page_addr z y else page_addr z x) =
  page_addr z (Z.min x y).
Proof. unfold page_addr, PAGE_SIZE. destruct (Z.ltb_spec (start_addr z + 4096 * y)
  (start_addr z + 4096 * x)); f_equal; lia. Qed.

(** [D] are the pairs in use when the operation begins. *)
Lemma zone_dealloc_loop_refines D n b x k m :
  distinct_bits z D -> (forall j q, pair_set b j q -> D j q) ->
  (forall j, (k <= j < MAX_ORDER)%nat -> D j (pair_index j x)) ->
  binv N b -> (k + n = MAX_ORDER)%nat -> 0 <= x -> x + pages k <= N -> (pages k | x) ->
  busy b k x -> zone_if True m b ->
  exists y fo b' m',
    zone_dealloc_loop z (page_addr z x) k n m = Ret ((page_addr z y, fo), m') /\
    coalesce b x k n = put b' fo y /\
    (binv N b' /\ (fo <= MAX_ORDER)%nat /\ 0 <= y /\ y + pages fo <= N /\ (pages fo | y) /\
     busy b' fo y) /\
    lists_rep z m' (fl b') /\ bits_if True m' (bit (put b' fo y)) /\
    (y <= x /\ x + pages k <= y + pages fo) /\
    untouched N z (cov b) m m' /\
    (forall p, cov b' p \/ in_range y (pages fo) p -> cov b p \/ in_range x (pages k) p).
Proof.
  intros HD. revert b x k m; induction n as [|n IH]; intros b x k m Hset Hpath Hb Hk Hx0 HxN Hxd Hbusy Hrep;
    pose proof Hrep as [Hl Hg]; simpl zone_dealloc_loop; simpl coalesce.
  - exists x, k, b, m. assert (k = MAX_ORDER) as -> by lia.
    split_and!; done.
  - assert (Hk' : (k < MAX_ORDER)%nat) by lia. pose proof (pages_pos k).
    pose proof (pair_bound k x Hk' Hx0 HxN Hxd) as Hp.
    destruct (pair_byte k _ Hk' Hp) as (_ & Hbyte & Hok).
    pose proof (Z.mod_pos_bound (pair_index k x) 8).
    assert (Halone : alone k x (bit b)).
    { intros j q Hq Hqb Hs. by apply HD; [apply Hset; split|apply Hpath; lia|]. }
    assert (Hread : mem_bit z m k (pair_index k x) = bit b k (pair_index k x)).
    { apply eq_true_iff_eq. rewrite (Hg I k (pair_index k x) (conj Hk' Hp)). split.
      - intros (j & q & Hq & Hs & Hqb). by destruct (Halone j q Hq Hqb Hs) as [-> ->].
      - intros Hqb. by exists k, (pair_index k x). }
    rewrite buddy_index_eq, Hbyte, bind_load, ld_1, GET_BIT_testbit by (done || lia).
    fold (mem_bit z m k (pair_index k x)). rewrite Hread.
    rewrite flip_page_addr by done.
    destruct (bit b k (pair_index k x)) eqn:Ebit; simpl (_ =? 0); cbv iota.
    + assert (Hbud : free b k (buddy_of k x)).
      { rewrite (bi_bit _ _ Hb) in Ebit by (done || lia).
        rewrite bool_decide_false in Ebit by (by apply busy_not_free).
        by apply bool_decide_eq_true in Ebit. }
      destruct (clear_step True b k x m (bit b)) as (m1 & Hm1 & Hl1 & Hg1 & Hu1); try done.
      rewrite buddy_index_eq in Hm1 by lia. kstep Hm1.
      apply list_elem_of_split in Hbud as Hsplit. destruct Hsplit as (l1 & l2 & Hfl).
      destruct (extract_step True b k l1 (buddy_of k x) l2 m1 _ Hb ltac:(lia) Hfl Hl1 Hg1)
        as (m2 & Hm2 & Hl2 & Hg2 & Hu2).
      kstep Hm2. rewrite min_page_addr.
      destruct (bi_range _ _ Hb _ _ Hbud) as (_ & Hy0 & HyN & Hyd).
      assert (Hpair : pair_index k (buddy_of k x) = pair_index k x) by (apply pair_index_eq; auto).
      assert (Hmin : 0 <= Z.min x (buddy_of k x) /\ Z.min x (buddy_of k x) + pages (S k) <= N /\
                     Z.min x (buddy_of k x) <= x /\
                     x + pages k <= Z.min x (buddy_of k x) + pages (S k)).
      { rewrite pages_S. destruct (buddy_cases k x Hxd) as [[? E]|[? E]]; rewrite E in *; lia. }
      destruct (IH (take b k (buddy_of k x)) (Z.min x (buddy_of k x)) (S k) m2)
        as (y & fo & b' & m' & Hrun & Hco & Hy & Hl' & Hg' & Hxy & Hu' & Hc'); try tauto.
      { intros j q [Hq Hqb]. apply Hset. split; [done|]. unfold take in Hqb. cbn [bit] in Hqb. rewrite bit_upd in Hqb.
        by case_decide. }
      { intros j Hj. rewrite (pair_index_above k j _ x); [apply Hpath; lia|lia|].
        destruct (Z.min_spec x (buddy_of k x)) as [[_ ->]|[_ ->]]; [done|exact Hpair]. }
      { by apply take_inv. }
      { lia. }
      { by apply buddy_min. }
      { intros p Hp'. rewrite (cov_take N) by done. intros [Hc Hn].
        apply buddy_merge in Hp' as [Hp'|Hp']; [by eapply Hbusy | done | done]. }
      { split.
        - eapply lists_rep_ext; [|exact Hl2]. intros j. by apply take_fl.
        - unfold take. simpl bit. by rewrite Hpair. }
      exists y, fo, b', m'. split_and!; try done; try tauto; [lia|lia| |].
      * eapply untouched_trans; [apply Hu1|]. eapply untouched_trans; [exact Hu2|].
        eapply untouched_mono; [exact Hu'|]. intros p Hc. apply (cov_take N) in Hc; tauto.
      * intros p Hc. apply Hc' in Hc. rewrite (cov_take N), buddy_merge in Hc by done.
        destruct Hc as [[Hc _]|[Hc|Hc]]; [by left|by right|left; by exists k, (buddy_of k x)].
    + destruct (set_step True b k x m (bit b)) as (m1 & Hm1 & Hl1 & Hg1 & Hu1); try done.
      rewrite buddy_index_eq in Hm1 by lia. kstep Hm1. exists x, k, b, m1. split_and!; try done; try lia.
Qed.

Lemma zone_dealloc_refines order x b m :
  clean b -> distinct_bits z (live N b) -> binv N b -> (order <= MAX_ORDER)%nat -> 0 <= x -> x + pages order <= N ->
  (pages order | x) -> busy b order x -> zone_rep N z m b ->
  exists m', zone_dealloc z (page_addr z x) order m = Ret (tt, m') /\
    zone_rep N z m' (b_free b x order) /\
    untouched N z (fun p => cov b p \/ in_range x (pages order) p) m m'.
Proof.
  intros Hcl Hd Hb Ho Hx0 HxN Hxd Hbusy Hrep. unfold zone_dealloc, b_free.
  assert (Hz0 : zone_addr z =? NULL = false).
  { pose proof (zl_heads _ _ Hz) as [H1 _]%kok_spec. apply Z.eqb_neq.
    unfold NULL, KERNEL_HIGHER_HALF_START in *. lia. }
  assert (Hal : forall k, (k <= MAX_ORDER)%nat -> exists q, start_addr z = q * 2 ^ (12 + Z.of_nat k)).
  { intros k Hk. destruct (zl_aligned _ _ Hz) as [s Hs]. destruct (pages_divide k _ Hk) as [c Hc].
    exists (s * c). rewrite Hs, Hc, Z.pow_add_r by lia. unfold pages, PAGE_SIZE.
    change (2 ^ 12) with 4096. lia. }
  assert (Hround : forall k w y, (k <= MAX_ORDER)%nat -> (pages k | y) -> y <= w < y + pages k ->
            Z.land (page_addr z w) (Z.lnot (Z.shiftl 1 (12 + Z.of_nat k) - 1)) = page_addr z y).
  { intros k w y Hk [c ->] Hw. rewrite land_lnot_mask by lia. destruct (Hal k Hk) as [q Hq].
    unfold page_addr. rewrite Hq, Z.pow_add_r by lia. change (2 ^ Z.of_nat k) with (pages k).
    change (2 ^ 12) with 4096. unfold PAGE_SIZE. pose proof (pages_pos k).
    replace (q * (4096 * pages k) + 4096 * w) with
      (4096 * (w - c * pages k) + (q + c) * (4096 * pages k)) by lia.
    rewrite Z.div_add, Z.div_small by lia. lia. }
  rewrite Hz0, !kassert_true; [|by apply Nat.leb_le| |done].
  2:{ apply Z.eqb_eq. change (PAGE_SIZE - 1) with (Z.shiftl 1 (12 + Z.of_nat 0) - 1).
      apply Hround; [lia | apply Z.divide_1_l | change (pages 0) with 1; lia]. }
  destruct (zone_dealloc_loop_refines (live N b) (MAX_ORDER - order) b x order m)
    as (y & fo & b' & m1 & Hrun & Hco & (Hb' & Hfo & Hy0 & HyN & Hyd & Hbusy') & Hl1 & Hg1 &
        Hxy & Hu1 & Hc1); try done.
  { intros j q [Hq Hqb]. by apply bit_live. }
  { intros j Hj. pose proof (pages_pos order). apply (busy_live N b order); [done|lia|lia|done]. }
  { lia. }
  { split; [apply Hrep|]. intros _. by apply Hrep. }
  kstep Hrun. cbv beta iota. pose proof (pages_pos order).
  rewrite kassert_true by (apply Z.eqb_eq, Hround; [done..|lia]).
  destruct (insert_step True b' fo y m1 _ Hb' Hfo Hy0 HyN Hyd Hbusy' Hl1 Hg1)
    as (m2 & m3 & Hm2 & Hm3 & Hl3 & Hg3 & Hu3).
  kstep Hm2. exists m3. split; [exact Hm3|]. rewrite Hco. split; [split; [exact Hl3|intros _ _; exact (Hg3 I)]|].
  eapply untouched_trans; eapply untouched_mono; [exact Hu1| |exact Hu3|]; simpl; auto.
Qed.
End Zone.
