(* ===== verification/FrameZones.v ===== *)
(** * The frame allocator over all its zones

    [frames_alloc] and [frames_free] on a list of zones with disjoint
    footprints: first fit over the zones, and the choice of the zone by
    address. [fa_good] is the invariant of the whole allocator. *)

From S2P Require Import Prelude Mem Common DList Buddy Paging FrameAlloc FrameRefine.

(** ** pages2order: the least power of two *)

Definition order_of (n : Z) : nat := Z.to_nat (Z.log2_up n).

Lemma order_of_spec n : 0 < n -> n <= pages (order_of n) /\ (forall k, n <= pages k -> (order_of n <= k)%nat).
Proof.
  intros Hn. unfold order_of, pages. pose proof (Z.log2_up_nonneg n).
  rewrite Z2Nat.id by done. split; [by apply Z.log2_up_le_pow2|].
  intros k Hk%Z.log2_up_le_pow2; lia.
Qed.

Lemma order_of_bound n k : 0 < n <= pages k -> (order_of n <= k)%nat.
Proof. intros [? ?]. by apply order_of_spec. Qed.

Lemma pages2order_loop_ok {St : Type} fuel k n (s : St) :
  0 <= n <= 1024 -> (k <= order_of n)%nat -> (order_of n < k + fuel)%nat ->
  pages2order_loop fuel k n s = Ret (order_of n, s).
Proof.
  intros Hn. revert k; induction fuel as [|fuel IH]; intros k Hk Hf; [lia|]. simpl.
  replace (s32 n) with n by (unfold s32; rewrite Z.mod_small; lia).
  rewrite Z.shiftl_1_l. change (2 ^ Z.of_nat k) with (pages k).
  destruct (Z.ltb_spec (pages k) n) as [Hlt|Hge].
  - pose proof (pages_pos k). apply IH; [|lia].
    destruct (order_of_spec n ltac:(lia)) as [Ho _].
    destruct (decide (order_of n = k)) as [E|]; [rewrite E in Ho|]; lia.
  - unfold kret. do 2 f_equal. destruct (decide (0 < n)) as [Hp|Hp].
    + pose proof (proj2 (order_of_spec n Hp) k Hge). lia.
    + unfold order_of in *. rewrite Z.log2_up_nonpos in * by lia. simpl in *. lia.
Qed.

Lemma pages2order_ok {St : Type} n (s : St) :
  0 <= n <= 1024 -> pages2order n s = Ret (order_of n, s).
Proof.
  intros Hn. unfold pages2order. change (Z.shiftl 1 (Z.of_nat MAX_ORDER)) with 1024.
  rewrite kassert_true by (apply Z.leb_le; lia).
  apply pages2order_loop_ok; [done|lia|].
  destruct (decide (0 < n)) as [Hp|Hp].
  - pose proof (order_of_bound n 10 ltac:(change (pages 10) with 1024; lia)).
    unfold MAX_ORDER. lia.
  - unfold order_of, MAX_ORDER. rewrite Z.log2_up_nonpos by lia. simpl. lia.
Qed.

(** ** The zones *)

(** A zone, its number of pages and its abstract state. *)
Abbreviation zone_st := (allocator_zone * Z * buddy)%type.

Definition zone_good (m : mem) (e : zone_st) : Prop :=
  let '(z, N, b) := e in zone_layout z N /\ binv N b /\ zone_rep N z m b.

(** Every byte the zone owns: its list heads, its bitmaps, all its pages. *)
Definition footprint (e : zone_st) (a : Z) : Prop :=
  let '(z, N, b) := e in zone_writes N z (fun p => 0 <= p < N) a.

Fixpoint zones_sep (l : list zone_st) : Prop :=
  match l with
  | [] => True
  | e :: l => (forall e' a, e' ∈ l -> footprint e a -> ~ footprint e' a) /\ zones_sep l
  end.

Definition fa_good (m : mem) (l : list zone_st) : Prop := Forall (zone_good m) l /\ zones_sep l.

(** The zone records of a list of zone states. *)
Definition zones_of (l : list zone_st) : list allocator_zone := (fun e => e.1.1) <$> l.

(** A free byte, and a byte of the allocator's own structures. *)
Definition free_byte (l : list zone_st) (a : Z) : Prop :=
  exists z N b p, (z, N, b) ∈ l /\ cov b p /\ in_range (page_addr z p) PAGE_SIZE a.
Definition meta_byte (l : list zone_st) (a : Z) : Prop :=
  exists z N b, (z, N, b) ∈ l /\ zone_writes N z (fun _ => False) a.

Lemma cov_range N b p : binv N b -> cov b p -> 0 <= p < N.
Proof.
  intros Hb (k & x & Hx & Hp). destruct (bi_range _ _ Hb _ _ Hx) as (_ & ? & ? & _).
  unfold in_range in Hp. lia.
Qed.

(** The representation only depends on the zone's own bytes. *)
Lemma zone_good_agree P m m' e :
  agree P m m' -> (forall a, footprint e a -> P a) -> zone_good m e -> zone_good m' e.
Proof.
  destruct e as [[z N] b]. intros Hag HP (Hz & Hb & Hl & Hg). split; [done|]. split; [done|]. split.
  - intros k Hk. eapply dll_agree; [exact Hag| |by apply Hl].
    intros y a Hy Ha. apply HP. eapply (ring_writes z N b k); [done| |exact Hy|done].
    intros p Hp. by eapply cov_range.
  - eapply (bits_rep_agree z N Hz); [exact Hag| |exact Hg].
    intros k a Hk Ha. apply HP. right; left. by exists k.
Qed.

Lemma untouched_footprint z N b m m' :
  binv N b -> untouched N z (cov b) m m' -> agree (fun a => ~ footprint (z, N, b) a) m m'.
Proof.
  intros Hb Hu. eapply (untouched_mono _ _ _ (fun p => 0 <= p < N)) in Hu; [exact Hu|].
  intros p Hp. by eapply cov_range.
Qed.

(** Replacing the abstract state of a zone keeps the footprints apart. *)
Lemma zones_sep_insert l i z N b b' :
  l !! i = Some (z, N, b) -> zones_sep l -> zones_sep (<[i := (z, N, b')]> l).
Proof.
  revert i; induction l as [|e l IH]; intros i Hi Hs; [done|]. destruct Hs as [Hs1 Hs2].
  destruct i as [|i]; simpl in *.
  - injection Hi as ->. split; [|done]. intros e' a He' Ha. by apply Hs1.
  - split; [|by eapply IH]. intros e' a He' Ha Ha'.
    apply list_elem_of_lookup in He' as [j Hj].
    destruct (decide (j = i)) as [->|Hji].
    + rewrite list_lookup_insert_eq in Hj by (by eapply lookup_lt_Some).
      injection Hj as <-. eapply (Hs1 (z, N, b)); [by eapply list_elem_of_lookup_2|done|done].
    + rewrite list_lookup_insert_ne in Hj by done.
      by eapply (Hs1 e'); [eapply list_elem_of_lookup_2|..].
Qed.

Lemma zones_sep_lookup l i j e e' a :
  zones_sep l -> l !! i = Some e -> l !! j = Some e' -> i <> j ->
  footprint e a -> ~ footprint e' a.
Proof.
  revert i j; induction l as [|e0 l IH]; intros i j Hs Hi Hj Hij Ha; [done|].
  destruct Hs as [Hs1 Hs2]. destruct i as [|i], j as [|j]; simpl in *; [done|..].
  - injection Hi as ->. apply Hs1; [by eapply list_elem_of_lookup_2|done].
  - injection Hj as ->. intros Ha'. by eapply Hs1; [eapply list_elem_of_lookup_2|..].
  - eapply (IH i j); eauto.
Qed.

(** One zone changes its memory; the invariant holds with its new state. *)
Lemma fa_good_insert m m' l i z N b b' :
  fa_good m l -> l !! i = Some (z, N, b) -> zone_good m' (z, N, b') ->
  agree (fun a => ~ footprint (z, N, b) a) m m' ->
  fa_good m' (<[i := (z, N, b')]> l).
Proof.
  intros [Hg Hs] Hi Hz Hag. split; [|by eapply zones_sep_insert].
  apply Forall_lookup. intros j e Hj. destruct (decide (j = i)) as [->|Hji].
  - rewrite list_lookup_insert_eq in Hj by (by eapply lookup_lt_Some). by injection Hj as <-.
  - rewrite list_lookup_insert_ne in Hj by done.
    eapply zone_good_agree; [exact Hag| |by eapply Forall_lookup_1].
    intros a Ha. by eapply (zones_sep_lookup l j i).
Qed.

Lemma zones_of_insert l i z N b b' :
  l !! i = Some (z, N, b) -> zones_of (<[i := (z, N, b')]> l) = zones_of l.
Proof.
  intros Hi. unfold zones_of. rewrite list_fmap_insert. apply list_insert_id.
  by rewrite list_lookup_fmap, Hi.
Qed.

(** ** frames_alloc: first fit *)

Definition zone_alloc_result (e : zone_st) (order : nat) : option (Z * buddy) := b_alloc e.2 order.

Lemma frames_alloc_loop_ok order l m :
  Forall (zone_good m) l -> (order < MAX_ORDER)%nat ->
  (frames_alloc_loop (zones_of l) order m = Ret (NULL, m) /\
   forall e, e ∈ l -> zone_alloc_result e order = None) \/
  (exists i z N b x b' m',
     l !! i = Some (z, N, b) /\ b_alloc b order = Some (x, b') /\
     frames_alloc_loop (zones_of l) order m = Ret (page_addr z x, m') /\
     zone_good m' (z, N, b') /\ untouched N z (cov b) m m' /\
     (forall a, in_range (page_addr z x) (PAGE_SIZE * pages order) a -> rd8 m' a = 0)).
Proof.
  intros Hg Ho. induction l as [|[[z N] b] l IH]; simpl.
  { left. split; [done|]. intros e He. by apply not_elem_of_nil in He. }
  apply Forall_cons in Hg as [(Hz & Hb & Hrep) Hg].
  pose proof (zone_alloc_refines z N Hz order b m Hb Ho Hrep) as Hal.
  destruct (b_alloc b order) as [[x b']|] eqn:Eal.
  - right. destruct Hal as (m' & Hrun & Hrep' & Hu & Hzero).
    destruct (b_alloc_Some N b order x b' Hb ltac:(lia) Eal) as (Hb' & Hx0 & HxN & _).
    destruct (in_zone z N Hz x order Hx0 HxN) as [Hlo _].
    exists 0%nat, z, N, b, x, b', m'. split_and!; try done.
    kstep Hrun. destruct (Z.eqb_spec (page_addr z x) NULL) as [E|_]; [|done].
    exfalso. unfold NULL, KERNEL_HIGHER_HALF_START in *. lia.
  - kstep Hal. simpl. destruct (IH Hg) as [[Hrun Hnone]|(i & z' & N' & b0 & x & b' & m' & Hi & H)].
    + left. split; [done|]. intros e [->|He]%elem_of_cons; [done|by apply Hnone].
    + right. by exists (S i), z', N', b0, x, b', m'.
Qed.

(** ** frames_free: the zone is found by address *)

Lemma page_in_footprint z N b x a :
  0 <= x < N -> in_range (page_addr z x) PAGE_SIZE a -> footprint (z, N, b) a.
Proof. intros Hx Ha. right; right. by exists x. Qed.

Lemma frames_free_loop_skip l1 l2 z N b x order m :
  Forall (zone_good m) (l1 ++ (z, N, b) :: l2) -> zones_sep (l1 ++ (z, N, b) :: l2) ->
  0 <= x < N ->
  frames_free_loop (zones_of (l1 ++ (z, N, b) :: l2)) (page_addr z x) order m =
  zone_dealloc z (page_addr z x) order m.
Proof.
  induction l1 as [|[[z0 N0] b0] l1 IH]; simpl; intros Hg Hs Hx.
  - apply Forall_cons in Hg as [(Hz & _) _]. destruct (zl_end _ _ Hz) as [He _].
    unfold page_addr in *. rewrite He, (proj2 (Z.leb_le _ _)), (proj2 (Z.ltb_lt _ _));
      unfold PAGE_SIZE in *; (done || lia).
  - apply Forall_cons in Hg as [(Hz0 & _) Hg]. destruct Hs as [Hs1 Hs2].
    destruct (zl_end _ _ Hz0) as [He0 _].
    destruct (_ && _) eqn:Hin; [|by apply IH]. exfalso.
    apply andb_true_iff in Hin as [H1%Z.leb_le H2%Z.ltb_lt].
    eapply (Hs1 (z, N, b) (page_addr z x)); [set_solver| |].
    + eapply (page_in_footprint z0 N0 b0 ((page_addr z x - start_addr z0) / PAGE_SIZE)).
      * split; [apply Z.div_pos; unfold PAGE_SIZE; lia|].
        apply Z.div_lt_upper_bound; unfold PAGE_SIZE in *; lia.
      * set (a := page_addr z x) in *. unfold in_range, page_addr.
        pose proof (Z.div_mod (a - start_addr z0) PAGE_SIZE).
        pose proof (Z.mod_pos_bound (a - start_addr z0) PAGE_SIZE).
        unfold PAGE_SIZE in *. lia.
    + eapply (page_in_footprint _ _ _ x); [done|]. unfold in_range, PAGE_SIZE. lia.
Qed.

(** A new zone, apart from the others, joins them. *)
Lemma fa_good_app m m' l z N b :
  fa_good m l -> zone_good m' (z, N, b) ->
  (forall e a, e ∈ l -> footprint e a -> ~ footprint (z, N, b) a) ->
  agree (fun a => ~ footprint (z, N, b) a) m m' ->
  fa_good m' (l ++ [(z, N, b)]).
Proof.
  intros [Hg Hs] Hz Hsep Hag. split.
  - apply Forall_app. split; [|by constructor]. apply Forall_forall. intros e He.
    rewrite Forall_forall in Hg. eapply zone_good_agree; [exact Hag| |by apply Hg].
    intros a Ha. by eapply Hsep.
  - clear Hg Hag. induction l as [|e l IH]; simpl in *.
    + split; [|done]. intros e' a He. by apply not_elem_of_nil in He.
    + destruct Hs as [Hs1 Hs2]. split.
      * intros e' a [He'|He'%list_elem_of_singleton]%elem_of_app Ha; [by apply Hs1|].
        subst e'. apply (Hsep e a); [|done]. apply elem_of_cons. by left.
      * apply IH; [done|]. intros e' a He'. apply Hsep. apply elem_of_cons. by right.
Qed.
