(* ===== verification/FrameSession.v ===== *)
(** * Sessions with the frame allocator

    A client allocates, frees blocks it holds, and writes into them; [fa_step]
    is one such step and [fa_reach] a session of any length. The invariant
    [sess_ok] ties the memory to the blocks in use. *)

From S2P Require Import Prelude Mem Common DList Buddy Paging FrameAlloc FrameRefine FrameZones.

(** A block in use: its address and its order. *)
Abbreviation live_block := (Z * nat)%type.
Definition block_size (o : nat) : Z := PAGE_SIZE * pages o.
Definition block_range (B : live_block) (a : Z) : Prop := in_range B.1 (block_size B.2) a.
Definition blocks_sep (B B' : live_block) : Prop :=
  apart B.1 (block_size B.2) B'.1 (block_size B'.2).

Definition set_mem (s : fa_state) (m : mem) : fa_state :=
  FaState m (allocator_zones s) (allocator_zones_addr s).

(** A pair of the zone one of whose pages is in use by the blocks [L]. *)
Definition zone_pages (z : allocator_zone) : Z := (end_addr z - start_addr z) / PAGE_SIZE.
Definition used_pair (z : allocator_zone) (L : list live_block) (k : nat) (p : Z) : Prop :=
  pair_in (zone_pages z) k p /\ exists q B, pair_pages k p q /\ B ∈ L /\ block_range B (page_addr z q).

(** The pairs in use do not share a bit of the bitmaps. What a free reads is
    then the bit of the pair it asks for. *)
Definition bits_apart (s : fa_state) (L : list live_block) : Prop :=
  forall z, z ∈ allocator_zones s -> distinct_bits z (used_pair z L).

Lemma bits_apart_sub s s' L L' :
  allocator_zones s' = allocator_zones s -> (forall B, B ∈ L' -> B ∈ L) -> bits_apart s L -> bits_apart s' L'.
Proof.
  intros E H Hs z Hz j p k q (Hp & a & B & Ha & HB & HBa) (Hq & a' & B' & Ha' & HB' & HBa').
  rewrite E in Hz. apply (Hs z Hz); (split; [done|]); [exists a, B|exists a', B']; auto.
Qed.

(** With [F] false, the client never frees; it frees only while the pairs in
    use do not share bits. *)
Inductive fa_step (F : Prop) : fa_state * list live_block -> fa_state * list live_block -> Prop :=
  | step_alloc s L n p s' :
      0 <= n <= 512 -> frames_alloc n s = Ret (p, s') -> p <> NULL ->
      fa_step F (s, L) (s', (p, order_of n) :: L)
  | step_full s L n s' :
      0 <= n <= 512 -> frames_alloc n s = Ret (NULL, s') -> fa_step F (s, L) (s', L)
  | step_free s L1 L2 n p s' :
      F -> bits_apart s (L1 ++ (p, order_of n) :: L2) -> 0 <= n <= 512 -> frames_free p n s = Ret (tt, s') ->
      fa_step F (s, L1 ++ (p, order_of n) :: L2) (s', L1 ++ L2)
  | step_write s L B a v :
      B ∈ L -> block_range B a -> fa_step F (s, L) (set_mem s (wr8 (fa_mem s) a v), L).

Inductive fa_reach (F : Prop) (s0 : fa_state) : fa_state * list live_block -> Prop :=
  | reach_init : fa_reach F s0 (s0, [])
  | reach_step c c' : fa_reach F s0 c -> fa_step F c c' -> fa_reach F s0 c'.

(** The block is made of busy pages of a zone. *)
Definition held (l : list zone_st) (B : live_block) : Prop :=
  exists i z N b x, l !! i = Some (z, N, b) /\ B.1 = page_addr z x /\
    (B.2 < MAX_ORDER)%nat /\ 0 <= x /\ x + pages B.2 <= N /\ (pages B.2 | x) /\ busy b B.2 x.

(** With [F], the bitmaps of every zone were clear when it was made. *)
Definition zones_clean (F : Prop) (l : list zone_st) : Prop :=
  forall z N b, (z, N, b) ∈ l -> F -> clean b.

(** What is not free is in use by the client. *)
Definition all_used (l : list zone_st) (L : list live_block) : Prop :=
  forall z N b p, (z, N, b) ∈ l -> 0 <= p < N -> ~ cov b p -> exists B, B ∈ L /\ block_range B (page_addr z p).

Definition sess_inv (F : Prop) (c : fa_state * list live_block) (l : list zone_st) : Prop :=
  allocator_zones c.1 = zones_of l /\ fa_good (fa_mem c.1) l /\
  (forall B, B ∈ c.2 -> held l B) /\ pairwise blocks_sep c.2 /\ zones_clean F l /\ all_used l c.2.

Definition sess_ok (F : Prop) (c : fa_state * list live_block) : Prop := exists l, sess_inv F c l.

(** ** Bytes of held blocks *)

Lemma blocks_sep_sym B B' : blocks_sep B B' -> blocks_sep B' B.
Proof. unfold blocks_sep, apart. lia. Qed.

Lemma block_size_pos o : 0 < block_size o.
Proof. unfold block_size, PAGE_SIZE. pose proof (pages_pos o). lia. Qed.

Lemma order_of_small n : 0 <= n <= 512 -> (order_of n < MAX_ORDER)%nat.
Proof.
  intros Hn. unfold MAX_ORDER. destruct (decide (0 < n)).
  - pose proof (order_of_bound n 9 ltac:(change (pages 9) with 512; lia)). lia.
  - unfold order_of. rewrite Z.log2_up_nonpos by lia. simpl. lia.
Qed.

(** A byte of a block is a byte of one of its pages. *)
Lemma block_page z x o a :
  in_range (page_addr z x) (block_size o) a ->
  exists p, in_range x (pages o) p /\ in_range (page_addr z p) PAGE_SIZE a.
Proof.
  intros Ha. exists ((a - start_addr z) / PAGE_SIZE).
  unfold in_range, block_size, page_addr, PAGE_SIZE in *.
  pose proof (Z.div_mod (a - start_addr z) 4096). pose proof (Z.mod_pos_bound (a - start_addr z) 4096).
  lia.
Qed.

Lemma page_unique z p q a :
  in_range (page_addr z p) PAGE_SIZE a -> in_range (page_addr z q) PAGE_SIZE a -> p = q.
Proof. unfold in_range, page_addr, PAGE_SIZE. lia. Qed.

Lemma held_footprint l B a :
  held l B -> block_range B a ->
  exists i z N b p, l !! i = Some (z, N, b) /\ footprint (z, N, b) a /\ 0 <= p < N /\
    in_range (page_addr z p) PAGE_SIZE a /\ ~ cov b p.
Proof.
  intros (i & z & N & b & x & Hi & HB & Ho & Hx0 & HxN & Hxd & Hbusy) Ha.
  unfold block_range in Ha. rewrite HB in Ha. apply block_page in Ha as (p & Hp & Hpa).
  exists i, z, N, b, p. split; [done|]. assert (0 <= p < N) by (unfold in_range in Hp; lia).
  split; [by eapply page_in_footprint|]. split; [done|]. split; [done|]. by apply Hbusy.
Qed.

(** Two blocks of a zone that share no page are apart. *)
Lemma blocks_apart_pages z x o y o' :
  (forall p, in_range x (pages o) p -> ~ in_range y (pages o') p) ->
  apart (page_addr z x) (block_size o) (page_addr z y) (block_size o').
Proof.
  intros H. pose proof (pages_pos o). pose proof (pages_pos o').
  destruct (decide (apart x (pages o) y (pages o'))) as [Hap|Hn].
  - unfold apart, page_addr, block_size, PAGE_SIZE in *. lia.
  - exfalso. unfold apart in Hn. apply (H (Z.max x y)); unfold in_range; lia.
Qed.

(** Two blocks in different zones are apart. *)
Lemma blocks_apart_zones l i j z N b z' N' b' x o y o' :
  zones_sep l -> l !! i = Some (z, N, b) -> l !! j = Some (z', N', b') -> i <> j ->
  0 <= x -> x + pages o <= N -> 0 <= y -> y + pages o' <= N' ->
  apart (page_addr z x) (block_size o) (page_addr z' y) (block_size o').
Proof.
  intros Hs Hi Hj Hij Hx0 HxN Hy0 HyN. pose proof (block_size_pos o). pose proof (block_size_pos o').
  destruct (decide (apart (page_addr z x) (block_size o) (page_addr z' y) (block_size o')))
    as [|Hn]; [done|]. exfalso. unfold apart in Hn.
  set (a := Z.max (page_addr z x) (page_addr z' y)).
  destruct (block_page z x o a) as (p & Hp & Hpa); [unfold in_range; lia|].
  destruct (block_page z' y o' a) as (q & Hq & Hqa); [unfold in_range; lia|].
  unfold in_range in Hp, Hq.
  eapply (zones_sep_lookup l i j _ _ a Hs Hi Hj Hij); eapply page_in_footprint; try done; lia.
Qed.

(** ** Each step keeps the invariant *)

(** Held blocks stay held when a zone's free pages change away from them. *)
Lemma held_insert l i z N b b' B :
  l !! i = Some (z, N, b) -> held l B ->
  (forall p a, in_range (page_addr z p) PAGE_SIZE a -> block_range B a -> cov b' p -> cov b p) ->
  held (<[i := (z, N, b')]> l) B.
Proof.
  intros Hi (j & z' & N' & b0 & x & Hj & HB & Ho & Hx0 & HxN & Hxd & Hbusy) Hcov.
  destruct (decide (j = i)) as [->|Hji].
  - rewrite Hi in Hj. injection Hj as <- <- <-. exists i, z, N, b', x.
    rewrite list_lookup_insert_eq by (by eapply lookup_lt_Some). split_and!; try done.
    intros p Hp Hc. apply (Hbusy p Hp). apply (Hcov p (page_addr z p)); [..|done].
    + unfold in_range, PAGE_SIZE. lia.
    + unfold block_range. rewrite HB. unfold in_range, block_size, page_addr, PAGE_SIZE in *. lia.
  - exists j, z', N', b0, x. by rewrite list_lookup_insert_ne.
Qed.

(** A zone of the updated list is the new one, or was there. *)
Lemma elem_insert (l : list zone_st) i z N b b' z' N' b0 :
  l !! i = Some (z, N, b) -> (z', N', b0) ∈ <[i := (z, N, b')]> l ->
  (z' = z /\ N' = N /\ b0 = b') \/ (z', N', b0) ∈ l /\ exists j, j <> i /\ l !! j = Some (z', N', b0).
Proof.
  intros Hi [j Hj]%list_elem_of_lookup. destruct (decide (j = i)) as [->|Hji].
  - rewrite list_lookup_insert_eq in Hj by (by eapply lookup_lt_Some). injection Hj as <- <- <-. by left.
  - rewrite list_lookup_insert_ne in Hj by done. right. split; [by eapply list_elem_of_lookup_2|]. by exists j.
Qed.

Lemma zones_clean_insert F l i z N b b' :
  l !! i = Some (z, N, b) -> clean b' = clean b -> zones_clean F l -> zones_clean F (<[i := (z, N, b')]> l).
Proof.
  intros Hi Hc Hf z' N' b0 Hin HF. destruct (elem_insert _ _ _ _ _ _ _ _ _ Hi Hin) as [(-> & -> & ->)|[H _]].
  - rewrite Hc. eapply Hf; [by eapply list_elem_of_lookup_2|done].
  - by eapply Hf.
Qed.

(** The pairs in use by the abstract state are those in use by the client. *)
Lemma zone_pages_eq z N : zone_layout z N -> zone_pages z = N.
Proof.
  intros Hz. unfold zone_pages. destruct (zl_end _ _ Hz) as [-> _]. rewrite Z.add_simpl_l, Z.mul_comm.
  by apply Z.div_mul.
Qed.

Lemma pair_pages_in N k p q : (pages MAX_ORDER | N) -> pair_in N k p -> pair_pages k p q -> 0 <= q < N.
Proof.
  intros HN [Hk Hp] Hq. pose proof (pages_pos (S k)). unfold pair_pages, in_range in Hq.
  assert ((pages (S k) | N)) as [n ->] by (etrans; [by apply pages_divide|done]).
  rewrite Z.div_mul in Hp by lia. nia.
Qed.

Lemma live_used l L z N b k p :
  all_used l L -> (z, N, b) ∈ l -> zone_layout z N -> live N b k p -> used_pair z L k p.
Proof.
  intros Hall Hin Hz [Hp (q & Hq & Hc)]. rewrite <- (zone_pages_eq z N Hz) in Hp. split; [done|].
  rewrite (zone_pages_eq z N Hz) in Hp. destruct (Hall z N b q Hin) as (B & HB & Ha); [|done|by exists q, B].
  apply (pair_pages_in N k p); [apply Hz|done|done].
Qed.

Lemma live_distinct s l L z N b :
  allocator_zones s = zones_of l -> Forall (zone_good (fa_mem s)) l -> all_used l L -> bits_apart s L ->
  (z, N, b) ∈ l -> distinct_bits z (live N b).
Proof.
  intros Hzs Hg Hall Hap Hin. rewrite Forall_forall in Hg. destruct (Hg _ Hin) as (Hz & _).
  assert (Hzin : z ∈ allocator_zones s) by (rewrite Hzs; apply (list_elem_of_fmap_2 (fun e => e.1.1) l _ Hin)).
  intros j p k q Hp Hq. apply (Hap z Hzin); by eapply live_used.
Qed.

Lemma alloc_run s l n :
  allocator_zones s = zones_of l -> fa_good (fa_mem s) l -> 0 <= n <= 512 ->
  (frames_alloc n s = Ret (NULL, s) /\ forall e, e ∈ l -> zone_alloc_result e (order_of n) = None) \/
  (exists i z N b x b' m',
     l !! i = Some (z, N, b) /\ b_alloc b (order_of n) = Some (x, b') /\
     page_addr z x <> NULL /\ frames_alloc n s = Ret (page_addr z x, set_mem s m') /\
     fa_good m' (<[i := (z, N, b')]> l) /\ untouched N z (cov b) (fa_mem s) m' /\
     (forall a, in_range (page_addr z x) (block_size (order_of n)) a -> rd8 m' a = 0)).
Proof.
  intros Hzs Hg Hn. pose proof (order_of_small n Hn) as Ho. unfold frames_alloc.
  kstep (pages2order_ok n s ltac:(lia)). unfold kget, kbind. rewrite Hzs. unfold in_mem, klift.
  destruct (frames_alloc_loop_ok (order_of n) l (fa_mem s)) as
    [[Hrun Hnone]|(i & z & N & b & x & b' & m' & Hi & Hal & Hrun & Hz & Hu & Hzero)];
    [apply Hg|done|..]; rewrite Hrun.
  - left. split; [by destruct s|done].
  - right. exists i, z, N, b, x, b', m'. pose proof Hg as [Hgood _].
    pose proof (Forall_lookup_1 _ _ _ _ Hgood Hi) as (Hzl & Hb & _).
    destruct (b_alloc_Some N b (order_of n) x b' Hb ltac:(lia) Hal) as (_ & Hx0 & HxN & _).
    destruct (in_zone z N Hzl x _ Hx0 HxN) as [Hlo _].
    split_and!; try done.
    + unfold NULL, KERNEL_HIGHER_HALF_START in *. lia.
    + eapply fa_good_insert; [done..|]. by eapply untouched_footprint.
Qed.

Lemma free_block_run s l n i z N b x :
  clean b -> distinct_bits z (live N b) -> allocator_zones s = zones_of l -> fa_good (fa_mem s) l -> 0 <= n <= 512 ->
  l !! i = Some (z, N, b) -> 0 <= x -> x + pages (order_of n) <= N -> (pages (order_of n) | x) ->
  busy b (order_of n) x ->
  exists b' m', frames_free (page_addr z x) n s = Ret (tt, set_mem s m') /\
    fa_good m' (<[i := (z, N, b')]> l) /\ clean b' = clean b /\
    (forall p, cov b' p <-> cov b p \/ in_range x (pages (order_of n)) p) /\
    untouched N z (fun p => cov b p \/ in_range x (pages (order_of n)) p) (fa_mem s) m'.
Proof.
  intros Hcl Hd Hzs Hg Hn Hi Hx0 HxN Hxd Hbusy. pose proof (order_of_small n Hn) as Ho.
  pose proof Hg as [Hgood Hsep].
  pose proof (Forall_lookup_1 _ _ _ _ Hgood Hi) as (Hz & Hb & Hrep).
  destruct (zone_dealloc_refines z N Hz (order_of n) x b (fa_mem s)) as (m' & Hrun & Hrep' & Hu);
    try done; [lia|].
  destruct (b_free_inv N b x (order_of n)) as [Hb' Hcov]; try done; [lia|].
  exists (b_free b x (order_of n)), m'. split.
  - unfold frames_free. kstep (pages2order_ok n s ltac:(lia)). unfold kget, kbind, in_mem, klift.
    rewrite Hzs. pose proof (list_elem_of_split_length l i _ Hi) as (l1 & l2 & Hl & _).
    pose proof (pages_pos (order_of n)). rewrite Hl in *. rewrite frames_free_loop_skip by (done || lia).
    rewrite Hrun. unfold set_mem. by rewrite Hzs.
  - split; [|split; [apply b_free_clean|done]]. eapply fa_good_insert; [done..|].
    eapply (untouched_mono _ _ _ (fun p => 0 <= p < N)); [exact Hu|].
    simpl. intros p [Hp|Hp]; [exact (cov_range _ _ _ Hb Hp)|]. unfold in_range in Hp. lia.
Qed.

(** Freeing what was just allocated restores the set of free pages. *)
Lemma alloc_then_free s l n i z N b x b' m' :
  clean b -> distinct_bits z (live N b') -> allocator_zones s = zones_of l -> fa_good (fa_mem s) l -> 0 <= n <= 512 ->
  l !! i = Some (z, N, b) -> b_alloc b (order_of n) = Some (x, b') ->
  fa_good m' (<[i := (z, N, b')]> l) ->
  exists b2 m2, frames_free (page_addr z x) n (set_mem s m') = Ret (tt, set_mem s m2) /\
    fa_good m2 (<[i := (z, N, b2)]> l) /\ (forall q, cov b2 q <-> cov b q).
Proof.
  intros Hcl Hd Hzs Hg Hn Hi Hal Hg'. pose proof (order_of_small n Hn) as Ho.
  pose proof Hg as [Hgood _]. pose proof (Forall_lookup_1 _ _ _ _ Hgood Hi) as (_ & Hb & _).
  destruct (b_alloc_Some N b (order_of n) x b' Hb ltac:(lia) Hal) as
    (Hb' & Hx0 & HxN & Hxd & Hwas & Hcov').
  pose proof (lookup_lt_Some _ _ _ Hi) as Hil.
  destruct (free_block_run (set_mem s m') (<[i := (z, N, b')]> l) n i z N b' x)
    as (b2 & m2 & Hrun2 & Hg2 & _ & Hcov2 & _); try done.
  { by rewrite (b_alloc_clean _ _ _ _ Hal). }
  { simpl. rewrite Hzs. by rewrite (zones_of_insert _ _ _ _ b). }
  { by apply list_lookup_insert_eq. }
  { intros q Hq Hc. apply Hcov' in Hc. tauto. }
  exists b2, m2. split; [done|]. rewrite list_insert_insert_eq in Hg2. split; [done|].
  intros q. rewrite Hcov2, Hcov'. destruct (decide (in_range x (pages (order_of n)) q)); naive_solver.
Qed.

Lemma free_run s l L n B :
  zones_clean True l -> all_used l L -> bits_apart s L -> allocator_zones s = zones_of l -> fa_good (fa_mem s) l ->
  0 <= n <= 512 -> B.2 = order_of n -> held l B ->
  exists i z N b b' m' x,
    l !! i = Some (z, N, b) /\ B.1 = page_addr z x /\
    frames_free B.1 n s = Ret (tt, set_mem s m') /\ fa_good m' (<[i := (z, N, b')]> l) /\ clean b' = clean b /\
    (forall p, cov b' p <-> cov b p \/ in_range x (pages B.2) p) /\
    untouched N z (fun p => cov b p \/ in_range x (pages B.2) p) (fa_mem s) m'.
Proof.
  intros Hcl Hall Hap Hzs Hg Hn HBo (i & z & N & b & x & Hi & HB & Ho & Hx0 & HxN & Hxd & Hbusy).
  pose proof (list_elem_of_lookup_2 _ _ _ Hi) as Hin.
  rewrite HBo in *. destruct (free_block_run s l n i z N b x) as (b' & m' & Hrun & H); try done.
  - by eapply Hcl.
  - eapply (live_distinct s l L); try done. apply Hg.
  - exists i, z, N, b, b', m', x. by rewrite HB.
Qed.

(** A page of one block is not a page of a block apart from it. *)
Lemma sep_pages z x o p B' :
  in_range x (pages o) p -> blocks_sep (page_addr z x, o) B' ->
  forall a, in_range (page_addr z p) PAGE_SIZE a -> ~ block_range B' a.
Proof.
  unfold blocks_sep, block_range, block_size, apart, in_range, page_addr, PAGE_SIZE; simpl.
  intros. lia.
Qed.

Lemma all_used_insert l L L' i z N b b' :
  l !! i = Some (z, N, b) -> all_used l L ->
  (forall p, 0 <= p < N -> ~ cov b' p -> ~ cov b p \/ exists B, B ∈ L' /\ block_range B (page_addr z p)) ->
  (forall B a, B ∈ L -> block_range B a -> (exists B', B' ∈ L' /\ block_range B' a) \/
     exists p, 0 <= p < N /\ in_range (page_addr z p) PAGE_SIZE a /\ cov b' p) ->
  zones_sep l -> all_used (<[i := (z, N, b')]> l) L'.
Proof.
  intros Hi Hall Hnew Hold Hsep z' N' b0 p Hin Hp Hc.
  destruct (elem_insert _ _ _ _ _ _ _ _ _ Hi Hin) as [(-> & -> & ->)|[Hin' (j & Hji & Hj)]].
  - destruct (Hnew p Hp Hc) as [Hc'|H]; [|done].
    destruct (Hall z N b p (list_elem_of_lookup_2 _ _ _ Hi) Hp Hc') as (B & HB & Ha).
    destruct (Hold B _ HB Ha) as [H|(q & Hq & Hqa & Hqc)]; [done|]. exfalso. apply Hc.
    rewrite (page_unique z p q (page_addr z p)); [done|unfold in_range, PAGE_SIZE; lia|done].
  - destruct (Hall z' N' b0 p Hin' Hp Hc) as (B & HB & Ha).
    destruct (Hold B _ HB Ha) as [H|(q & Hq & Hqa & Hqc)]; [done|]. exfalso.
    eapply (zones_sep_lookup l i j _ _ (page_addr z' p) Hsep Hi Hj ltac:(congruence));
      (eapply page_in_footprint; [done|]); [exact Hqa|]. unfold in_range, PAGE_SIZE. lia.
Qed.

Lemma alloc_step_at F s l L n i z N b x b' m' :
  sess_inv F (s, L) l -> 0 <= n <= 512 -> l !! i = Some (z, N, b) -> b_alloc b (order_of n) = Some (x, b') ->
  fa_good m' (<[i := (z, N, b')]> l) ->
  sess_inv F (set_mem s m', (page_addr z x, order_of n) :: L) (<[i := (z, N, b')]> l).
Proof.
  intros (Hzs & Hg & Hheld & Hsep & Hfr & Hall) Hn Hi Hal Hg'. simpl in *.
  pose proof Hg as [Hgood Hzsep]. pose proof (Forall_lookup_1 _ _ _ _ Hgood Hi) as (_ & Hb & _).
  pose proof (order_of_small n Hn) as Ho.
  destruct (b_alloc_Some N b (order_of n) x b' Hb ltac:(lia) Hal) as (_ & Hx0 & HxN & Hxd & Hwas & Hcov').
  split; [by rewrite zones_of_insert with (b := b)|].
  split; [done|]. split; [|split; [|split; [eapply zones_clean_insert; [done|by eapply b_alloc_clean|done]|]]].
  - intros B [->|HB]%elem_of_cons.
    + exists i, z, N, b', x. rewrite list_lookup_insert_eq by (by eapply lookup_lt_Some).
      split_and!; try done. intros q Hq Hc. simpl in Hq. apply Hcov' in Hc. tauto.
    + eapply held_insert; [done|by apply Hheld|]. intros q a _ _ Hc. by apply Hcov' in Hc as [? _].
  - split; [|done]. intros B HB.
    destruct (Hheld B HB) as (j & z' & N' & b0 & y & Hj & HBy & _ & Hy0 & HyN & _ & Hbusy).
    unfold blocks_sep. simpl. rewrite HBy. destruct (decide (i = j)) as [<-|Hij].
    + rewrite Hi in Hj. injection Hj as <- <- <-. apply blocks_apart_pages.
      intros q Hq Hq'. by apply (Hbusy q Hq'), Hwas.
    + by eapply (blocks_apart_zones l i j).
  - eapply all_used_insert; [done|exact Hall| | |done].
    + intros q Hq Hc. destruct (decide (in_range x (pages (order_of n)) q)) as [Hr|Hr].
      * right. exists (page_addr z x, order_of n). split; [set_solver|].
        unfold block_range, in_range, block_size, page_addr, PAGE_SIZE in *. simpl. lia.
      * left. intros Hc'. apply Hc, Hcov'. done.
    + intros B a HB Ha. left. exists B. split; [set_solver|done].
Qed.

Lemma alloc_step_inv F s L n p s' :
  sess_ok F (s, L) -> 0 <= n <= 512 -> frames_alloc n s = Ret (p, s') -> p <> NULL ->
  sess_ok F (s', (p, order_of n) :: L).
Proof.
  intros (l & Hinv) Hn Hrun Hp. pose proof Hinv as (Hzs & Hg & _).
  destruct (alloc_run s l n Hzs Hg Hn) as
    [[Hrun' _]|(i & z & N & b & x & b' & m' & Hi & Hal & _ & Hrun' & Hg' & _ & _)];
    rewrite Hrun' in Hrun; [by injection Hrun as <-|]. injection Hrun as <- <-.
  exists (<[i := (z, N, b')]> l). by apply (alloc_step_at F s l L n i z N b).
Qed.

Lemma free_step_inv (F : Prop) s L1 L2 n p s' :
  F -> bits_apart s (L1 ++ (p, order_of n) :: L2) -> sess_ok F (s, L1 ++ (p, order_of n) :: L2) -> 0 <= n <= 512 ->
  frames_free p n s = Ret (tt, s') -> sess_ok F (s', L1 ++ L2).
Proof.
  intros HF Hbits (l & Hzs & Hg & Hheld & Hsep & Hfr & Hall) Hn Hrun. simpl in *.
  destruct (free_run s l _ n (p, order_of n) ltac:(intros ?????; by eapply Hfr) Hall Hbits Hzs Hg Hn eq_refl) as
    (i & z & N & b & b' & m' & x & Hi & HB & Hrun' & Hg' & Hcl & Hcov & _); [apply Hheld; set_solver|].
  simpl in *. rewrite Hrun' in Hrun. injection Hrun as <-.
  apply pairwise_middle in Hsep as [Hsep Hap]; [|apply blocks_sep_sym].
  exists (<[i := (z, N, b')]> l). split; [by rewrite zones_of_insert with (b := b)|].
  split; [done|]. split; [|split; [done|split; [by eapply zones_clean_insert|]]].
  - intros B HBin. eapply held_insert; [done|apply Hheld; set_solver|].
    intros q a Hqa Hba [Hc|Hc]%Hcov; [done|]. exfalso.
    eapply sep_pages; [exact Hc| |exact Hqa|exact Hba]. rewrite <- HB. by apply Hap.
  - eapply all_used_insert; [done|exact Hall| | |apply Hg].
    + intros q Hq Hc. left. intros Hc'. apply Hc, Hcov. by left.
    + intros B a HBin Ha. apply elem_of_app in HBin as [HB1|[->|HB2]%elem_of_cons].
      * left. exists B. split; [set_solver|done].
      * right. unfold block_range in Ha. cbn [fst snd] in Ha. rewrite HB in Ha. apply block_page in Ha as (q & Hq & Hqa).
        destruct (Hheld (p, order_of n) ltac:(set_solver)) as (j & z' & N' & b0 & y & Hj & HBy & _ & Hy0 & HyN & _ & Hbusy).
        cbn [fst snd] in *. pose proof (pages_pos (order_of n)) as Hpos.
        exists q. split; [|split; [done|apply Hcov; by right]].
        assert (Hij : i = j).
        { destruct (decide (i = j)) as [|Hij]; [done|]. exfalso. destruct Hg as [Hgood Hzsep].
          destruct (Hcov x) as [_ Hx]. specialize (Hx ltac:(right; unfold in_range; lia)).
          pose proof (lookup_lt_Some _ _ _ Hi) as Hil. destruct Hg' as [Hgood' _].
          pose proof (Forall_lookup_1 _ _ i (z, N, b') Hgood' ltac:(by apply list_lookup_insert_eq)) as (_ & Hb' & _).
          assert (Hxy : page_addr z x = page_addr z' y) by congruence.
          apply (zones_sep_lookup l i j (z, N, b) (z', N', b0) (page_addr z x) Hzsep Hi Hj Hij).
          - apply (page_in_footprint z N b x); [by eapply cov_range|unfold in_range, PAGE_SIZE; lia].
          - rewrite Hxy. apply (page_in_footprint z' N' b0 y); [lia|unfold in_range, PAGE_SIZE; lia]. }
        subst j. rewrite Hi in Hj. injection Hj as <- <- <-.
        assert (x = y) as -> by (rewrite HB in HBy; unfold page_addr, PAGE_SIZE in HBy; lia). unfold in_range in Hq. lia.
      * left. exists B. split; [set_solver|done].
Qed.

Lemma write_good m l B a v :
  fa_good m l -> held l B -> block_range B a -> fa_good (wr8 m a v) l.
Proof.
  intros Hg (i & z & N & b & x & Hi & HB & Ho & Hx0 & HxN & Hxd & Hbusy) Ha.
  pose proof Hg as [Hgood _]. pose proof (Forall_lookup_1 _ _ _ _ Hgood Hi) as (Hz & Hb & Hrep).
  assert (Hag : agree (fun c => ~ in_range (page_addr z x) (block_size B.2) c) m (wr8 m a v)).
  { intros c Hc. rewrite rd8_wr8. case_decide as E; [|done]. subst c.
    unfold block_range in Ha. rewrite HB in Ha. done. }
  rewrite <- (list_insert_id l i (z, N, b) Hi). eapply fa_good_insert; [done..| |].
  - split; [done|]. split; [done|].
    eapply (zone_rep_busy z N Hz b B.2 x); [done|lia|done|done|done|done|exact Hag|done].
  - eapply agree_weaken; [exact Hag|]. intros c Hc Hr. apply Hc.
    apply block_page in Hr as (p & Hp & Hpc). eapply page_in_footprint; [|exact Hpc].
    unfold in_range in Hp. lia.
Qed.

Lemma step_inv F c c' : sess_ok F c -> fa_step F c c' -> sess_ok F c'.
Proof.
  intros Hok Hstep.
  destruct Hstep as [s L n p s' Hn Hrun Hp|s L n s' Hn Hrun|s L1 L2 n p s' HF Hbits Hn Hrun|s L B a v HB Ha].
  - by eapply alloc_step_inv.
  - destruct Hok as (l & Hzs & Hg & Hrest). simpl in *.
    destruct (alloc_run s l n Hzs Hg Hn) as
      [[Hrun' _]|(i & z & N & b & x & b' & m' & _ & _ & Hp & Hrun' & _)];
      rewrite Hrun' in Hrun; injection Hrun; [intros <-; by exists l | done].
  - by eapply free_step_inv.
  - destruct Hok as (l & Hzs & Hg & Hheld & Hrest). exists l. simpl in *. split; [done|].
    split; [|by split]. eapply write_good; [done|by apply Hheld|done].
Qed.

Lemma reach_inv F s0 c : sess_ok F (s0, []) -> fa_reach F s0 c -> sess_ok F c.
Proof. intros H0 Hr. induction Hr as [|c c' _ IH Hstep]; [done|]. by eapply step_inv. Qed.

(** A byte of a held block is neither free nor the allocator's. *)
Lemma held_not_free m l B a :
  fa_good m l -> held l B -> block_range B a -> ~ free_byte l a /\ ~ meta_byte l a.
Proof.
  intros [Hgood Hsep] Hh Ha.
  destruct (held_footprint l B a Hh Ha) as (i & z & N & b & p & Hi & Hfp & Hp & Hpa & Hc).
  pose proof (Forall_lookup_1 _ _ _ _ Hgood Hi) as (Hz & Hb & _). split.
  - intros (z' & N' & b' & q & [j Hj]%list_elem_of_lookup & Hq & Hqa).
    pose proof (Forall_lookup_1 _ _ _ _ Hgood Hj) as (_ & Hb' & _).
    destruct (decide (i = j)) as [<-|Hij].
    + rewrite Hi in Hj. injection Hj as <- <- <-. by rewrite (page_unique z p q a) in Hc.
    + eapply (zones_sep_lookup l i j); try done. eapply page_in_footprint; [|exact Hqa].
      by eapply cov_range.
  - intros (z' & N' & b' & [j Hj]%list_elem_of_lookup & Hw).
    destruct (decide (i = j)) as [<-|Hij].
    + rewrite Hi in Hj. injection Hj as <- <- <-.
      destruct (in_zone z N Hz p 0 ltac:(lia) ltac:(change (pages 0) with 1; lia)) as [H1 H2].
      change (pages 0) with 1 in H2. pose proof (zl_heads_zone _ _ Hz).
      unfold zone_writes, in_range, apart in *. destruct Hw as [Hw|[(k & Hk & Hw)|(q & [] & _)]]; [lia|].
      pose proof (zl_bitmaps_zone _ _ Hz k Hk). unfold apart in *. lia.
    + eapply (zones_sep_lookup l i j); try done.
      destruct Hw as [Hw|[Hw|(q & [] & _)]]; [by left|by right; left].
Qed.

(** What an operation on one zone writes does not reach a held block. *)
Lemma held_untouched m l B a i z N b (C : Z -> Prop) :
  fa_good m l -> held l B -> block_range B a -> l !! i = Some (z, N, b) ->
  (forall q, C q -> in_range (page_addr z q) PAGE_SIZE a -> cov b q) ->
  ~ zone_writes N z C a.
Proof.
  intros Hg Hh Ha Hi HC Hw. destruct (held_not_free m l B a Hg Hh Ha) as [Hf Hm].
  apply list_elem_of_lookup_2 in Hi. destruct Hw as [Hw|[Hw|(q & Hq & Hw)]].
  - apply Hm. exists z, N, b. split; [done|]. by left.
  - apply Hm. exists z, N, b. split; [done|]. by right; left.
  - apply Hf. exists z, N, b, q. split_and!; try done. by apply HC.
Qed.
