(* ===== verification/FrameInit.v ===== *)
(** * zone_add: building a zone

    What a region becomes: the bounds of its zone, the initial free lists and
    the layout of its bitmaps. [zone_add_run] is the summary, on which the
    claims of FrameClaims.v rest. *)

From S2P Require Import Prelude Mem Common DList Buddy Paging FrameAlloc FrameRefine FrameZones.

(** All the blocks of maximal order are free, the first [n] of them; [C] says
    that the bitmaps are clear. *)
Definition b_init (C : Prop) (n : nat) : buddy :=
  Buddy (fun k => if (k =? MAX_ORDER)%nat then rev ((fun i => 1024 * Z.of_nat i) <$> seq 0 n) else [])
        (fun _ _ => false) C.

Lemma b_init_free C n k x :
  free (b_init C n) k x <-> k = MAX_ORDER /\ exists i, (i < n)%nat /\ x = 1024 * Z.of_nat i.
Proof.
  unfold free, b_init. simpl fl. destruct (Nat.eqb_spec k MAX_ORDER) as [->|Hk].
  - rewrite list_elem_of_In, <- in_rev, <- list_elem_of_In, list_elem_of_fmap. split.
    + intros (i & -> & Hi%elem_of_seq). split; [done|]. exists i. lia.
    + intros (_ & i & Hi & ->). exists i. split; [done|]. apply elem_of_seq. lia.
  - rewrite elem_of_nil. tauto.
Qed.

Lemma b_init_S C n : fl (put (b_init C n) MAX_ORDER (1024 * Z.of_nat n)) MAX_ORDER = fl (b_init C (S n)) MAX_ORDER.
Proof.
  unfold put. cbn [fl]. rewrite fupd_eq. unfold b_init. cbn [fl]. rewrite Nat.eqb_refl.
  by rewrite seq_S, fmap_app, rev_app_distr.
Qed.

Lemma b_init_inv C N n : (1024 | N) -> 1024 * Z.of_nat n <= N -> binv N (b_init C n).
Proof.
  intros HN Hn. split.
  - done.
  - intros k x (-> & i & Hi & ->)%b_init_free. change (pages MAX_ORDER) with 1024.
    split; [done|]. split; [lia|]. split; [lia|]. apply Z.divide_factor_l.
  - intros k. unfold b_init; simpl fl. destruct (_ =? _)%nat; [|constructor].
    apply NoDup_ListNoDup, NoDup_rev, NoDup_ListNoDup, NoDup_fmap; [|apply NoDup_seq].
    intros i j Hij. lia.
  - intros k x j y (-> & i & Hi & ->)%b_init_free (-> & i' & Hi' & ->)%b_init_free Hne.
    change (pages MAX_ORDER) with 1024. unfold apart.
    assert (i <> i') by (intros ->; done). lia.
  - intros k x Hk _ _. unfold b_init; simpl. destruct (Nat.eqb_spec k MAX_ORDER); [lia|].
    by rewrite !bool_decide_false by set_solver.
  - intros k x Hk (-> & _)%b_init_free. lia.
Qed.

Lemma b_init_cov C n p : cov (b_init C n) p <-> 0 <= p < 1024 * Z.of_nat n.
Proof.
  unfold cov. split.
  - intros (k & x & (-> & i & Hi & ->)%b_init_free & Hp).
    unfold in_range in Hp. change (pages MAX_ORDER) with 1024 in Hp. lia.
  - intros Hp. pose proof (Z.div_mod p 1024). pose proof (Z.mod_pos_bound p 1024).
    exists MAX_ORDER, (1024 * (p / 1024)). split.
    + apply b_init_free. split; [done|]. exists (Z.to_nat (p / 1024)). lia.
    + unfold in_range. change (pages MAX_ORDER) with 1024. lia.
Qed.

(** ** The free lists *)

Definition bitmaps_zero (N : Z) (z : allocator_zone) (m : mem) : Prop :=
  forall k a, (k < MAX_ORDER)%nat -> in_range (bitmap z k) (bitmap_bytes N k) a -> rd8 m a = 0.

Section Fill.
Context (z : allocator_zone) (N : Z) (Hz : zone_layout z N) (C : Prop).

Lemma zone_blocks_loop_ok n i m :
  1024 * Z.of_nat (i + n) <= N ->
  zone_if z N C m (b_init C i) ->
  exists m', zone_blocks_loop z (Z.of_nat i) n m = Ret (tt, m') /\
    zone_if z N C m' (b_init C (i + n)) /\ untouched N z (fun p => 0 <= p < N) m m'.
Proof.
  revert i m; induction n as [|n IH]; intros i m HN Hrep; simpl.
  { exists m. rewrite Nat.add_0_r. done. }
  destruct (zl_pages _ _ Hz) as [_ HdN]. change (pages MAX_ORDER) with 1024 in HdN.
  set (x := 1024 * Z.of_nat i).
  assert (Hb : binv N (b_init C i)) by (apply b_init_inv; [done|lia]).
  assert (Hbusy : busy (b_init C i) MAX_ORDER x).
  { intros p Hp Hc. apply b_init_cov in Hc. unfold in_range, x in *. lia. }
  destruct Hrep as [Hl Hg].
  destruct (insert_step z N Hz C (b_init C i) MAX_ORDER x m (bit (b_init C i)))
    as (m1 & m2 & H1 & H2 & Hl2 & Hg2 & Hu);
    try done; try (change (pages MAX_ORDER) with 1024; unfold x; lia).
  { apply Z.divide_factor_l. }
  assert (Hptr : u64 (start_addr z + Z.of_nat i * Z.shiftl 1 (Z.of_nat MAX_ORDER) * PAGE_SIZE)
                 = page_addr z x).
  { destruct (in_zone z N Hz x MAX_ORDER) as [Ha Hb'];
      [unfold x; lia | change (pages MAX_ORDER) with 1024; unfold x; lia|].
    rewrite u64_small; unfold page_addr, x, PAGE_SIZE, KERNEL_HIGHER_HALF_START in *;
      change (Z.shiftl 1 (Z.of_nat MAX_ORDER)) with 1024; [lia|].
    change (pages MAX_ORDER) with 1024 in Hb'. lia. }
  rewrite Hptr. kstep H1. kstep H2.
  replace (Z.of_nat i + 1) with (Z.of_nat (S i)) by lia.
  destruct (IH (S i) m2) as (m' & Hrun & Hrep' & Hu'); [lia| |].
  { split; [|done]. eapply lists_rep_ext; [|exact Hl2]. intros k.
    destruct (decide (k = MAX_ORDER)) as [->|Hk]; [apply b_init_S|].
    unfold put; simpl fl. rewrite fupd_ne by done. unfold b_init; simpl.
    by destruct (Nat.eqb_spec k MAX_ORDER). }
  exists m'. replace (i + S n)%nat with (S i + n)%nat by lia. split_and!; try done.
  eapply untouched_trans; [|exact Hu']. eapply untouched_mono; [exact Hu|].
  simpl. intros p [Hp%b_init_cov|Hp]; unfold in_range in *;
    change (pages MAX_ORDER) with 1024 in *; unfold x in *; lia.
Qed.

(** Empty rings at every head and, if [C], zeroed bitmaps: no block is free yet. *)
Lemma b_init_rep_nil m :
  (forall k, (k <= MAX_ORDER)%nat -> dll m (orders_head z k) []) -> (C -> bitmaps_zero N z m) ->
  zone_if z N C m (b_init C 0).
Proof.
  intros Hl Hzero. split.
  - intros k Hk. simpl. destruct (_ =? _)%nat; by apply Hl.
  - intros HC k p [Hk Hp]. destruct (pair_byte z N Hz k p Hk Hp) as [Hin _]. unfold mem_bit.
    rewrite (Hzero HC k _ Hk Hin), Z.testbit_0_l. split; [done|]. by intros (j & q & _ & _ & Hq).
Qed.

Lemma b_init_rep m n : zone_if z N C m (b_init C n) -> zone_rep N z m (b_init C n).
Proof. intros [Hl Hg]. split; [exact Hl|]. intros HC _. by apply Hg. Qed.
End Fill.

(** ** The heads and the bitmap pointers *)

Definition head_area (z : allocator_zone) (a : Z) : Prop := in_range (zone_addr z) heads_bytes a.

Lemma head_init_ok z m i (P : nat -> Prop) :
  kok (zone_addr z) heads_bytes = true -> (i <= MAX_ORDER)%nat -> ~ P i ->
  (forall k, P k -> dll m (orders_head z k) []) ->
  exists m', list_init (orders_head z i) m = Ret (tt, m') /\
    dll m' (orders_head z i) [] /\ (forall k, P k -> dll m' (orders_head z k) []) /\
    agree (fun a => ~ head_area z a) m m'.
Proof.
  intros Hok Hi HPi Hd. apply kok_spec in Hok as [Hlo Hhi].
  assert (Hn : node_ok (orders_head z i)).
  { apply kok_spec. unfold orders_head, heads_bytes, MAX_ORDER in *. lia. }
  exists (list_init_mem m (orders_head z i)). split; [by apply list_init_run|].
  split; [by apply list_init_dll|].
  assert (Hag : agree (fun a => ~ in_range (orders_head z i) 16 a) m (list_init_mem m (orders_head z i))).
  { intros a Ha. unfold list_init_mem, in_range, prev_of in *. rewrite !rd8_st_out by lia. done. }
  split.
  - intros k Hk. eapply dll_agree; [exact Hag| |by apply Hd].
    intros y a ->%list_elem_of_singleton Ha. assert (k <> i) by (intros ->; done).
    unfold in_range, orders_head in *. lia.
  - eapply agree_weaken; [exact Hag|]. intros a Ha Hr. apply Ha. unfold head_area.
    unfold in_range, orders_head, heads_bytes, MAX_ORDER in *. lia.
Qed.

Definition order_bitmap_size (pages_count : Z) : Z :=
  DIV_ROUNDUP (pages_count / Z.shiftl 1 (Z.of_nat MAX_ORDER) / 2) 8.

(** The bitmap pointers: each order's follows the previous one's. *)
Definition bitmap_ptrs (ptr obs : Z) (n : nat) : list Z :=
  (fun k => ptr + obs * Z.of_nat k) <$> seq 0 n.

Lemma bitmap_ptrs_S ptr obs n : bitmap_ptrs ptr obs (S n) = ptr :: bitmap_ptrs (ptr + obs) obs n.
Proof.
  unfold bitmap_ptrs. simpl. f_equal; [lia|]. rewrite <- seq_shift.
  change (map S) with (fmap (M := list) S). rewrite <- list_fmap_compose.
  apply list_fmap_ext. intros. unfold compose. lia.
Qed.

Lemma zone_orders_loop_ok z bs n i ptr acc m :
  let obs := order_bitmap_size (pages_count z) in
  kok (zone_addr z) heads_bytes = true -> (i + n = MAX_ORDER)%nat ->
  0 <= obs -> 0 < bs -> 0 <= ptr ->
  ptr + obs * Z.of_nat n + bs * PAGE_SIZE < two64 ->
  (forall k, (k < i)%nat -> dll m (orders_head z k) []) ->
  exists m', zone_orders_loop z bs ptr i n acc m = Ret (acc ++ bitmap_ptrs ptr obs n, m') /\
    (forall k, (k < MAX_ORDER)%nat -> dll m' (orders_head z k) []) /\
    agree (fun a => ~ head_area z a) m m'.
Proof.
  intros obs Hok. revert i ptr acc m; induction n as [|n IH]; intros i ptr acc m Hi Hobs Hbs Hp Hend Hd; simpl.
  { exists m. rewrite app_nil_r. split; [done|]. split; [|done]. intros k Hk. apply Hd. lia. }
  unfold order_bitmap_size in obs. fold obs.
  rewrite (u64_small (ptr + obs)) by (unfold PAGE_SIZE in *; lia).
  rewrite kassert_true.
  2: { apply Z.ltb_lt. rewrite u64_small by (unfold PAGE_SIZE in *; lia). unfold PAGE_SIZE. lia. }
  destruct (head_init_ok z m i (fun k => (k < i)%nat)) as (m1 & H1 & Hd1 & Hds & Hag);
    [done|unfold MAX_ORDER in *; lia|lia|done|]. kstep H1.
  destruct (IH (S i) (ptr + obs) (acc ++ [ptr]) m1) as (m' & Hrun & Hd' & Hag');
    try lia.
  { intros k Hk. destruct (decide (k = i)) as [->|]; [done|]. apply Hds. lia. }
  exists m'. split; [|split; [done|by eapply agree_trans]].
  rewrite Hrun. unfold obs. by rewrite <- app_assoc, bitmap_ptrs_S.
Qed.

(** ** The bounds of the zone *)

(** A region [zone_add] can be given: page aligned, of more than 1024 pages, and
    at least two maximal blocks below the end of the address space. *)
Definition region_ok (addr pgs : Z) : Prop :=
  KERNEL_HIGHER_HALF_START <= addr /\ (PAGE_SIZE | addr) /\ 1024 < pgs /\
  addr + PAGE_SIZE * pgs + 2 * (PAGE_SIZE * 1024) < two64.

Lemma DIV_ROUNDUP_spec x r : 0 < r -> 0 <= x -> x + r < two64 -> DIV_ROUNDUP x r = (x + r - 1) / r.
Proof. intros. unfold DIV_ROUNDUP. by rewrite (u64_small (x + r)), u64_small by lia. Qed.

Lemma fold_u64_bounds (f : nat -> Z) B l a0 :
  (forall i, 0 <= f i <= B) -> 0 <= a0 -> a0 + Z.of_nat (length l) * B < two64 ->
  a0 <= fold_left (fun acc i => u64 (acc + f i)) l a0 <= a0 + Z.of_nat (length l) * B.
Proof.
  intros Hf. revert a0; induction l as [|i l IH]; intros a0 H0 Hend; [simpl; lia|].
  cbn [fold_left length] in *. specialize (Hf i) as Hi. rewrite Nat2Z.inj_succ, Z.mul_succ_l in *.
  pose proof (Z.mul_nonneg_nonneg (Z.of_nat (length l)) B).
  rewrite u64_small by lia. specialize (IH (a0 + f i)). lia.
Qed.

Lemma order_bytes_bounds p i :
  1024 < p < 2 ^ 52 ->
  DIV_ROUNDUP (p / Z.shiftl 1 (Z.of_nat i) / 2) 8 = (p / 2 ^ Z.of_nat i / 2 + 7) / 8 /\
  0 <= (p / 2 ^ Z.of_nat i / 2 + 7) / 8 <= p / 16 + 1.
Proof.
  intros Hp. rewrite Z.shiftl_1_l. pose proof (pow2_pos (Z.of_nat i) ltac:(lia)) as H2.
  assert (Hq : 0 <= p / 2 ^ Z.of_nat i <= p).
  { split; [apply Z.div_pos; lia | apply Z.div_le_upper_bound; nia]. }
  set (q := p / 2 ^ Z.of_nat i) in *. clearbody q. clear H2. split.
  - rewrite DIV_ROUNDUP_spec; [f_equal; lia|lia|..]; Z.to_euclidean_division_equations; lia.
  - Z.to_euclidean_division_equations. lia.
Qed.

(** The sum covers the bitmaps of the first two orders, and is far below the
    region's size. *)
Lemma required_bitmap_size_bounds p :
  1024 < p < 2 ^ 52 ->
  (p / 2 + 7) / 8 + p / 32 <= required_bitmap_size p <= 11 * (p / 16 + 1).
Proof.
  intros Hp. unfold required_bitmap_size.
  set (f := fun i : nat => DIV_ROUNDUP (p / Z.shiftl 1 (Z.of_nat i) / 2) 8).
  assert (Hf : forall i, 0 <= f i <= p / 16 + 1) by (intros i; destruct (order_bytes_bounds p i Hp) as [E ?]; unfold f; by rewrite E).
  pose proof (Z.div_pos p 16). assert (p / 16 <= p) by (apply Z.div_le_upper_bound; lia).
  split.
  - change (seq 0 (S MAX_ORDER)) with (0%nat :: 1%nat :: seq 2 9). cbn [fold_left].
    pose proof (Hf 0%nat) as Hf0. pose proof (Hf 1%nat) as Hf1.
    destruct (order_bytes_bounds p 0 Hp) as [E0 _]. destruct (order_bytes_bounds p 1 Hp) as [E1 _].
    change (2 ^ Z.of_nat 0) with 1 in E0. change (2 ^ Z.of_nat 1) with 2 in E1.
    rewrite (u64_small (0 + _)), (u64_small (_ + _ + _)) by (unfold f in *; lia).
    destruct (fold_u64_bounds f (p / 16 + 1) (seq 2 9) (0 + f 0%nat + f 1%nat)) as [Hlo _];
      [done|lia|rewrite length_seq; lia|].
    etrans; [|exact Hlo]. unfold f. rewrite E0, E1. rewrite Z.div_1_r.
    clear. Z.to_euclidean_division_equations. lia.
  - destruct (fold_u64_bounds f (p / 16 + 1) (seq 0 (S MAX_ORDER)) 0) as [_ Hhi];
      [done|lia|rewrite length_seq; unfold MAX_ORDER; lia|].
    rewrite length_seq in Hhi. unfold MAX_ORDER in Hhi. etrans; [exact Hhi|]. lia.
Qed.

(** What [zone_bounds] returns: the zone starts after the bitmaps, both ends are
    aligned to a maximal block, and there is at least one such block. *)
Lemma zone_bounds_ok addr p :
  region_ok addr p ->
  exists bs start end_, zone_bounds addr p = (bs, start, end_) /\
    required_bitmap_size p <= PAGE_SIZE * bs /\ 0 < bs < p /\
    addr + PAGE_SIZE * bs <= start < addr + PAGE_SIZE * bs + PAGE_SIZE * 1024 /\
    (PAGE_SIZE * 1024 | start) /\ (PAGE_SIZE * 1024 | end_) /\
    start + PAGE_SIZE * 1024 <= end_ <= start + PAGE_SIZE * (p - bs).
Proof.
  intros (Hlo & Hal & Hp & Hend). unfold KERNEL_HIGHER_HALF_START, PAGE_SIZE in *.
  assert (Hp52 : 1024 < p < 2 ^ 52) by lia.
  pose proof (required_bitmap_size_bounds p Hp52) as Hreq.
  unfold zone_bounds. rewrite (DIV_ROUNDUP_spec _ PAGE_SIZE) by
    (unfold PAGE_SIZE; Z.to_euclidean_division_equations; lia).
  set (r := required_bitmap_size p) in *. set (bs := (r + PAGE_SIZE - 1) / PAGE_SIZE).
  assert (Hbs : r <= 4096 * bs /\ 0 < bs /\ bs <= p - 1024).
  { unfold bs, PAGE_SIZE. Z.to_euclidean_division_equations. lia. }
  clearbody bs. change (PAGE_SIZE * Z.shiftl 1 (Z.of_nat MAX_ORDER)) with 4194304.
  unfold PAGE_SIZE. rewrite (u64_small (addr + _)), (u64_small (p - bs)) by lia.
  pose proof (ROUNDUP_bounds (addr + 4096 * bs) 4194304) as Hs.
  pose proof (ROUNDUP_aligned (addr + 4096 * bs) 4194304) as Hsal.
  set (start := ROUNDUP _ _) in *. clearbody start.
  rewrite (u64_small ((p - bs) * 4096)), (u64_small (start + _)) by lia.
  pose proof (ROUNDDOWN_bounds (start + (p - bs) * 4096) 4194304) as He.
  pose proof (ROUNDDOWN_aligned (start + (p - bs) * 4096) 4194304) as Heal.
  exists bs, start, (ROUNDDOWN (start + (p - bs) * 4096) 4194304).
  split_and!; try done; try lia; [apply Hsal; lia|apply Heal; lia|].
  destruct (Hsal ltac:(lia) ltac:(lia) ltac:(lia)) as [u Hu].
  destruct (Heal ltac:(lia) ltac:(lia)) as [w Hw]. lia.
Qed.

(** ** The zone made from a region *)

(** The zone that [zone_add] makes at [zaddr] for the region at [addr]. *)
Definition made_zone (zaddr addr p : Z) : allocator_zone :=
  let '(bs, start, end_) := zone_bounds addr p in
  let n := (end_ - start) / PAGE_SIZE in
  Zone zaddr (bitmap_ptrs addr (order_bitmap_size n) MAX_ORDER ++ [NULL]) start end_ n.

Section Made.
Context (zaddr addr p : Z) (Hr : region_ok addr p).

Let z := made_zone zaddr addr p.

(** All that is known of the numbers of the zone. *)
Lemma made_zone_facts :
  exists bs : Z, zone_bounds addr p = (bs, start_addr z, end_addr z) /\
    0 < bs < p /\
    addr + PAGE_SIZE * bs <= start_addr z < addr + PAGE_SIZE * bs + PAGE_SIZE * 1024 /\
    (PAGE_SIZE * 1024 | start_addr z) /\
    end_addr z = start_addr z + PAGE_SIZE * pages_count z /\
    (1024 | pages_count z) /\ 1024 <= pages_count z <= p - bs /\
    (p / 2 + 7) / 8 + p / 32 <= PAGE_SIZE * bs /\
    zone_addr z = zaddr /\
    bitmaps z = bitmap_ptrs addr (order_bitmap_size (pages_count z)) MAX_ORDER ++ [NULL].
Proof.
  destruct (zone_bounds_ok addr p Hr) as (bs & start & end_ & Hzb & Hreq & Hbs & Hs & Hsa & Hea & He).
  unfold z, made_zone. rewrite Hzb. cbn [start_addr end_addr pages_count zone_addr bitmaps].
  destruct Hr as (? & ? & Hp & Hend). unfold KERNEL_HIGHER_HALF_START, PAGE_SIZE in *.
  destruct (required_bitmap_size_bounds p ltac:(lia)) as [Hlow _].
  pose proof Hsa as [u Hu]. pose proof Hea as [w Hw].
  assert (Hn : (end_ - start) / 4096 = 1024 * (w - u)).
  { rewrite Hu, Hw. replace (w * (4096 * 1024) - u * (4096 * 1024)) with (1024 * (w - u) * 4096) by lia.
    by rewrite Z.div_mul. }
  rewrite Hn. exists bs. split_and!; try done; try lia. apply Z.divide_factor_l.
Qed.

Lemma order_bitmap_size_eq n :
  0 <= n < 2 ^ 52 -> order_bitmap_size n = (n / 1024 / 2 + 7) / 8.
Proof.
  intros Hn. unfold order_bitmap_size. change (Z.shiftl 1 (Z.of_nat MAX_ORDER)) with 1024.
  rewrite DIV_ROUNDUP_spec; [f_equal; lia|..]; Z.to_euclidean_division_equations; lia.
Qed.

Lemma made_bitmap k :
  (k < MAX_ORDER)%nat ->
  bitmap z k = addr + order_bitmap_size (pages_count z) * Z.of_nat k.
Proof.
  intros Hk. destruct made_zone_facts as (bs & _ & _ & _ & _ & _ & _ & _ & _ & _ & Hb).
  unfold bitmap. rewrite Hb, app_nth1; [|unfold bitmap_ptrs; by rewrite length_fmap, length_seq].
  apply nth_lookup_Some. unfold bitmap_ptrs. rewrite list_lookup_fmap, lookup_seq_lt by done. done.
Qed.

Lemma bitmap_bytes_bound n k : 0 <= n -> 0 <= bitmap_bytes n k <= (n / 2 + 7) / 8.
Proof.
  intros Hn. unfold bitmap_bytes. pose proof (pages_pos k).
  rewrite pages_S, <- Z.div_div by lia.
  assert (0 <= n / 2 / pages k <= n / 2).
  { pose proof (Z.div_pos n 2). split; [apply Z.div_pos; lia|]. apply Z.div_le_upper_bound; nia. }
  split; [apply Z.div_pos; lia|]. apply Z.div_le_mono; lia.
Qed.

(** The bitmaps lie in the pages reserved for them. *)
Lemma made_bitmap_room k :
  (k < MAX_ORDER)%nat ->
  addr <= bitmap z k /\ bitmap z k + bitmap_bytes (pages_count z) k <= start_addr z.
Proof.
  intros Hk. destruct made_zone_facts as (bs & _ & Hbs & Hs & _ & _ & _ & Hn & Hreq & _).
  rewrite made_bitmap by done. destruct Hr as (? & ? & Hp & Hend).
  unfold KERNEL_HIGHER_HALF_START, PAGE_SIZE in *.
  rewrite order_bitmap_size_eq by lia. set (n := pages_count z) in *.
  destruct (bitmap_bytes_bound n k ltac:(lia)) as [_ Hb].
  set (o := (n / 1024 / 2 + 7) / 8).
  assert (Ho : 0 <= o /\ 9 * o + (n / 2 + 7) / 8 <= (p / 2 + 7) / 8 + p / 32).
  { unfold o. clear -Hn Hp Hbs. Z.to_euclidean_division_equations. lia. }
  unfold MAX_ORDER in Hk. nia.
Qed.

(** Where the zone structure may be: away from the region and the zone. *)
Lemma made_zone_layout :
  kok zaddr heads_bytes = true ->
  apart zaddr heads_bytes addr (PAGE_SIZE * (p + 1024)) ->
  zone_layout z (pages_count z).
Proof.
  intros Hok Hap.
  destruct made_zone_facts as (bs & _ & Hbs & Hs & Hsa & He & Hd & Hn & _ & Hza & _).
  destruct Hr as (Hlo & ? & Hp & Hend). unfold KERNEL_HIGHER_HALF_START, PAGE_SIZE in *.
  assert (Hhb : heads_bytes = 264) by done.
  split.
  - unfold KERNEL_HIGHER_HALF_START. lia.
  - done.
  - split; [lia|done].
  - unfold PAGE_SIZE. lia.
  - by rewrite Hza.
  - intros k Hk. pose proof (made_bitmap_room k Hk). apply kok_spec.
    unfold KERNEL_HIGHER_HALF_START. lia.
  - rewrite Hza. unfold apart, PAGE_SIZE in *. lia.
  - intros k Hk. pose proof (made_bitmap_room k Hk). rewrite Hza. unfold apart in *. lia.
  - intros k Hk. pose proof (made_bitmap_room k Hk). unfold apart. lia.
Qed.

(** The zone starts inside the region and ends less than a block past it. *)
Lemma made_zone_extent :
  addr < start_addr z /\ end_addr z < addr + PAGE_SIZE * p + PAGE_SIZE * 1024.
Proof.
  destruct made_zone_facts as (bs & _ & Hbs & Hs & _ & He & _ & Hn & _).
  unfold PAGE_SIZE in *. lia.
Qed.

(** Two neighbouring bitmaps always share bytes. *)
Lemma made_bitmaps_share :
  ~ apart (bitmap z 0) (bitmap_bytes (pages_count z) 0) (bitmap z 1) (bitmap_bytes (pages_count z) 1).
Proof.
  intros Hba. destruct made_zone_facts as (bs & _ & Hbs & _ & _ & _ & [c Hc] & Hn & _).
  rewrite !made_bitmap in Hba by (unfold MAX_ORDER; lia).
  destruct Hr as (? & ? & Hp & Hend). unfold KERNEL_HIGHER_HALF_START, PAGE_SIZE in *.
  rewrite order_bitmap_size_eq in Hba by lia.
  unfold apart, bitmap_bytes in Hba. change (pages 1) with 2 in Hba. change (pages 2) with 4 in Hba.
  rewrite Hc in *. clear -Hba Hn. Z.to_euclidean_division_equations. lia.
Qed.

Lemma made_bitmaps_overlap : ~ bitmaps_apart (pages_count z) z.
Proof.
  intros Hba. apply made_bitmaps_share. apply Hba; unfold MAX_ORDER; lia.
Qed.

(** *** Where the bits are apart all the same

    Each order's bitmap begins the same number of bytes after the last one's, and
    the bits of the pairs at the end of the zone lie far from the beginnings. From
    the maximal block [upper_block] on, which leaves about the last quarter of
    the zone, no two pairs share a bit. *)
Definition upper_block (n : Z) : Z := (n / 1024 + 1) / 2 + 4 * order_bitmap_size n.

Lemma made_upper_distinct :
  distinct_bits z (fun k q => pair_in (pages_count z) k q /\ exists x, pair_pages k q x /\ 1024 * upper_block (pages_count z) <= x).
Proof.
  destruct made_zone_facts as (bs & _ & Hbs & _ & _ & _ & [c Hc] & Hn & _).
  set (n := pages_count z) in *. unfold upper_block.
  assert (Hcn : n / 1024 = c) by (rewrite Hc; by apply Z.div_mul).
  assert (Ho : 0 <= order_bitmap_size n).
  { destruct Hr as (? & ? & ? & ?). unfold KERNEL_HIGHER_HALF_START, PAGE_SIZE in *.
    rewrite order_bitmap_size_eq by lia. apply Z.div_pos; [|lia]. assert (0 <= n / 1024 / 2); [|lia].
    apply Z.div_pos; [apply Z.div_pos|]; lia. }
  assert (Hlt : forall j q k r, (j < k)%nat ->
    pair_in n j q -> (exists x, pair_pages j q x /\ 1024 * ((n / 1024 + 1) / 2 + 4 * order_bitmap_size n) <= x) ->
    pair_in n k r -> bit_at z j q <> bit_at z k r).
  { intros j q k r Hjk [Hj Hq] (x & Hx & Hlx) [Hk Hr']. unfold bit_at.
    rewrite Hcn in Hlx. rewrite !made_bitmap by done. fold n. set (o := order_bitmap_size n) in *. clearbody o n. subst n.
    assert (Hu : c <= 2 * ((c + 1) / 2)) by (Z.to_euclidean_division_equations; lia).
    set (u := (c + 1) / 2) in *. clearbody u. clear -Hjk Hj Hk Hx Hlx Hr' Hu Ho. unfold pair_pages, in_range in Hx.
    unfold MAX_ORDER in *.
    do 9 (destruct j as [|j]; [do 10 (destruct k as [|k]; [first [lia|
      match type of Hr' with _ <= _ < _ / pages ?k => let v := eval vm_compute in (pages k) in change (pages k) with v in *;
        let w := eval vm_compute in (1024 / v) in replace (c * 1024) with (c * w * v) in Hr' by lia; rewrite Z.div_mul in Hr' by lia end;
      match type of Hx with context [pages ?k] => let v := eval vm_compute in (pages k) in change (pages k) with v in * end; lia]|]); lia|]).
    lia. }
  intros j q k r [Hjq Hx] [Hkr Hy] E.
  destruct (Nat.lt_trichotomy j k) as [Hjk|[->|Hjk]].
  - by destruct (Hlt j q k r Hjk Hjq Hx Hkr).
  - split; [done|]. unfold bit_at in E. lia.
  - by destruct (Hlt k r j q Hjk Hkr Hy Hjq).
Qed.
End Made.

(** ** zone_add *)

Lemma page_aligned_mask a : (PAGE_SIZE | a) -> Z.land a (Z.lnot (PAGE_SIZE - 1)) = a.
Proof.
  intros [k ->]. change (PAGE_SIZE - 1) with (Z.shiftl 1 12 - 1).
  rewrite land_lnot_mask by lia. change (2 ^ 12) with PAGE_SIZE. by rewrite Z.div_mul.
Qed.

Lemma zone_fill_ok (C : Prop) zaddr addr p bs m :
  region_ok addr p ->
  let z := made_zone zaddr addr p in
  (C -> bitmaps_zero (pages_count z) z m) ->
  fst (fst (zone_bounds addr p)) = bs ->
  kok zaddr heads_bytes = true ->
  apart zaddr heads_bytes addr (PAGE_SIZE * (p + 1024)) ->
  exists m', zone_fill (Zone zaddr [] (start_addr z) (end_addr z) (pages_count z)) bs addr m
               = Ret (z, m') /\
    zone_rep (pages_count z) z m' (b_init C (Z.to_nat (pages_count z / 1024))) /\
    untouched (pages_count z) z (fun q => 0 <= q < pages_count z) m m'.
Proof.
  intros Hr z HC Hbs Hok Hap. pose proof (made_zone_layout zaddr addr p Hr Hok Hap) as Hz. fold z in Hz.
  pose proof (made_zone_facts zaddr addr p Hr) as Hf. fold z in Hf.
  destruct Hf as (bs' & Hzb & Hbsp & Hs & _ & He & Hd & Hn & _ & Hza & Hbm).
  rewrite Hzb in Hbs. simpl in Hbs. subst bs'. pose proof Hr as (Hlo & _ & Hp & Hend).
  unfold zone_fill. unfold KERNEL_HIGHER_HALF_START, PAGE_SIZE in *.
  pose proof (order_bitmap_size_eq (pages_count z) ltac:(lia)) as Ho.
  assert (Ho' : 0 <= order_bitmap_size (pages_count z) <= pages_count z).
  { rewrite Ho. clearbody z. generalize dependent (pages_count z). clear -Hbsp. intros n Hn.
    Z.to_euclidean_division_equations. lia. }
  destruct (zone_orders_loop_ok (Zone zaddr [] (start_addr z) (end_addr z) (pages_count z))
              bs MAX_ORDER 0 addr [] m) as (m1 & H1 & Hd1 & Hu1); cbn [pages_count];
    try done; try (unfold MAX_ORDER, PAGE_SIZE in *; lia).
  kstep H1. cbn [app pages_count start_addr end_addr zone_addr] in *.
  rewrite <- Hbm.
  assert (Hzeq : Zone zaddr (bitmaps z) (start_addr z) (end_addr z) (pages_count z) = z).
  { rewrite <- Hza. by destruct z. }
  rewrite Hzeq. change (Z.shiftl 1 (Z.of_nat MAX_ORDER)) with 1024.
  destruct (head_init_ok z m1 MAX_ORDER (fun k => (k < MAX_ORDER)%nat))
    as (m2 & H2 & Hd2 & Hds & Hu2); [by rewrite Hza|done|lia| |].
  { intros k Hk. specialize (Hd1 k Hk). unfold orders_head in *. by rewrite Hza. }
  kstep H2.
  destruct (zone_blocks_loop_ok z _ Hz C (Z.to_nat (pages_count z / 1024)) 0 m2)
    as (m3 & H3 & Hrep & Hu3).
  { destruct Hd as [c Hc]. rewrite Hc in Hn |- *. rewrite Z.div_mul by done. lia. }
  { apply b_init_rep_nil; [done| |].
    - intros k Hk. destruct (decide (k = MAX_ORDER)) as [->|]; [done|]. apply Hds. lia.
    - intros HCC k a Hk Ha. pose proof (zl_heads_bitmaps _ _ Hz k Hk) as Hhb. rewrite Hza in Hhb.
      rewrite Hu2, Hu1; [by apply (HC HCC k)|..]; intros Hh; unfold head_area, in_range, apart in *; cbn [zone_addr] in Hh; lia. }
  kstep H3. exists m3. split; [done|]. split; [by apply b_init_rep|].
  eapply untouched_trans; [|exact Hu3]. eapply agree_trans.
  - eapply agree_weaken; [exact Hu1|]. intros a Ha Hh. apply Ha. left. by rewrite Hza.
  - eapply agree_weaken; [exact Hu2|]. intros a Ha Hh. apply Ha. by left.
Qed.

(** The structure the next zone is written to. *)
Definition next_zone_addr (s : fa_state) : Z :=
  allocator_zones_addr s + sizeof_zone * Z.of_nat (length (allocator_zones s)).

Lemma zone_add_run (C : Prop) s addr p :
  let z := made_zone (next_zone_addr s) addr p in
  (C -> bitmaps_zero (pages_count z) z (fa_mem s)) ->
  region_ok addr p -> (length (allocator_zones s) < MAX_ZONE_COUNT)%nat ->
  0 <= allocator_zones_addr s -> kok (next_zone_addr s) heads_bytes = true ->
  apart (next_zone_addr s) heads_bytes addr (PAGE_SIZE * (p + 1024)) ->
  exists m', zone_add addr p s =
      Ret (pages_count z, FaState m' (allocator_zones s ++ [z]) (allocator_zones_addr s)) /\
    zone_rep (pages_count z) z m' (b_init C (Z.to_nat (pages_count z / 1024))) /\
    untouched (pages_count z) z (fun q => 0 <= q < pages_count z) (fa_mem s) m'.
Proof.
  intros z HC Hr Hcnt Harr Hok Hap. pose proof Hr as (Hlo & Hal & Hp & Hend).
  unfold zone_add. rewrite kassert_true by (apply Z.eqb_eq; by apply page_aligned_mask).
  rewrite kassert_true by (apply Z.ltb_lt; done).
  unfold kget. cbn [kbind]. rewrite kassert_true by (by apply Nat.ltb_lt).
  pose proof (made_zone_facts (next_zone_addr s) addr p Hr) as Hf. fold z in Hf.
  destruct Hf as (bs & Hzb & Hbsp & Hs & _ & He & Hd & Hn & _ & Hza & Hbm).
  rewrite Hzb. fold (next_zone_addr s).
  pose proof (proj1 (kok_spec _ _) Hok) as [Hk1 Hk2].
  unfold KERNEL_HIGHER_HALF_START, PAGE_SIZE in *.
  rewrite u64_small by (unfold heads_bytes in *; lia).
  assert (Hpc : u64 (end_addr z - start_addr z) / 4096 = pages_count z).
  { rewrite u64_small by lia. rewrite He, Z.add_simpl_l, Z.mul_comm. by apply Z.div_mul. }
  unfold PAGE_SIZE. rewrite Hpc.
  pose proof (zone_fill_ok C (next_zone_addr s) addr p bs (fa_mem s) Hr) as Hf. fold z in Hf.
  rewrite Hzb in Hf. destruct Hf as (m' & Hrun & Hrep & Hu); [done..|].
  exists m'. split; [|done]. unfold in_mem at 1, klift, kbind. rewrite Hrun. done.
Qed.

(** All the zone owns lies in its heads and in its region. *)
Lemma made_zone_footprint zaddr addr p b a :
  region_ok addr p -> let z := made_zone zaddr addr p in footprint (z, pages_count z, b) a ->
  in_range zaddr heads_bytes a \/ in_range addr (PAGE_SIZE * (p + 1024)) a.
Proof.
  intros Hr z Hw. pose proof (made_zone_facts zaddr addr p Hr) as Hf. fold z in Hf.
  destruct Hf as (bs & _ & Hbs & Hs & _ & _ & _ & Hn & _ & Hza & _).
  destruct Hw as [Hw|[(k & Hk & Hw)|(q & Hq & Hw)]]; [left; by rewrite Hza in Hw|right..].
  - pose proof (made_bitmap_room zaddr addr p Hr k Hk) as Hroom. fold z in Hroom.
    unfold in_range, PAGE_SIZE in *. lia.
  - unfold in_range, page_addr, PAGE_SIZE in *. lia.
Qed.

(** The zone made for a region, with all its pages free. *)
Definition made_state (C : Prop) (zaddr addr p : Z) : zone_st :=
  let z := made_zone zaddr addr p in (z, pages_count z, b_init C (Z.to_nat (pages_count z / 1024))).

(** [zone_add] adds such a zone to those there were. *)
Lemma zone_add_ok (C : Prop) s l addr p :
  let e := made_state C (next_zone_addr s) addr p in
  (C -> bitmaps_zero (pages_count e.1.1) e.1.1 (fa_mem s)) ->
  allocator_zones s = zones_of l -> fa_good (fa_mem s) l -> region_ok addr p ->
  (length l < MAX_ZONE_COUNT)%nat -> 0 <= allocator_zones_addr s ->
  kok (next_zone_addr s) heads_bytes = true ->
  apart (next_zone_addr s) heads_bytes addr (PAGE_SIZE * (p + 1024)) ->
  (forall e a, e ∈ l -> footprint e a ->
     ~ in_range (next_zone_addr s) heads_bytes a /\ ~ in_range addr (PAGE_SIZE * (p + 1024)) a) ->
  exists m', zone_add addr p s =
      Ret (pages_count e.1.1, FaState m' (allocator_zones s ++ [e.1.1]) (allocator_zones_addr s)) /\
    fa_good m' (l ++ [e]) /\ agree (fun a => ~ footprint e a) (fa_mem s) m'.
Proof.
  intros e HC Hzs Hg Hr Hlen Harr Hok Hap Hsep.
  destruct (zone_add_run C s addr p HC Hr) as (m' & Hrun & Hrep & Hu); try done.
  { rewrite Hzs. unfold zones_of. by rewrite length_fmap. }
  exists m'. split; [done|]. split; [|exact Hu].
  pose proof (made_zone_layout _ addr p Hr Hok Hap) as Hz.
  destruct (made_zone_facts (next_zone_addr s) addr p Hr) as (bs & _ & Hbs & _ & _ & _ & Hd & Hn & _).
  eapply (fa_good_app (fa_mem s)); [done| | |exact Hu].
  - split; [done|]. split; [|done]. apply b_init_inv; [done|]. destruct Hd as [c Hc].
    rewrite Hc in Hn |- *. rewrite Z.div_mul by done. lia.
  - intros e' a He' Hfe Hw. destruct (Hsep e' a He' Hfe) as [H1 H2].
    destruct (made_zone_footprint _ _ _ _ a Hr Hw); tauto.
Qed.
