(* ===== verification/FrameExample.v ===== *)
(** * A zone that zone_add makes, as an instance

    The region of twelve maximal blocks and the page for the bitmaps, in memory
    that is clear. It shows that the hypotheses of the theorems on zones hold of
    what the kernel makes: for allocations always, and for frees while what is
    in use lies in the last two of the twelve blocks. *)

From S2P Require Import Prelude Mem Common DList Buddy Paging FrameAlloc FrameRefine FrameZones FrameSession FrameInit.

Definition region1 : Z := KERNEL_DIRECT_PHYS_MAPPING_START + 0x3ff000.
Definition array1 : Z := KERNEL_DIRECT_PHYS_MAPPING_START + 0x1000.
Definition fa0 : fa_state := FaState ∅ [] array1.

Definition zone1 : allocator_zone :=
  Zone array1 (bitmap_ptrs region1 1 MAX_ORDER ++ [NULL])
       (KERNEL_DIRECT_PHYS_MAPPING_START + 0x400000) (KERNEL_DIRECT_PHYS_MAPPING_START + 0x3400000) 12288.

Definition add1 : res (Z * fa_state) := zone_add region1 12289 fa0.
Definition mem1 : mem := match add1 with Ret (_, s) => fa_mem s | Halt _ => ∅ end.
Definition fa1 : fa_state := FaState mem1 [zone1] array1.
Definition zones1 : list zone_st := [(zone1, 12288, b_init True 12)].

Lemma region1_ok : region_ok region1 12289.
Proof. split; [by apply Z.leb_le|]. split; [|split; [lia|by apply Z.ltb_lt]]. by exists (region1 / PAGE_SIZE). Qed.

Lemma zone1_made : made_zone (next_zone_addr fa0) region1 12289 = zone1.
Proof. vm_compute. reflexivity. Qed.

Lemma array1_ok : kok (next_zone_addr fa0) heads_bytes = true.
Proof. reflexivity. Qed.

Lemma array1_apart : apart (next_zone_addr fa0) heads_bytes region1 (PAGE_SIZE * (12289 + 1024)).
Proof. left. by apply Z.leb_le. Qed.

Lemma zone1_layout : zone_layout zone1 12288.
Proof.
  pose proof (made_zone_layout _ _ _ region1_ok array1_ok array1_apart) as H.
  rewrite zone1_made in H. exact H.
Qed.

Lemma zone1_bitmap k : (k < MAX_ORDER)%nat -> bitmap zone1 k = region1 + Z.of_nat k.
Proof. intros Hk. unfold MAX_ORDER in Hk. do 10 (destruct k as [|k]; [done|]). lia. Qed.

Lemma zone1_bitmap_bytes k : 0 <= bitmap_bytes 12288 k <= 768.
Proof. by apply (bitmap_bytes_bound 12288 k). Qed.

Lemma fa0_good : fa_good (fa_mem fa0) [].
Proof. split; [constructor|exact I]. Qed.

(** [zone_add] on clear memory. *)
Lemma add1_run : add1 = Ret (12288, fa1) /\ fa_good mem1 zones1.
Proof.
  destruct (zone_add_ok True fa0 [] region1 12289) as (m' & Hrun & Hg & _);
    [|reflexivity|exact fa0_good|exact region1_ok|apply Nat.ltb_lt; reflexivity|by apply Z.leb_le|exact array1_ok|exact array1_apart| |].
  - intros _ k a _ _. reflexivity.
  - intros e a He. by apply not_elem_of_nil in He.
  - unfold made_state in Hrun, Hg. cbn [fst] in Hrun, Hg. rewrite zone1_made in Hrun, Hg.
    assert (Hm : mem1 = m') by (unfold mem1, add1; rewrite Hrun; reflexivity).
    split; [|rewrite Hm; exact Hg]. unfold add1. rewrite Hrun. unfold fa1. rewrite Hm. reflexivity.
Qed.

Lemma zones1_good : fa_good mem1 zones1.
Proof. apply add1_run. Qed.

Lemma zone1_rep : zone_rep 12288 zone1 mem1 (b_init True 12).
Proof. destruct zones1_good as [[(_ & _ & H) _]%Forall_cons_1 _]. exact H. Qed.

Lemma b_init_used C l z N n : l = [(z, N, b_init C n)] -> N = 1024 * Z.of_nat n -> all_used l [].
Proof.
  intros -> -> z' N' b p [= -> -> ->]%list_elem_of_singleton Hp Hc. exfalso. by apply Hc, b_init_cov.
Qed.

Lemma fa1_inv_of F : sess_inv F (fa1, []) zones1.
Proof.
  split; [reflexivity|]. split; [apply zones1_good|]. split; [|split; [exact I|split]].
  - intros B HB. by apply not_elem_of_nil in HB.
  - intros z N b [= -> -> ->]%list_elem_of_singleton _. exact I.
  - by eapply b_init_used.
Qed.

Lemma fa1_inv : sess_inv True (fa1, []) zones1.
Proof. apply fa1_inv_of. Qed.

Lemma fa1_ok F : sess_ok F (fa1, []).
Proof. exists zones1. apply fa1_inv_of. Qed.

(** What is in use is in the last two blocks. *)
Definition upper1 : Z := KERNEL_DIRECT_PHYS_MAPPING_START + 0x2c00000.

Lemma fa1_apart s L : allocator_zones s = [zone1] -> (forall B, B ∈ L -> upper1 <= B.1) -> bits_apart s L.
Proof.
  intros Hs HL z Hz. rewrite Hs in Hz. apply list_elem_of_singleton in Hz as ->.
  pose proof (made_upper_distinct (next_zone_addr fa0) region1 12289 region1_ok) as H.
  rewrite zone1_made in H. change (zone_pages zone1) with 12288.
  assert (Hd : forall k p, used_pair zone1 L k p -> pair_in 12288 k p /\
            exists x, pair_pages k p x /\ 1024 * upper_block 12288 <= x).
  { intros k p (Hp & q & B & Hq & HB & Ha). split; [exact Hp|]. exists q. split; [exact Hq|].
    specialize (HL B HB). change (1024 * upper_block 12288) with 10240.
    unfold block_range, in_range, page_addr, zone1, upper1, PAGE_SIZE in *. cbn [start_addr] in *. lia. }
  intros j p k q Hp Hq. apply H; apply Hd; [exact Hp|exact Hq].
Qed.

(** The ten lower blocks are on the free list of their size: then what is in use
    is above them. *)
Definition lower_free (m : mem) : bool :=
  forallb (fun i => bool_decide (page_addr zone1 (1024 * i) ∈ follow m 12 (orders_head zone1 MAX_ORDER))) (seqZ 0 10).

Lemma lower_free_upper F s L B :
  sess_ok F (s, L) -> allocator_zones s = [zone1] -> lower_free (fa_mem s) = true -> B ∈ L -> upper1 <= B.1.
Proof.
  intros (l & Hzs & Hg & Hheld & _) Hz Hlow HB. cbn [fst snd] in *.
  destruct (Hheld B HB) as (i & z & N & b & x & Hi & HBx & _ & Hx0 & HxN & _ & Hbusy).
  pose proof (list_elem_of_lookup_2 _ _ _ Hi) as Hin.
  pose proof (Forall_lookup_1 _ _ _ _ (proj1 Hg) Hi) as (_ & Hb & Hlists & _).
  assert (Hz1 : z = zone1).
  { assert (H : z ∈ allocator_zones s) by (rewrite Hzs; apply (list_elem_of_fmap_2 (fun e => e.1.1) l _ Hin)).
    rewrite Hz in H. by apply list_elem_of_singleton in H. }
  subst z. destruct (decide (10240 <= x)) as [|Hlt].
  { rewrite HBx. unfold page_addr, zone1, upper1, PAGE_SIZE. cbn [start_addr]. lia. }
  exfalso. pose proof (pages_pos B.2). apply (Hbusy x); [unfold in_range; lia|].
  pose proof (Z.div_mod x 1024). pose proof (Z.mod_pos_bound x 1024).
  unfold lower_free in Hlow. rewrite forallb_forall in Hlow.
  specialize (Hlow (x / 1024) ltac:(apply list_elem_of_In, elem_of_seqZ; lia)). apply bool_decide_eq_true_1 in Hlow.
  exists MAX_ORDER, (1024 * (x / 1024)). split; [|change (pages MAX_ORDER) with 1024; unfold in_range; lia].
  apply (follow_in _ _ _ _ (Hlists MAX_ORDER (le_n _)) _ _ (list_elem_of_here _ _)) in Hlow.
  apply elem_of_cons in Hlow as [E|Hf].
  - exfalso. change (orders_head zone1 MAX_ORDER) with (KERNEL_DIRECT_PHYS_MAPPING_START + 0x1000 + 240) in E.
    unfold page_addr, zone1, PAGE_SIZE in E. cbn [start_addr] in E. lia.
  - apply list_elem_of_fmap in Hf as (y & Hy & Hin'). unfold page_addr, PAGE_SIZE in Hy.
    unfold free. by replace (1024 * (x / 1024)) with y by lia.
Qed.

Lemma lower_free_apart F s L :
  sess_ok F (s, L) -> allocator_zones s = [zone1] -> lower_free (fa_mem s) = true -> bits_apart s L.
Proof. intros Hok Hz Hlow. apply fa1_apart; [exact Hz|]. intros B HB. by eapply lower_free_upper. Qed.

(** The first frame handed out is the first page of the last block. *)
Definition first1 : Z := KERNEL_DIRECT_PHYS_MAPPING_START + 0x3000000.

Lemma fa1_alloc : exists s1, frames_alloc 1 fa1 = Ret (first1, s1) /\ allocator_zones s1 = [zone1].
Proof.
  pose proof (alloc_run fa1 zones1 1 eq_refl zones1_good ltac:(lia)) as Hrun.
  destruct Hrun as [[_ Hnone]|(i & z & N & b & x & b' & m' & Hi & Hal & Hp & Hrun & _)].
  - by specialize (Hnone (zone1, 12288, b_init True 12) ltac:(apply list_elem_of_singleton; reflexivity)).
  - apply list_lookup_singleton_Some in Hi as [-> [= <- <- <-]].
    assert (H : option_map fst (b_alloc (b_init True 12) (order_of 1)) = Some 11264) by (vm_compute; reflexivity).
    rewrite Hal in H. injection H as ->. eexists. split; [exact Hrun|reflexivity].
Qed.

(** A session with one block in use. *)
Lemma fa1_session F : exists s, fa_reach F fa1 (s, [(first1, 0%nat)]) /\ bits_apart s [(first1, 0%nat)] /\ allocator_zones s = [zone1].
Proof.
  destruct fa1_alloc as (s & Hrun & Hz). exists s. split.
  - eapply reach_step; [apply reach_init|]. change 0%nat with (order_of 1). apply step_alloc; [lia|exact Hrun|done].
  - split; [|exact Hz]. apply fa1_apart; [exact Hz|]. intros B ->%list_elem_of_singleton. by apply Z.leb_le.
Qed.

(** The block is freed, and one is allocated again. *)
Lemma fa1_again : exists s p, fa_reach True fa1 (s, [(p, 0%nat)]).
Proof.
  destruct (fa1_session True) as (s & Hr & Hbits & Hsz).
  destruct (reach_inv True fa1 _ (fa1_ok True) Hr) as (l & Hzs & Hg & Hheld & _ & Hcl & Hall). cbn [fst snd] in *.
  destruct (free_run s l _ 1 (first1, 0%nat) Hcl Hall Hbits Hzs Hg ltac:(lia) eq_refl) as
    (i & z & N & b & b' & m' & x & Hi & HB & Hrun & Hg' & _ & Hcov & _);
    [apply Hheld, list_elem_of_singleton; reflexivity|].
  assert (Hr' : fa_reach True fa1 (set_mem s m', [])).
  { eapply reach_step; [exact Hr|]. apply (step_free True s [] [] 1 first1); [exact I|exact Hbits|lia|exact Hrun]. }
  assert (Hzs' : allocator_zones (set_mem s m') = zones_of (<[i := (z, N, b')]> l)) by (by rewrite (zones_of_insert _ _ _ _ b)).
  destruct (alloc_run (set_mem s m') _ 1 Hzs' Hg' ltac:(lia)) as
    [[_ Hnone]|(j & z1 & N1 & b1 & y & b2 & m2 & _ & _ & Hp & Hrun2 & _)].
  - exfalso. pose proof (lookup_lt_Some _ _ _ Hi) as Hil.
    pose proof (list_lookup_insert_eq l i (z, N, b') Hil) as Hi'.
    pose proof (Forall_lookup_1 _ _ _ _ (proj1 Hg') Hi') as (Hz & Hb' & _).
    specialize (Hnone _ (list_elem_of_lookup_2 _ _ _ Hi')). unfold zone_alloc_result in Hnone. cbn [snd] in Hnone.
    assert (Hx : cov b' x) by (apply Hcov; right; unfold in_range; change (pages _) with 1; lia).
    pose proof (cov_range N b' x Hb' Hx).
    destruct (b_alloc_None N b' (order_of 1) x Hb' ltac:(apply Nat.leb_le; reflexivity) Hnone) as (q & Hq & Hc);
      [lia|change (pages (order_of 1)) with 1; lia|by exists x; change (pages (order_of 1)) with 1; lia|].
    change (pages (order_of 1)) with 1 in Hq. unfold in_range in Hq. by replace q with x in Hc by lia.
  - exists (set_mem (set_mem s m') m2), (page_addr z1 y). eapply reach_step; [exact Hr'|].
    change 0%nat with (order_of 1). apply step_alloc; [lia|exact Hrun2|exact Hp].
Qed.

(** The abstract state with the first page in use. *)
Lemma used1 : exists b m, clean b /\ distinct_bits zone1 (live 12288 b) /\ binv 12288 b /\ busy b 0 11264 /\ zone_rep 12288 zone1 m b.
Proof.
  destruct (fa1_session True) as (s & Hr & Hbits & Hsz).
  destruct (reach_inv True fa1 _ (fa1_ok True) Hr) as (l & Hzs & Hg & Hheld & _ & Hcl & Hall). cbn [fst snd] in *.
  destruct (Hheld (first1, 0%nat)) as (i & z & N & b & x & Hi & HB & _ & Hx0 & HxN & _ & Hbusy);
    [by apply list_elem_of_singleton|]. cbn [fst snd] in *.
  pose proof (list_elem_of_lookup_2 _ _ _ Hi) as Hin.
  pose proof (Forall_lookup_1 _ _ _ _ (proj1 Hg) Hi) as (Hz & Hb & Hrep).
  assert (Hz1 : z = zone1).
  { assert (H : z ∈ allocator_zones s) by (rewrite Hzs; apply (list_elem_of_fmap_2 (fun e => e.1.1) l _ Hin)).
    rewrite Hsz in H. by apply list_elem_of_singleton in H. }
  subst z. assert (HN : N = 12288) by (by rewrite <- (zone_pages_eq zone1 N Hz)). subst N.
  assert (Hx : x = 11264) by (unfold page_addr, zone1, first1, PAGE_SIZE in HB; cbn [start_addr] in HB; lia). subst x.
  exists b, (fa_mem s). split; [by eapply Hcl|]. split; [|by split_and!].
  by apply (live_distinct s l _ zone1 12288 b Hzs (proj1 Hg) Hall Hbits).
Qed.
