(* ===== verification/FrameClaims.v ===== *)
(** * What the frame allocator guarantees

    The properties of mm/frame_alloc.c, on top of the refinement of
    FrameRefine.v and the sessions of FrameSession.v; each is followed by an
    instance at the zone of FrameExample.v or at one [zone_add] makes. *)

From S2P Require Import Prelude Mem Common DList Buddy Paging Multiboot FrameAlloc FrameRefine FrameZones.
From S2P Require Import FrameSession FrameInit FrameExample.

(** ** Sessions *)

(** [C1] Safety of sessions: from a state whose zones are well laid out, whatever
    a client does with [frames_alloc], writes into the blocks it holds, and
    [frames_free] of such blocks, the blocks in use never overlap, and no byte of
    them belongs to a free block or to the allocator's own lists and bitmaps. A
    session frees ([F]) only if the bitmaps were clear when the zones were made,
    and only while the pairs of buddies in use share no bit ([bits_apart], a
    premise of [fa_step]). What [frame_alloc_init] makes is such a state without
    [F], and with it on clear memory; [bits_apart] holds of its zones while what
    is in use lies about in their last quarters ([made_upper_distinct]), and
    [free_after_three_allocs_faults] is a free without it. *)
Theorem session_safety (F : Prop) s0 s L :
  sess_ok F (s0, []) -> fa_reach F s0 (s, L) ->
  exists l, allocator_zones s = zones_of l /\ fa_good (fa_mem s) l /\ pairwise blocks_sep L /\
    forall B a, B ∈ L -> block_range B a -> ~ free_byte l a /\ ~ meta_byte l a.
Proof.
  intros H0 Hr. destruct (reach_inv F s0 (s, L) H0 Hr) as (l & Hzs & Hg & Hheld & Hsep & _).
  exists l. split_and!; try done. intros B a HB Ha. by eapply held_not_free; [|apply Hheld|].
Qed.

(** On the zone of [zone_add]: a block is allocated, freed, and allocated again. *)
Lemma session_safety_witness :
  exists s p l, fa_reach True fa1 (s, [(p, 0%nat)]) /\ fa_good (fa_mem s) l /\
    (forall a, block_range (p, 0%nat) a -> ~ free_byte l a /\ ~ meta_byte l a).
Proof.
  destruct fa1_again as (s & p & Hr).
  destruct (session_safety True fa1 s _ (fa1_ok True) Hr) as (l & _ & Hg & _ & HL).
  exists s, p, l. split; [exact Hr|]. split; [exact Hg|]. intros a Ha.
  apply (HL (p, 0%nat) a); [apply list_elem_of_singleton; reflexivity | exact Ha].
Defined.

(** [C18] Progress: in such a session every allocation of up to 512 pages returns,
    and so does every free of a block in use, with its size, while the pairs in
    use share no bit of the bitmaps: no assertion fails, no access faults and no
    loop runs forever. *)
Theorem session_progress (F : Prop) s0 s L n :
  sess_ok F (s0, []) -> fa_reach F s0 (s, L) -> 0 <= n <= 512 ->
  (exists p s', frames_alloc n s = Ret (p, s')) /\
  (forall p, F -> bits_apart s L -> (p, order_of n) ∈ L -> exists s', frames_free p n s = Ret (tt, s')).
Proof.
  intros H0 Hr Hn. destruct (reach_inv F s0 (s, L) H0 Hr) as (l & Hzs & Hg & Hheld & _ & Hf & Hall).
  simpl in *. split.
  - destruct (alloc_run s l n Hzs Hg Hn) as
      [[Hrun _]|(i & z & N & b & x & b' & m' & _ & _ & _ & Hrun & _)]; eauto.
  - intros p HF Hbits Hp.
    destruct (free_run s l L n (p, order_of n) ltac:(intros ?????; by eapply Hf) Hall Hbits Hzs Hg Hn eq_refl (Hheld _ Hp))
      as (i & z & N & b & b' & m' & x & _ & _ & Hrun & _). eauto.
Qed.

Lemma session_progress_witness :
  exists s, fa_reach True fa1 (s, [(first1, 0%nat)]) /\ exists s', frames_free first1 1 s = Ret (tt, s').
Proof.
  destruct (fa1_session True) as (s & Hr & Hbits & _). exists s. split; [exact Hr|].
  destruct (session_progress True fa1 s _ 1 (fa1_ok True) Hr ltac:(lia)) as [_ Hfree].
  apply Hfree; [exact I|exact Hbits|apply list_elem_of_singleton; reflexivity].
Defined.

(** [C19] Isolation: an allocation returns zeroed memory and changes no byte of the
    blocks that stay in use; a free changes none either, while the pairs in use
    share no bit of the bitmaps. *)
Theorem session_isolation (F : Prop) s0 s L n :
  sess_ok F (s0, []) -> fa_reach F s0 (s, L) -> 0 <= n <= 512 ->
  (forall p s', frames_alloc n s = Ret (p, s') -> p <> NULL ->
     (forall a, block_range (p, order_of n) a -> rd8 (fa_mem s') a = 0) /\
     (forall B a, B ∈ L -> block_range B a -> rd8 (fa_mem s') a = rd8 (fa_mem s) a)) /\
  (forall p L1 L2 s', F -> bits_apart s L -> L = L1 ++ (p, order_of n) :: L2 -> frames_free p n s = Ret (tt, s') ->
     forall B a, B ∈ L1 ++ L2 -> block_range B a -> rd8 (fa_mem s') a = rd8 (fa_mem s) a).
Proof.
  intros H0 Hr Hn. destruct (reach_inv F s0 (s, L) H0 Hr) as (l & Hzs & Hg & Hheld & Hsep & Hf & Hall).
  simpl in *. split.
  - intros p s' Hp Hnn. destruct (alloc_run s l n Hzs Hg Hn) as
      [[Hrun _]|(i & z & N & b & x & b' & m' & Hi & _ & _ & Hrun & _ & Hu & Hzero)];
      rewrite Hrun in Hp; [by injection Hp as <-|]. injection Hp as <- <-.
    split; [exact Hzero|]. intros B a HB Ha. apply Hu. intros Hw.
    by eapply (held_untouched _ l B a i z N b (cov b)); [|apply Hheld|..].
  - intros p L1 L2 s' HF Hbits HL Hp B a HB Ha.
    destruct (free_run s l L n (p, order_of n) ltac:(intros ?????; by eapply Hf) Hall Hbits Hzs Hg Hn eq_refl) as
      (i & z & N & b & b' & m' & x & Hi & HB' & Hrun & _ & _ & _ & Hu); [apply Hheld; set_solver|].
    rewrite HL in Hsep, Hheld. apply pairwise_middle in Hsep as [_ Hap]; [|apply blocks_sep_sym].
    simpl in *. rewrite Hrun in Hp. injection Hp as <-. apply Hu. intros Hw.
    eapply (held_untouched _ l B a i z N b); [exact Hg|apply Hheld; set_solver|done|exact Hi| |exact Hw].
    intros q [Hq|Hq] Hqa; [done|]. exfalso.
    eapply sep_pages; [exact Hq| |exact Hqa|exact Ha]. rewrite <- HB'. by apply Hap.
Qed.

Lemma session_isolation_witness :
  exists s, fa_reach True fa1 (s, [(first1, 0%nat)]) /\
    forall p s', frames_alloc 1 s = Ret (p, s') -> p <> NULL ->
      forall a, block_range (first1, 0%nat) a -> rd8 (fa_mem s') a = rd8 (fa_mem s) a.
Proof.
  destruct (fa1_session True) as (s & Hr & _). exists s. split; [exact Hr|].
  destruct (session_isolation True fa1 s _ 1 (fa1_ok True) Hr ltac:(lia)) as [Hal _].
  intros p s' Hrun Hp a Ha. destruct (Hal p s' Hrun Hp) as [_ HB].
  apply (HB (first1, 0%nat) a); [apply list_elem_of_singleton; reflexivity|exact Ha].
Defined.

(** Completeness: [frames_alloc] answers [NULL] only if no zone has a free
    aligned run of the requested size, and then it changes nothing. *)
Theorem alloc_complete s l n s' :
  allocator_zones s = zones_of l -> fa_good (fa_mem s) l -> 0 <= n <= 512 ->
  frames_alloc n s = Ret (NULL, s') ->
  s' = s /\
  forall z N b x, (z, N, b) ∈ l -> 0 <= x -> x + pages (order_of n) <= N ->
    (pages (order_of n) | x) -> exists p, in_range x (pages (order_of n)) p /\ ~ cov b p.
Proof.
  intros Hzs Hg Hn Hrun. destruct (alloc_run s l n Hzs Hg Hn) as
    [[Hrun' Hnone]|(i & z & N & b & x & b' & m' & _ & _ & Hp & Hrun' & _)];
    rewrite Hrun' in Hrun; [|by injection Hrun as ?].
  injection Hrun as <-. split; [done|]. intros z N b x Hin Hx0 HxN Hxd.
  destruct Hg as [Hgood _]. rewrite Forall_forall in Hgood. destruct (Hgood _ Hin) as (_ & Hb & _).
  eapply b_alloc_None; try done; [|by apply (Hnone _ Hin)].
  pose proof (order_of_small n Hn). lia.
Qed.

(** An allocator without zones has no memory to give. *)
Lemma alloc_complete_witness :
  frames_alloc 3 (FaState ∅ [] NULL) = Ret (NULL, FaState ∅ [] NULL) /\
  forall z N b x, (z, N, b) ∈ ([] : list zone_st) -> 0 <= x -> x + pages (order_of 3) <= N ->
    (pages (order_of 3) | x) -> exists p, in_range x (pages (order_of 3)) p /\ ~ cov b p.
Proof.
  split; [reflexivity|].
  destruct (alloc_complete (FaState ∅ [] NULL) [] 3 (FaState ∅ [] NULL)) as [_ H];
    [reflexivity|split; [constructor|exact I]|lia|reflexivity|exact H].
Defined.

(** [C31] A free undoes an allocation, on zones whose bitmaps were clear when they
    were made and while the pairs in use share no bit: the free returns, and
    every zone has the same free blocks again, order by order. *)
Theorem alloc_free_restores s l L n p s1 :
  sess_inv True (s, L) l -> 0 <= n <= 512 -> frames_alloc n s = Ret (p, s1) -> p <> NULL ->
  bits_apart s1 ((p, order_of n) :: L) ->
  exists s2 l2, frames_free p n s1 = Ret (tt, s2) /\ allocator_zones s2 = zones_of l2 /\ fa_good (fa_mem s2) l2 /\
    forall i z N b, l !! i = Some (z, N, b) ->
      exists b2, l2 !! i = Some (z, N, b2) /\ forall k x, free b2 k x <-> free b k x.
Proof.
  intros Hinv Hn Hal Hp Hbits. pose proof Hinv as (Hzs & Hg & _ & _ & Hcl & _). cbn [fst snd] in Hzs, Hg.
  destruct (alloc_run s l n Hzs Hg Hn) as
    [[Hrun _]|(i & z & N & b & x & b' & m' & Hi & Hba' & _ & Hrun & Hg' & _)];
    rewrite Hrun in Hal; [by injection Hal as <-|]. injection Hal as <- <-.
  pose proof Hg as [Hgood _]. pose proof (Forall_lookup_1 _ _ _ _ Hgood Hi) as (_ & Hb & _).
  destruct (alloc_step_at True s l L n i z N b x b' m' Hinv Hn Hi Hba' Hg') as (Hzs' & _ & _ & _ & _ & Hall').
  pose proof (lookup_lt_Some _ _ _ Hi) as Hil.
  destruct (alloc_then_free s l n i z N b x b' m') as (b2 & m2 & Hrun2 & Hg2 & Hsame); try done.
  { by eapply Hcl; [eapply list_elem_of_lookup_2|]. }
  { apply (live_distinct (set_mem s m') _ _ z N b' Hzs' (proj1 Hg') Hall' Hbits).
    apply list_elem_of_lookup. exists i. by apply list_lookup_insert_eq. }
  exists (set_mem s m2), (<[i := (z, N, b2)]> l). split; [exact Hrun2|]. split; [|split; [done|]].
  { simpl. rewrite Hzs. by rewrite (zones_of_insert _ _ _ _ b). }
  intros k z0 N0 b0 Hk. destruct (decide (k = i)) as [->|Hki].
  - rewrite Hi in Hk. injection Hk as <- <- <-. exists b2.
    split; [by apply list_lookup_insert_eq|].
    assert (Hb2 : binv N b2).
    { destruct Hg2 as [Hgood2 _]. eapply (Forall_lookup_1 _ _ i (z, N, b2) Hgood2).
      by apply list_lookup_insert_eq. }
    split; by apply (binv_canonical N).
  - exists b0. by rewrite list_lookup_insert_ne.
Qed.

Lemma alloc_free_restores_witness :
  exists s1 s2 (l2 : list zone_st), frames_alloc 1 fa1 = Ret (first1, s1) /\ frames_free first1 1 s1 = Ret (tt, s2) /\
    exists b2, l2 !! 0%nat = Some (zone1, 12288, b2) /\ forall k x, free b2 k x <-> free (b_init True 12) k x.
Proof.
  destruct fa1_alloc as (s1 & H1 & Hz).
  destruct (alloc_free_restores fa1 zones1 [] 1 first1 s1 fa1_inv) as (s2 & l2 & H2 & _ & _ & Hl);
    [lia|exact H1|discriminate| |].
  - apply fa1_apart; [exact Hz|]. intros B ->%list_elem_of_singleton. apply Z.leb_le. reflexivity.
  - exists s1, s2, l2. split; [exact H1|]. split; [exact H2|]. apply (Hl 0%nat). reflexivity.
Defined.

(** ** One zone *)

(** [C29] [zone_alloc] refines the abstract allocator: on a zone that represents a
    state [b] it returns [NULL] and changes nothing when no aligned run of the
    size is free; otherwise it returns a free aligned block, zeroed, the free
    pages shrink by exactly that block, and outside the zone's own structures
    and free pages no byte changes. The bitmaps need not be apart. *)
Theorem zone_alloc_correct z N b m order :
  zone_layout z N -> binv N b -> (order < MAX_ORDER)%nat -> zone_rep N z m b ->
  (zone_alloc z order m = Ret (NULL, m) /\
   forall x, 0 <= x -> x + pages order <= N -> (pages order | x) ->
     exists p, in_range x (pages order) p /\ ~ cov b p) \/
  (exists x b' m', zone_alloc z order m = Ret (page_addr z x, m') /\
     0 <= x /\ x + pages order <= N /\ (pages order | x) /\
     (forall p, in_range x (pages order) p -> cov b p) /\
     zone_rep N z m' b' /\ binv N b' /\
     (forall p, cov b' p <-> cov b p /\ ~ in_range x (pages order) p) /\
     (forall a, in_range (page_addr z x) (block_size order) a -> rd8 m' a = 0) /\
     untouched N z (cov b) m m').
Proof.
  intros Hz Hb Ho Hrep. pose proof (zone_alloc_refines z N Hz order b m Hb Ho Hrep) as H.
  destruct (b_alloc b order) as [[x b']|] eqn:Hal.
  - right. destruct H as (m' & Hrun & Hrep' & Hu & Hzero).
    destruct (b_alloc_Some N b order x b' Hb ltac:(lia) Hal) as (? & ? & ? & ? & ? & ?).
    by exists x, b', m'.
  - left. split; [done|]. intros x Hx0 HxN Hxd. eapply b_alloc_None; try done. lia.
Qed.

Lemma zone_alloc_correct_witness :
  exists x b' m', zone_alloc zone1 3 mem1 = Ret (page_addr zone1 x, m') /\ zone_rep 12288 zone1 m' b'.
Proof.
  assert (Hd : (1024 | 12288)) by (exists 12; reflexivity).
  destruct (zone_alloc_correct zone1 12288 (b_init True 12) mem1 3) as [[_ H]|(x & b' & m' & Hrun & _ & _ & _ & _ & Hrep & _)];
    [apply zone1_layout|apply b_init_inv; [exact Hd|lia]|unfold MAX_ORDER; lia|apply zone1_rep| |].
  - destruct (H 0) as (p & Hp & Hc); [lia|change (pages 3) with 8; lia|exists 0; reflexivity|].
    exfalso. apply Hc, b_init_cov. unfold in_range in Hp. change (pages 3) with 8 in Hp. lia.
  - exists x, b', m'. split; [exact Hrun|exact Hrep].
Defined.

(** [C30] [zone_dealloc] of a busy aligned block, on a zone whose bitmaps were clear
    when it was made and whose pairs in use share no bit ([distinct_bits]),
    returns, makes exactly the block's pages free, and leaves the zone maximally
    coalesced (the invariant [binv] allows no two free buddies). *)
Theorem zone_dealloc_correct z N b m order x :
  zone_layout z N -> clean b -> distinct_bits z (live N b) -> binv N b -> (order <= MAX_ORDER)%nat ->
  0 <= x -> x + pages order <= N -> (pages order | x) -> busy b order x -> zone_rep N z m b ->
  exists b' m', zone_dealloc z (page_addr z x) order m = Ret (tt, m') /\
    zone_rep N z m' b' /\ binv N b' /\
    (forall p, cov b' p <-> cov b p \/ in_range x (pages order) p) /\
    untouched N z (fun p => cov b p \/ in_range x (pages order) p) m m'.
Proof.
  intros Hz Hcl Hd Hb Ho Hx0 HxN Hxd Hbusy Hrep.
  destruct (zone_dealloc_refines z N Hz order x b m) as (m' & Hrun & Hrep' & Hu); try done.
  destruct (b_free_inv N b x order) as [Hb' Hcov]; try done.
  by exists (b_free b x order), m'.
Qed.

(** A page of the zone of [zone_add] is given back. *)
Lemma zone_dealloc_correct_witness :
  exists m b' m', zone_dealloc zone1 first1 0 m = Ret (tt, m') /\ zone_rep 12288 zone1 m' b'.
Proof.
  destruct used1 as (b & m & Hcl & Hd & Hb & Hbusy & Hrep).
  destruct (zone_dealloc_correct zone1 12288 b m 0 11264) as (b' & m' & Hrun & Hrep' & _);
    [apply zone1_layout|exact Hcl|exact Hd|exact Hb|lia|lia|change (pages 0) with 1; lia|exists 11264; reflexivity|exact Hbusy|exact Hrep|].
  exists m, b', m'. split; [exact Hrun|exact Hrep'].
Defined.

(** ** Zones as zone_add builds them *)

(** [zone_add] of a page-aligned region of more than 1024 pages appends a
    zone with a good layout, all of whose pages are free, and keeps the zones
    there were: the invariant of the allocator is re-established, so sessions
    that only allocate are safe on it. *)
Theorem zone_add_correct s l addr p :
  allocator_zones s = zones_of l -> fa_good (fa_mem s) l -> region_ok addr p ->
  (length l < MAX_ZONE_COUNT)%nat -> 0 <= allocator_zones_addr s ->
  kok (next_zone_addr s) heads_bytes = true ->
  apart (next_zone_addr s) heads_bytes addr (PAGE_SIZE * (p + 1024)) ->
  (forall e a, e ∈ l -> footprint e a ->
     ~ in_range (next_zone_addr s) heads_bytes a /\ ~ in_range addr (PAGE_SIZE * (p + 1024)) a) ->
  exists z s', zone_add addr p s = Ret (pages_count z, s') /\
    allocator_zones s' = allocator_zones s ++ [z] /\
    (1024 | pages_count z) /\ 1024 <= pages_count z < p /\ (PAGE_SIZE * 1024 | start_addr z) /\
    addr < start_addr z /\ end_addr z = start_addr z + PAGE_SIZE * pages_count z /\
    fa_good (fa_mem s') (l ++ [(z, pages_count z, b_init False (Z.to_nat (pages_count z / 1024)))]).
Proof.
  intros Hzs Hg Hr Hlen Harr Hok Hap Hsep.
  destruct (zone_add_ok False s l addr p) as (m' & Hrun & Hg' & _); try done.
  destruct (made_zone_facts (next_zone_addr s) addr p Hr) as (bs & _ & Hbs & Hs & Hsa & He & Hd & Hn & _).
  eexists _, _. split; [exact Hrun|]. cbn [made_state fst allocator_zones fa_mem] in *.
  split_and!; try done; unfold PAGE_SIZE in *; lia.
Qed.

(** The first region, eight megabytes above the kernel half's base. *)
Lemma zone_add_correct_witness :
  exists z s', zone_add (KERNEL_HIGHER_HALF_START + 0x800000) 4096
                 (FaState ∅ [] (KERNEL_HIGHER_HALF_START + 0x1000)) = Ret (pages_count z, s') /\
    1024 <= pages_count z /\
    fa_good (fa_mem s') [(z, pages_count z, b_init False (Z.to_nat (pages_count z / 1024)))].
Proof.
  destruct (zone_add_correct (FaState ∅ [] (KERNEL_HIGHER_HALF_START + 0x1000)) []
              (KERNEL_HIGHER_HALF_START + 0x800000) 4096)
    as (z & s' & Hrun & _ & _ & [Hn _] & _ & _ & _ & Hg);
    [reflexivity|split; [constructor|exact I]| |apply Nat.ltb_lt; reflexivity
    |apply Z.leb_le; reflexivity|reflexivity|left; apply Z.leb_le; reflexivity| |].
  - split; [apply Z.leb_le; reflexivity|]. split; [|split; [lia|apply Z.ltb_lt; reflexivity]].
    exists ((KERNEL_HIGHER_HALF_START + 0x800000) / PAGE_SIZE). reflexivity.
  - intros e a He. by apply not_elem_of_nil in He.
  - exists z, s'. split; [exact Hrun|]. split; [exact Hn|exact Hg].
Defined.

(** The zones of [zone_add] never have their bitmaps apart: whatever the
    region, the bitmaps of the orders 0 and 1 share bytes, because every order
    is given the size of the order [MAX_ORDER]. *)
Theorem zone_add_bitmaps_overlap s addr p z n s' :
  region_ok addr p -> (length (allocator_zones s) < MAX_ZONE_COUNT)%nat ->
  0 <= allocator_zones_addr s -> kok (next_zone_addr s) heads_bytes = true ->
  apart (next_zone_addr s) heads_bytes addr (PAGE_SIZE * (p + 1024)) ->
  zone_add addr p s = Ret (n, s') -> last (allocator_zones s') = Some z ->
  ~ apart (bitmap z 0) (bitmap_bytes n 0) (bitmap z 1) (bitmap_bytes n 1).
Proof.
  intros Hr Hlen Harr Hok Hap Hrun Hlast.
  destruct (zone_add_run False s addr p (False_ind _) Hr Hlen Harr Hok Hap) as (m' & Hrun' & _).
  rewrite Hrun' in Hrun. injection Hrun as <- <-. simpl in Hlast. rewrite last_snoc in Hlast.
  injection Hlast as <-. by apply made_bitmaps_share.
Qed.

Lemma zone_add_bitmaps_overlap_witness :
  exists z n s', zone_add (KERNEL_HIGHER_HALF_START + 0x800000) 4096
      (FaState ∅ [] (KERNEL_HIGHER_HALF_START + 0x1000)) = Ret (n, s') /\
    ~ apart (bitmap z 0) (bitmap_bytes n 0) (bitmap z 1) (bitmap_bytes n 1).
Proof.
  assert (Hr : region_ok (KERNEL_HIGHER_HALF_START + 0x800000) 4096).
  { split; [apply Z.leb_le; reflexivity|]. split; [|split; [lia|apply Z.ltb_lt; reflexivity]].
    exists ((KERNEL_HIGHER_HALF_START + 0x800000) / PAGE_SIZE). reflexivity. }
  assert (Hk : kok (next_zone_addr (FaState ∅ [] (KERNEL_HIGHER_HALF_START + 0x1000))) heads_bytes = true)
    by reflexivity.
  assert (Hap : apart (next_zone_addr (FaState ∅ [] (KERNEL_HIGHER_HALF_START + 0x1000))) heads_bytes
                  (KERNEL_HIGHER_HALF_START + 0x800000) (PAGE_SIZE * (4096 + 1024)))
    by (left; apply Z.leb_le; reflexivity).
  destruct (zone_add_run False (FaState ∅ [] (KERNEL_HIGHER_HALF_START + 0x1000))
              (KERNEL_HIGHER_HALF_START + 0x800000) 4096 (False_ind _) Hr) as (m' & Hrun & _);
    [apply Nat.ltb_lt; reflexivity|apply Z.leb_le; reflexivity|exact Hk|exact Hap|].
  eexists _, _, _. split; [exact Hrun|].
  eapply (zone_add_bitmaps_overlap (FaState ∅ [] (KERNEL_HIGHER_HALF_START + 0x1000))
            (KERNEL_HIGHER_HALF_START + 0x800000) 4096);
    [exact Hr|apply Nat.ltb_lt; reflexivity|apply Z.leb_le; reflexivity|exact Hk|exact Hap|exact Hrun|].
  reflexivity.
Defined.

(** [C35] What the overlap does: on a fresh zone of one maximal block, three
    [frame_alloc]s and the free of the first frame end in a page fault at
    address 0. The pair bit of order 1 that the first allocation set is read as
    the bit of order 0, and the busy buddy is extracted from a list it is not
    in. *)
Theorem free_after_three_allocs_faults :
  (let! _ := zone_add (KERNEL_HIGHER_HALF_START + 0x7ff000) 1025 in
   let! a := frame_alloc in
   let! _ := frame_alloc in
   let! _ := frame_alloc in
   frame_free a)%K (FaState ∅ [] (KERNEL_HIGHER_HALF_START + 0x1000)) = Halt (Fault 0).
Proof. vm_compute. reflexivity. Qed.

(** [C36] The end of a zone is less than one maximal block past the end of its
    region, and can be past it: rounding the start up is not taken off the
    number of pages. Then most of the zone is not memory of the region. *)
Theorem zone_add_extent :
  (forall s addr p z n s',
     region_ok addr p -> (length (allocator_zones s) < MAX_ZONE_COUNT)%nat ->
     0 <= allocator_zones_addr s -> kok (next_zone_addr s) heads_bytes = true ->
     apart (next_zone_addr s) heads_bytes addr (PAGE_SIZE * (p + 1024)) ->
     zone_add addr p s = Ret (n, s') -> last (allocator_zones s') = Some z ->
     addr < start_addr z /\ end_addr z < addr + PAGE_SIZE * p + PAGE_SIZE * 1024) /\
  (exists s addr p z n s', region_ok addr p /\ zone_add addr p s = Ret (n, s') /\
     last (allocator_zones s') = Some z /\
     addr + PAGE_SIZE * p + PAGE_SIZE * 1000 < end_addr z).
Proof.
  split.
  - intros s addr p z n s' Hr Hlen Harr Hok Hap Hrun Hlast.
    destruct (zone_add_run False s addr p (False_ind _) Hr Hlen Harr Hok Hap) as (m' & Hrun' & _).
    rewrite Hrun' in Hrun. injection Hrun as <- <-. simpl in Hlast. rewrite last_snoc in Hlast.
    injection Hlast as <-. apply made_zone_extent, Hr.
  - exists (FaState ∅ [] (KERNEL_HIGHER_HALF_START + 0x1000000)), (KERNEL_HIGHER_HALF_START + 0x1000), 1025.
    destruct (zone_add_run False (FaState ∅ [] (KERNEL_HIGHER_HALF_START + 0x1000000))
              (KERNEL_HIGHER_HALF_START + 0x1000) 1025 (False_ind _)) as (m' & Hrun & _);
      [|apply Nat.ltb_lt; reflexivity|apply Z.leb_le; reflexivity|reflexivity
       |right; apply Z.leb_le; reflexivity|].
    + split; [apply Z.leb_le; reflexivity|]. split; [|split; [lia|apply Z.ltb_lt; reflexivity]].
      exists ((KERNEL_HIGHER_HALF_START + 0x1000) / PAGE_SIZE). reflexivity.
    + eexists _, _, _. split; [|split; [exact Hrun|split; [reflexivity|apply Z.ltb_lt; reflexivity]]].
      split; [apply Z.leb_le; reflexivity|]. split; [|split; [lia|apply Z.ltb_lt; reflexivity]].
      exists ((KERNEL_HIGHER_HALF_START + 0x1000) / PAGE_SIZE). reflexivity.
Qed.

(** [frame_alloc_init] keeps regions of exactly 1024 pages, and [zone_add]
    halts the kernel on them. *)
Theorem region_of_1024_pages_halts base reserved_end s :
  0 <= base -> KERNEL_DIRECT_PHYS_MAPPING_START + base < two64 -> (PAGE_SIZE | base) ->
  reserved_end <= KERNEL_DIRECT_PHYS_MAPPING_START + base ->
  exists a msg, usable_region reserved_end base (PAGE_SIZE * 1024) = Some (a, 1024) /\
    zone_add a 1024 s = Halt (Panic msg).
Proof.
  intros Hb Hend [c Hc] Hres. exists (KERNEL_DIRECT_PHYS_MAPPING_START + base). eexists. split.
  - unfold usable_region.
    assert (E : ROUNDUP (PHYS_TO_VIRT base) PAGE_SIZE = KERNEL_DIRECT_PHYS_MAPPING_START + base).
    { unfold PHYS_TO_VIRT. rewrite u64_small by (unfold KERNEL_DIRECT_PHYS_MAPPING_START in *; lia).
      unfold KERNEL_DIRECT_PHYS_MAPPING_START, PAGE_SIZE in *.
      apply ROUNDUP_id; try lia. exists (c + 18446612682070032384 / 4096). rewrite Hc.
      change (18446612682070032384 / 4096) with 4503567549333504. lia. }
    rewrite E. destruct (Z.ltb_spec (KERNEL_DIRECT_PHYS_MAPPING_START + base) reserved_end); [lia|].
    reflexivity.
  - unfold zone_add. rewrite kassert_true; [by rewrite kassert_false|].
    apply Z.eqb_eq, page_aligned_mask. exists (c + KERNEL_DIRECT_PHYS_MAPPING_START / PAGE_SIZE).
    rewrite Hc. change (KERNEL_DIRECT_PHYS_MAPPING_START / PAGE_SIZE) with 4503567549333504.
    unfold KERNEL_DIRECT_PHYS_MAPPING_START, PAGE_SIZE. lia.
Qed.

Lemma region_of_1024_pages_halts_witness :
  exists a msg, usable_region 0 0x100000 (PAGE_SIZE * 1024) = Some (a, 1024) /\
    zone_add a 1024 fa1 = Halt (Panic msg).
Proof.
  apply (region_of_1024_pages_halts 0x100000 0 fa1);
    [lia|apply Z.ltb_lt; reflexivity|exists 256; reflexivity|apply Z.leb_le; reflexivity].
Defined.

(** [pages2order] returns the least order whose blocks hold [n] pages, for
    every [n] up to a maximal block, and halts beyond. *)
Theorem pages2order_least {St : Type} n (s : St) :
  0 <= n ->
  (n <= 1024 -> exists o, pages2order n s = Ret (o, s) /\ n <= pages o /\
                          forall k, n <= pages k -> (o <= k)%nat) /\
  (1024 < n -> exists msg, pages2order n s = Halt (Panic msg)).
Proof.
  intros Hn. split; intros Hm.
  - exists (order_of n). split; [apply pages2order_ok; lia|].
    destruct (decide (0 < n)) as [Hp|Hp]; [by apply order_of_spec|].
    assert (n = 0) as -> by lia. split; [done|]. intros k _. apply Nat.le_0_l.
  - eexists. unfold pages2order. rewrite kassert_false; [done|].
    apply Z.leb_gt. change (Z.shiftl 1 (Z.of_nat MAX_ORDER)) with 1024. lia.
Qed.

Lemma pages2order_least_witness :
  exists o, pages2order 5 fa1 = Ret (o, fa1) /\ 5 <= pages o /\ forall k, 5 <= pages k -> (o <= k)%nat.
Proof. apply (pages2order_least 5 fa1); lia. Defined.
