(* ===== verification/Fb.v ===== *)
(** * drivers/fb.c: the linear framebuffer

    The static variables of the driver are the record [fb_state]; [fb_init]
    fills it and the drawing functions only read it, so they are computations
    on memory. Coordinates and sizes are [int]s; the products with [sizeof] are
    made at 64 bits, as in C. *)

From S2P Require Import Prelude Mem Common Paging Multiboot.

Definition FB_COLOR_BLACK : Z := 0.
Definition FB_COLOR_WHITE : Z := 0x00FFFFFF.
Definition FB_COLOR_RED : Z := 0x00FF0000.
Definition FB_COLOR_GREEN : Z := 0x0000FF00.
Definition FB_COLOR_BLUE : Z := 0x000000FF.

Record fb_state := FbState {
  fb_initialized : bool;
  fb_addr : Z;
  fb_width : Z;
  fb_height : Z;
  fb_pitch : Z;
  fb_buf_size : Z;
}.

(** The fields of the packed mb_fb_info_t. *)
Definition info_addr (info : Z) : K mem Z := load64 (u64 (info + 8)).
Definition info_pitch (info : Z) : K mem Z := load32 (u64 (info + 16)).
Definition info_width (info : Z) : K mem Z := load32 (u64 (info + 20)).
Definition info_heigth (info : Z) : K mem Z := load32 (u64 (info + 24)).
Definition info_depth (info : Z) : K mem Z := load8 (u64 (info + 28)).
Definition info_type (info : Z) : K mem Z := load8 (u64 (info + 29)).

(** The condition is evaluated left to right, with the shortcuts of [&&]. *)
Definition fb_info_ok (info : Z) : K mem bool :=
  if info =? 0 then kret false
  else
    (let! type := info_type info in
     if negb (type =? 1) then kret false
     else
       let! depth := info_depth info in
       kret (depth =? 32))%K.

Definition fb_init (mb : mb_state) : K mem fb_state :=
  let info := mb_fb_info mb in
  (let! ok := fb_info_ok info in
   kassert ok "mb_fb_info != NULL && mb_fb_info->type == 1 && mb_fb_info->depth == 32" ;;
   let! width := info_width info in
   let! height := info_heigth info in
   let! addr := info_addr info in
   let! pitch := info_pitch info in
   kret (FbState true (PHYS_TO_VIRT addr) (s32 width) (s32 height) (s32 pitch)
                 (s32 (u32 (pitch * s32 height)))))%K.

Definition fb_get_size (fb : fb_state) : K mem (Z * Z) :=
  (kassert (fb_initialized fb) "fb_initialized" ;;
   kret (fb_width fb, fb_height fb))%K.

(** fb_addr + y * fb_pitch + x * sizeof(fb_color_t). *)
Definition pixel_addr (fb : fb_state) (x y : Z) : Z :=
  u64 (fb_addr fb + s32 (y * fb_pitch fb) + x * 4).

(** for (i = 0; i < width; i++) addr[i] = color. *)
Fixpoint fill_row (addr color : Z) (i : Z) (n : nat) : K mem unit :=
  match n with
  | O => kret tt
  | S n => (store32 (u64 (addr + 4 * i)) color ;; fill_row addr color (i + 1) n)%K
  end.

Fixpoint fb_clear_loop (fb : fb_state) (color y : Z) (n : nat) : K mem unit :=
  match n with
  | O => kret tt
  | S n =>
      (fill_row (u64 (fb_addr fb + s32 (y * fb_pitch fb))) color 0 (Z.to_nat (fb_width fb)) ;;
       fb_clear_loop fb color (y + 1) n)%K
  end.

Definition fb_clear (fb : fb_state) (color : Z) : K mem unit :=
  (kassert (fb_initialized fb) "fb_initialized" ;;
   fb_clear_loop fb color 0 (Z.to_nat (fb_height fb)))%K.

Definition fb_put_rect_fragment (fb : fb_state) (color x y width : Z) : K mem unit :=
  if (y <? 0) || (fb_height fb <=? y) then kret tt
  else
    let width := if fb_width fb <? s32 (x + width) then s32 (fb_width fb - x) else width in
    fill_row (pixel_addr fb x y) color 0 (Z.to_nat width).

Definition fb_put_line_fragment (fb : fb_state) (data x y width : Z) : K mem unit :=
  (kassert (negb (data =? 0)) "data != NULL" ;;
   if (y <? 0) || (fb_height fb <=? y) then kret tt
   else
     let width := if fb_width fb <? s32 (x + width) then s32 (fb_width fb - x) else width in
     memcpy (pixel_addr fb x y) data (u64 (4 * width)))%K.

Fixpoint fb_draw_rect_loop (fb : fb_state) (color x y width i : Z) (n : nat) : K mem unit :=
  match n with
  | O => kret tt
  | S n =>
      (fb_put_rect_fragment fb color x (s32 (y + i)) width ;;
       fb_draw_rect_loop fb color x y width (i + 1) n)%K
  end.

Definition fb_draw_rect (fb : fb_state) (color x y width height : Z) : K mem unit :=
  (kassert (fb_initialized fb) "fb_initialized" ;;
   fb_draw_rect_loop fb color x y width 0 (Z.to_nat height))%K.

Fixpoint fb_draw_loop (fb : fb_state) (data x y width i : Z) (n : nat) : K mem unit :=
  match n with
  | O => kret tt
  | S n =>
      (fb_put_line_fragment fb (u64 (data + 4 * s32 (width * i))) x (s32 (y + i)) width ;;
       fb_draw_loop fb data x y width (i + 1) n)%K
  end.

Definition fb_draw (fb : fb_state) (data x y width height : Z) : K mem unit :=
  (kassert (fb_initialized fb) "fb_initialized" ;;
   kassert (negb (data =? 0)) "data != NULL" ;;
   fb_draw_loop fb data x y width 0 (Z.to_nat height))%K.

(** One row of a glyph: the bit [w] of the byte chooses the colour. *)
Fixpoint glyph_row (addr bits fg_color bg_color w : Z) (n : nat) : K mem unit :=
  match n with
  | O => kret tt
  | S n =>
      (store32 (u64 (addr + 4 * w)) (if Z.land (Z.shiftr bits w) 1 =? 0 then bg_color else fg_color) ;;
       glyph_row addr bits fg_color bg_color (w + 1) n)%K
  end.

(** [glyph] is the eight bytes the C code points to. *)
Fixpoint glyph_rows (fb : fb_state) (glyph : list Z) (x y fg_color bg_color h : Z) : K mem unit :=
  match glyph with
  | [] => kret tt
  | bits :: glyph =>
      (glyph_row (pixel_addr fb x (s32 (y + h))) bits fg_color bg_color 0 8 ;;
       glyph_rows fb glyph x y fg_color bg_color (h + 1))%K
  end.

Definition fb_draw_glyph (fb : fb_state) (glyph : list Z) (x y fg_color bg_color : Z) : K mem unit :=
  (kassert (fb_initialized fb) "fb_initialized" ;;
   glyph_rows fb glyph x y fg_color bg_color 0)%K.

(** for (y = fb_height - height; y < fb_height; y++). *)
Fixpoint scroll_fill (fb : fb_state) (color y : Z) (n : nat) : K mem unit :=
  match n with
  | O => kret tt
  | S n => (fb_put_rect_fragment fb color 0 y (fb_width fb) ;; scroll_fill fb color (y + 1) n)%K
  end.

Definition fb_scroll_up (fb : fb_state) (height color : Z) : K mem unit :=
  (kassert (fb_initialized fb) "fb_initialized" ;;
   memmove (fb_addr fb) (u64 (fb_addr fb + s32 (fb_pitch fb * height)))
           (u64 (s32 (fb_pitch fb * s32 (fb_height fb - height)))) ;;
   scroll_fill fb color (s32 (fb_height fb - height)) (Z.to_nat height))%K.
