(* ===== verification/FbSpec.v ===== *)
(** * What the framebuffer driver draws

    Pixels are words of the screen's memory. For a screen that fits its pitch
    and the address space ([fb_ok]) every drawing inside it returns, writes the
    pixels it should and no byte outside them. *)

From S2P Require Import Prelude Mem Common Paging Multiboot Fb.

Record fb_ok (fb : fb_state) : Prop := {
  fo_init : fb_initialized fb = true;
  fo_width : 0 <= fb_width fb;
  fo_height : 0 <= fb_height fb;
  fo_pitch : 4 * fb_width fb <= fb_pitch fb;
  fo_bytes : fb_height fb * fb_pitch fb < 2 ^ 31 /\ fb_height fb < 2 ^ 29 /\ fb_pitch fb < 2 ^ 31;
  fo_addr : KERNEL_HIGHER_HALF_START <= fb_addr fb;
  fo_end : fb_addr fb + fb_height fb * fb_pitch fb < two64;
}.

(** The bytes of the screen, and of the rectangle of pixels at ([x], [y]). *)
Definition on_screen (fb : fb_state) (a : Z) : Prop :=
  in_range (fb_addr fb) (fb_height fb * fb_pitch fb) a.
Definition pixel_at (fb : fb_state) (x y : Z) : Z := fb_addr fb + y * fb_pitch fb + 4 * x.
Definition pixel (m : mem) (fb : fb_state) (x y : Z) : Z := ld 4 m (pixel_at fb x y).
Definition rect_byte (fb : fb_state) (x y w h a : Z) : Prop :=
  exists r, 0 <= r < h /\ in_range (pixel_at fb x (y + r)) (4 * w) a.

(** [n] words from [addr + 4 * i] on, the [j]th being [f j]; nothing else. *)
Definition row_written (f : Z -> Z) (addr i : Z) (n : nat) (m m' : mem) : Prop :=
  (forall j, i <= j < i + Z.of_nat n -> ld 4 m' (addr + 4 * j) = u32 (f j)) /\
  agree (fun a => ~ in_range (addr + 4 * i) (4 * Z.of_nat n) a) m m'.

Lemma ld_4_st_4 m a v : ld 4 (st 4 m a v) a = u32 v.
Proof. apply (ld_st_same 4). Qed.

(** The words written are distinct. *)
Lemma row_written_step f addr i n m m' :
  row_written f addr (i + 1) n (st 4 m (addr + 4 * i) (f i)) m' -> row_written f addr i (S n) m m'.
Proof.
  intros [Hw Hag]. split.
  - intros j Hj. destruct (decide (j = i)) as [->|]; [|apply Hw; lia].
    rewrite (ld_agree 4 _ _ _ _ Hag); [apply ld_4_st_4|]. unfold in_range. lia.
  - intros a Ha. unfold in_range in Ha.
    rewrite Hag by (unfold in_range; lia). apply rd8_st_out. lia.
Qed.

Lemma row_written_nil f addr i m : row_written f addr i 0 m m.
Proof. split; [lia|done]. Qed.

Lemma u32_range x : 0 <= u32 x < 2 ^ 32.
Proof. by apply Z.mod_pos_bound. Qed.

Lemma row_addr addr i n :
  0 <= i -> kok (addr + 4 * i) (4 * Z.of_nat (S n)) = true ->
  u64 (addr + 4 * i) = addr + 4 * i /\ kok (addr + 4 * i) (Z.of_nat 4) = true /\
  (n <> 0%nat -> kok (addr + 4 * (i + 1)) (4 * Z.of_nat n) = true).
Proof.
  intros Hi [H1 H2]%kok_spec. assert (KERNEL_HIGHER_HALF_START > 0) by done.
  split; [apply u64_small; lia|]. split; [|intros _]; apply kok_spec; lia.
Qed.

Lemma fill_row_ok addr color i n m :
  0 <= i -> (n <> 0%nat -> kok (addr + 4 * i) (4 * Z.of_nat n) = true) ->
  exists m', fill_row addr color i n m = Ret (tt, m') /\ row_written (fun _ => color) addr i n m m'.
Proof.
  intros Hi. revert i m Hi; induction n as [|n IH]; intros i m Hi Hk; cbn [fill_row].
  { exists m. split; [done|apply row_written_nil]. }
  destruct (row_addr addr i n Hi (Hk ltac:(done))) as (Hu & Hk4 & Hk').
  rewrite Hu, bind_store by done.
  destruct (IH (i + 1) (st 4 m (addr + 4 * i) color)) as (m' & Hrun & Hw); [lia|done|].
  exists m'. split; [done|]. by apply (row_written_step (fun _ => color)).
Qed.

Definition glyph_color (bits fg_color bg_color w : Z) : Z :=
  if Z.testbit bits w then fg_color else bg_color.

Lemma glyph_bit bits w : 0 <= w -> (Z.land (Z.shiftr bits w) 1 =? 0) = negb (Z.testbit bits w).
Proof.
  intros Hw. change 1 with (2 ^ 0) at 1. rewrite land_pow2_eqb by lia.
  by rewrite Z.shiftr_spec, Z.add_0_l by lia.
Qed.

Lemma glyph_row_ok addr bits fg bg w n m :
  0 <= w -> (n <> 0%nat -> kok (addr + 4 * w) (4 * Z.of_nat n) = true) ->
  exists m', glyph_row addr bits fg bg w n m = Ret (tt, m') /\
    row_written (glyph_color bits fg bg) addr w n m m'.
Proof.
  intros Hi. revert w m Hi; induction n as [|n IH]; intros w m Hi Hk; cbn [glyph_row].
  { exists m. split; [done|apply row_written_nil]. }
  destruct (row_addr addr w n Hi (Hk ltac:(done))) as (Hu & Hk4 & Hk').
  rewrite Hu, glyph_bit by done.
  assert (Hc : (if negb (Z.testbit bits w) then bg else fg) = glyph_color bits fg bg w).
  { unfold glyph_color. by destruct (Z.testbit bits w). }
  rewrite Hc, bind_store by done.
  destruct (IH (w + 1) (st 4 m (addr + 4 * w) (glyph_color bits fg bg w))) as (m' & Hrun & Hw); [lia|done|].
  exists m'. split; [done|]. by apply row_written_step.
Qed.

Section Screen.
Context (fb : fb_state) (Hfb : fb_ok fb).

(** The addresses of a row of pixels, computed without overflow. *)
Lemma pixel_addr_eq x y n :
  0 <= x -> x + n <= fb_width fb -> 0 <= y < fb_height fb -> 0 <= n ->
  (n > 0 -> pixel_addr fb x y = pixel_at fb x y) /\
  fb_addr fb <= pixel_at fb x y /\
  pixel_at fb x y + 4 * n <= fb_addr fb + fb_height fb * fb_pitch fb /\
  (n > 0 -> kok (pixel_at fb x y) (4 * n) = true).
Proof.
  intros Hx Hxn Hy Hn. destruct Hfb as [_ Hw Hh Hp (Hb & Hh29 & Hp31) Ha He].
  assert (KERNEL_HIGHER_HALF_START > 0) by done.
  assert (Hyp : 0 <= y * fb_pitch fb /\ y * fb_pitch fb + fb_pitch fb <= fb_height fb * fb_pitch fb)
    by nia.
  unfold pixel_addr, pixel_at. split; [|split; [lia|split; [lia|]]].
  - intros Hn0. unfold s32. rewrite (Z.mod_small (y * fb_pitch fb + _)) by lia.
    rewrite u64_small by lia. lia.
  - intros Hn0. apply kok_spec. lia.
Qed.

(** A byte of a rectangle inside the screen is on the screen. *)
Lemma rect_on_screen x y w h a :
  0 <= x -> x + w <= fb_width fb -> 0 <= w -> 0 <= y -> y + h <= fb_height fb ->
  rect_byte fb x y w h a -> on_screen fb a.
Proof.
  intros Hx Hxw Hw Hy Hyh (r & Hr & Ha). unfold on_screen, in_range in *.
  destruct (pixel_addr_eq x (y + r) w) as (_ & H1 & H2 & _); lia.
Qed.

(** Rows do not overlap. *)
Lemma rows_apart x w y y' :
  0 <= x -> 0 <= w -> x + w <= fb_width fb -> y <> y' ->
  apart (pixel_at fb x y) (4 * w) (pixel_at fb x y') (4 * w).
Proof.
  intros Hx Hw Hxw Hy. pose proof (fo_pitch _ Hfb). unfold apart, pixel_at.
  destruct (Z.lt_total y y') as [?|[?|?]]; [left|done|right]; nia.
Qed.

Lemma glyph_rows_ok glyph x y fg bg h m :
  0 <= x -> x + 8 <= fb_width fb -> 0 <= y -> 0 <= h ->
  y + h + Z.of_nat (length glyph) <= fb_height fb ->
  exists m', glyph_rows fb glyph x y fg bg h m = Ret (tt, m') /\
    (forall r bits c, glyph !! r = Some bits -> 0 <= c < 8 ->
       pixel m' fb (x + c) (y + (h + Z.of_nat r)) = u32 (glyph_color bits fg bg c)) /\
    agree (fun a => ~ rect_byte fb x (y + h) 8 (Z.of_nat (length glyph)) a) m m'.
Proof.
  intros Hx Hxw Hy Hh Hyh. revert h m Hh Hyh; induction glyph as [|bits glyph IH];
    intros h m Hh Hyh; cbn [glyph_rows length] in *.
  { exists m. split; [done|]. split; [done|done]. }
  destruct (fo_bytes _ Hfb) as (_ & Hh29 & _).
  replace (s32 (y + h)) with (y + h) by (unfold s32; rewrite Z.mod_small; lia).
  destruct (pixel_addr_eq x (y + h) 8) as (Heq & _ & _ & Hk); try lia.
  rewrite Heq by lia.
  destruct (glyph_row_ok (pixel_at fb x (y + h)) bits fg bg 0 8 m) as (m1 & H1 & Hw1 & Hag1);
    [lia|intros _; rewrite Z.mul_0_r, Z.add_0_r; apply Hk; lia|].
  rewrite Z.mul_0_r, Z.add_0_r in Hag1. change (4 * Z.of_nat 8) with 32 in Hag1.
  kstep H1. destruct (IH (h + 1) m1) as (m' & H2 & Hw2 & Hag2); [lia|lia|].
  exists m'. split; [done|]. split.
  - intros [|r] b c Hr Hc.
    + injection Hr as <-. unfold pixel. rewrite (ld_agree 4 _ _ _ _ Hag2).
      * rewrite Z.add_0_r. replace (pixel_at fb (x + c) (y + h)) with (pixel_at fb x (y + h) + 4 * c)
          by (unfold pixel_at; lia). apply Hw1. lia.
      * intros a Ha (r' & Hr' & Hin). pose proof (rows_apart x 8 (y + h) (y + (h + 1) + r')) as Hap.
        rewrite Z.add_0_r in Ha. unfold apart, in_range, pixel_at in *. lia.
    + cbn [lookup] in Hr. specialize (Hw2 r b c Hr Hc). rewrite <- Hw2. f_equal. lia.
  - eapply agree_trans.
    + eapply agree_weaken; [exact Hag1|]. intros a Ha Hin. apply Ha. exists 0.
      rewrite Z.add_0_r. split; [lia|]. unfold in_range in *. lia.
    + eapply agree_weaken; [exact Hag2|]. intros a Ha (r & Hr & Hin). apply Ha. exists (r + 1).
      split; [lia|]. by replace (y + h + (r + 1)) with (y + (h + 1) + r) by lia.
Qed.

Lemma fb_draw_glyph_ok glyph x y fg bg m :
  0 <= x -> x + 8 <= fb_width fb -> 0 <= y -> y + Z.of_nat (length glyph) <= fb_height fb ->
  exists m', fb_draw_glyph fb glyph x y fg bg m = Ret (tt, m') /\
    (forall r bits c, glyph !! r = Some bits -> 0 <= c < 8 ->
       pixel m' fb (x + c) (y + Z.of_nat r) = u32 (glyph_color bits fg bg c)) /\
    agree (fun a => ~ rect_byte fb x y 8 (Z.of_nat (length glyph)) a) m m'.
Proof.
  intros Hx Hxw Hy Hyh. unfold fb_draw_glyph. rewrite kassert_true by apply (fo_init _ Hfb).
  destruct (glyph_rows_ok glyph x y fg bg 0 m) as (m' & H1 & H2 & H3); try lia.
  exists m'. rewrite Z.add_0_r in H3. split; [done|]. split; [|done].
  intros r bits c Hr Hc. rewrite <- (H2 r bits c Hr Hc). f_equal.
Qed.

(** A row of a rectangle, clipped at the right edge and by the rows. *)
Lemma fb_put_rect_fragment_ok color x y w m :
  0 <= x <= fb_width fb -> 0 <= w -> x + w < 2 ^ 31 ->
  exists m', fb_put_rect_fragment fb color x y w m = Ret (tt, m') /\
    (0 <= y < fb_height fb -> forall j, 0 <= j -> j < w -> x + j < fb_width fb ->
       pixel m' fb (x + j) y = u32 color) /\
    agree (fun a => ~ (0 <= y < fb_height fb /\
                       in_range (pixel_at fb x y) (4 * Z.min w (fb_width fb - x)) a)) m m'.
Proof.
  intros Hx Hw Hxw. destruct Hfb as [_ Hfw Hfh Hp (Hb & Hh29 & Hp31) _ _].
  unfold fb_put_rect_fragment.
  destruct (Z.ltb_spec y 0) as [Hy|Hy]; [exists m; split; [done|]; split; [lia|done]|].
  destruct (Z.leb_spec (fb_height fb) y) as [Hyh|Hyh]; [exists m; split; [done|]; split; [lia|done]|].
  cbn [orb]. unfold s32. rewrite (Z.mod_small (x + w + _)), (Z.mod_small (fb_width fb - x + _)) by nia.
  set (n := if _ <? _ then _ else _).
  assert (Hn : n = Z.min w (fb_width fb - x)).
  { unfold n. destruct (Z.ltb_spec (fb_width fb) (x + w + 2147483648 - 2147483648)); lia. }
  clearbody n. subst n.
  destruct (pixel_addr_eq x y (Z.min w (fb_width fb - x))) as (Heq & _ & _ & Hk); try lia.
  destruct (fill_row_ok (pixel_addr fb x y) color 0 (Z.to_nat (Z.min w (fb_width fb - x))) m)
    as (m' & H1 & Hw1 & Hag1); [lia| |].
  { intros Hn. rewrite Z.mul_0_r, Z.add_0_r, Z2Nat.id by lia. rewrite Heq by lia. apply Hk. lia. }
  exists m'. split; [done|]. rewrite Z2Nat.id in * by lia.
  rewrite Z.mul_0_r, Z.add_0_r in Hag1. split.
  - intros _ j Hj0 Hj Hjx. rewrite Heq in Hw1 by lia. rewrite <- (Hw1 j) by lia.
    unfold pixel. f_equal. unfold pixel_at. lia.
  - destruct (decide (0 < Z.min w (fb_width fb - x))) as [Hpos|Hz].
    + rewrite Heq in Hag1 by lia. eapply agree_weaken; [exact Hag1|]. intros a Ha Hin. apply Ha. by split.
    + eapply agree_weaken; [exact Hag1|]. intros a _ Hin. unfold in_range in Hin. lia.
Qed.

Lemma scroll_fill_ok color n y m :
  0 <= y -> y + Z.of_nat n <= fb_height fb ->
  exists m', scroll_fill fb color y n m = Ret (tt, m') /\
    (forall i j, y <= i < y + Z.of_nat n -> 0 <= j < fb_width fb -> pixel m' fb j i = u32 color) /\
    agree (fun a => ~ rect_byte fb 0 y (fb_width fb) (Z.of_nat n) a) m m'.
Proof.
  pose proof Hfb as [_ Hfw Hfh Hp (Hb & Hh29 & Hp31) _ _].
  revert y m; induction n as [|n IH]; intros y m Hy Hyn; cbn [scroll_fill].
  { exists m. split; [done|]. split; [lia|done]. }
  destruct (fb_put_rect_fragment_ok color 0 y (fb_width fb) m) as (m1 & H1 & Hw1 & Hag1);
    [lia|lia|lia|].
  kstep H1. destruct (IH (y + 1) m1) as (m' & H2 & Hw2 & Hag2); [lia|lia|].
  rewrite Z.sub_0_r, Z.min_id in Hag1.
  exists m'. split; [done|]. split.
  - intros i j Hi Hj. destruct (decide (i = y)) as [->|]; [|apply Hw2; lia].
    unfold pixel. rewrite (ld_agree 4 _ _ _ _ Hag2); [rewrite <- (Hw1 ltac:(lia) j) by lia; done|].
    intros a Ha (r & Hr & Hin). pose proof (rows_apart 0 (fb_width fb) y (y + 1 + r)) as Hap.
    unfold apart, in_range, pixel_at in *. lia.
  - eapply agree_trans.
    + eapply agree_weaken; [exact Hag1|]. intros a Ha [_ Hin]. apply Ha. exists 0.
      rewrite Z.add_0_r. split; [lia|done].
    + eapply agree_weaken; [exact Hag2|]. intros a Ha (r & Hr & Hin). apply Ha. exists (r + 1).
      split; [lia|]. by replace (y + (r + 1)) with (y + 1 + r) by lia.
Qed.

(** Scrolling: the rows move up, the rows that come in have the given colour. *)
Lemma fb_scroll_up_ok height color m :
  0 <= height <= fb_height fb ->
  exists m', fb_scroll_up fb height color m = Ret (tt, m') /\
    (forall o, 0 <= o < (fb_height fb - height) * fb_pitch fb ->
       rd8 m' (fb_addr fb + o) = rd8 m (fb_addr fb + height * fb_pitch fb + o)) /\
    (forall x y, 0 <= x < fb_width fb -> fb_height fb - height <= y < fb_height fb ->
       pixel m' fb x y = u32 color) /\
    agree (fun a => ~ on_screen fb a) m m'.
Proof.
  intros Hhe. pose proof Hfb as [Hinit Hfw Hfh Hp (Hb & Hh29 & Hp31) Ha He].
  assert (KERNEL_HIGHER_HALF_START > 0) by done.
  assert (Hm : 0 <= height * fb_pitch fb /\ 0 <= (fb_height fb - height) * fb_pitch fb /\
               height * fb_pitch fb + (fb_height fb - height) * fb_pitch fb = fb_height fb * fb_pitch fb)
    by nia.
  unfold fb_scroll_up. rewrite kassert_true by done. unfold s32.
  rewrite (Z.mod_small (fb_height fb - height + _)) by lia. rewrite Z.add_simpl_r.
  rewrite (Z.mul_comm (fb_pitch fb) height), (Z.mul_comm (fb_pitch fb) (fb_height fb - height)).
  rewrite (Z.mod_small (height * _ + _)), (Z.mod_small ((fb_height fb - height) * _ + _)) by lia.
  rewrite !Z.add_simpl_r, (u64_small ((fb_height fb - height) * _)) by lia.
  rewrite (u64_small (fb_addr fb + _)) by lia.
  destruct (memmove_ok (fb_addr fb) (fb_addr fb + height * fb_pitch fb)
              ((fb_height fb - height) * fb_pitch fb) m) as (m1 & H1 & Hc); [lia|..];
    [apply kok_spec; lia|apply kok_spec; lia|].
  kstep H1. destruct (scroll_fill_ok color (Z.to_nat height) (fb_height fb - height) m1)
    as (m' & H2 & Hpix & Hag); [lia|lia|]. rewrite Z2Nat.id in * by lia.
  exists m'. split; [done|]. split; [|split].
  - intros o Ho. rewrite Hag, Hc.
    + unfold in_range. case_decide; [f_equal; lia|lia].
    + intros (r & Hr & Hin). unfold in_range, pixel_at in Hin. nia.
  - intros x y Hx Hy. apply Hpix; lia.
  - intros a Hn. rewrite Hag, Hc.
    + case_decide as Hin; [|done]. exfalso. apply Hn. unfold on_screen, in_range in *. lia.
    + intros Hr. apply Hn. eapply (rect_on_screen 0); [..|exact Hr]; lia.
Qed.
End Screen.
