(* ===== verification/Console.v ===== *)
(** * kernel/console.c: the text console on the framebuffer

    The static variables are the record [con], with the framebuffer driver's
    state and memory. A [char] is signed; a string is the list of its
    characters, without the terminator; an index outside [font] is undefined. *)

From S2P Require Import Prelude Mem Common Paging Multiboot Fb.

Definition FONT_WIDTH : Z := 8.
Definition FONT_HEIGHT : Z := 8.

Definition font : list (list Z) := [
    [0x00; 0x00; 0x00; 0x00; 0x00; 0x00; 0x00; 0x00];
    [0x00; 0x00; 0x00; 0x00; 0x00; 0x00; 0x00; 0x00];
    [0x00; 0x00; 0x00; 0x00; 0x00; 0x00; 0x00; 0x00];
    [0x00; 0x00; 0x00; 0x00; 0x00; 0x00; 0x00; 0x00];
    [0x00; 0x00; 0x00; 0x00; 0x00; 0x00; 0x00; 0x00];
    [0x00; 0x00; 0x00; 0x00; 0x00; 0x00; 0x00; 0x00];
    [0x00; 0x00; 0x00; 0x00; 0x00; 0x00; 0x00; 0x00];
    [0x00; 0x00; 0x00; 0x00; 0x00; 0x00; 0x00; 0x00];
    [0x00; 0x00; 0x00; 0x00; 0x00; 0x00; 0x00; 0x00];
    [0x00; 0x00; 0x00; 0x00; 0x00; 0x00; 0x00; 0x00];
    [0x00; 0x00; 0x00; 0x00; 0x00; 0x00; 0x00; 0x00];
    [0x00; 0x00; 0x00; 0x00; 0x00; 0x00; 0x00; 0x00];
    [0x00; 0x00; 0x00; 0x00; 0x00; 0x00; 0x00; 0x00];
    [0x00; 0x00; 0x00; 0x00; 0x00; 0x00; 0x00; 0x00];
    [0x00; 0x00; 0x00; 0x00; 0x00; 0x00; 0x00; 0x00];
    [0x00; 0x00; 0x00; 0x00; 0x00; 0x00; 0x00; 0x00];
    [0x00; 0x00; 0x00; 0x00; 0x00; 0x00; 0x00; 0x00];
    [0x00; 0x00; 0x00; 0x00; 0x00; 0x00; 0x00; 0x00];
    [0x00; 0x00; 0x00; 0x00; 0x00; 0x00; 0x00; 0x00];
    [0x00; 0x00; 0x00; 0x00; 0x00; 0x00; 0x00; 0x00];
    [0x00; 0x00; 0x00; 0x00; 0x00; 0x00; 0x00; 0x00];
    [0x00; 0x00; 0x00; 0x00; 0x00; 0x00; 0x00; 0x00];
    [0x00; 0x00; 0x00; 0x00; 0x00; 0x00; 0x00; 0x00];
    [0x00; 0x00; 0x00; 0x00; 0x00; 0x00; 0x00; 0x00];
    [0x00; 0x00; 0x00; 0x00; 0x00; 0x00; 0x00; 0x00];
    [0x00; 0x00; 0x00; 0x00; 0x00; 0x00; 0x00; 0x00];
    [0x00; 0x00; 0x00; 0x00; 0x00; 0x00; 0x00; 0x00];
    [0x00; 0x00; 0x00; 0x00; 0x00; 0x00; 0x00; 0x00];
    [0x00; 0x00; 0x00; 0x00; 0x00; 0x00; 0x00; 0x00];
    [0x00; 0x00; 0x00; 0x00; 0x00; 0x00; 0x00; 0x00];
    [0x00; 0x00; 0x00; 0x00; 0x00; 0x00; 0x00; 0x00];
    [0x00; 0x00; 0x00; 0x00; 0x00; 0x00; 0x00; 0x00];
    [0x00; 0x00; 0x00; 0x00; 0x00; 0x00; 0x00; 0x00];
    [0x18; 0x3c; 0x3c; 0x18; 0x18; 0x00; 0x18; 0x00];
    [0x36; 0x36; 0x00; 0x00; 0x00; 0x00; 0x00; 0x00];
    [0x36; 0x36; 0x7f; 0x36; 0x7f; 0x36; 0x36; 0x00];
    [0x0c; 0x3e; 0x03; 0x1e; 0x30; 0x1f; 0x0c; 0x00];
    [0x00; 0x63; 0x33; 0x18; 0x0c; 0x66; 0x63; 0x00];
    [0x1c; 0x36; 0x1c; 0x6e; 0x3b; 0x33; 0x6e; 0x00];
    [0x06; 0x06; 0x03; 0x00; 0x00; 0x00; 0x00; 0x00];
    [0x18; 0x0c; 0x06; 0x06; 0x06; 0x0c; 0x18; 0x00];
    [0x06; 0x0c; 0x18; 0x18; 0x18; 0x0c; 0x06; 0x00];
    [0x00; 0x66; 0x3c; 0xff; 0x3c; 0x66; 0x00; 0x00];
    [0x00; 0x0c; 0x0c; 0x3f; 0x0c; 0x0c; 0x00; 0x00];
    [0x00; 0x00; 0x00; 0x00; 0x00; 0x0c; 0x0c; 0x06];
    [0x00; 0x00; 0x00; 0x3f; 0x00; 0x00; 0x00; 0x00];
    [0x00; 0x00; 0x00; 0x00; 0x00; 0x0c; 0x0c; 0x00];
    [0x60; 0x30; 0x18; 0x0c; 0x06; 0x03; 0x01; 0x00];
    [0x3e; 0x63; 0x73; 0x7b; 0x6f; 0x67; 0x3e; 0x00];
    [0x0c; 0x0e; 0x0c; 0x0c; 0x0c; 0x0c; 0x3f; 0x00];
    [0x1e; 0x33; 0x30; 0x1c; 0x06; 0x33; 0x3f; 0x00];
    [0x1e; 0x33; 0x30; 0x1c; 0x30; 0x33; 0x1e; 0x00];
    [0x38; 0x3c; 0x36; 0x33; 0x7f; 0x30; 0x78; 0x00];
    [0x3f; 0x03; 0x1f; 0x30; 0x30; 0x33; 0x1e; 0x00];
    [0x1c; 0x06; 0x03; 0x1f; 0x33; 0x33; 0x1e; 0x00];
    [0x3f; 0x33; 0x30; 0x18; 0x0c; 0x0c; 0x0c; 0x00];
    [0x1e; 0x33; 0x33; 0x1e; 0x33; 0x33; 0x1e; 0x00];
    [0x1e; 0x33; 0x33; 0x3e; 0x30; 0x18; 0x0e; 0x00];
    [0x00; 0x0c; 0x0c; 0x00; 0x00; 0x0c; 0x0c; 0x00];
    [0x00; 0x0c; 0x0c; 0x00; 0x00; 0x0c; 0x0c; 0x06];
    [0x18; 0x0c; 0x06; 0x03; 0x06; 0x0c; 0x18; 0x00];
    [0x00; 0x00; 0x3f; 0x00; 0x00; 0x3f; 0x00; 0x00];
    [0x06; 0x0c; 0x18; 0x30; 0x18; 0x0c; 0x06; 0x00];
    [0x1e; 0x33; 0x30; 0x18; 0x0c; 0x00; 0x0c; 0x00];
    [0x3e; 0x63; 0x7b; 0x7b; 0x7b; 0x03; 0x1e; 0x00];
    [0x0c; 0x1e; 0x33; 0x33; 0x3f; 0x33; 0x33; 0x00];
    [0x3f; 0x66; 0x66; 0x3e; 0x66; 0x66; 0x3f; 0x00];
    [0x3c; 0x66; 0x03; 0x03; 0x03; 0x66; 0x3c; 0x00];
    [0x1f; 0x36; 0x66; 0x66; 0x66; 0x36; 0x1f; 0x00];
    [0x7f; 0x46; 0x16; 0x1e; 0x16; 0x46; 0x7f; 0x00];
    [0x7f; 0x46; 0x16; 0x1e; 0x16; 0x06; 0x0f; 0x00];
    [0x3c; 0x66; 0x03; 0x03; 0x73; 0x66; 0x7c; 0x00];
    [0x33; 0x33; 0x33; 0x3f; 0x33; 0x33; 0x33; 0x00];
    [0x1e; 0x0c; 0x0c; 0x0c; 0x0c; 0x0c; 0x1e; 0x00];
    [0x78; 0x30; 0x30; 0x30; 0x33; 0x33; 0x1e; 0x00];
    [0x67; 0x66; 0x36; 0x1e; 0x36; 0x66; 0x67; 0x00];
    [0x0f; 0x06; 0x06; 0x06; 0x46; 0x66; 0x7f; 0x00];
    [0x63; 0x77; 0x7f; 0x7f; 0x6b; 0x63; 0x63; 0x00];
    [0x63; 0x67; 0x6f; 0x7b; 0x73; 0x63; 0x63; 0x00];
    [0x1c; 0x36; 0x63; 0x63; 0x63; 0x36; 0x1c; 0x00];
    [0x3f; 0x66; 0x66; 0x3e; 0x06; 0x06; 0x0f; 0x00];
    [0x1e; 0x33; 0x33; 0x33; 0x3b; 0x1e; 0x38; 0x00];
    [0x3f; 0x66; 0x66; 0x3e; 0x36; 0x66; 0x67; 0x00];
    [0x1e; 0x33; 0x07; 0x0e; 0x38; 0x33; 0x1e; 0x00];
    [0x3f; 0x2d; 0x0c; 0x0c; 0x0c; 0x0c; 0x1e; 0x00];
    [0x33; 0x33; 0x33; 0x33; 0x33; 0x33; 0x3f; 0x00];
    [0x33; 0x33; 0x33; 0x33; 0x33; 0x1e; 0x0c; 0x00];
    [0x63; 0x63; 0x63; 0x6b; 0x7f; 0x77; 0x63; 0x00];
    [0x63; 0x63; 0x36; 0x1c; 0x1c; 0x36; 0x63; 0x00];
    [0x33; 0x33; 0x33; 0x1e; 0x0c; 0x0c; 0x1e; 0x00];
    [0x7f; 0x63; 0x31; 0x18; 0x4c; 0x66; 0x7f; 0x00];
    [0x1e; 0x06; 0x06; 0x06; 0x06; 0x06; 0x1e; 0x00];
    [0x03; 0x06; 0x0c; 0x18; 0x30; 0x60; 0x40; 0x00];
    [0x1e; 0x18; 0x18; 0x18; 0x18; 0x18; 0x1e; 0x00];
    [0x08; 0x1c; 0x36; 0x63; 0x00; 0x00; 0x00; 0x00];
    [0x00; 0x00; 0x00; 0x00; 0x00; 0x00; 0x00; 0xff];
    [0x0c; 0x0c; 0x18; 0x00; 0x00; 0x00; 0x00; 0x00];
    [0x00; 0x00; 0x1e; 0x30; 0x3e; 0x33; 0x6e; 0x00];
    [0x07; 0x06; 0x06; 0x3e; 0x66; 0x66; 0x3b; 0x00];
    [0x00; 0x00; 0x1e; 0x33; 0x03; 0x33; 0x1e; 0x00];
    [0x38; 0x30; 0x30; 0x3e; 0x33; 0x33; 0x6e; 0x00];
    [0x00; 0x00; 0x1e; 0x33; 0x3f; 0x03; 0x1e; 0x00];
    [0x1c; 0x36; 0x06; 0x0f; 0x06; 0x06; 0x0f; 0x00];
    [0x00; 0x00; 0x6e; 0x33; 0x33; 0x3e; 0x30; 0x1f];
    [0x07; 0x06; 0x36; 0x6e; 0x66; 0x66; 0x67; 0x00];
    [0x0c; 0x00; 0x0e; 0x0c; 0x0c; 0x0c; 0x1e; 0x00];
    [0x30; 0x00; 0x30; 0x30; 0x30; 0x33; 0x33; 0x1e];
    [0x07; 0x06; 0x66; 0x36; 0x1e; 0x36; 0x67; 0x00];
    [0x0e; 0x0c; 0x0c; 0x0c; 0x0c; 0x0c; 0x1e; 0x00];
    [0x00; 0x00; 0x33; 0x7f; 0x7f; 0x6b; 0x63; 0x00];
    [0x00; 0x00; 0x1f; 0x33; 0x33; 0x33; 0x33; 0x00];
    [0x00; 0x00; 0x1e; 0x33; 0x33; 0x33; 0x1e; 0x00];
    [0x00; 0x00; 0x3b; 0x66; 0x66; 0x3e; 0x06; 0x0f];
    [0x00; 0x00; 0x6e; 0x33; 0x33; 0x3e; 0x30; 0x78];
    [0x00; 0x00; 0x3b; 0x6e; 0x66; 0x06; 0x0f; 0x00];
    [0x00; 0x00; 0x3e; 0x03; 0x1e; 0x30; 0x1f; 0x00];
    [0x08; 0x0c; 0x3e; 0x0c; 0x0c; 0x2c; 0x18; 0x00];
    [0x00; 0x00; 0x33; 0x33; 0x33; 0x33; 0x6e; 0x00];
    [0x00; 0x00; 0x33; 0x33; 0x33; 0x1e; 0x0c; 0x00];
    [0x00; 0x00; 0x63; 0x6b; 0x7f; 0x7f; 0x36; 0x00];
    [0x00; 0x00; 0x63; 0x36; 0x1c; 0x36; 0x63; 0x00];
    [0x00; 0x00; 0x33; 0x33; 0x33; 0x3e; 0x30; 0x1f];
    [0x00; 0x00; 0x3f; 0x19; 0x0c; 0x26; 0x3f; 0x00];
    [0x38; 0x0c; 0x0c; 0x07; 0x0c; 0x0c; 0x38; 0x00];
    [0x18; 0x18; 0x18; 0x00; 0x18; 0x18; 0x18; 0x00];
    [0x07; 0x0c; 0x0c; 0x38; 0x0c; 0x0c; 0x07; 0x00];
    [0x6e; 0x3b; 0x00; 0x00; 0x00; 0x00; 0x00; 0x00];
    [0x00; 0x00; 0x00; 0x00; 0x00; 0x00; 0x00; 0x00]
  ].

Record con := Con {
  con_mem : mem;
  con_fb : fb_state;
  cons_initialized : bool;
  cons_width : Z;
  cons_height : Z;
  cons_curr_row : Z;
  cons_curr_col : Z;
}.

Definition in_fb {A} (m : fb_state -> K mem A) : K con A :=
  fun c => klift con_mem
             (fun m' c => Con m' (con_fb c) (cons_initialized c) (cons_width c) (cons_height c)
                              (cons_curr_row c) (cons_curr_col c))
             (m (con_fb c)) c.

Definition set_row (v : Z) : K con unit :=
  fun c => Ret (tt, Con (con_mem c) (con_fb c) (cons_initialized c) (cons_width c) (cons_height c)
                        v (cons_curr_col c)).
Definition set_col (v : Z) : K con unit :=
  fun c => Ret (tt, Con (con_mem c) (con_fb c) (cons_initialized c) (cons_width c) (cons_height c)
                        (cons_curr_row c) v).

Definition cons_init : K con unit :=
  (let! (fb_width, fb_height) := in_fb fb_get_size in
   let! c := kget in
   kput (Con (con_mem c) (con_fb c) true (Z.quot fb_width FONT_WIDTH) (Z.quot fb_height FONT_HEIGHT)
             (cons_curr_row c) (cons_curr_col c)))%K.

Definition draw_char (ch row col fg_color bg_color : Z) : K con unit :=
  match font !! Z.to_nat (u32 ch) with
  | None => khalt (Undefined "font[(unsigned int)c]")
  | Some glyph =>
      in_fb (fun fb => fb_draw_glyph fb glyph (s32 (FONT_WIDTH * col)) (s32 (FONT_HEIGHT * row))
                                     fg_color bg_color)
  end.

Definition cons_newline_and_return : K con unit :=
  (set_col 0 ;;
   let! c := kget in
   set_row (s32 (cons_curr_row c + 1)) ;;
   let! c := kget in
   if cons_curr_row c =? cons_height c then
     set_row (s32 (cons_curr_row c - 1)) ;;
     in_fb (fun fb => fb_scroll_up fb FONT_HEIGHT FB_COLOR_BLACK)
   else kret tt)%K.

(** '\n' is 10 and '\r' is 13. *)
Definition cons_putchar_color (ch fg_color bg_color : Z) : K con unit :=
  (let! c := kget in
   kassert (cons_initialized c) "cons_initialized" ;;
   if ch =? 10 then cons_newline_and_return
   else if ch =? 13 then set_row 0
   else
     draw_char ch (cons_curr_row c) (cons_curr_col c) fg_color bg_color ;;
     set_col (s32 (cons_curr_col c + 1)) ;;
     let! c := kget in
     if cons_curr_col c =? cons_width c then cons_newline_and_return else kret tt)%K.

Definition cons_putchar (ch : Z) : K con unit :=
  (let! c := kget in
   kassert (cons_initialized c) "cons_initialized" ;;
   cons_putchar_color ch FB_COLOR_WHITE FB_COLOR_BLACK)%K.

(** while ( *str != '\0') ...; the list is what precedes the terminator. *)
Fixpoint cons_print_loop (str : list Z) (fg_color bg_color : Z) : K con unit :=
  match str with
  | [] => kret tt
  | ch :: str =>
      if ch =? 0 then kret tt
      else (cons_putchar_color ch fg_color bg_color ;; cons_print_loop str fg_color bg_color)%K
  end.

Definition cons_print_color (str : list Z) (fg_color bg_color : Z) : K con unit :=
  (let! c := kget in
   kassert (cons_initialized c) "cons_initialized" ;;
   cons_print_loop str fg_color bg_color)%K.

Definition cons_print (str : list Z) : K con unit :=
  (let! c := kget in
   kassert (cons_initialized c) "cons_initialized" ;;
   cons_print_color str FB_COLOR_WHITE FB_COLOR_BLACK)%K.

(** for (i = 0; i < size; i++) on an array of known contents. *)
Fixpoint cons_write_loop (data : list Z) (i n : nat) (fg_color bg_color : Z) : K con unit :=
  match n with
  | O => kret tt
  | S n =>
      match data !! i with
      | None => khalt (Undefined "data[i]")
      | Some ch =>
          (cons_putchar_color ch fg_color bg_color ;;
           cons_write_loop data (S i) n fg_color bg_color)%K
      end
  end.

Definition cons_write_color (data : list Z) (size fg_color bg_color : Z) : K con unit :=
  (let! c := kget in
   kassert (cons_initialized c) "cons_initialized" ;;
   cons_write_loop data 0 (Z.to_nat size) fg_color bg_color)%K.

Definition cons_write (data : list Z) (size : Z) : K con unit :=
  (let! c := kget in
   kassert (cons_initialized c) "cons_initialized" ;;
   cons_write_color data size FB_COLOR_WHITE FB_COLOR_BLACK)%K.
