(* ===== verification/Printk.v ===== *)
(** * kernel/printk.c: formatted output

    The conversions write into the caller's [buf], an array of
    [PRINTK_BUF_SIZE] characters; outside it an access is undefined. The
    variable [size] of [vprintk_color] keeps its value from one conversion to
    the next, and has none at first. Format strings and [%s] arguments are the
    lists of their characters. *)

From Stdlib Require Import Ascii.
From S2P Require Import Prelude Mem Common Paging Multiboot Fb Console.

Definition PRINTK_BUF_SIZE : nat := 11.

(** The characters of a literal. *)
Fixpoint chars (s : string) : list Z :=
  match s with
  | EmptyString => []
  | String c s => Z.of_nat (nat_of_ascii c) :: chars s
  end.

Definition digits : list Z := chars "0123456789abcdef".
Definition digit (d : Z) : Z := nth (Z.to_nat d) digits 0.

(** errcode_str, by index; ECHILD = 4 is past its end. *)
Definition errcode_str (i : Z) : option (list Z) :=
  if i =? 0 then Some (chars "no error")
  else if i =? EINVAL then Some (chars "invalid value")
  else if i =? ENOSYS then Some (chars "not implemented")
  else if i =? ENOMEM then Some (chars "out of memory")
  else None.

(** ** The buffer *)

Abbreviation buffer := (list Z).

Definition rdbuf (i : nat) : K buffer Z :=
  fun b => match b !! i with Some v => Ret (v, b) | None => Halt (Undefined "buf[i]") end.
Definition wrbuf (i : nat) (v : Z) : K buffer unit :=
  fun b => if (i <? length b)%nat then Ret (tt, <[i := v]> b) else Halt (Undefined "buf[i]").

(** buf[i] ^= buf[j]. *)
Definition xor_into (i j : nat) : K buffer unit :=
  (let! x := rdbuf i in
   let! y := rdbuf j in
   wrbuf i (Z.lxor x y))%K.

(** for (bytes = 0; a > 0; bytes++): the digits, the least significant first,
    from [off + bytes] on. *)
Fixpoint digits_loop (fuel off bytes : nat) (a base : Z) : K buffer nat :=
  match fuel with
  | O => khalt NoFuel
  | S fuel =>
      if 0 <? a then
        (wrbuf (off + bytes) (digit (a mod base)) ;;
         digits_loop fuel off (S bytes) (a / base) base)%K
      else kret bytes
  end.

(** for (i = 0; i < bytes / 2; i++), [n] left: the three exclusive ors. *)
Fixpoint reverse_loop (off bytes i n : nat) : K buffer unit :=
  match n with
  | O => kret tt
  | S n =>
      (xor_into (off + i) (off + (bytes - i - 1)) ;;
       xor_into (off + (bytes - i - 1)) (off + i) ;;
       xor_into (off + i) (off + (bytes - i - 1)) ;;
       reverse_loop off bytes (S i) n)%K
  end.

(** A 64-bit number has at most 64 digits. *)
Definition bprintu64 (off : nat) (a base : Z) : K buffer nat :=
  if a =? 0 then (wrbuf off (digit 0) ;; kret 1%nat)%K
  else
    (let! bytes := digits_loop 65 off 0 a base in
     reverse_loop off bytes 0 (bytes / 2) ;;
     kret bytes)%K.

Definition bprints64 (off : nat) (a base : Z) : K buffer nat :=
  if a <? 0 then
    (wrbuf off 45 ;;
     let! n := bprintu64 (S off) (u64 (- a)) base in
     kret (S n))%K
  else bprintu64 off a base.

Fixpoint bprintstr (off : nat) (str : list Z) (length : nat) : K buffer nat :=
  match str with
  | [] => kret length
  | ch :: str => (wrbuf (off + length) ch ;; bprintstr off str (S length))%K
  end.

Definition bprintptr (ptr : Z) : K buffer nat :=
  if ptr =? 0 then bprintstr 0 (chars "(nil)") 0
  else
    (let! bytes := bprintstr 0 (chars "0x") 0 in
     let! n := bprintu64 bytes ptr 16 in
     kret (bytes + n)%nat)%K.

(** ** vprintk_color *)

(** A variadic argument: a number (an integer or a pointer) or a string. *)
Inductive arg :=
  | ANum (v : Z)
  | AStr (s : list Z).

(** The locals of the loop and the console it writes to. *)
Record pstate := PState {
  p_con : con;
  p_args : list arg;
  p_buf : buffer;
  p_size : option nat;
}.

Definition in_con {A} : K con A -> K pstate A :=
  klift p_con (fun c s => PState c (p_args s) (p_buf s) (p_size s)).
Definition in_buf {A} : K buffer A -> K pstate A :=
  klift p_buf (fun b s => PState (p_con s) (p_args s) b (p_size s)).
Definition set_size (n : nat) : K pstate unit :=
  fun s => Ret (tt, PState (p_con s) (p_args s) (p_buf s) (Some n)).

(** va_arg: taking an argument of another kind, or past the last, is undefined. *)
Definition next_arg : K pstate arg :=
  fun s => match p_args s with
           | a :: args => Ret (a, PState (p_con s) args (p_buf s) (p_size s))
           | [] => Halt (Undefined "va_arg")
           end.
Definition next_num : K pstate Z :=
  (let! a := next_arg in
   match a with ANum v => kret v | AStr _ => khalt (Undefined "va_arg") end)%K.
Definition next_str : K pstate (list Z) :=
  (let! a := next_arg in
   match a with AStr s => kret s | ANum _ => khalt (Undefined "va_arg") end)%K.

(** switch ( *cursor): 'u' = 117, 'x' = 120, 'd' = 100, 'p' = 112, 's' = 115,
    'i' = 105. *)
Definition conversion (ch fg_color bg_color : Z) : K pstate unit :=
  (if ch =? 117 then
     let! v := next_num in let! n := in_buf (bprintu64 0 (u32 v) 10) in set_size n
   else if ch =? 120 then
     let! v := next_num in let! n := in_buf (bprintu64 0 (u32 v) 16) in set_size n
   else if ch =? 100 then
     let! v := next_num in let! n := in_buf (bprints64 0 (s32 v) 10) in set_size n
   else if ch =? 112 then
     let! v := next_num in let! n := in_buf (bprintptr (u64 v)) in set_size n
   else if ch =? 115 then
     let! str := next_str in
     in_con (cons_print_color str fg_color bg_color) ;;
     set_size 0
   else if ch =? 105 then
     let! v := next_num in
     match errcode_str (- s32 v) with
     | None => khalt (Undefined "errcode_str[-s32value]")
     | Some str => in_con (cons_print_color str fg_color bg_color)
     end
   else set_size 0)%K.

(** if (size) cons_write_color(buf, size, ...). *)
Definition flush (fg_color bg_color : Z) : K pstate unit :=
  (let! s := kget in
   match p_size s with
   | None => khalt (Undefined "size")
   | Some O => kret tt
   | Some n => in_con (cons_write_color (p_buf s) (Z.of_nat n) fg_color bg_color)
   end)%K.

(** while ( *cursor). '%' is 37. *)
Fixpoint vprintk_loop (cursor : list Z) (idle : bool) (fg_color bg_color : Z) : K pstate unit :=
  match cursor with
  | [] => kret tt
  | ch :: cursor =>
      (if idle then
         if negb (ch =? 37) then
           in_con (cons_write_color [ch] 1 fg_color bg_color) ;;
           vprintk_loop cursor true fg_color bg_color
         else vprintk_loop cursor false fg_color bg_color
       else
         conversion ch fg_color bg_color ;;
         flush fg_color bg_color ;;
         vprintk_loop cursor true fg_color bg_color)%K
  end.

(** [buf] is not initialised: [junk] is what the stack holds. *)
Definition vprintk_color (junk : buffer) (fmt : list Z) (args : list arg) (fg_color bg_color : Z) :
    K con unit :=
  (let! c := kget in
   kassert (cons_initialized c) "cons_initialized" ;;
   fun c =>
     match vprintk_loop fmt true fg_color bg_color (PState c args junk None) with
     | Ret (_, s) => Ret (tt, p_con s)
     | Halt h => Halt h
     end)%K.

Definition vprintk (junk : buffer) (fmt : list Z) (args : list arg) : K con unit :=
  (let! c := kget in
   kassert (cons_initialized c) "cons_initialized" ;;
   vprintk_color junk fmt args FB_COLOR_WHITE FB_COLOR_BLACK)%K.

Definition printk_color (junk : buffer) (fg_color bg_color : Z) (fmt : list Z) (args : list arg) :
    K con unit :=
  (let! c := kget in
   kassert (cons_initialized c) "cons_initialized" ;;
   vprintk_color junk fmt args fg_color bg_color)%K.

Definition printk (junk : buffer) (fmt : list Z) (args : list arg) : K con unit :=
  (let! c := kget in
   kassert (cons_initialized c) "cons_initialized" ;;
   vprintk junk fmt args)%K.
