(* ===== verification/PrintkSpec.v ===== *)
(** * What the number conversions of printk write

    [bprintu64] against the positional notation: the characters it leaves in
    the buffer decode to the number, and the buffer is large enough exactly
    when the number has few enough digits. *)

From S2P Require Import Prelude Mem Common Paging Multiboot Fb Console Printk.

(** ** Positional notation *)

(** The value of a character in 0-9a-f. *)
Definition digit_val (c : Z) : Z := if c <? 97 then c - 48 else c - 87.

(** The number a string of digits denotes, the most significant first. *)
Definition decode (base : Z) (l : list Z) : Z :=
  fold_left (fun acc c => acc * base + digit_val c) l 0.

(** The same, the least significant first. *)
Fixpoint decode_lsd (base : Z) (l : list Z) : Z :=
  match l with
  | [] => 0
  | c :: l => digit_val c + base * decode_lsd base l
  end.

Definition is_digit (base c : Z) : Prop := 0 <= digit_val c < base /\ c = digit (digit_val c).

Lemma digit_spec base d : 0 <= d < base -> base <= 16 -> digit_val (digit d) = d /\ is_digit base (digit d).
Proof.
  intros Hd Hb. assert (Hv : digit_val (digit d) = d).
  { unfold digit. replace d with (Z.of_nat (Z.to_nat d)) at 2 by lia.
    assert (Z.to_nat d < 16)%nat as Hn by lia. generalize dependent (Z.to_nat d). clear. intros n Hn.
    do 16 (destruct n as [|n]; [done|]). lia. }
  split; [done|]. unfold is_digit. by rewrite Hv.
Qed.

Lemma decode_app base l c : decode base (l ++ [c]) = decode base l * base + digit_val c.
Proof. unfold decode. by rewrite fold_left_app. Qed.

Lemma decode_rev base l : decode base (rev l) = decode_lsd base l.
Proof. induction l as [|c l IH]; [done|]. cbn [rev decode_lsd]. rewrite decode_app, IH. lia. Qed.

(** ** The buffer as a list in three parts *)

Lemma rdbuf_mid pre c post : rdbuf (length pre) (pre ++ c :: post) = Ret (c, pre ++ c :: post).
Proof. unfold rdbuf. by rewrite list_lookup_middle. Qed.

Lemma wrbuf_mid pre c post v : wrbuf (length pre) v (pre ++ c :: post) = Ret (tt, pre ++ v :: post).
Proof.
  unfold wrbuf. rewrite (proj2 (Nat.ltb_lt _ _)) by (rewrite length_app; simpl; lia).
  by rewrite insert_app_r_alt, Nat.sub_diag by done.
Qed.

Lemma wrbuf_full i v b : (length b <= i)%nat -> wrbuf i v b = Halt (Undefined "buf[i]").
Proof. intros H. unfold wrbuf. by rewrite (proj2 (Nat.ltb_ge _ _)). Qed.

Lemma xor_into_ok b i j x y :
  b !! i = Some x -> b !! j = Some y -> xor_into i j b = Ret (tt, <[i := Z.lxor x y]> b).
Proof.
  intros Hi Hj. unfold xor_into, rdbuf, kbind, wrbuf. rewrite Hi, Hj.
  by rewrite (proj2 (Nat.ltb_lt _ _)) by (by eapply lookup_lt_Some).
Qed.

Section Swap.
Context (pre mid post : list Z) (x y : Z).
Let i := length pre.
Let j := (length pre + S (length mid))%nat.

Lemma swap_lookup u v :
  (pre ++ u :: mid ++ v :: post) !! i = Some u /\ (pre ++ u :: mid ++ v :: post) !! j = Some v.
Proof.
  split; [by apply list_lookup_middle|]. unfold j.
  rewrite app_comm_cons, app_assoc. apply list_lookup_middle. rewrite length_app. simpl. lia.
Qed.

Lemma swap_insert_l u v w :
  <[i := w]> (pre ++ u :: mid ++ v :: post) = pre ++ w :: mid ++ v :: post.
Proof. unfold i. by rewrite insert_app_r_alt, Nat.sub_diag by done. Qed.

Lemma swap_insert_r u v w :
  <[j := w]> (pre ++ u :: mid ++ v :: post) = pre ++ u :: mid ++ w :: post.
Proof.
  unfold j. rewrite insert_app_r. f_equal. simpl. f_equal.
  by rewrite insert_app_r_alt, Nat.sub_diag by done.
Qed.

(** The three exclusive ors swap the two ends. *)
Lemma xor_swap {B} (k : K buffer B) :
  (xor_into i j ;; xor_into j i ;; xor_into i j ;; k)%K (pre ++ x :: mid ++ y :: post) =
  k (pre ++ y :: mid ++ x :: post).
Proof.
  destruct (swap_lookup x y) as [H1 H2].
  rewrite (kbind_Ret _ _ _ _ _ (xor_into_ok _ _ _ _ _ H1 H2)), swap_insert_l.
  destruct (swap_lookup (Z.lxor x y) y) as [H3 H4].
  rewrite (kbind_Ret _ _ _ _ _ (xor_into_ok _ _ _ _ _ H4 H3)), swap_insert_r.
  rewrite (Z.lxor_comm x y), <- Z.lxor_assoc, Z.lxor_nilpotent, Z.lxor_0_l.
  destruct (swap_lookup (Z.lxor y x) x) as [H5 H6].
  rewrite (kbind_Ret _ _ _ _ _ (xor_into_ok _ _ _ _ _ H5 H6)), swap_insert_l.
  by rewrite Z.lxor_assoc, Z.lxor_nilpotent, Z.lxor_0_r.
Qed.
End Swap.

(** The loop reverses the segment. *)
Lemma reverse_loop_ok off bytes i n pre l post :
  length pre = (off + i)%nat -> (length l = bytes - 2 * i)%nat -> (2 * i <= bytes)%nat ->
  n = (length l / 2)%nat ->
  reverse_loop off bytes i n (pre ++ l ++ post) = Ret (tt, pre ++ rev l ++ post).
Proof.
  revert i pre l post; induction n as [|n IH]; intros i pre l post Hpre Hl Hi Hn; cbn [reverse_loop].
  { destruct l as [|a [|c l]]; [done|done|]. exfalso. cbn [length] in Hn.
    pose proof (Nat.div_str_pos (S (S (length l))) 2). lia. }
  destruct l as [|a l]; [done|]. destruct (exists_last (l := l)) as (mid & c & ->).
  { intros ->. done. }
  rewrite length_cons, length_app in *. simpl length in *.
  replace (S (length mid + 1)) with (length mid + 1 * 2)%nat in Hn by lia.
  rewrite Nat.div_add in Hn by lia.
  replace (off + i)%nat with (length pre) by lia.
  replace (off + (bytes - i - 1))%nat with (length pre + S (length mid))%nat by lia.
  cbn [app]. rewrite <- (app_assoc mid). cbn [app].
  rewrite xor_swap. cbn [rev]. rewrite rev_app_distr. cbn [rev app].
  replace (pre ++ c :: mid ++ a :: post) with ((pre ++ [c]) ++ mid ++ (a :: post))
    by (by rewrite <- app_assoc).
  rewrite (IH (S i)); [..|lia].
  - by rewrite <- !app_assoc.
  - rewrite length_app. simpl. lia.
  - lia.
  - lia.
Qed.

(** ** The digits *)

Section Digits.
Context (base : Z) (Hbase : 2 <= base <= 16).

(** Enough room: the digits of [a], the least significant first. *)
Lemma digits_loop_ok fuel off bytes a m pre old post :
  length pre = (off + bytes)%nat -> length old = m -> (m < fuel)%nat ->
  0 <= a < base ^ Z.of_nat m ->
  exists l rest, digits_loop fuel off bytes a base (pre ++ old ++ post) =
      Ret ((bytes + length l)%nat, pre ++ l ++ rest ++ post) /\
    old = take (length l) old ++ rest /\ (length l <= m)%nat /\
    decode_lsd base l = a /\ Forall (is_digit base) l /\
    (forall c l', l = l' ++ [c] -> digit_val c <> 0).
Proof.
  revert fuel bytes a pre old; induction m as [|m IH]; intros fuel bytes a pre old Hpre Hold Hf Ha;
    (destruct fuel as [|fuel]; [lia|]); cbn [digits_loop]; destruct (Z.ltb_spec 0 a) as [Hpos|Hz].
  - exfalso. change (base ^ Z.of_nat 0) with 1 in Ha. lia.
  - exists [], old. rewrite Nat.add_0_r. split; [done|]. split; [done|]. split; [simpl; lia|].
    split; [simpl; lia|]. split; [constructor|]. by intros c [|].
  - destruct old as [|o old]; [done|]. simpl in Hold.
    rewrite <- Hpre. cbn [app]. rewrite (kbind_Ret _ _ _ _ _ (wrbuf_mid pre o (old ++ post) _)).
    rewrite Nat2Z.inj_succ, Z.pow_succ_r in Ha by lia.
    destruct (digit_spec base (a mod base)) as [Hv Hd]; [apply Z.mod_pos_bound; lia|lia|].
    destruct (IH fuel (S bytes) (a / base) (pre ++ [digit (a mod base)]) old) as
      (l & rest & Hrun & Hr & Hl & Hdec & Hdig & Hlast).
    { rewrite length_app. simpl. lia. }
    { lia. }
    { lia. }
    { split; [apply Z.div_pos; lia|apply Z.div_lt_upper_bound; lia]. }
    exists (digit (a mod base) :: l), rest.
    replace (pre ++ digit (a mod base) :: old ++ post)
      with ((pre ++ [digit (a mod base)]) ++ old ++ post) by (by rewrite <- app_assoc).
    rewrite Hrun. cbn [length]. rewrite <- app_assoc. cbn [app].
    split; [do 2 f_equal; lia|]. cbn [take]. split; [by rewrite <- app_comm_cons, <- Hr|].
    split; [lia|]. cbn [decode_lsd]. rewrite Hv, Hdec. split; [|split; [by constructor|]].
    + pose proof (Z.div_mod a base). lia.
    + intros c [|c' l'] E; [|injection E as _ ->; by eapply Hlast].
      cbn [app] in E. assert (E1 : digit (a mod base) = c) by congruence.
      assert (l = []) as -> by congruence. rewrite <- E1, Hv. cbn [decode_lsd] in Hdec.
      pose proof (Z.div_mod a base). lia.
  - exists [], old. rewrite Nat.add_0_r. split; [done|]. split; [done|]. split; [simpl; lia|].
    split; [simpl; lia|]. split; [constructor|]. by intros c [|].
Qed.

(** Not enough room: the first digit past the end is undefined. *)
Lemma digits_loop_overflow fuel off bytes a b :
  (length b - (off + bytes) < fuel)%nat -> (off + bytes <= length b)%nat ->
  base ^ Z.of_nat (length b - (off + bytes)) <= a ->
  digits_loop fuel off bytes a base b = Halt (Undefined "buf[i]").
Proof.
  remember (length b - (off + bytes))%nat as m eqn:Hm.
  revert fuel bytes a b Hm; induction m as [|m IH]; intros fuel bytes a b Hm Hf Hob Ha;
    (destruct fuel as [|fuel]; [lia|]); cbn [digits_loop];
    pose proof (Z.pow_pos_nonneg base) as Hpow.
  - change (base ^ Z.of_nat 0) with 1 in Ha. rewrite (proj2 (Z.ltb_lt 0 a)) by lia.
    apply kbind_Halt, wrbuf_full. lia.
  - rewrite Nat2Z.inj_succ, Z.pow_succ_r in Ha by lia. specialize (Hpow (Z.of_nat m)).
    rewrite (proj2 (Z.ltb_lt 0 a)) by nia. unfold wrbuf at 1, kbind at 1.
    rewrite (proj2 (Nat.ltb_lt _ _)) by lia.
    apply IH; rewrite ?length_insert; try lia.
    apply Z.div_le_lower_bound; lia.
Qed.

(** [bprintu64] writes exactly the digits of [a], the most significant first. *)
Lemma bprintu64_ok a pre old post m :
  length old = m -> (0 < m <= 64)%nat -> 0 <= a < base ^ Z.of_nat m ->
  exists l rest, bprintu64 (length pre) a base (pre ++ old ++ post) =
      Ret (length l, pre ++ l ++ rest ++ post) /\
    old = take (length l) old ++ rest /\ (0 < length l <= m)%nat /\
    decode base l = a /\ Forall (is_digit base) l /\
    (a <> 0 -> forall c l', l = c :: l' -> digit_val c <> 0).
Proof.
  intros Hold Hm Ha. unfold bprintu64. destruct (Z.eqb_spec a 0) as [->|Hne].
  - destruct old as [|o old]; [simpl in *; lia|]. cbn [app].
    rewrite (kbind_Ret _ _ _ _ _ (wrbuf_mid pre o (old ++ post) _)).
    exists [digit 0], old. split; [done|]. split; [done|]. split; [simpl in *; lia|].
    split; [done|]. split; [|done]. constructor; [|done].
    apply (digit_spec base 0); lia.
  - destruct (digits_loop_ok 65 (length pre) 0 a m pre old post) as
      (l & rest & Hrun & Hr & Hl & Hdec & Hdig & Hlast); try done; try lia.
    kstep Hrun. rewrite (kbind_Ret _ _ _ _ _ (reverse_loop_ok (length pre) (length l) 0 _ pre l (rest ++ post)
      ltac:(lia) ltac:(lia) ltac:(lia) eq_refl)).
    exists (rev l), rest. rewrite length_rev. split; [done|]. split; [done|].
    split; [destruct l; [simpl in Hdec; lia|cbn [length] in *; lia]|].
    rewrite decode_rev. split; [done|].
    split; [by apply Forall_rev|]. intros _ c l' E. apply (Hlast c (rev l')).
    rewrite <- (rev_involutive l), E. reflexivity.
Qed.

Lemma bprintu64_overflow off a b :
  (length b <= off + 64)%nat -> (off <= length b)%nat -> 0 < base ^ Z.of_nat (length b - off) <= a ->
  bprintu64 off a base b = Halt (Undefined "buf[i]").
Proof.
  intros Hlen Hoff Ha. unfold bprintu64. rewrite (proj2 (Z.eqb_neq a 0)) by lia.
  apply kbind_Halt. apply digits_loop_overflow; rewrite ?Nat.add_0_r; lia.
Qed.
End Digits.
