(* ===== verification/ConsoleSpec.v ===== *)
(** * The console keeps its cursor on the grid and writes on the screen only

    [cons_ok] is the console's invariant; every character below 128 keeps it
    and changes no byte outside the screen, and so does a [printk] whose format
    and arguments agree and use no pointer or error-code conversion. *)

From S2P Require Import Prelude Mem Common Paging Multiboot Fb FbSpec Console Printk PrintkSpec.

Record cons_ok (c : con) : Prop := {
  co_fb : fb_ok (con_fb c);
  co_init : cons_initialized c = true;
  co_width : 0 < cons_width c /\ FONT_WIDTH * cons_width c <= fb_width (con_fb c);
  co_height : 0 < cons_height c /\ FONT_HEIGHT * cons_height c <= fb_height (con_fb c);
  co_row : 0 <= cons_curr_row c < cons_height c;
  co_col : 0 <= cons_curr_col c < cons_width c;
}.

(** What printing may change: the cursor and the screen. *)
Definition screen_only (c c' : con) : Prop :=
  con_fb c' = con_fb c /\ cons_width c' = cons_width c /\ cons_height c' = cons_height c /\
  agree (fun a => ~ on_screen (con_fb c) a) (con_mem c) (con_mem c').

Lemma screen_only_refl c : screen_only c c.
Proof. done. Qed.

Lemma screen_only_trans c1 c2 c3 : screen_only c1 c2 -> screen_only c2 c3 -> screen_only c1 c3.
Proof.
  intros (H1 & H2 & H3 & H4) (H5 & H6 & H7 & H8). split_and!; try congruence.
  eapply agree_trans; [exact H4|]. by rewrite <- H1.
Qed.

(** A console computation that keeps the invariant. *)
Definition cons_safe {A} (m : K con A) : Prop :=
  forall c, cons_ok c -> exists a c', m c = Ret (a, c') /\ cons_ok c' /\ screen_only c c'.

Lemma cons_safe_bind {A B} (m : K con A) (f : A -> K con B) :
  cons_safe m -> (forall a, cons_safe (f a)) -> cons_safe (kbind m f).
Proof.
  intros Hm Hf c Hc. destruct (Hm c Hc) as (a & c1 & H1 & Hc1 & Hs1).
  destruct (Hf a c1 Hc1) as (b & c2 & H2 & Hc2 & Hs2). exists b, c2.
  rewrite (kbind_Ret _ _ _ _ _ H1). split_and!; try done. by eapply screen_only_trans.
Qed.

Lemma cons_safe_ret {A} (a : A) : cons_safe (kret a).
Proof. intros c Hc. by exists a, c. Qed.

(** The guard at the start of every function. *)
Lemma cons_safe_guard {A} (m : K con A) :
  cons_safe m -> cons_safe (let! c := kget in kassert (cons_initialized c) "cons_initialized" ;; m)%K.
Proof.
  intros Hm c Hc. unfold kget. cbn [kbind]. rewrite kassert_true by apply Hc. by apply Hm.
Qed.

Lemma font_row ch : 0 <= ch < 128 -> exists glyph, font !! Z.to_nat (u32 ch) = Some glyph /\ length glyph = 8%nat.
Proof.
  intros Hch. unfold u32. rewrite Z.mod_small by lia.
  destruct (font !! Z.to_nat ch) as [g|] eqn:E.
  - exists g. split; [done|].
    assert (Hall : Forall (fun g : list Z => length g = 8%nat) font) by (repeat constructor).
    by eapply Forall_lookup_1 in Hall.
  - exfalso. apply lookup_ge_None_1 in E. change (length font) with 128%nat in E. lia.
Qed.

Lemma font_none ch : -128 <= ch < 0 -> font !! Z.to_nat (u32 ch) = None.
Proof.
  intros Hch. apply lookup_ge_None_2. change (length font) with 128%nat. unfold u32.
  replace ch with (ch + 4294967296 + (-1) * 4294967296) by lia.
  rewrite Z.mod_add, Z.mod_small by lia. lia.
Qed.

(** Drawing in the cell of the cursor. *)
Lemma draw_char_ok c ch fg bg :
  cons_ok c -> 0 <= ch < 128 ->
  exists glyph m', font !! Z.to_nat ch = Some glyph /\ length glyph = 8%nat /\
    draw_char ch (cons_curr_row c) (cons_curr_col c) fg bg c =
      Ret (tt, Con m' (con_fb c) (cons_initialized c) (cons_width c) (cons_height c)
                   (cons_curr_row c) (cons_curr_col c)) /\
    (forall r bits x, glyph !! r = Some bits -> 0 <= x < 8 ->
       pixel m' (con_fb c) (8 * cons_curr_col c + x) (8 * cons_curr_row c + Z.of_nat r) =
       u32 (glyph_color bits fg bg x)) /\
    agree (fun a => ~ rect_byte (con_fb c) (8 * cons_curr_col c) (8 * cons_curr_row c) 8 8 a)
          (con_mem c) m'.
Proof.
  intros Hc Hch. destruct (font_row ch Hch) as (glyph & Hg & Hl). unfold draw_char. rewrite Hg.
  destruct Hc as [Hfb _ [Hw1 Hw2] [Hh1 Hh2] Hr Hcol].
  destruct (fo_bytes _ Hfb) as (Hb & Hh29 & Hp31). pose proof (fo_pitch _ Hfb) as Hp.
  unfold FONT_WIDTH, FONT_HEIGHT in *.
  replace (s32 (8 * cons_curr_col c)) with (8 * cons_curr_col c)
    by (unfold s32; rewrite Z.mod_small; lia).
  replace (s32 (8 * cons_curr_row c)) with (8 * cons_curr_row c)
    by (unfold s32; rewrite Z.mod_small; lia).
  destruct (fb_draw_glyph_ok (con_fb c) Hfb glyph (8 * cons_curr_col c) (8 * cons_curr_row c)
              fg bg (con_mem c)) as (m' & H1 & H2 & H3); try lia.
  exists glyph, m'. unfold u32 in Hg. rewrite Z.mod_small in Hg by lia.
  split; [done|]. split; [done|]. split; [|split; [done|by rewrite Hl in H3]].
  unfold in_fb, klift. by rewrite H1.
Qed.

Lemma newline_safe : cons_safe cons_newline_and_return.
Proof.
  intros c Hc. pose proof Hc as [Hfb Hi [Hw1 Hw2] [Hh1 Hh2] Hr Hcol].
  destruct (fo_bytes _ Hfb) as (Hb & Hh29 & Hp31). unfold FONT_WIDTH, FONT_HEIGHT in *.
  unfold cons_newline_and_return, set_col, set_row, kget, kbind. cbn.
  replace (s32 (cons_curr_row c + 1)) with (cons_curr_row c + 1)
    by (unfold s32; rewrite Z.mod_small; lia).
  destruct (Z.eqb_spec (cons_curr_row c + 1) (cons_height c)) as [E|E].
  - replace (s32 (cons_curr_row c + 1 - 1)) with (cons_curr_row c)
      by (unfold s32; rewrite Z.mod_small; lia).
    destruct (fb_scroll_up_ok (con_fb c) Hfb FONT_HEIGHT FB_COLOR_BLACK (con_mem c))
      as (m' & H1 & _ & _ & Hag); [unfold FONT_HEIGHT; lia|].
    unfold in_fb, klift. cbn. rewrite H1. eexists _, _. split; [done|]. split; [|done].
    by split; cbn; try done; lia.
  - eexists _, _. split; [done|]. split; [|done]. split; cbn; try done; lia.
Qed.

Lemma putchar_safe ch fg bg : 0 <= ch < 128 -> cons_safe (cons_putchar_color ch fg bg).
Proof.
  intros Hch c Hc. pose proof Hc as [Hfb Hi [Hw1 Hw2] [Hh1 Hh2] Hr Hcol].
  unfold cons_putchar_color, kget. cbn [kbind]. rewrite kassert_true by done.
  destruct (ch =? 10); [by apply newline_safe|]. destruct (ch =? 13).
  { eexists _, _. split; [done|]. split; [split; cbn; try done; lia|done]. }
  destruct (draw_char_ok c ch fg bg Hc Hch) as (glyph & m' & _ & _ & H1 & _ & Hag). kstep H1.
  destruct (fo_bytes _ Hfb) as (Hb & Hh29 & Hp31). pose proof (fo_pitch _ Hfb).
  unfold FONT_WIDTH, FONT_HEIGHT in *.
  unfold set_col, kget, kbind. cbn.
  replace (s32 (cons_curr_col c + 1)) with (cons_curr_col c + 1)
    by (unfold s32; rewrite Z.mod_small; lia).
  set (c1 := Con m' _ _ _ _ _ _).
  assert (Hs1 : screen_only c c1).
  { split_and!; try done. eapply agree_weaken; [exact Hag|]. intros a Ha Hrect. apply Ha.
    eapply (rect_on_screen _ Hfb); [..|exact Hrect]; lia. }
  destruct (Z.eqb_spec (cons_curr_col c + 1) (cons_width c)) as [E|E].
  - set (c2 := Con m' (con_fb c) (cons_initialized c) (cons_width c) (cons_height c)
                   (cons_curr_row c) 0).
    assert (Hc2 : cons_ok c2) by (split; cbn; try done; lia).
    destruct (newline_safe c2 Hc2) as (u & c' & H2 & Hc' & Hs2).
    exists u, c'. split; [exact H2|]. split; [done|]. by eapply (screen_only_trans c c2).
  - exists tt, c1. split; [done|]. split; [|done]. split; cbn; try done; lia.
Qed.

(** Characters the font has. *)
Definition ascii_char (ch : Z) : bool := (0 <=? ch) && (ch <? 128).

Lemma ascii_char_range ch : ascii_char ch = true -> 0 <= ch < 128.
Proof. unfold ascii_char. rewrite andb_true_iff, Z.leb_le, Z.ltb_lt. done. Qed.

Lemma print_loop_safe str fg bg : forallb ascii_char str = true -> cons_safe (cons_print_loop str fg bg).
Proof.
  induction str as [|ch str IH]; cbn [cons_print_loop forallb]; intros H; [apply cons_safe_ret|].
  apply andb_true_iff in H as [H1%ascii_char_range H2]. destruct (ch =? 0); [apply cons_safe_ret|].
  apply cons_safe_bind; [by apply putchar_safe|auto].
Qed.

Lemma print_color_safe str fg bg : forallb ascii_char str = true -> cons_safe (cons_print_color str fg bg).
Proof. intros H. apply cons_safe_guard. by apply print_loop_safe. Qed.

Lemma write_loop_safe data i n fg bg :
  (i + n <= length data)%nat -> (forall j ch, (i <= j < i + n)%nat -> data !! j = Some ch -> 0 <= ch < 128) ->
  cons_safe (cons_write_loop data i n fg bg).
Proof.
  revert i; induction n as [|n IH]; intros i Hlen Hch; cbn [cons_write_loop]; [apply cons_safe_ret|].
  destruct (lookup_lt_is_Some_2 data i) as [ch E]; [lia|].
  rewrite E. apply cons_safe_bind.
  - apply putchar_safe, (Hch i); [lia|done].
  - intros _. apply IH; [lia|]. intros j c' Hj. apply Hch. lia.
Qed.

Lemma write_color_safe data n fg bg :
  (n <= length data)%nat -> (forall j ch, (j < n)%nat -> data !! j = Some ch -> 0 <= ch < 128) ->
  cons_safe (cons_write_color data (Z.of_nat n) fg bg).
Proof.
  intros Hn Hch. apply cons_safe_guard. rewrite Nat2Z.id.
  apply write_loop_safe; [done|]. intros j c Hj. apply Hch. lia.
Qed.

(** ** printk *)

(** The buffer's conversions give digits, preceded by a sign. *)
Definition conv_ok (m : K buffer nat) : Prop :=
  forall b, length b = PRINTK_BUF_SIZE -> exists n b', m b = Ret (n, b') /\ length b' = PRINTK_BUF_SIZE /\
    (n <= PRINTK_BUF_SIZE)%nat /\ forall j ch, (j < n)%nat -> b' !! j = Some ch -> 0 <= ch < 128.

Lemma is_digit_ascii base c : base <= 16 -> is_digit base c -> 0 <= c < 128.
Proof.
  intros Hb [Hd ->]. unfold digit. replace (digit_val c) with (Z.of_nat (Z.to_nat (digit_val c))) by lia.
  assert (Z.to_nat (digit_val c) < 16)%nat as Hn by lia. rewrite Nat2Z.id.
  generalize dependent (Z.to_nat (digit_val c)). clear. intros n Hn.
  do 16 (destruct n as [|n]; [done|]). lia.
Qed.

(** At offset [off], with [m] characters left for the digits. *)
Lemma bprintu64_conv base pre b a m :
  2 <= base <= 16 -> 0 <= a < base ^ Z.of_nat m -> (0 < m)%nat ->
  (length pre + m = PRINTK_BUF_SIZE)%nat -> length b = m -> Forall (fun ch => 0 <= ch < 128) pre ->
  exists n b', bprintu64 (length pre) a base (pre ++ b) = Ret (n, b') /\
    length b' = PRINTK_BUF_SIZE /\ (length pre + n <= PRINTK_BUF_SIZE)%nat /\
    forall j ch, (j < length pre + n)%nat -> b' !! j = Some ch -> 0 <= ch < 128.
Proof.
  intros Hbase Ha Hm Hlen Hb Hpre. unfold PRINTK_BUF_SIZE in *.
  destruct (bprintu64_ok base Hbase a pre b [] m) as (l & rest & Hrun & Hold & Hl & _ & Hdig & _);
    [done|lia|done|]. rewrite !app_nil_r in Hrun. rewrite Hrun.
  eexists _, _. split; [done|].
  assert (Hr : (length b = length l + length rest)%nat).
  { rewrite Hold, length_app, length_take, Hb. lia. }
  rewrite !length_app. split; [lia|]. split; [lia|].
  intros j ch Hj Hch. destruct (decide (j < length pre)%nat).
  - rewrite lookup_app_l in Hch by done. by eapply Forall_lookup_1 in Hch; [|exact Hpre].
  - rewrite lookup_app_r, lookup_app_l in Hch by lia.
    eapply Forall_lookup_1 in Hch; [|exact Hdig]. eapply is_digit_ascii; [|exact Hch]. lia.
Qed.

Lemma bprintu32_conv base v : base = 10 \/ base = 16 -> conv_ok (bprintu64 0 (u32 v) base).
Proof.
  intros Hbase b Hb. unfold PRINTK_BUF_SIZE in Hb. pose proof (u32_range v).
  assert (H11 : u32 v < base ^ Z.of_nat 11) by (destruct Hbase as [-> | ->]; lia).
  destruct (bprintu64_conv base [] b (u32 v) 11) as (n & b' & H1 & H2 & H3 & H4);
    [lia|lia|lia|done|done|constructor|].
  by exists n, b'.
Qed.

Lemma bprints32_conv v : conv_ok (bprints64 0 (s32 v) 10).
Proof.
  intros b Hb. unfold PRINTK_BUF_SIZE in Hb. unfold bprints64.
  assert (Hv : -2147483648 <= s32 v < 2147483648).
  { unfold s32. pose proof (Z.mod_pos_bound (v + 2147483648) 4294967296). lia. }
  destruct (Z.ltb_spec (s32 v) 0).
  - destruct b as [|c b]; [done|]. simpl in Hb.
    change (wrbuf 0) with (wrbuf (length (@nil Z))).
    rewrite (kbind_Ret _ _ _ _ _ (wrbuf_mid [] c b 45)). rewrite u64_small by lia.
    destruct (bprintu64_conv 10 [45] b (- s32 v) 10) as (n & b' & H1 & H2 & H3 & H4);
      [lia|lia|lia|done|lia|repeat constructor; lia|]. simpl length in *. cbn [app] in *.
    kstep H1. by exists (S n), b'.
  - destruct (bprintu64_conv 10 [] b (s32 v) 11) as (n & b' & H1 & H2 & H3 & H4);
      [lia|lia|lia|done|done|constructor|]. by exists n, b'.
Qed.

(** The formats and arguments that agree: only 'u', 'x', 'd' and 's'. *)
Fixpoint fmt_ok (fmt : list Z) (idle : bool) (args : list arg) : bool :=
  match fmt with
  | [] => true
  | ch :: fmt =>
      if idle then
        if ch =? 37 then fmt_ok fmt false args else ascii_char ch && fmt_ok fmt true args
      else if (ch =? 117) || (ch =? 120) || (ch =? 100) then
        match args with ANum _ :: args => fmt_ok fmt true args | _ => false end
      else if ch =? 115 then
        match args with AStr s :: args => forallb ascii_char s && fmt_ok fmt true args | _ => false end
      else negb (ch =? 112) && negb (ch =? 105) && fmt_ok fmt true args
  end.

(** A buffer conversion followed by its flush. *)
Lemma conv_flush (m : K buffer nat) fg bg (k : K pstate unit) c args b sz :
  conv_ok m -> cons_ok c -> length b = PRINTK_BUF_SIZE ->
  exists c' b' n, cons_ok c' /\ screen_only c c' /\ length b' = PRINTK_BUF_SIZE /\
    (let! n := in_buf m in set_size n)%K (PState c args b sz) = Ret (tt, PState c args b' (Some n)) /\
    kbind (flush fg bg) (fun _ => k) (PState c args b' (Some n)) = k (PState c' args b' (Some n)).
Proof.
  intros Hm Hc Hb. destruct (Hm b Hb) as (n & b' & H1 & Hb' & Hn & Hch).
  destruct (write_color_safe b' n fg bg ltac:(lia) Hch c Hc) as (u & c' & H2 & Hc' & Hs).
  destruct n as [|n].
  - exists c, b', 0%nat. split; [done|]. split; [apply screen_only_refl|]. split; [done|]. split; [|done].
    unfold in_buf, klift, kbind. cbn. by rewrite H1.
  - exists c', b', (S n). split; [done|]. split; [done|]. split; [done|]. split.
    + unfold in_buf, klift, kbind. cbn. by rewrite H1.
    + unfold flush, kget, kbind, in_con, klift. cbn [p_size p_buf p_con].
      by rewrite H2.
Qed.

Lemma vprintk_loop_safe fmt idle args fg bg c b sz :
  fmt_ok fmt idle args = true -> cons_ok c -> length b = PRINTK_BUF_SIZE ->
  exists s', vprintk_loop fmt idle fg bg (PState c args b sz) = Ret (tt, s') /\
    cons_ok (p_con s') /\ screen_only c (p_con s').
Proof.
  revert idle args c b sz; induction fmt as [|ch fmt IH]; intros idle args c b sz Hf Hc Hb;
    cbn [vprintk_loop fmt_ok] in *.
  { by eexists. }
  destruct idle.
  - destruct (Z.eqb_spec ch 37) as [->|Hne]; cbn [negb]; [by apply IH|].
    apply andb_true_iff in Hf as [Hch%ascii_char_range Hf].
    destruct (write_color_safe [ch] 1 fg bg) with (c := c) as (u & c1 & H1 & Hc1 & Hs1);
      [done| |done|].
    { intros [|j] ch' Hj E; [|lia]. injection E as <-. done. }
    change (Z.of_nat 1) with 1 in H1. unfold in_con at 1, klift, kbind at 1. cbn [p_con]. rewrite H1. cbn.
    destruct (IH true args c1 b sz Hf Hc1 Hb) as (s' & H2 & Hc2 & Hs2).
    exists s'. split; [exact H2|]. split; [done|]. by eapply screen_only_trans.
  - (* one conversion *)
    set (k := vprintk_loop fmt true fg bg) in *.
    assert (Hconv : forall m c0 args0, conv_ok m -> fmt_ok fmt true args0 = true -> cons_ok c0 ->
      exists s', kbind (let! n := in_buf m in set_size n)%K (fun _ => kbind (flush fg bg) (fun _ => k))
                   (PState c0 args0 b sz) = Ret (tt, s') /\ cons_ok (p_con s') /\
                 screen_only c0 (p_con s')).
    { intros m c0 args0 Hm Hf0 Hc0.
      destruct (conv_flush m fg bg k c0 args0 b sz Hm Hc0 Hb) as (c1 & b1 & n & Hc1 & Hs1 & Hb1 & H1 & H2).
      rewrite (kbind_Ret _ _ _ _ _ H1), H2.
      destruct (IH true args0 c1 b1 (Some n) Hf0 Hc1 Hb1) as (s' & H3 & Hc3 & Hs3).
      exists s'. split; [exact H3|]. split; [done|]. by eapply screen_only_trans. }
    unfold conversion.
    destruct (Z.eqb_spec ch 117) as [->|N1]; [|destruct (Z.eqb_spec ch 120) as [->|N2];
      [|destruct (Z.eqb_spec ch 100) as [->|N3]]].
    1-3: cbn in Hf; destruct args as [|[v|] args]; try done;
      rewrite kbind_assoc; unfold next_num, next_arg at 1; cbn [kbind];
      (apply Hconv; [|done|done]);
      first [by apply bprintu32_conv; left | by apply bprintu32_conv; right | by apply bprints32_conv].
    cbn [orb] in Hf. destruct (Z.eqb_spec ch 112) as [->|N4]; [done|].
    destruct (Z.eqb_spec ch 115) as [->|N5].
    + destruct args as [|[|str] args]; try done. apply andb_true_iff in Hf as [Hstr Hf].
      destruct (print_color_safe str fg bg Hstr c Hc) as (u & c1 & H1 & Hc1 & Hs1).
      assert (Hcv : (let! str := next_str in in_con (cons_print_color str fg bg) ;; set_size 0)%K
                      (PState c (AStr str :: args) b sz) = Ret (tt, PState c1 args b (Some 0%nat))).
      { unfold next_str, next_arg, kbind, in_con, klift, kret. cbn [p_args p_con p_buf p_size].
        by rewrite H1. }
      kstep Hcv.
      destruct (IH true args c1 b (Some 0%nat) Hf Hc1 Hb) as (s' & H3 & Hc3 & Hs3).
      exists s'. split; [exact H3|]. split; [done|]. by eapply screen_only_trans.
    + destruct (Z.eqb_spec ch 105) as [->|N6]; [done|]. cbn in Hf.
      exact (IH true args c b (Some 0%nat) Hf Hc Hb).
Qed.

Lemma printk_safe junk fmt args :
  fmt_ok fmt true args = true -> length junk = PRINTK_BUF_SIZE -> cons_safe (printk junk fmt args).
Proof.
  intros Hf Hj. unfold printk. apply cons_safe_guard. apply cons_safe_guard.
  unfold vprintk_color. apply (cons_safe_guard (fun c => match _ with Ret (_, s) => Ret (tt, p_con s) | Halt h => Halt h end)).
  intros c Hc. destruct (vprintk_loop_safe fmt true args FB_COLOR_WHITE FB_COLOR_BLACK c junk None Hf Hc Hj)
    as (s' & H1 & H2 & H3). exists tt, (p_con s'). by rewrite H1.
Qed.

(** ** Pointers *)

(** The conversion of a pointer with more than nine hexadecimal digits. *)
Lemma bprintptr_overflow ptr b :
  length b = PRINTK_BUF_SIZE -> 16 ^ 9 <= ptr -> bprintptr ptr b = Halt (Undefined "buf[i]").
Proof.
  intros Hj Hp. unfold bprintptr. rewrite (proj2 (Z.eqb_neq ptr 0)) by lia.
  assert (Hs : exists b', bprintstr 0 (chars "0x") 0 b = Ret (2%nat, b') /\ length b' = 11%nat).
  { unfold PRINTK_BUF_SIZE in Hj. do 12 (destruct b as [|? b]; try done). eexists. by split. }
  destruct Hs as (b' & Hs & Hl). kstep Hs. apply kbind_Halt, bprintu64_overflow; rewrite ?Hl; try lia.
  change (Z.of_nat (11 - 2)) with 9. lia.
Qed.

(** A text without conversions, then that of a pointer: the loop does not get
    past it, and overflows the buffer if the text can be printed. *)
Lemma vprintk_loop_pointer text rest ptr args fg bg c b sz :
  Forall (fun ch => ch <> 37) text -> length b = PRINTK_BUF_SIZE -> 16 ^ 9 <= ptr < two64 ->
  exists h, vprintk_loop (text ++ 37 :: 112 :: rest) true fg bg (PState c (ANum ptr :: args) b sz) = Halt h /\
    (cons_ok c -> forallb ascii_char text = true -> h = Undefined "buf[i]").
Proof.
  intros Ht Hb Hp. revert c sz. induction Ht as [|ch text Hch Ht IH]; intros c sz; cbn [app vprintk_loop].
  - exists (Undefined "buf[i]"). split; [|done]. change (37 =? 37) with true. cbn [negb].
    apply kbind_Halt. unfold conversion. cbn [Z.eqb Pos.eqb].
    unfold next_num, next_arg, in_buf, klift, kbind. cbn [p_args p_buf]. unfold kret. cbn [p_buf].
    rewrite (u64_small ptr) by lia. rewrite bprintptr_overflow; [done|done|lia].
  - rewrite (proj2 (Z.eqb_neq ch 37)) by done. cbn [negb]. unfold kbind, in_con, klift. cbn [p_con].
    destruct (cons_write_color [ch] 1 fg bg c) as [[u c1]|h] eqn:E.
    + cbn [p_args p_buf p_size]. destruct (IH c1 sz) as (h & H1 & H2). exists h. split; [exact H1|].
      intros Hc Ha. cbn [forallb] in Ha. apply andb_true_iff in Ha as [Ha1%ascii_char_range Ha].
      apply H2; [|done].
      destruct (write_color_safe [ch] 1 fg bg) with (c := c) as (u' & c' & E' & Hc' & _); [done| |done|].
      { intros [|j] ch' Hj Ej; [|lia]. injection Ej as <-. done. }
      change (Z.of_nat 1) with 1 in E'. rewrite E in E'. by injection E' as _ <-.
    + exists h. split; [done|]. intros Hc Ha. cbn [forallb] in Ha.
      apply andb_true_iff in Ha as [Ha1%ascii_char_range Ha].
      destruct (write_color_safe [ch] 1 fg bg) with (c := c) as (u' & c' & E' & _); [done| |done|].
      { intros [|j] ch' Hj Ej; [|lia]. injection Ej as <-. done. }
      change (Z.of_nat 1) with 1 in E'. by rewrite E in E'.
Qed.

Lemma printk_unfold junk fmt args c :
  cons_initialized c = true ->
  printk junk fmt args c =
    match vprintk_loop fmt true FB_COLOR_WHITE FB_COLOR_BLACK (PState c args junk None) with
    | Ret (_, s) => Ret (tt, p_con s)
    | Halt h => Halt h
    end.
Proof.
  intros Hc. unfold printk, vprintk, vprintk_color, kget. unfold kbind at 1.
  rewrite kassert_true by done. unfold kbind at 1. rewrite kassert_true by done. unfold kbind at 1.
  by rewrite kassert_true.
Qed.

Lemma printk_pointer junk text rest ptr args c :
  Forall (fun ch => ch <> 37) text -> length junk = PRINTK_BUF_SIZE -> 16 ^ 9 <= ptr < two64 ->
  exists h, printk junk (text ++ 37 :: 112 :: rest) (ANum ptr :: args) c = Halt h /\
    (cons_ok c -> forallb ascii_char text = true -> h = Undefined "buf[i]").
Proof.
  intros Ht Hj Hp. destruct (cons_initialized c) eqn:Hc.
  - rewrite printk_unfold by done.
    destruct (vprintk_loop_pointer text rest ptr args FB_COLOR_WHITE FB_COLOR_BLACK c junk None Ht Hj Hp)
      as (h & H1 & H2). exists h. by rewrite H1.
  - exists (Panic "cons_initialized"). split; [|intros Hok; by rewrite (co_init c Hok) in Hc].
    unfold printk. rewrite kget_bind. by apply kassert_false.
Qed.
