(* ===== verification/Panic.v ===== *)
(** * kernel/panic.c: the message of a panic

    Elsewhere a panic is [Halt (Panic msg)]; this is what [__panic] does before
    the processor stops. *)

From S2P Require Import Prelude Mem Common Paging Multiboot Fb FbSpec Console Printk PrintkSpec ConsoleSpec.

Definition newline : list Z := [10].

(** Each of the three calls has a buffer of its own: [j1], [j2], [j3] is what the
    stack holds there. *)
Definition panic_message (j1 j2 j3 : buffer) (location fmt : list Z) (args : list arg) : K con unit :=
  (let! c := kget in
   if cons_initialized c then
     printk_color j1 FB_COLOR_WHITE FB_COLOR_RED (chars "Kernel panic at %s: ") [AStr location] ;;
     vprintk_color j2 fmt args FB_COLOR_WHITE FB_COLOR_RED ;;
     printk j3 newline []
   else kret tt)%K.

(** while (true) hlt. *)
Definition __panic (j1 j2 j3 : buffer) (location : list Z) (msg : string) (args : list arg) : K con unit :=
  (panic_message j1 j2 j3 location (chars msg) args ;; panic msg)%K.

Lemma vprintk_color_safe junk fmt args fg bg :
  fmt_ok fmt true args = true -> length junk = PRINTK_BUF_SIZE -> cons_safe (vprintk_color junk fmt args fg bg).
Proof.
  intros Hf Hj. unfold vprintk_color.
  apply (cons_safe_guard (fun c => match _ with Ret (_, s) => Ret (tt, p_con s) | Halt h => Halt h end)).
  intros c Hc. destruct (vprintk_loop_safe fmt true args fg bg c junk None Hf Hc Hj) as (s' & H1 & H2 & H3).
  exists tt, (p_con s'). by rewrite H1.
Qed.

Lemma printk_color_safe junk fmt args fg bg :
  fmt_ok fmt true args = true -> length junk = PRINTK_BUF_SIZE -> cons_safe (printk_color junk fg bg fmt args).
Proof. intros Hf Hj. unfold printk_color. by apply cons_safe_guard, vprintk_color_safe. Qed.

Definition buffers_ok (j1 j2 j3 : buffer) : Prop :=
  length j1 = PRINTK_BUF_SIZE /\ length j2 = PRINTK_BUF_SIZE /\ length j3 = PRINTK_BUF_SIZE.

Lemma location_safe j location : length j = PRINTK_BUF_SIZE -> forallb ascii_char location = true ->
  cons_safe (printk_color j FB_COLOR_WHITE FB_COLOR_RED (chars "Kernel panic at %s: ") [AStr location]).
Proof.
  intros Hj Hl. apply printk_color_safe; [|done].
  change (fmt_ok (chars "Kernel panic at %s: ") true [AStr location]) with (forallb ascii_char location && true). by rewrite Hl.
Qed.

Lemma panic_message_ok j1 j2 j3 location fmt args c :
  buffers_ok j1 j2 j3 -> forallb ascii_char location = true -> fmt_ok fmt true args = true -> cons_ok c ->
  exists c', panic_message j1 j2 j3 location fmt args c = Ret (tt, c') /\ cons_ok c' /\ screen_only c c'.
Proof.
  intros (H1 & H2 & H3) Hl Hf Hc. unfold panic_message. rewrite kget_bind, (co_init c Hc).
  assert (Hs : cons_safe (printk_color j1 FB_COLOR_WHITE FB_COLOR_RED (chars "Kernel panic at %s: ") [AStr location] ;;
                 vprintk_color j2 fmt args FB_COLOR_WHITE FB_COLOR_RED ;; printk j3 newline [])%K).
  { apply cons_safe_bind; [by apply location_safe|intros _]. apply cons_safe_bind; [by apply vprintk_color_safe|intros _].
    by apply printk_safe. }
  destruct (Hs c Hc) as ([] & c' & H4 & H5 & H6). by exists c'.
Qed.

Lemma panic_message_pointer j1 j2 j3 location text ptr c :
  buffers_ok j1 j2 j3 -> forallb ascii_char location = true -> cons_ok c ->
  Forall (fun ch => ch <> 37) text -> forallb ascii_char text = true -> 16 ^ 9 <= ptr < two64 ->
  panic_message j1 j2 j3 location (text ++ chars "%p") [ANum ptr] c = Halt (Undefined "buf[i]").
Proof.
  intros (H1 & H2 & H3) Hl Hc Ht Ha Hp. unfold panic_message. rewrite kget_bind, (co_init c Hc).
  destruct (location_safe j1 location H1 Hl c Hc) as ([] & c1 & Hr & Hc1 & _). rewrite (kbind_Ret _ _ _ _ _ Hr).
  apply kbind_Halt. unfold vprintk_color. rewrite kget_bind, kassert_true by apply Hc1.
  change (text ++ chars "%p") with (text ++ 37 :: 112 :: []).
  destruct (vprintk_loop_pointer text [] ptr [] FB_COLOR_WHITE FB_COLOR_RED c1 j2 None Ht H2 Hp) as (h & Hh & Hu).
  by rewrite Hh, Hu.
Qed.
