(* ===== verification/Acpi.v ===== *)
(** * drivers/acpi.c: the firmware's tables

    The tables are read from memory at their packed offsets. The driver's two
    pointers and the console, which the initialisation prints to, are the
    record [acpi]. *)

From S2P Require Import Prelude Mem Common DList Paging Multiboot Fb Console Printk.

(** acpi_sdt_header_t; the entries of an RSDT or XSDT follow it. *)
Definition sizeof_sdt_header : Z := 36.
Definition sdt_length (sdt : Z) : Z := u64 (sdt + 4).
Definition rsdt_entry (rsdt i : Z) : Z := u64 (rsdt + sizeof_sdt_header + 4 * i).
Definition xsdt_entry (xsdt i : Z) : Z := u64 (xsdt + sizeof_sdt_header + 8 * i).

(** acpi_rsdp_t; [rsdp_length_offset] is offsetof(acpi_rsdp_t, length). *)
Definition rsdp_length_offset : Z := 20.
Definition rsdp_rsdt_address (rsdp : Z) : Z := u64 (rsdp + 16).
Definition rsdp_length (rsdp : Z) : Z := u64 (rsdp + rsdp_length_offset).
Definition rsdp_xsdt_address (rsdp : Z) : Z := u64 (rsdp + 24).

(** The bytes that follow the header of a multiboot tag. *)
Definition tag_rsdp (tag : Z) : Z := u64 (tag + 8).

(** for (int i = 0; i < length; i++) checksum += table[i], [n] rounds left. *)
Fixpoint checksum_loop (table checksum i : Z) (n : nat) : K mem Z :=
  match n with
  | O => kret checksum
  | S n =>
      (let! b := load8 (u64 (table + i)) in
       checksum_loop table (u32 (checksum + b)) (i + 1) n)%K
  end.

(** The sum of the first [length] bytes, an [int]: none when it is negative. *)
Definition checksum (table length : Z) : K mem Z := checksum_loop table 0 0 (Z.to_nat (s32 length)).

Definition acpi_check (acpi_table : Z) : K mem bool :=
  (kassert (negb (acpi_table =? 0)) "acpi_table != NULL" ;;
   let! length := load32 (sdt_length acpi_table) in
   let! sum := checksum acpi_table length in
   kret (Z.land sum 0xFF =? 0))%K.

Definition acpi_rsdp_check (rsdp : Z) : K mem unit :=
  (kassert (negb (rsdp =? 0)) "rsdp != NULL" ;;
   let! sum := checksum rsdp rsdp_length_offset in
   kassert (Z.land sum 0xFF =? 0) "Bad ACPI 1.0 RSDP checksum")%K.

(** The loops over the entries of the RSDT and of the XSDT: the entry's width
    and address differ. The signature is four bytes at an address. *)
Fixpoint sdt_lookup_loop (width : nat) (entry : Z -> Z) (signature i : Z) (n : nat) : K mem Z :=
  match n with
  | O => kret NULL
  | S n =>
      (let! phys := load width (entry i) in
       let sdt := PHYS_TO_VIRT phys in
       let! cmp := memcmp signature sdt 4 in
       if cmp =? 0 then
         let! ok := acpi_check sdt in
         kret (if ok then sdt else NULL)
       else sdt_lookup_loop width entry signature (i + 1) n)%K
  end.

Definition acpi_rsdt_lookup (rsdt signature : Z) : K mem Z :=
  (let! length := load32 (sdt_length rsdt) in
   let size := u64 (length - sizeof_sdt_header) / 4 in
   sdt_lookup_loop 4 (rsdt_entry rsdt) signature 0 (Z.to_nat size))%K.

Definition acpi_xsdt_lookup (xsdt signature : Z) : K mem Z :=
  (let! length := load32 (sdt_length xsdt) in
   let size := u64 (length - sizeof_sdt_header) / 8 in
   sdt_lookup_loop 8 (xsdt_entry xsdt) signature 0 (Z.to_nat size))%K.

(** ** The driver's state *)

Record acpi := Acpi {
  a_con : con;
  a_junk : buffer;    (* what an uninitialised buffer of printk holds *)
  rsdt : Z;
  xsdt : Z;
}.

Definition in_acpi_con {A} : K con A -> K acpi A :=
  klift a_con (fun c s => Acpi c (a_junk s) (rsdt s) (xsdt s)).
Definition in_acpi_mem {A} (m : K mem A) : K acpi A := in_acpi_con (in_fb (fun _ => m)).
Definition set_rsdt (v : Z) : K acpi unit := fun s => Ret (tt, Acpi (a_con s) (a_junk s) v (xsdt s)).
Definition set_xsdt (v : Z) : K acpi unit := fun s => Ret (tt, Acpi (a_con s) (a_junk s) (rsdt s) v).
Definition acpi_printk (fmt : string) (args : list arg) : K acpi unit :=
  (let! s := kget in in_acpi_con (printk (a_junk s) (chars fmt) args))%K.

Definition acpi_lookup (signature : Z) : K acpi Z :=
  (kassert (negb (signature =? 0)) "signature != NULL" ;;
   let! s := kget in
   if negb (xsdt s =? NULL) then in_acpi_mem (acpi_xsdt_lookup (xsdt s) signature)
   else if negb (rsdt s =? NULL) then in_acpi_mem (acpi_rsdt_lookup (rsdt s) signature)
   else panic "Neither XSDT nor RSDT pointers were set")%K.

Definition acpi_rsdt_init (mb : mb_state) : K acpi unit :=
  (kassert (negb (mb_acpi_rsdp_v1 mb =? 0)) "mb_acpi_rsdp_v1 != NULL" ;;
   let rsdp := tag_rsdp (mb_acpi_rsdp_v1 mb) in
   in_acpi_mem (acpi_rsdp_check rsdp) ;;
   let! address := in_acpi_mem (load32 (rsdp_rsdt_address rsdp)) in
   set_rsdt (PHYS_TO_VIRT address) ;;
   let! s := kget in
   let! ok := in_acpi_mem (acpi_check (rsdt s)) in
   kassert ok "Bad ACPI RSDT checksum" ;;
   acpi_printk "Found valid ACPI RSDT at %p
" [ANum (rsdt s)])%K.

Definition acpi_xsdt_init (mb : mb_state) : K acpi unit :=
  (kassert (negb (mb_acpi_rsdp_v2 mb =? 0)) "mb_acpi_rsdp_v2 != NULL" ;;
   let rsdp := tag_rsdp (mb_acpi_rsdp_v2 mb) in
   in_acpi_mem (acpi_rsdp_check rsdp) ;;
   let! length := in_acpi_mem (load32 (rsdp_length rsdp)) in
   let! sum := in_acpi_mem (checksum rsdp length) in
   kassert (Z.land sum 0xFF =? 0) "Bad ACPI 2.0 RSDP checksum" ;;
   let! address := in_acpi_mem (load64 (rsdp_xsdt_address rsdp)) in
   set_xsdt (PHYS_TO_VIRT address) ;;
   let! s := kget in
   let! ok := in_acpi_mem (acpi_check (xsdt s)) in
   kassert ok "Bad ACPI XSDT checksum" ;;
   acpi_printk "Found valid ACPI XSDT at %p
" [ANum (xsdt s)])%K.

Definition acpi_init (mb : mb_state) : K acpi unit :=
  if negb (mb_acpi_rsdp_v2 mb =? 0) then acpi_xsdt_init mb else acpi_rsdt_init mb.
