(* ===== verification/AcpiSpec.v ===== *)
(** * The firmware's tables: checksums, the lookup, and how far acpi_init gets *)

From S2P Require Import Prelude Mem Common DList Paging Multiboot Fb FbSpec Console Printk PrintkSpec ConsoleSpec Acpi.

(** ** Checksums *)

(** The sum of [n] bytes from an address on. *)
Fixpoint byte_sum (m : mem) (a : Z) (n : nat) : Z :=
  match n with
  | O => 0
  | S n => rd8 m a + byte_sum m (a + 1) n
  end.

Lemma byte_sum_bound m a n : 0 <= byte_sum m a n <= 255 * Z.of_nat n.
Proof.
  revert a; induction n as [|n IH]; intros a; cbn [byte_sum]; [lia|].
  specialize (IH (a + 1)). pose proof (rd8_range m a). lia.
Qed.

Lemma u32_add_l a b : u32 (u32 a + b) = u32 (a + b).
Proof. unfold u32. by rewrite Z.add_mod_idemp_l. Qed.

Lemma checksum_loop_ok table n c i m :
  kok (table + i) (Z.of_nat n) = true -> 0 <= table + i -> 0 <= c ->
  checksum_loop table (u32 c) i n m = Ret (u32 (c + byte_sum m (table + i) n), m).
Proof.
  revert c i; induction n as [|n IH]; intros c i Hk Hi Hc; cbn [checksum_loop byte_sum].
  { by rewrite Z.add_0_r. }
  pose proof (proj1 (kok_spec _ _) Hk) as [K1 K2].
  rewrite u64_small by (unfold KERNEL_HIGHER_HALF_START in K1; lia).
  rewrite bind_load by (apply (kok_sub (table + i) (Z.of_nat (S n))); [done|lia|lia]).
  rewrite ld_1, u32_add_l.
  replace (table + i + 1) with (table + (i + 1)) by lia. pose proof (rd8_range m (table + i)).
  rewrite IH; [by rewrite !Z.add_assoc| |lia|lia].
  apply (kok_sub (table + i) (Z.of_nat (S n))); [done|lia|lia].
Qed.

(** A table whose checksum can be computed: its length field and its bytes are
    kernel memory. *)
Definition table_len (m : mem) (t : Z) : Z := ld 4 m (t + 4).
Definition table_ok (m : mem) (t : Z) : Prop :=
  kok t 8 = true /\ kok t (table_len m t) = true /\ table_len m t < 2 ^ 31.

Definition checksum_valid (m : mem) (t : Z) : bool :=
  byte_sum m t (Z.to_nat (table_len m t)) mod 256 =? 0.

Lemma s32_small x : 0 <= x < 2 ^ 31 -> s32 x = x.
Proof. intros. unfold s32. rewrite Z.mod_small by lia. lia. Qed.

Lemma checksum_ok table len m :
  0 <= len < 2 ^ 31 -> kok table len = true ->
  checksum table len m = Ret (u32 (byte_sum m table (Z.to_nat len)), m).
Proof.
  intros Hl Hk. unfold checksum. rewrite s32_small by done.
  pose proof (proj1 (kok_spec _ _) Hk) as [K1 K2]. unfold KERNEL_HIGHER_HALF_START in K1.
  pose proof (checksum_loop_ok table (Z.to_nat len) 0 0 m) as H.
  rewrite !Z.add_0_r in H. change (u32 0) with 0 in H. rewrite H; [by rewrite Z.add_0_l| |lia|lia].
  by rewrite Z2Nat.id by lia.
Qed.

Lemma u32_low_byte x : Z.land (u32 x) 255 = x mod 256.
Proof.
  change 255 with (Z.ones 8). rewrite Z.land_ones by lia. unfold u32. change (2 ^ 8) with 256.
  apply Z.mod_mod_divide. by exists 16777216.
Qed.

Lemma table_len_ok m t : kok t 8 = true -> load32 (sdt_length t) m = Ret (table_len m t, m).
Proof.
  intros Hk. pose proof (proj1 (kok_spec _ _) Hk) as [K1 K2]. unfold KERNEL_HIGHER_HALF_START in K1.
  unfold sdt_length. rewrite u64_small by lia. apply load_ok.
  by apply (kok_sub t 8); [|lia|lia].
Qed.

Lemma acpi_check_ok m t : table_ok m t -> acpi_check t m = Ret (checksum_valid m t, m).
Proof.
  intros (H1 & H2 & H3). pose proof (ld_range 4 m (t + 4)) as H0. fold (table_len m t) in H0.
  pose proof (proj1 (kok_spec _ _) H1) as [K1 K2]. unfold KERNEL_HIGHER_HALF_START in K1.
  unfold acpi_check. rewrite kassert_true by (apply negb_true_iff, Z.eqb_neq; lia).
  kstep (table_len_ok m t H1).
  assert (Hc : checksum t (table_len m t) m = Ret (u32 (byte_sum m t (Z.to_nat (table_len m t))), m))
    by (apply checksum_ok; [lia|done]).
  kstep Hc. unfold kret, checksum_valid. by rewrite u32_low_byte.
Qed.

(** ** The lookup *)

Lemma memcmp_loop_ok n a b m :
  kok a (Z.of_nat n) = true -> kok b (Z.of_nat n) = true ->
  exists r, memcmp_loop a b n m = Ret (r, m) /\ (r =? 0) = (ld n m a =? ld n m b).
Proof.
  revert a b; induction n as [|n IH]; intros a b Ha Hb; cbn [memcmp_loop]; [by exists 0|].
  pose proof (proj1 (kok_spec _ _) Ha) as [A1 A2]. pose proof (proj1 (kok_spec _ _) Hb) as [B1 B2].
  unfold KERNEL_HIGHER_HALF_START in A1, B1.
  rewrite bind_load by (apply (kok_sub a (Z.of_nat (S n))); [done|lia|lia]).
  rewrite bind_load by (apply (kok_sub b (Z.of_nat (S n))); [done|lia|lia]).
  rewrite !ld_1. pose proof (rd8_range m a) as Ra. pose proof (rd8_range m b) as Rb.
  change (ld (S n) m a) with (rd8 m a + 256 * ld n m (a + 1)).
  change (ld (S n) m b) with (rd8 m b + 256 * ld n m (b + 1)).
  destruct (Z.eqb_spec (rd8 m a) (rd8 m b)) as [E|E]; cbn [negb].
  - destruct n as [|n].
    { exists 0. split; [done|]. change (ld 0 m (a + 1)) with 0. change (ld 0 m (b + 1)) with 0.
      symmetry. apply Z.eqb_eq. lia. }
    rewrite !u64_small by lia.
    destruct (IH (a + 1) (b + 1)) as (r & H1 & H2).
    { apply (kok_sub a (Z.of_nat (S (S n)))); [done|lia|lia]. }
    { apply (kok_sub b (Z.of_nat (S (S n)))); [done|lia|lia]. }
    exists r. split; [done|]. rewrite H2. apply eq_true_iff_eq. rewrite !Z.eqb_eq. lia.
  - eexists. split; [done|]. transitivity false; [by case_match|]. symmetry. apply Z.eqb_neq. lia.
Qed.

(** The first table with the signature, if its checksum is right. *)
Definition lookup_spec (m : mem) (signature : Z) (tables : list Z) : Z :=
  match filter (fun t => ld 4 m t = ld 4 m signature) tables with
  | [] => NULL
  | t :: _ => if checksum_valid m t then t else NULL
  end.

(** The tables a root table of [n] entries of [width] bytes lists. *)
Definition listed (m : mem) (width : nat) (entry : Z -> Z) (i : Z) (n : nat) : list Z :=
  map (fun k => PHYS_TO_VIRT (ld width m (entry (i + Z.of_nat k)))) (seq 0 n).

Lemma listed_cons m width entry i n :
  listed m width entry i (S n) = PHYS_TO_VIRT (ld width m (entry i)) :: listed m width entry (i + 1) n.
Proof.
  unfold listed. cbn [seq map]. rewrite Z.add_0_r. f_equal.
  rewrite <- seq_shift, map_map. apply map_ext. intros k. do 3 f_equal. lia.
Qed.

Lemma sdt_lookup_loop_ok width entry signature n i m :
  kok signature 4 = true ->
  (forall k, 0 <= k < Z.of_nat n -> kok (entry (i + k)) (Z.of_nat width) = true) ->
  Forall (table_ok m) (listed m width entry i n) ->
  sdt_lookup_loop width entry signature i n m = Ret (lookup_spec m signature (listed m width entry i n), m).
Proof.
  intros Hs. revert i; induction n as [|n IH]; intros i He Ht; cbn [sdt_lookup_loop]; [done|].
  rewrite listed_cons in *. apply Forall_cons in Ht as [Ht1 Ht].
  rewrite bind_load by (specialize (He 0); rewrite Z.add_0_r in He; apply He; lia).
  set (t := PHYS_TO_VIRT (ld width m (entry i))) in *.
  destruct (memcmp_loop_ok 4 signature t m Hs) as (r & Hr & Hr0).
  { destruct Ht1 as [H _]. by apply (kok_sub t 8); [|lia|lia]. }
  unfold memcmp. change (Z.to_nat 4) with 4%nat. kstep Hr.
  unfold lookup_spec. rewrite filter_cons, Hr0.
  destruct (Z.eqb_spec (ld 4 m signature) (ld 4 m t)) as [E|E].
  - rewrite decide_True by done. kstep (acpi_check_ok m t Ht1). done.
  - rewrite decide_False by congruence. apply IH; [|done].
    intros k Hk. replace (i + 1 + k) with (i + (k + 1)) by lia. apply He. lia.
Qed.

(** ** acpi_init prints a pointer *)

(** Whatever the tables, acpi_init ends in [Halt]: if nothing else stops it,
    the conversion of the table's address overflows printk's buffer. *)
Definition rsdt_text : list Z := chars "Found valid ACPI RSDT at ".
Definition xsdt_text : list Z := chars "Found valid ACPI XSDT at ".

Lemma acpi_check_pointer t m r : 0 <= t < two64 -> acpi_check t m = Ret r -> 16 ^ 9 <= t.
Proof.
  intros Ht H. unfold acpi_check in H. destruct (negb (t =? 0)); [|done].
  rewrite kassert_true in H by done. unfold kbind, load in H.
  destruct (kok (sdt_length t) (Z.of_nat 4)) eqn:E; [|done].
  apply kok_spec in E as [E1 E2]. unfold sdt_length, KERNEL_HIGHER_HALF_START in E1.
  destruct (Z.lt_ge_cases (t + 4) two64) as [Hl|Hl].
  - rewrite u64_small in E1 by lia. lia.
  - replace (u64 (t + 4)) with (t + 4 - two64) in E1; [lia|].
    Transparent u64. unfold u64. Opaque u64.
    rewrite <- (Z.mod_small (t + 4 - two64) two64) by lia.
    rewrite Zminus_mod, Z_mod_same_full, Z.sub_0_r, Z.mod_mod; done.
Qed.

(** What is known of a computation of the driver: it does not return, and if
    the console works and no check fails, it overflows the buffer. *)
Definition stops (m : K acpi unit) (s : acpi) : Prop := exists h, m s = Halt h.

Lemma stops_bind {A} (m : K acpi A) (f : A -> K acpi unit) s :
  (forall a s', m s = Ret (a, s') -> stops (f a) s') -> stops (kbind m f) s.
Proof.
  intros H. unfold stops, kbind in *. destruct (m s) as [[a s']|h]; [by apply H|by exists h].
Qed.

Lemma found_text_stops text rest s ptr :
  Forall (fun ch => ch <> 37) text -> length (a_junk s) = PRINTK_BUF_SIZE -> 16 ^ 9 <= ptr < two64 ->
  exists h, in_acpi_con (printk (a_junk s) (text ++ 37 :: 112 :: rest) [ANum ptr]) s = Halt h /\
    (cons_ok (a_con s) -> forallb ascii_char text = true -> h = Undefined "buf[i]").
Proof.
  intros Ht Hj Hp. destruct (printk_pointer (a_junk s) text rest ptr [] (a_con s) Ht Hj Hp) as (h & H1 & H2).
  exists h. split; [by apply klift_Halt|done].
Qed.

Lemma in_acpi_mem_inv {A} (m : K mem A) s a s' :
  in_acpi_mem m s = Ret (a, s') -> a_junk s' = a_junk s /\ rsdt s' = rsdt s /\ xsdt s' = xsdt s /\
    exists m', m (con_mem (a_con s)) = Ret (a, m').
Proof.
  unfold in_acpi_mem, in_acpi_con, in_fb, klift. destruct (m (con_mem (a_con s))) as [[x m']|] eqn:E; [|done].
  intros [= <- <-]. cbn. split_and!; try done. by exists m'.
Qed.

Lemma in_acpi_mem_ok {A} (m : K mem A) s a :
  m (con_mem (a_con s)) = Ret (a, con_mem (a_con s)) -> in_acpi_mem m s = Ret (a, s).
Proof.
  intros H. unfold in_acpi_mem, in_acpi_con, in_fb, klift. rewrite H. by destruct s as [[]].
Qed.

Lemma kassert_inv {S B} b msg (f : unit -> K S B) s r : kbind (kassert b msg) f s = Ret r -> b = true.
Proof. destruct b; [done|discriminate]. Qed.

Lemma stops_assert b msg (f : unit -> K acpi unit) s : (b = true -> stops (f tt) s) -> stops (kbind (kassert b msg) f) s.
Proof. destruct b; intros H; [by apply H|by eexists]. Qed.

Lemma PHYS_TO_VIRT_range a : 0 <= PHYS_TO_VIRT a < two64.
Proof. apply u64_range. Qed.

Lemma no_percent_text : Forall (fun ch => ch <> 37) rsdt_text /\ Forall (fun ch => ch <> 37) xsdt_text.
Proof. split; repeat constructor; discriminate. Qed.

(** Both initialisations end by checking the table and printing where it is. *)
Lemma report_stops {B} text ptr (s : acpi) msg (rest : list Z) (k : B) :
  Forall (fun ch => ch <> 37) text -> length (a_junk s) = PRINTK_BUF_SIZE -> 0 <= ptr < two64 ->
  stops (let! ok := in_acpi_mem (acpi_check ptr) in
         kassert ok msg ;;
         let! s := kget in in_acpi_con (printk (a_junk s) (text ++ 37 :: 112 :: rest) [ANum ptr]))%K s.
Proof.
  intros Ht Hj Hp. apply stops_bind. intros ok s' H. apply in_acpi_mem_inv in H as (Hj' & _ & _ & m' & H).
  apply acpi_check_pointer in H; [|done]. apply stops_assert. intros _. unfold stops. rewrite kget_bind.
  destruct (found_text_stops text rest s' ptr) as (h & Hh & _); [done|congruence|lia|]. by exists h.
Qed.

Lemma acpi_init_stops mb s : length (a_junk s) = PRINTK_BUF_SIZE -> stops (acpi_init mb) s.
Proof.
  intros Hj. unfold acpi_init. destruct (negb (mb_acpi_rsdp_v2 mb =? 0)).
  - unfold acpi_xsdt_init. apply stops_assert; intros _.
    apply stops_bind; intros [] s1 H1. apply in_acpi_mem_inv in H1 as (J1 & _).
    apply stops_bind; intros len s2 H2. apply in_acpi_mem_inv in H2 as (J2 & _).
    apply stops_bind; intros sum s3 H3. apply in_acpi_mem_inv in H3 as (J3 & _).
    apply stops_assert; intros _.
    apply stops_bind; intros addr s4 H4. apply in_acpi_mem_inv in H4 as (J4 & _).
    apply (report_stops xsdt_text (PHYS_TO_VIRT addr) (Acpi (a_con s4) (a_junk s4) (rsdt s4) (PHYS_TO_VIRT addr))
             _ [10] tt); [apply no_percent_text|cbn; congruence|apply PHYS_TO_VIRT_range].
  - unfold acpi_rsdt_init. apply stops_assert; intros _.
    apply stops_bind; intros [] s1 H1. apply in_acpi_mem_inv in H1 as (J1 & _).
    apply stops_bind; intros addr s4 H4. apply in_acpi_mem_inv in H4 as (J4 & _).
    apply (report_stops rsdt_text (PHYS_TO_VIRT addr) (Acpi (a_con s4) (a_junk s4) (PHYS_TO_VIRT addr) (xsdt s4))
             _ [10] tt); [apply no_percent_text|cbn; congruence|apply PHYS_TO_VIRT_range].
Qed.

(** ** A valid root pointer and XSDT *)

Record xsdt_ready (m : mem) (mb : mb_state) (t : Z) : Prop := {
  xr_tag : 0 < mb_acpi_rsdp_v2 mb /\ kok (mb_acpi_rsdp_v2 mb) 44 = true;
  xr_len : let p := mb_acpi_rsdp_v2 mb + 8 in ld 4 m (p + 20) < 2 ^ 31 /\ kok p (ld 4 m (p + 20)) = true;
  xr_sum1 : byte_sum m (mb_acpi_rsdp_v2 mb + 8) 20 mod 256 = 0;
  xr_sum2 : let p := mb_acpi_rsdp_v2 mb + 8 in byte_sum m p (Z.to_nat (ld 4 m (p + 20))) mod 256 = 0;
  xr_table : PHYS_TO_VIRT (ld64 m (mb_acpi_rsdp_v2 mb + 8 + 24)) = t;
  xr_ok : table_ok m t /\ checksum_valid m t = true;
}.

Lemma acpi_xsdt_init_overflows mb s t :
  xsdt_ready (con_mem (a_con s)) mb t -> cons_ok (a_con s) -> length (a_junk s) = PRINTK_BUF_SIZE ->
  acpi_init mb s = Halt (Undefined "buf[i]").
Proof.
  intros [[Tp Tk] [Ln Lk] S1 S2 Ta [To Tv]] Hc Hj. cbv zeta in *.
  set (m := con_mem (a_con s)) in *. set (tag := mb_acpi_rsdp_v2 mb) in *.
  pose proof (proj1 (kok_spec _ _) Tk) as [K1 K2]. unfold KERNEL_HIGHER_HALF_START in K1.
  pose proof (ld_range 4 m (tag + 8 + 20)) as L0. pose proof (PHYS_TO_VIRT_range (ld64 m (tag + 8 + 24))) as Hr.
  unfold acpi_init. fold tag. rewrite (proj2 (negb_true_iff _) (proj2 (Z.eqb_neq tag 0) ltac:(lia))).
  unfold acpi_xsdt_init. fold tag. rewrite kassert_true by (apply negb_true_iff, Z.eqb_neq; lia). cbv zeta.
  unfold tag_rsdp. rewrite (u64_small (tag + 8)) by lia. set (p := tag + 8) in *.
  assert (E1 : in_acpi_mem (acpi_rsdp_check p) s = Ret (tt, s)).
  { apply in_acpi_mem_ok. unfold acpi_rsdp_check. rewrite kassert_true by (apply negb_true_iff, Z.eqb_neq; lia).
    assert (C : checksum p rsdp_length_offset m = Ret (u32 (byte_sum m p 20), m)).
    { apply (checksum_ok p 20 m); [lia|]. apply (kok_sub tag 44); [done|lia|lia]. }
    kstep C. by rewrite u32_low_byte, S1. }
  kstep E1.
  assert (E2 : in_acpi_mem (load32 (rsdp_length p)) s = Ret (ld 4 m (p + 20), s)).
  { apply in_acpi_mem_ok. unfold rsdp_length, rsdp_length_offset. rewrite u64_small by lia. apply load_ok.
    apply (kok_sub tag 44); [done|lia|lia]. }
  kstep E2.
  assert (E3 : in_acpi_mem (checksum p (ld 4 m (p + 20))) s = Ret (u32 (byte_sum m p (Z.to_nat (ld 4 m (p + 20)))), s)).
  { apply in_acpi_mem_ok, checksum_ok; [lia|done]. }
  kstep E3. rewrite u32_low_byte, S2, kassert_true by done.
  assert (E4 : in_acpi_mem (load64 (rsdp_xsdt_address p)) s = Ret (ld64 m (p + 24), s)).
  { apply in_acpi_mem_ok. unfold rsdp_xsdt_address. rewrite u64_small by lia. apply load_ok.
    apply (kok_sub tag 44); [done|lia|lia]. }
  kstep E4. unfold set_xsdt. unfold kbind at 1. rewrite kget_bind. cbn [xsdt]. rewrite Ta.
  set (s1 := Acpi (a_con s) (a_junk s) (rsdt s) t).
  assert (E5 : in_acpi_mem (acpi_check t) s1 = Ret (true, s1)).
  { apply in_acpi_mem_ok. change (con_mem (a_con s1)) with m. rewrite (acpi_check_ok m t To). by rewrite Tv. }
  kstep E5. rewrite kassert_true by done. unfold acpi_printk. rewrite kget_bind. cbn [xsdt s1].
  destruct (found_text_stops xsdt_text [10] s1 t) as (h & H1 & H2);
    [apply no_percent_text|done| |].
  { destruct To as [Tk' _]. pose proof (proj1 (kok_spec _ _) Tk') as [? ?]. unfold KERNEL_HIGHER_HALF_START in *. lia. }
  change (chars "Found valid ACPI XSDT at %p
") with (xsdt_text ++ 37 :: 112 :: [10]). rewrite H1. f_equal. apply H2; [done|reflexivity].
Qed.
