(* ===== verification/Obj.v ===== *)
(** * mm/obj.c: the allocator of small objects

    Free objects form a list through their first eight bytes; when it is empty
    a page is cut into slots. The [obj_alloc_t] is a static variable whose
    address is only passed on, so it is a record next to the frame allocator's
    state. *)

From S2P Require Import Prelude Mem Common DList Buddy Paging FrameAlloc.

Record obj_alloc := ObjAlloc {
  next_free : Z;
  obj_size : Z;
}.

(** OBJ_ALLOC_DEFINE for a type of the given size. *)
Definition OBJ_ALLOC_DEFINE (size : Z) : obj_alloc := ObjAlloc NULL size.

Abbreviation obj_state := (fa_state * obj_alloc)%type.

Definition with_fa {A} (m : K fa_state A) : K obj_state A := klift fst (fun s o => (s, o.2)) m.
Definition get_alloc : K obj_state obj_alloc := fun s => Ret (s.2, s).
Definition set_next_free (v : Z) : K obj_state unit :=
  fun s => Ret (tt, (s.1, ObjAlloc v (obj_size s.2))).

(** while (curr + obj_size <= end): the slots of a page, each pointing to the
    one before it. A slot takes at least one cache line, so that 64 rounds end
    the loop, unless objects have size zero, when it never ends. *)
Fixpoint slots_loop (fuel : nat) (size curr end_ prev : Z) : K mem Z :=
  match fuel with
  | O => khalt NoFuel
  | S fuel =>
      if u64 (curr + size) <=? end_ then
        (store64 curr prev ;;
         slots_loop fuel size (u64 (curr + ROUNDUP size CACHE_LINE_SIZE_BYTES)) end_ curr)%K
      else kret prev
  end.

Definition slots_fuel : nat := 65.

Definition object_alloc : K obj_state Z :=
  (let! alloc := get_alloc in
   kassert (obj_size alloc <=? PAGE_SIZE) "alloc->obj_size <= PAGE_SIZE" ;;
   (if next_free alloc =? NULL then
      let! page := with_fa frame_alloc in
      let! prev := with_fa (in_mem (slots_loop slots_fuel (obj_size alloc) page (u64 (page + PAGE_SIZE)) 0)) in
      set_next_free prev
    else kret tt) ;;
   let! alloc := get_alloc in
   let! next := with_fa (in_mem (load64 (next_free alloc))) in
   set_next_free next ;;
   kret (next_free alloc))%K.

Definition object_free (obj : Z) : K obj_state unit :=
  (kassert (negb (obj =? NULL)) "obj != NULL" ;;
   with_fa (in_mem (store64 obj 0)) ;;
   set_next_free obj)%K.
