(* ===== verification/Vmem.v ===== *)
(** * mm/vmem.c: virtual address spaces

    A [vmem_t] and its list of areas live in kernel memory, at the addresses
    the C code uses; the page tables are frames seen through the direct
    mapping. The file's static variables and the register CR3 complete the
    state. Loops over the areas are bounded by fuel: a list that is not a ring
    would be followed for ever. *)

From S2P Require Import Prelude Mem Common DList Buddy Paging FrameAlloc Obj.

Definition VMEM_NO_FLAGS : Z := 0.
Definition VMEM_USER : Z := Z.shiftl 1 0.
Definition VMEM_WRITE : Z := Z.shiftl 1 1.
Definition VMEM_ALLOC : Z := Z.shiftl 1 2.

(** vmem_area_t: the list node is its first member. *)
Definition sizeof_vmem_area : Z := 40.
Definition area_start (area : Z) : Z := u64 (area + 16).
Definition area_size (area : Z) : Z := u64 (area + 24).
Definition area_flags (area : Z) : Z := u64 (area + 32).

(** vmem_t. *)
Definition vm_areas_list (vm : Z) : Z := vm.
Definition vm_pml4 (vm : Z) : Z := u64 (vm + 8).

Record vm_state := VmState {
  vm_fa : fa_state;
  vmem_area_alloc : obj_alloc;
  curr_vmem : Z;
  cr3 : Z;
}.

Definition vm_mem (s : vm_state) : mem := fa_mem (vm_fa s).

Definition in_fa {A} : K fa_state A -> K vm_state A :=
  klift vm_fa (fun f s => VmState f (vmem_area_alloc s) (curr_vmem s) (cr3 s)).
Definition in_kmem {A} (m : K mem A) : K vm_state A := in_fa (in_mem m).
Definition in_obj {A} : K obj_state A -> K vm_state A :=
  klift (fun s => (vm_fa s, vmem_area_alloc s))
        (fun o s => VmState o.1 o.2 (curr_vmem s) (cr3 s)).

(** Loads and stores of a variable at an address. *)
Definition vload (a : Z) : K vm_state Z := in_kmem (load64 a).
Definition vstore (a v : Z) : K vm_state unit := in_kmem (store64 a v).

(** tbl->entries[idx]. *)
Definition entry_addr (tbl idx : Z) : Z := u64 (tbl + 8 * idx).
Definition entry (tbl idx : Z) : K vm_state Z := vload (entry_addr tbl idx).
Definition set_entry (tbl idx v : Z) : K vm_state unit := vstore (entry_addr tbl idx) v.

Definition has (flags bit : Z) : bool := negb (Z.land flags bit =? 0).

(** [for (i = ...; ...; i++)] with [return]: the body gives the value to
    return, or [None] to go on. *)
Fixpoint for_from {S A : Type} (body : Z -> K S (option A)) (i : Z) (n : nat) : K S (option A) :=
  match n with
  | O => kret None
  | Datatypes.S n =>
      (let! r := body i in
       match r with Some a => kret (Some a) | None => for_from body (i + 1) n end)%K
  end.

(** Skip the rest of the body. *)
Definition continue {S A} : K S (option A) := kret None.

(** ** Flags *)

Definition vmem_convert_flags (flags : Z) : Z :=
  let pte_flags := 0 in
  let pte_flags := if has flags VMEM_USER then Z.lor pte_flags PTE_USER else pte_flags in
  let pte_flags := if has flags VMEM_WRITE then Z.lor pte_flags PTE_WRITEABLE else pte_flags in
  if has flags VMEM_ALLOC then Z.lor pte_flags PTE_ALLOC else pte_flags.

Definition vmem_unconvert_flags (flags : Z) : Z :=
  let vmem_flags := 0 in
  let vmem_flags := if has flags PTE_USER then Z.lor vmem_flags VMEM_USER else vmem_flags in
  let vmem_flags := if has flags PTE_WRITEABLE then Z.lor vmem_flags VMEM_WRITE else vmem_flags in
  if has flags PTE_ALLOC then Z.lor vmem_flags VMEM_ALLOC else vmem_flags.

(** ** Areas *)

Fixpoint intersects_loop (fuel : nat) (vm node other_start_addr other_end_addr : Z) : K vm_state bool :=
  match fuel with
  | O => khalt NoFuel
  | S fuel =>
      (let! head := vload (vm_areas_list vm) in
       if node =? head then kret false
       else
         let! start := vload (area_start node) in
         let! size := vload (area_size node) in
         if negb ((other_end_addr <=? start) || (u64 (start + u64 (size * PAGE_SIZE)) <=? other_start_addr))
         then kret true
         else
           let! next := vload node in
           intersects_loop fuel vm next other_start_addr other_end_addr)%K
  end.

Definition vmem_intersects (fuel : nat) (vm other_start_addr other_size : Z) : K vm_state bool :=
  (let other_end_addr := u64 (other_start_addr + other_size) in
   let! head := vload (vm_areas_list vm) in
   let! node := vload head in
   intersects_loop fuel vm node other_start_addr other_end_addr)%K.

Definition page_aligned (a : Z) : bool := Z.land a (Z.lnot (PAGE_SIZE - 1)) =? a.

Definition vmem_alloc_pages (fuel : nat) (vm virt_addr pgcnt flags : Z) : K vm_state Z :=
  (kassert (page_aligned virt_addr) "virt_addr is page aligned" ;;
   let! inter := vmem_intersects fuel vm virt_addr pgcnt in
   if inter then panic "intersection of virtual regions has occured in vmem"
   else
     let! new_area := in_obj object_alloc in
     if new_area =? NULL then kret (- ENOMEM)
     else
       vstore (area_start new_area) virt_addr ;;
       vstore (area_size new_area) pgcnt ;;
       vstore (area_flags new_area) flags ;;
       in_kmem (list_init new_area) ;;
       let! head := vload (vm_areas_list vm) in
       in_kmem (list_insert_after head new_area) ;;
       kret 0)%K.

Fixpoint is_mapped_loop (fuel : nat) (vm node addr : Z) : K vm_state Z :=
  match fuel with
  | O => khalt NoFuel
  | S fuel =>
      (let! head := vload (vm_areas_list vm) in
       if node =? head then kret NULL
       else
         let! start := vload (area_start node) in
         let! size := vload (area_size node) in
         if (start <=? addr) && (addr <? u64 (start + u64 (size * PAGE_SIZE))) then kret node
         else
           let! next := vload node in
           is_mapped_loop fuel vm next addr)%K
  end.

(** The area of the address, or [NULL]. *)
Definition vmem_is_mapped (fuel : nat) (vm addr : Z) : K vm_state Z :=
  (let! head := vload (vm_areas_list vm) in
   let! node := vload head in
   is_mapped_loop fuel vm node addr)%K.

(** ** Page tables *)

Definition vmem_ensure_next_table (tbl idx raw_flags : Z) : K vm_state Z :=
  (let! pte := entry tbl idx in
   if has pte PTE_PRESENT then
     let next_tbl := PHYS_TO_VIRT (PTE_ADDR pte) in
     let! pte := entry tbl idx in
     set_entry tbl idx (Z.lor pte raw_flags) ;;
     kret next_tbl
   else
     let! next_tbl := in_fa frame_alloc in
     if next_tbl =? NULL then kret NULL
     else
       in_kmem (memset next_tbl 0 PAGE_SIZE) ;;
       set_entry tbl idx (Z.lor (Z.lor (VIRT_TO_PHYS next_tbl) PTE_PRESENT) raw_flags) ;;
       kret next_tbl)%K.

Definition vmem_map_page (vm virt_addr frame flags : Z) : K vm_state Z :=
  (kassert (page_aligned virt_addr) "virt_addr is page aligned" ;;
   kassert (page_aligned frame) "frame is page aligned" ;;
   let flags := vmem_convert_flags flags in
   let! pml4 := vload (vm_pml4 vm) in
   let! pdpt := vmem_ensure_next_table pml4 (PML4E_FROM_ADDR virt_addr) flags in
   if pdpt =? NULL then kret (- ENOMEM)
   else
     let! pgdir := vmem_ensure_next_table pdpt (PDPE_FROM_ADDR virt_addr) flags in
     if pgdir =? NULL then kret (- ENOMEM)
     else
       let! pgtbl := vmem_ensure_next_table pgdir (PDE_FROM_ADDR virt_addr) flags in
       if pgtbl =? NULL then kret (- ENOMEM)
       else
         let! pte := entry pgtbl (PTE_FROM_ADDR virt_addr) in
         kassert (negb (has pte PTE_PRESENT)) "!(pte & PTE_PRESENT)" ;;
         set_entry pgtbl (PTE_FROM_ADDR virt_addr) (Z.lor (Z.lor frame PTE_PRESENT) flags) ;;
         kret 0)%K.

(** x & ~(size - 1) == x. *)
Definition size_aligned (size a : Z) : bool := Z.land a (Z.lnot (size - 1)) =? a.

Definition vmem_map_page_2mb (vm virt_addr frame flags : Z) : K vm_state Z :=
  (kassert (size_aligned (2 * MB) virt_addr) "virt_addr is 2MB aligned" ;;
   kassert (size_aligned (2 * MB) frame) "frame is 2MB aligned" ;;
   let flags := vmem_convert_flags flags in
   let! pml4 := vload (vm_pml4 vm) in
   let! pdpt := vmem_ensure_next_table pml4 (PML4E_FROM_ADDR virt_addr) flags in
   if pdpt =? NULL then kret (- ENOMEM)
   else
     let! pgdir := vmem_ensure_next_table pdpt (PDPE_FROM_ADDR virt_addr) flags in
     if pgdir =? NULL then kret (- ENOMEM)
     else
       let! pde := entry pgdir (PDE_FROM_ADDR virt_addr) in
       kassert (negb (has pde PTE_PRESENT) && negb (has pde PTE_PAGE_SIZE))
               "!(pde & PTE_PRESENT) && !(pde & PTE_PAGE_SIZE)" ;;
       set_entry pgdir (PDE_FROM_ADDR virt_addr)
                 (Z.lor (Z.lor (Z.lor frame PTE_PRESENT) PTE_PAGE_SIZE) flags) ;;
       kret 0)%K.

Definition vmem_map_page_1gb (vm virt_addr frame flags : Z) : K vm_state Z :=
  (kassert (size_aligned GB virt_addr) "virt_addr is 1GB aligned" ;;
   kassert (size_aligned GB frame) "frame is 1GB aligned" ;;
   let flags := vmem_convert_flags flags in
   let! pml4 := vload (vm_pml4 vm) in
   let! pdpt := vmem_ensure_next_table pml4 (PML4E_FROM_ADDR virt_addr) flags in
   if pdpt =? NULL then kret (- ENOMEM)
   else
     let! pdpe := entry pdpt (PDPE_FROM_ADDR virt_addr) in
     kassert (negb (has pdpe PTE_PRESENT && negb (has pdpe PTE_PAGE_SIZE)))
             "!((pdpe & PTE_PRESENT) && !(pdpe & PTE_PAGE_SIZE))" ;;
     set_entry pdpt (PDPE_FROM_ADDR virt_addr)
               (Z.lor (Z.lor (Z.lor frame PTE_PRESENT) PTE_PAGE_SIZE) flags) ;;
     kret 0)%K.

(** The early returns of the C code are the branches that do nothing. *)
Definition vmem_unmap_page (vm virt_addr : Z) : K vm_state unit :=
  (let! pml4 := vload (vm_pml4 vm) in
   let! pml4e := entry pml4 (PML4E_FROM_ADDR virt_addr) in
   if negb (has pml4e PTE_PRESENT) then kret tt
   else
     let pdpt := PHYS_TO_VIRT (PTE_ADDR pml4e) in
     let! pdpe := entry pdpt (PDPE_FROM_ADDR virt_addr) in
     if negb (has pdpe PTE_PRESENT) then kret tt
     else
       let pgdir := PHYS_TO_VIRT (PTE_ADDR pdpe) in
       let! pde := entry pgdir (PDE_FROM_ADDR virt_addr) in
       if negb (has pde PTE_PRESENT) then kret tt
       else
         let pgtbl := PHYS_TO_VIRT (PTE_ADDR pde) in
         let! pte := entry pgtbl (PTE_FROM_ADDR virt_addr) in
         (if has pte VMEM_ALLOC then in_fa (frame_free (PHYS_TO_VIRT (PTE_ADDR pte))) else kret tt) ;;
         set_entry pgtbl (PTE_FROM_ADDR virt_addr) 0)%K.

Fixpoint find_area_loop (fuel : nat) (vm node start_addr end_addr : Z) : K vm_state (option Z) :=
  match fuel with
  | O => khalt NoFuel
  | S fuel =>
      (let! head := vload (vm_areas_list vm) in
       if node =? head then kret None
       else
         let! start := vload (area_start node) in
         let! size := vload (area_size node) in
         if (start_addr =? start) && (u64 (start + u64 (size * PAGE_SIZE)) =? end_addr)
         then kret (Some node)
         else
           let! next := vload node in
           find_area_loop fuel vm next start_addr end_addr)%K
  end.

(** for (addr = start_addr; addr < end_addr; addr += PAGE_SIZE). *)
Fixpoint unmap_loop (fuel : nat) (vm addr end_addr : Z) : K vm_state unit :=
  match fuel with
  | O => khalt NoFuel
  | S fuel =>
      if addr <? end_addr then
        (vmem_unmap_page vm addr ;; unmap_loop fuel vm (u64 (addr + PAGE_SIZE)) end_addr)%K
      else kret tt
  end.

Definition vmem_free_pages (fuel : nat) (vm virt_addr pgcnt : Z) : K vm_state unit :=
  (kassert (page_aligned virt_addr) "virt_addr is page aligned" ;;
   let start_addr := virt_addr in
   let end_addr := u64 (start_addr + u64 (PAGE_SIZE * pgcnt)) in
   let! head := vload (vm_areas_list vm) in
   let! node := vload head in
   let! found := find_area_loop fuel vm node start_addr end_addr in
   match found with
   | None => panic "alloc-free mismatch in vmem"
   | Some area_node =>
       in_kmem (list_extract area_node) ;;
       in_obj (object_free area_node) ;;
       unmap_loop fuel vm start_addr end_addr
   end)%K.

(** ** Address spaces *)

Definition vmem_init (vm : Z) : K vm_state Z :=
  (let! pml4 := in_fa frame_alloc in
   vstore (vm_pml4 vm) pml4 ;;
   if pml4 =? NULL then kret (- ENOMEM)
   else
     let! areas := in_obj object_alloc in
     vstore (vm_areas_list vm) areas ;;
     if areas =? NULL then kret (- ENOMEM)
     else in_kmem (list_init areas) ;; kret 0)%K.

(** The value of [res < 0] is returned, anything else goes on. *)
Definition check (res : Z) : option Z := if res <? 0 then Some res else None.

Definition clone_pte (dst pml4ei pdpei pdei pt ptei : Z) : K vm_state (option Z) :=
  (let! pte := entry pt ptei in
   if negb (has pte PTE_PRESENT) then continue
   else
     let virt_addr := MAKE_ADDR pml4ei pdpei pdei ptei 0 in
     let src_phys_addr := PTE_ADDR pte in
     let flags := vmem_unconvert_flags (Z.land pte PTE_FLAGS_MASK) in
     if has pte PTE_ALLOC then
       let! phys_frame_copy := in_fa frame_alloc in
       if phys_frame_copy =? NULL then kret (Some (- ENOMEM))
       else
         in_kmem (memcpy phys_frame_copy (PHYS_TO_VIRT src_phys_addr) PAGE_SIZE) ;;
         let! res := vmem_map_page dst virt_addr (VIRT_TO_PHYS phys_frame_copy) (Z.lor flags VMEM_ALLOC) in
         kret (check res)
     else
       let! res := vmem_map_page dst virt_addr src_phys_addr flags in
       kret (check res))%K.

Definition clone_pde (dst pml4ei pdpei pd pdei : Z) : K vm_state (option Z) :=
  (let! pde := entry pd pdei in
   if negb (has pde PTE_PRESENT) then continue
   else if has pde PTE_PAGE_SIZE then
     let virt_addr := MAKE_ADDR pml4ei pdpei pdei 0 0 in
     let! res := vmem_map_page_2mb dst virt_addr (PTE_ADDR pde)
                   (vmem_unconvert_flags (Z.land pde PTE_FLAGS_MASK)) in
     kret (check res)
   else for_from (clone_pte dst pml4ei pdpei pdei (PHYS_TO_VIRT (PTE_ADDR pde))) 0 512)%K.

Definition clone_pdpte (dst pml4ei pdpt pdpei : Z) : K vm_state (option Z) :=
  (let! pdpte := entry pdpt pdpei in
   if negb (has pdpte PTE_PRESENT) then continue
   else if has pdpte PTE_PAGE_SIZE then
     let virt_addr := MAKE_ADDR pml4ei pdpei 0 0 0 in
     let! res := vmem_map_page_1gb dst virt_addr (PTE_ADDR pdpte)
                   (vmem_unconvert_flags (Z.land pdpte PTE_FLAGS_MASK)) in
     kret (check res)
   else for_from (clone_pde dst pml4ei pdpei (PHYS_TO_VIRT (PTE_ADDR pdpte))) 0 512)%K.

Definition clone_pml4e (dst src_pml4 pml4ei : Z) : K vm_state (option Z) :=
  (let! pml4e := entry src_pml4 pml4ei in
   if negb (has pml4e PTE_PRESENT) then continue
   else for_from (clone_pdpte dst pml4ei (PHYS_TO_VIRT (PTE_ADDR pml4e))) 0 512)%K.

Definition vmem_clone_pages (dst src_pml4 : Z) : K vm_state Z :=
  (let! res := for_from (clone_pml4e dst src_pml4) 0 512 in
   kret (default 0 res))%K.

Definition x86_read_cr3 : K vm_state Z := fun s => Ret (cr3 s, s).
Definition x86_write_cr3 (x : Z) : K vm_state unit :=
  fun s => Ret (tt, VmState (vm_fa s) (vmem_area_alloc s) (curr_vmem s) x).

Definition vmem_init_from_current (vm : Z) : K vm_state Z :=
  (let! res := vmem_init vm in
   if res <? 0 then kret res
   else
     let! cr3 := x86_read_cr3 in
     vmem_clone_pages vm (PHYS_TO_VIRT cr3))%K.

(** The copies of the source's areas; [None] when an allocation failed. *)
Fixpoint clone_areas_loop (fuel : nat) (dst src node : Z) : K vm_state (option Z) :=
  match fuel with
  | O => khalt NoFuel
  | S fuel =>
      (let! head := vload (vm_areas_list src) in
       if node =? head then kret None
       else
         let! copy := in_obj object_alloc in
         if copy =? NULL then kret (Some (- ENOMEM))
         else
           let! start := vload (area_start node) in
           vstore (area_start copy) start ;;
           let! size := vload (area_size node) in
           vstore (area_size copy) size ;;
           let! flags := vload (area_flags node) in
           vstore (area_flags copy) flags ;;
           in_kmem (list_init copy) ;;
           let! dst_head := vload (vm_areas_list dst) in
           in_kmem (list_insert_after dst_head copy) ;;
           let! next := vload node in
           clone_areas_loop fuel dst src next)%K
  end.

Definition vmem_clone (fuel : nat) (dst src : Z) : K vm_state Z :=
  (let! res := vmem_init dst in
   if res <? 0 then kret res
   else
     let! head := vload (vm_areas_list src) in
     let! node := vload head in
     let! res := clone_areas_loop fuel dst src node in
     match res with
     | Some err => kret err
     | None =>
         let! pml4 := vload (vm_pml4 src) in
         vmem_clone_pages dst pml4
     end)%K.

Definition vmem_switch_to (vm : Z) : K vm_state unit :=
  (let! pml4 := vload (vm_pml4 vm) in
   x86_write_cr3 (VIRT_TO_PHYS pml4) ;;
   fun s => Ret (tt, VmState (vm_fa s) (vmem_area_alloc s) vm (cr3 s)))%K.

(** while (!list_empty(areas_list)): pop and free an area. *)
Fixpoint destroy_areas_loop (fuel : nat) (vm : Z) : K vm_state unit :=
  match fuel with
  | O => khalt NoFuel
  | S fuel =>
      (let! head := vload (vm_areas_list vm) in
       let! empty := in_kmem (list_empty head) in
       if empty then kret tt
       else
         let! head := vload (vm_areas_list vm) in
         let! to_pop := vload head in
         in_kmem (list_extract to_pop) ;;
         in_obj (object_free to_pop) ;;
         destroy_areas_loop fuel vm)%K
  end.

Definition destroy_pte (pt ptei : Z) : K vm_state (option unit) :=
  (let! pte := entry pt ptei in
   if negb (has pte PTE_PRESENT) then continue
   else if has pte PTE_ALLOC then
     in_fa (frame_free (PHYS_TO_VIRT (PTE_ADDR pte))) ;; continue
   else continue)%K.

Definition destroy_pde (pd pdei : Z) : K vm_state (option unit) :=
  (let! pde := entry pd pdei in
   if negb (has pde PTE_PRESENT) then continue
   else if has pde PTE_PAGE_SIZE then continue
   else
     let pt := PHYS_TO_VIRT (PTE_ADDR pde) in
     for_from (destroy_pte pt) 0 512 ;;
     in_fa (frame_free pt) ;; continue)%K.

Definition destroy_pdpte (pdpt pdpei : Z) : K vm_state (option unit) :=
  (let! pdpte := entry pdpt pdpei in
   if negb (has pdpte PTE_PRESENT) then continue
   else if has pdpte PTE_PAGE_SIZE then continue
   else
     let pd := PHYS_TO_VIRT (PTE_ADDR pdpte) in
     for_from (destroy_pde pd) 0 512 ;;
     in_fa (frame_free pd) ;; continue)%K.

Definition destroy_pml4e (vm pml4ei : Z) : K vm_state (option unit) :=
  (let! pml4 := vload (vm_pml4 vm) in
   let! pml4e := entry pml4 pml4ei in
   if negb (has pml4e PTE_PRESENT) then continue
   else
     let pdpt := PHYS_TO_VIRT (PTE_ADDR pml4e) in
     for_from (destroy_pdpte pdpt) 0 512 ;;
     in_fa (frame_free pdpt) ;; continue)%K.

Definition vmem_destroy (fuel : nat) (vm : Z) : K vm_state unit :=
  (let! s := kget in
   kassert (negb (curr_vmem s =? vm)) "curr_vmem != vm" ;;
   destroy_areas_loop fuel vm ;;
   let! head := vload (vm_areas_list vm) in
   in_obj (object_free head) ;;
   for_from (destroy_pml4e vm) 0 512 ;;
   let! pml4 := vload (vm_pml4 vm) in
   in_fa (frame_free pml4))%K.

(** ** The processor's page walk *)

(** An entry that is present. *)
Definition present (e : Z) : option Z := if has e PTE_PRESENT then Some e else None.

(** The physical address [va] is mapped to by the tables at the physical
    address [root]: four levels, with pages of 1 GB and 2 MB at the second and
    third. The tables are read through the direct mapping. *)
Definition table_entry (m : mem) (tbl idx : Z) : option Z := present (ld64 m (entry_addr tbl idx)).

Definition page_walk (m : mem) (root va : Z) : option Z :=
  e4 ← table_entry m (PHYS_TO_VIRT root) (PML4E_FROM_ADDR va);
  e3 ← table_entry m (PHYS_TO_VIRT (PTE_ADDR e4)) (PDPE_FROM_ADDR va);
  if has e3 PTE_PAGE_SIZE then Some (ROUNDDOWN (PTE_ADDR e3) GB + va mod GB)
  else
    e2 ← table_entry m (PHYS_TO_VIRT (PTE_ADDR e3)) (PDE_FROM_ADDR va);
    if has e2 PTE_PAGE_SIZE then Some (ROUNDDOWN (PTE_ADDR e2) (2 * MB) + va mod (2 * MB))
    else
      e1 ← table_entry m (PHYS_TO_VIRT (PTE_ADDR e2)) (PTE_FROM_ADDR va);
      Some (PTE_ADDR e1 + va mod PAGE_SIZE).

(** ** On-demand allocation *)

Definition vmem_handle_pf (fuel : nat) (fault_addr : Z) : K vm_state bool :=
  (let! s := kget in
   let! area := vmem_is_mapped fuel (curr_vmem s) fault_addr in
   if area =? NULL then kret false
   else
     let! virt := in_fa frame_alloc in
     let frame := VIRT_TO_PHYS virt in
     if frame =? 0 then panic "Can't map page: out of memory"
     else
       let! flags := vload (area_flags area) in
       let! s := kget in
       let! status := vmem_map_page (curr_vmem s) (ROUNDDOWN fault_addr PAGE_SIZE) frame
                        (Z.lor flags VMEM_ALLOC) in
       if status <? 0 then panic "Can't map page" else kret true)%K.

(** A store of the kernel to a user address goes through the tables CR3 points
    to; where they map nothing the processor raises a page fault and runs the
    access again if it was handled. One byte at a time, as a word may straddle
    two pages. *)
Definition user_store8 (fuel : nat) (a v : Z) : K vm_state unit :=
  (let! s := kget in
   match page_walk (vm_mem s) (cr3 s) a with
   | Some phys => in_kmem (store8 (PHYS_TO_VIRT phys) v)
   | None =>
       let! handled := vmem_handle_pf fuel a in
       if handled then
         let! s := kget in
         match page_walk (vm_mem s) (cr3 s) a with
         | Some phys => in_kmem (store8 (PHYS_TO_VIRT phys) v)
         | None => khalt (Fault a)
         end
       else panic "Unhandled IRQ"
   end)%K.

Fixpoint user_store (fuel n : nat) (a v : Z) : K vm_state unit :=
  match n with
  | O => kret tt
  | S n => (user_store8 fuel a (u8 v) ;; user_store fuel n (u64 (a + 1)) (v / 256))%K
  end.
