(* ===== verification/FrameClient.v ===== *)
(** * What the frame allocator promises its clients

    [FrameContract] and [FrameSource] are the interface the virtual-memory code
    is proved against: a client holds frames, writes into them, gets new ones as
    long as there are any ([FrameSource]) and, when [F] allows it, gives them
    back. Two predicates discharge it with the sessions of FrameSession.v:
    [frames_ok], which holds of every zone the kernel makes, for new frames; and
    [frames_fine], for frames given back, which asks that the pairs of buddies in
    use share no bit of the bitmaps. *)

From S2P Require Import Prelude Mem Common DList Buddy Paging FrameAlloc FrameRefine FrameZones FrameSession FrameInit.

(** A byte of one of the frames at the addresses [L]. *)
Definition frame_byte (L : list Z) (a : Z) : Prop := exists p, p ∈ L /\ in_range p PAGE_SIZE a.

(** A frame seen through the direct mapping, not that of physical address 0. *)
Record frame_at (p : Z) : Prop := {
  fr_aligned : aligned PAGE_SIZE p;
  fr_low : KERNEL_DIRECT_PHYS_MAPPING_START < p;
  fr_high : p + PAGE_SIZE <= KERNEL_DIRECT_PHYS_MAPPING_START + KERNEL_DIRECT_PHYS_MAPPING_SIZE;
}.

(** Every byte a zone of the allocator covers: its lists, bitmaps and pages. *)
Definition zone_bytes (z : allocator_zone) (a : Z) : Prop :=
  let N := (end_addr z - start_addr z) / PAGE_SIZE in footprint (z, N, b_init False 0) a.
Definition fa_bytes (s : fa_state) (a : Z) : Prop := exists z, z ∈ allocator_zones s /\ zone_bytes z a.

(** The number of frames of all zones. *)
Definition capacity (s : fa_state) : Z := foldr (fun z n => zone_pages z + n) 0 (allocator_zones s).

Class FrameContract (F : Prop) (ok : fa_state -> list Z -> Prop) : Prop := {
  fc_free s p L1 L2 : F -> ok s (L1 ++ p :: L2) ->
    exists m', frame_free p s = Ret (tt, set_mem s m') /\ ok (set_mem s m') (L1 ++ L2) /\
      agree (frame_byte (L1 ++ L2)) (fa_mem s) m' /\ agree (fun a => ~ fa_bytes s a) (fa_mem s) m';
  fc_keep s L m' : ok s L -> agree (fun a => fa_bytes s a /\ ~ frame_byte L a) (fa_mem s) m' -> ok (set_mem s m') L;
  fc_frame s L p : ok s L -> p ∈ L -> frame_at p;
  fc_nodup s L : ok s L -> NoDup L;
  fc_inside s L a : ok s L -> frame_byte L a -> fa_bytes s a;
}.

(** A new frame is refused only when all of them are in use. *)
Class FrameSource (ok : fa_state -> list Z -> Prop) : Prop :=
  fc_alloc s L : ok s L ->
    (frame_alloc s = Ret (NULL, s) /\ capacity s <= Z.of_nat (length L)) \/
    exists p m', frame_alloc s = Ret (p, set_mem s m') /\ p <> NULL /\ p ∉ L /\
      ok (set_mem s m') (p :: L) /\ agree (frame_byte L) (fa_mem s) m' /\
      agree (fun a => ~ fa_bytes s a) (fa_mem s) m' /\
      (forall a, in_range p PAGE_SIZE a -> rd8 m' a = 0).

(** A client writes in its frames, and outside the allocator's memory. *)
Lemma fc_write {F ok} `{!FrameContract F ok} s L m' :
  ok s L -> agree (fun a => ~ frame_byte L a) (fa_mem s) m' -> ok (set_mem s m') L.
Proof. intros Hok Hag. apply (fc_keep (ok := ok)); [done|]. eapply agree_weaken; [exact Hag|]. tauto. Qed.

Lemma fc_outside {F ok} `{!FrameContract F ok} s L m' :
  ok s L -> agree (fa_bytes s) (fa_mem s) m' -> ok (set_mem s m') L.
Proof. intros Hok Hag. apply (fc_keep (ok := ok)); [done|]. eapply agree_weaken; [exact Hag|]. tauto. Qed.

(** ** Frames *)

Lemma frame_at_kok p a n :
  frame_at p -> p <= a -> 0 <= n -> a + n <= p + PAGE_SIZE -> kok a n = true.
Proof.
  intros [_ H1 H2] ???. apply kok_spec.
  unfold KERNEL_DIRECT_PHYS_MAPPING_START, KERNEL_DIRECT_PHYS_MAPPING_SIZE, KERNEL_HIGHER_HALF_START in *. lia.
Qed.

Lemma frames_apart p q :
  frame_at p -> frame_at q -> p <> q -> apart p PAGE_SIZE q PAGE_SIZE.
Proof. intros Hp Hq Hne. unfold apart. apply aligned_ne_apart; [done|apply Hp|apply Hq|done]. Qed.

Lemma frame_at_phys p :
  frame_at p -> 0 < VIRT_TO_PHYS p < KERNEL_DIRECT_PHYS_MAPPING_SIZE /\ aligned PAGE_SIZE (VIRT_TO_PHYS p) /\
    PHYS_TO_VIRT (VIRT_TO_PHYS p) = p.
Proof.
  intros [Ha H1 H2]. unfold VIRT_TO_PHYS, PHYS_TO_VIRT.
  unfold KERNEL_DIRECT_PHYS_MAPPING_START, KERNEL_DIRECT_PHYS_MAPPING_SIZE, PAGE_SIZE in *.
  rewrite (u64_small (p - _)) by lia. split; [lia|]. split.
  - apply Z.divide_sub_r; [done|]. by apply Z.mod_divide.
  - rewrite u64_small; lia.
Qed.

(** ** The allocator keeps the contract *)

Definition frame_block (p : Z) : live_block := (p, 0%nat).

Definition zones_direct (s : fa_state) : Prop :=
  forall z, z ∈ allocator_zones s -> KERNEL_DIRECT_PHYS_MAPPING_START < start_addr z /\
    end_addr z <= KERNEL_DIRECT_PHYS_MAPPING_START + KERNEL_DIRECT_PHYS_MAPPING_SIZE.

Definition frames_ok (F : Prop) (s : fa_state) (L : list Z) : Prop :=
  sess_ok F (s, frame_block <$> L) /\ zones_direct s.

Lemma frame_block_size : block_size 0 = PAGE_SIZE.
Proof. done. Qed.

Lemma frame_byte_block L a :
  frame_byte L a <-> exists B, B ∈ frame_block <$> L /\ block_range B a.
Proof.
  split.
  - intros (p & Hp & Ha). exists (frame_block p). split; [by apply list_elem_of_fmap_2|exact Ha].
  - intros (B & (p & -> & Hp)%list_elem_of_fmap & Ha). by exists p.
Qed.

(** A zone only reads its lists, its bitmaps and its free pages. *)
Lemma zone_good_agree_free P m m' z N b :
  agree P m m' -> (forall a, zone_writes N z (cov b) a -> P a) ->
  zone_good m (z, N, b) -> zone_good m' (z, N, b).
Proof.
  intros Hag HP (Hz & Hb & Hl & Hg). split; [done|]. split; [done|]. split.
  - intros k Hk. eapply dll_agree; [exact Hag| |by apply Hl].
    intros y a Hy Ha. apply HP. by eapply (ring_writes z N b k).
  - eapply (bits_rep_agree z N Hz); [exact Hag| |exact Hg].
    intros k a Hk Ha. apply HP. right; left. by exists k.
Qed.

Lemma footprint_zone_bytes m z N b a :
  zone_good m (z, N, b) -> footprint (z, N, b) a -> zone_bytes z a.
Proof.
  intros (Hz & _) Ha. unfold zone_bytes. destruct (zl_end _ _ Hz) as [-> _].
  replace ((start_addr z + PAGE_SIZE * N - start_addr z) / PAGE_SIZE) with N; [exact Ha|].
  rewrite Z.add_simpl_l, Z.mul_comm, Z.div_mul; done.
Qed.

Lemma zone_of_lookup s l i z N b :
  allocator_zones s = zones_of l -> l !! i = Some (z, N, b) -> z ∈ allocator_zones s.
Proof.
  intros -> Hi. apply list_elem_of_lookup. exists i. unfold zones_of. by rewrite list_lookup_fmap, Hi.
Qed.

Lemma sess_agree F s L m' :
  sess_ok F (s, L) -> agree (fun a => fa_bytes s a /\ ~ exists B, B ∈ L /\ block_range B a) (fa_mem s) m' ->
  sess_ok F (set_mem s m', L).
Proof.
  intros (l & Hzs & Hg & Hheld & Hsep & Hfr & Hall) Hag. simpl in *. exists l. split_and!; try done.
  simpl. pose proof Hg as [Hgood Hzsep]. split; [|done]. apply Forall_lookup. intros i [[z N] b] Hi.
  pose proof (Forall_lookup_1 _ _ _ _ Hgood Hi) as Hzg.
  eapply zone_good_agree_free; [exact Hag| |exact Hzg]. intros a Hw. split.
  - exists z. split; [by eapply zone_of_lookup|]. eapply footprint_zone_bytes; [exact Hzg|].
    destruct Hzg as (_ & Hb & _). destruct Hw as [Hw|[Hw|(p & Hp & Hw)]]; [by left|by right; left|].
    right; right. exists p. split; [by eapply cov_range|done].
  - intros (B & HB & Ha). by eapply (held_untouched (fa_mem s) l B a i z N b (cov b)); [|apply Hheld|..].
Qed.

(** An operation on one zone stays within the allocator's bytes. *)
Lemma untouched_fa_bytes s l i z N b (C : Z -> Prop) m' :
  allocator_zones s = zones_of l -> fa_good (fa_mem s) l -> l !! i = Some (z, N, b) ->
  (forall p, C p -> 0 <= p < N) -> untouched N z C (fa_mem s) m' ->
  agree (fun a => ~ fa_bytes s a) (fa_mem s) m'.
Proof.
  intros Hzs [Hgood _] Hi HC Hu. eapply (untouched_mono _ _ _ (fun p => 0 <= p < N)) in Hu; [|exact HC].
  eapply agree_weaken; [exact Hu|]. intros a Ha Hw. apply Ha. exists z.
  split; [by eapply zone_of_lookup|].
  by eapply footprint_zone_bytes, Hw; eapply (Forall_lookup_1 _ _ _ _ Hgood).
Qed.

Lemma held_frame_at s l B :
  zones_direct s -> allocator_zones s = zones_of l -> Forall (zone_good (fa_mem s)) l -> held l B ->
  B.2 = 0%nat -> frame_at B.1.
Proof.
  intros Hd Hzs Hg (i & z & N & b & x & Hi & HB & Ho & Hx0 & HxN & Hxd & _) H0.
  pose proof (Forall_lookup_1 _ _ _ _ Hg Hi) as (Hz & _).
  destruct (Hd z) as [H1 H2]; [by eapply zone_of_lookup|]. destruct (zl_end _ _ Hz) as [He _].
  rewrite H0 in HxN. change (pages 0) with 1 in HxN. rewrite HB. split.
  - unfold page_addr. apply aligned_add.
    + eapply aligned_trans, (zl_aligned _ _ Hz). apply Z.divide_factor_l.
    + apply Z.divide_factor_l.
  - unfold page_addr, PAGE_SIZE. lia.
  - unfold page_addr, PAGE_SIZE in *. lia.
Qed.

Lemma sep_nodup (L : list Z) : pairwise blocks_sep (frame_block <$> L) -> NoDup L.
Proof.
  induction L as [|p L IH]; simpl; [constructor|]. intros [Hp HL]. constructor; [|by apply IH].
  intros Hin. specialize (Hp (frame_block p) (list_elem_of_fmap_2 _ _ _ Hin)).
  unfold blocks_sep, apart in Hp. simpl in Hp. pose proof (block_size_pos 0). lia.
Qed.

(** All frames in use: then their number is that of the zones' pages. *)
Definition zone_frames (z : allocator_zone) (N : Z) : list Z :=
  (fun i => page_addr z (Z.of_nat i)) <$> seq 0 (Z.to_nat N).

Lemma elem_zone_frames z N p : p ∈ zone_frames z N <-> exists x, 0 <= x < N /\ p = page_addr z x.
Proof.
  unfold zone_frames. rewrite list_elem_of_fmap. split.
  - intros (i & -> & Hi%elem_of_seq). exists (Z.of_nat i). split; [lia|done].
  - intros (x & Hx & ->). exists (Z.to_nat x). rewrite elem_of_seq, Z2Nat.id by lia. split; [done|lia].
Qed.

Lemma frames_counted s l (L : list Z) :
  allocator_zones s = zones_of l -> fa_good (fa_mem s) l ->
  (forall z N b x, (z, N, b) ∈ l -> 0 <= x < N -> page_addr z x ∈ L) -> capacity s <= Z.of_nat (length L).
Proof.
  intros Hzs [Hgood Hsep] Hin. unfold capacity. rewrite Hzs. clear Hzs.
  set (fs := concat ((fun e => zone_frames e.1.1 e.1.2) <$> l)).
  assert (Hel : forall p, p ∈ fs <-> exists z N b x, (z, N, b) ∈ l /\ 0 <= x < N /\ p = page_addr z x).
  { intros p. unfold fs. rewrite list_elem_of_In, in_concat. split.
    - intros (k & Hk%list_elem_of_In & Hp%list_elem_of_In). apply list_elem_of_fmap in Hk as ([[z N] b] & -> & He).
      apply elem_zone_frames in Hp as (x & Hx & ->). by exists z, N, b, x.
    - intros (z & N & b & x & He & Hx & ->). exists (zone_frames z N). rewrite <- !list_elem_of_In. split.
      + apply (list_elem_of_fmap_2 (fun e => zone_frames e.1.1 e.1.2) l (z, N, b) He).
      + apply elem_zone_frames. by exists x. }
  assert (Hlen : foldr (fun z n => zone_pages z + n) 0 (zones_of l) = Z.of_nat (length fs)).
  { unfold fs. clear -Hgood. induction Hgood as [|[[z N] b] l (Hz & _) _ IH]; [done|].
    cbn [zones_of fmap list_fmap foldr concat fst]. rewrite length_app, Nat2Z.inj_add. fold (zones_of l). unfold zones_of in IH.
    cbn [fst snd]. rewrite <- IH, (zone_pages_eq z N Hz). unfold zone_frames. rewrite length_fmap, length_seq.
    destruct (zl_pages _ _ Hz). rewrite Z2Nat.id by lia. done. }
  rewrite Hlen. apply inj_le, submseteq_length, NoDup_submseteq.
  - unfold fs. clear -Hgood Hsep. induction l as [|[[z N] b] l IH]; [constructor|].
    apply Forall_cons_1 in Hgood as [(Hz & _) Hgood]. destruct Hsep as [Hs1 Hs2]. cbn [fmap list_fmap concat fst snd].
    apply NoDup_app. split; [|split; [|by apply IH]].
    + unfold zone_frames. apply NoDup_fmap; [|apply NoDup_seq]. intros i j. unfold page_addr, PAGE_SIZE. lia.
    + intros p (x & Hx & ->)%elem_zone_frames Hp. apply list_elem_of_In, in_concat in Hp as (k & Hk%list_elem_of_In & Hp%list_elem_of_In).
      apply list_elem_of_fmap in Hk as ([[z' N'] b'] & -> & He). apply elem_zone_frames in Hp as (y & Hy & E).
      apply (Hs1 (z', N', b') (page_addr z x) He).
      * apply (page_in_footprint z N b x); [done|]. unfold in_range, PAGE_SIZE. lia.
      * rewrite E. apply (page_in_footprint z' N' b' y); [done|]. cbn [fst]. unfold in_range, PAGE_SIZE. lia.
  - intros p Hp. apply Hel in Hp as (z & N & b & x & He & Hx & ->). by apply (Hin z N b x).
Qed.

Lemma alloc_full F s L l :
  sess_inv F (s, frame_block <$> L) l -> (forall e, e ∈ l -> zone_alloc_result e 0 = None) -> frames_ok F s L ->
  capacity s <= Z.of_nat (length L).
Proof.
  intros (Hzs & Hg & Hheld & Hsep & Hfr & Hall) Hnone [_ Hd]. cbn [fst snd] in *.
  apply (frames_counted s l L Hzs Hg). intros z N b x He Hx. pose proof Hg as [Hgood _]. rewrite Forall_forall in Hgood.
  destruct (Hgood _ He) as (Hz & Hb & _). specialize (Hnone _ He). unfold zone_alloc_result in Hnone. cbn [snd] in Hnone.
  destruct (b_alloc_None N b 0 x Hb ltac:(lia) Hnone) as (q & Hq & Hc); [lia|change (pages 0) with 1; lia|apply Z.divide_1_l|].
  change (pages 0) with 1 in Hq. assert (q = x) as -> by (unfold in_range in Hq; lia).
  destruct (Hall z N b x He Hx Hc) as (B & (p & -> & Hp)%list_elem_of_fmap & Ha).
  destruct (Hheld (frame_block p)) as (i & z' & N' & b' & y & Hi & HB & _ & Hy0 & HyN & _); [by apply list_elem_of_fmap_2|].
  cbn [frame_block fst snd] in *. change (pages 0) with 1 in HyN. unfold block_range in Ha. cbn [frame_block fst snd] in Ha.
  rewrite frame_block_size in Ha. replace (page_addr z x) with p; [done|].
  apply list_elem_of_lookup in He as [j Hj]. destruct (decide (i = j)) as [->|Hij].
  - rewrite Hi in Hj. injection Hj as -> -> ->. rewrite HB in *. unfold in_range, page_addr, PAGE_SIZE in *. lia.
  - exfalso. apply (zones_sep_lookup l i j (z', N', b') (z, N, b) (page_addr z x) (proj2 Hg) Hi Hj Hij).
    + apply (page_in_footprint z' N' b' y); [lia|]. by rewrite <- HB.
    + apply (page_in_footprint z N b x); [done|]. unfold in_range, PAGE_SIZE. lia.
Qed.

#[export] Instance frame_source F : FrameSource (frames_ok F).
Proof.
  intros s L Hsok. pose proof Hsok as [Hok Hd]. pose proof Hok as (l & Hinv). pose proof Hinv as (Hzs & Hg & Hheld & Hsep & Hfr & Hall). simpl in *.
  destruct (alloc_run s l 1 Hzs Hg ltac:(lia)) as
    [[Hrun Hnone]|(i & z & N & b & x & b' & m' & Hi & Hal & Hp & Hrun & Hg' & Hu & Hzero)]; [left|right].
  { split; [done|]. by apply (alloc_full F s L l). }
  set (p := page_addr z x) in *. exists p, m'.
  pose proof (alloc_step_inv F s (frame_block <$> L) 1 p _ Hok ltac:(lia) Hrun Hp) as Hok'.
  change (order_of 1) with 0%nat in *.
  assert (Hnd : NoDup (p :: L)).
  { destruct Hok' as (l' & _ & _ & _ & Hs' & _). by apply sep_nodup. }
  split_and!; try done.
  - by apply NoDup_cons in Hnd as [? _].
  - intros a (B & HB & Ha)%frame_byte_block. apply Hu. intros Hw.
    by eapply (held_untouched _ l B a i z N b (cov b)); [|apply Hheld|..].
  - eapply untouched_fa_bytes; try done. intros q Hq. destruct Hg as [Hgood _].
    pose proof (Forall_lookup_1 _ _ _ _ Hgood Hi) as (_ & Hb & _). by eapply cov_range.
Qed.

Lemma frames_keep F s L m' :
  frames_ok F s L -> agree (fun a => fa_bytes s a /\ ~ frame_byte L a) (fa_mem s) m' -> frames_ok F (set_mem s m') L.
Proof.
  intros [Hok Hd] Hag. split; [|done]. apply sess_agree; [done|].
  eapply agree_weaken; [exact Hag|]. intros a [Ha Hn]. split; [done|]. intros Hb. by apply Hn, frame_byte_block.
Qed.

Lemma frames_frame F s L p : frames_ok F s L -> p ∈ L -> frame_at p.
Proof.
  intros [Hok Hd] Hp. destruct Hok as (l & Hzs & [Hg _] & Hheld & _). simpl in *.
  eapply (held_frame_at s l (frame_block p)); try done. apply Hheld. by apply list_elem_of_fmap_2.
Qed.

Lemma frames_nodup F s L : frames_ok F s L -> NoDup L.
Proof. intros [(l & _ & _ & _ & Hsep & _) _]. by apply sep_nodup. Qed.

Lemma frames_inside F s L a : frames_ok F s L -> frame_byte L a -> fa_bytes s a.
Proof.
  intros [(l & Hzs & Hg & Hheld & _) _] (B & HB & Ha)%frame_byte_block. simpl in *.
  destruct (held_footprint l B a (Hheld B HB) Ha) as (i & z & N & b & p & Hi & Hfp & _).
  exists z. split; [by eapply zone_of_lookup|].
  eapply footprint_zone_bytes, Hfp. destruct Hg as [Hgood _]. by eapply (Forall_lookup_1 _ _ _ _ Hgood).
Qed.

#[export] Instance frame_contract F : FrameContract False (frames_ok F).
Proof.
  split; [intros ???? []|apply frames_keep|apply frames_frame|apply frames_nodup|apply frames_inside].
Qed.

(** ** Frames given back *)

Definition frames_fine (s : fa_state) (L : list Z) : Prop := frames_ok True s L /\ bits_apart s (frame_block <$> L).

#[export] Instance frames_fine_contract : FrameContract True frames_fine.
Proof.
  split.
  - intros s p L1 L2 _ [[Hok Hd] Hbits]. rewrite fmap_app, fmap_cons in Hok, Hbits.
    pose proof Hok as (l & Hzs & Hg & Hheld & Hsep & Hfr & Hall). simpl in *.
    destruct (free_run s l _ 1 (frame_block p) Hfr Hall Hbits Hzs Hg ltac:(lia) eq_refl) as
      (i & z & N & b & b' & m' & x & Hi & HB & Hrun & Hg' & _ & Hcov & Hu); [apply Hheld; set_solver|].
    simpl in *. exists m'. split; [done|].
    pose proof (free_step_inv True s _ _ 1 p _ I Hbits Hok ltac:(lia) Hrun) as Hok'.
    rewrite <- fmap_app in Hok'. split; [split; [done|]|].
    { eapply bits_apart_sub; [reflexivity| |exact Hbits]. intros B. rewrite fmap_app, !elem_of_app, elem_of_cons. tauto. }
    apply pairwise_middle in Hsep as [_ Hap]; [|apply blocks_sep_sym].
    split.
    + intros a (B & HBin & Ha)%frame_byte_block. rewrite fmap_app in HBin. apply Hu. intros Hw.
      eapply (held_untouched _ l B a i z N b); [exact Hg|apply Hheld; set_solver|done|exact Hi| |exact Hw].
      intros q [Hq|Hq] Hqa; [done|]. exfalso.
      eapply sep_pages; [exact Hq| |exact Hqa|exact Ha]. rewrite <- HB. by apply Hap.
    + refine (untouched_fa_bytes s l i z N b _ m' Hzs Hg Hi _ Hu). intros q Hq.
      pose proof Hg' as [Hgood' _].
      assert (Hil : (i < length l)%nat) by (by eapply lookup_lt_Some).
      pose proof (Forall_lookup_1 _ _ i (z, N, b') Hgood' ltac:(by apply list_lookup_insert_eq)) as (_ & Hb' & _).
      apply (cov_range N b'); [done|]. by apply Hcov.
  - intros s L m' [Hok Hbits] Hag. split; [by apply frames_keep|]. by eapply bits_apart_sub; [reflexivity|intros B HB; exact HB|].
  - intros s L p [Hok _]. by eapply frames_frame.
  - intros s L [Hok _]. by eapply frames_nodup.
  - intros s L a [Hok _]. by eapply frames_inside.
Qed.
