(* ===== verification/FrameBoot.v ===== *)
(** * frame_alloc_init: from the memory map to a frame allocator

    The start of the allocator up to the line it prints (for which see KMain.v):
    the loop over the boot loader's memory map, [usable_region] on each entry and [zone_add] on what is left. What the
    code relies on is said of the boot information ([boot_info_ok]) and of the
    entries; that no zone reaches into the kernel's image or into the boot
    information itself is proved. *)

From S2P Require Import Prelude Mem Common DList Buddy Paging Multiboot FrameAlloc FrameRefine FrameZones.
From S2P Require Import FrameSession FrameInit FrameClient.

(** ** The memory map *)

(** The base, the length and the type of an entry. *)
Abbreviation map_entry := (Z * Z * Z)%type.

Definition map_size (es : Z) (l : list map_entry) : Z := memmap_info_size + es * Z.of_nat (length l).
Definition entry_addr (mb : mb_state) (es : Z) (i : nat) : Z :=
  mb_memmap_info mb + memmap_info_size + es * Z.of_nat i.
Definition entry_at (m : mem) (a : Z) (e : map_entry) : Prop :=
  ld64 m a = e.1.1 /\ ld64 m (a + 8) = e.1.2 /\ ld 4 m (a + 16) = e.2.

(** The tag of the memory map [l], its entries [es] bytes apart. *)
Record memmap_at (m : mem) (mb : mb_state) (es : Z) (l : list map_entry) : Prop := {
  mm_low : KERNEL_HIGHER_HALF_START <= mb_memmap_info mb;
  mm_high : mb_memmap_info mb + map_size es l < two64;
  mm_entry_room : 20 <= es;
  mm_size : ld 4 m (mb_memmap_info mb + 4) = map_size es l;
  mm_entry_size : ld 4 m (mb_memmap_info mb + 8) = es;
  mm_entries : forall i e, l !! i = Some e -> entry_at m (entry_addr mb es i) e;
}.

Definition map_byte (mb : mb_state) (es : Z) (l : list map_entry) (a : Z) : Prop :=
  in_range (mb_memmap_info mb) (map_size es l) a.

Section Map.
Context (mb : mb_state) (es : Z) (l : list map_entry).

Lemma entry_room m i e :
  memmap_at m mb es l -> l !! i = Some e ->
  mb_memmap_info mb + 16 <= entry_addr mb es i /\ entry_addr mb es i + es <= mb_memmap_info mb + map_size es l.
Proof.
  intros H Hi%lookup_lt_Some. pose proof (mm_entry_room _ _ _ _ H). unfold entry_addr, map_size, memmap_info_size.
  assert (es * (Z.of_nat i + 1) <= es * Z.of_nat (length l)) by (apply Z.mul_le_mono_nonneg_l; lia). nia.
Qed.

Lemma memmap_agree m m' : memmap_at m mb es l -> agree (map_byte mb es l) m m' -> memmap_at m' mb es l.
Proof.
  intros H Hag. pose proof H as [H1 H2 H3 H4 H5 H6].
  assert (Hs : 16 <= map_size es l) by (unfold map_size, memmap_info_size; nia).
  assert (Hld : forall n a, mb_memmap_info mb <= a -> a + Z.of_nat n <= mb_memmap_info mb + map_size es l -> ld n m' a = ld n m a).
  { intros n a Ha Hb. eapply ld_agree; [exact Hag|]. intros x Hx. unfold map_byte, in_range in *. lia. }
  split; try done.
  - rewrite Hld by lia. done.
  - rewrite Hld by lia. done.
  - intros i e Hi. destruct (entry_room m i e H Hi) as [Ha Hb]. destruct (H6 i e Hi) as (E1 & E2 & E3).
    split; [|split]; rewrite Hld by lia; done.
Qed.

(** One step of the iterator: the next entry, or the end. *)
Lemma iter_next_entry m i e : memmap_at m mb es l -> l !! i = Some e ->
  mb_memmap_iter_next mb (entry_addr mb es i) m = Ret ((entry_addr mb es i, entry_addr mb es (S i)), m).
Proof.
  intros H Hi. destruct (entry_room m i e H Hi) as [Ha Hb]. destruct H as [H1 H2 H3 H4 H5 _].
  unfold KERNEL_HIGHER_HALF_START in *. unfold mb_memmap_iter_next, tag_size, memmap_entry_size, kbind.
  rewrite (u64_small (mb_memmap_info mb + 4)), load_ok, H4 by (try apply kok_spec; unfold KERNEL_HIGHER_HALF_START; lia).
  rewrite (u64_small (mb_memmap_info mb + map_size es l)) by lia.
  destruct (Z.leb_spec (mb_memmap_info mb + map_size es l) (entry_addr mb es i)); [lia|].
  rewrite (u64_small (mb_memmap_info mb + 8)), load_ok, H5 by (try apply kok_spec; unfold KERNEL_HIGHER_HALF_START; lia).
  unfold kret. rewrite u64_small by lia. unfold entry_addr. do 3 f_equal. lia.
Qed.

Lemma iter_next_end m : memmap_at m mb es l ->
  mb_memmap_iter_next mb (entry_addr mb es (length l)) m = Ret ((0, entry_addr mb es (length l)), m).
Proof.
  intros [H1 H2 H3 H4 _ _]. unfold KERNEL_HIGHER_HALF_START in *.
  assert (16 <= map_size es l) by (unfold map_size, memmap_info_size; nia).
  unfold mb_memmap_iter_next, tag_size, kbind.
  rewrite (u64_small (mb_memmap_info mb + 4)), load_ok, H4 by (try apply kok_spec; unfold KERNEL_HIGHER_HALF_START; lia).
  rewrite u64_small by lia. destruct (Z.leb_spec (mb_memmap_info mb + map_size es l) (entry_addr mb es (length l))) as [|Hlt]; [done|].
  unfold entry_addr, map_size in Hlt. lia.
Qed.

Lemma entry_loads m i e : memmap_at m mb es l -> l !! i = Some e ->
  entry_addr mb es i <> 0 /\ entry_type (entry_addr mb es i) m = Ret (e.2, m) /\
  entry_base_addr (entry_addr mb es i) m = Ret (e.1.1, m) /\ entry_length (entry_addr mb es i) m = Ret (e.1.2, m).
Proof.
  intros H Hi. destruct (entry_room m i e H Hi) as [Ha Hb]. destruct H as [H1 H2 H3 _ _ H6].
  destruct (H6 i e Hi) as (E1 & E2 & E3). unfold KERNEL_HIGHER_HALF_START in *.
  unfold entry_type, entry_base_addr, entry_length.
  rewrite !u64_small, !load_ok, E1, E2, E3 by (try apply kok_spec; unfold KERNEL_HIGHER_HALF_START; lia). split; [lia|done].
Qed.
End Map.

(** ** The regions kept *)

Definition is_ram (type : Z) : bool := (type =? MB_MEMMAP_TYPE_RAM) || (type =? MB_MEMMAP_TYPE_HIBER).

(** What [frame_alloc_init] gives to [zone_add], entry by entry. *)
Definition kept_region (r : Z) (e : map_entry) : option (Z * Z) :=
  if is_ram e.2 then usable_region r e.1.1 e.1.2 else None.
Definition kept_regions (r : Z) (l : list map_entry) : list (Z * Z) := omap (kept_region r) l.

(** Memory that the direct mapping covers, with the room a zone may take past the end. *)
Definition entry_fits (e : map_entry) : Prop :=
  is_ram e.2 = true -> 0 <= e.1.1 /\ 0 <= e.1.2 /\ e.1.1 + e.1.2 + PAGE_SIZE * 1025 <= KERNEL_DIRECT_PHYS_MAPPING_SIZE.

Record region_kept (r : Z) (e : map_entry) (a p : Z) : Prop := {
  rk_reserved : r <= a;
  rk_aligned : (PAGE_SIZE | a);
  rk_size : 1024 <= p;
  rk_low : KERNEL_DIRECT_PHYS_MAPPING_START + e.1.1 <= a;
  rk_high : a + PAGE_SIZE * p < KERNEL_DIRECT_PHYS_MAPPING_START + e.1.1 + e.1.2 + PAGE_SIZE;
}.

(** A region that is kept is page aligned, is not below the end of what is
    reserved, and is memory of its entry, up to the rounding of its start. *)
Lemma kept_region_ok r e a p :
  (PAGE_SIZE | r) -> KERNEL_DIRECT_PHYS_MAPPING_START <= r < two64 -> entry_fits e -> kept_region r e = Some (a, p) ->
  region_kept r e a p.
Proof.
  destruct e as [[b n] t]. unfold kept_region, entry_fits. cbn [fst snd]. intros [c Hc] Hr He.
  destruct (is_ram t); [|done]. destruct (He eq_refl) as (Hb & Hn & Hbn). clear He.
  unfold usable_region, PHYS_TO_VIRT.
  unfold KERNEL_DIRECT_PHYS_MAPPING_START, KERNEL_DIRECT_PHYS_MAPPING_SIZE, PAGE_SIZE in *.
  rewrite (u64_small (_ + b)) by lia. change (Z.shiftl 1 (Z.of_nat MAX_ORDER)) with 1024.
  pose proof (ROUNDUP_bounds (18446612682070032384 + b) 4096 ltac:(lia) ltac:(lia) ltac:(lia)) as Hru.
  destruct (ROUNDUP_aligned (18446612682070032384 + b) 4096 ltac:(lia) ltac:(lia) ltac:(lia)) as [w Hw].
  set (ba := ROUNDUP _ 4096) in *. clearbody ba.
  assert (Hq : 0 <= n / 4096 /\ n / 4096 * 4096 <= n) by (Z.to_euclidean_division_equations; lia).
  set (q := n / 4096) in *. clearbody q. rewrite (u64_small (q * 4096)), (u64_small (ba + q * 4096)) by lia.
  destruct (Z.ltb_spec ba r) as [Hlt|Hge].
  - destruct (Z.leb_spec (ba + q * 4096) r) as [|Hend]; [done|].
    assert (Hcut : (r - ba) / 4096 = c - w) by (rewrite Hc, Hw, <- Z.mul_sub_distr_r; by apply Z.div_mul).
    rewrite Hcut, u64_small by lia. destruct (Z.ltb_spec (q - (c - w)) 1024); [done|]. intros [= <- <-].
    split; cbn [fst snd]; unfold KERNEL_DIRECT_PHYS_MAPPING_START, PAGE_SIZE; try lia. by exists c.
  - destruct (Z.ltb_spec q 1024); [done|]. intros [= <- <-].
    split; cbn [fst snd]; unfold KERNEL_DIRECT_PHYS_MAPPING_START, PAGE_SIZE; try lia. by exists w.
Qed.

(** ** The zones made *)

(** The zones of the regions [rs], in the order of the map, in the array at [za];
    [C] says that the regions were clear. *)
Definition boot_states (C : Prop) (za : Z) (rs : list (Z * Z)) : list zone_st :=
  imap (fun i r => made_state C (za + sizeof_zone * Z.of_nat i) r.1 r.2) rs.
Definition boot_pages (l : list zone_st) : Z := foldr (fun e n => pages_count e.1.1 + n) 0 l.

Lemma boot_states_snoc C za rs r :
  boot_states C za (rs ++ [r]) = boot_states C za rs ++ [made_state C (za + sizeof_zone * Z.of_nat (length rs)) r.1 r.2].
Proof. unfold boot_states. rewrite imap_app. cbn. by rewrite Nat.add_0_r. Qed.

Lemma boot_states_prefix C za rs rs' e : e ∈ boot_states C za rs -> e ∈ boot_states C za (rs ++ rs').
Proof. intros H. unfold boot_states. rewrite imap_app. apply elem_of_app. by left. Qed.

Lemma boot_states_length C za rs : length (boot_states C za rs) = length rs.
Proof. apply length_imap. Qed.

Lemma boot_states_elem C za rs e : e ∈ boot_states C za rs ->
  exists i r, rs !! i = Some r /\ e = made_state C (za + sizeof_zone * Z.of_nat i) r.1 r.2.
Proof.
  intros [i Hi]%list_elem_of_lookup. unfold boot_states in Hi. rewrite list_lookup_imap in Hi.
  destruct (rs !! i) as [r|] eqn:Hr; [|done]. injection Hi as <-. by exists i, r.
Qed.

Lemma boot_pages_snoc l e : boot_pages (l ++ [e]) = boot_pages l + pages_count e.1.1.
Proof. unfold boot_pages. induction l as [|x l IH]; cbn [app foldr]; [|rewrite IH]; lia. Qed.

(** Regions so far apart that no zone reaches into the next region. *)
Definition regions_spaced (x y : Z * Z) : Prop := apart x.1 (PAGE_SIZE * (x.2 + 1024)) y.1 (PAGE_SIZE * (y.2 + 1024)).

Lemma regions_spaced_sym x y : regions_spaced x y -> regions_spaced y x.
Proof. unfold regions_spaced, apart. tauto. Qed.

(** A region in the direct mapping, above what is reserved. *)
Definition region_direct (r : Z) (x : Z * Z) : Prop :=
  region_ok x.1 x.2 /\ r <= x.1 /\ KERNEL_DIRECT_PHYS_MAPPING_START <= x.1 /\
  x.1 + PAGE_SIZE * (x.2 + 1024) <= KERNEL_DIRECT_PHYS_MAPPING_START + KERNEL_DIRECT_PHYS_MAPPING_SIZE.

Lemma kept_region_direct r e a p :
  entry_fits e -> is_ram e.2 = true -> KERNEL_DIRECT_PHYS_MAPPING_START <= r -> p <> 1024 -> region_kept r e a p ->
  region_direct r (a, p).
Proof.
  intros He Ht Hr Hp [H1 H2 H3 H4 H5]. destruct (He Ht) as (Hb & Hn & Hbn).
  unfold region_direct, region_ok. cbn [fst snd].
  unfold KERNEL_DIRECT_PHYS_MAPPING_START, KERNEL_DIRECT_PHYS_MAPPING_SIZE, KERNEL_HIGHER_HALF_START, PAGE_SIZE in *.
  split_and!; try done; lia.
Qed.

Definition array_ok (za : Z) : Prop :=
  KERNEL_SECTIONS_START <= za /\ za + sizeof_zone * Z.of_nat MAX_ZONE_COUNT <= two64.

Lemma slot_apart za i r x : array_ok za -> (i < MAX_ZONE_COUNT)%nat -> region_direct r x ->
  kok (za + sizeof_zone * Z.of_nat i) heads_bytes = true /\
  apart (za + sizeof_zone * Z.of_nat i) heads_bytes x.1 (PAGE_SIZE * (x.2 + 1024)).
Proof.
  intros [H1 H2] Hi (_ & _ & _ & H3). rewrite kok_spec. unfold apart, heads_bytes, sizeof_zone, MAX_ZONE_COUNT in *.
  unfold KERNEL_SECTIONS_START, KERNEL_HIGHER_HALF_START, KERNEL_DIRECT_PHYS_MAPPING_START, KERNEL_DIRECT_PHYS_MAPPING_SIZE in *. lia.
Qed.

(** The region's memory, and what its zone may take past its end. *)
Definition region_byte (x : Z * Z) (a : Z) : Prop := in_range x.1 (PAGE_SIZE * (x.2 + 1024)) a.
Definition region_clear (m : mem) (x : Z * Z) : Prop := forall a, region_byte x a -> rd8 m a = 0.

(** The bitmaps lie in the region. *)
Lemma region_bitmaps m zaddr x : region_ok x.1 x.2 -> region_clear m x ->
  let z := made_zone zaddr x.1 x.2 in bitmaps_zero (pages_count z) z m.
Proof.
  intros Hr Hc z k a Hk Ha. apply Hc. pose proof (made_bitmap_room zaddr x.1 x.2 Hr k Hk) as Hroom. fold z in Hroom.
  pose proof (made_zone_facts zaddr x.1 x.2 Hr) as Hf. fold z in Hf.
  destruct Hf as (bs & _ & Hbs & Hs & _ & _ & _ & Hn & _). unfold region_byte, in_range, PAGE_SIZE in *. lia.
Qed.

(** The bytes of the array of zones. *)
Definition array_byte (za a : Z) : Prop := in_range za (sizeof_zone * Z.of_nat MAX_ZONE_COUNT) a.

(** All pages of a new zone are free. *)
Lemma made_state_free C zaddr addr n p : region_ok addr n -> 0 <= p < pages_count (made_zone zaddr addr n) ->
  cov (made_state C zaddr addr n).2 p.
Proof.
  intros Hr Hp. pose proof (made_zone_facts zaddr addr n Hr) as (bs & _ & _ & _ & _ & _ & [c Hc] & Hn & _).
  cbn [made_state snd]. apply b_init_cov. rewrite Hc in *. rewrite Z.div_mul, Z2Nat.id by lia. lia.
Qed.

(** What the zones own: their part of the array, and their regions. *)
Lemma boot_state_footprint C za rs e a r :
  (length rs <= MAX_ZONE_COUNT)%nat -> Forall (region_direct r) rs -> e ∈ boot_states C za rs -> footprint e a ->
  exists i x, rs !! i = Some x /\
    (in_range (za + sizeof_zone * Z.of_nat i) heads_bytes a \/ in_range x.1 (PAGE_SIZE * (x.2 + 1024)) a).
Proof.
  intros Hlen Hd He Ha. apply boot_states_elem in He as (i & x & Hi & ->). exists i, x. split; [exact Hi|].
  eapply made_zone_footprint; [|exact Ha]. by destruct (Forall_lookup_1 _ _ _ _ Hd Hi).
Qed.

Lemma footprint_above C za rs e a r :
  array_ok za -> (length rs <= MAX_ZONE_COUNT)%nat -> Forall (region_direct r) rs -> e ∈ boot_states C za rs -> footprint e a ->
  array_byte za a \/ r <= a /\ KERNEL_DIRECT_PHYS_MAPPING_START <= a < KERNEL_SECTIONS_START.
Proof.
  intros [H1 H2] Hlen Hd He Ha. destruct (boot_state_footprint C za rs e a r Hlen Hd He Ha) as (i & x & Hi & [Hx|Hx]).
  - left. pose proof (lookup_lt_Some _ _ _ Hi). unfold array_byte, in_range, heads_bytes, sizeof_zone, MAX_ZONE_COUNT in *. lia.
  - right. destruct (Forall_lookup_1 _ _ _ _ Hd Hi) as (_ & Hd1 & Hd2 & Hd3).
    unfold in_range, KERNEL_SECTIONS_START, KERNEL_DIRECT_PHYS_MAPPING_START, KERNEL_DIRECT_PHYS_MAPPING_SIZE in *. lia.
Qed.

Lemma made_zone_bytes zaddr addr p b a :
  region_ok addr p -> let z := made_zone zaddr addr p in footprint (z, pages_count z, b) a <-> zone_bytes z a.
Proof.
  intros Hr z. pose proof (made_zone_facts zaddr addr p Hr) as Hf. fold z in Hf. destruct Hf as (bs & _ & _ & _ & _ & He & _).
  clearbody z. unfold zone_bytes. rewrite He, Z.add_simpl_l, Z.mul_comm, Z.div_mul by (by unfold PAGE_SIZE). done.
Qed.

(** One more zone. *)
Lemma boot_zone_added (C : Prop) s za rs x r :
  (C -> region_clear (fa_mem s) x) -> array_ok za -> allocator_zones_addr s = za -> allocator_zones s = zones_of (boot_states C za rs) ->
  fa_good (fa_mem s) (boot_states C za rs) -> (length rs < MAX_ZONE_COUNT)%nat ->
  Forall (region_direct r) (rs ++ [x]) -> (forall y, y ∈ rs -> regions_spaced x y) ->
  let e := made_state C (za + sizeof_zone * Z.of_nat (length rs)) x.1 x.2 in
  exists m', zone_add x.1 x.2 s = Ret (pages_count e.1.1, FaState m' (zones_of (boot_states C za (rs ++ [x]))) za) /\
    fa_good m' (boot_states C za (rs ++ [x])) /\ agree (fun a => ~ footprint e a) (fa_mem s) m'.
Proof.
  intros HC Harr Hza Hzs Hg Hlen [Hd [Hx _]%Forall_cons_1]%Forall_app Hsp e.
  assert (Hnext : next_zone_addr s = za + sizeof_zone * Z.of_nat (length rs)).
  { unfold next_zone_addr. rewrite Hza, Hzs. unfold zones_of. by rewrite length_fmap, boot_states_length. }
  destruct (slot_apart za (length rs) r x Harr Hlen Hx) as [Hk Hap]. pose proof (proj1 Hx) as Hr.
  destruct (zone_add_ok C s (boot_states C za rs) x.1 x.2) as (m' & Hrun & Hg' & Hag); try done.
  - intros HCC. rewrite Hnext. apply region_bitmaps; [done|by apply HC].
  - by rewrite boot_states_length.
  - rewrite Hza. destruct Harr as [H _]. unfold KERNEL_SECTIONS_START in H. lia.
  - by rewrite Hnext.
  - by rewrite Hnext.
  - intros e' a He' Ha. rewrite Hnext.
    destruct (boot_state_footprint C za rs e' a r ltac:(lia) Hd He' Ha) as (i & y & Hi & Hy).
    pose proof (lookup_lt_Some _ _ _ Hi) as Hil. specialize (Hsp y (list_elem_of_lookup_2 _ _ _ Hi)).
    pose proof (Forall_lookup_1 _ _ _ _ Hd Hi) as Hyd.
    destruct (slot_apart za i r x Harr ltac:(lia) Hx) as [_ Hap1]. destruct (slot_apart za (length rs) r y Harr Hlen Hyd) as [_ Hap2].
    unfold regions_spaced, apart, in_range, heads_bytes, sizeof_zone, PAGE_SIZE in *. lia.
  - rewrite Hnext in Hrun, Hg', Hag. exists m'. rewrite boot_states_snoc. unfold zones_of. rewrite fmap_app, <- Hza.
    split; [|by rewrite Hza]. rewrite Hrun, Hzs, Hza. done.
Qed.

(** ** The loop over the map *)

Lemma in_mem_ret {A} (k : K mem A) (x : A) s : k (fa_mem s) = Ret (x, fa_mem s) -> in_mem k s = Ret (x, s).
Proof. intros H. unfold in_mem, klift. rewrite H. by destruct s. Qed.

(** One round of the loop: [kept_region] says what becomes of the entry. *)
Lemma init_loop_step fuel mb es l i e r pg s : memmap_at (fa_mem s) mb es l -> l !! i = Some e ->
  frame_alloc_init_loop (S fuel) mb (entry_addr mb es i) r pg s =
    match kept_region r e with
    | None => frame_alloc_init_loop fuel mb (entry_addr mb es (S i)) r pg s
    | Some (a, p) => (let! added := zone_add a p in
                      frame_alloc_init_loop fuel mb (entry_addr mb es (S i)) r (u64 (pg + added)))%K s
    end.
Proof.
  intros Hm Hi. destruct (entry_loads mb es l _ i e Hm Hi) as (Hne & H1 & H2 & H3).
  cbn [frame_alloc_init_loop]. unfold kbind at 1.
  rewrite (in_mem_ret _ _ s (iter_next_entry mb es l _ i e Hm Hi)). cbn beta iota.
  unfold NULL. rewrite (proj2 (Z.eqb_neq _ _) Hne). unfold kbind at 1. rewrite (in_mem_ret _ _ s H1).
  unfold kept_region. rewrite <- negb_orb. fold (is_ram e.2). destruct (is_ram e.2); [|done]. cbn [negb].
  unfold kbind at 1. rewrite (in_mem_ret _ _ s H2). unfold kbind at 1. rewrite (in_mem_ret _ _ s H3).
  by destruct (usable_region r e.1.1 e.1.2) as [[a p]|].
Qed.

Lemma init_loop_end fuel mb es l r pg s : memmap_at (fa_mem s) mb es l ->
  frame_alloc_init_loop (S fuel) mb (entry_addr mb es (length l)) r pg s = Ret (pg, s).
Proof.
  intros Hm. cbn [frame_alloc_init_loop]. unfold kbind at 1.
  by rewrite (in_mem_ret _ _ s (iter_next_end mb es l _ Hm)).
Qed.

Section Loop.
Context (C : Prop) (mb : mb_state) (es : Z) (l : list map_entry) (r za : Z).
Hypothesis Harr : array_ok za.
Hypothesis Hdirect : Forall (region_direct r) (kept_regions r l).
Hypothesis Hspaced : pairwise regions_spaced (kept_regions r l).
Hypothesis Hcount : (length (kept_regions r l) <= MAX_ZONE_COUNT)%nat.
Hypothesis Hmap : forall a, map_byte mb es l a -> a < r /\ a < KERNEL_SECTIONS_START.

Definition boot_byte (a : Z) : Prop := exists e, e ∈ boot_states C za (kept_regions r l) /\ footprint e a.

Record boot_inv (s : fa_state) (rs : list (Z * Z)) : Prop := {
  bo_array : allocator_zones_addr s = za;
  bo_zones : allocator_zones s = zones_of (boot_states C za rs);
  bo_good : fa_good (fa_mem s) (boot_states C za rs);
  bo_map : memmap_at (fa_mem s) mb es l;
}.

(** The regions still to come are clear. *)
Definition to_come_clear (s : fa_state) (l2 : list map_entry) : Prop :=
  C -> forall x, x ∈ kept_regions r l2 -> region_clear (fa_mem s) x.

Lemma map_not_boot a : map_byte mb es l a -> ~ boot_byte a.
Proof.
  intros Ha (e & He & Hf). destruct (Hmap a Ha) as [H1 H2].
  destruct (footprint_above C za _ e a r Harr Hcount Hdirect He Hf) as [[H _]|[H _]]; [|lia].
  destruct Harr as [H3 _]. lia.
Qed.

(** The sum of the pages does not wrap. *)
Lemma boot_pages_bound rs : Forall (region_direct r) rs -> (length rs <= MAX_ZONE_COUNT)%nat ->
  0 <= boot_pages (boot_states C za rs) < two64.
Proof.
  intros Hd Hl. assert (H : 0 <= boot_pages (boot_states C za rs) <= 2 ^ 52 * Z.of_nat (length rs)).
  { clear Hl. induction rs as [|x rs IH] using rev_ind; [done|]. apply Forall_app in Hd as [Hd [Hx _]%Forall_cons_1].
    rewrite boot_states_snoc, boot_pages_snoc, length_app. specialize (IH Hd). cbn [length made_state fst].
    destruct Hx as (Hx & _).
    destruct (made_zone_facts (za + sizeof_zone * Z.of_nat (length rs)) x.1 x.2 Hx) as (bs & _ & Hbs & _ & _ & _ & _ & Hn & _).
    destruct Hx as (H1 & _ & _ & H2). unfold KERNEL_HIGHER_HALF_START, PAGE_SIZE in *. lia. }
  unfold MAX_ZONE_COUNT in Hl. change two64 with (2 ^ 64). lia.
Qed.

Lemma kept_split l1 l2 : l = l1 ++ l2 -> kept_regions r l = kept_regions r l1 ++ kept_regions r l2.
Proof. intros ->. unfold kept_regions. apply omap_app. Qed.

(** The zone made for a region does not reach the next ones. *)
Lemma next_region_apart l1 l2 e a p y b :
  l = l1 ++ e :: l2 -> kept_region r e = Some (a, p) -> y ∈ kept_regions r l2 -> region_byte y b ->
  ~ footprint (made_state C (za + sizeof_zone * Z.of_nat (length (kept_regions r l1))) a p) b.
Proof.
  intros Hl He Hy Hyb Hfp. pose proof (kept_split l1 (e :: l2) Hl) as Hrs.
  assert (Hk2 : kept_regions r (e :: l2) = (a, p) :: kept_regions r l2) by (unfold kept_regions; cbn; by rewrite He).
  rewrite Hk2 in Hrs. pose proof Hcount as Hc. rewrite Hrs, length_app in Hc. cbn in Hc.
  pose proof Hdirect as Hd. rewrite Hrs, Forall_app in Hd. destruct Hd as [_ [Hx Hd]%Forall_cons_1].
  rewrite Forall_forall in Hd. specialize (Hd y Hy).
  pose proof Hspaced as Hsp. rewrite Hrs in Hsp. apply pairwise_middle in Hsp as [_ Hsp]; [|apply regions_spaced_sym].
  specialize (Hsp y ltac:(set_solver)).
  destruct (slot_apart za (length (kept_regions r l1)) r y Harr ltac:(lia) Hd) as [_ Hap].
  destruct (made_zone_footprint _ a p _ b (proj1 Hx) Hfp) as [H|H];
    unfold regions_spaced, region_byte, apart, in_range in *; cbn [fst snd] in *; lia.
Qed.

Lemma init_loop_ok l2 : forall l1 fuel s, l = l1 ++ l2 -> (length l2 < fuel)%nat -> boot_inv s (kept_regions r l1) ->
  to_come_clear s l2 ->
  exists s', frame_alloc_init_loop fuel mb (entry_addr mb es (length l1)) r
               (boot_pages (boot_states C za (kept_regions r l1))) s
             = Ret (boot_pages (boot_states C za (kept_regions r l)), s') /\
    boot_inv s' (kept_regions r l) /\ agree (fun a => ~ boot_byte a) (fa_mem s) (fa_mem s').
Proof.
  induction l2 as [|e l2 IH]; intros l1 fuel s Hl Hf Hs Hclr; (destruct fuel as [|fuel]; [cbn in Hf; lia|]).
  - rewrite app_nil_r in Hl. subst l1. exists s. split; [by apply init_loop_end, (bo_map _ _ Hs)|]. split; [exact Hs|done].
  - assert (Hi : l !! length l1 = Some e) by (rewrite Hl; by apply list_lookup_middle).
    rewrite (init_loop_step _ _ _ _ _ _ _ _ _ (bo_map _ _ Hs) Hi). cbn in Hf.
    assert (Hl' : l = (l1 ++ [e]) ++ l2) by (by rewrite <- app_assoc).
    specialize (IH (l1 ++ [e]) fuel). rewrite length_app in IH. cbn [length] in IH. rewrite Nat.add_1_r in IH.
    assert (Hk : kept_regions r (l1 ++ [e]) = kept_regions r l1 ++ match kept_region r e with Some x => [x] | None => [] end).
    { unfold kept_regions. rewrite omap_app. cbn. by destruct (kept_region r e). }
    destruct (kept_region r e) as [[a p]|] eqn:He.
    + pose proof (kept_split (l1 ++ [e]) l2 Hl') as Hrs. rewrite Hk in Hrs.
      pose proof Hdirect as Hd. rewrite Hrs in Hd. apply Forall_app in Hd as [Hd _].
      pose proof Hspaced as Hsp. rewrite Hrs, <- app_assoc in Hsp. cbn in Hsp.
      apply pairwise_middle in Hsp as [_ Hsp]; [|apply regions_spaced_sym].
      pose proof Hcount as Hc. rewrite Hrs, !length_app in Hc. cbn in Hc.
      assert (Hk2 : kept_regions r (e :: l2) = (a, p) :: kept_regions r l2) by (unfold kept_regions; cbn; by rewrite He).
      destruct (boot_zone_added C s za (kept_regions r l1) (a, p) r) as (m' & Hrun & Hg & Hag); try done;
        [intros HC; apply (Hclr HC); rewrite Hk2; set_solver|apply Hs|apply Hs|apply Hs|lia|intros y Hy; apply Hsp, elem_of_app; by left|].
      cbn [fst snd] in Hrun, Hag. unfold kbind. rewrite Hrun.
      set (e' := made_state C (za + sizeof_zone * Z.of_nat (length (kept_regions r l1))) a p) in *.
      assert (Hb : forall x, footprint e' x -> boot_byte x).
      { intros x Hx. exists e'. split; [|exact Hx]. rewrite Hrs. apply boot_states_prefix.
        rewrite boot_states_snoc. apply elem_of_app. right. by apply list_elem_of_singleton. }
      set (s1 := FaState m' _ za) in *. rewrite Hk in IH.
      destruct (IH s1 Hl' ltac:(lia)) as (s' & Hrun' & Hs' & Hag'); [| |].
      { split; [done|done|exact Hg|]. eapply memmap_agree; [apply Hs|]. eapply agree_weaken; [exact Hag|].
        intros x Hx Hx'. by eapply map_not_boot, Hb. }
      { intros HC y Hy b Hyb. change (rd8 m' b = 0). rewrite Hag; [by apply (Hclr HC y); [rewrite Hk2; set_solver|]|].
        apply (next_region_apart l1 l2 e a p y b); done. }
      exists s'. split; [|split; [exact Hs'|]].
      * rewrite <- Hrun'. rewrite boot_states_snoc, boot_pages_snoc. cbn [fst snd]. fold e'.
        pose proof (boot_pages_bound (kept_regions r l1 ++ [(a, p)]) Hd) as Hb2.
        rewrite boot_states_snoc, boot_pages_snoc in Hb2. cbn [fst snd] in Hb2. fold e' in Hb2.
        rewrite u64_small; [done|]. apply Hb2. rewrite length_app. cbn. lia.
      * eapply agree_trans; [|exact Hag']. eapply agree_weaken; [exact Hag|]. intros x Hx Hx'. by apply Hx, Hb.
    + rewrite app_nil_r in Hk. rewrite Hk in IH. apply IH; [exact Hl'|lia|exact Hs|].
      intros HC y Hy. apply (Hclr HC y). unfold kept_regions in *. cbn. by rewrite He.
Qed.
End Loop.

(** ** frame_alloc_init *)

(** The end of the memory that is not given out: the kernel's image, and the
    boot information. *)
Definition reserved_end (m : mem) (mb : mb_state) (phys_end : Z) : Z :=
  let kernel_end := PHYS_TO_VIRT phys_end in
  let info_end := u64 (mb_boot_info mb + ALIGN_UP (ld 4 m (mb_boot_info mb)) PAGE_SIZE) in
  ROUNDUP (if kernel_end <? info_end then info_end else kernel_end) PAGE_SIZE.

(** The boot information is in the direct mapping, and the memory map in it. *)
Record boot_info_ok (m : mem) (mb : mb_state) (es : Z) (l : list map_entry) : Prop := {
  bi_low : KERNEL_DIRECT_PHYS_MAPPING_START <= mb_boot_info mb;
  bi_high : mb_boot_info mb + ld 4 m (mb_boot_info mb) + 2 * PAGE_SIZE <=
            KERNEL_DIRECT_PHYS_MAPPING_START + KERNEL_DIRECT_PHYS_MAPPING_SIZE;
  bi_inside : mb_boot_info mb <= mb_memmap_info mb /\
              mb_memmap_info mb + map_size es l <= mb_boot_info mb + ld 4 m (mb_boot_info mb);
  bi_memmap : memmap_at m mb es l;
}.

(** What the code takes for granted of the memory of the machine. *)
Record boot_memory (m : mem) (mb : mb_state) (es : Z) (l : list map_entry) (phys_end : Z) : Prop := {
  bm_info : boot_info_ok m mb es l;
  bm_kernel : 0 <= phys_end /\ phys_end + PAGE_SIZE <= KERNEL_DIRECT_PHYS_MAPPING_SIZE;
  bm_fits : Forall entry_fits l;
  bm_count : (length (kept_regions (reserved_end m mb phys_end) l) <= MAX_ZONE_COUNT)%nat;
  bm_larger : forall x, x ∈ kept_regions (reserved_end m mb phys_end) l -> x.2 <> 1024;
  bm_spaced : pairwise regions_spaced (kept_regions (reserved_end m mb phys_end) l);
}.

Lemma ALIGN_UP_bounds x n : 0 < n -> 0 <= x -> x + n < two64 -> x <= ALIGN_UP x n < x + n.
Proof.
  intros Hn Hx Hb. unfold ALIGN_UP. rewrite DIV_ROUNDUP_spec by done.
  pose proof (Z.div_mod (x + n - 1) n ltac:(lia)). pose proof (Z.mod_pos_bound (x + n - 1) n Hn).
  assert (0 <= (x + n - 1) / n) by (apply Z.div_pos; lia). rewrite u64_small by nia. nia.
Qed.

Lemma reserved_end_ok m mb es l phys_end :
  boot_info_ok m mb es l -> 0 <= phys_end /\ phys_end + PAGE_SIZE <= KERNEL_DIRECT_PHYS_MAPPING_SIZE ->
  let r := reserved_end m mb phys_end in
  (PAGE_SIZE | r) /\ KERNEL_DIRECT_PHYS_MAPPING_START <= r <= KERNEL_DIRECT_PHYS_MAPPING_START + KERNEL_DIRECT_PHYS_MAPPING_SIZE /\
  KERNEL_DIRECT_PHYS_MAPPING_START + phys_end <= r /\ mb_boot_info mb + ld 4 m (mb_boot_info mb) <= r.
Proof.
  intros [H1 H2 _ _] Hp. unfold reserved_end, PHYS_TO_VIRT. pose proof (ld_range 4 m (mb_boot_info mb)) as Hs.
  set (t := ld 4 m (mb_boot_info mb)) in *. clearbody t. change (256 ^ Z.of_nat 4) with 4294967296 in Hs.
  unfold KERNEL_DIRECT_PHYS_MAPPING_START, KERNEL_DIRECT_PHYS_MAPPING_SIZE, PAGE_SIZE in *.
  pose proof (ALIGN_UP_bounds t 4096 ltac:(lia) ltac:(lia) ltac:(lia)) as Ha.
  rewrite !u64_small by lia.
  set (k := if _ <? _ then _ else _).
  assert (Hk : 18446612682070032384 + phys_end <= k /\ mb_boot_info mb + t <= k /\ k <= 18446612682070032384 + 64 * 2 ^ 40 - 4096).
  { unfold k. destruct (Z.ltb_spec (18446612682070032384 + phys_end) (mb_boot_info mb + ALIGN_UP t 4096)); lia. }
  clearbody k. pose proof (ROUNDUP_bounds k 4096 ltac:(lia) ltac:(lia) ltac:(lia)).
  split; [apply ROUNDUP_aligned; lia|]. lia.
Qed.

Section Start.
Context (C : Prop) (mb : mb_state) (es : Z) (l : list map_entry) (phys_end : Z) (s : fa_state).
Let r := reserved_end (fa_mem s) mb phys_end.
Let za := allocator_zones_addr s.
Hypothesis Hboot : boot_memory (fa_mem s) mb es l phys_end.
Hypothesis Harr : array_ok za.
Hypothesis Hclear : C -> forall x, x ∈ kept_regions r l -> region_clear (fa_mem s) x.

Lemma kept_regions_direct : Forall (region_direct r) (kept_regions r l).
Proof.
  destruct Hboot as [Hi Hk Hf _ Hl _]. destruct (reserved_end_ok _ _ _ _ _ Hi Hk) as (H1 & H2 & _). fold r in H1, H2, Hl.
  apply Forall_forall. intros [a p] Hx. pose proof (Hl _ Hx) as Hp. unfold kept_regions in Hx. apply list_elem_of_omap in Hx as (e & He & Hx).
  rewrite Forall_forall in Hf. assert (Ht : is_ram e.2 = true) by (unfold kept_region in Hx; by destruct (is_ram e.2)).
  assert (H3 : r < two64).
  { unfold KERNEL_DIRECT_PHYS_MAPPING_START, KERNEL_DIRECT_PHYS_MAPPING_SIZE in H2. lia. }
  apply (kept_region_direct r e); [by apply Hf|exact Ht|apply H2|exact Hp|].
  apply kept_region_ok; [exact H1|split; [apply H2|exact H3]|by apply Hf|exact Hx].
Qed.

Lemma map_reserved a : map_byte mb es l a -> a < r /\ a < KERNEL_SECTIONS_START.
Proof.
  destruct Hboot as [Hi Hk _ _ _ _]. destruct (reserved_end_ok _ _ _ _ _ Hi Hk) as (_ & H2 & _ & H3). fold r in H2, H3.
  destruct Hi as [_ _ [H4 H5] _]. intros [Ha Hb].
  unfold KERNEL_DIRECT_PHYS_MAPPING_START, KERNEL_DIRECT_PHYS_MAPPING_SIZE, KERNEL_SECTIONS_START in *. lia.
Qed.

(** The calls before the loop. *)
Lemma init_calls fuel : frame_alloc_init_zones fuel mb phys_end s = frame_alloc_init_loop fuel mb (entry_addr mb es 0) r 0 s.
Proof.
  destruct Hboot as [[H1 H2 _ [H3 H4 H5 _ _ _]] _ _ _ _ _].
  assert (16 <= map_size es l) by (unfold map_size, memmap_info_size; nia).
  pose proof (ld_range 4 (fa_mem s) (mb_boot_info mb)) as Hs. change (256 ^ Z.of_nat 4) with 4294967296 in Hs.
  unfold frame_alloc_init_zones, mb_memmap_iter_init. unfold kbind at 1. rewrite (in_mem_ret _ (entry_addr mb es 0) s).
  - unfold kbind at 1. rewrite (in_mem_ret _ (mb_boot_info mb, u64 (mb_boot_info mb + ALIGN_UP (ld 4 (fa_mem s) (mb_boot_info mb)) PAGE_SIZE)) s).
    + reflexivity.
    + unfold mb_memory_region, kbind. rewrite load_ok; [done|]. apply kok_spec.
      unfold KERNEL_DIRECT_PHYS_MAPPING_START, KERNEL_DIRECT_PHYS_MAPPING_SIZE, KERNEL_HIGHER_HALF_START, PAGE_SIZE in *. lia.
  - unfold KERNEL_HIGHER_HALF_START, memmap_info_size in *. rewrite kassert_true.
    + unfold kret, entry_addr. rewrite u64_small by lia. do 2 f_equal. unfold memmap_info_size. lia.
    + apply negb_true_iff, Z.eqb_neq. lia.
Qed.

Lemma boot_bytes s' a : allocator_zones s' = zones_of (boot_states C za (kept_regions r l)) ->
  fa_bytes s' a <-> boot_byte C l r za a.
Proof.
  intros Hz. unfold fa_bytes, boot_byte. rewrite Hz.
  assert (Hn : forall e, e ∈ boot_states C za (kept_regions r l) -> footprint e a <-> zone_bytes e.1.1 a).
  { intros e (i & x & Hi & ->)%boot_states_elem. destruct (Forall_lookup_1 _ _ _ _ kept_regions_direct Hi) as (Hx & _).
    by apply made_zone_bytes. }
  split.
  - intros (z & (e & -> & He)%list_elem_of_fmap & Ha). exists e. split; [exact He|exact (proj2 (Hn e He) Ha)].
  - intros (e & He & Ha). exists e.1.1. split; [by apply (list_elem_of_fmap_2 (fun e => e.1.1))|exact (proj1 (Hn e He) Ha)].
Qed.

(** The allocator is ready: what it answers is the number of pages of its zones,
    which lie above the kernel's image and the boot information. *)
Record allocator_made (n : Z) (s' : fa_state) : Prop := {
  am_pages : n = boot_pages (boot_states C za (kept_regions r l));
  am_zones : allocator_zones s' = zones_of (boot_states C za (kept_regions r l));
  am_array : allocator_zones_addr s' = za;
  am_ready : frames_ok C s' [];
  am_within : forall a, fa_bytes s' a -> array_byte za a \/ r <= a /\ KERNEL_DIRECT_PHYS_MAPPING_START <= a < KERNEL_SECTIONS_START;
  am_outside : agree (fun a => ~ fa_bytes s' a) (fa_mem s) (fa_mem s');
}.

Lemma frame_alloc_init_ok fuel : allocator_zones s = [] -> (length l < fuel)%nat ->
  exists n s', frame_alloc_init_zones fuel mb phys_end s = Ret (n, s') /\ allocator_made n s'.
Proof.
  intros Hz Hf. rewrite init_calls. pose proof Hboot as [Hi _ _ Hc _ Hsp]. fold r in Hc, Hsp.
  pose proof kept_regions_direct as Hd.
  destruct (init_loop_ok C mb es l r za Harr Hd Hsp Hc map_reserved l [] fuel s eq_refl Hf) as (s' & Hrun & Hs' & Hag); [|exact Hclear|].
  { split; [done|by rewrite Hz|split; [constructor|done]|apply Hi]. }
  exists (boot_pages (boot_states C za (kept_regions r l))), s'. split; [exact Hrun|].
  destruct Hs' as [Ha1 Hz1 Hg1 _]. pose proof (fun a => boot_bytes s' a Hz1) as Hb.
  split; [done|exact Hz1|exact Ha1| | |].
  - split.
    + exists (boot_states C za (kept_regions r l)). split; [exact Hz1|]. split; [exact Hg1|].
      split; [intros B HB; by apply not_elem_of_nil in HB|]. split; [done|]. split.
      * intros z N b (i & x & _ & [= -> -> ->])%boot_states_elem HC. exact HC.
      * intros z N b p (i & x & Hx & [= -> -> ->])%boot_states_elem Hp Hnc. exfalso. apply Hnc.
        destruct (Forall_lookup_1 _ _ _ _ Hd Hx) as (Hx1 & _).
        by apply (made_state_free C (za + sizeof_zone * Z.of_nat i) _ _ _ Hx1).
    + intros z Hin. rewrite Hz1 in Hin. apply list_elem_of_fmap in Hin as (e & -> & He).
      apply boot_states_elem in He as (i & x & Hx & ->). cbn [made_state fst].
      destruct (Forall_lookup_1 _ _ _ _ Hd Hx) as (Hx1 & _ & Hx2 & Hx3).
      destruct (made_zone_extent (za + sizeof_zone * Z.of_nat i) x.1 x.2 Hx1) as [H1 H2]. lia.
  - intros a (e & He & Hfe)%Hb. by apply (footprint_above C za _ e a r Harr Hc Hd He).
  - eapply agree_weaken; [exact Hag|]. intros a Ha. intros Hx. by apply Ha, Hb.
Qed.
End Start.
