(* ===== verification/ObjSpec.v ===== *)
(** * The pool of small objects

    [pool m alloc P fr U]: the free list of the allocator links the slots [fr]
    and [U] are the objects in use; both are slots of the pages [P]. *)

From S2P Require Import Prelude Mem Common DList Buddy Paging FrameAlloc FrameRefine FrameZones FrameSession FrameInit.
From S2P Require Import FrameClient Obj.

(** The bytes from one slot of a page to the next. *)
Definition stride (size : Z) : Z := ROUNDUP size CACHE_LINE_SIZE_BYTES.

Lemma stride_bounds size : 8 <= size <= PAGE_SIZE -> size <= stride size < size + 64 /\ 64 <= stride size /\
  aligned 64 (stride size).
Proof.
  intros Hs. unfold stride, CACHE_LINE_SIZE_BYTES, PAGE_SIZE in *.
  pose proof (ROUNDUP_bounds size 64 ltac:(lia) ltac:(lia) ltac:(lia)).
  pose proof (ROUNDUP_aligned size 64 ltac:(lia) ltac:(lia) ltac:(lia)) as [k Hk]. split; [done|].
  split; [lia|]. by exists k.
Qed.

Fixpoint chain (m : mem) (a : Z) (l : list Z) : Prop :=
  match l with
  | [] => a = 0
  | x :: l => a = x /\ chain m (ld64 m x) l
  end.

Lemma chain_agree P m m' a l :
  agree P m m' -> (forall x b, x ∈ l -> in_range x 8 b -> P b) -> chain m a l -> chain m' a l.
Proof.
  intros Hag. revert a; induction l as [|x l IH]; intros a HP Hc; [done|].
  destruct Hc as [-> Hc]. split; [done|]. rewrite (ld_agree 8 P m m').
  - apply IH; [|done]. intros y b Hy. apply HP. by apply list_elem_of_further.
  - done.
  - intros b Hb. eapply HP, Hb. set_solver.
Qed.

Definition slot (size : Z) (P : list Z) (x : Z) : Prop :=
  exists p i, p ∈ P /\ 0 <= i /\ x = p + i * stride size /\ x + size <= p + PAGE_SIZE.

Record pool (m : mem) (alloc : obj_alloc) (P fr U : list Z) : Prop := {
  pl_size : 8 <= obj_size alloc <= PAGE_SIZE;
  pl_chain : chain m (next_free alloc) fr;
  pl_slots : forall x, x ∈ fr ++ U -> slot (obj_size alloc) P x;
  pl_nodup : NoDup (fr ++ U);
}.

Lemma slot_mono size P P' x : (forall p, p ∈ P -> p ∈ P') -> slot size P x -> slot size P' x.
Proof. intros HP (p & i & Hp & H). exists p, i. auto. Qed.

Section Slots.
Context (size : Z) (P : list Z).
Hypothesis Hsize : 8 <= size <= PAGE_SIZE.
Hypothesis HP : forall p, p ∈ P -> frame_at p.

Lemma slot_in_frame x : slot size P x -> exists p, p ∈ P /\ p <= x /\ x + size <= p + PAGE_SIZE.
Proof.
  intros (p & i & Hp & Hi & -> & H). exists p. split; [done|].
  pose proof (stride_bounds size Hsize). split; [nia|done].
Qed.

Lemma slot_kok x n : slot size P x -> 0 <= n <= size -> kok x n = true.
Proof.
  intros Hx Hn. destruct (slot_in_frame x Hx) as (p & Hp & H1 & H2).
  eapply (frame_at_kok p); [by apply HP|done|lia|lia].
Qed.

Lemma slot_nonnull x : slot size P x -> x <> NULL.
Proof.
  intros Hx ->. pose proof (slot_kok NULL 8 Hx ltac:(lia)) as [H _]%kok_spec.
  by unfold NULL, KERNEL_HIGHER_HALF_START in H.
Qed.

Lemma slot_byte x a n : slot size P x -> n <= size -> in_range x n a -> frame_byte P a.
Proof.
  intros Hx Hn Ha. destruct (slot_in_frame x Hx) as (p & Hp & H1 & H2).
  exists p. split; [done|]. unfold in_range in *. lia.
Qed.

(** Distinct objects share no byte. *)
Lemma slots_apart x y : slot size P x -> slot size P y -> x <> y -> apart x size y size.
Proof.
  intros Hx Hy Hne. pose proof (stride_bounds size Hsize) as (Hst & _).
  destruct Hx as (p & i & Hp & Hi & -> & Hpe), Hy as (q & j & Hq & Hj & -> & Hqe).
  destruct (decide (p = q)) as [->|Hpq].
  - assert (i <> j) as [Hij|Hij]%Z.lt_gt_cases by congruence; unfold apart; [left|right]; nia.
  - destruct (frames_apart p q) as [H|H]; [by apply HP..|done|left|right]; nia.
Qed.
End Slots.

(** ** Cutting a page *)

(** The slots of the page [p] from the first on, the last one first. *)
Definition page_slots (size p : Z) (n : nat) : list Z :=
  (fun i => p + Z.of_nat i * stride size) <$> rev (seq 0 n).

Lemma page_slots_S size p n : page_slots size p (S n) = (p + Z.of_nat n * stride size) :: page_slots size p n.
Proof. unfold page_slots. by rewrite seq_S, rev_app_distr. Qed.

Lemma elem_of_page_slots size p n x :
  x ∈ page_slots size p n <-> exists i, (i < n)%nat /\ x = p + Z.of_nat i * stride size.
Proof.
  unfold page_slots. rewrite list_elem_of_fmap. split.
  - intros (i & -> & Hi). exists i. rewrite list_elem_of_In, <- in_rev, <- list_elem_of_In, elem_of_seq in Hi.
    split; [lia|done].
  - intros (i & Hi & ->). exists i. split; [done|].
    rewrite list_elem_of_In, <- in_rev, <- list_elem_of_In, elem_of_seq. lia.
Qed.

Lemma page_slots_nodup size p n : 8 <= size <= PAGE_SIZE -> NoDup (page_slots size p n).
Proof.
  intros Hs. pose proof (stride_bounds size Hs). induction n as [|n IH]; [constructor|].
  rewrite page_slots_S. constructor; [|done].
  intros (i & Hi & E)%elem_of_page_slots. nia.
Qed.

(** The number of slots of a page. *)
Definition slot_count (size : Z) : nat := Z.to_nat ((PAGE_SIZE - size) / stride size + 1).

Lemma slot_count_spec size k :
  8 <= size <= PAGE_SIZE -> (k < slot_count size)%nat <-> Z.of_nat k * stride size + size <= PAGE_SIZE.
Proof.
  intros Hs. pose proof (stride_bounds size Hs) as (Hst & Hst64 & _). unfold slot_count.
  pose proof (Z.div_mod (PAGE_SIZE - size) (stride size) ltac:(lia)).
  pose proof (Z.mod_pos_bound (PAGE_SIZE - size) (stride size) ltac:(lia)).
  pose proof (Z.div_pos (PAGE_SIZE - size) (stride size) ltac:(lia) ltac:(lia)).
  split; intros; [nia|]. assert (Z.of_nat k < (PAGE_SIZE - size) / stride size + 1) by nia. lia.
Qed.

Lemma slots_loop_ok size p n fuel m :
  8 <= size <= PAGE_SIZE -> frame_at p -> (n <= slot_count size)%nat -> (slot_count size - n < fuel)%nat ->
  chain m (match n with O => 0 | S k => p + Z.of_nat k * stride size end) (page_slots size p n) ->
  exists prev m', slots_loop fuel size (p + Z.of_nat n * stride size) (u64 (p + PAGE_SIZE))
      (match n with O => 0 | S k => p + Z.of_nat k * stride size end) m = Ret (prev, m') /\
    chain m' prev (page_slots size p (slot_count size)) /\ agree (fun a => ~ in_range p PAGE_SIZE a) m m'.
Proof.
  intros Hs Hp. pose proof (stride_bounds size Hs) as (Hst & Hst64 & _).
  assert (Hcount : forall k, (k < slot_count size)%nat <-> Z.of_nat k * stride size + size <= PAGE_SIZE).
  { intros k. by apply slot_count_spec. }
  destruct Hp as [Ha Hlo Hhi] eqn:E. clear E.
  unfold KERNEL_DIRECT_PHYS_MAPPING_START, KERNEL_DIRECT_PHYS_MAPPING_SIZE in Hlo, Hhi.
  revert n m; induction fuel as [|fuel IH]; intros n m Hn Hfuel Hc; [lia|].
  cbn [slots_loop]. rewrite (u64_small (p + PAGE_SIZE)) by (unfold PAGE_SIZE in *; lia).
  assert (Hub : Z.of_nat n * stride size <= PAGE_SIZE + 64 + size).
  { destruct n as [|k]; [unfold PAGE_SIZE; lia|]. pose proof (proj1 (Hcount k) ltac:(lia)). nia. }
  rewrite (u64_small (p + _ + size)) by (unfold PAGE_SIZE in *; nia).
  destruct (Z.leb_spec (p + Z.of_nat n * stride size + size) (p + PAGE_SIZE)) as [Hle|Hgt].
  - pose proof (proj2 (Hcount n) ltac:(lia)) as Hlt.
    assert (Hk : kok (p + Z.of_nat n * stride size) 8 = true).
    { eapply (frame_at_kok p); [done|nia|lia|lia]. }
    rewrite bind_store by done. set (cur := p + Z.of_nat n * stride size) in *.
    set (prev := match n with O => 0 | S k => _ end) in *. set (m1 := st64 m cur prev).
    fold (stride size). rewrite (u64_small (cur + stride size)) by (unfold cur, PAGE_SIZE in *; nia).
    destruct (IH (S n) m1) as (prev' & m' & Hrun & Hc' & Hag); [lia|lia| |].
    + rewrite page_slots_S. fold cur. split; [done|]. unfold m1. rewrite ld64_st64_same, u64_small.
      * eapply chain_agree; [apply st_agree| |exact Hc].
        intros x b (i & Hi & ->)%elem_of_page_slots Hb Hr. unfold in_range, cur in *. nia.
      * unfold prev. destruct n as [|k]; [lia|]. pose proof (proj1 (Hcount k) ltac:(lia)). unfold PAGE_SIZE in *. nia.
    + exists prev', m'. replace (p + Z.of_nat (S n) * stride size) with (cur + stride size) in Hrun by (unfold cur; lia).
      rewrite u64_small in Hrun by (unfold PAGE_SIZE in *; lia).
      split; [exact Hrun|]. split; [done|]. eapply agree_trans; [|exact Hag].
      eapply agree_weaken; [apply st_agree|]. intros b Hb Hr. apply Hb. unfold in_range, cur in *. nia.
  - assert (n = slot_count size) as ->.
    { destruct (decide (n = slot_count size)); [done|]. pose proof (proj1 (Hcount n) ltac:(lia)). lia. }
    eexists _, m. split; [reflexivity|]. split; [exact Hc|done].
Qed.

Lemma slot_count_bounds size : 8 <= size <= PAGE_SIZE -> (1 <= slot_count size <= 64)%nat.
Proof.
  intros Hs. pose proof (stride_bounds size Hs). unfold slot_count, PAGE_SIZE in *.
  assert (0 <= (4096 - size) / stride size) by (apply Z.div_pos; lia).
  assert ((4096 - size) / stride size < 64) by (apply Z.div_lt_upper_bound; nia). lia.
Qed.

(** ** object_alloc and object_free *)

Section Pool.
Context {F : Prop} {ok : fa_state -> list Z -> Prop} `{!FrameContract F ok}.

Definition pool_in (s : obj_state) (P fr U L : list Z) : Prop :=
  ok s.1 L /\ pool (fa_mem s.1) s.2 P fr U /\ (forall p, p ∈ P -> p ∈ L).

Lemma pool_frames s P fr U L p : pool_in s P fr U L -> p ∈ P -> frame_at p.
Proof. intros (Hok & _ & HP) Hp. eapply fc_frame; [exact Hok|by apply HP]. Qed.

(** A fresh page's slots: all of them are free, and none is in use. *)
Lemma fresh_slots_nodup size P U p n :
  8 <= size <= PAGE_SIZE -> (forall q, q ∈ P -> frame_at q) -> frame_at p -> p ∉ P ->
  (n <= slot_count size)%nat -> (forall x, x ∈ U -> slot size P x) -> NoDup U -> NoDup (page_slots size p n ++ U).
Proof.
  intros Hs HP Hp Hpn Hn HU Hnd. apply NoDup_app. split; [by apply page_slots_nodup|]. split; [|done].
  intros x (i & Hi & ->)%elem_of_page_slots Hx. destruct (slot_in_frame size P Hs _ (HU _ Hx)) as (q & Hq & H1 & H2).
  assert (p <> q) as Hne by (by intros ->). pose proof (stride_bounds size Hs).
  assert (Z.of_nat i * stride size + size <= PAGE_SIZE).
  { apply slot_count_spec; [done|lia]. }
  destruct (frames_apart p q Hp (HP q Hq) Hne); nia.
Qed.

Lemma get_alloc_bind {B} (f : obj_alloc -> K obj_state B) s : kbind get_alloc f s = f s.2 s.
Proof. done. Qed.

Lemma object_alloc_pop m alloc P fr U x s :
  pool m alloc P (x :: fr) U -> (forall p, p ∈ P -> frame_at p) -> fa_mem s = m ->
  with_fa (in_mem (load64 (next_free alloc))) (s, alloc) = Ret (ld64 m x, (s, alloc)) /\ next_free alloc = x /\
  pool m (ObjAlloc (ld64 m x) (obj_size alloc)) P fr (x :: U).
Proof.
  intros [Hs [Hx Hc] Hsl Hnd] HP <-. split; [|split; [done|]].
  - unfold with_fa, in_mem, klift. cbn [fst snd]. rewrite Hx, load_ok; [by destruct s|].
    eapply (slot_kok (obj_size alloc) P); [done|done|apply Hsl; set_solver|lia].
  - split; [done|exact Hc| |].
    + intros y Hy. apply Hsl. set_solver.
    + by rewrite <- Permutation_middle.
Qed.

(** Either memory runs out, and the page at address 0 is cut, or a slot that
    was not in use is returned; objects in use keep their bytes. *)
Lemma object_alloc_ok `{!FrameSource ok} fa alloc P fr U L :
  pool_in (fa, alloc) P fr U L ->
  (fr = [] /\ (frame_alloc fa = Ret (NULL, fa) /\ capacity fa <= Z.of_nat (length L)) /\ object_alloc (fa, alloc) = Halt (Fault NULL)) \/
  exists x m' alloc' P' fr' L', object_alloc (fa, alloc) = Ret (x, (set_mem fa m', alloc')) /\
    x ∉ U /\ pool_in (set_mem fa m', alloc') P' fr' (x :: U) L' /\ obj_size alloc' = obj_size alloc /\
    agree (frame_byte L) (fa_mem fa) m' /\ agree (fun a => ~ fa_bytes fa a) (fa_mem fa) m' /\
    (L' = L /\ P' = P \/ exists p, p ∉ L /\ L' = p :: L /\ P' = p :: P).
Proof.
  intros Hp. pose proof Hp as (Hok & Hpool & HPL). cbn [fst snd] in *.
  pose proof (pl_size _ _ _ _ _ Hpool) as Hs. unfold object_alloc. rewrite get_alloc_bind. cbn [snd].
  rewrite kassert_true by (apply Z.leb_le; lia).
  destruct fr as [|x fr].
  - pose proof (pl_chain _ _ _ _ _ Hpool) as Hn. cbn in Hn. rewrite Hn. change (0 =? NULL) with true. cbv iota.
    destruct (fc_alloc (ok := ok) fa L Hok) as [[Hnull Hfull]|(p & m1 & Hrun & Hp0 & HpL & Hok1 & Hag & Hout & _)].
    + left. split; [done|]. split; [done|]. apply kbind_Halt.
      unfold with_fa at 1, klift, kbind at 1. cbn [fst snd]. rewrite Hnull. apply kbind_Halt.
      unfold with_fa, in_mem, klift. cbn [fst snd]. unfold slots_fuel. cbn [slots_loop].
      rewrite !u64_small by (unfold NULL, PAGE_SIZE in *; lia).
      rewrite (proj2 (Z.leb_le _ _)) by (unfold NULL; lia).
      rewrite (kbind_Halt _ _ _ (Fault NULL)); [done|]. by apply store_fault.
    + right. pose proof (fc_frame (ok := ok) _ _ p Hok1 (list_elem_of_here _ _)) as Hpf.
      pose proof (slot_count_bounds (obj_size alloc) Hs) as Hcnt.
      destruct (slots_loop_ok (obj_size alloc) p 0 slots_fuel m1 Hs Hpf ltac:(lia) ltac:(unfold slots_fuel; lia) eq_refl)
        as (prev & m2 & Hloop & Hchain & Hag2).
      rewrite Z.mul_0_l, Z.add_0_r in Hloop. set (sz := obj_size alloc) in *.
      assert (Hfrom : kbind (with_fa frame_alloc) (fun page =>
         kbind (with_fa (in_mem (slots_loop slots_fuel sz page (u64 (page + PAGE_SIZE)) 0))) set_next_free)
         (fa, alloc) = Ret (tt, (set_mem fa m2, ObjAlloc prev sz))).
      { unfold with_fa, in_mem, set_next_free, kbind, klift. cbn [fst snd]. rewrite Hrun. cbn [fst snd fa_mem set_mem].
        by rewrite Hloop. }
      kstep Hfrom. rewrite get_alloc_bind. cbn [snd].
      destruct (slot_count sz) as [|k] eqn:Hk; [lia|]. rewrite page_slots_S in Hchain.
      set (x := p + Z.of_nat k * stride sz) in *.
      assert (Hpool2 : pool m2 (ObjAlloc prev sz) (p :: P) (x :: page_slots sz p k) U).
      { split; [done|done| |].
        - intros y [Hy|Hy]%elem_of_app.
          + unfold x in Hy. rewrite <- page_slots_S in Hy. apply elem_of_page_slots in Hy as (i & Hi & ->).
            exists p, (Z.of_nat i). split; [apply list_elem_of_here|]. split; [lia|]. split; [done|].
            pose proof (proj1 (slot_count_spec sz i Hs) ltac:(lia)). cbn [obj_size]. lia.
          + eapply slot_mono; [intros q Hq; by apply list_elem_of_further|by apply (pl_slots _ _ _ _ _ Hpool)].
        - unfold x. rewrite <- page_slots_S. eapply (fresh_slots_nodup sz P); try done.
          + intros q Hq. by eapply pool_frames.
          + intros Hin. by apply HpL, HPL.
          + lia.
          + intros y Hy. by apply (pl_slots _ _ _ _ _ Hpool).
          + apply (pl_nodup _ _ _ _ _ Hpool). }
      destruct (object_alloc_pop m2 _ _ _ _ _ (set_mem fa m2) Hpool2) as (Hload & Hnx & Hpool3); [|done|].
      { intros q [->|Hq]%elem_of_cons; [done|]. by eapply pool_frames. }
      kstep Hload. unfold set_next_free, kbind, kret. cbn [fst snd next_free obj_size] in *. subst prev.
      assert (Hxn : x ∉ U).
      { pose proof (pl_nodup _ _ _ _ _ Hpool2) as [Hd _]%NoDup_cons. intros Hin. by apply Hd, elem_of_app; right. }
      eexists x, m2, _, (p :: P), _, (p :: L). split; [reflexivity|]. split; [done|].
      assert (Hm2 : agree (fun a => ~ in_range p PAGE_SIZE a) m1 m2) by exact Hag2.
      split; [|split; [done|split; [|split; [|right; exists p; done]]]].
      * split; [|split; [exact Hpool3|intros q [->|Hq]%elem_of_cons; [apply list_elem_of_here|by apply list_elem_of_further, HPL]]].
        cbn [fst].
        apply (fc_write (ok := ok) (set_mem fa m1) (p :: L) m2 Hok1).
        eapply agree_weaken; [exact Hm2|]. intros a Ha Hr. apply Ha. exists p. split; [apply list_elem_of_here|done].
      * eapply agree_trans; [exact Hag|]. eapply agree_weaken; [exact Hm2|].
        intros a (q & Hq & Ha) Hr. assert (q <> p) as Hne by (by intros ->).
        pose proof (frames_apart q p (fc_frame (ok := ok) _ _ q Hok Hq) Hpf Hne). unfold apart, in_range in *. lia.
      * eapply agree_trans; [exact Hout|]. eapply agree_weaken; [exact Hm2|]. intros a Ha Hr. apply Ha.
        apply (fc_inside (ok := ok) (set_mem fa m1) (p :: L)); [done|]. exists p. split; [apply list_elem_of_here|done].
  - right. destruct (object_alloc_pop _ _ _ _ _ _ fa Hpool) as (Hload & Hnx & Hpool3); [|done|].
    { intros q Hq. by eapply pool_frames. }
    rewrite (proj2 (Z.eqb_neq (next_free alloc) NULL)).
    2:{ rewrite Hnx. eapply slot_nonnull; [exact Hs|by intros q Hq; eapply pool_frames|].
        apply (pl_slots _ _ _ _ _ Hpool). set_solver. }
    rewrite (kbind_Ret (kret tt) _ _ tt (fa, alloc)), get_alloc_bind by done. cbn [snd]. kstep Hload.
    unfold set_next_free, kbind, kret. cbn [fst snd]. rewrite Hnx.
    assert (Hid : set_mem fa (fa_mem fa) = fa) by (by destruct fa).
    exists x, (fa_mem fa), (ObjAlloc (ld64 (fa_mem fa) x) (obj_size alloc)), P, fr, L. rewrite Hid.
    split; [done|]. split; [|split; [by split_and!|split_and!; try done; by left]].
    pose proof (pl_nodup _ _ _ _ _ Hpool) as [Hd _]%NoDup_cons. set_solver.
Qed.

(** Freeing an object in use leaves it as the only free slot: the slots that
    were free are lost. *)
Lemma object_free_ok fa alloc P fr U1 U2 x L :
  pool_in (fa, alloc) P fr (U1 ++ x :: U2) L ->
  let m' := st64 (fa_mem fa) x 0 in
  object_free x (fa, alloc) = Ret (tt, (set_mem fa m', ObjAlloc x (obj_size alloc))) /\
  pool_in (set_mem fa m', ObjAlloc x (obj_size alloc)) P [x] (U1 ++ U2) L.
Proof.
  intros Hp m'. pose proof Hp as (Hok & Hpool & HPL). cbn [fst snd] in *.
  pose proof (pl_size _ _ _ _ _ Hpool) as Hs.
  assert (HPf : forall q, q ∈ P -> frame_at q) by (intros; by eapply pool_frames).
  assert (Hx : slot (obj_size alloc) P x) by (apply (pl_slots _ _ _ _ _ Hpool); set_solver).
  split.
  - unfold object_free. rewrite kassert_true by (by apply negb_true_iff, Z.eqb_neq; eapply slot_nonnull).
    unfold with_fa, in_mem, set_next_free, kbind, klift. cbn [fst snd].
    rewrite store_ok by (eapply slot_kok; [exact Hs|exact HPf|exact Hx|lia]). done.
  - split; [|split; [|done]]; cbn [fst snd].
    + apply (fc_write (ok := ok) fa L m' Hok). eapply agree_weaken; [apply st_agree|].
      intros a Ha Hr. apply Ha. destruct (slot_byte (obj_size alloc) P Hs x a 8 Hx ltac:(lia) Hr) as (p & Hp' & Hpa).
      exists p. split; [by apply HPL|done].
    + split; [done| | |].
      * cbn. split; [done|]. unfold m'. by rewrite ld64_st64_same.
      * intros y Hy. apply (pl_slots _ _ _ _ _ Hpool). set_solver.
      * pose proof (pl_nodup _ _ _ _ _ Hpool) as Hnd. apply NoDup_app in Hnd as (_ & _ & Hnd).
        by rewrite <- Permutation_middle in Hnd.
Qed.
End Pool.
#[global] Arguments pool_in ok s P fr U L : clear implicits.
