(* ===== verification/PageTable.v ===== *)
(** * The tables of an address space as a tree

    The four levels of page tables of mm/vmem.c: [walk] is the processor's
    translation as a recursion on the level, and [tree m root T] says that the
    tables reachable from [root] are those of [T], which gives the address of
    the table of each level and prefix of virtual addresses. *)

From S2P Require Import Prelude Mem Common DList Buddy Paging FrameAlloc FrameRefine FrameZones FrameSession FrameInit.
From S2P Require Import FrameClient Obj Vmem.

(** ** Bits of entries *)

Lemma has_testbit e k : 0 <= k -> has e (Z.shiftl 1 k) = Z.testbit e k.
Proof. intros. unfold has. rewrite Z.shiftl_1_l, land_pow2_eqb by done. apply negb_involutive. Qed.

Lemma PTE_ADDR_testbit e i :
  0 <= i -> Z.testbit (PTE_ADDR e) i = Z.testbit e i && (12 <=? i) && (i <? 48).
Proof.
  intros Hi. unfold PTE_ADDR. change PTE_ADDR_MASK with (Z.ones 48). change PTE_FLAGS_MASK with (Z.ones 12).
  zbits. destruct (Z.testbit e i), (Z.ltb_spec i 48), (Z.ltb_spec i 12), (Z.leb_spec 12 i); simpl; (done || lia).
Qed.

Lemma PTE_ADDR_range e : 0 <= PTE_ADDR e < 2 ^ 48.
Proof.
  apply bits_bound; [lia|]. intros i Hi. rewrite PTE_ADDR_testbit by lia.
  rewrite (proj2 (Z.ltb_ge i 48)) by lia. apply andb_false_r.
Qed.

(** The flags the code puts in an entry. *)
Definition pte_flags_ok (x : Z) : Prop :=
  forall i, 0 <= i -> Z.testbit x i = true -> i = 1 \/ i = 2 \/ i = 10.

Lemma convert_flags_ok flags : pte_flags_ok (vmem_convert_flags flags).
Proof.
  intros i Hi. unfold vmem_convert_flags, PTE_USER, PTE_WRITEABLE, PTE_ALLOC.
  rewrite !Z.shiftl_1_l.
  repeat (case_match; rewrite ?Z.lor_spec, ?testbit_pow2, ?Z.bits_0 by lia);
    repeat case_bool_decide; simpl; auto; try done; lia.
Qed.

(** What a walk and the code's tests see of an entry. *)
Definition same_entry (e e' : Z) : Prop :=
  has e' PTE_PRESENT = has e PTE_PRESENT /\ has e' PTE_PAGE_SIZE = has e PTE_PAGE_SIZE /\
  PTE_ADDR e' = PTE_ADDR e.

Lemma same_entry_refl e : same_entry e e.
Proof. done. Qed.

Lemma flag_bit_false x i : pte_flags_ok x -> 0 <= i -> i <> 1 -> i <> 2 -> i <> 10 -> Z.testbit x i = false.
Proof. intros Hx Hi ???. destruct (Z.testbit x i) eqn:E; [|done]. apply Hx in E; lia. Qed.

Lemma lor_flags_same e x : pte_flags_ok x -> same_entry e (Z.lor e x).
Proof.
  intros Hx. unfold same_entry, PTE_PRESENT, PTE_PAGE_SIZE. rewrite !has_testbit, !Z.lor_spec by lia.
  rewrite !(flag_bit_false x) by (done || lia). rewrite !orb_false_r. split; [done|]. split; [done|].
  apply Z.bits_inj'. intros i Hi. rewrite !PTE_ADDR_testbit, Z.lor_spec by done.
  destruct (Z.leb_spec 12 i); [|by rewrite !andb_false_r].
  rewrite (flag_bit_false x) by (done || lia). by rewrite orb_false_r.
Qed.

Lemma flags_range x : 0 <= x -> pte_flags_ok x -> 0 <= x < 2 ^ 11.
Proof. intros H0 Hx. apply bits_bound; [lia|]. intros i Hi. apply flag_bit_false; (done || lia). Qed.

Lemma convert_flags_range flags : 0 <= vmem_convert_flags flags < 2 ^ 11.
Proof.
  apply flags_range; [|apply convert_flags_ok]. unfold vmem_convert_flags.
  repeat case_match; done.
Qed.

Lemma lor_range64 a b : 0 <= a < two64 -> 0 <= b < two64 -> 0 <= Z.lor a b < two64.
Proof.
  change two64 with (2 ^ 64). intros Ha Hb. apply bits_bound; [lia|]. intros i Hi.
  by rewrite Z.lor_spec, (testbit_small a 64), (testbit_small b 64).
Qed.

(** An entry as the code makes it, for a frame or a table at [phys]. *)
Lemma made_entry phys extra x :
  0 <= phys < 2 ^ 48 -> aligned PAGE_SIZE phys -> pte_flags_ok x -> 0 <= x ->
  extra = 0 \/ extra = PTE_PAGE_SIZE ->
  let e := Z.lor (Z.lor (Z.lor phys PTE_PRESENT) extra) x in
  has e PTE_PRESENT = true /\ has e PTE_PAGE_SIZE = negb (extra =? 0) /\ PTE_ADDR e = phys /\ u64 e = e.
Proof.
  intros Hp Ha Hx Hx0 Hex. set (b := Z.lor (Z.lor phys PTE_PRESENT) extra).
  assert (Hlow : forall i, 0 <= i < 12 -> Z.testbit phys i = false).
  { intros i Hi. apply (aligned_mod PAGE_SIZE) in Ha; [|done]. change PAGE_SIZE with (2 ^ 12) in Ha.
    rewrite <- (Z.mod_pow2_bits_low phys 12 i) by lia. by rewrite Ha, Z.bits_0. }
  assert (Hb : forall i, 0 <= i -> Z.testbit b i =
      Z.testbit phys i || bool_decide (i = 0) || (negb (extra =? 0) && bool_decide (i = 7))).
  { intros i Hi. unfold b, PTE_PRESENT. rewrite !Z.lor_spec, Z.shiftl_1_l, testbit_pow2 by done. f_equal.
    destruct Hex as [-> | ->]; [by rewrite Z.bits_0|]. unfold PTE_PAGE_SIZE.
    rewrite Z.shiftl_1_l, testbit_pow2 by done. done. }
  destruct (lor_flags_same b x Hx) as (H1 & H2 & H3). cbn zeta. rewrite H1, H2, H3.
  unfold PTE_PRESENT at 1, PTE_PAGE_SIZE at 1. rewrite !has_testbit, !Hb by lia. rewrite !Hlow by lia.
  split_and!; [done|cbn; by rewrite andb_true_r|..].
  - apply Z.bits_inj'. intros i Hi. rewrite PTE_ADDR_testbit, Hb by done.
    destruct (Z.leb_spec 12 i).
    + rewrite !bool_decide_false, andb_false_r, !orb_false_r, andb_true_r by lia.
      destruct (Z.ltb_spec i 48); [apply andb_true_r|]. by rewrite (testbit_small phys 48).
    + rewrite andb_false_r, Hlow by lia. done.
  - apply u64_small, lor_range64; [|pose proof (flags_range x Hx0 Hx); lia]. unfold b.
    apply lor_range64; [apply lor_range64; [lia|done]|]. by destruct Hex as [-> | ->].
Qed.

Lemma made_page_entry phys x :
  0 <= phys < 2 ^ 48 -> aligned PAGE_SIZE phys -> pte_flags_ok x -> 0 <= x ->
  let e := Z.lor (Z.lor phys PTE_PRESENT) x in
  has e PTE_PRESENT = true /\ has e PTE_PAGE_SIZE = false /\ PTE_ADDR e = phys /\ u64 e = e.
Proof.
  intros Hp Ha Hx Hx0. pose proof (made_entry phys 0 x Hp Ha Hx Hx0 (or_introl eq_refl)) as H.
  by rewrite Z.lor_0_r in H.
Qed.

(** ** Levels *)

(** The index in a table of level [l], and the number of the table of level [l]
    on the way to [va]; level 0 numbers the pages. *)
Definition index (l : nat) (va : Z) : Z := Z.land (Z.shiftr va (12 + 9 * (Z.of_nat l - 1))) 0x1ff.
Definition prefix (l : nat) (va : Z) : Z := va mod 2 ^ 48 / 2 ^ (12 + 9 * Z.of_nat l).

Lemma index_bounds l va : 0 <= index l va < 512.
Proof. apply index_range. Qed.

Lemma prefix_index l va : (l <= 3)%nat -> prefix l va = prefix (S l) va * 512 + index (S l) va.
Proof.
  intros Hl. unfold prefix, index. change 0x1ff with (Z.ones 9).
  rewrite Z.land_ones, Z.shiftr_div_pow2 by lia.
  destruct l as [|[|[|[|l]]]]; [..|lia]; cbn; Z.to_euclidean_division_equations; lia.
Qed.

Lemma prefix_top va : prefix 4 va = 0.
Proof. unfold prefix. apply Z.div_small. apply Z.mod_pos_bound. lia. Qed.

Lemma prefix_same l va va' : prefix l va = prefix l va' -> prefix (S l) va = prefix (S l) va'.
Proof.
  unfold prefix. rewrite Nat2Z.inj_succ.
  replace (2 ^ (12 + 9 * Z.succ (Z.of_nat l))) with (2 ^ (12 + 9 * Z.of_nat l) * 512)
    by (rewrite <- (Z.pow_add_r 2 _ 9); [f_equal; lia|lia|lia]).
  rewrite <- !Z.div_div by lia. by intros ->.
Qed.

(** Same page, same index at every level. *)
Lemma index_same l va va' : (l <= 3)%nat -> prefix l va = prefix l va' -> index (S l) va = index (S l) va'.
Proof.
  intros Hl H. pose proof (prefix_same l va va' H) as H'.
  rewrite (prefix_index l va), (prefix_index l va') in H by done. lia.
Qed.

Lemma prefix0_testbit va i : 0 <= i < 36 -> Z.testbit (prefix 0 va) i = Z.testbit va (i + 12).
Proof.
  intros Hi. unfold prefix. change (12 + 9 * Z.of_nat 0) with 12.
  rewrite <- Z.shiftr_div_pow2, Z.shiftr_spec by lia. apply Z.mod_pow2_bits_low. lia.
Qed.

(** Canonical addresses of the same prefix at level 0 are in the same page. *)
Lemma prefix_page va va' :
  canonical va -> canonical va' -> prefix 0 va = prefix 0 va' -> va / PAGE_SIZE = va' / PAGE_SIZE.
Proof.
  intros [Hr Hva] [Hr' Hva'] H0. change PAGE_SIZE with (2 ^ 12).
  assert (Hlow : forall j, 12 <= j < 48 -> Z.testbit va j = Z.testbit va' j).
  { intros j Hj. replace j with ((j - 12) + 12) by lia.
    rewrite <- !prefix0_testbit by lia. by rewrite H0. }
  apply Z.bits_inj'. intros i Hi. rewrite <- !Z.shiftr_div_pow2, !Z.shiftr_spec by lia.
  destruct (Z.ltb_spec (i + 12) 48); [apply Hlow; lia|].
  destruct (Z.ltb_spec (i + 12) 64); [rewrite Hva, Hva', Hlow by lia; done|].
  change two64 with (2 ^ 64) in *. by rewrite !(testbit_small _ 64) by lia.
Qed.

Lemma page_prefix l va va' : va / PAGE_SIZE = va' / PAGE_SIZE -> prefix l va = prefix l va'.
Proof.
  intros H. induction l as [|l IH]; [|by apply prefix_same].
  unfold prefix. change (12 + 9 * Z.of_nat 0) with 12. unfold PAGE_SIZE in H.
  Z.to_euclidean_division_equations. lia.
Qed.

(** ** The walk, level by level *)

Definition large (l : nat) (e : Z) : bool :=
  match l with 3%nat | 2%nat => has e PTE_PAGE_SIZE | _ => false end.

Definition leaf (l : nat) (e va : Z) : Z :=
  match l with
  | 3%nat => ROUNDDOWN (PTE_ADDR e) GB + va mod GB
  | 2%nat => ROUNDDOWN (PTE_ADDR e) (2 * MB) + va mod (2 * MB)
  | _ => PTE_ADDR e + va mod PAGE_SIZE
  end.

Fixpoint walk (m : mem) (l : nat) (t va : Z) : option Z :=
  match l with
  | O => None
  | S l' =>
      e ← table_entry m t (index l va);
      if (l' =? 0)%nat || large l e then Some (leaf l e va)
      else walk m l' (PHYS_TO_VIRT (PTE_ADDR e)) va
  end.

Lemma page_walk_walk m root va : page_walk m root va = walk m 4 (PHYS_TO_VIRT root) va.
Proof. done. Qed.

(** ** Trees of tables *)

(** The address of each table, by level and prefix. *)
Abbreviation tables := (gmap (nat * Z) Z).

(** Entry [i] of the table [t] of level [l] leads to another table. *)
Definition child (m : mem) (l : nat) (t i : Z) : option Z :=
  let e := ld64 m (entry_addr t i) in
  if has e PTE_PRESENT && negb (large l e) then Some (PHYS_TO_VIRT (PTE_ADDR e)) else None.

Record tree (m : mem) (root : Z) (T : tables) : Prop := {
  tr_root : T !! (4%nat, 0) = Some root;
  tr_top : forall l p t, T !! (l, p) = Some t -> (1 <= l <= 4)%nat /\ (l = 4%nat -> p = 0);
  tr_child : forall l p t i t', (1 <= l)%nat -> T !! (S l, p) = Some t -> 0 <= i < 512 ->
    child m (S l) t i = Some t' -> T !! (l, p * 512 + i) = Some t';
  tr_back : forall l q t, (l <= 3)%nat -> T !! (l, q) = Some t ->
    exists p i t0, T !! (S l, p) = Some t0 /\ 0 <= i < 512 /\ q = p * 512 + i /\ child m (S l) t0 i = Some t;
  tr_inj : forall k k' t, T !! k = Some t -> T !! k' = Some t -> k = k';
}.

Lemma walk_child m l t va t' :
  (1 <= l)%nat -> child m (S l) t (index (S l) va) = Some t' -> walk m (S l) t va = walk m l t' va.
Proof.
  intros Hl Hc. unfold child in Hc. cbn [walk]. unfold table_entry, present.
  destruct (has _ PTE_PRESENT); [|done]. cbn [mbind option_bind andb] in *.
  destruct (large (S l) _); [done|]. injection Hc as <-.
  destruct l; [lia|]. done.
Qed.

(** Entries a walk cannot tell apart. *)
Lemma child_same m m' l t i :
  same_entry (ld64 m (entry_addr t i)) (ld64 m' (entry_addr t i)) -> child m' l t i = child m l t i.
Proof.
  intros (H1 & H2 & H3). unfold child, large. rewrite H1, H3. destruct l as [|[|[|[|l]]]]; by rewrite ?H2.
Qed.

Lemma walk_same m m' l t va :
  same_entry (ld64 m (entry_addr t (index (S l) va))) (ld64 m' (entry_addr t (index (S l) va))) ->
  (forall t', (1 <= l)%nat -> child m (S l) t (index (S l) va) = Some t' -> walk m' l t' va = walk m l t' va) ->
  walk m' (S l) t va = walk m (S l) t va.
Proof.
  intros (H1 & H2 & H3) IH. cbn [walk]. unfold table_entry, present. rewrite H1.
  unfold child in IH. destruct (has (ld64 m _) PTE_PRESENT) eqn:Hp; [|done].
  cbn [mbind option_bind andb] in *.
  assert (Hl : large (S l) (ld64 m' (entry_addr t (index (S l) va))) =
               large (S l) (ld64 m (entry_addr t (index (S l) va)))).
  { unfold large. destruct l as [|[|[|l]]]; by rewrite ?H2. }
  assert (Hleaf : forall k, leaf k (ld64 m' (entry_addr t (index (S l) va))) va =
                            leaf k (ld64 m (entry_addr t (index (S l) va))) va).
  { intros k. unfold leaf. by rewrite H3. }
  rewrite Hl, Hleaf, H3. destruct l as [|l]; [done|]. cbn [Nat.eqb orb].
  destruct (large _ _) eqn:E; [done|]. apply IH; [lia|done].
Qed.

(** Translation is by page. *)
Lemma walk_None_page m l t va va' :
  (l <= 4)%nat -> va / PAGE_SIZE = va' / PAGE_SIZE -> walk m l t va = None -> walk m l t va' = None.
Proof.
  intros Hl Hpg. revert t; induction l as [|l IH]; intros t Hw; [done|]. cbn [walk] in *.
  rewrite <- (index_same l va va') by (lia || by apply page_prefix).
  destruct (table_entry m t (index (S l) va)) as [e|]; [|done]. cbn [mbind option_bind] in *.
  destruct (_ || _); [done|]. apply IH; [lia|done].
Qed.

Section Tree.
Context (m : mem) (root : Z) (T : tables).
Hypothesis Ht : tree m root T.

(** The tables of [T] on the way to [va] are those the walk goes through. *)
Lemma tree_walk va l t :
  T !! (l, prefix l va) = Some t -> walk m 4 root va = walk m l t va.
Proof.
  intros Hl. destruct (tr_top _ _ _ Ht _ _ _ Hl) as [[Hl1 Hl4] _].
  remember (4 - l)%nat as d eqn:Hd. revert l t Hl Hl1 Hl4 Hd.
  induction d as [|d IH]; intros l t Hl Hl1 Hl4 Hd.
  - assert (l = 4%nat) as -> by lia. rewrite prefix_top in Hl.
    pose proof (tr_root _ _ _ Ht) as Hr. rewrite Hl in Hr. by injection Hr as ->.
  - destruct (tr_back _ _ _ Ht l _ _ ltac:(lia) Hl) as (p & i & t0 & Hp & Hi & Hq & Hc).
    rewrite prefix_index in Hq by lia. pose proof (index_bounds (S l) va).
    assert (p = prefix (S l) va) as -> by lia. assert (i = index (S l) va) as -> by lia.
    rewrite (IH (S l) t0) by (done || lia). by apply walk_child.
Qed.

(** Two memories whose entries agree above level [l0] and whose walks agree
    from there. *)
Lemma walk_ext_from m' va l0 :
  (forall t, T !! (l0, prefix l0 va) = Some t -> walk m' l0 t va = walk m l0 t va) ->
  (forall l t, (l0 <= l)%nat -> T !! (S l, prefix (S l) va) = Some t ->
     same_entry (ld64 m (entry_addr t (index (S l) va))) (ld64 m' (entry_addr t (index (S l) va)))) ->
  (l0 <= 4)%nat -> walk m' 4 root va = walk m 4 root va.
Proof.
  intros Hbase Hsame Hl0.
  assert (H : forall l t, (l0 <= l <= 4)%nat -> T !! (l, prefix l va) = Some t ->
                walk m' l t va = walk m l t va).
  { induction l as [|l IH]; intros t Hl Hlk.
    - assert (l0 = 0%nat) as -> by lia. by apply Hbase.
    - destruct (decide (l0 = S l)) as [->|]; [by apply Hbase|].
      apply walk_same; [apply Hsame; [lia|done]|]. intros t' Hl1 Hc.
      apply IH; [lia|]. rewrite prefix_index by lia.
      eapply (tr_child _ _ _ Ht); [done|done|apply index_bounds|done]. }
  apply (H 4%nat); [lia|]. rewrite prefix_top. apply Ht.
Qed.

Lemma walk_ext m' va :
  (forall l t, T !! (S l, prefix (S l) va) = Some t ->
     same_entry (ld64 m (entry_addr t (index (S l) va))) (ld64 m' (entry_addr t (index (S l) va)))) ->
  walk m' 4 root va = walk m 4 root va.
Proof. intros H. apply (walk_ext_from m' va 0); [done|by intros; apply H|lia]. Qed.

(** Where nothing is mapped no entry on the way is a large page. *)
Lemma walk_None_not_large va l t :
  (1 <= l)%nat -> T !! (S l, prefix (S l) va) = Some t -> walk m 4 root va = None ->
  has (ld64 m (entry_addr t (index (S l) va))) PTE_PRESENT = true ->
  child m (S l) t (index (S l) va) = Some (PHYS_TO_VIRT (PTE_ADDR (ld64 m (entry_addr t (index (S l) va))))).
Proof.
  intros Hl Hlk Hw Hp. rewrite (tree_walk va _ _ Hlk) in Hw. cbn [walk] in Hw.
  unfold table_entry, present in Hw. unfold child. rewrite Hp in *. cbn [mbind option_bind andb] in *.
  destruct (large (S l) _); [|done]. by rewrite orb_true_r in Hw.
Qed.
End Tree.
