(* ===== verification/VmemSpec.v ===== *)
(** * Mapping pages: the tables stay a tree and only one translation changes

    [vmem_ensure_next_table] and [vmem_map_page] are proved against the contract
    of the frame allocator ([FrameContract]): the tables are frames the address
    space holds, new ones come zeroed and apart from every other frame. *)

From S2P Require Import Prelude Mem Common DList Buddy Paging FrameAlloc FrameRefine FrameZones FrameSession FrameInit.
From S2P Require Import FrameClient Obj Vmem PageTable.

(** ** Running the operations on the state *)

Definition set_vm (s : vm_state) (m : mem) : vm_state :=
  VmState (set_mem (vm_fa s) m) (vmem_area_alloc s) (curr_vmem s) (cr3 s).

Lemma set_vm_id s : set_vm s (vm_mem s) = s.
Proof. by destruct s as [[]]. Qed.
Lemma set_vm_set s m m' : set_vm (set_vm s m) m' = set_vm s m'.
Proof. done. Qed.

Lemma vload_ok a s : kok a 8 = true -> vload a s = Ret (ld64 (vm_mem s) a, s).
Proof.
  intros H. unfold vload, in_kmem, in_fa, in_mem, klift. rewrite load_ok by done.
  by destruct s as [[]].
Qed.
Lemma vstore_ok a v s : kok a 8 = true -> vstore a v s = Ret (tt, set_vm s (st64 (vm_mem s) a v)).
Proof. intros H. unfold vstore, in_kmem, in_fa, in_mem, klift. by rewrite store_ok. Qed.

Lemma in_kmem_ok {A} (c : K mem A) s a m' :
  c (vm_mem s) = Ret (a, m') -> in_kmem c s = Ret (a, set_vm s m').
Proof. intros H. unfold in_kmem, in_fa, in_mem, klift. unfold vm_mem in H. by rewrite H. Qed.

Lemma in_fa_ok {A} (c : K fa_state A) s a m' :
  c (vm_fa s) = Ret (a, set_mem (vm_fa s) m') -> in_fa c s = Ret (a, set_vm s m').
Proof. intros H. unfold in_fa, klift. by rewrite H. Qed.

(** ** Entries of tables that are frames *)

Lemma entry_frame t i :
  frame_at t -> 0 <= i < 512 ->
  entry_addr t i = t + 8 * i /\ kok (entry_addr t i) 8 = true /\ aligned 8 (entry_addr t i).
Proof.
  intros Hf Hi. pose proof Hf as [Ha H1 H2]. unfold entry_addr.
  assert (E : u64 (t + 8 * i) = t + 8 * i).
  { unfold KERNEL_DIRECT_PHYS_MAPPING_START, KERNEL_DIRECT_PHYS_MAPPING_SIZE, PAGE_SIZE in *. apply u64_small. lia. }
  rewrite E. split; [done|]. split.
  - eapply (frame_at_kok t); [done|lia|lia|unfold PAGE_SIZE; lia].
  - apply aligned_add; [eapply aligned_trans, Ha; by exists 512|apply Z.divide_factor_l].
Qed.

Lemma entry_in_frame t i a :
  frame_at t -> 0 <= i < 512 -> in_range (entry_addr t i) 8 a -> in_range t PAGE_SIZE a.
Proof. intros Hf Hi. destruct (entry_frame t i Hf Hi) as [-> _]. unfold in_range, PAGE_SIZE. lia. Qed.

Lemma entry_st m t i v t' i' :
  frame_at t -> frame_at t' -> 0 <= i < 512 -> 0 <= i' < 512 ->
  ld64 (st64 m (entry_addr t i) v) (entry_addr t' i') =
    if decide (t' = t /\ i' = i) then u64 v else ld64 m (entry_addr t' i').
Proof.
  intros Hf Hf' Hi Hi'. destruct (entry_frame t i) as (E & _ & Ha); [done..|].
  destruct (entry_frame t' i') as (E' & _ & Ha'); [done..|]. rewrite ld64_st64 by done.
  rewrite E, E'. do 2 case_decide; try done; [|naive_solver lia].
  exfalso. destruct (decide (t' = t)) as [->|Hne]; [lia|].
  destruct (frames_apart t t' Hf Hf' ltac:(done)); unfold PAGE_SIZE in *; lia.
Qed.

Lemma entry_agree P m m' t i :
  agree P m m' -> frame_at t -> 0 <= i < 512 -> (forall a, in_range t PAGE_SIZE a -> P a) ->
  ld64 m' (entry_addr t i) = ld64 m (entry_addr t i).
Proof.
  intros Hag Hf Hi HP. eapply ld_agree; [exact Hag|]. intros a Ha. by eapply HP, entry_in_frame.
Qed.

Lemma entry_zero m t i :
  frame_at t -> 0 <= i < 512 -> (forall a, in_range t PAGE_SIZE a -> rd8 m a = 0) -> ld64 m (entry_addr t i) = 0.
Proof.
  intros Hf Hi Hz. trans (ld64 ∅ (entry_addr t i)); [|done]. apply ld_ext.
  intros a Ha. rewrite Hz; [done|]. by eapply entry_in_frame.
Qed.

Lemma child_zero m l t i : ld64 m (entry_addr t i) = 0 -> child m l t i = None.
Proof. unfold child. by intros ->. Qed.

Lemma tree_same m m' root T :
  tree m root T ->
  (forall l p t i, (1 <= l)%nat -> T !! (S l, p) = Some t -> 0 <= i < 512 ->
     child m' (S l) t i = child m (S l) t i) -> tree m' root T.
Proof.
  intros [H1 H2 H3 H4 H5] Hc. split; try done.
  - intros l p t i t' Hl Ht Hi. rewrite (Hc _ p) by done. by apply H3.
  - intros l q t Hl Ht. destruct (H4 l q t Hl Ht) as (p & i & t0 & Ht0 & Hi & Hq & Hch).
    destruct (H2 l q t Ht) as [? _]. exists p, i, t0. by rewrite (Hc _ p) by (done || lia).
Qed.

(** ** The invariant and the effect of an operation *)

Section Vm.
Context {F : Prop} {ok : fa_state -> list Z -> Prop} `{!FrameContract F ok} `{!FrameSource ok}.

(** An entry that is not present does not have the mark of large pages. *)
Definition clean (m : mem) (T : tables) : Prop :=
  forall l p t i, T !! (l, p) = Some t -> 0 <= i < 512 ->
    has (ld64 m (entry_addr t i)) PTE_PRESENT = false -> has (ld64 m (entry_addr t i)) PTE_PAGE_SIZE = false.

Lemma clean_same m m' T :
  clean m T ->
  (forall l p t i, T !! (l, p) = Some t -> 0 <= i < 512 ->
     same_entry (ld64 m (entry_addr t i)) (ld64 m' (entry_addr t i)) \/ has (ld64 m' (entry_addr t i)) PTE_PRESENT = true \/
     ld64 m' (entry_addr t i) = 0) -> clean m' T.
Proof.
  intros Hc H l p t i Ht Hi Hp. destruct (H l p t i Ht Hi) as [(H1 & H2 & _)|[H1|H1]]; [|congruence|by rewrite H1].
  rewrite H2. eapply Hc; [done|done|]. by rewrite <- H1.
Qed.

(** [L]: the frames in use, the tables [T] among them. *)
Record vm_good (s : vm_state) (root : Z) (T : tables) (L : list Z) : Prop := {
  vg_ok : ok (vm_fa s) L;
  vg_tree : tree (vm_mem s) root T;
  vg_held : forall k t, T !! k = Some t -> t ∈ L;
  vg_clean : clean (vm_mem s) T;
}.

Record vm_effect (s : vm_state) (T : tables) (L : list Z) (m' : mem) (T' : tables) (L' : list Z) : Prop := {
  ve_held : forall p, p ∈ L -> p ∈ L';
  ve_data : agree (fun a => exists p, p ∈ L /\ (forall k, T !! k <> Some p) /\ in_range p PAGE_SIZE a) (vm_mem s) m';
  ve_outside : agree (fun a => ~ fa_bytes (vm_fa s) a) (vm_mem s) m';
  ve_tables : T ⊆ T';
  ve_new : forall k t, T' !! k = Some t -> T !! k = Some t \/ t ∉ L;
}.

Lemma vm_effect_trans s T L m1 T1 L1 m2 T2 L2 :
  vm_effect s T L m1 T1 L1 -> vm_effect (set_vm s m1) T1 L1 m2 T2 L2 -> vm_effect s T L m2 T2 L2.
Proof.
  intros [A1 A2 A3 A4 A5] [B1 B2 B3 B4 B5]. split.
  - auto.
  - eapply agree_trans; [exact A2|]. eapply agree_weaken; [exact B2|].
    intros a (p & Hp & HT & Ha). exists p. split; [by apply A1|]. split; [|done].
    intros k Hk. destruct (A5 k p Hk) as [Hk'|Hn]; [by eapply HT|done].
  - by eapply agree_trans.
  - by trans T1.
  - intros k t Hk. destruct (B5 k t Hk) as [Hk1|Hn]; [by apply A5|]. right. eauto.
Qed.

Lemma vg_frame s root T L k t : vm_good s root T L -> T !! k = Some t -> frame_at t.
Proof. intros [Hok _ Hh] Hk. eapply fc_frame; [exact Hok|by eapply Hh]. Qed.

(** Writing an entry of a table. *)
Lemma entry_write_ok s root T L l p t i v m' :
  vm_good s root T L -> T !! (l, p) = Some t -> 0 <= i < 512 -> m' = st64 (vm_mem s) (entry_addr t i) v ->
  ok (vm_fa (set_vm s m')) L /\ vm_effect s T L m' T L.
Proof.
  intros Hg Ht Hi ->. pose proof (vg_frame _ _ _ _ _ _ Hg Ht) as Hf. destruct Hg as [Hok Htr Hh].
  set (m' := st64 _ _ _).
  assert (Hag : agree (fun a => ~ in_range t PAGE_SIZE a) (vm_mem s) m').
  { eapply agree_weaken; [apply st_agree|]. intros a Ha Hr. by eapply Ha, entry_in_frame. }
  split.
  - apply (fc_write (ok := ok) (vm_fa s) L m' Hok). eapply agree_weaken; [exact Hag|].
    intros a Ha Hr. apply Ha. exists t. split; [by eapply Hh|done].
  - split; try done.
    + eapply agree_weaken; [exact Hag|]. intros a (q & Hq & HT & Ha) Hr.
      assert (q <> t) as Hne by (intros ->; by eapply HT).
      pose proof (fc_frame (ok := ok) _ _ q Hok Hq) as Hfq.
      pose proof (frames_apart q t Hfq Hf Hne). unfold apart, in_range in *. lia.
    + eapply agree_weaken; [exact Hag|]. intros a Ha Hr. apply Ha.
      eapply (fc_inside (ok := ok)); [exact Hok|]. exists t. split; [by eapply Hh|done].
    + by left.
Qed.

(** ** vmem_ensure_next_table *)

(** Setting flags of an entry changes nothing a walk sees. *)
Lemma set_flags_ok s root T L l p t i raw :
  vm_good s root T L -> T !! (l, p) = Some t -> 0 <= i < 512 -> pte_flags_ok raw -> 0 <= raw ->
  let m' := st64 (vm_mem s) (entry_addr t i) (Z.lor (ld64 (vm_mem s) (entry_addr t i)) raw) in
  vm_good (set_vm s m') root T L /\ vm_effect s T L m' T L /\
  forall va, walk m' 4 root va = walk (vm_mem s) 4 root va.
Proof.
  intros Hg Ht Hi Hraw Hraw0 m'.
  destruct (entry_write_ok s root T L l p t i _ m' Hg Ht Hi eq_refl) as [Hok' He].
  assert (Hsame : forall l' p' t' i', T !! (l', p') = Some t' -> 0 <= i' < 512 ->
            same_entry (ld64 (vm_mem s) (entry_addr t' i')) (ld64 m' (entry_addr t' i'))).
  { intros l' p' t' i' Ht' Hi'. unfold m'.
    rewrite entry_st by (done || by eapply vg_frame). case_decide as E; [|done]. destruct E as [-> ->].
    rewrite u64_small.
    - by apply lor_flags_same.
    - apply lor_range64; [apply ld64_range|]. pose proof (flags_range raw Hraw0 Hraw). lia. }
  split; [|split; [done|]].
  - split; [done| |apply Hg|].
    + eapply tree_same; [apply Hg|]. intros l' p' t' i' _ Ht' Hi'. by eapply child_same, Hsame.
    + eapply clean_same; [apply Hg|]. intros l' p' t' i' Ht' Hi'. left. by eapply Hsame.
  - intros va. eapply walk_ext; [apply Hg|]. intros l' t' Ht'. eapply Hsame; [done|apply index_bounds].
Qed.

(** A zeroed frame becomes the table of a prefix that had none. *)
Section NewTable.
Context (s : vm_state) (root : Z) (T : tables) (L : list Z) (l : nat) (t va : Z).
Hypothesis Hg : vm_good s root T L.
Hypothesis Hl : (1 <= l <= 3)%nat.
Hypothesis Ht : T !! (S l, prefix (S l) va) = Some t.
Hypothesis Habsent : has (ld64 (vm_mem s) (entry_addr t (index (S l) va))) PTE_PRESENT = false.
Context (n e : Z) (m' : mem).
Hypothesis Hn : n ∉ L.
Hypothesis Hnf : frame_at n.
Hypothesis He : has e PTE_PRESENT = true /\ has e PTE_PAGE_SIZE = false /\ PHYS_TO_VIRT (PTE_ADDR e) = n.
Hypothesis Hent : forall l0 p0 t0 i0, T !! (l0, p0) = Some t0 -> 0 <= i0 < 512 ->
  ld64 m' (entry_addr t0 i0) =
    if decide (t0 = t /\ i0 = index (S l) va) then e else ld64 (vm_mem s) (entry_addr t0 i0).
Hypothesis Hzero : forall i0, 0 <= i0 < 512 -> ld64 m' (entry_addr n i0) = 0.

Let T' : tables := <[(l, prefix l va) := n]> T.

Lemma new_key : T !! (l, prefix l va) = None.
Proof.
  destruct (T !! (l, prefix l va)) as [t'|] eqn:E; [|done]. exfalso.
  destruct (tr_back _ _ _ (vg_tree _ _ _ _ Hg) l _ _ ltac:(lia) E) as (p & i & t0 & Hp & Hi & Hq & Hc).
  rewrite prefix_index in Hq by lia. pose proof (index_bounds (S l) va).
  assert (p = prefix (S l) va) as -> by lia. assert (i = index (S l) va) as -> by lia.
  rewrite Ht in Hp. injection Hp as <-. unfold child in Hc. by rewrite Habsent in Hc.
Qed.

Lemma new_child : child m' (S l) t (index (S l) va) = Some n.
Proof.
  destruct He as (H1 & H2 & H3). unfold child. rewrite (Hent _ _ _ _ Ht) by apply index_bounds.
  rewrite decide_True by done. rewrite H1, H3. unfold large. by destruct l as [|[|[|]]]; rewrite ?H2.
Qed.

Lemma old_child l0 p0 t0 i0 :
  T !! (l0, p0) = Some t0 -> 0 <= i0 < 512 -> ~ (t0 = t /\ i0 = index (S l) va) ->
  child m' l0 t0 i0 = child (vm_mem s) l0 t0 i0.
Proof. intros H0 Hi0 Hne. apply child_same. rewrite (Hent _ _ _ _ H0) by done. by rewrite decide_False. Qed.

Lemma new_tree : tree m' root T'.
Proof.
  pose proof (vg_tree _ _ _ _ Hg) as [H1 H2 H3 H4 H5]. pose proof new_key as Hk. split.
  - unfold T'. rewrite lookup_insert_ne; [done|]. intros [= -> _]. lia.
  - intros l0 p0 t0 [[[= <- <-] <-]|[_ H0]]%lookup_insert_Some; [lia|by eapply H2].
  - intros l0 p0 t0 i0 t' Hl0 [[[= Ea <-] <-]|[_ H0]]%lookup_insert_Some Hi0 Hc.
    { by rewrite child_zero in Hc by (by apply Hzero). }
    destruct (decide (t0 = t /\ i0 = index (S l) va)) as [[-> ->]|Hne].
    + injection (H5 _ _ _ H0 Ht) as -> ->. rewrite new_child in Hc. injection Hc as <-.
      rewrite <- prefix_index by lia. apply lookup_insert_eq.
    + rewrite (old_child _ _ _ _ H0) in Hc by done. pose proof (H3 _ _ _ _ _ Hl0 H0 Hi0 Hc) as Ht'.
      unfold T'. rewrite lookup_insert_ne; [done|]. intros E. rewrite <- E in Ht'. by rewrite Hk in Ht'.
  - intros l0 q t0 Hl0 [[[= <- <-] <-]|[Hne H0]]%lookup_insert_Some.
    + exists (prefix (S l) va), (index (S l) va), t. split.
      { unfold T'. rewrite lookup_insert_ne; [done|]. intros [= E]. lia. }
      split; [apply index_bounds|]. split; [apply prefix_index; lia|apply new_child].
    + destruct (H4 l0 q t0 Hl0 H0) as (p & i & t1 & Hp & Hi & Hq & Hc). exists p, i, t1. split.
      { unfold T'. rewrite lookup_insert_ne; [done|]. intros E. rewrite <- E in Hp. by rewrite Hk in Hp. }
      split; [done|]. split; [done|]. rewrite (old_child _ _ _ _ Hp); [done|done|].
      intros [-> ->]. unfold child in Hc. by rewrite Habsent in Hc.
  - intros k k' t0 [[<- <-]|[_ H0]]%lookup_insert_Some [[<- Hx]|[_ H0']]%lookup_insert_Some.
    + done.
    + exfalso. by eapply Hn, (vg_held _ _ _ _ Hg).
    + exfalso. subst t0. by eapply Hn, (vg_held _ _ _ _ Hg).
    + by eapply H5.
Qed.

(** No translation changes. *)
Lemma new_walk va' : walk m' 4 root va' = walk (vm_mem s) 4 root va'.
Proof.
  pose proof (vg_tree _ _ _ _ Hg) as Htr.
  destruct (decide (prefix l va' = prefix l va)) as [Hpl|Hpl].
  - pose proof (prefix_same _ _ _ Hpl) as Hps. pose proof (index_same l _ _ ltac:(lia) Hpl) as Hix.
    apply (walk_ext_from (vm_mem s) root T Htr m' va' (S l)); [|..|lia].
    + intros t0 H0. rewrite Hps, Ht in H0. injection H0 as <-.
      rewrite (walk_child m' l t va' n); [|lia|rewrite Hix; apply new_child].
      trans (@None Z); [|symmetry].
      * destruct l as [|l']; [lia|]. cbn [walk]. unfold table_entry, present.
        by rewrite Hzero by apply index_bounds.
      * cbn [walk]. unfold table_entry, present. by rewrite Hix, Habsent.
    + intros l0 t0 Hl0 H0. rewrite (Hent _ _ _ _ H0) by apply index_bounds.
      rewrite decide_False; [done|]. intros [-> _].
      injection (tr_inj _ _ _ Htr _ _ _ H0 Ht) as ?. lia.
  - apply (walk_ext (vm_mem s) root T Htr m' va'). intros l0 t0 H0.
    rewrite (Hent _ _ _ _ H0) by apply index_bounds. rewrite decide_False; [done|]. intros [-> Hix].
    injection (tr_inj _ _ _ Htr _ _ _ H0 Ht) as -> Hp. apply Hpl. rewrite (prefix_index l va'), (prefix_index l va) by lia. by rewrite Hp, Hix.
Qed.
End NewTable.

(** A new frame, filled with zeros, is entered in a table. *)
Lemma install_ok s root T L l t va n m1 m2 raw :
  vm_good s root T L -> (1 <= l <= 3)%nat -> T !! (S l, prefix (S l) va) = Some t ->
  has (ld64 (vm_mem s) (entry_addr t (index (S l) va))) PTE_PRESENT = false ->
  pte_flags_ok raw -> 0 <= raw ->
  n ∉ L -> ok (vm_fa (set_vm s m1)) (n :: L) -> agree (frame_byte L) (vm_mem s) m1 ->
  agree (fun a => ~ fa_bytes (vm_fa s) a) (vm_mem s) m1 -> filled n PAGE_SIZE 0 m1 m2 ->
  let m' := st64 m2 (entry_addr t (index (S l) va)) (Z.lor (Z.lor (VIRT_TO_PHYS n) PTE_PRESENT) raw) in
  let T' := <[(l, prefix l va) := n]> T in
  vm_good (set_vm s m') root T' (n :: L) /\ vm_effect s T L m' T' (n :: L) /\
  forall va', walk m' 4 root va' = walk (vm_mem s) 4 root va'.
Proof.
  intros Hg Hl Ht Habs Hraw Hraw0 Hn Hok1 Hag1 Hout1 Hfill m' T'.
  set (e := Z.lor (Z.lor (VIRT_TO_PHYS n) PTE_PRESENT) raw) in *.
  pose proof (fc_frame (ok := ok) _ _ n Hok1 ltac:(set_solver)) as Hnf.
  pose proof (vg_frame _ _ _ _ _ _ Hg Ht) as Htf. pose proof (vg_held _ _ _ _ Hg _ _ Ht) as HtL.
  pose proof (index_bounds (S l) va) as Hix.
  assert (Hnt : forall k t0, T !! k = Some t0 -> t0 <> n).
  { intros k t0 H0 ->. by eapply Hn, (vg_held _ _ _ _ Hg). }
  destruct (frame_at_phys n Hnf) as (Hpr & Hpa & Hpv).
  destruct (made_page_entry (VIRT_TO_PHYS n) raw) as (H1 & H2 & H3 & H4);
    [unfold KERNEL_DIRECT_PHYS_MAPPING_SIZE in Hpr; lia|done|done|done|]. fold e in H1, H2, H3, H4. rewrite <- Hpv in Hpv at 2.
  assert (Hsep : forall p a, p ∈ L -> in_range p PAGE_SIZE a -> ~ in_range n PAGE_SIZE a).
  { intros p a Hp Ha Hr. assert (p <> n) as Hne by (by intros ->).
    pose proof (frames_apart p n (fc_frame (ok := ok) _ _ p (vg_ok _ _ _ _ Hg) Hp) Hnf Hne).
    unfold apart, in_range in *. lia. }
  assert (Hm2 : agree (frame_byte L) (vm_mem s) m2).
  { eapply agree_trans; [exact Hag1|]. eapply agree_weaken; [by apply (filled_agree n PAGE_SIZE 0)|].
    intros a (p & Hp & Ha). by eapply Hsep. }
  assert (Hent : forall l0 p0 t0 i0, T !! (l0, p0) = Some t0 -> 0 <= i0 < 512 ->
    ld64 m' (entry_addr t0 i0) =
      if decide (t0 = t /\ i0 = index (S l) va) then e else ld64 (vm_mem s) (entry_addr t0 i0)).
  { intros l0 p0 t0 i0 H0 Hi0. unfold m'. rewrite entry_st by (done || by eapply vg_frame).
    case_decide; [by rewrite H4|]. eapply entry_agree; [exact Hm2|by eapply vg_frame|done|].
    intros a Ha. exists t0. split; [by eapply (vg_held _ _ _ _ Hg)|done]. }
  assert (Hzero : forall i0, 0 <= i0 < 512 -> ld64 m' (entry_addr n i0) = 0).
  { intros i0 Hi0. unfold m'. rewrite entry_st by done. rewrite decide_False.
    - apply entry_zero; [done|done|]. intros a Ha. rewrite Hfill. by rewrite decide_True.
    - intros [E _]. by eapply (Hnt _ t). }
  assert (He : has e PTE_PRESENT = true /\ has e PTE_PAGE_SIZE = false /\ PHYS_TO_VIRT (PTE_ADDR e) = n).
  { rewrite H1, H2, H3. split; [done|]. split; [done|]. by apply frame_at_phys. }
  assert (Hst : agree (fun a => ~ in_range t PAGE_SIZE a) m2 m').
  { eapply agree_weaken; [apply st_agree|]. intros a Ha Hr. by eapply Ha, entry_in_frame. }
  split; [|split].
  - split.
    + apply (fc_write (ok := ok) (vm_fa (set_vm s m1)) (n :: L) m' Hok1).
      apply (agree_trans _ _ m2).
      * eapply agree_weaken; [by apply (filled_agree n PAGE_SIZE 0)|].
        intros a Ha Hr. apply Ha. exists n. split; [set_solver|done].
      * eapply agree_weaken; [exact Hst|]. intros a Ha Hr. apply Ha. exists t. split; [set_solver|done].
    + by eapply new_tree.
    + intros k t0 [[<- <-]|[_ H0]]%lookup_insert_Some; [set_solver|].
      apply list_elem_of_further. by eapply (vg_held _ _ _ _ Hg).
    + intros l0 p0 t0 i0 [[_ <-]|[_ H0]]%lookup_insert_Some Hi0 Habs0; [by rewrite Hzero by done|].
      change (vm_mem (set_vm s m')) with m' in *. rewrite (Hent _ _ _ _ H0 Hi0) in *.
      case_decide; [congruence|]. by eapply (vg_clean _ _ _ _ Hg).
  - split.
    + intros p Hp. by apply list_elem_of_further.
    + apply (agree_trans _ _ m2).
      * eapply agree_weaken; [exact Hm2|]. intros a (p & Hp & _ & Ha). by exists p.
      * eapply agree_weaken; [exact Hst|]. intros a (p & Hp & HT & Ha) Hr.
        assert (p <> t) as Hne by (intros ->; by eapply HT).
        pose proof (frames_apart p t (fc_frame (ok := ok) _ _ p (vg_ok _ _ _ _ Hg) Hp) Htf Hne).
        unfold apart, in_range in *. lia.
    + apply (agree_trans _ _ m1); [done|]. apply (agree_trans _ _ m2).
      * eapply agree_weaken; [by apply (filled_agree n PAGE_SIZE 0)|]. intros a Ha Hr. apply Ha.
        apply (fc_inside (ok := ok) (vm_fa (set_vm s m1)) (n :: L)); [done|]. exists n. split; [set_solver|done].
      * eapply agree_weaken; [exact Hst|]. intros a Ha Hr. apply Ha.
        apply (fc_inside (ok := ok) (vm_fa s) L); [apply Hg|]. by exists t.
    + apply insert_subseteq. by eapply new_key.
    + intros k t0 [[<- <-]|[_ H0]]%lookup_insert_Some; [by right|by left].
  - intros va'. by eapply new_walk.
Qed.

Lemma ensure_ok s root T L l t va raw :
  vm_good s root T L -> (1 <= l <= 3)%nat -> T !! (S l, prefix (S l) va) = Some t ->
  pte_flags_ok raw -> 0 <= raw -> walk (vm_mem s) 4 root va = None ->
  vmem_ensure_next_table t (index (S l) va) raw s = Ret (NULL, s) /\ capacity (vm_fa s) <= Z.of_nat (length L) \/
  exists t' m' T' L', vmem_ensure_next_table t (index (S l) va) raw s = Ret (t', set_vm s m') /\
    t' <> NULL /\ vm_good (set_vm s m') root T' L' /\ vm_effect s T L m' T' L' /\
    T' !! (l, prefix l va) = Some t' /\
    (T' = T /\ L' = L \/ T !! (l, prefix l va) = None /\ T' = <[(l, prefix l va) := t']> T /\ length L' = S (length L)) /\
    forall va', walk m' 4 root va' = walk (vm_mem s) 4 root va'.
Proof.
  intros Hg Hl Ht Hraw Hraw0 Hw. pose proof (vg_frame _ _ _ _ _ _ Hg Ht) as Htf.
  pose proof (index_bounds (S l) va) as Hix.
  destruct (entry_frame t (index (S l) va) Htf Hix) as (_ & Hk & _).
  assert (Hnn : forall p, frame_at p -> p <> NULL).
  { intros p [_ Hp _] ->. by unfold KERNEL_DIRECT_PHYS_MAPPING_START, NULL in Hp. }
  unfold vmem_ensure_next_table, entry, set_entry. kstep (vload_ok _ s Hk).
  destruct (has _ PTE_PRESENT) eqn:Hp.
  - right. kstep (vload_ok _ s Hk). kstep (vstore_ok _ (Z.lor (ld64 (vm_mem s) (entry_addr t (index (S l) va))) raw) s Hk).
    destruct (set_flags_ok s root T L (S l) _ t _ raw Hg Ht Hix Hraw Hraw0) as (Hg' & He & Hwalk).
    pose proof (walk_None_not_large (vm_mem s) root T (vg_tree _ _ _ _ Hg) va l t ltac:(lia) Ht Hw Hp) as Hc.
    apply (tr_child _ _ _ (vg_tree _ _ _ _ Hg) l (prefix (S l) va) t) in Hc; [|lia|done|done].
    rewrite <- prefix_index in Hc by lia. eexists _, _, T, L. split; [reflexivity|].
    split; [by eapply Hnn, vg_frame|]. split_and!; try done. by left.
  - destruct (fc_alloc (ok := ok) (vm_fa s) L (vg_ok _ _ _ _ Hg)) as
      [[Hnull Hfull]|(n & m1 & Hrun & Hn0 & Hn & Hok1 & Hag1 & Hout1 & _)].
    + left. split; [|exact Hfull]. assert (Hnull' : in_fa frame_alloc s = Ret (NULL, s)).
      { rewrite <- (set_vm_id s) at 2. apply in_fa_ok. rewrite Hnull. by destruct s as [[]]. }
      by kstep Hnull'.
    + right. kstep (in_fa_ok _ s _ _ Hrun). rewrite (proj2 (Z.eqb_neq n NULL)) by done.
      pose proof (fc_frame (ok := ok) _ _ n Hok1 ltac:(set_solver)) as Hnf.
      destruct (memset_ok n 0 PAGE_SIZE m1) as (m2 & Hset & Hfill); [done|eapply frame_at_kok; [exact Hnf|unfold PAGE_SIZE; lia..]|].
      kstep (in_kmem_ok (memset n 0 PAGE_SIZE) (set_vm s m1) tt m2 Hset). rewrite set_vm_set.
      kstep (vstore_ok _ (Z.lor (Z.lor (VIRT_TO_PHYS n) PTE_PRESENT) raw) (set_vm s m2) Hk).
      destruct (install_ok s root T L l t va n m1 m2 raw) as (Hg' & He & Hwalk); try done.
      eexists _, _, _, _. split; [reflexivity|]. split; [done|]. split; [exact Hg'|]. split; [exact He|].
      split; [apply lookup_insert_eq|]. split; [|exact Hwalk]. right. split; [|done].
      apply (new_key s root T L l t va Hg Hl Ht). by rewrite Hp.
Qed.

(** ** From the root down to the entry to write *)

(** New tables are on the way to [va], at level [l0] or above. *)
Definition new_on_path (l0 : nat) (T T' : tables) (va : Z) : Prop :=
  forall k, T' !! k <> None -> T !! k <> None \/ exists l, (l0 <= l)%nat /\ k = (l, prefix l va).

(** Each new frame is a table. *)
Definition tables_only (T : tables) (L : list Z) (T' : tables) (L' : list Z) : Prop :=
  (length L' + size T = length L + size T')%nat.

Lemma tables_only_trans T L T1 L1 T2 L2 : tables_only T L T1 L1 -> tables_only T1 L1 T2 L2 -> tables_only T L T2 L2.
Proof. unfold tables_only. lia. Qed.

(** The state after making sure of the tables down to level [l] on the way to
    [va]; [r] is the table of that level, [NULL] when memory ran out. *)
Definition ensured (s : vm_state) (root : Z) (T : tables) (L : list Z) (l : nat) (va r : Z) (s' : vm_state)
    (T' : tables) (L' : list Z) : Prop :=
  s' = set_vm s (vm_mem s') /\ vm_good s' root T' L' /\ vm_effect s T L (vm_mem s') T' L' /\
  (forall va', walk (vm_mem s') 4 root va' = walk (vm_mem s) 4 root va') /\
  (r <> NULL -> T' !! (l, prefix l va) = Some r) /\ new_on_path l T T' va /\
  tables_only T L T' L' /\ (length L' <= length L + (4 - l))%nat /\
  (r = NULL -> capacity (vm_fa s) <= Z.of_nat (length L') /\ (length L' <= length L + (3 - l))%nat).

Lemma new_on_path_refl l T va : new_on_path l T T va.
Proof. by left. Qed.

Lemma new_on_path_trans l l' T T1 T2 va :
  (l' <= l)%nat -> new_on_path l T T1 va -> new_on_path l' T1 T2 va -> new_on_path l' T T2 va.
Proof.
  intros Hl H1 H2 k Hk. destruct (H2 k Hk) as [H|H]; [|by right].
  destruct (H1 k H) as [?|(j & ? & ?)]; [by left|right]. exists j. split; [lia|done].
Qed.

Lemma vm_effect_refl s T L : vm_effect s T L (vm_mem s) T L.
Proof. split; try done. by left. Qed.

Lemma ensured_root s root T L va : vm_good s root T L -> ensured s root T L 4 va root s T L.
Proof.
  intros Hg. split; [by rewrite set_vm_id|]. split; [done|]. split; [apply vm_effect_refl|].
  split; [done|]. split; [|split; [apply new_on_path_refl|]].
  - intros _. rewrite prefix_top. apply Hg.
  - split; [done|]. split; [lia|]. intros ->.
    destruct (fc_frame (ok := ok) _ _ NULL (vg_ok _ _ _ _ Hg) (vg_held _ _ _ _ Hg _ _ (tr_root _ _ _ (vg_tree _ _ _ _ Hg)))) as [_ H _].
    by unfold KERNEL_DIRECT_PHYS_MAPPING_START, NULL in H.
Qed.

Lemma ensure_next s root T L l va t s1 T1 L1 raw :
  ensured s root T L (S l) va t s1 T1 L1 -> t <> NULL -> (1 <= l <= 3)%nat ->
  pte_flags_ok raw -> 0 <= raw -> walk (vm_mem s) 4 root va = None ->
  exists r s2 T2 L2, vmem_ensure_next_table t (index (S l) va) raw s1 = Ret (r, s2) /\
    ensured s root T L l va r s2 T2 L2.
Proof.
  intros (Hs1 & Hg & He & Hwalk & Hk & Hn & Hto & Hlen & _) Ht Hl Hraw Hraw0 Hw.
  destruct (ensure_ok s1 root T1 L1 l t va raw Hg Hl (Hk Ht) Hraw Hraw0) as
    [[Hrun Hfull]|(r & m' & T2 & L2 & Hrun & Hr & Hg' & He' & Hk' & Hn' & Hw')]; [by rewrite Hwalk| |].
  - exists NULL, s1, T1, L1. split; [done|]. rewrite Hs1 in Hfull. do 5 (split; [done|]).
    split; [apply (new_on_path_trans (S l) l T T1); [lia|done|apply new_on_path_refl]|].
    split; [done|]. split; [lia|]. intros _. split; [exact Hfull|lia].
  - exists r, (set_vm s1 m'), T2, L2. split; [done|]. split; [by rewrite Hs1|]. split; [done|].
    split; [|split].
    + eapply vm_effect_trans; [exact He|]. by rewrite <- Hs1.
    + intros va'. rewrite <- Hwalk. apply Hw'.
    + split; [done|]. split; [apply (new_on_path_trans (S l) l T T1); [lia|done|]|].
      2:{ split; [|split; [|done]].
          - apply (tables_only_trans _ _ T1 L1); [done|]. unfold tables_only.
            destruct Hn' as [[-> ->]|(Hno & -> & Hl2)]; [done|]. rewrite map_size_insert_None by done. lia.
          - destruct Hn' as [[_ ->]|(_ & _ & Hl2)]; lia. }
      destruct Hn' as [[-> _]|(_ & -> & _)]; [apply new_on_path_refl|].
      intros k Hkk. destruct (decide (k = (l, prefix l va))) as [->|Hne]; [right; by exists l|].
      left. by rewrite lookup_insert_ne in Hkk.
Qed.

(** An entry that maps a page, at level 1, or a large page, at levels 2 and 3,
    goes where no entry was. *)
Lemma leaf_write_ok s root T L l t va e :
  vm_good s root T L -> (1 <= l <= 3)%nat -> T !! (l, prefix l va) = Some t ->
  has (ld64 (vm_mem s) (entry_addr t (index l va))) PTE_PRESENT = false ->
  has e PTE_PRESENT = true -> l = 1%nat \/ has e PTE_PAGE_SIZE = true -> u64 e = e ->
  let m' := st64 (vm_mem s) (entry_addr t (index l va)) e in
  vm_good (set_vm s m') root T L /\ vm_effect s T L m' T L /\
  forall va', walk m' 4 root va' =
    if decide (prefix (l - 1) va' = prefix (l - 1) va) then Some (leaf l e va') else walk (vm_mem s) 4 root va'.
Proof.
  intros Hg Hl Ht Habs Hp Hlarge He m'. pose proof (vg_tree _ _ _ _ Hg) as Htr.
  pose proof (index_bounds l va) as Hix.
  destruct (entry_write_ok s root T L l _ t _ e m' Hg Ht Hix eq_refl) as [Hok' Heff].
  assert (Hent : forall l0 p0 t0 i0, T !! (l0, p0) = Some t0 -> 0 <= i0 < 512 ->
    ld64 m' (entry_addr t0 i0) =
      if decide (t0 = t /\ i0 = index l va) then e else ld64 (vm_mem s) (entry_addr t0 i0)).
  { intros l0 p0 t0 i0 H0 Hi0. unfold m'. rewrite entry_st by (done || by eapply vg_frame). by rewrite He. }
  assert (Htree : tree m' root T).
  { eapply tree_same; [exact Htr|]. intros l0 p0 t0 i0 Hl0 H0 Hi0.
    destruct (decide (t0 = t /\ i0 = index l va)) as [[-> ->]|Hne].
    - injection (tr_inj _ _ _ Htr _ _ _ H0 Ht) as E Ep. subst l p0.
      unfold child. rewrite (Hent _ _ _ _ H0), decide_True, Habs, Hp by done. cbn [andb].
      destruct Hlarge as [|Hlarge]; [lia|]. unfold large. destruct l0 as [|[|[|l0]]]; try lia; by rewrite Hlarge.
    - apply child_same. by rewrite (Hent _ _ _ _ H0), decide_False by done. }
  assert (Hclean : clean m' T).
  { eapply clean_same; [apply Hg|]. intros l0 p0 t0 i0 H0 Hi0. rewrite (Hent _ _ _ _ H0 Hi0).
    case_decide; [by right; left|by left]. }
  split; [split; [done|done|apply Hg|done]|]. split; [done|]. intros va'.
  destruct l as [|l]; [lia|]. rewrite Nat.sub_succ, Nat.sub_0_r.
  case_decide as Hpre.
  - pose proof (prefix_same _ _ _ Hpre) as Hps. pose proof (index_same l va' va ltac:(lia) Hpre) as Hi.
    rewrite (tree_walk m' root T Htree va' (S l) t) by (by rewrite Hps). cbn [walk].
    unfold table_entry, present. rewrite (Hent _ _ _ _ Ht), decide_True, Hp by (rewrite Hi; done).
    cbn [mbind option_bind].
    replace ((l =? 0)%nat || large (S l) e) with true; [done|]. symmetry. apply orb_true_iff.
    destruct Hlarge as [E|Hlarge]; [left; by injection E as ->|].
    destruct l as [|[|[|l]]]; [by left|by right..|lia].
  - apply (walk_ext (vm_mem s) root T Htr m' va'). intros l0 t0 H0.
    rewrite (Hent _ _ _ _ H0) by apply index_bounds. rewrite decide_False; [done|]. intros [-> Hi].
    injection (tr_inj _ _ _ Htr _ _ _ H0 Ht) as -> Hps. apply Hpre.
    rewrite (prefix_index l va'), (prefix_index l va) by lia. by rewrite Hps, Hi.
Qed.
End Vm.
#[global] Arguments vm_good ok s root T L : clear implicits.
#[global] Arguments ensured ok s root T L l va r s' T' L' : clear implicits.
