(* ===== verification/VmemMap.v ===== *)
(** * vmem_map_page: one more translation, or none *)

From S2P Require Import Prelude Mem Common DList Buddy Paging FrameAlloc FrameRefine FrameZones FrameSession FrameInit.
From S2P Require Import FrameExample FrameClient Obj Vmem PageTable VmemSpec.

Lemma size_aligned_pow2 k a : 0 <= k -> aligned (2 ^ k) a -> size_aligned (2 ^ k) a = true.
Proof.
  intros Hk [q ->]. unfold size_aligned. apply Z.eqb_eq.
  rewrite <- (Z.shiftl_1_l k), land_lnot_mask, Z.shiftl_1_l by done. by rewrite Z.div_mul by (pose proof (pow2_pos k); lia).
Qed.

Lemma page_aligned_true a : aligned PAGE_SIZE a -> page_aligned a = true.
Proof. apply (size_aligned_pow2 12). done. Qed.

Lemma page_iff_prefix va va' :
  canonical va -> canonical va' -> va' / PAGE_SIZE = va / PAGE_SIZE <-> prefix 0 va' = prefix 0 va.
Proof. intros Hc Hc'. split; [apply page_prefix|by apply prefix_page]. Qed.

(** A call of [vmem_ensure_next_table] in the middle of an operation. *)
Ltac ensure_step H lvl r s2 T2 L2 H2 :=
  match goal with
  | |- context [kbind (vmem_ensure_next_table _ _ ?raw) _ _] =>
      destruct (ensure_next _ _ _ _ lvl _ _ _ _ _ raw H) as (r & s2 & T2 & L2 & Hrun & H2);
      [done|lia|apply convert_flags_ok|apply convert_flags_range|done|];
      kstep Hrun; clear Hrun
  end.

(** The entry of the page of [va], at level 1, is [e]. *)
Definition maps_to (m : mem) (T : tables) (va e : Z) : Prop :=
  exists t, T !! (1%nat, prefix 1 va) = Some t /\ ld64 m (entry_addr t (index 1 va)) = e.

(** The frame of an entry made for it. *)
Lemma made_entry_page p flags :
  frame_at p -> PHYS_TO_VIRT (PTE_ADDR (Z.lor (Z.lor (VIRT_TO_PHYS p) PTE_PRESENT) (vmem_convert_flags flags))) = p.
Proof.
  intros Hpf. destruct (frame_at_phys p Hpf) as (Hph & Hal & Hv).
  destruct (made_page_entry (VIRT_TO_PHYS p) (vmem_convert_flags flags)) as (_ & _ & E & _);
    [unfold KERNEL_DIRECT_PHYS_MAPPING_SIZE in Hph; lia|done|apply convert_flags_ok|apply convert_flags_range|].
  cbn zeta in E. by rewrite E.
Qed.

Section Vm.
Context {F : Prop} {ok : fa_state -> list Z -> Prop} `{!FrameContract F ok} `{!FrameSource ok}.

(** All frames are in use, at most [n] of them taken since. *)
Definition no_frame_left (s : vm_state) (L L' : list Z) (n : nat) : Prop :=
  capacity (vm_fa s) <= Z.of_nat (length L') /\ (length L' <= length L + n)%nat.

(** Stopping for lack of memory. *)
Lemma ensured_stop s root T L l va s1 T1 L1 :
  ensured ok s root T L l va NULL s1 T1 L1 ->
  exists m', s1 = set_vm s m' /\ vm_good ok (set_vm s m') root T1 L1 /\ vm_effect s T L m' T1 L1 /\
    new_on_path l T T1 va /\ tables_only T L T1 L1 /\ no_frame_left s L L1 (3 - l) /\
    forall va', walk m' 4 root va' = walk (vm_mem s) 4 root va'.
Proof.
  intros (Hs & Hg & He & Hw & _ & Hn & Ht & _ & Hfull). exists (vm_mem s1). rewrite <- Hs.
  destruct (Hfull eq_refl). by split_and!.
Qed.

Lemma root_nonnull s root T L : vm_good ok s root T L -> root <> NULL.
Proof.
  intros Hg ->. pose proof (vg_frame _ _ _ _ _ _ Hg (tr_root _ _ _ (vg_tree _ _ _ _ Hg))) as [_ H _].
  by unfold KERNEL_DIRECT_PHYS_MAPPING_START, NULL in H.
Qed.

(** The outcome of mapping a page of level [l] (1 for a page, 2 and 3 for a large
    one): memory ran out and nothing is mapped that was not, or the entry [e]
    is there and translates the page. *)
Definition mapped (s : vm_state) (root : Z) (T : tables) (L : list Z) (l : nat) (va e r : Z) (m' : mem)
    (T' : tables) (L' : list Z) : Prop :=
  vm_good ok (set_vm s m') root T' L' /\ vm_effect s T L m' T' L' /\ new_on_path l T T' va /\ tables_only T L T' L' /\
  (length L' <= length L + (4 - l))%nat /\
  (r = - ENOMEM /\ no_frame_left s L L' (3 - l) /\ (forall va', walk m' 4 root va' = walk (vm_mem s) 4 root va') \/
   r = 0 /\ (exists t, T' !! (l, prefix l va) = Some t /\ ld64 m' (entry_addr t (index l va)) = e) /\
   forall va', walk m' 4 root va' =
     if decide (prefix (l - 1) va' = prefix (l - 1) va) then Some (leaf l e va') else walk (vm_mem s) 4 root va').

Lemma mapped_stop s root T L l l' va e s1 T1 L1 :
  ensured ok s root T L l va NULL s1 T1 L1 -> (l' <= l)%nat ->
  exists r m' T' L', Ret (- ENOMEM, s1) = Ret (r, set_vm s m') /\ mapped s root T L l' va e r m' T' L'.
Proof.
  intros H Hl. destruct (ensured_stop _ _ _ _ _ _ _ _ _ H) as (m' & -> & ? & ? & ? & ? & [Hfull Hlen] & ?).
  exists (- ENOMEM), m', T1, L1. split; [done|]. split; [done|]. split; [done|].
  split; [by apply (new_on_path_trans l l' T T1); [| |apply new_on_path_refl]|]. split; [done|]. split; [lia|].
  left. split; [done|]. split; [|done]. split; [exact Hfull|lia].
Qed.

(** The entry is written once the tables are there. *)
Lemma mapped_leaf s root T L l va t e s1 T1 L1 :
  ensured ok s root T L l va t s1 T1 L1 -> t <> NULL -> (1 <= l <= 3)%nat ->
  has (ld64 (vm_mem s1) (entry_addr t (index l va))) PTE_PRESENT = false ->
  has e PTE_PRESENT = true -> l = 1%nat \/ has e PTE_PAGE_SIZE = true -> u64 e = e ->
  exists r m' T' L', (set_entry t (index l va) e ;; kret 0)%K s1 = Ret (r, set_vm s m') /\ mapped s root T L l va e r m' T' L'.
Proof.
  intros (Hs1 & Hg1 & He1 & Hw1 & Hk1 & Hn1 & Hto1 & Hlen1 & _) Ht Hl Habs E1 E2 E3. specialize (Hk1 Ht).
  pose proof (vg_frame _ _ _ _ _ _ Hg1 Hk1) as Hf1.
  destruct (entry_frame t (index l va) Hf1 (index_bounds l va)) as (_ & Hke & _).
  unfold set_entry. kstep (vstore_ok _ e s1 Hke).
  destruct (leaf_write_ok s1 root T1 L1 l t va e Hg1 Hl Hk1 Habs E1 E2 E3) as (Hg' & He' & Hw').
  assert (Hset : forall m, set_vm s1 m = set_vm s m) by (intros m0; by rewrite Hs1).
  rewrite Hset in *. exists 0. eexists _, T1, L1. split; [reflexivity|]. split; [exact Hg'|].
  split; [eapply vm_effect_trans; [exact He1|by rewrite <- Hs1]|]. split; [done|]. split; [done|]. split; [done|].
  right. split; [done|]. split; [|intros va'; by rewrite Hw', Hw1].
  exists t. split; [done|]. rewrite entry_st, decide_True by (done || apply index_bounds). exact E3.
Qed.

(** Where nothing is mapped and no table hangs, there is no entry. *)
Lemma no_entry s root T L l t va :
  vm_good ok s root T L -> (1 <= l)%nat -> T !! (l, prefix l va) = Some t -> walk (vm_mem s) 4 root va = None ->
  (l = 1%nat \/ T !! ((l - 1)%nat, prefix (l - 1) va) = None) ->
  has (ld64 (vm_mem s) (entry_addr t (index l va))) PTE_PRESENT = false.
Proof.
  intros Hg Hl Ht Hw Hno. destruct (has _ PTE_PRESENT) eqn:Hp; [|done]. exfalso.
  pose proof (vg_tree _ _ _ _ Hg) as Htr. destruct (decide (l = 1%nat)) as [->|Hne].
  - rewrite (tree_walk _ _ _ Htr va 1 t Ht) in Hw. cbn [walk] in Hw. unfold table_entry, present in Hw. by rewrite Hp in Hw.
  - destruct Hno as [|Hno]; [done|]. destruct l as [|[|l]]; [lia|lia|]. rewrite Nat.sub_succ, Nat.sub_0_r in Hno.
    pose proof (walk_None_not_large _ _ _ Htr va (S l) t ltac:(lia) Ht Hw Hp) as Hc.
    destruct (tr_top _ _ _ Htr _ _ _ Ht) as [Hl4 _].
    apply (tr_child _ _ _ Htr (S l) (prefix (S (S l)) va) t) in Hc; [|lia|done|apply index_bounds].
    rewrite <- prefix_index in Hc by lia. congruence.
Qed.

Lemma map_page_mapped s root T L vm va frame flags :
  vm_good ok s root T L -> kok (vm_pml4 vm) 8 = true -> ld64 (vm_mem s) (vm_pml4 vm) = root ->
  aligned PAGE_SIZE va -> 0 <= frame < 2 ^ 48 -> aligned PAGE_SIZE frame ->
  walk (vm_mem s) 4 root va = None ->
  exists r m' T' L', vmem_map_page vm va frame flags s = Ret (r, set_vm s m') /\
    mapped s root T L 1 va (Z.lor (Z.lor frame PTE_PRESENT) (vmem_convert_flags flags)) r m' T' L'.
Proof.
  intros Hg Hvm Hroot Hal Hfr Hfa Hw. unfold vmem_map_page.
  rewrite !kassert_true by (by apply page_aligned_true). kstep (vload_ok _ s Hvm). rewrite Hroot.
  pose proof (root_nonnull _ _ _ _ Hg) as Hr0. pose proof (ensured_root s root T L va Hg) as H4.
  change (PML4E_FROM_ADDR va) with (index 4 va). ensure_step H4 3%nat t3 s3 T3 L3 H3.
  destruct (Z.eqb_spec t3 NULL) as [->|Ht3]; [by eapply mapped_stop; [eassumption|lia]|].
  change (PDPE_FROM_ADDR va) with (index 3 va). ensure_step H3 2%nat t2 s2 T2 L2 H2.
  destruct (Z.eqb_spec t2 NULL) as [->|Ht2]; [by eapply mapped_stop; [eassumption|lia]|].
  change (PDE_FROM_ADDR va) with (index 2 va). ensure_step H2 1%nat t1 s1 T1 L1 H1.
  destruct (Z.eqb_spec t1 NULL) as [->|Ht1]; [by eapply mapped_stop; [eassumption|lia]|].
  change (PTE_FROM_ADDR va) with (index 1 va). unfold entry at 1.
  destruct (made_page_entry frame (vmem_convert_flags flags)) as (E1 & E2 & E3 & E4);
    [done|done|apply convert_flags_ok|apply convert_flags_range|].
  pose proof H1 as (_ & Hg1 & _ & Hw1 & Hk1 & _). specialize (Hk1 Ht1).
  destruct (entry_frame t1 (index 1 va)) as (_ & Hke & _); [by eapply vg_frame|apply index_bounds|].
  kstep (vload_ok _ s1 Hke).
  pose proof (no_entry s1 root T1 L1 1 t1 va Hg1 ltac:(lia) Hk1 (eq_trans (Hw1 va) Hw) (or_introl eq_refl)) as Habs.
  rewrite kassert_true by (by rewrite Habs).
  by apply (mapped_leaf s root T L 1 va t1 _ s1 T1 L1 H1); [|lia| |..|left|].
Qed.

Lemma map_page_2mb_mapped s root T L vm va frame flags :
  vm_good ok s root T L -> kok (vm_pml4 vm) 8 = true -> ld64 (vm_mem s) (vm_pml4 vm) = root ->
  aligned (2 * MB) va -> 0 <= frame < 2 ^ 48 -> aligned (2 * MB) frame ->
  walk (vm_mem s) 4 root va = None -> T !! (1%nat, prefix 1 va) = None ->
  exists r m' T' L', vmem_map_page_2mb vm va frame flags s = Ret (r, set_vm s m') /\
    mapped s root T L 2 va (Z.lor (Z.lor (Z.lor frame PTE_PRESENT) PTE_PAGE_SIZE) (vmem_convert_flags flags)) r m' T' L'.
Proof.
  intros Hg Hvm Hroot Hal Hfr Hfa Hw Hno. unfold vmem_map_page_2mb.
  rewrite !kassert_true by (by apply (size_aligned_pow2 21)). kstep (vload_ok _ s Hvm). rewrite Hroot.
  pose proof (root_nonnull _ _ _ _ Hg) as Hr0. pose proof (ensured_root s root T L va Hg) as H4.
  change (PML4E_FROM_ADDR va) with (index 4 va). ensure_step H4 3%nat t3 s3 T3 L3 H3.
  destruct (Z.eqb_spec t3 NULL) as [->|Ht3]; [by eapply mapped_stop; [eassumption|lia]|].
  change (PDPE_FROM_ADDR va) with (index 3 va). ensure_step H3 2%nat t2 s2 T2 L2 H2.
  destruct (Z.eqb_spec t2 NULL) as [->|Ht2]; [by eapply mapped_stop; [eassumption|lia]|].
  change (PDE_FROM_ADDR va) with (index 2 va). unfold entry at 1.
  destruct (made_entry frame PTE_PAGE_SIZE (vmem_convert_flags flags)) as (E1 & E2 & E3 & E4);
    [done|eapply aligned_trans, Hfa; by exists 512|apply convert_flags_ok|apply convert_flags_range|by right|].
  pose proof H2 as (_ & Hg2 & _ & Hw2 & Hk2 & Hn2 & _). specialize (Hk2 Ht2).
  destruct (entry_frame t2 (index 2 va)) as (_ & Hke & _); [by eapply vg_frame|apply index_bounds|].
  kstep (vload_ok _ s2 Hke).
  assert (Hno2 : T2 !! (1%nat, prefix 1 va) = None).
  { destruct (T2 !! (1%nat, prefix 1 va)) eqn:E; [|done]. exfalso.
    destruct (Hn2 (1%nat, prefix 1 va) ltac:(by rewrite E)) as [H|(j & Hj & [= <- _])]; [by apply H|lia]. }
  pose proof (no_entry s2 root T2 L2 2 t2 va Hg2 ltac:(lia) Hk2 (eq_trans (Hw2 va) Hw) (or_intror Hno2)) as Habs.
  rewrite kassert_true by (by rewrite Habs, (vg_clean _ _ _ _ Hg2 _ _ _ _ Hk2 (index_bounds 2 va) Habs)).
  by apply (mapped_leaf s root T L 2 va t2 _ s2 T2 L2 H2); [|lia| |..|right|].
Qed.

Lemma map_page_1gb_mapped s root T L vm va frame flags :
  vm_good ok s root T L -> kok (vm_pml4 vm) 8 = true -> ld64 (vm_mem s) (vm_pml4 vm) = root ->
  aligned GB va -> 0 <= frame < 2 ^ 48 -> aligned GB frame ->
  walk (vm_mem s) 4 root va = None -> T !! (2%nat, prefix 2 va) = None ->
  exists r m' T' L', vmem_map_page_1gb vm va frame flags s = Ret (r, set_vm s m') /\
    mapped s root T L 3 va (Z.lor (Z.lor (Z.lor frame PTE_PRESENT) PTE_PAGE_SIZE) (vmem_convert_flags flags)) r m' T' L'.
Proof.
  intros Hg Hvm Hroot Hal Hfr Hfa Hw Hno. unfold vmem_map_page_1gb.
  rewrite !kassert_true by (by apply (size_aligned_pow2 30)). kstep (vload_ok _ s Hvm). rewrite Hroot.
  pose proof (root_nonnull _ _ _ _ Hg) as Hr0. pose proof (ensured_root s root T L va Hg) as H4.
  change (PML4E_FROM_ADDR va) with (index 4 va). ensure_step H4 3%nat t3 s3 T3 L3 H3.
  destruct (Z.eqb_spec t3 NULL) as [->|Ht3]; [by eapply mapped_stop; [eassumption|lia]|].
  change (PDPE_FROM_ADDR va) with (index 3 va). unfold entry at 1.
  destruct (made_entry frame PTE_PAGE_SIZE (vmem_convert_flags flags)) as (E1 & E2 & E3 & E4);
    [done|eapply aligned_trans, Hfa; by exists (512 * 512)|apply convert_flags_ok|apply convert_flags_range|by right|].
  pose proof H3 as (_ & Hg3 & _ & Hw3 & Hk3 & Hn3 & _). specialize (Hk3 Ht3).
  destruct (entry_frame t3 (index 3 va)) as (_ & Hke & _); [by eapply vg_frame|apply index_bounds|].
  kstep (vload_ok _ s3 Hke).
  assert (Hno3 : T3 !! (2%nat, prefix 2 va) = None).
  { destruct (T3 !! (2%nat, prefix 2 va)) eqn:E; [|done]. exfalso.
    destruct (Hn3 (2%nat, prefix 2 va) ltac:(by rewrite E)) as [H|(j & Hj & [= <- _])]; [by apply H|lia]. }
  pose proof (no_entry s3 root T3 L3 3 t3 va Hg3 ltac:(lia) Hk3 (eq_trans (Hw3 va) Hw) (or_intror Hno3)) as Habs.
  rewrite kassert_true by (by rewrite Habs).
  by apply (mapped_leaf s root T L 3 va t3 _ s3 T3 L3 H3); [|lia| |..|right|].
Qed.

Lemma map_page_ok s root T L vm va frame flags :
  vm_good ok s root T L -> kok (vm_pml4 vm) 8 = true -> ld64 (vm_mem s) (vm_pml4 vm) = root ->
  canonical va -> aligned PAGE_SIZE va -> 0 <= frame < 2 ^ 48 -> aligned PAGE_SIZE frame ->
  walk (vm_mem s) 4 root va = None ->
  exists r m' T' L', vmem_map_page vm va frame flags s = Ret (r, set_vm s m') /\
    vm_good ok (set_vm s m') root T' L' /\ vm_effect s T L m' T' L' /\
    (length L' <= length L + 3)%nat /\
    (r = - ENOMEM /\ no_frame_left s L L' 2 /\ (forall va', walk m' 4 root va' = walk (vm_mem s) 4 root va') \/
     r = 0 /\ maps_to m' T' va (Z.lor (Z.lor frame PTE_PRESENT) (vmem_convert_flags flags)) /\
     forall va', canonical va' -> walk m' 4 root va' =
       if decide (va' / PAGE_SIZE = va / PAGE_SIZE) then Some (frame + va' mod PAGE_SIZE)
       else walk (vm_mem s) 4 root va').
Proof.
  intros Hg Hvm Hroot Hcan Hal Hfr Hfa Hw.
  destruct (map_page_mapped s root T L vm va frame flags Hg Hvm Hroot Hal Hfr Hfa Hw)
    as (r & m' & T' & L' & Hrun & Hg' & He & _ & _ & Hlen & Hres).
  exists r, m', T', L'. split; [done|]. split; [done|]. split; [done|]. split; [exact Hlen|].
  destruct Hres as [[Hr Hw']|(Hr & Hm & Hw')]; [by left|right]. split; [done|]. split; [exact Hm|].
  intros va' Hcan'. rewrite Hw'. cbn [Nat.sub]. destruct (made_page_entry frame (vmem_convert_flags flags)) as (_ & _ & E3 & _);
    [done|done|apply convert_flags_ok|apply convert_flags_range|]. unfold leaf. rewrite E3.
  destruct (decide (va' / PAGE_SIZE = va / PAGE_SIZE)) as [Hp|Hp].
  - by rewrite decide_True by (by apply page_prefix).
  - rewrite decide_False; [done|]. intros Hpre. apply Hp. by apply prefix_page.
Qed.
End Vm.
#[global] Arguments mapped ok s root T L l va e r m' T' L' : clear implicits.
