(* ===== verification/AddrSpace.v ===== *)
(** * Address spaces: the ring of areas, the pool, the tables

    [space] puts together what a [vmem_t] refers to: its list of areas, which
    are objects of the pool, and its tree of tables. The searches through the
    list are those of the pure functions on its nodes. *)

From S2P Require Import Prelude Mem Common DList Buddy Paging FrameAlloc FrameRefine FrameZones FrameSession FrameInit.
From S2P Require Import FrameClient Obj ObjSpec Vmem PageTable VmemSpec.

(** ** The areas as the searches see them *)

(** The address after the area's last one, and whether it contains [a]. *)
Definition area_end (m : mem) (n : Z) : Z := u64 (ld64 m (n + 16) + u64 (ld64 m (n + 24) * PAGE_SIZE)).
Definition area_has (m : mem) (a n : Z) : bool := (ld64 m (n + 16) <=? a) && (a <? area_end m n).
Definition area_meets (m : mem) (lo hi n : Z) : bool :=
  negb ((hi <=? ld64 m (n + 16)) || (area_end m n <=? lo)).

Definition area_ok (n : Z) : Prop := kok n sizeof_vmem_area = true.

Lemma area_fields n :
  area_ok n -> area_start n = n + 16 /\ area_size n = n + 24 /\ area_flags n = n + 32 /\
    kok n 8 = true /\ kok (n + 16) 8 = true /\ kok (n + 24) 8 = true /\ kok (n + 32) 8 = true.
Proof.
  intros Hk. pose proof Hk as [H1 H2]%kok_spec. unfold area_start, area_size, area_flags, sizeof_vmem_area in *.
  assert (KERNEL_HIGHER_HALF_START > 0) by done. rewrite !u64_small by lia.
  split_and!; try done; apply kok_spec; lia.
Qed.

Lemma area_ok_node n : area_ok n -> node_ok n.
Proof. intros [H1 H2]%kok_spec. apply kok_spec. unfold sizeof_vmem_area in H2. lia. Qed.

(** The first node that satisfies [p], or [NULL]. *)
Fixpoint find_node (p : Z -> bool) (ns : list Z) : Z :=
  match ns with
  | [] => NULL
  | n :: ns => if p n then n else find_node p ns
  end.

Section Search.
Context (s : vm_state) (vm head : Z).
Hypothesis Hvm : kok vm 8 = true.
Hypothesis Hhead : ld64 (vm_mem s) vm = head.

(** The nodes [ns], linked from the first of them to the head. *)
Fixpoint to_head (ns : list Z) : Prop :=
  match ns with
  | [] => True
  | n :: ns => n <> head /\ area_ok n /\ ld64 (vm_mem s) n = node_first head ns /\ to_head ns
  end.

Lemma seg_to_head a ns :
  seg (vm_mem s) a ns head -> head ∉ ns -> (forall n, n ∈ ns -> area_ok n) -> to_head ns.
Proof.
  revert a; induction ns as [|n ns IH]; intros a Hs Hh Hok; [done|]. destruct Hs as [_ Hs].
  split; [intros ->; apply Hh, list_elem_of_here|]. split; [apply Hok, list_elem_of_here|].
  split; [by apply seg_first in Hs|]. eapply IH; [exact Hs| |]; intros; [intros ?|]; 
    [apply Hh|apply Hok]; by apply list_elem_of_further.
Qed.

Ltac search_step Hn :=
  let Ha := fresh in
  destruct (area_fields _ Hn) as (E1 & E2 & E3 & Ha & H16 & H24 & H32); rewrite ?E1, ?E2, ?E3.

Lemma is_mapped_loop_ok ns fuel a :
  to_head ns -> (length ns < fuel)%nat ->
  is_mapped_loop fuel vm (node_first head ns) a s = Ret (find_node (area_has (vm_mem s) a) ns, s).
Proof.
  revert fuel; induction ns as [|n ns IH]; intros fuel Hns Hf; (destruct fuel as [|fuel]; [simpl in Hf; lia|]).
  - cbn [is_mapped_loop node_first]. kstep (vload_ok vm s Hvm). by rewrite Hhead, Z.eqb_refl.
  - destruct Hns as (Hne & Hok & Hnext & Hns). simpl in Hf. cbn [is_mapped_loop].
    kstep (vload_ok vm s Hvm). rewrite Hhead. cbn [node_first].
    rewrite (proj2 (Z.eqb_neq n head)) by done. search_step Hok.
    kstep (vload_ok (n + 16) s H16). kstep (vload_ok (n + 24) s H24). cbn [find_node].
    destruct (area_has (vm_mem s) a n) eqn:E; unfold area_has, area_end in E; rewrite E; [done|].
    kstep (vload_ok n s H). rewrite Hnext. apply IH; [done|lia].
Qed.

Lemma intersects_loop_ok ns fuel lo hi :
  to_head ns -> (length ns < fuel)%nat ->
  intersects_loop fuel vm (node_first head ns) lo hi s = Ret (existsb (area_meets (vm_mem s) lo hi) ns, s).
Proof.
  revert fuel; induction ns as [|n ns IH]; intros fuel Hns Hf; (destruct fuel as [|fuel]; [simpl in Hf; lia|]).
  - cbn [intersects_loop node_first]. kstep (vload_ok vm s Hvm). by rewrite Hhead, Z.eqb_refl.
  - destruct Hns as (Hne & Hok & Hnext & Hns). simpl in Hf. cbn [intersects_loop].
    kstep (vload_ok vm s Hvm). rewrite Hhead. cbn [node_first].
    rewrite (proj2 (Z.eqb_neq n head)) by done. search_step Hok.
    kstep (vload_ok (n + 16) s H16). kstep (vload_ok (n + 24) s H24). cbn [existsb].
    destruct (area_meets (vm_mem s) lo hi n) eqn:E; unfold area_meets, area_end in E; rewrite E; [done|].
    kstep (vload_ok n s H). rewrite Hnext. apply IH; [done|lia].
Qed.

Definition area_is (m : mem) (lo hi n : Z) : bool := (lo =? ld64 m (n + 16)) && (area_end m n =? hi).

Lemma find_area_loop_ok ns fuel lo hi :
  to_head ns -> (length ns < fuel)%nat ->
  find_area_loop fuel vm (node_first head ns) lo hi s =
    Ret (let n := find_node (area_is (vm_mem s) lo hi) ns in if n =? NULL then None else Some n, s).
Proof.
  revert fuel; induction ns as [|n ns IH]; intros fuel Hns Hf; (destruct fuel as [|fuel]; [simpl in Hf; lia|]).
  - cbn [find_area_loop node_first]. kstep (vload_ok vm s Hvm). by rewrite Hhead, Z.eqb_refl.
  - destruct Hns as (Hne & Hok & Hnext & Hns). simpl in Hf. cbn [find_area_loop].
    kstep (vload_ok vm s Hvm). rewrite Hhead. cbn [node_first].
    rewrite (proj2 (Z.eqb_neq n head)) by done. search_step Hok.
    kstep (vload_ok (n + 16) s H16). kstep (vload_ok (n + 24) s H24). cbn [find_node].
    destruct (area_is (vm_mem s) lo hi n) eqn:E; unfold area_is, area_end in E; rewrite E.
    + cbn zeta. by rewrite (proj1 (negb_true_iff _) (node_ok_nonnull n (area_ok_node n Hok))).
    + kstep (vload_ok n s H). rewrite Hnext. apply IH; [done|lia].
Qed.
End Search.

Lemma find_node_Some p ns : find_node p ns <> NULL -> find_node p ns ∈ ns /\ p (find_node p ns) = true.
Proof.
  induction ns as [|n ns IH]; [done|]. cbn. destruct (p n) eqn:E.
  - intros _. split; [apply list_elem_of_here|done].
  - intros H. destruct (IH H). split; [by apply list_elem_of_further|done].
Qed.

Lemma find_node_None p ns : (forall n, n ∈ ns -> n <> NULL) -> find_node p ns = NULL -> forall n, n ∈ ns -> p n = false.
Proof.
  induction ns as [|n ns IH]; intros Hns H n' Hn'; [by apply not_elem_of_nil in Hn'|]. cbn in H.
  destruct (p n) eqn:E.
  - exfalso. by apply (Hns n); [apply list_elem_of_here|].
  - apply elem_of_cons in Hn' as [->|Hn']; [done|]. apply IH; [|done|done].
    intros y Hy. apply Hns. by apply list_elem_of_further.
Qed.

(** ** The invariant *)

Definition set_vo (s : vm_state) (m : mem) (al : obj_alloc) : vm_state :=
  VmState (set_mem (vm_fa s) m) al (curr_vmem s) (cr3 s).

Lemma in_obj_ok {A} (c : K obj_state A) s a m' al :
  c (vm_fa s, vmem_area_alloc s) = Ret (a, (set_mem (vm_fa s) m', al)) -> in_obj c s = Ret (a, set_vo s m' al).
Proof. intros H. unfold in_obj, klift. by rewrite H. Qed.

(** The bytes of the objects in use. *)
Definition object_byte (U : list Z) (a : Z) : Prop := exists n, n ∈ U /\ in_range n sizeof_vmem_area a.

Section Space.
Context {F : Prop} {ok : fa_state -> list Z -> Prop} `{!FrameContract F ok}.

Record space (s : vm_state) (vm root : Z) (T : tables) (L P fr U : list Z) (head : Z) (ns : list Z) : Prop := {
  sp_good : vm_good ok s root T L;
  sp_pool : pool_in ok (vm_fa s, vmem_area_alloc s) P fr U L;
  sp_size : obj_size (vmem_area_alloc s) = sizeof_vmem_area;
  sp_pages : forall p k, p ∈ P -> T !! k <> Some p;
  sp_vm : kok vm 16 = true;
  sp_vm_out : forall a, in_range vm 16 a -> ~ fa_bytes (vm_fa s) a;
  sp_head : ld64 (vm_mem s) (vm_areas_list vm) = head;
  sp_root : ld64 (vm_mem s) (vm_pml4 vm) = root;
  sp_ring : dll (vm_mem s) head ns;
  sp_used : forall n, n ∈ head :: ns -> n ∈ U;
}.

(** The tables only depend on their own frames. *)
Lemma vm_good_move s root T L s' L' :
  vm_good ok s root T L -> ok (vm_fa s') L' -> (forall p, p ∈ L -> p ∈ L') ->
  agree (fun a => exists k t, T !! k = Some t /\ in_range t PAGE_SIZE a) (vm_mem s) (vm_mem s') ->
  vm_good ok s' root T L' /\ forall va, walk (vm_mem s') 4 root va = walk (vm_mem s) 4 root va.
Proof.
  intros Hg Hok HL Hag. pose proof (vg_tree _ _ _ _ Hg) as Htr.
  assert (Hent : forall l p t i, T !! (l, p) = Some t -> 0 <= i < 512 ->
            ld64 (vm_mem s') (entry_addr t i) = ld64 (vm_mem s) (entry_addr t i)).
  { intros l p t i Ht Hi. eapply entry_agree; [exact Hag|by eapply vg_frame|done|].
    intros a Ha. by exists (l, p), t. }
  split.
  - split; [done| |intros k t Hk; apply HL; by eapply vg_held|].
    + eapply tree_same; [done|]. intros l p t i _ Ht Hi. apply child_same. by rewrite (Hent _ _ _ _ Ht).
    + eapply clean_same; [apply Hg|]. intros l p t i Ht Hi. left. by rewrite (Hent _ _ _ _ Ht Hi).
  - intros va. apply (walk_ext _ _ _ Htr). intros l t Ht. rewrite (Hent _ _ _ _ Ht) by apply index_bounds. done.
Qed.

(** The free list does not depend on the objects in use. *)
Lemma pool_write m m' al P fr U :
  pool m al P fr U -> obj_size al = sizeof_vmem_area -> (forall p, p ∈ P -> frame_at p) ->
  agree (fun a => ~ object_byte U a) m m' -> pool m' al P fr U.
Proof.
  intros [Hs Hc Hsl Hnd] Hsz HP Hag. split; try done.
  eapply chain_agree; [exact Hag| |exact Hc]. intros x b Hx Hb (n & Hn & Hnb).
  assert (Hne : x <> n).
  { intros ->. apply NoDup_app in Hnd as (_ & Hd & _). by eapply Hd. }
  pose proof (slots_apart (obj_size al) P Hs HP x n (Hsl x ltac:(set_solver)) (Hsl n ltac:(set_solver)) Hne).
  rewrite Hsz in *. unfold apart, in_range, sizeof_vmem_area in *. lia.
Qed.

Section Facts.
Context (s : vm_state) (vm root : Z) (T : tables) (L P fr U : list Z) (head : Z) (ns : list Z).
Hypothesis Hs : space s vm root T L P fr U head ns.

Lemma space_P_frame p : p ∈ P -> frame_at p.
Proof. intros Hp. eapply pool_frames; [apply Hs|done]. Qed.

Lemma space_slot n : n ∈ U -> slot sizeof_vmem_area P n.
Proof.
  intros Hn. rewrite <- (sp_size _ _ _ _ _ _ _ _ _ _ Hs).
  apply (pl_slots _ _ _ _ _ (proj1 (proj2 (sp_pool _ _ _ _ _ _ _ _ _ _ Hs)))). set_solver.
Qed.

Lemma space_area_ok n : n ∈ U -> area_ok n.
Proof. intros Hn. apply (slot_kok sizeof_vmem_area P); [done|apply space_P_frame|by apply space_slot|done]. Qed.

Lemma space_apart x y : x ∈ U -> y ∈ U -> x <> y -> apart x sizeof_vmem_area y sizeof_vmem_area.
Proof. intros Hx Hy Hne. apply (slots_apart sizeof_vmem_area P); [done|apply space_P_frame|by apply space_slot..|done]. Qed.

Lemma space_object_byte a : object_byte U a -> frame_byte P a.
Proof.
  intros (n & Hn & Ha). apply (slot_byte sizeof_vmem_area P ltac:(done) n a sizeof_vmem_area); try done.
  by apply space_slot.
Qed.

Lemma space_to_head : to_head s head ns.
Proof.
  pose proof (sp_ring _ _ _ _ _ _ _ _ _ _ Hs) as [Hseg Hnd _ _]. apply NoDup_cons in Hnd as [Hn _].
  eapply seg_to_head; [exact Hseg|done|]. intros n Hin. apply space_area_ok, (sp_used _ _ _ _ _ _ _ _ _ _ Hs).
  by apply list_elem_of_further.
Qed.

Lemma space_vm_kok : kok (vm_areas_list vm) 8 = true /\ kok (vm_pml4 vm) 8 = true /\ vm_pml4 vm = vm + 8.
Proof.
  pose proof (sp_vm _ _ _ _ _ _ _ _ _ _ Hs) as [H1 H2]%kok_spec. unfold vm_areas_list, vm_pml4.
  assert (KERNEL_HIGHER_HALF_START > 0) by done. rewrite u64_small by lia. split_and!; [apply kok_spec; lia..|done].
Qed.

Lemma space_first : vload head s = Ret (node_first head ns, s).
Proof.
  pose proof (sp_ring _ _ _ _ _ _ _ _ _ _ Hs) as Hr.
  rewrite vload_ok by (apply node_ok_next; by eapply dll_head_ok). by rewrite (dll_first _ _ _ Hr).
Qed.

(** vmem_is_mapped is the search of the pure function. *)
Lemma space_is_mapped fuel a :
  (length ns < fuel)%nat -> vmem_is_mapped fuel vm a s = Ret (find_node (area_has (vm_mem s) a) ns, s).
Proof.
  intros Hf. unfold vmem_is_mapped. destruct space_vm_kok as (Hk & _).
  kstep (vload_ok (vm_areas_list vm) s Hk). rewrite (sp_head _ _ _ _ _ _ _ _ _ _ Hs). kstep space_first.
  apply is_mapped_loop_ok; [exact Hk|apply Hs|apply space_to_head|done].
Qed.

Lemma space_intersects fuel lo size :
  (length ns < fuel)%nat ->
  vmem_intersects fuel vm lo size s = Ret (existsb (area_meets (vm_mem s) lo (u64 (lo + size))) ns, s).
Proof.
  intros Hf. unfold vmem_intersects. destruct space_vm_kok as (Hk & _).
  kstep (vload_ok (vm_areas_list vm) s Hk). rewrite (sp_head _ _ _ _ _ _ _ _ _ _ Hs). kstep space_first.
  apply intersects_loop_ok; [exact Hk|apply Hs|apply space_to_head|done].
Qed.
End Facts.
End Space.
#[global] Arguments space ok s vm root T L P fr U head ns : clear implicits.

(** The invariant, for a finer predicate on the frames in use. *)
Lemma pool_as (ok ok' : fa_state -> list Z -> Prop) fa al P fr U L :
  pool_in ok (fa, al) P fr U L -> ok' fa L -> pool_in ok' (fa, al) P fr U L.
Proof. by intros (_ & H1 & H2) Hok. Qed.

Lemma vm_good_as (ok ok' : fa_state -> list Z -> Prop) s root T L :
  vm_good ok s root T L -> ok' (vm_fa s) L -> vm_good ok' s root T L.
Proof. intros [_ H1 H2 H3] Hok. by split. Qed.

Lemma space_as (ok ok' : fa_state -> list Z -> Prop) s vm root T L P fr U head ns :
  space ok s vm root T L P fr U head ns -> ok' (vm_fa s) L -> space ok' s vm root T L P fr U head ns.
Proof. intros [H1 H2 ????????] Hok. split; [by eapply vm_good_as|by eapply pool_as|done..]. Qed.
