(* ===== verification/Demand.v ===== *)
(** * Regions and demand paging

    What [vmem_alloc_pages] and [vmem_handle_pf] do to an address space. *)

From S2P Require Import Prelude Mem Common DList Buddy Paging FrameAlloc FrameRefine FrameZones FrameSession FrameInit.
From S2P Require Import FrameExample FrameClient Obj ObjSpec Vmem PageTable VmemSpec VmemMap AddrSpace.

(** The memory after the new area [x] is filled in and linked. *)
Definition area_fill (m : mem) (x start size flags : Z) : mem :=
  st64 (st64 (st64 m (x + 16) start) (x + 24) size) (x + 32) flags.
Definition area_link (m : mem) (head x first : Z) : mem := insert_mem (list_init_mem m x) head x first.

Section Demand.
Context {F : Prop} {ok : fa_state -> list Z -> Prop} `{!FrameContract F ok} `{!FrameSource ok}.

(** A new object of the pool becomes the first area. *)
Section AddArea.
Context (s : vm_state) (vm root : Z) (T : tables) (L P fr U : list Z) (head : Z) (ns : list Z).
Hypothesis Hs : space ok s vm root T L P fr U head ns.
Context (x : Z) (m1 : mem) (al : obj_alloc) (P' fr' L' : list Z).
Hypothesis HxU : x ∉ U.
Hypothesis Hpool : pool_in ok (set_mem (vm_fa s) m1, al) P' fr' (x :: U) L'.
Hypothesis Hsz : obj_size al = sizeof_vmem_area.
Hypothesis Hag : agree (frame_byte L) (vm_mem s) m1.
Hypothesis Hout : agree (fun a => ~ fa_bytes (vm_fa s) a) (vm_mem s) m1.
Hypothesis HL : L' = L /\ P' = P \/ exists p, p ∉ L /\ L' = p :: L /\ P' = p :: P.
Context (start size flags : Z).

Let m2 := area_fill m1 x start size flags.
Let m' := area_link m2 head x (node_first head ns).

Lemma add_slot n : n ∈ x :: U -> slot sizeof_vmem_area P' n.
Proof.
  intros Hn. rewrite <- Hsz. apply (pl_slots _ _ _ _ _ (proj1 (proj2 Hpool))). apply elem_of_app. by right.
Qed.

Lemma add_P_frame p : p ∈ P' -> frame_at p.
Proof. intros Hp. by eapply pool_frames. Qed.

Lemma add_apart a b : a ∈ x :: U -> b ∈ x :: U -> a <> b -> apart a sizeof_vmem_area b sizeof_vmem_area.
Proof. intros Ha Hb Hne. apply (slots_apart sizeof_vmem_area P'); [done|apply add_P_frame|by apply add_slot..|done]. Qed.

Lemma add_area_ok n : n ∈ x :: U -> area_ok n.
Proof. intros Hn. apply (slot_kok sizeof_vmem_area P'); [done|apply add_P_frame|by apply add_slot|done]. Qed.

Lemma add_ring_U n : n ∈ head :: ns -> n ∈ U.
Proof. apply Hs. Qed.

(** What is written: the new object, the head of the ring and its first node. *)
Lemma add_agree_near :
  agree (fun a => forall n, n ∈ [x; head; node_first head ns] -> ~ in_range n sizeof_vmem_area a) m1 m'.
Proof.
  intros a Hn. pose proof (Hn x (list_elem_of_here _ _)) as Hx.
  pose proof (Hn head (list_elem_of_further _ _ _ (list_elem_of_here _ _))) as Hh.
  pose proof (Hn (node_first head ns) (list_elem_of_further _ _ _ (list_elem_of_further _ _ _ (list_elem_of_here _ _)))) as Hf. unfold in_range, sizeof_vmem_area in *.
  unfold m', area_link. rewrite (insert_mem_agree _ head x _ (fun b => b = a)) by (done || (intros b ->; unfold in_range in *; lia)).
  rewrite (list_init_mem_agree _ x (fun b => b = a)) by (done || (intros b ->; unfold in_range in *; lia)).
  unfold m2, area_fill, in_range in *. by rewrite !rd8_st_out by lia.
Qed.

(** Everything is written in objects in use. *)
Lemma add_agree : agree (fun a => ~ object_byte (x :: U) a) m1 m'.
Proof.
  eapply agree_weaken; [apply add_agree_near|]. intros a Ha n Hn Hr. apply Ha. exists n. split; [|done].
  rewrite !elem_of_cons, elem_of_nil in Hn. destruct Hn as [->|[->|[->|[]]]]; [apply list_elem_of_here|..];
    apply list_elem_of_further, add_ring_U; [apply list_elem_of_here|apply node_first_elem].
Qed.

Lemma add_fill_agree : agree (fun a => ~ in_range x sizeof_vmem_area a) m1 (list_init_mem m2 x).
Proof.
  intros a Ha. unfold sizeof_vmem_area, in_range in Ha.
  rewrite (list_init_mem_agree _ x (fun b => b = a)) by (done || (intros b ->; unfold in_range in *; lia)).
  unfold m2, area_fill, in_range in *. by rewrite !rd8_st_out by lia.
Qed.

Lemma add_ring_before : dll (list_init_mem m2 x) head ns.
Proof.
  eapply (dll_agree (fun a => ~ in_range x 40 a) m1); [apply add_fill_agree|..].
  - intros y a Hy%add_ring_U Ha Hxa. assert (Hne : x <> y) by (by intros ->).
    pose proof (add_apart x y (list_elem_of_here _ _) (list_elem_of_further _ _ _ Hy) Hne).
    unfold apart, in_range, sizeof_vmem_area in *. lia.
  - eapply dll_agree; [exact Hag| |apply Hs]. intros y a Hy%add_ring_U Ha.
    destruct (space_object_byte _ _ _ _ _ _ _ _ _ _ Hs a) as (p & Hp & Hpa).
    + exists y. split; [done|]. unfold in_range, sizeof_vmem_area in *. lia.
    + exists p. split; [|done]. by apply (proj2 (proj2 (sp_pool _ _ _ _ _ _ _ _ _ _ Hs))).
Qed.

Lemma add_ring : dll m' head (x :: ns).
Proof.
  unfold m', area_link. apply insert_mem_dll; [apply add_ring_before| |].
  - apply area_ok_node, add_area_ok, list_elem_of_here.
  - intros a Ha%add_ring_U. assert (Hne : x <> a) by (by intros ->).
    pose proof (add_apart x a (list_elem_of_here _ _) (list_elem_of_further _ _ _ Ha) Hne).
    unfold apart, sizeof_vmem_area in *. lia.
Qed.

(** The structure itself is not written. *)
Lemma add_vm_head : ld64 (list_init_mem m2 x) (vm_areas_list vm) = head.
Proof.
  rewrite <- (sp_head _ _ _ _ _ _ _ _ _ _ Hs). apply ld_ext. intros a Ha.
  pose proof (sp_vm_out _ _ _ _ _ _ _ _ _ _ Hs a ltac:(unfold vm_areas_list, in_range in *; lia)) as Hn.
  rewrite <- Hout by done. apply add_fill_agree. intros Hb. apply Hn.
  pose proof Hpool as (Hok1 & _ & HPL). apply (fc_inside (ok := ok) (set_mem (vm_fa s) m1) L'); [done|].
  destruct (slot_byte sizeof_vmem_area P' ltac:(done) x a sizeof_vmem_area) as (p & Hp & Hpa);
    [apply add_slot, list_elem_of_here|done|done|]. exists p. split; [by apply HPL|done].
Qed.

(** The fields of the new area, and those of the others. *)
Lemma add_field o :
  o = 16 \/ o = 24 \/ o = 32 ->
  ld64 m' (x + o) = u64 (if o =? 16 then start else if o =? 24 then size else flags) /\
  forall n, n ∈ U -> ld64 m' (n + o) = ld64 (vm_mem s) (n + o).
Proof.
  intros Ho.
  assert (Hlink : forall n, n ∈ x :: U -> ld64 m' (n + o) = ld64 m2 (n + o)).
  { intros n Hn. eapply (ld_agree 8 (fun a => forall y, y ∈ x :: U -> ~ in_range y 16 a)).
    - intros a Ha. pose proof (Ha x (list_elem_of_here _ _)).
      pose proof (Ha head (list_elem_of_further _ _ _ (add_ring_U head (list_elem_of_here _ _)))).
      pose proof (Ha _ (list_elem_of_further _ _ _ (add_ring_U _ (node_first_elem head ns)))).
      unfold m', area_link. rewrite (insert_mem_agree _ head x _ (fun b => b = a)) by (done || (intros b ->; done)).
      by rewrite (list_init_mem_agree _ x (fun b => b = a)) by (done || (intros b ->; done)).
    - intros a Ha y Hy Hya. destruct (decide (n = y)) as [<-|Hne].
      + unfold in_range in *. lia.
      + pose proof (add_apart n y Hn Hy Hne). unfold apart, in_range, sizeof_vmem_area in *. lia. }
  split.
  - rewrite (Hlink x) by apply list_elem_of_here. unfold m2, area_fill.
    destruct Ho as [->|[->| ->]]; cbn [Z.eqb Pos.eqb]; ld_simp; done.
  - intros n Hn. rewrite (Hlink n) by (by apply list_elem_of_further).
    assert (Hne : x <> n) by (by intros ->).
    pose proof (add_apart x n (list_elem_of_here _ _) (list_elem_of_further _ _ _ Hn) Hne) as Hap.
    unfold m2, area_fill, apart, sizeof_vmem_area in *.
    rewrite !ld64_st64_ne by (unfold apart; lia). eapply ld_agree; [exact Hag|].
    intros a Ha. destruct (space_object_byte _ _ _ _ _ _ _ _ _ _ Hs a) as (p & Hp & Hpa).
    + exists n. split; [done|]. unfold in_range, sizeof_vmem_area in *. lia.
    + exists p. split; [|done]. by apply (proj2 (proj2 (sp_pool _ _ _ _ _ _ _ _ _ _ Hs))).
Qed.

Lemma add_space :
  space ok (set_vo s m' al) vm root T L' P' fr' (x :: U) head (x :: ns) /\
  (forall va, walk m' 4 root va = walk (vm_mem s) 4 root va) /\
  (forall p, p ∈ L -> p ∈ L') /\ agree (fun a => ~ fa_bytes (vm_fa s) a) (vm_mem s) m'.
Proof.
  pose proof Hpool as (Hok1 & Hpl & HPL). cbn [fst snd fa_mem set_mem] in *.
  pose proof (sp_good _ _ _ _ _ _ _ _ _ _ Hs) as Hg.
  assert (HLL : forall p, p ∈ L -> p ∈ L').
  { intros p Hp. destruct HL as [[-> _]|(q & _ & -> & _)]; [done|by apply list_elem_of_further]. }
  assert (Hobj : forall a, object_byte (x :: U) a -> frame_byte P' a).
  { intros a (n & Hn & Ha). apply (slot_byte sizeof_vmem_area P' ltac:(done) n a sizeof_vmem_area); try done.
    by apply add_slot. }
  assert (HPT : forall p k, p ∈ P' -> T !! k <> Some p).
  { intros p k Hp Hk. destruct HL as [[_ ->]|(q & Hq & _ & ->)].
    - by eapply (sp_pages _ _ _ _ _ _ _ _ _ _ Hs).
    - apply elem_of_cons in Hp as [->|Hp]; [by eapply Hq, vg_held|]. by eapply (sp_pages _ _ _ _ _ _ _ _ _ _ Hs). }
  assert (Hok' : ok (vm_fa (set_vo s m' al)) L').
  { apply (fc_write (ok := ok) (set_mem (vm_fa s) m1) L' m' Hok1).
    eapply agree_weaken; [apply add_agree|]. intros a Ha Hr. apply Ha.
    destruct (Hobj a Hr) as (p & Hp & Hpa). exists p. split; [by apply HPL|done]. }
  assert (Hoff : agree (fun a => ~ fa_bytes (vm_fa s) a) (vm_mem s) m').
  { intros a Hn. rewrite <- Hout by done.
    apply add_agree. intros Hb. apply Hn. apply (fc_inside (ok := ok) (set_mem (vm_fa s) m1) L'); [done|].
    destruct (Hobj a Hb) as (p & Hp & Hpa). exists p. split; [by apply HPL|done]. }
  assert (Hvm : forall a, in_range vm 16 a -> rd8 m' a = rd8 (vm_mem s) a).
  { intros a Ha. apply Hoff. by apply (sp_vm_out _ _ _ _ _ _ _ _ _ _ Hs). }
  destruct (vm_good_move s root T L (set_vo s m' al) L' Hg Hok' HLL) as [Hg' Hw].
  { intros a (k & t & Ht & Ha). rewrite add_agree.
    - apply Hag. exists t. split; [by eapply vg_held|done].
    - intros Hb. destruct (Hobj a Hb) as (p & Hp & Hpa).
      assert (Hne : p <> t) by (intros ->; by eapply HPT).
      pose proof (frames_apart p t (add_P_frame p Hp) (vg_frame _ _ _ _ _ _ Hg Ht) Hne).
      unfold apart, in_range in *. lia. }
  split; [|by split_and!]. split; try done.
  - split; [done|]. split; [|done]. cbn [fst snd]. eapply pool_write; [exact Hpl|done|apply add_P_frame|apply add_agree].
  - by apply Hs.
  - by apply Hs.
  - rewrite <- (sp_head _ _ _ _ _ _ _ _ _ _ Hs). apply ld_ext. intros a Ha. apply Hvm.
    unfold vm_areas_list, in_range in *. lia.
  - rewrite <- (sp_root _ _ _ _ _ _ _ _ _ _ Hs). apply ld_ext. intros a Ha. apply Hvm.
    destruct (space_vm_kok _ _ _ _ _ _ _ _ _ _ Hs) as (_ & _ & E). rewrite E in Ha. unfold in_range in *. lia.
  - apply add_ring.
  - intros n Hn. apply elem_of_cons in Hn as [->|Hn]; [by apply list_elem_of_further, add_ring_U, list_elem_of_here|].
    apply elem_of_cons in Hn as [->|Hn]; [apply list_elem_of_here|].
    by apply list_elem_of_further, add_ring_U, list_elem_of_further.
Qed.
End AddArea.

Section Ops.
Context (s : vm_state) (vm root : Z) (T : tables) (L P fr U : list Z) (head : Z) (ns : list Z).
Hypothesis Hs : space ok s vm root T L P fr U head ns.

(** The object for a new area: memory ran out, or it is apart from the others. *)
Lemma alloc_area :
  in_obj object_alloc s = Halt (Fault NULL) /\ capacity (vm_fa s) <= Z.of_nat (length L) \/
  exists x m1 al P' fr' L', in_obj object_alloc s = Ret (x, set_vo s m1 al) /\ x ∉ U /\ x <> NULL /\
    pool_in ok (set_mem (vm_fa s) m1, al) P' fr' (x :: U) L' /\ obj_size al = sizeof_vmem_area /\
    agree (frame_byte L) (vm_mem s) m1 /\ agree (fun a => ~ fa_bytes (vm_fa s) a) (vm_mem s) m1 /\
    (L' = L /\ P' = P \/ exists p, p ∉ L /\ L' = p :: L /\ P' = p :: P).
Proof.
  pose proof (sp_pool _ _ _ _ _ _ _ _ _ _ Hs) as Hp. pose proof (sp_size _ _ _ _ _ _ _ _ _ _ Hs) as Hsz.
  destruct (object_alloc_ok (vm_fa s) (vmem_area_alloc s) P fr U L Hp) as
    [(_ & [_ Hfull] & Hrun)|(x & m1 & al & P' & fr' & L' & Hrun & Hx & Hp' & Hsz' & Hag & Hout & HL)].
  - left. unfold in_obj, klift. by rewrite Hrun.
  - right. exists x, m1, al, P', fr', L'. split; [by apply in_obj_ok|]. split; [done|]. rewrite Hsz in Hsz'.
    split; [|by split_and!].
    apply (slot_nonnull sizeof_vmem_area P' ltac:(done)).
    + intros p HpP. by eapply pool_frames.
    + rewrite <- Hsz'. apply (pl_slots _ _ _ _ _ (proj1 (proj2 Hp'))). set_solver.
Qed.

(** ** vmem_alloc_pages *)

Lemma alloc_pages_ok fuel virt_addr pgcnt flags :
  aligned PAGE_SIZE virt_addr -> (length ns < fuel)%nat ->
  existsb (area_meets (vm_mem s) virt_addr (u64 (virt_addr + pgcnt))) ns = false ->
  vmem_alloc_pages fuel vm virt_addr pgcnt flags s = Halt (Fault NULL) /\ capacity (vm_fa s) <= Z.of_nat (length L) \/
  exists x m' al P' fr' L', vmem_alloc_pages fuel vm virt_addr pgcnt flags s = Ret (0, set_vo s m' al) /\
    x ∉ U /\ space ok (set_vo s m' al) vm root T L' P' fr' (x :: U) head (x :: ns) /\
    ld64 m' (x + 16) = u64 virt_addr /\ ld64 m' (x + 24) = u64 pgcnt /\ ld64 m' (x + 32) = u64 flags /\
    (forall n o, n ∈ U -> o = 16 \/ o = 24 \/ o = 32 -> ld64 m' (n + o) = ld64 (vm_mem s) (n + o)) /\
    (forall va, walk m' 4 root va = walk (vm_mem s) 4 root va) /\
    (forall p, p ∈ L -> p ∈ L') /\ agree (fun a => ~ fa_bytes (vm_fa s) a) (vm_mem s) m' /\
    (length L' <= S (length L))%nat.
Proof.
  intros Hal Hf Hmeet. unfold vmem_alloc_pages. rewrite kassert_true by (by apply page_aligned_true).
  kstep (space_intersects _ _ _ _ _ _ _ _ _ _ Hs fuel virt_addr pgcnt Hf). rewrite Hmeet.
  destruct alloc_area as [[Hrun Hfull]|(x & m1 & al & P' & fr' & L' & Hrun & Hx & Hx0 & Hp & Hsz & Hag & Hout & HL)].
  { left. split; [by apply kbind_Halt|done]. }
  right. kstep Hrun. rewrite (proj2 (Z.eqb_neq x NULL)) by done.
  pose proof (add_area_ok s U x m1 al P' fr' L' Hp Hsz x (list_elem_of_here _ _)) as Hxo.
  destruct (area_fields x Hxo) as (E1 & E2 & E3 & H0 & H16 & H24 & H32). rewrite E1, E2, E3.
  set (s1 := set_vo s m1 al). set (m2 := area_fill m1 x virt_addr pgcnt flags).
  kstep (vstore_ok _ virt_addr s1 H16). rewrite (kbind_Ret _ _ _ _ _ (vstore_ok _ pgcnt (set_vm s1 _) H24)).
  rewrite (kbind_Ret _ _ _ _ _ (vstore_ok _ flags (set_vm _ _) H32)). rewrite !set_vm_set.
  change (set_vm s1 _) with (set_vm s1 m2).
  rewrite (kbind_Ret _ _ _ _ _ (in_kmem_ok (list_init x) (set_vm s1 m2) tt _ (list_init_run m2 x (area_ok_node x Hxo)))).
  rewrite set_vm_set. destruct (space_vm_kok _ _ _ _ _ _ _ _ _ _ Hs) as (Hvk & _).
  rewrite (kbind_Ret _ _ _ _ _ (vload_ok _ (set_vm s1 (list_init_mem m2 x)) Hvk)).
  pose proof (add_vm_head s vm root T L P fr U head ns Hs x m1 al P' fr' L' Hp Hsz Hout virt_addr pgcnt flags) as Hh.
  pose proof (add_ring_before s vm root T L P fr U head ns Hs x m1 al P' fr' L' Hx Hp Hsz Hag virt_addr pgcnt flags) as Hr.
  change (vm_mem (set_vm s1 (list_init_mem m2 x))) with (list_init_mem m2 x). unfold m2 at 1. rewrite Hh.
  rewrite (kbind_Ret _ _ _ _ _ (in_kmem_ok (list_insert_after head x) (set_vm s1 (list_init_mem m2 x)) tt _
    (list_insert_after_run _ head ns x Hr (area_ok_node x Hxo)))).
  pose proof (add_field s vm root T L P fr U head ns Hs x m1 al P' fr' L' Hx Hp Hsz Hag virt_addr pgcnt flags) as Hfl.
  destruct (add_space s vm root T L P fr U head ns Hs x m1 al P' fr' L' Hx Hp Hsz Hag Hout HL virt_addr pgcnt flags)
    as [Hsp (HwL & HLL & Hag')].
  exists x, (area_link m2 head x (node_first head ns)), al, P', fr', L'. split; [reflexivity|].
  split; [done|]. split; [exact Hsp|]. split; [apply (Hfl 16); auto|]. split; [apply (Hfl 24); auto|].
  split; [apply (Hfl 32); auto|]. split; [intros n o Hn Ho; by apply (Hfl o)|].
  split; [exact HwL|]. split; [exact HLL|]. split; [exact Hag'|].
  destruct HL as [[-> _]|(p & _ & -> & _)]; simpl; lia.
Qed.

(** ** vmem_handle_pf *)

(** What maps pages keeps the areas and the pool. *)
Lemma space_move m' T' L' :
  vm_good ok (set_vm s m') root T' L' -> vm_effect s T L m' T' L' ->
  space ok (set_vm s m') vm root T' L' P fr U head ns.
Proof.
  intros Hg' [He1 He2 He3 He4 He5]. pose proof Hs as [Hg (Hok & Hpl & HPL) Hsz HPT Hvm Hout Hh Hr Hring Hused].
  cbn [fst snd] in *.
  assert (HP : agree (frame_byte P) (vm_mem s) m').
  { eapply agree_weaken; [exact He2|]. intros a (p & Hp & Ha). exists p. split; [by apply HPL|].
    split; [|done]. intros k. by apply HPT. }
  assert (Hobj : forall n a, n ∈ U -> in_range n sizeof_vmem_area a -> frame_byte P a).
  { intros n a Hn Ha. eapply space_object_byte; [exact Hs|]. by exists n. }
  destruct (space_vm_kok _ _ _ _ _ _ _ _ _ _ Hs) as (_ & _ & E).
  assert (Hvmb : forall o, 0 <= o <= 8 -> ld64 m' (vm + o) = ld64 (vm_mem s) (vm + o)).
  { intros o Ho. eapply ld_agree; [exact He3|]. intros a Ha. apply Hout. unfold in_range in *. lia. }
  split; try done.
  - split; [apply Hg'|]. split; [|intros p Hp; by apply He1, HPL]. cbn [fst snd].
    destruct Hpl as [H1 H2 H3 H4]. split; try done. eapply chain_agree; [exact HP| |exact H2].
    intros x b Hx Hb. apply (slot_byte (obj_size (vmem_area_alloc s)) P H1 x b 8); [apply H3; set_solver|lia|done].
  - intros p k Hp Hk. destruct (He5 k p Hk) as [Hk'|Hn]; [by eapply HPT|]. by apply Hn, HPL.
  - rewrite <- Hh. unfold vm_areas_list. rewrite <- (Z.add_0_r vm). apply Hvmb. lia.
  - rewrite <- Hr, E. apply Hvmb. lia.
  - eapply dll_agree; [exact HP| |exact Hring]. intros y a Hy%Hused Ha. apply (Hobj y); [done|].
    unfold in_range, sizeof_vmem_area in *. lia.
Qed.

Lemma area_flags_moved m' n :
  agree (frame_byte L) (vm_mem s) m' -> n ∈ U -> ld64 m' (n + 32) = ld64 (vm_mem s) (n + 32).
Proof.
  intros Hag Hn. eapply ld_agree; [exact Hag|]. intros a Ha.
  destruct (space_object_byte _ _ _ _ _ _ _ _ _ _ Hs a) as (p & Hp & Hpa).
  - exists n. split; [done|]. unfold in_range, sizeof_vmem_area in *. lia.
  - exists p. split; [|done]. by apply (proj2 (proj2 (sp_pool _ _ _ _ _ _ _ _ _ _ Hs))).
Qed.

Lemma canonical_page a : canonical a -> canonical (ROUNDDOWN a PAGE_SIZE) /\ aligned PAGE_SIZE (ROUNDDOWN a PAGE_SIZE) /\
  ROUNDDOWN a PAGE_SIZE / PAGE_SIZE = a / PAGE_SIZE.
Proof.
  intros [Ha Hb]. rewrite ROUNDDOWN_spec by done.
  assert (Hbit : forall i, 12 <= i -> Z.testbit (PAGE_SIZE * (a / PAGE_SIZE)) i = Z.testbit a i).
  { intros i Hi. rewrite Z.mul_comm. change PAGE_SIZE with (2 ^ 12).
    rewrite <- Z.shiftl_mul_pow2, <- Z.shiftr_div_pow2, Z.shiftl_spec, Z.shiftr_spec by lia. f_equal. lia. }
  split; [|split; [apply Z.divide_factor_l|]].
  - split; [unfold PAGE_SIZE; Z.to_euclidean_division_equations; lia|]. intros i Hi. rewrite !Hbit by lia. by apply Hb.
  - rewrite Z.mul_comm. by apply Z.div_mul.
Qed.

Lemma handle_pf_ok fuel a :
  curr_vmem s = vm -> (length ns < fuel)%nat -> canonical a ->
  find_node (area_has (vm_mem s) a) ns <> NULL -> walk (vm_mem s) 4 root a = None ->
  frame_alloc (vm_fa s) <> Ret (NULL, vm_fa s) ->
  vmem_handle_pf fuel a s = Halt (Panic "Can't map page") /\ capacity (vm_fa s) <= Z.of_nat (length L) + 3 \/
  exists m' T' L' p, vmem_handle_pf fuel a s = Ret (true, set_vm s m') /\
    space ok (set_vm s m') vm root T' L' P fr U head ns /\ vm_effect s T L m' T' L' /\
    p ∉ L /\ p ∈ L' /\ (forall k, T' !! k <> Some p) /\ (forall b, in_range p PAGE_SIZE b -> rd8 m' b = 0) /\
    maps_to m' T' a (Z.lor (Z.lor (VIRT_TO_PHYS p) PTE_PRESENT)
      (vmem_convert_flags (Z.lor (ld64 (vm_mem s) (find_node (area_has (vm_mem s) a) ns + 32)) VMEM_ALLOC))) /\
    forall va, canonical va -> walk m' 4 root va =
      if decide (va / PAGE_SIZE = a / PAGE_SIZE) then Some (VIRT_TO_PHYS p + va mod PAGE_SIZE)
      else walk (vm_mem s) 4 root va.
Proof.
  intros Hcur Hf Hcan Hfind Hw Hmem. pose proof (sp_good _ _ _ _ _ _ _ _ _ _ Hs) as Hg.
  unfold vmem_handle_pf. rewrite kget_bind, Hcur.
  kstep (space_is_mapped _ _ _ _ _ _ _ _ _ _ Hs fuel a Hf). set (n := find_node _ _) in *.
  rewrite (proj2 (Z.eqb_neq n NULL)) by done.
  destruct (find_node_Some (area_has (vm_mem s) a) ns Hfind) as [Hn _]. fold n in Hn.
  assert (HnU : n ∈ U) by (by apply (sp_used _ _ _ _ _ _ _ _ _ _ Hs), list_elem_of_further).
  destruct (fc_alloc (ok := ok) (vm_fa s) L (vg_ok _ _ _ _ Hg)) as
    [[Hnull _]|(p & m1 & Hrun & Hp0 & HpL & Hok1 & Hag & Hout & Hzero)]; [by rewrite Hnull in Hmem|].
  kstep (in_fa_ok _ s _ _ Hrun). pose proof (fc_frame (ok := ok) _ _ p Hok1 (list_elem_of_here _ _)) as Hpf.
  destruct (frame_at_phys p Hpf) as (Hphys & Hpal & _). rewrite (proj2 (Z.eqb_neq (VIRT_TO_PHYS p) 0)) by lia.
  destruct (area_fields n (space_area_ok _ _ _ _ _ _ _ _ _ _ Hs n HnU)) as (_ & _ & E3 & _ & _ & _ & H32).
  rewrite E3. kstep (vload_ok (n + 32) (set_vm s m1) H32). rewrite kget_bind.
  change (curr_vmem (set_vm s m1)) with (curr_vmem s). rewrite Hcur.
  (* the new frame is held *)
  assert (He1 : vm_effect s T L m1 T (p :: L)).
  { split; [by intros q Hq; apply list_elem_of_further| |done|done|by left].
    eapply agree_weaken; [exact Hag|]. intros b (q & Hq & _ & Hb). by exists q. }
  destruct (vm_good_move s root T L (set_vm s m1) (p :: L) Hg Hok1) as [Hg1 Hw1].
  { intros q Hq. by apply list_elem_of_further. }
  { eapply agree_weaken; [exact Hag|]. intros b (k & t & Ht & Hb). exists t. split; [by eapply vg_held|done]. }
  pose proof (space_move m1 T (p :: L) Hg1 He1) as Hs1.
  destruct (canonical_page a Hcan) as (Hc' & Hal' & Hdiv). destruct (space_vm_kok _ _ _ _ _ _ _ _ _ _ Hs) as (_ & Hpk & _).
  destruct (map_page_ok (set_vm s m1) root T (p :: L) vm (ROUNDDOWN a PAGE_SIZE) (VIRT_TO_PHYS p)
              (Z.lor (ld64 (vm_mem (set_vm s m1)) (n + 32)) VMEM_ALLOC) Hg1 Hpk (sp_root _ _ _ _ _ _ _ _ _ _ Hs1) Hc' Hal')
    as (r & m' & T' & L' & Hmap & Hg' & He' & _ & Hres);
    [unfold KERNEL_DIRECT_PHYS_MAPPING_SIZE in Hphys; lia|done|..].
  { rewrite Hw1. by apply (walk_None_page (vm_mem s) 4 root a). }
  kstep Hmap. rewrite set_vm_set in *. destruct Hres as [(-> & [Hfull Hlen] & _)|[-> [Hmaps Hres]]].
  { left. split; [done|]. change (capacity (vm_fa s) <= Z.of_nat (length L')) in Hfull. simpl in Hlen. lia. }
  right.
  pose proof (vm_effect_trans _ _ _ _ _ _ _ _ _ He1 He') as He. destruct He' as [He1' He2' He3' He4' He5'].
  exists m', T', L', p. split; [reflexivity|]. split; [by apply space_move|]. split; [exact He|].
  split; [done|]. split; [apply He1', list_elem_of_here|]. split; [|split; [|split]].
  - intros k Hk. destruct (He5' k p Hk) as [Hk'|Hn']; [by eapply HpL, vg_held|by apply Hn', list_elem_of_here].
  - intros b Hb. rewrite <- (Hzero b Hb). apply He2'. exists p. split; [apply list_elem_of_here|]. split; [|done].
    intros k Hk. by eapply HpL, vg_held.
  - change (vm_mem (set_vm s m1)) with m1 in Hmaps. rewrite (area_flags_moved m1 n Hag HnU) in Hmaps.
    destruct Hmaps as (t & Ht & He0). exists t. rewrite <- (page_prefix 1 _ _ Hdiv). split; [exact Ht|].
    rewrite <- (index_same 0 _ _ ltac:(lia) (page_prefix 0 _ _ Hdiv)). exact He0.
  - intros va Hcanva. rewrite Hres, Hdiv by done. by case_decide.
Qed.
End Ops.
End Demand.
