(* ===== verification/SpaceInit.v ===== *)
(** * A new address space

    [vmem_init] makes an address space without areas whose only table is an
    empty root; from an allocator with free frames this is where the invariant
    [space] starts. *)

From S2P Require Import Prelude Mem Common DList Buddy Paging FrameAlloc FrameRefine FrameZones FrameSession FrameInit.
From S2P Require Import FrameExample FrameClient Obj ObjSpec Vmem PageTable VmemSpec VmemMap AddrSpace Demand.

(** A root without entries. *)
Lemma empty_tree m root :
  (forall i, 0 <= i < 512 -> ld64 m (entry_addr root i) = 0) ->
  tree m root {[(4%nat, 0) := root]} /\ forall va, walk m 4 root va = None.
Proof.
  intros Hz. split.
  - split.
    + apply lookup_singleton_eq.
    + intros l p t [[= <- <-] _]%lookup_singleton_Some. lia.
    + intros l p t i t' Hl [[= <- <-] <-]%lookup_singleton_Some Hi Hc. by rewrite child_zero in Hc by (by apply Hz).
    + intros l q t Hl [[= <- <-] _]%lookup_singleton_Some. lia.
    + intros k k' t [<- _]%lookup_singleton_Some [<- _]%lookup_singleton_Some. done.
  - intros va. cbn [walk]. unfold table_entry, present. by rewrite Hz by apply index_bounds.
Qed.

Section Init.
Context {F : Prop} {ok : fa_state -> list Z -> Prop} `{!FrameContract F ok} `{!FrameSource ok}.
Context (s : vm_state) (vm : Z) (P fr U L : list Z).
Hypothesis Hok : ok (vm_fa s) L.
Hypothesis Hpool : pool_in ok (vm_fa s, vmem_area_alloc s) P fr U L.
Hypothesis Hsize : obj_size (vmem_area_alloc s) = sizeof_vmem_area.
Hypothesis Hvm : kok vm 16 = true.
Hypothesis Hout : forall a, in_range vm 16 a -> ~ fa_bytes (vm_fa s) a.

Lemma vm_pml4_eq : vm_pml4 vm = vm + 8 /\ kok vm 8 = true /\ kok (vm + 8) 8 = true.
Proof.
  pose proof Hvm as [H1 H2]%kok_spec. unfold vm_pml4. assert (KERNEL_HIGHER_HALF_START > 0) by done.
  rewrite u64_small by lia. split_and!; [done|apply kok_spec; lia..].
Qed.

(** A field of the structure is written. *)
Lemma vm_field_write al m L1 P1 fr1 U1 o v :
  o = 0 \/ o = 8 -> pool_in ok (set_mem (vm_fa s) m, al) P1 fr1 U1 L1 ->
  let m' := st64 m (vm + o) v in
  pool_in ok (set_mem (vm_fa s) m', al) P1 fr1 U1 L1 /\ agree (fa_bytes (vm_fa s)) m m'.
Proof.
  intros Ho (Hok1 & Hpl & HPL) m'. cbn [fst snd] in *.
  assert (Hag : agree (fa_bytes (vm_fa s)) m m').
  { eapply agree_weaken; [apply st_agree|]. intros a Ha Hr. by eapply Hout; [|exact Ha]; unfold in_range in *; lia. }
  split; [|done]. split; [by apply (fc_outside (ok := ok) (set_mem (vm_fa s) m) L1)|]. split; [|done]. cbn [fst snd].
  destruct Hpl as [H1 H2 H3 H4]. split; try done. eapply chain_agree; [exact Hag| |exact H2].
  intros x b Hx Hb. apply (fc_inside (ok := ok) (set_mem (vm_fa s) m) L1); [done|].
  destruct (slot_byte (obj_size al) P1 H1 x b 8) as (p & Hp & Hpa); [apply H3; set_solver|lia|done|].
  exists p. split; [by apply HPL|done].
Qed.

Lemma vmem_init_ok :
  ((exists s', vmem_init vm s = Ret (- ENOMEM, s')) /\ capacity (vm_fa s) <= Z.of_nat (length L)) \/
  (vmem_init vm s = Halt (Fault NULL) /\ capacity (vm_fa s) <= Z.of_nat (length L) + 1) \/
  exists m' al root head P' fr' L', vmem_init vm s = Ret (0, set_vo s m' al) /\ head ∉ U /\ root ∉ L /\
    space ok (set_vo s m' al) vm root {[(4%nat, 0) := root]} L' P' fr' (head :: U) head [] /\
    (forall va, walk m' 4 root va = None) /\
    (forall p, p ∈ L -> p ∈ L') /\ (forall p, p ∈ P' -> p ∈ P \/ p ∉ L) /\
    agree (fun a => frame_byte L a /\ ~ in_range head 16 a) (vm_mem s) m' /\
    agree (fun a => ~ fa_bytes (vm_fa s) a /\ ~ in_range vm 16 a) (vm_mem s) m' /\ (length L' <= length L + 2)%nat.
Proof.
  destruct vm_pml4_eq as (E & Hk0 & Hk8). unfold vmem_init. rewrite E.
  destruct (fc_alloc (ok := ok) (vm_fa s) L Hok) as [[Hnull Hfull]|(p & m1 & Hrun & Hp0 & HpL & Hok1 & Hag & Hout1 & Hzero)].
  { left. split; [|exact Hfull]. assert (Hnull' : in_fa frame_alloc s = Ret (NULL, s)).
    { rewrite <- (set_vm_id s) at 2. apply in_fa_ok. rewrite Hnull. by destruct s as [[]]. }
    kstep Hnull'. kstep (vstore_ok (vm + 8) NULL s Hk8). by eexists. }
  right. pose proof (fc_frame (ok := ok) _ _ p Hok1 (list_elem_of_here _ _)) as Hpf.
  kstep (in_fa_ok _ s _ _ Hrun). kstep (vstore_ok (vm + 8) p (set_vm s m1) Hk8). rewrite set_vm_set.
  rewrite (proj2 (Z.eqb_neq p NULL)) by done. change (vm_mem (set_vm s m1)) with m1.
  set (m2 := st64 m1 (vm + 8) p).
  assert (Hpool1 : pool_in ok (set_mem (vm_fa s) m1, vmem_area_alloc s) P fr U (p :: L)).
  { destruct Hpool as (_ & [H1 H2 H3 H4] & HPL). split; [done|].
    split; [|intros q Hq; by apply list_elem_of_further, HPL]. split; try done.
    eapply chain_agree; [exact Hag| |exact H2]. intros x b Hx Hb.
    destruct (slot_byte _ P H1 x b 8) as (q & Hq & Hqa); [apply H3; set_solver|cbn in *; lia|done|].
    exists q. split; [by apply HPL|done]. }
  destruct (vm_field_write _ m1 _ _ _ _ 8 p ltac:(auto) Hpool1) as [Hpool2 Hag2]. fold m2 in Hpool2, Hag2.
  destruct (object_alloc_ok _ _ P fr U (p :: L) Hpool2) as
    [(_ & [_ Hfull] & Hobj)|(h & m3 & al & P' & fr' & L' & Hobj & Hh & Hpool3 & Hsz & Hag3 & Hout3 & HL)].
  { left. split; [apply kbind_Halt; unfold in_obj, klift; cbn [vm_fa vmem_area_alloc set_vm]; by rewrite Hobj|].
    change (capacity (vm_fa s) <= Z.of_nat (S (length L))) in Hfull. lia. }
  right. rewrite (kbind_Ret _ _ _ _ _ (in_obj_ok object_alloc (set_vm s m2) h m3 al Hobj)).
  cbn [set_mem fa_mem] in *. set (s3 := set_vo (set_vm s m2) m3 al).
  assert (Hslot : slot sizeof_vmem_area P' h).
  { rewrite <- Hsize, <- Hsz. apply (pl_slots _ _ _ _ _ (proj1 (proj2 Hpool3))). set_solver. }
  assert (HP'f : forall q, q ∈ P' -> frame_at q) by (intros q Hq; by eapply pool_frames).
  kstep (vstore_ok (vm_areas_list vm) h s3 Hk0). change (vm_mem s3) with m3.
  rewrite (proj2 (Z.eqb_neq h NULL)) by (by eapply (slot_nonnull sizeof_vmem_area P')).
  set (m4 := st64 m3 (vm_areas_list vm) h).
  destruct (vm_field_write al m3 L' P' fr' (h :: U) 0 h ltac:(auto) Hpool3) as [Hpool4 Hag4].
  rewrite Z.add_0_r in Hpool4, Hag4. change (st64 m3 vm h) with m4 in Hpool4, Hag4.
  assert (Harea : area_ok h) by (by apply (slot_kok sizeof_vmem_area P' ltac:(done) HP'f)).
  kstep (in_kmem_ok (list_init h) (set_vm s3 m4) tt _ (list_init_run m4 h (area_ok_node h Harea))).
  rewrite set_vm_set. set (m5 := list_init_mem m4 h).
  assert (HpP' : p ∉ P').
  { destruct HL as [[_ ->]|(q & Hq & _ & ->)].
    - intros Hin. by apply HpL, (proj2 (proj2 Hpool)).
    - intros [->|Hin]%elem_of_cons; [by apply Hq, list_elem_of_here|]. by apply HpL, (proj2 (proj2 Hpool)). }
  assert (Hpin : forall a, in_range p PAGE_SIZE a -> fa_bytes (vm_fa s) a).
  { intros a Ha. apply (fc_inside (ok := ok) (set_mem (vm_fa s) m1) (p :: L)); [done|].
    exists p. split; [apply list_elem_of_here|done]. }
  assert (HL'p : p ∈ L').
  { destruct HL as [[-> _]|(q & _ & -> & _)]; [|apply list_elem_of_further]; apply list_elem_of_here. }
  assert (Hhb : forall a, in_range h 16 a -> frame_byte P' a).
  { intros a Ha. by apply (slot_byte sizeof_vmem_area P' ltac:(done) h a 16). }
  assert (Hag5 : agree (fun a => ~ in_range h 16 a) m4 m5) by (by apply list_init_mem_agree).
  assert (Hfr' : forall a, frame_byte P' a -> fa_bytes (vm_fa s) a).
  { intros a (q & Hq & Ha). apply (fc_inside (ok := ok) (set_mem (vm_fa s) m4) L'); [apply Hpool4|].
    exists q. split; [by apply (proj2 (proj2 Hpool4))|done]. }
  assert (Hvmb : forall a, in_range vm 16 a -> rd8 m5 a = rd8 m4 a).
  { intros a Ha. apply Hag5. intros Hr. by eapply Hout, Hfr', Hhb. }
  assert (Hz5 : forall a, in_range p PAGE_SIZE a -> rd8 m5 a = 0).
  { intros a Ha. rewrite Hag5.
    - rewrite Hag4, Hag3, Hag2; [by apply Hzero|by apply Hpin| |by apply Hpin].
      exists p. split; [apply list_elem_of_here|done].
    - intros Hr. destruct (Hhb a Hr) as (q & Hq & Hqa). assert (Hne : q <> p) by (by intros ->).
      pose proof (frames_apart q p (HP'f q Hq) Hpf Hne). unfold apart, in_range in *. lia. }
  destruct (empty_tree m5 p) as [Htree Hwalk].
  { intros i Hi. by apply entry_zero. }
  assert (Hok5 : ok (set_mem (vm_fa s) m5) L').
  { apply (fc_write (ok := ok) (set_mem (vm_fa s) m4) L' m5 (proj1 Hpool4)). eapply agree_weaken; [exact Hag5|].
    intros a Ha Hr. apply Ha. destruct (Hhb a Hr) as (q & Hq & Hqa). exists q.
    split; [by apply (proj2 (proj2 Hpool4))|done]. }
  exists m5, al, p, h, P', fr', L'. split; [reflexivity|]. split; [done|]. split; [done|].
  assert (Hin : forall a, frame_byte L a -> fa_bytes (vm_fa s) a) by (intros a; by apply (fc_inside (ok := ok) (vm_fa s) L)).
  split; [|split; [exact Hwalk|split; [|split; [|split; [|split]]]]]; cycle 1.
  { intros q Hq. destruct HL as [[-> _]|(r & _ & -> & _)]; repeat apply list_elem_of_further; done. }
  { intros q Hq. destruct HL as [[_ ->]|(r & Hr & _ & ->)]; [by left|].
    apply elem_of_cons in Hq as [->|Hq]; [right|by left]. intros HqL. by apply Hr, list_elem_of_further. }
  { intros a [Ha Hh0]. rewrite Hag5 by done. rewrite Hag4 by (by apply Hin).
    rewrite Hag3; [rewrite Hag2 by (by apply Hin); by apply Hag|].
    destruct Ha as (q & Hq & Ha). exists q. split; [by apply list_elem_of_further|done]. }
  { intros a [Ha Hv]. rewrite Hag5 by (intros Hr; by apply Ha, Hfr', Hhb). unfold m4, vm_areas_list.
    rewrite rd8_st_out by (unfold in_range in Hv; lia). rewrite Hout3 by done. unfold m2.
    rewrite rd8_st_out by (unfold in_range in Hv; lia). by apply Hout1. }
  { destruct HL as [[-> _]|(r & _ & -> & _)]; simpl; lia. }
  assert (Hszal : obj_size al = sizeof_vmem_area) by (by rewrite Hsz).
  split; try done.
  - split; [done|exact Htree|by intros k t [_ <-]%lookup_singleton_Some|].
    intros l q t i [_ <-]%lookup_singleton_Some Hi _. change (vm_mem (set_vo s m5 al)) with m5. by rewrite entry_zero.
  - destruct Hpool4 as (_ & Hpl4 & HPL4). split; [done|]. split; [|done]. cbn [fst snd].
    eapply pool_write; [exact Hpl4|exact Hszal|exact HP'f|]. eapply agree_weaken; [exact Hag5|].
    intros a Ha Hr. apply Ha. exists h. split; [apply list_elem_of_here|]. unfold in_range, sizeof_vmem_area in *. lia.
  - intros q k Hq [_ <-]%lookup_singleton_Some. done.
  - cbn [vm_mem set_vo vm_fa fa_mem set_mem]. trans (ld64 m4 vm).
    + apply ld_ext. intros a Ha. apply Hvmb. unfold vm_areas_list, in_range in *. lia.
    + unfold m4, vm_areas_list. rewrite ld64_st64_same. apply node_ok_u64. by apply area_ok_node.
  - cbn [vm_mem set_vo vm_fa fa_mem set_mem]. rewrite E. trans (ld64 m4 (vm + 8)).
    + apply ld_ext. intros a Ha. apply Hvmb. unfold in_range in *. lia.
    + unfold m4, vm_areas_list. rewrite ld64_st64_ne by (unfold apart; lia). trans (ld64 m2 (vm + 8)).
      * eapply ld_agree; [exact Hout3|]. intros a Ha. apply Hout. unfold in_range in *. lia.
      * unfold m2. rewrite ld64_st64_same. apply u64_small. destruct Hpf as [_ H1 H2].
        unfold KERNEL_DIRECT_PHYS_MAPPING_START, KERNEL_DIRECT_PHYS_MAPPING_SIZE, PAGE_SIZE in *. lia.
  - by apply list_init_dll, area_ok_node.
  - intros n [->|Hn]%elem_of_cons; [apply list_elem_of_here|by apply not_elem_of_nil in Hn].
Qed.
End Init.
