(* ===== verification/Destroy.v ===== *)
(** * vmem_destroy: what goes back

    [owned m l t] lists what the code frees below the table [t] of level [l]:
    the tables and the frames of the pages marked [PTE_ALLOC], in the order in
    which they are freed. *)

From S2P Require Import Prelude Mem Common DList Buddy Paging FrameAlloc FrameRefine FrameZones FrameSession FrameInit.
From S2P Require Import FrameExample FrameClient Obj ObjSpec Vmem PageTable VmemSpec VmemMap AddrSpace Demand.

Definition entry_frame_of (e : Z) : Z := PHYS_TO_VIRT (PTE_ADDR e).

Fixpoint owned (m : mem) (l : nat) (t : Z) : list Z :=
  match l with
  | O => []
  | S l' =>
      flat_map (fun i =>
        let e := ld64 m (entry_addr t i) in
        if negb (has e PTE_PRESENT) || large l e then []
        else if (l' =? 0)%nat then (if has e PTE_ALLOC then [entry_frame_of e] else [])
        else owned m l' (entry_frame_of e) ++ [entry_frame_of e]) (seqZ 0 512)
  end.

(** What one entry contributes. *)
Definition entry_owned (m : mem) (l : nat) (e : Z) : list Z :=
  if negb (has e PTE_PRESENT) || large (S l) e then []
  else if (l =? 0)%nat then (if has e PTE_ALLOC then [entry_frame_of e] else [])
  else owned m l (entry_frame_of e) ++ [entry_frame_of e].

Lemma owned_S m l t : owned m (S l) t = flat_map (fun i => entry_owned m l (ld64 m (entry_addr t i))) (seqZ 0 512).
Proof. done. Qed.

Section Destroy.
Context {F : Prop} {ok : fa_state -> list Z -> Prop} `{!FrameContract F ok} (HF : F) (fa0 : fa_state) (m0 : mem).

(** The bytes that have not been given back. *)
Definition kept_byte (L : list Z) (a : Z) : Prop := frame_byte L a \/ ~ fa_bytes fa0 a.

(** [c] reads tables that are still held, [t] the first of them, and gives
    back the frames [G]. *)
Definition frees (t : Z) (c : K vm_state (option unit)) (G : list Z) : Prop :=
  forall s L, fa_bytes (vm_fa s) = fa_bytes fa0 -> ok (vm_fa s) L -> t :: G ⊆+ L -> agree (kept_byte L) m0 (vm_mem s) ->
  exists m' L', c s = Ret (None, set_vm s m') /\ G ++ L' ≡ₚ L /\ ok (set_mem (vm_fa s) m') L' /\
    agree (kept_byte L') m0 m'.

Lemma frees_continue t : frees t continue [].
Proof.
  intros s L Hz Hok _ Hag. exists (vm_mem s), L. rewrite set_vm_id. split; [done|]. split; [done|].
  destruct s as [[] ? ? ?]. by split.
Qed.

Lemma frees_seq t (c : K vm_state (option unit)) (d : K vm_state (option unit)) G1 G2 :
  frees t c G1 -> frees t d G2 -> frees t (c ;; d)%K (G1 ++ G2).
Proof.
  intros Hc Hd s L Hz Hok HG Hag.
  destruct (Hc s L Hz Hok) as (m1 & L1 & Hrun & HL1 & Hok1 & Hag1); [|done|].
  { etrans; [|exact HG]. apply submseteq_skip, submseteq_inserts_r. done. }
  destruct (Hd (set_vm s m1) L1 Hz Hok1) as (m2 & L2 & Hrun2 & HL2 & Hok2 & Hag2); [|done|].
  { apply (submseteq_app_inv_l _ _ G1). rewrite HL1, <- Permutation_middle. exact HG. }
  exists m2, L2. split; [by kstep Hrun|]. split; [|done].
  rewrite <- HL1, <- HL2. by rewrite (assoc_L (++)).
Qed.

(** A table that is held still has its entries. *)
Lemma frees_entry t i f G :
  0 <= i < 512 -> frees t (f (ld64 m0 (entry_addr t i))) G -> frees t (let! e := entry t i in f e)%K G.
Proof.
  intros Hi Hf s L Hz Hok HG Hag.
  assert (Ht : t ∈ L) by (eapply elem_of_submseteq, HG; apply list_elem_of_here).
  pose proof (fc_frame (ok := ok) _ _ t Hok Ht) as Hfr. destruct (entry_frame t i Hfr Hi) as (_ & Hk & _).
  kstep (vload_ok (entry_addr t i) s Hk). rewrite (entry_agree _ _ _ t i Hag Hfr Hi); [by apply Hf|].
  intros a Ha. left. by exists t.
Qed.

Lemma frees_table t t' :
  frees t' (in_fa (frame_free t) ;; continue)%K [t].
Proof.
  intros s L Hz Hok HG Hag. assert (Ht : t ∈ L) by (eapply elem_of_submseteq, HG; set_solver).
  apply list_elem_of_split in Ht as (L1 & L2 & ->).
  destruct (fc_free (ok := ok) (vm_fa s) t L1 L2 HF Hok) as (m1 & Hfree & Hok1 & Hag1 & Hout).
  exists m1, (L1 ++ L2). split; [by kstep (in_fa_ok (frame_free t) s tt m1 Hfree)|].
  split; [by rewrite <- Permutation_middle|]. split; [done|]. intros a Ha. destruct Ha as [Ha|Ha].
  - rewrite Hag1 by done. apply Hag. left. destruct Ha as (p & Hp & Hpa). exists p. split; [|done]. clear -Hp. rewrite elem_of_app in Hp. rewrite elem_of_app, elem_of_cons. tauto.
  - rewrite Hout by (by rewrite Hz). apply Hag. by right.
Qed.

(** The frames are given back after the table they hang from was read. *)
Lemma frees_below t t' c G : frees t c G -> frees t' (c ;; in_fa (frame_free t) ;; continue)%K (G ++ [t]).
Proof.
  intros Hc s L Hz Hok HG Hag.
  destruct (Hc s L Hz Hok) as (m1 & L1 & Hrun & HL1 & Hok1 & Hag1); [|done|].
  { rewrite Permutation_cons_append. etrans; [|exact HG]. by apply submseteq_cons. }
  destruct (frees_table t t' (set_vm s m1) L1 Hz Hok1) as (m2 & L2 & Hrun2 & HL2 & Hok2 & Hag2); [|done|].
  { apply (submseteq_app_inv_l _ _ G). rewrite HL1, <- Permutation_middle. exact HG. }
  exists m2, L2. split; [by kstep Hrun|]. split; [|done]. by rewrite <- HL1, <- HL2, (assoc_L (++)).
Qed.

Lemma frees_loop t body g i n :
  (forall j, i <= j < i + Z.of_nat n -> frees t (body j) (g j)) ->
  frees t (for_from body i n) (flat_map g (seqZ i (Z.of_nat n))).
Proof.
  revert i; induction n as [|n IH]; intros i Hb; [apply frees_continue|].
  rewrite seqZ_cons by lia. replace (Z.pred (Z.of_nat (S n))) with (Z.of_nat n) by lia. cbn [flat_map for_from].
  intros s L Hz Hok HG Hag.
  destruct (Hb i ltac:(lia) s L Hz Hok) as (m1 & L1 & Hrun & HL1 & Hok1 & Hag1); [|done|].
  { etrans; [|exact HG]. apply submseteq_skip, submseteq_inserts_r. done. }
  destruct (IH (Z.succ i) ltac:(intros j Hj; apply Hb; lia) (set_vm s m1) L1 Hz Hok1)
    as (m2 & L2 & Hrun2 & HL2 & Hok2 & Hag2); [|done|].
  { apply (submseteq_app_inv_l _ _ (g i)). rewrite HL1, <- Permutation_middle. exact HG. }
  exists m2, L2. split; [by kstep Hrun|]. split; [|done]. by rewrite <- HL1, <- HL2, (assoc_L (++)).
Qed.

(** ** Level by level *)

Lemma destroy_pte_frees t i : 0 <= i < 512 -> frees t (destroy_pte t i) (entry_owned m0 0 (ld64 m0 (entry_addr t i))).
Proof.
  intros Hi. apply frees_entry; [done|]. unfold entry_owned. cbn [large orb Nat.eqb].
  destruct (has _ PTE_PRESENT); [|apply frees_continue]. cbn [negb orb].
  destruct (has _ PTE_ALLOC); [apply frees_table|apply frees_continue].
Qed.

Lemma destroy_pde_frees t i : 0 <= i < 512 -> frees t (destroy_pde t i) (entry_owned m0 1 (ld64 m0 (entry_addr t i))).
Proof.
  intros Hi. apply frees_entry; [done|]. unfold entry_owned. cbn [large Nat.eqb].
  destruct (has _ PTE_PRESENT); [|apply frees_continue]. cbn [negb orb].
  destruct (has _ PTE_PAGE_SIZE); [apply frees_continue|]. cbv zeta.
  apply frees_below, frees_loop. intros j Hj. by apply destroy_pte_frees.
Qed.

Lemma destroy_pdpte_frees t i :
  0 <= i < 512 -> frees t (destroy_pdpte t i) (entry_owned m0 2 (ld64 m0 (entry_addr t i))).
Proof.
  intros Hi. apply frees_entry; [done|]. unfold entry_owned. cbn [large Nat.eqb].
  destruct (has _ PTE_PRESENT); [|apply frees_continue]. cbn [negb orb].
  destruct (has _ PTE_PAGE_SIZE); [apply frees_continue|]. cbv zeta.
  apply frees_below, frees_loop. intros j Hj. by apply destroy_pde_frees.
Qed.

(** The structure of the address space lies outside the allocator's memory. *)
Context (vm root : Z).
Hypothesis Hvm : kok (vm_pml4 vm) 8 = true.
Hypothesis Hvm_out : forall a, in_range (vm_pml4 vm) 8 a -> ~ fa_bytes fa0 a.
Hypothesis Hroot : ld64 m0 (vm_pml4 vm) = root.

Lemma load_root s L : agree (kept_byte L) m0 (vm_mem s) -> vload (vm_pml4 vm) s = Ret (root, s).
Proof.
  intros Hag. rewrite vload_ok by done. f_equal. f_equal. rewrite <- Hroot.
  eapply ld_agree; [exact Hag|]. intros a Ha. right. by apply Hvm_out.
Qed.

Lemma destroy_pml4e_frees i :
  0 <= i < 512 -> frees root (destroy_pml4e vm i) (entry_owned m0 3 (ld64 m0 (entry_addr root i))).
Proof.
  intros Hi. enough (H : frees root (let! pml4e := entry root i in
      if negb (has pml4e PTE_PRESENT) then continue
      else let pdpt := PHYS_TO_VIRT (PTE_ADDR pml4e) in
        for_from (destroy_pdpte pdpt) 0 512 ;; in_fa (frame_free pdpt) ;; continue)%K
      (entry_owned m0 3 (ld64 m0 (entry_addr root i)))).
  { intros s L Hz Hok HG Hag. unfold destroy_pml4e. kstep (load_root s L Hag). by apply H. }
  apply frees_entry; [done|]. unfold entry_owned. cbn [large Nat.eqb].
  destruct (has _ PTE_PRESENT); [|apply frees_continue]. cbn [negb orb]. cbv zeta.
  apply frees_below, frees_loop. intros j Hj. by apply destroy_pdpte_frees.
Qed.

(** All the tables, the root last. *)
Lemma destroy_tables_ok s L :
  fa_bytes (vm_fa s) = fa_bytes fa0 -> ok (vm_fa s) L -> owned m0 4 root ++ [root] ⊆+ L ->
  agree (kept_byte L) m0 (vm_mem s) ->
  exists m' L', (for_from (destroy_pml4e vm) 0 512 ;; let! pml4 := vload (vm_pml4 vm) in in_fa (frame_free pml4))%K s =
      Ret (tt, set_vm s m') /\ (owned m0 4 root ++ [root]) ++ L' ≡ₚ L /\ ok (set_mem (vm_fa s) m') L' /\
    agree (kept_byte L') m0 m'.
Proof.
  intros Hz Hok HG Hag.
  destruct (frees_loop root (destroy_pml4e vm) _ 0 512 ltac:(intros j Hj; apply destroy_pml4e_frees; lia) s L Hz Hok)
    as (m1 & L1 & Hrun & HL1 & Hok1 & Hag1); [|done|].
  { rewrite Permutation_cons_append. exact HG. }
  rewrite <- owned_S in HL1. revert HG HL1. generalize (owned m0 4 root). intros G HG HL1.
  set (s1 := set_vm s m1). assert (Ht : root ∈ L1).
  { eapply elem_of_submseteq; [apply list_elem_of_here|].
    apply (submseteq_app_inv_l _ _ G). rewrite HL1. exact HG. }
  apply list_elem_of_split in Ht as (A & B & ->).
  destruct (fc_free (ok := ok) (vm_fa s1) root A B HF Hok1) as (m2 & Hfree & Hok2 & Hag2 & Hout).
  exists m2, (A ++ B). split.
  { kstep Hrun. kstep (load_root s1 _ Hag1). exact (in_fa_ok (frame_free root) s1 tt m2 Hfree). }
  split; [|split; [done|]].
  - rewrite <- HL1, <- (assoc_L (++)). apply Permutation_app_head. exact (Permutation_middle A B root).
  - intros a [Ha|Ha].
    + rewrite Hag2 by done. apply Hag1. left. destruct Ha as (p & Hp & Hpa). exists p. split; [|done]. clear -Hp. rewrite elem_of_app in Hp. rewrite elem_of_app, elem_of_cons. tauto.
    + rewrite Hout by (change (fa_bytes (vm_fa s1)) with (fa_bytes (vm_fa s)); by rewrite Hz). apply Hag1. by right.
Qed.
End Destroy.

(** ** What is owned only depends on the tables *)

Lemma owned_ext m m' root T l p t :
  tree m root T -> (forall k t i, T !! k = Some t -> 0 <= i < 512 -> ld64 m' (entry_addr t i) = ld64 m (entry_addr t i)) ->
  T !! (l, p) = Some t -> owned m' l t = owned m l t.
Proof.
  intros Ht Hent. revert p t; induction l as [|l IH]; intros p t Hk; [done|]. rewrite !owned_S.
  rewrite !flat_map_concat_map. f_equal. apply map_ext_in. intros i Hi%list_elem_of_In%elem_of_seqZ. rewrite (Hent _ _ _ Hk) by lia.
  unfold entry_owned. destruct (negb _ || _) eqn:E; [done|]. destruct l as [|l]; [done|]. cbn [Nat.eqb]. f_equal.
  apply (IH (p * 512 + i)). eapply (tr_child _ _ _ Ht); [lia|exact Hk|lia|].
  unfold child. apply orb_false_iff in E as [->%negb_false_iff ->]. done.
Qed.

(** Every table below the root is owned. *)
Lemma tables_owned m root T l p t x :
  tree m root T -> T !! (l, p) = Some t -> x ∈ owned m l t ++ [t] -> x ∈ owned m 4 root ++ [root].
Proof.
  intros Ht. remember (4 - l)%nat as d eqn:Hd. revert l p t x Hd.
  induction d as [|d IH]; intros l p t x Hd Hk Hx; destruct (tr_top _ _ _ Ht _ _ _ Hk) as [Hl Hp].
  - assert (l = 4%nat) as -> by lia. rewrite Hp in Hk by done. rewrite (tr_root _ _ _ Ht) in Hk.
    by injection Hk as <-.
  - destruct (tr_back _ _ _ Ht l p t ltac:(lia) Hk) as (p0 & i & t0 & Ht0 & Hi & _ & Hc).
    apply (IH (S l) p0 t0); [lia|done|]. apply elem_of_app. left. rewrite owned_S.
    apply list_elem_of_In, in_flat_map. exists i. rewrite <- !list_elem_of_In. split; [apply elem_of_seqZ; lia|].
    unfold child in Hc. unfold entry_owned. destruct (has _ PTE_PRESENT); [|done]. cbn [andb negb orb] in *.
    destruct (large (S l) _); [done|]. injection Hc as Hc. unfold entry_frame_of. rewrite Hc.
    destruct l; [lia|exact Hx].
Qed.

(** ** The areas *)

Section Areas.
Context {F : Prop} {ok : fa_state -> list Z -> Prop} `{!FrameContract F ok}.

Section One.
Context (s : vm_state) (vm root : Z) (T : tables) (L P fr U : list Z) (head : Z) (ns : list Z).
Hypothesis Hs : space ok s vm root T L P fr U head ns.

(** What only writes objects in use leaves the tables and the pool. *)
Lemma object_frame a : object_byte U a -> frame_byte L a.
Proof.
  intros (p & Hp & Ha)%(space_object_byte _ _ _ _ _ _ _ _ _ _ Hs). exists p. split; [|done].
  by apply (proj2 (proj2 (sp_pool _ _ _ _ _ _ _ _ _ _ Hs))).
Qed.

Lemma object_not_table k t a : T !! k = Some t -> in_range t PAGE_SIZE a -> ~ object_byte U a.
Proof.
  intros Ht Ha (p & Hp & Hb)%(space_object_byte _ _ _ _ _ _ _ _ _ _ Hs).
  assert (Hne : p <> t) by (intros ->; by eapply (sp_pages _ _ _ _ _ _ _ _ _ _ Hs)).
  pose proof (frames_apart p t (space_P_frame _ _ _ _ _ _ _ _ _ _ Hs p Hp)
    (vg_frame _ _ _ _ _ _ (sp_good _ _ _ _ _ _ _ _ _ _ Hs) Ht) Hne).
  unfold apart, in_range in *. lia.
Qed.

Lemma object_not_vm a : in_range vm 16 a -> ~ object_byte U a.
Proof.
  intros Ha Hb%object_frame. apply (sp_vm_out _ _ _ _ _ _ _ _ _ _ Hs a Ha).
  by apply (fc_inside (ok := ok) (vm_fa s) L); [apply Hs|].
Qed.

Lemma vm_fields_kept m' :
  agree (fun a => ~ object_byte U a) (vm_mem s) m' ->
  ld64 m' (vm_areas_list vm) = head /\ ld64 m' (vm_pml4 vm) = root.
Proof.
  intros Hag. destruct (space_vm_kok _ _ _ _ _ _ _ _ _ _ Hs) as (_ & _ & E). split.
  - rewrite <- (sp_head _ _ _ _ _ _ _ _ _ _ Hs). eapply ld_agree; [exact Hag|]. intros a Ha.
    apply object_not_vm. unfold vm_areas_list, in_range in *. lia.
  - rewrite <- (sp_root _ _ _ _ _ _ _ _ _ _ Hs). eapply ld_agree; [exact Hag|]. intros a Ha.
    apply object_not_vm. rewrite E in Ha. unfold in_range in *. lia.
Qed.

Lemma objects_written m' al :
  agree (fun a => ~ object_byte U a) (vm_mem s) m' -> vm_good ok (set_vo s m' al) root T L.
Proof.
  intros Hag. eapply (vm_good_move s); [apply Hs| |done|].
  - apply (fc_write (ok := ok) (vm_fa s) L m'); [apply Hs|]. eapply agree_weaken; [exact Hag|].
    intros a Ha Hb. by apply Ha, object_frame.
  - eapply agree_weaken; [exact Hag|]. intros a (k & t & Ht & Ha). by eapply object_not_table.
Qed.

(** The ring is changed through objects in use. *)
Lemma space_rering m' ns' :
  agree (fun a => ~ object_byte U a) (vm_mem s) m' -> dll m' head ns' -> (forall n, n ∈ head :: ns' -> n ∈ U) ->
  space ok (set_vm s m') vm root T L P fr U head ns'.
Proof.
  intros Hag Hr HU. destruct (vm_fields_kept m' Hag) as [Hh Ht].
  pose proof (objects_written m' (vmem_area_alloc s) Hag) as Hg. split; try done; try apply Hs.
  destruct (sp_pool _ _ _ _ _ _ _ _ _ _ Hs) as (_ & Hpl & HPL). split; [apply Hg|]. split; [|done].
  eapply pool_write; [exact Hpl|apply Hs|apply (space_P_frame _ _ _ _ _ _ _ _ _ _ Hs)|exact Hag].
Qed.

(** The object [x], which is not in the ring, becomes the only free one. *)
Lemma space_free x U1 U2 :
  U = U1 ++ x :: U2 -> x ∉ head :: ns ->
  let m' := st64 (vm_mem s) x 0 in
  let al' := ObjAlloc x (obj_size (vmem_area_alloc s)) in
  in_obj (object_free x) s = Ret (tt, set_vo s m' al') /\
  space ok (set_vo s m' al') vm root T L P [x] (U1 ++ U2) head ns.
Proof.
  intros HU Hx m' al'. pose proof (sp_pool _ _ _ _ _ _ _ _ _ _ Hs) as Hp. rewrite HU in Hp.
  destruct (object_free_ok (vm_fa s) (vmem_area_alloc s) P fr U1 U2 x L Hp) as [Hrun Hp'].
  assert (HxU : x ∈ U) by (rewrite HU; apply elem_of_app; right; apply list_elem_of_here).
  assert (Hag : agree (fun a => ~ object_byte U a) (vm_mem s) m').
  { eapply agree_weaken; [apply st_agree|]. intros a Ha Hr. apply Ha. exists x. split; [done|].
    unfold in_range, sizeof_vmem_area in *. lia. }
  split; [by apply in_obj_ok|]. destruct (vm_fields_kept m' Hag) as [Hh Ht].
  pose proof (sp_used _ _ _ _ _ _ _ _ _ _ Hs) as Hus. split; try done; try apply Hs.
  - by apply objects_written.
  - eapply (dll_agree (fun a => ~ in_range x 8 a)); [apply (st_agree 8 _ x 0)| |apply Hs].
    intros y a Hy Ha Hxa. assert (Hne : x <> y) by (by intros ->).
    pose proof (space_apart _ _ _ _ _ _ _ _ _ _ Hs x y HxU (Hus y Hy) Hne).
    unfold apart, in_range, sizeof_vmem_area in *. lia.
  - intros n Hn. pose proof (Hus n Hn) as Hin. rewrite HU, elem_of_app, elem_of_cons in Hin.
    rewrite elem_of_app. destruct Hin as [?|[->|?]]; [by left|done|by right].
Qed.
End One.

(** The loop that pops and frees the areas. *)
Lemma destroy_areas_ok vm root T L P head ns fuel s fr U :
  space ok s vm root T L P fr U head ns -> (length ns < fuel)%nat ->
  exists m' al fr' U', destroy_areas_loop fuel vm s = Ret (tt, set_vo s m' al) /\
    space ok (set_vo s m' al) vm root T L P fr' U' head [] /\ U ≡ₚ ns ++ U' /\
    agree (fun a => ~ object_byte U a) (vm_mem s) m'.
Proof.
  revert s fr U fuel; induction ns as [|x ns IH]; intros s fr U fuel Hs Hf; (destruct fuel as [|fuel]; [simpl in Hf; lia|]);
    destruct (space_vm_kok _ _ _ _ _ _ _ _ _ _ Hs) as (Hk & _);
    pose proof (sp_ring _ _ _ _ _ _ _ _ _ _ Hs) as Hr; cbn [destroy_areas_loop];
    kstep (vload_ok (vm_areas_list vm) s Hk); rewrite (sp_head _ _ _ _ _ _ _ _ _ _ Hs);
    kstep (in_kmem_ok (list_empty head) s _ _ (list_empty_ok _ _ _ Hr)); rewrite set_vm_id; cbv iota beta.
  - exists (vm_mem s), (vmem_area_alloc s), fr, U.
    assert (E : set_vo s (vm_mem s) (vmem_area_alloc s) = s) by (by destruct s as [[]]). rewrite E. done.
  - rewrite bool_decide_false by done. kstep (vload_ok (vm_areas_list vm) s Hk). rewrite (sp_head _ _ _ _ _ _ _ _ _ _ Hs).
    kstep (space_first _ _ _ _ _ _ _ _ _ _ Hs). cbn [node_first].
    kstep (in_kmem_ok (list_extract x) s tt _ (list_extract_run _ head [] x ns Hr)).
    set (m1 := extract_mem (vm_mem s) (node_last head []) (node_first head ns)).
    pose proof (extract_mem_dll _ head [] x ns Hr) as Hr1. fold m1 in Hr1. cbn [app] in Hr1.
    pose proof (sp_used _ _ _ _ _ _ _ _ _ _ Hs) as Hus.
    assert (Hsub : forall n, n ∈ head :: ns -> n ∈ U) by (intros n Hn; apply Hus; set_solver).
    assert (Hag1 : agree (fun a => ~ object_byte U a) (vm_mem s) m1).
    { apply extract_mem_agree. intros a Ha. split; intros Hr2; apply Ha.
      - exists head. split; [by apply Hsub, list_elem_of_here|]. unfold in_range, sizeof_vmem_area in *. cbn in Hr2. lia.
      - exists (node_first head ns). split; [by apply Hsub, node_first_elem|]. unfold in_range, sizeof_vmem_area in *. lia. }
    pose proof (space_rering _ _ _ _ _ _ _ _ _ _ Hs m1 ns Hag1 Hr1 Hsub) as Hs1.
    assert (HxU : x ∈ U) by (apply Hus; set_solver). apply list_elem_of_split in HxU as (U1 & U2 & HU).
    assert (Hxn : x ∉ head :: ns).
    { pose proof (dll_nodup _ _ _ Hr) as Hnd. rewrite !NoDup_cons in Hnd. set_solver. }
    destruct (space_free _ _ _ _ _ _ _ _ _ _ Hs1 x U1 U2 HU Hxn) as [Hrun Hs2]. kstep Hrun.
    destruct (IH _ _ _ fuel Hs2 ltac:(simpl in Hf; lia)) as (m' & al & fr' & U' & Hrun' & Hs' & HU' & Hag').
    exists m', al, fr', U'. split; [exact Hrun'|]. split; [exact Hs'|]. split.
    + rewrite HU, <- Permutation_middle, HU'. done.
    + eapply agree_trans; [exact Hag1|]. eapply agree_trans; [|eapply agree_weaken; [exact Hag'|]].
      * eapply agree_weaken; [apply st_agree|]. intros a Ha Hx. apply Ha. exists x.
        split; [rewrite HU; apply elem_of_app; right; apply list_elem_of_here|]. unfold in_range, sizeof_vmem_area in *. lia.
      * intros a Ha (n & Hn & Hna). apply Ha. exists n. split; [|done]. rewrite HU. clear -Hn.
        rewrite elem_of_app in Hn. rewrite elem_of_app, elem_of_cons. tauto.
Qed.

(** The whole: the areas, the head of their list, the tables. *)
Lemma destroy_ok (HF : F) s vm root T L P fr U head ns fuel :
  space ok s vm root T L P fr U head ns -> curr_vmem s <> vm -> (length ns < fuel)%nat ->
  let G := owned (vm_mem s) 4 root ++ [root] in
  G ⊆+ L -> (forall p, p ∈ P -> p ∉ G) ->
  exists m' L' U', let al' := ObjAlloc head sizeof_vmem_area in
    vmem_destroy fuel vm s = Ret (tt, set_vo s m' al') /\ G ++ L' ≡ₚ L /\
    pool_in ok (set_mem (vm_fa s) m', al') P [head] U' L' /\ U ≡ₚ head :: ns ++ U' /\
    agree (fun a => (frame_byte L' a \/ ~ fa_bytes (vm_fa s) a) /\ ~ object_byte U a) (vm_mem s) m'.
Proof.
  intros Hs Hcur Hf G HG HP. unfold vmem_destroy. rewrite kget_bind.
  rewrite kassert_true by (by apply negb_true_iff, Z.eqb_neq).
  destruct (destroy_areas_ok vm root T L P head ns fuel s fr U Hs Hf) as (m1 & al & fr' & U1 & Hrun & Hs1 & HU & Hag1).
  kstep Hrun. set (s1 := set_vo s m1 al) in *.
  destruct (space_vm_kok _ _ _ _ _ _ _ _ _ _ Hs) as (Hk & Hk2 & E8).
  kstep (vload_ok (vm_areas_list vm) s1 Hk). rewrite (sp_head _ _ _ _ _ _ _ _ _ _ Hs1).
  assert (HhU : head ∈ U1) by (apply (sp_used _ _ _ _ _ _ _ _ _ _ Hs1), list_elem_of_here).
  apply list_elem_of_split in HhU as (A & B & HU1).
  pose proof (sp_pool _ _ _ _ _ _ _ _ _ _ Hs1) as Hp1. rewrite HU1 in Hp1.
  destruct (object_free_ok (vm_fa s1) al P fr' A B head L Hp1) as [Hfree Hp2].
  pose proof (sp_size _ _ _ _ _ _ _ _ _ _ Hs1) as Hsz. change (vmem_area_alloc s1) with al in Hsz. rewrite Hsz in Hfree, Hp2.
  kstep (in_obj_ok (object_free head) s1 tt _ _ Hfree).
  set (m2 := st64 (fa_mem (vm_fa s1)) head 0) in *. set (s2 := set_vo s1 m2 (ObjAlloc head sizeof_vmem_area)).
  assert (Hag2 : agree (fun a => ~ object_byte U1 a) (vm_mem s1) m2).
  { eapply agree_weaken; [apply st_agree|]. intros a Ha Hr. apply Ha. exists head.
    split; [rewrite HU1; apply elem_of_app; right; apply list_elem_of_here|]. unfold in_range, sizeof_vmem_area in *. lia. }
  assert (HU1U : forall a, ~ object_byte U a -> ~ object_byte U1 a).
  { intros a Ha (n & Hn & Hna). apply Ha. exists n. split; [|done]. rewrite HU. apply elem_of_app. by right. }
  assert (Hag : agree (fun a => ~ object_byte U a) (vm_mem s) m2).
  { eapply agree_trans; [exact Hag1|]. by eapply agree_weaken; [exact Hag2|]. }
  assert (Hown : owned m2 4 root = owned (vm_mem s) 4 root).
  { pose proof (vg_tree _ _ _ _ (sp_good _ _ _ _ _ _ _ _ _ _ Hs)) as Htr.
    apply (owned_ext (vm_mem s) m2 root T 4 0 root Htr); [|apply Htr]. intros [l p] t i Ht Hi.
    eapply entry_agree; [exact Hag|by eapply vg_frame, Ht; apply Hs|done|].
    intros a Ha. by eapply (object_not_table _ _ _ _ _ _ _ _ _ _ Hs). }
  destruct (vm_fields_kept _ _ _ _ _ _ _ _ _ _ Hs m2 Hag) as [_ Hroot].
  destruct (destroy_tables_ok HF (vm_fa s) m2 vm root Hk2) with (s := s2) (L := L) as (m3 & L3 & Hrun3 & HL3 & Hok3 & Hag3).
  { intros a Ha. apply (sp_vm_out _ _ _ _ _ _ _ _ _ _ Hs). rewrite E8 in Ha. unfold in_range in *. lia. }
  { exact Hroot. } { done. } { apply Hp2. } { by rewrite Hown. } { done. }
  exists m3, L3, (A ++ B). split; [exact Hrun3|]. rewrite Hown in HL3. split; [exact HL3|].
  assert (HP3 : forall p, p ∈ P -> p ∈ L3).
  { intros p Hp. assert (Hin : p ∈ L) by (by apply (proj2 (proj2 Hp2))). rewrite <- HL3 in Hin.
    apply elem_of_app in Hin as [Hin|Hin]; [by apply HP in Hin|done]. }
  split; [|split].
  - split; [exact Hok3|]. split; [|exact HP3]. destruct Hp2 as (_ & [Q1 Q2 Q3 Q4] & _). split; try done. cbn [fst snd].
    eapply chain_agree; [exact Hag3| |exact Q2]. intros x b Hx Hb. left.
    destruct (slot_byte sizeof_vmem_area P ltac:(done) x b 8) as (p & Hp & Hpb); [| |done|by exists p; auto].
    + apply Q3. by apply elem_of_app; left.
    + done.
  - rewrite HU, HU1, <- !Permutation_middle. done.
  - intros a [Ha Hn]. rewrite Hag3 by exact Ha. by apply Hag.
Qed.
End Areas.
