(* ===== verification/Clone.v ===== *)
(** * vmem_clone_pages: the translations of the source, on frames of its own

    The loops over the source's tables visit every prefix once; [clones l R c]
    says that [c] gives the addresses of [R], for which nothing was mapped, the
    translations of the source, and copies the pages marked [PTE_ALLOC]. *)

From S2P Require Import Prelude Mem Common DList Buddy Paging FrameAlloc FrameRefine FrameZones FrameSession FrameInit.
From S2P Require Import FrameExample FrameClient Obj ObjSpec Vmem PageTable VmemSpec VmemMap AddrSpace Destroy.

(** ** The entry a translation ends at *)

Fixpoint find_leaf (m : mem) (l : nat) (t va : Z) : option (nat * Z) :=
  match l with
  | O => None
  | S l' =>
      e ← table_entry m t (index l va);
      if (l' =? 0)%nat || large l e then Some (l, e) else find_leaf m l' (PHYS_TO_VIRT (PTE_ADDR e)) va
  end.

Lemma walk_find_leaf m l t va : walk m l t va = '(k, e) ← find_leaf m l t va; Some (leaf k e va).
Proof.
  revert t; induction l as [|l IH]; intros t; [done|]. cbn [walk find_leaf].
  destruct (table_entry m t (index (S l) va)) as [e|]; [|done]. cbn [mbind option_bind].
  destruct (_ || _); [done|apply IH].
Qed.

Lemma find_leaf_child m l t va t' :
  (1 <= l)%nat -> child m (S l) t (index (S l) va) = Some t' -> find_leaf m (S l) t va = find_leaf m l t' va.
Proof.
  intros Hl Hc. unfold child in Hc. cbn [find_leaf]. unfold table_entry, present.
  destruct (has _ PTE_PRESENT); [|done]. cbn [mbind option_bind andb] in *.
  destruct (large (S l) _); [done|]. injection Hc as <-. by destruct l; [lia|].
Qed.

Lemma find_leaf_at m root T va l t :
  tree m root T -> T !! (l, prefix l va) = Some t -> find_leaf m 4 root va = find_leaf m l t va.
Proof.
  intros Ht Hl. destruct (tr_top _ _ _ Ht _ _ _ Hl) as [[Hl1 Hl4] _].
  remember (4 - l)%nat as d eqn:Hd. revert l t Hl Hl1 Hl4 Hd.
  induction d as [|d IH]; intros l t Hl Hl1 Hl4 Hd.
  - assert (l = 4%nat) as -> by lia. rewrite prefix_top in Hl.
    pose proof (tr_root _ _ _ Ht) as Hr. rewrite Hl in Hr. by injection Hr as ->.
  - destruct (tr_back _ _ _ Ht l _ _ ltac:(lia) Hl) as (p & i & t0 & Hp & Hi & Hq & Hc).
    rewrite prefix_index in Hq by lia. pose proof (index_bounds (S l) va).
    assert (p = prefix (S l) va) as -> by lia. assert (i = index (S l) va) as -> by lia.
    rewrite (IH (S l) t0) by (done || lia). by apply find_leaf_child.
Qed.

(** It is an entry of a table of the tree, and depends on the tables only. *)
Lemma find_leaf_entry m root T va l t k e :
  tree m root T -> T !! (l, prefix l va) = Some t -> find_leaf m l t va = Some (k, e) ->
  exists t', T !! (k, prefix k va) = Some t' /\ e = ld64 m (entry_addr t' (index k va)) /\ has e PTE_PRESENT = true.
Proof.
  intros Ht. revert t; induction l as [|l IH]; intros t Hk Hf; [done|].
  destruct (tr_top _ _ _ Ht _ _ _ Hk) as [Hl _]. cbn [find_leaf] in Hf. unfold table_entry, present in Hf.
  destruct (has (ld64 m (entry_addr t (index (S l) va))) PTE_PRESENT) eqn:Hp; [|done]. cbn [mbind option_bind] in Hf.
  destruct (_ || _) eqn:E; [injection Hf as <- <-; by exists t|]. apply orb_false_iff in E as [E1 E2].
  apply (IH (PHYS_TO_VIRT (PTE_ADDR (ld64 m (entry_addr t (index (S l) va)))))); [|done].
  rewrite prefix_index by lia. eapply (tr_child _ _ _ Ht); [destruct l; [done|lia]|exact Hk|apply index_bounds|].
  unfold child. by rewrite Hp, E2.
Qed.

Lemma find_leaf_ext m m' root T va l t :
  tree m root T -> (forall k t i, T !! k = Some t -> 0 <= i < 512 -> ld64 m' (entry_addr t i) = ld64 m (entry_addr t i)) ->
  T !! (l, prefix l va) = Some t -> find_leaf m' l t va = find_leaf m l t va.
Proof.
  intros Ht Hent. revert t; induction l as [|l IH]; intros t Hk; [done|].
  destruct (tr_top _ _ _ Ht _ _ _ Hk) as [Hl _]. cbn [find_leaf]. unfold table_entry, present.
  rewrite (Hent _ _ _ Hk) by apply index_bounds. destruct (has _ PTE_PRESENT) eqn:Hp; [|done].
  cbn [mbind option_bind]. destruct (_ || _) eqn:E; [done|]. apply orb_false_iff in E as [E1 E2]. apply IH.
  rewrite prefix_index by lia. eapply (tr_child _ _ _ Ht); [destruct l; [done|lia]|exact Hk|apply index_bounds|].
  unfold child. by rewrite Hp, E2.
Qed.

(** ** Addresses from indices *)

Lemma prefix_le l l' va va' : (l <= l')%nat -> prefix l va = prefix l va' -> prefix l' va = prefix l' va'.
Proof. induction 1 as [|l' _ IH]; [done|]. intros H. by apply prefix_same, IH. Qed.

Lemma prefix_split l p i va :
  (l <= 3)%nat -> 0 <= i < 512 -> prefix l va = p * 512 + i -> prefix (S l) va = p /\ index (S l) va = i.
Proof. intros Hl Hi Hp. rewrite prefix_index in Hp by done. pose proof (index_bounds (S l) va). lia. Qed.

Lemma MAKE_ADDR_prefix a b c d :
  0 <= a < 512 -> 0 <= b < 512 -> 0 <= c < 512 -> 0 <= d < 512 ->
  let va := MAKE_ADDR a b c d 0 in
  prefix 3 va = a /\ prefix 2 va = a * 512 + b /\ prefix 1 va = (a * 512 + b) * 512 + c /\
  prefix 0 va = ((a * 512 + b) * 512 + c) * 512 + d.
Proof.
  intros Ha Hb Hc Hd va. assert (Ho : 0 <= 0 < 4096) by lia.
  assert (H4 : index 4 va = a) by exact (MAKE_ADDR_PML4E a b c d 0 Ha Hb Hc Hd Ho).
  assert (H3 : index 3 va = b) by exact (MAKE_ADDR_PDPE a b c d 0 Ha Hb Hc Hd Ho).
  assert (H2 : index 2 va = c) by exact (MAKE_ADDR_PDE a b c d 0 Ha Hb Hc Hd Ho).
  assert (H1 : index 1 va = d) by exact (MAKE_ADDR_PTE a b c d 0 Ha Hb Hc Hd Ho).
  assert (E3 : prefix 3 va = a) by (rewrite prefix_index, prefix_top, H4 by lia; lia).
  assert (E2 : prefix 2 va = a * 512 + b) by (rewrite prefix_index, E3, H3 by lia; lia).
  assert (E1 : prefix 1 va = (a * 512 + b) * 512 + c) by (rewrite prefix_index, E2, H2 by lia; lia).
  split_and!; try done. by rewrite prefix_index, E1, H1 by lia.
Qed.

(** The address of the first byte of a large page is aligned to it. *)
Lemma prefix_aligned l k va :
  (l <= 3)%nat -> aligned PAGE_SIZE va -> prefix 0 va = k * 2 ^ (9 * Z.of_nat l) -> aligned (2 ^ (12 + 9 * Z.of_nat l)) va.
Proof.
  intros Hl Ha Hp. apply (aligned_mod PAGE_SIZE) in Ha; [|done]. apply Z.mod_divide; [lia|].
  unfold prefix in Hp. change (12 + 9 * Z.of_nat 0) with 12 in Hp. change PAGE_SIZE with (2 ^ 12) in Ha.
  destruct l as [|[|[|[|l]]]]; [..|lia]; cbn in *; Z.to_euclidean_division_equations; lia.
Qed.

Section Clone.
Context {F : Prop} {ok : fa_state -> list Z -> Prop} `{!FrameContract F ok} `{!FrameSource ok}.

(** The start: the source's tables [Ts] and the destination's [T0]. *)
Context (s0 : vm_state) (dst rd rs : Z) (T0 Ts : tables) (L0 : list Z).
Let m0 := vm_mem s0.
Hypothesis Hsrc : tree m0 rs Ts.
Hypothesis Hsrc_held : forall k t, Ts !! k = Some t -> t ∈ L0 /\ forall k', T0 !! k' <> Some t.
Hypothesis Hsrc_pages : forall p t i, Ts !! (1%nat, p) = Some t -> 0 <= i < 512 ->
  let e := ld64 m0 (entry_addr t i) in has e PTE_PRESENT = true -> has e PTE_ALLOC = true ->
  entry_frame_of e ∈ L0 /\ forall k', T0 !! k' <> Some (entry_frame_of e).
Hypothesis Hsrc_large : forall l p t i, Ts !! (S l, p) = Some t -> 0 <= i < 512 ->
  let e := ld64 m0 (entry_addr t i) in has e PTE_PRESENT = true -> large (S l) e = true ->
  aligned (2 ^ (12 + 9 * Z.of_nat l)) (PTE_ADDR e).
Hypothesis Hdst : kok (vm_pml4 dst) 8 = true.
Hypothesis Hdst_out : forall a, in_range (vm_pml4 dst) 8 a -> ~ fa_bytes (vm_fa s0) a.
Hypothesis Hdst_root : ld64 m0 (vm_pml4 dst) = rd.

(** The state in the course of the loops. *)
Definition going (s : vm_state) (T : tables) (L : list Z) : Prop :=
  s = set_vm s0 (vm_mem s) /\ vm_good ok s rd T L /\ vm_effect s0 T0 L0 (vm_mem s) T L.

Lemma going_step s T L m' T' L' :
  going s T L -> vm_good ok (set_vm s m') rd T' L' -> vm_effect s T L m' T' L' -> going (set_vm s m') T' L'.
Proof.
  intros (E & Hg & He) Hg' He'. split; [by rewrite E|]. split; [done|].
  eapply vm_effect_trans; [exact He|]. by rewrite <- E.
Qed.

(** What the source's frames hold is as at the start. *)
Lemma going_frame s T L p :
  going s T L -> p ∈ L0 -> (forall k, T0 !! k <> Some p) ->
  p ∈ L /\ (forall k, T !! k <> Some p) /\ frame_at p /\ forall a, in_range p PAGE_SIZE a -> rd8 (vm_mem s) a = rd8 m0 a.
Proof.
  intros (_ & Hg & [H1 H2 _ _ H5]) Hp HT. assert (HpL : p ∈ L) by auto. split; [done|]. split.
  - intros k Hk. destruct (H5 k p Hk) as [Hk'|]; [by eapply HT|done].
  - split; [eapply (fc_frame (ok := ok)); [apply Hg|done]|]. intros a Ha. apply H2. by exists p.
Qed.

Lemma going_root s T L : going s T L -> ld64 (vm_mem s) (vm_pml4 dst) = rd.
Proof.
  intros (_ & _ & He). rewrite <- Hdst_root. eapply ld_agree; [apply (ve_outside _ _ _ _ _ _ He)|]. done.
Qed.

Lemma src_entry s T L k t i :
  going s T L -> Ts !! k = Some t -> 0 <= i < 512 -> entry t i s = Ret (ld64 m0 (entry_addr t i), s).
Proof.
  intros Hgo Ht Hi. destruct (Hsrc_held k t Ht) as [HtL HtT].
  destruct (going_frame s T L t Hgo HtL HtT) as (_ & _ & Hf & Hag).
  destruct (entry_frame t i Hf Hi) as (_ & Hk & _). unfold entry. rewrite vload_ok by done. f_equal. f_equal.
  by eapply (entry_agree (in_range t PAGE_SIZE)).
Qed.

(** ** What cloning an address means *)

Definition page_copied (va : Z) : Prop := exists e, find_leaf m0 4 rs va = Some (1%nat, e) /\ has e PTE_ALLOC = true.

(** The page of [va] is the frame [q]. *)
Definition page_is (m : mem) (va q : Z) : Prop := walk m 4 rd va = Some (VIRT_TO_PHYS q + va mod PAGE_SIZE).

(** [L] are the frames in use before, [L'] those after. *)
Definition cloned (m' : mem) (T' : tables) (L' L : list Z) (va : Z) : Prop :=
  match find_leaf m0 4 rs va with
  | None => walk m' 4 rd va = None
  | Some (l, e) =>
      if (l =? 1)%nat && has e PTE_ALLOC then
        exists q, q ∈ L' /\ q ∉ L /\ (forall k, T' !! k <> Some q) /\ page_is m' va q /\
          forall o, 0 <= o < PAGE_SIZE -> rd8 m' (q + o) = rd8 m0 (entry_frame_of e + o)
      else walk m' 4 rd va = Some (leaf l e va)
  end.

(** No frame is the copy of two pages. *)
Definition copies_differ (m' : mem) (R : Z -> Prop) : Prop :=
  forall va va' q, R va -> R va' -> page_copied va -> page_copied va' ->
    page_is m' va q -> page_is m' va' q -> prefix 0 va = prefix 0 va'.

Definition vacant (s : vm_state) (T : tables) (l : nat) (R : Z -> Prop) : Prop :=
  forall va, R va -> walk (vm_mem s) 4 rd va = None /\ forall l', (1 <= l' <= l)%nat -> T !! (l', prefix l' va) = None.

(** The tables that are new are on the way to an address of [R]. *)
Definition new_in (T T' : tables) (R : Z -> Prop) : Prop :=
  forall k, T' !! k <> None -> T !! k <> None \/ exists va l, R va /\ k = (l, prefix l va).

Definition clones (l : nat) (R : Z -> Prop) (c : K vm_state (option Z)) : Prop :=
  forall s T L, going s T L -> vacant s T l R ->
  exists r m' T' L', c s = Ret (r, set_vm s m') /\ going (set_vm s m') T' L' /\ vm_effect s T L m' T' L' /\ new_in T T' R /\
    (r = Some (- ENOMEM) \/
     r = None /\ (forall va, R va -> cloned m' T' L' L va) /\ copies_differ m' R /\
     forall va, ~ R va -> walk m' 4 rd va = walk (vm_mem s) 4 rd va).

(** A copy survives later operations. *)
Lemma cloned_keep s T L m2 T2 L2 Lb va :
  vm_effect s T L m2 T2 L2 -> (forall q, q ∈ L -> frame_at q) -> walk m2 4 rd va = walk (vm_mem s) 4 rd va ->
  cloned (vm_mem s) T L Lb va -> cloned m2 T2 L2 Lb va.
Proof.
  intros [H1 H2 _ _ H5] Hf Hw. unfold cloned. destruct (find_leaf m0 4 rs va) as [[l e]|]; [|by rewrite Hw].
  case_match; [|by rewrite Hw]. intros (q & Hq & HqL & HqT & Hp & Hc). exists q. split; [by apply H1|]. split; [done|].
  split; [|split].
  - intros k Hk. destruct (H5 k q Hk) as [Hk'|]; [by eapply HqT|done].
  - unfold page_is. by rewrite Hw.
  - intros o Ho. rewrite H2; [by apply Hc|]. exists q. split; [done|]. split; [done|]. unfold in_range. lia.
Qed.

Lemma page_is_frame m va q q' : frame_at q -> page_is m va q -> page_is m va q' -> VIRT_TO_PHYS q' = VIRT_TO_PHYS q.
Proof. unfold page_is. intros _ H1 H2. rewrite H1 in H2. injection H2 as H2. lia. Qed.

Lemma cloned_page m T L Lb va q :
  page_copied va -> cloned m T L Lb va -> page_is m va q -> (forall p, p ∈ L -> frame_at p) ->
  exists p, p ∈ L /\ p ∉ Lb /\ p = PHYS_TO_VIRT (VIRT_TO_PHYS q).
Proof.
  intros (e & He & Ha) Hc Hq Hf. unfold cloned in Hc. rewrite He in Hc. cbn [Nat.eqb andb] in Hc. rewrite Ha in Hc.
  destruct Hc as (p & Hp & HpL & _ & Hpi & _). exists p. split; [done|]. split; [done|].
  rewrite (page_is_frame m va p q (Hf p Hp) Hpi Hq). by destruct (frame_at_phys p (Hf p Hp)) as (_ & _ & ->).
Qed.

(** One after the other, on addresses told apart at level [l]. *)
Lemma clones_seq l R1 R2 c f :
  clones l R1 c -> clones l R2 f -> (forall va va', R1 va -> R2 va' -> prefix l va <> prefix l va') ->
  clones l (fun va => R1 va \/ R2 va) (let! r := c in match r with Some a => kret (Some a) | None => f end)%K.
Proof.
  intros Hc Hf Hsep s T L Hgo Hvac.
  destruct (Hc s T L Hgo) as (r1 & m1 & T1 & L1 & Hrun1 & Hgo1 & He1 & Hn1 & Hres1).
  { intros va HR. apply Hvac. by left. }
  assert (Hn : new_in T T1 (fun va => R1 va \/ R2 va)).
  { intros k Hk. destruct (Hn1 k Hk) as [|(va & lv & HR & E)]; [by left|right; eauto]. }
  kstep Hrun1. destruct Hres1 as [-> |(-> & Hcl1 & Hd1 & Hw1)].
  { exists (Some (- ENOMEM)), m1, T1, L1. split_and!; try done. by left. }
  destruct (Hf (set_vm s m1) T1 L1 Hgo1) as (r2 & m2 & T2 & L2 & Hrun2 & Hgo2 & He2 & Hn2 & Hres2).
  { intros va HR. destruct (Hvac va ltac:(by right)) as [Hw Hk]. split.
    - change (vm_mem (set_vm s m1)) with m1. rewrite (Hw1 va); [done|]. intros HR1. by apply (Hsep va va).
    - intros l' Hl'. destruct (T1 !! (l', prefix l' va)) eqn:E; [|done]. exfalso.
      destruct (Hn1 (l', prefix l' va) ltac:(by rewrite E)) as [H|(va1 & lv & HR1 & [= <- Hp])].
      + by apply H, Hk.
      + apply (Hsep va1 va HR1 HR). symmetry. eapply prefix_le; [|exact Hp]. lia. }
  exists r2, m2, T2, L2. split; [exact Hrun2|]. split; [exact Hgo2|].
  split; [eapply vm_effect_trans; [exact He1|exact He2]|]. split.
  { intros k Hk. destruct (Hn2 k Hk) as [Hk1|(va & lv & HR & E)]; [by apply Hn|right; eauto]. }
  change (vm_mem (set_vm s m1)) with m1 in Hres2.
  destruct Hres2 as [-> |(-> & Hcl2 & Hd2 & Hw2)]; [by left|right]. split; [done|].
  assert (Hf1 : forall q, q ∈ L1 -> frame_at q).
  { intros q Hq. eapply (fc_frame (ok := ok)); [apply Hgo1|done]. }
  assert (Hf2 : forall q, q ∈ L2 -> frame_at q).
  { intros q Hq. eapply (fc_frame (ok := ok)); [apply Hgo2|done]. }
  assert (Hk1 : forall va, R1 va -> walk m2 4 rd va = walk m1 4 rd va).
  { intros va HR. apply Hw2. intros HR2. by apply (Hsep va va). }
  split; [|split].
  - intros va [HR|HR]; [by apply (cloned_keep _ _ _ _ _ _ _ _ He2 Hf1), Hcl1; [apply Hk1|]|].
    pose proof (Hcl2 va HR) as Hcl. unfold cloned in *. destruct (find_leaf m0 4 rs va) as [[lf e]|]; [|done].
    case_match; [|done]. destruct Hcl as (q & Hq & HqL & HqT & Hp & Hcp). exists q.
    split; [done|]. split; [|done]. intros Hin. by apply HqL, (ve_held _ _ _ _ _ _ He1).
  - assert (Hcross : forall va va' q, R1 va -> R2 va' -> page_copied va -> page_copied va' ->
              page_is m2 va q -> page_is m2 va' q -> False).
    { intros va va' q HR HR' Hpc Hpc' Hq Hq'. unfold page_is in Hq. rewrite Hk1 in Hq by done.
      destruct (cloned_page m1 T1 L1 L va q Hpc (Hcl1 va HR) Hq Hf1) as (p & Hp & _ & E).
      destruct (cloned_page m2 T2 L2 L1 va' q Hpc' (Hcl2 va' HR') Hq' Hf2) as (p' & _ & Hp' & E').
      apply Hp'. by rewrite E', <- E. }
    intros va va' q [HR|HR] [HR'|HR'] Hpc Hpc' Hq Hq'.
    + apply (Hd1 va va' q); try done; unfold page_is in *; by rewrite <- Hk1.
    + exfalso. by apply (Hcross va va' q).
    + exfalso. by apply (Hcross va' va q).
    + by apply (Hd2 va va' q).
  - intros va HR. rewrite Hw2 by tauto. apply Hw1. tauto.
Qed.

Lemma clones_iff l (R R' : Z -> Prop) c : (forall va, R va <-> R' va) -> clones l R c -> clones l R' c.
Proof.
  intros HR Hc s T L Hgo Hvac. destruct (Hc s T L Hgo) as (r & m' & T' & L' & Hrun & Hgo' & He & Hn & Hres).
  { intros va Hva. by apply Hvac, HR. }
  exists r, m', T', L'. split; [done|]. split; [done|]. split; [done|]. split.
  { intros k Hk. destruct (Hn k Hk) as [|(va & lv & H & E)]; [by left|right]. exists va, lv. split; [by apply HR|done]. }
  destruct Hres as [|(Hr & Hcl & Hd & Hw)]; [by left|right]. split; [done|]. split; [|split].
  - intros va Hva. by apply Hcl, HR.
  - intros va va' q Hva%HR Hva'%HR. by apply Hd.
  - intros va Hva. apply Hw. by rewrite HR.
Qed.

Lemma clones_level l l' R c : (l <= l')%nat -> clones l R c -> clones l' R c.
Proof.
  intros Hl Hc s T L Hgo Hvac. apply (Hc s T L Hgo). intros va Hva. destruct (Hvac va Hva) as [Hw Hk].
  split; [done|]. intros j Hj. apply Hk. lia.
Qed.

(** Nothing to do where the source maps nothing. *)
Lemma clones_none l (R : Z -> Prop) : (forall va, R va -> find_leaf m0 4 rs va = None) -> clones l R continue.
Proof.
  intros HR s T L Hgo Hvac. exists None, (vm_mem s), T, L. rewrite set_vm_id. split; [done|]. split; [done|].
  split; [apply vm_effect_refl|]. split; [by left|]. right. split; [done|]. split; [|split; [|done]].
  - intros va Hva. unfold cloned. rewrite HR by done. by apply Hvac.
  - intros va va' q Hva _ (e & He & _). by rewrite HR in He.
Qed.

Lemma clones_loop l q body i n :
  (forall j, i <= j < i + Z.of_nat n -> clones l (fun va => prefix l va = q * 512 + j) (body j)) ->
  clones l (fun va => exists j, i <= j < i + Z.of_nat n /\ prefix l va = q * 512 + j) (for_from body i n).
Proof.
  revert i; induction n as [|n IH]; intros i Hb.
  - apply clones_none. intros va (j & Hj & _). lia.
  - apply (clones_iff l (fun va => prefix l va = q * 512 + i \/
      exists j, i + 1 <= j < i + 1 + Z.of_nat n /\ prefix l va = q * 512 + j)).
    + intros va. split.
      * intros [H|(j & Hj & H)]; [exists i|exists j]; (split; [lia|done]).
      * intros (j & Hj & H). destruct (decide (j = i)) as [->|]; [by left|right]. exists j. split; [lia|done].
    + apply (clones_seq l _ _ (body i) (for_from body (i + 1) n)).
      * apply Hb. lia.
      * apply IH. intros j Hj. apply Hb. lia.
      * intros va va' H (j & Hj & H'). lia.
Qed.

(** All the entries of a table. *)
Lemma clones_table l q body :
  (l <= 3)%nat -> (forall j, 0 <= j < 512 -> clones l (fun va => prefix l va = q * 512 + j) (body j)) ->
  clones (S l) (fun va => prefix (S l) va = q) (for_from body 0 512).
Proof.
  intros Hl Hb. eapply clones_level; [|eapply clones_iff; [|apply (clones_loop l q body 0 512)]].
  - lia.
  - intros va. split.
    + intros (j & Hj & H). by apply (prefix_split l q j).
    + intros <-. exists (index (S l) va). pose proof (index_bounds (S l) va). split; [lia|]. by apply prefix_index.
  - intros j Hj. apply Hb. lia.
Qed.

Lemma clones_entry l R k t i f :
  Ts !! k = Some t -> 0 <= i < 512 -> clones l R (f (ld64 m0 (entry_addr t i))) ->
  clones l R (let! e := entry t i in f e)%K.
Proof. intros Ht Hi Hf s T L Hgo Hvac. kstep (src_entry s T L k t i Hgo Ht Hi). by apply Hf. Qed.

(** The source's translation of the addresses of an entry. *)
Lemma src_leaf l p t i va :
  (l <= 3)%nat -> Ts !! (S l, p) = Some t -> 0 <= i < 512 -> prefix l va = p * 512 + i ->
  let e := ld64 m0 (entry_addr t i) in
  find_leaf m0 4 rs va = if has e PTE_PRESENT then
    if (l =? 0)%nat || large (S l) e then Some (S l, e) else find_leaf m0 l (PHYS_TO_VIRT (PTE_ADDR e)) va
    else None.
Proof.
  intros Hl Ht Hi Hp e. destruct (prefix_split l p i va Hl Hi Hp) as [Hps Hix].
  rewrite (find_leaf_at m0 rs Ts va (S l) t Hsrc) by (by rewrite Hps). cbn [find_leaf]. rewrite Hix.
  unfold table_entry, present. fold e. by destruct (has e PTE_PRESENT).
Qed.

(** A page, or a large page, that is mapped to the frame of the source. *)
Lemma mapped_clones s T L l va e es r m' T' L' :
  going s T L -> mapped ok s rd T L (S l) va e r m' T' L' -> PTE_ADDR e = PTE_ADDR es -> (l <= 2)%nat ->
  (forall va', prefix l va' = prefix l va -> find_leaf m0 4 rs va' = Some (S l, es)) ->
  (S l =? 1)%nat && has es PTE_ALLOC = false ->
  exists r' m'' T'' L'', Ret (check r, set_vm s m') = Ret (r', set_vm s m'') /\
    going (set_vm s m'') T'' L'' /\ vm_effect s T L m'' T'' L'' /\ new_in T T'' (fun va' => prefix l va' = prefix l va) /\
    (r' = Some (- ENOMEM) \/
     r' = None /\ (forall va', prefix l va' = prefix l va -> cloned m'' T'' L'' L va') /\
     copies_differ m'' (fun va' => prefix l va' = prefix l va) /\
     forall va', prefix l va' <> prefix l va -> walk m'' 4 rd va' = walk (vm_mem s) 4 rd va').
Proof.
  intros Hgo (Hg & He & Hn & _ & _ & Hres) HE Hl Hsl Hcopy. exists (check r), m', T', L'. split; [done|].
  split; [by eapply going_step|]. split; [done|]. split.
  { intros k Hk. destruct (Hn k Hk) as [|(lv & _ & E)]; [by left|right; by exists va, lv]. }
  destruct Hres as [[-> _]|(-> & _ & Hw)]; [by left|right]. rewrite Nat.sub_succ, Nat.sub_0_r in Hw.
  split; [done|]. split; [|split].
  - intros va' Hva'. unfold cloned. rewrite Hsl, Hcopy by done. rewrite Hw, decide_True by done.
    f_equal. unfold leaf. by rewrite HE.
  - intros va1 va2 q H1 H2 (e1 & He1 & Ha) _ _ _. rewrite Hsl in He1 by done. injection He1 as Hl0 <-.
    by rewrite Hl0, Ha in Hcopy.
  - intros va' Hva'. by rewrite Hw, decide_False.
Qed.

(** ** The bodies of the loops *)

Lemma clone_map_page s T L va frame flags :
  going s T L -> vacant s T 0 (fun va' => prefix 0 va' = prefix 0 va) ->
  aligned PAGE_SIZE va -> 0 <= frame < 2 ^ 48 -> aligned PAGE_SIZE frame ->
  exists r m' T' L', vmem_map_page dst va frame flags s = Ret (r, set_vm s m') /\
    mapped ok s rd T L 1 va (Z.lor (Z.lor frame PTE_PRESENT) (vmem_convert_flags flags)) r m' T' L'.
Proof.
  intros Hgo Hvac Ha Hf Hfa. apply map_page_mapped; try done; [apply Hgo|by eapply going_root|].
  by apply (Hvac va).
Qed.

(** A frame for the copy, filled with the source's page. *)
Lemma copy_page s T L es src :
  going s T L -> src = entry_frame_of es -> src ∈ L0 -> (forall k, T0 !! k <> Some src) ->
  in_fa frame_alloc s = Ret (NULL, s) \/
  exists p m1 m2, in_fa frame_alloc s = Ret (p, set_vm s m1) /\ p <> NULL /\ p ∉ L /\ frame_at p /\
    in_kmem (memcpy p src PAGE_SIZE) (set_vm s m1) = Ret (tt, set_vm s m2) /\
    vm_good ok (set_vm s m2) rd T (p :: L) /\ vm_effect s T L m2 T (p :: L) /\
    (forall va, walk m2 4 rd va = walk (vm_mem s) 4 rd va) /\
    forall o, 0 <= o < PAGE_SIZE -> rd8 m2 (p + o) = rd8 m0 (src + o).
Proof.
  intros Hgo Hes HsL HsT. pose proof Hgo as (_ & Hg & _).
  destruct (going_frame s T L src Hgo HsL HsT) as (HsrcL & _ & Hsf & Hsrc_m).
  destruct (fc_alloc (ok := ok) (vm_fa s) L (vg_ok _ _ _ _ Hg)) as
    [[Hnull _]|(p & m1 & Hrun & Hp0 & HpL & Hok1 & Hag & Hout & _)]; [left|right].
  { rewrite <- (set_vm_id s) at 2. apply in_fa_ok. rewrite Hnull. by destruct s as [[]]. }
  pose proof (fc_frame (ok := ok) _ _ p Hok1 (list_elem_of_here _ _)) as Hpf.
  assert (Hne : src <> p) by (by intros ->). pose proof (frames_apart src p Hsf Hpf Hne) as Hap.
  assert (Hkok : forall q, frame_at q -> kok q PAGE_SIZE = true).
  { intros q Hq. eapply (frame_at_kok q); [done|lia|done|lia]. }
  destruct (memcpy_ok p src PAGE_SIZE m1) as (m2 & Hcp & Hcopied);
    [done|by apply Hkok|by apply Hkok|unfold apart in Hap; destruct Hap; unfold PAGE_SIZE in *; lia|].
  exists p, m1, m2. split; [by apply in_fa_ok|]. split; [done|]. split; [done|]. split; [done|].
  split; [by apply (in_kmem_ok _ (set_vm s m1) tt m2)|].
  assert (Hag2 : agree (fun a => ~ in_range p PAGE_SIZE a) m1 m2).
  { intros a Ha. rewrite Hcopied. by rewrite decide_False. }
  assert (HagL : agree (frame_byte L) (vm_mem s) m2).
  { eapply agree_trans; [exact Hag|]. eapply agree_weaken; [exact Hag2|]. intros a (q & Hq & Ha) Hpa.
    assert (Hqp : q <> p) by (by intros ->).
    pose proof (frames_apart q p (fc_frame (ok := ok) _ _ q (vg_ok _ _ _ _ Hg) Hq) Hpf Hqp). unfold apart, in_range in *. lia. }
  assert (Hok2 : ok (vm_fa (set_vm s m2)) (p :: L)).
  { apply (fc_write (ok := ok) (vm_fa (set_vm s m1)) (p :: L) m2 Hok1). eapply agree_weaken; [exact Hag2|].
    intros a Ha Hr. apply Ha. exists p. split; [apply list_elem_of_here|done]. }
  destruct (vm_good_move s rd T L (set_vm s m2) (p :: L) Hg Hok2) as [Hg2 Hw2].
  { intros q Hq. by apply list_elem_of_further. }
  { eapply agree_weaken; [exact HagL|]. intros a (k & t & Ht & Ha). exists t. split; [by eapply vg_held|done]. }
  split; [exact Hg2|]. split; [|split; [exact Hw2|]].
  - split; [intros q Hq; by apply list_elem_of_further| | |done|by left].
    + eapply agree_weaken; [exact HagL|]. intros a (q & Hq & _ & Ha). by exists q.
    + eapply agree_trans; [exact Hout|]. eapply agree_weaken; [exact Hag2|]. intros a Ha Hr. apply Ha.
      apply (fc_inside (ok := ok) (vm_fa (set_vm s m1)) (p :: L)); [done|]. exists p. split; [apply list_elem_of_here|done].
  - intros o Ho. rewrite Hcopied, decide_True by (unfold in_range; lia). rewrite Z.add_simpl_l.
    rewrite Hag by (exists src; split; [done|unfold in_range; lia]). apply Hsrc_m. unfold in_range. lia.
Qed.

Lemma PTE_ADDR_facts e : 0 <= PTE_ADDR e < 2 ^ 48 /\ aligned PAGE_SIZE (PTE_ADDR e).
Proof.
  split; [apply PTE_ADDR_range|]. apply Z.mod_divide; [done|]. change PAGE_SIZE with (2 ^ 12).
  apply Z.bits_inj'. intros i Hi. rewrite Z.bits_0. destruct (Z.ltb_spec i 12).
  - rewrite Z.mod_pow2_bits_low, PTE_ADDR_testbit by lia. by rewrite (proj2 (Z.leb_gt 12 i)), andb_false_r by lia.
  - by rewrite Z.mod_pow2_bits_high by lia.
Qed.

Section Pte.
Context (i4 i3 i2 t : Z).
Hypothesis H4 : 0 <= i4 < 512.
Hypothesis H3 : 0 <= i3 < 512.
Hypothesis H2 : 0 <= i2 < 512.
Let q1 := (i4 * 512 + i3) * 512 + i2.
Hypothesis Ht : Ts !! (1%nat, q1) = Some t.

Lemma clone_pte_ok i1 :
  0 <= i1 < 512 -> clones 0 (fun va => prefix 0 va = q1 * 512 + i1) (clone_pte dst i4 i3 i2 t i1).
Proof.
  intros H1. apply (clones_entry _ _ _ t i1 _ Ht H1). set (e := ld64 m0 (entry_addr t i1)).
  assert (Hleaf : forall va, prefix 0 va = q1 * 512 + i1 ->
    find_leaf m0 4 rs va = if has e PTE_PRESENT then Some (1%nat, e) else None).
  { intros va Hva. by apply (src_leaf 0 q1 t i1 va ltac:(lia) Ht H1). }
  destruct (has e PTE_PRESENT) eqn:Hp; [|by apply clones_none]. cbn [negb]. cbv zeta.
  set (va := MAKE_ADDR i4 i3 i2 i1 0). set (fl := vmem_unconvert_flags _).
  destruct (MAKE_ADDR_prefix i4 i3 i2 i1 H4 H3 H2 H1) as (_ & _ & _ & Hpre). fold va q1 in Hpre.
  assert (Hva : aligned PAGE_SIZE va).
  { apply Z.mod_divide; [done|]. apply (MAKE_ADDR_offset i4 i3 i2 i1 0); lia. }
  apply (clones_iff 0 (fun va' => prefix 0 va' = prefix 0 va)); [by rewrite Hpre|]. rewrite <- Hpre in Hleaf.
  destruct (PTE_ADDR_facts e) as [Hfr Hfa]. intros s T L Hgo Hvac.
  destruct (has e PTE_ALLOC) eqn:Ha.
  - destruct (Hsrc_pages q1 t i1 Ht H1 Hp Ha) as [HsL HsT].
    destruct (copy_page s T L e _ Hgo eq_refl HsL HsT) as [Hnull|(p & m1 & m2 & Hrun & Hp0 & HpL & Hpf & Hcp & Hg2 & He2 & Hw2 & Hbytes)].
    { kstep Hnull. exists (Some (- ENOMEM)), (vm_mem s), T, L. rewrite set_vm_id. split; [done|]. split; [done|].
      split; [apply vm_effect_refl|]. split; [by left|]. by left. }
    kstep Hrun. rewrite (proj2 (Z.eqb_neq p NULL)) by done. kstep Hcp.
    pose proof (going_step s T L m2 T (p :: L) Hgo Hg2 He2) as Hgo2. destruct (frame_at_phys p Hpf) as (Hph & Hpa & Hpv).
    destruct (clone_map_page (set_vm s m2) T (p :: L) va (VIRT_TO_PHYS p) (Z.lor fl VMEM_ALLOC) Hgo2)
      as (r & m' & T' & L' & Hmap & Hg' & He' & Hn & _ & _ & Hres); [|done|unfold KERNEL_DIRECT_PHYS_MAPPING_SIZE in Hph; lia|done|].
    { intros va' Hva'. destruct (Hvac va' Hva') as [Hw Hk]. split; [by rewrite <- (Hw2 va') in Hw|exact Hk]. }
    kstep Hmap. exists (check r), m', T', L'. split; [done|]. split; [by eapply (going_step (set_vm s m2))|].
    split; [eapply vm_effect_trans; [exact He2|exact He']|]. split.
    { intros k Hk. destruct (Hn k Hk) as [|(lv & _ & E)]; [by left|right; by exists va, lv]. }
    destruct Hres as [[-> _]|(-> & _ & Hw)]; [by left|right]. split; [done|]. cbn [Nat.sub] in Hw.
    destruct (made_page_entry (VIRT_TO_PHYS p) (vmem_convert_flags (Z.lor fl VMEM_ALLOC))) as (_ & _ & E3 & _);
      [unfold KERNEL_DIRECT_PHYS_MAPPING_SIZE in Hph; lia|done|apply convert_flags_ok|apply convert_flags_range|].
    destruct He' as [D1 D2 _ _ D5]. assert (Hpin : p ∈ p :: L) by apply list_elem_of_here.
    assert (HpT : forall k, T !! k <> Some p) by (intros k Hk; by apply HpL, (vg_held _ _ _ _ (proj1 (proj2 Hgo)) k)).
    split; [|split].
    + intros va' Hva'. unfold cloned. rewrite Hleaf by done. cbn [Nat.eqb andb]. rewrite Ha. exists p.
      split; [by apply D1|]. split; [done|]. split; [|split].
      * intros k Hk. destruct (D5 k p Hk) as [Hk'|Hk']; [by eapply HpT|by apply Hk'].
      * unfold page_is. rewrite Hw, decide_True by done. unfold leaf. by rewrite E3.
      * intros o Ho. rewrite D2; [by apply Hbytes|]. exists p. split; [done|]. split; [done|]. unfold in_range. lia.
    + intros va1 va2 q E1 E2 _ _ _ _. by rewrite E1, E2.
    + intros va' Hva'. rewrite Hw, decide_False by done. apply Hw2.
  - destruct (clone_map_page s T L va (PTE_ADDR e) fl Hgo Hvac Hva Hfr Hfa) as (r & m' & T' & L' & Hmap & Hm). kstep Hmap.
    destruct (made_page_entry (PTE_ADDR e) (vmem_convert_flags fl)) as (_ & _ & E3 & _);
      [done|done|apply convert_flags_ok|apply convert_flags_range|].
    by apply (mapped_clones s T L 0 va _ e r m' T' L' Hgo Hm E3); [lia|exact Hleaf|rewrite Ha].
Qed.
End Pte.

(** The table an entry leads to. *)
Lemma src_child l p t i :
  (1 <= l)%nat -> Ts !! (S l, p) = Some t -> 0 <= i < 512 ->
  let e := ld64 m0 (entry_addr t i) in has e PTE_PRESENT = true -> large (S l) e = false ->
  Ts !! (l, p * 512 + i) = Some (PHYS_TO_VIRT (PTE_ADDR e)).
Proof.
  intros Hl Ht Hi e Hp Hla. eapply (tr_child _ _ _ Hsrc); [done|exact Ht|done|].
  unfold child. fold e. by rewrite Hp, Hla.
Qed.

Lemma clone_pde_ok i4 i3 pd i2 :
  0 <= i4 < 512 -> 0 <= i3 < 512 -> Ts !! (2%nat, i4 * 512 + i3) = Some pd -> 0 <= i2 < 512 ->
  clones 1 (fun va => prefix 1 va = (i4 * 512 + i3) * 512 + i2) (clone_pde dst i4 i3 pd i2).
Proof.
  intros H4 H3 Ht H2. apply (clones_entry _ _ _ pd i2 _ Ht H2). set (e := ld64 m0 (entry_addr pd i2)).
  set (q := (i4 * 512 + i3) * 512 + i2).
  pose proof (fun va => src_leaf 1 (i4 * 512 + i3) pd i2 va ltac:(lia) Ht H2) as Hleaf. cbn zeta in Hleaf. fold e q in Hleaf.
  destruct (has e PTE_PRESENT) eqn:Hp; [|by apply clones_none]. cbn [negb large Nat.eqb orb] in *.
  destruct (has e PTE_PAGE_SIZE) eqn:Hla.
  - cbv zeta. set (va := MAKE_ADDR i4 i3 i2 0 0). set (fl := vmem_unconvert_flags _).
    destruct (MAKE_ADDR_prefix i4 i3 i2 0 H4 H3 H2 ltac:(lia)) as (_ & _ & Hpre & Hpre0). fold va q in Hpre, Hpre0.
    assert (Hva0 : aligned PAGE_SIZE va).
    { apply Z.mod_divide; [done|]. apply (MAKE_ADDR_offset i4 i3 i2 0 0); lia. }
    assert (Hva : aligned (2 * MB) va) by (apply (prefix_aligned 1 q); [lia|done|rewrite Hpre0; cbn; lia]).
    assert (Hfa : aligned (2 * MB) (PTE_ADDR e)) by (by apply (Hsrc_large 1 _ _ _ Ht H2)).
    destruct (PTE_ADDR_facts e) as [Hfr Hfa0].
    apply (clones_iff 1 (fun va' => prefix 1 va' = prefix 1 va)); [by rewrite Hpre|]. rewrite <- Hpre in Hleaf.
    intros s T L Hgo Hvac. destruct (Hvac va eq_refl) as [Hw Hk].
    destruct (map_page_2mb_mapped s rd T L dst va (PTE_ADDR e) fl) as (r & m' & T' & L' & Hmap & Hm);
      [apply Hgo|done|by eapply going_root|done|done|done|done|apply Hk; lia|]. kstep Hmap.
    destruct (made_entry (PTE_ADDR e) PTE_PAGE_SIZE (vmem_convert_flags fl)) as (_ & _ & E3 & _);
      [done|done|apply convert_flags_ok|apply convert_flags_range|by right|].
    by apply (mapped_clones s T L 1 va _ e r m' T' L' Hgo Hm E3); [lia| |].
  - apply clones_table; [lia|]. intros j Hj. apply clone_pte_ok; try done. by apply (src_child 1).
Qed.

Lemma clone_pdpte_ok i4 pdpt i3 :
  0 <= i4 < 512 -> Ts !! (3%nat, i4) = Some pdpt -> 0 <= i3 < 512 ->
  clones 2 (fun va => prefix 2 va = i4 * 512 + i3) (clone_pdpte dst i4 pdpt i3).
Proof.
  intros H4 Ht H3. apply (clones_entry _ _ _ pdpt i3 _ Ht H3). set (e := ld64 m0 (entry_addr pdpt i3)).
  pose proof (fun va => src_leaf 2 i4 pdpt i3 va ltac:(lia) Ht H3) as Hleaf. cbn zeta in Hleaf. fold e in Hleaf.
  destruct (has e PTE_PRESENT) eqn:Hp; [|by apply clones_none]. cbn [negb large Nat.eqb orb] in *.
  destruct (has e PTE_PAGE_SIZE) eqn:Hla.
  - cbv zeta. set (va := MAKE_ADDR i4 i3 0 0 0). set (fl := vmem_unconvert_flags _).
    destruct (MAKE_ADDR_prefix i4 i3 0 0 H4 H3 ltac:(lia) ltac:(lia)) as (_ & Hpre & _ & Hpre0). fold va in Hpre, Hpre0.
    assert (Hva0 : aligned PAGE_SIZE va).
    { apply Z.mod_divide; [done|]. apply (MAKE_ADDR_offset i4 i3 0 0 0); lia. }
    assert (Hva : aligned GB va) by (apply (prefix_aligned 2 (i4 * 512 + i3)); [lia|done|rewrite Hpre0; cbn; lia]).
    assert (Hfa : aligned GB (PTE_ADDR e)) by (by apply (Hsrc_large 2 _ _ _ Ht H3)).
    destruct (PTE_ADDR_facts e) as [Hfr Hfa0].
    apply (clones_iff 2 (fun va' => prefix 2 va' = prefix 2 va)); [by rewrite Hpre|]. rewrite <- Hpre in Hleaf.
    intros s T L Hgo Hvac. destruct (Hvac va eq_refl) as [Hw Hk].
    destruct (map_page_1gb_mapped s rd T L dst va (PTE_ADDR e) fl) as (r & m' & T' & L' & Hmap & Hm);
      [apply Hgo|done|by eapply going_root|done|done|done|done|apply Hk; lia|]. kstep Hmap.
    destruct (made_entry (PTE_ADDR e) PTE_PAGE_SIZE (vmem_convert_flags fl)) as (_ & _ & E3 & _);
      [done|done|apply convert_flags_ok|apply convert_flags_range|by right|].
    by apply (mapped_clones s T L 2 va _ e r m' T' L' Hgo Hm E3); [lia| |].
  - apply clones_table; [lia|]. intros j Hj. apply clone_pde_ok; try done. apply (src_child 2); [lia|done..].
Qed.

Lemma clone_pml4e_ok i4 :
  0 <= i4 < 512 -> clones 3 (fun va => prefix 3 va = 0 * 512 + i4) (clone_pml4e dst rs i4).
Proof.
  intros H4. pose proof (tr_root _ _ _ Hsrc) as Ht. apply (clones_entry _ _ _ rs i4 _ Ht H4).
  set (e := ld64 m0 (entry_addr rs i4)).
  pose proof (fun va => src_leaf 3 0 rs i4 va ltac:(lia) Ht H4) as Hleaf. cbn zeta in Hleaf. fold e in Hleaf.
  destruct (has e PTE_PRESENT) eqn:Hp; [|by apply clones_none]. cbn [negb].
  apply clones_table; [lia|]. intros j Hj. apply clone_pdpte_ok; try done.
  apply (src_child 3 0 rs i4); [lia|done..].
Qed.

(** vmem_clone_pages, for a destination that maps nothing. *)
Lemma clone_pages_ok s T L :
  going s T L -> (forall va, walk (vm_mem s) 4 rd va = None) -> (forall l p, (l <= 3)%nat -> T !! (l, p) = None) ->
  exists r m' T' L', vmem_clone_pages dst rs s = Ret (r, set_vm s m') /\ going (set_vm s m') T' L' /\
    vm_effect s T L m' T' L' /\
    (r = - ENOMEM \/ r = 0 /\ (forall va, cloned m' T' L' L va) /\ copies_differ m' (fun _ => True)).
Proof.
  intros Hgo Hw HT.
  pose proof (clones_loop 3 0 (clone_pml4e dst rs) 0 512 ltac:(intros j Hj; apply clone_pml4e_ok; lia)) as Hc.
  destruct (Hc s T L Hgo) as (r & m' & T' & L' & Hrun & Hgo' & He & _ & Hres).
  { intros va _. split; [done|]. intros l' Hl'. apply HT. lia. }
  assert (Hall : forall va, exists j, 0 <= j < 0 + Z.of_nat 512 /\ prefix 3 va = 0 * 512 + j).
  { intros va. exists (index 4 va). pose proof (index_bounds 4 va). split; [lia|]. rewrite prefix_index, prefix_top by lia. done. }
  exists (default 0 r), m', T', L'. split; [unfold vmem_clone_pages; by kstep Hrun|]. split; [done|]. split; [done|].
  destruct Hres as [-> |(-> & Hcl & Hd & _)]; [by left|right]. split; [done|]. split; [intros va; by apply Hcl|].
  intros va va' q _ _. by apply Hd.
Qed.
End Clone.
