(* ===== verification/CloneSpace.v ===== *)
(** * vmem_clone: a second address space next to the first

    Two address spaces share the pool of areas: an operation on one leaves the
    other as it is ([space_other]). The areas are copied one by one, then the
    translations (Clone.v). *)

From S2P Require Import Prelude Mem Common DList Buddy Paging FrameAlloc FrameRefine FrameZones FrameSession FrameInit.
From S2P Require Import FrameExample FrameClient Obj ObjSpec Vmem PageTable VmemSpec VmemMap AddrSpace Demand SpaceInit.
From S2P Require Import Destroy Clone.

(** The memory an address space depends on. *)
Definition space_byte (vm : Z) (T : tables) (nodes : list Z) (a : Z) : Prop :=
  in_range vm 16 a \/ (exists k t, T !! k = Some t /\ in_range t PAGE_SIZE a) \/
  exists n, n ∈ nodes /\ in_range n sizeof_vmem_area a.

(** Start, size and flags of an area. *)
Definition area_at (m : mem) (n : Z) : Z * Z * Z := (ld64 m (n + 16), ld64 m (n + 24), ld64 m (n + 32)).

(** An object of the pool: maybe on a page that no one held. *)
Section Grown.
Context (L P L' P' : list Z).
Hypothesis HL : L' = L /\ P' = P \/ exists p, p ∉ L /\ L' = p :: L /\ P' = p :: P.

Lemma grown_sub p : p ∈ L -> p ∈ L'.
Proof. intros Hp. destruct HL as [[-> _]|(q & _ & -> & _)]; [done|by apply list_elem_of_further]. Qed.

Lemma grown_new p : p ∈ P' -> p ∈ P \/ p ∉ L.
Proof.
  intros Hp. destruct HL as [[_ ->]|(q & Hq & _ & ->)]; [by left|].
  apply elem_of_cons in Hp as [->|Hp]; [by right|by left].
Qed.
End Grown.

Section CloneSpace.
Context {F : Prop} {ok : fa_state -> list Z -> Prop} `{!FrameContract F ok} `{!FrameSource ok}.

Section Other.
Context (s : vm_state) (vm root : Z) (T : tables) (L P fr U : list Z) (head : Z) (ns : list Z).
Hypothesis Hs : space ok s vm root T L P fr U head ns.
Context (s' : vm_state) (P' fr' U' L' : list Z).
Hypothesis Hpool : pool_in ok (vm_fa s', vmem_area_alloc s') P' fr' U' L'.
Hypothesis Hsz : obj_size (vmem_area_alloc s') = sizeof_vmem_area.
Hypothesis HL : forall p, p ∈ L -> p ∈ L'.
Hypothesis HU : forall n, n ∈ U -> n ∈ U'.
Hypothesis HP : forall p, p ∈ P' -> p ∈ P \/ p ∉ L.
Hypothesis Hfa : fa_bytes (vm_fa s') = fa_bytes (vm_fa s).
Hypothesis Hag : agree (space_byte vm T (head :: ns)) (vm_mem s) (vm_mem s').

Lemma space_other :
  space ok s' vm root T L' P' fr' U' head ns /\
  (forall va, walk (vm_mem s') 4 root va = walk (vm_mem s) 4 root va) /\
  forall n, n ∈ ns -> area_at (vm_mem s') n = area_at (vm_mem s) n.
Proof.
  pose proof Hpool as (Hok' & _ & _). cbn [fst] in Hok'.
  destruct (vm_good_move s root T L s' L' (sp_good _ _ _ _ _ _ _ _ _ _ Hs) Hok' HL) as [Hg' Hw].
  { eapply agree_weaken; [exact Hag|]. intros a Ha. right; by left. }
  assert (Hvm : forall o, 0 <= o <= 8 -> ld64 (vm_mem s') (vm + o) = ld64 (vm_mem s) (vm + o)).
  { intros o Ho. eapply ld_agree; [exact Hag|]. intros a Ha. left. unfold in_range in *. lia. }
  destruct (space_vm_kok _ _ _ _ _ _ _ _ _ _ Hs) as (_ & _ & E).
  split; [|split; [exact Hw|]]. 1: split; try done; try apply Hs.
  - intros p k Hp Hk. destruct (HP p Hp) as [HpP|HpL]; [by eapply (sp_pages _ _ _ _ _ _ _ _ _ _ Hs)|].
    by eapply HpL, vg_held; [apply Hs|].
  - rewrite Hfa. apply Hs.
  - rewrite <- (sp_head _ _ _ _ _ _ _ _ _ _ Hs). unfold vm_areas_list. rewrite <- (Z.add_0_r vm). apply Hvm. lia.
  - rewrite <- (sp_root _ _ _ _ _ _ _ _ _ _ Hs), E. apply Hvm. lia.
  - eapply dll_agree; [exact Hag| |apply Hs]. intros y a Hy Ha. right; right. exists y. split; [done|].
    unfold in_range, sizeof_vmem_area in *. lia.
  - intros n Hn. by apply HU, (sp_used _ _ _ _ _ _ _ _ _ _ Hs).
  - intros n Hn. assert (Ho : forall o, 0 <= o <= 32 -> ld64 (vm_mem s') (n + o) = ld64 (vm_mem s) (n + o)).
    { intros o Ho. eapply ld_agree; [exact Hag|]. intros a Ha. right; right. exists n.
      split; [by apply list_elem_of_further|]. unfold in_range, sizeof_vmem_area in *. lia. }
    unfold area_at. by rewrite !Ho by lia.
Qed.
End Other.

(** Where the bytes of an address space are. *)
Lemma space_byte_where s vm root T L P fr U head ns a :
  space ok s vm root T L P fr U head ns -> space_byte vm T (head :: ns) a -> in_range vm 16 a \/ frame_byte L a.
Proof.
  intros Hs [Ha|[(k & t & Ht & Ha)|(n & Hn & Ha)]]; [by left|right..].
  - exists t. split; [by eapply vg_held; [apply Hs|]|done].
  - eapply (object_frame _ _ _ _ _ _ _ _ _ _ Hs). exists n.
    split; [by apply (sp_used _ _ _ _ _ _ _ _ _ _ Hs)|done].
Qed.

(** Objects that are not nodes of the ring share no byte with the space. *)
Lemma space_byte_object s vm root T L P fr U head ns n a :
  space ok s vm root T L P fr U head ns -> n ∈ U -> n ∉ head :: ns -> space_byte vm T (head :: ns) a ->
  ~ in_range n sizeof_vmem_area a.
Proof.
  intros Hs Hn Hnr Ha Hna. assert (Hob : object_byte U a) by (by exists n).
  destruct Ha as [Ha|[(k & t & Ht & Ha)|(y & Hy & Ha)]].
  - by eapply (object_not_vm _ _ _ _ _ _ _ _ _ _ Hs).
  - by eapply (object_not_table _ _ _ _ _ _ _ _ _ _ Hs).
  - assert (Hne : n <> y) by (by intros ->).
    pose proof (space_apart _ _ _ _ _ _ _ _ _ _ Hs n y Hn (sp_used _ _ _ _ _ _ _ _ _ _ Hs y Hy) Hne).
    unfold apart, in_range in *. lia.
Qed.

(** ** Copying the areas *)

Section Areas.
Context (src rs : Z) (T : tables) (dst rd : Z) (hs hd : Z).
Hypothesis Hapart : forall a, in_range dst 16 a -> ~ in_range src 16 a.
Let Td : tables := {[(4%nat, 0) := rd]}.

(** Both address spaces, on one pool. *)
Record both (s : vm_state) (L P fr U ns nd : list Z) : Prop := {
  bo_src : space ok s src rs T L P fr U hs ns;
  bo_dst : space ok s dst rd Td L P fr U hd nd;
  bo_apart : forall n, n ∈ hs :: ns -> n ∉ hd :: nd;
}.

Lemma to_head_suffix s head l1 l2 : to_head s head (l1 ++ l2) -> to_head s head l2.
Proof. induction l1 as [|x l1 IH]; [done|]. intros (_ & _ & _ & H). by apply IH. Qed.

(** What copying an area leaves alone: the source, the frames that are not of the
    pool, and what is outside the allocator's memory and the new structure. *)
Definition kept (s : vm_state) (L P ns : list Z) (m' : mem) : Prop :=
  agree (fun a => space_byte src T (hs :: ns) a \/ (exists p, p ∈ L /\ p ∉ P /\ in_range p PAGE_SIZE a) \/
                 ~ fa_bytes (vm_fa s) a /\ ~ in_range dst 16 a) (vm_mem s) m'.

Lemma kept_then s m1 al L P L1 P1 ns m2 :
  (forall p, p ∈ L -> p ∈ L1) -> (forall p, p ∈ P1 -> p ∈ P \/ p ∉ L) ->
  kept s L P ns m1 -> kept (set_vo s m1 al) L1 P1 ns m2 -> kept s L P ns m2.
Proof.
  intros HL HP Hk1 Hk2. eapply agree_trans; [exact Hk1|]. eapply agree_weaken; [exact Hk2|].
  intros a [Ha|[(p & Hp & HpP & Ha)|Ha]]; [by left|right; left|by right; right].
  exists p. split; [by apply HL|]. split; [|done]. intros HpP1. by destruct (HP p HpP1).
Qed.

Section Copy.
Context (s : vm_state) (L P fr U ns nd : list Z) (n : Z).
Hypothesis Hb : both s L P fr U ns nd.
Hypothesis Hn : n ∈ ns.

Context (x : Z) (m1 : mem) (al : obj_alloc) (P' fr' L' : list Z).
Hypothesis HxU : x ∉ U.
Hypothesis Hpool : pool_in ok (set_mem (vm_fa s) m1, al) P' fr' (x :: U) L'.
Hypothesis Hsz : obj_size al = sizeof_vmem_area.
Hypothesis Hag : agree (frame_byte L) (vm_mem s) m1.
Hypothesis Hout : agree (fun a => ~ fa_bytes (vm_fa s) a) (vm_mem s) m1.
Hypothesis HL : L' = L /\ P' = P \/ exists p, p ∉ L /\ L' = p :: L /\ P' = p :: P.

Let start := ld64 (vm_mem s) (n + 16).
Let size := ld64 (vm_mem s) (n + 24).
Let flags := ld64 (vm_mem s) (n + 32).
Let m2 := area_fill m1 x start size flags.
Let m' := area_link m2 hd x (node_first hd nd).

Lemma node_used : n ∈ U.
Proof. apply (sp_used _ _ _ _ _ _ _ _ _ _ (bo_src _ _ _ _ _ _ _ Hb)). by apply list_elem_of_further. Qed.

Lemma copy_apart : apart x sizeof_vmem_area n sizeof_vmem_area.
Proof.
  apply (add_apart s U x m1 al P' fr' L' Hpool Hsz); [apply list_elem_of_here|apply list_elem_of_further, node_used|].
  intros ->. by apply HxU, node_used.
Qed.

(** The new object alone. *)
Lemma copy_alloc :
  agree (space_byte src T (hs :: ns)) (vm_mem s) m1 /\
  space ok (set_vo s m1 al) src rs T L' P' fr' (x :: U) hs ns.
Proof.
  pose proof (bo_src _ _ _ _ _ _ _ Hb) as Hs.
  assert (Hm1 : agree (space_byte src T (hs :: ns)) (vm_mem s) m1).
  { intros a Ha. destruct (space_byte_where _ _ _ _ _ _ _ _ _ _ a Hs Ha) as [Ha'|Ha']; [|by apply Hag].
    apply Hout. by apply (sp_vm_out _ _ _ _ _ _ _ _ _ _ Hs). }
  split; [done|].
  apply (space_other s src rs T L P fr U hs ns Hs (set_vo s m1 al) P' fr' (x :: U) L'); try done.
  - apply (grown_sub _ _ _ _ HL).
  - intros y Hy. by apply list_elem_of_further.
  - apply (grown_new _ _ _ _ HL).
Qed.

Lemma copy_objects y : y ∈ [x; hd; node_first hd nd] -> y ∈ x :: U /\ y ∉ hs :: ns.
Proof.
  intros Hy. pose proof (sp_used _ _ _ _ _ _ _ _ _ _ (bo_dst _ _ _ _ _ _ _ Hb)) as Hud.
  pose proof (sp_used _ _ _ _ _ _ _ _ _ _ (bo_src _ _ _ _ _ _ _ Hb)) as Hus.
  assert (Hring : forall z, z ∈ hd :: nd -> z ∈ x :: U /\ z ∉ hs :: ns).
  { intros z Hz. split; [by apply list_elem_of_further, Hud|]. intros Hz'. by eapply (bo_apart _ _ _ _ _ _ _ Hb). }
  rewrite !elem_of_cons, elem_of_nil in Hy. destruct Hy as [->|[->|[->|[]]]].
  - split; [apply list_elem_of_here|]. intros Hx. by apply HxU, Hus.
  - apply Hring, list_elem_of_here.
  - apply Hring, node_first_elem.
Qed.

Lemma copy_kept : kept s L P ns m'.
Proof.
  destruct copy_alloc as [Hm1 Hs1]. pose proof (bo_dst _ _ _ _ _ _ _ Hb) as Hd.
  pose proof (add_agree_near hd nd x m1 start size flags) as Hnear.
  fold m2 m' in Hnear. intros a Ha. trans (rd8 m1 a).
  - apply Hnear. intros y Hy Hya. destruct (copy_objects y Hy) as [HyU Hyn]. destruct Ha as [Ha|[(p & Hp & HpP & Ha)|[Ha _]]].
    + by eapply (space_byte_object (set_vo s m1 al) src rs T L' P' fr' (x :: U) hs ns y a Hs1).
    + pose proof (add_slot s U x m1 al P' fr' L' Hpool Hsz y HyU) as Hsl.
      destruct (slot_byte sizeof_vmem_area P' ltac:(done) y a sizeof_vmem_area Hsl ltac:(done) Hya) as (q & Hq & Hqa).
      assert (Hne : q <> p) by (intros ->; by destruct (grown_new _ _ _ _ HL p Hq)).
      pose proof (frames_apart q p (add_P_frame s U x m1 al P' fr' L' Hpool q Hq)
        (fc_frame (ok := ok) _ _ p (vg_ok _ _ _ _ (sp_good _ _ _ _ _ _ _ _ _ _ Hd)) Hp) Hne).
      unfold apart, in_range in *. lia.
    + apply Ha. apply (fc_inside (ok := ok) (set_mem (vm_fa s) m1) L'); [apply Hpool|].
      pose proof (add_slot s U x m1 al P' fr' L' Hpool Hsz y HyU) as Hsl.
      destruct (slot_byte sizeof_vmem_area P' ltac:(done) y a sizeof_vmem_area Hsl ltac:(done) Hya) as (q & Hq & Hqa).
      exists q. split; [|done]. by apply (proj2 (proj2 Hpool)).
  - destruct Ha as [Ha|[(p & Hp & _ & Ha)|[Ha _]]]; [by apply Hm1|apply Hag; by exists p|by apply Hout].
Qed.

Lemma copy_both : both (set_vo s m' al) L' P' fr' (x :: U) ns (x :: nd).
Proof.
  pose proof (bo_src _ _ _ _ _ _ _ Hb) as Hs. pose proof (bo_dst _ _ _ _ _ _ _ Hb) as Hd.
  destruct (add_space s dst rd Td L P fr U hd nd Hd x m1 al P' fr' L' HxU Hpool Hsz Hag Hout HL start size flags) as [Hd' _].
  fold m2 m' in Hd'. split; [|exact Hd'|].
  - apply (space_other s src rs T L P fr U hs ns Hs (set_vo s m' al) P' fr' (x :: U) L'); try done.
    + apply Hd'.
    + apply (grown_sub _ _ _ _ HL).
    + intros y Hy. by apply list_elem_of_further.
    + apply (grown_new _ _ _ _ HL).
    + intros a Ha. apply copy_kept. by left.
  - intros y Hy. apply not_elem_of_cons. split; [|apply not_elem_of_cons; split].
    + intros ->. apply (bo_apart _ _ _ _ _ _ _ Hb hd Hy), list_elem_of_here.
    + intros ->. by apply HxU, (sp_used _ _ _ _ _ _ _ _ _ _ Hs).
    + intros Hy'. apply (bo_apart _ _ _ _ _ _ _ Hb y Hy). by apply list_elem_of_further.
Qed.

Lemma copy_areas : area_at m' x = area_at (vm_mem s) n /\ forall y, y ∈ U -> area_at m' y = area_at (vm_mem s) y.
Proof.
  pose proof (add_field s dst rd Td L P fr U hd nd (bo_dst _ _ _ _ _ _ _ Hb) x m1 al P' fr' L' HxU Hpool Hsz Hag
    start size flags) as Hf. fold m2 m' in Hf.
  assert (Hu : forall o, u64 (ld64 (vm_mem s) (n + o)) = ld64 (vm_mem s) (n + o)) by (intros o; apply u64_small, ld64_range).
  destruct (Hf 16 ltac:(auto)) as [A1 A2], (Hf 24 ltac:(auto)) as [B1 B2], (Hf 32 ltac:(auto)) as [C1 C2].
  unfold area_at. split.
  - rewrite A1, B1, C1. cbn [Z.eqb Pos.eqb]. unfold start, size, flags. by rewrite !Hu.
  - intros y Hy. by rewrite A2, B2, C2.
Qed.
End Copy.

(** One turn of the loop. *)
Lemma copy_turn fuel s L P fr U ns nd n rest :
  both s L P fr U ns nd -> to_head s hs (n :: rest) -> n ∈ ns ->
  clone_areas_loop (S fuel) dst src n s = Halt (Fault NULL) \/
  exists x m' al L' P' fr',
    clone_areas_loop (S fuel) dst src n s = clone_areas_loop fuel dst src (node_first hs rest) (set_vo s m' al) /\
    both (set_vo s m' al) L' P' fr' (x :: U) ns (x :: nd) /\ kept s L P ns m' /\
    (forall p, p ∈ L -> p ∈ L') /\ (forall p, p ∈ P' -> p ∈ P \/ p ∉ L) /\
    area_at m' x = area_at (vm_mem s) n /\ forall y, y ∈ U -> area_at m' y = area_at (vm_mem s) y.
Proof.
  intros Hb (Hne & Hno & Hnext & _) Hn. pose proof (bo_src _ _ _ _ _ _ _ Hb) as Hs. pose proof (bo_dst _ _ _ _ _ _ _ Hb) as Hd.
  destruct (space_vm_kok _ _ _ _ _ _ _ _ _ _ Hs) as (Hks & _). destruct (space_vm_kok _ _ _ _ _ _ _ _ _ _ Hd) as (Hkd & _).
  cbn [clone_areas_loop]. kstep (vload_ok _ s Hks). rewrite (sp_head _ _ _ _ _ _ _ _ _ _ Hs).
  rewrite (proj2 (Z.eqb_neq n hs)) by done.
  destruct (alloc_area s dst rd Td L P fr U hd nd Hd) as [[Hrun _]|(x & m1 & al & P' & fr' & L' & Hrun & Hx & Hx0 & Hp & Hsz & Hag & Hout & HL)].
  { left. by apply kbind_Halt. }
  right. kstep Hrun. rewrite (proj2 (Z.eqb_neq x NULL)) by done.
  pose proof (add_area_ok s U x m1 al P' fr' L' Hp Hsz x (list_elem_of_here _ _)) as Hxo.
  destruct (area_fields x Hxo) as (E1 & E2 & E3 & H0 & H16 & H24 & H32).
  destruct (area_fields n Hno) as (F1 & F2 & F3 & G0 & G16 & G24 & G32). rewrite E1, E2, E3, F1, F2, F3.
  pose proof (copy_apart s L P fr U ns nd n Hb Hn x m1 al P' fr' L' Hx Hp Hsz) as Hap. unfold apart, sizeof_vmem_area in Hap.
  destruct (copy_alloc s L P fr U ns nd Hb x m1 al P' fr' L' Hp Hsz Hag Hout HL) as [Hm1 _].
  assert (Hld : forall o, 0 <= o <= 32 -> ld64 m1 (n + o) = ld64 (vm_mem s) (n + o)).
  { intros o Ho. eapply ld_agree; [exact Hm1|]. intros a Ha. right; right. exists n.
    split; [by apply list_elem_of_further|]. unfold in_range, sizeof_vmem_area in *. lia. }
  set (s1 := set_vo s m1 al).
  set (start := ld64 (vm_mem s) (n + 16)). set (size := ld64 (vm_mem s) (n + 24)). set (flags := ld64 (vm_mem s) (n + 32)).
  kstep (vload_ok (n + 16) s1 G16). change (vm_mem s1) with m1. rewrite Hld by lia. fold start.
  kstep (vstore_ok (x + 16) start s1 H16). change (vm_mem s1) with m1.
  kstep (vload_ok (n + 24) (set_vm s1 (st64 m1 (x + 16) start)) G24).
  change (vm_mem (set_vm s1 (st64 m1 (x + 16) start))) with (st64 m1 (x + 16) start).
  rewrite ld64_st64_ne, Hld by (unfold apart; lia). fold size.
  kstep (vstore_ok (x + 24) size (set_vm s1 (st64 m1 (x + 16) start)) H24). rewrite set_vm_set.
  change (vm_mem (set_vm s1 (st64 m1 (x + 16) start))) with (st64 m1 (x + 16) start).
  set (mb := st64 (st64 m1 (x + 16) start) (x + 24) size).
  kstep (vload_ok (n + 32) (set_vm s1 mb) G32). change (vm_mem (set_vm s1 mb)) with mb. unfold mb at 1.
  rewrite !ld64_st64_ne, Hld by (unfold apart; lia). fold flags.
  kstep (vstore_ok (x + 32) flags (set_vm s1 mb) H32). rewrite set_vm_set. change (vm_mem (set_vm s1 mb)) with mb.
  set (m2 := area_fill m1 x start size flags). change (st64 mb (x + 32) flags) with m2.
  kstep (in_kmem_ok (list_init x) (set_vm s1 m2) tt _ (list_init_run m2 x (area_ok_node x Hxo))). rewrite set_vm_set.
  pose proof (add_vm_head s dst rd Td L P fr U hd nd Hd x m1 al P' fr' L' Hp Hsz Hout start size flags) as Hh.
  pose proof (add_ring_before s dst rd Td L P fr U hd nd Hd x m1 al P' fr' L' Hx Hp Hsz Hag start size flags) as Hr.
  fold m2 in Hh, Hr. kstep (vload_ok _ (set_vm s1 (list_init_mem m2 x)) Hkd).
  change (vm_mem (set_vm s1 (list_init_mem m2 x))) with (list_init_mem m2 x). rewrite Hh.
  kstep (in_kmem_ok (list_insert_after hd x) (set_vm s1 (list_init_mem m2 x)) tt _
    (list_insert_after_run _ hd nd x Hr (area_ok_node x Hxo))). rewrite set_vm_set.
  set (m' := area_link m2 hd x (node_first hd nd)). change (insert_mem _ hd x _) with m'.
  pose proof (copy_kept s L P fr U ns nd n Hb x m1 al P' fr' L' Hx Hp Hsz Hag Hout HL) as Hkept.
  pose proof (copy_both s L P fr U ns nd n Hb x m1 al P' fr' L' Hx Hp Hsz Hag Hout HL) as Hboth.
  pose proof (copy_areas s L P fr U ns nd n Hb x m1 al P' fr' L' Hx Hp Hsz Hag) as [Ha1 Ha2].
  fold start size flags m2 m' in Hkept, Hboth, Ha1, Ha2.
  kstep (vload_ok n (set_vm s1 m') G0). change (vm_mem (set_vm s1 m')) with m'.
  assert (Hnx : ld64 m' n = node_first hs rest).
  { rewrite <- Hnext. eapply ld_agree; [exact Hkept|]. intros a Ha. left. right; right. exists n.
    split; [by apply list_elem_of_further|]. unfold in_range, sizeof_vmem_area in *. lia. }
  rewrite Hnx. exists x, m', al, L', P', fr'. split; [reflexivity|]. split; [exact Hboth|]. split; [exact Hkept|].
  split; [apply (grown_sub _ _ _ _ HL)|]. split; [apply (grown_new _ _ _ _ HL)|done].
Qed.

(** The loop over the source's areas. *)
Lemma clone_areas_ok rest fuel s L P fr U ns nd pre :
  both s L P fr U ns nd -> ns = pre ++ rest -> (length rest < fuel)%nat ->
  clone_areas_loop fuel dst src (node_first hs rest) s = Halt (Fault NULL) \/
  exists m' al L' P' fr' U' nd',
    clone_areas_loop fuel dst src (node_first hs rest) s = Ret (None, set_vo s m' al) /\
    both (set_vo s m' al) L' P' fr' U' ns nd' /\ kept s L P ns m' /\
    (forall p, p ∈ L -> p ∈ L') /\ (forall p, p ∈ P' -> p ∈ P \/ p ∉ L) /\ (forall n, n ∈ U -> n ∈ U') /\
    (forall y, y ∈ U -> area_at m' y = area_at (vm_mem s) y) /\
    map (area_at m') nd' = rev (map (area_at (vm_mem s)) rest) ++ map (area_at (vm_mem s)) nd.
Proof.
  revert fuel s L P fr U nd pre; induction rest as [|n rest IH]; intros fuel s L P fr U nd pre Hb Hns Hf;
    (destruct fuel as [|fuel]; [simpl in Hf; lia|]); pose proof (bo_src _ _ _ _ _ _ _ Hb) as Hs.
  - right. destruct (space_vm_kok _ _ _ _ _ _ _ _ _ _ Hs) as (Hks & _). cbn [clone_areas_loop node_first].
    kstep (vload_ok _ s Hks). rewrite (sp_head _ _ _ _ _ _ _ _ _ _ Hs), Z.eqb_refl.
    assert (E : set_vo s (vm_mem s) (vmem_area_alloc s) = s) by (by destruct s as [[]]).
    exists (vm_mem s), (vmem_area_alloc s), L, P, fr, U, nd. rewrite E. split_and!; try done. by left.
  - assert (Hn : n ∈ ns) by (rewrite Hns; apply elem_of_app; right; apply list_elem_of_here).
    pose proof (space_to_head _ _ _ _ _ _ _ _ _ _ Hs) as Hth. rewrite Hns in Hth. apply to_head_suffix in Hth.
    cbn [node_first].
    destruct (copy_turn fuel s L P fr U ns nd n rest Hb Hth Hn) as
      [Hrun|(x & m1 & al & L1 & P1 & fr1 & Hrun & Hb1 & Hk1 & HL1 & HP1 & Ha1 & Hu1)]; [by left|].
    rewrite Hrun.
    destruct (IH fuel _ L1 P1 fr1 (x :: U) (x :: nd) (pre ++ [n]) Hb1) as
      [Hrun2|(m2 & al2 & L2 & P2 & fr2 & U2 & nd2 & Hrun2 & Hb2 & Hk2 & HL2 & HP2 & HU2 & Hu2 & Hm2)];
      [by rewrite <- app_assoc|simpl in Hf; lia|by left|right].
    exists m2, al2, L2, P2, fr2, U2, nd2. split; [exact Hrun2|]. split; [exact Hb2|].
    change (vm_mem (set_vo s m1 al)) with m1 in *. split; [|split; [|split; [|split; [|split]]]].
    + by eapply kept_then.
    + auto.
    + intros p Hp. destruct (HP2 p Hp) as [Hp1|Hp1]; [by apply HP1|]. right. intros HpL. by apply Hp1, HL1.
    + intros y Hy. apply HU2. by apply list_elem_of_further.
    + intros y Hy. rewrite Hu2 by (by apply list_elem_of_further). by apply Hu1.
    + rewrite Hm2. cbn [map rev]. rewrite <- app_assoc. cbn [app]. rewrite Ha1. f_equal.
      * f_equal. apply map_ext_in. intros y Hy. apply Hu1, (sp_used _ _ _ _ _ _ _ _ _ _ Hs).
        apply list_elem_of_further. rewrite Hns. apply elem_of_app. right. apply list_elem_of_further. by apply list_elem_of_In.
      * f_equal. apply map_ext_in. intros y Hy.
        apply Hu1, (sp_used _ _ _ _ _ _ _ _ _ _ (bo_dst _ _ _ _ _ _ _ Hb)), list_elem_of_further. by apply list_elem_of_In.
Qed.
End Areas.

(** A root that leads to no table maps nothing. *)
Lemma lone_root m rd va : tree m rd {[(4%nat, 0) := rd]} -> walk m 4 rd va = None.
Proof.
  intros Ht. cbn [walk]. unfold table_entry, present. destruct (has _ PTE_PRESENT) eqn:Hp; [|done]. exfalso.
  assert (Hc : child m 4 rd (index 4 va) = Some (PHYS_TO_VIRT (PTE_ADDR (ld64 m (entry_addr rd (index 4 va))))))
    by (unfold child; by rewrite Hp).
  apply (tr_child _ _ _ Ht 3 0 rd) in Hc; [|lia|apply lookup_singleton_eq|apply index_bounds].
  by apply lookup_singleton_Some in Hc as [[=] _].
Qed.

(** The pages marked [PTE_ALLOC] are frames in use, not those of the pool. *)
Definition pages_held (m : mem) (T : tables) (L P : list Z) : Prop :=
  forall p t i, T !! (1%nat, p) = Some t -> 0 <= i < 512 ->
    let e := ld64 m (entry_addr t i) in has e PTE_PRESENT = true -> has e PTE_ALLOC = true ->
    entry_frame_of e ∈ L /\ entry_frame_of e ∉ P.

(** Large pages are mapped to frames of their size. *)
Definition large_aligned (m : mem) (T : tables) : Prop :=
  forall l p t i, T !! (S l, p) = Some t -> 0 <= i < 512 ->
    let e := ld64 m (entry_addr t i) in has e PTE_PRESENT = true -> large (S l) e = true ->
    aligned (2 ^ (12 + 9 * Z.of_nat l)) (PTE_ADDR e).

Section Whole.
Context (s : vm_state) (src root : Z) (T : tables) (L P fr U : list Z) (head : Z) (ns : list Z).
Hypothesis Hs : space ok s src root T L P fr U head ns.
Context (dst : Z).
Hypothesis Hdst : kok dst 16 = true.
Hypothesis Hdst_out : forall a, in_range dst 16 a -> ~ fa_bytes (vm_fa s) a.
Hypothesis Hapart : forall a, in_range dst 16 a -> ~ in_range src 16 a.

(** After [vmem_init]: two address spaces, the new one empty. *)
Lemma clone_init :
  (exists s', vmem_init dst s = Ret (- ENOMEM, s')) \/ vmem_init dst s = Halt (Fault NULL) \/
  exists m' al rd hd P' fr' L', vmem_init dst s = Ret (0, set_vo s m' al) /\ rd ∉ L /\
    both src root T dst rd head hd (set_vo s m' al) L' P' fr' (hd :: U) ns [] /\ kept src T dst head s L P ns m' /\
    (forall p, p ∈ L -> p ∈ L') /\ (forall p, p ∈ P' -> p ∈ P \/ p ∉ L).
Proof.
  destruct (vmem_init_ok s dst P fr U L (vg_ok _ _ _ _ (sp_good _ _ _ _ _ _ _ _ _ _ Hs)) (sp_pool _ _ _ _ _ _ _ _ _ _ Hs)
    (sp_size _ _ _ _ _ _ _ _ _ _ Hs) Hdst Hdst_out) as
    [[H _]|[[H _]|(m' & al & rd & hd & P' & fr' & L' & Hrun & Hhd & Hrd & Hd & _ & HL & HP & Hag & Hout & _)]];
    [by left|by right; left|right; right].
  exists m', al, rd, hd, P', fr', L'. split; [done|]. split; [done|].
  assert (Hhp : forall a, in_range hd 16 a -> exists q, q ∈ P' /\ in_range q PAGE_SIZE a).
  { intros a Ha. apply (slot_byte sizeof_vmem_area P' ltac:(done) hd a 16); try done.
    apply (space_slot _ _ _ _ _ _ _ _ _ _ Hd), list_elem_of_here. }
  assert (Hfar : forall p a, p ∈ L -> p ∉ P -> in_range p PAGE_SIZE a -> ~ in_range hd 16 a).
  { intros p a Hp HpP Ha Hh. destruct (Hhp a Hh) as (q & Hq & Hqa).
    assert (Hne : q <> p) by (intros ->; by destruct (HP p Hq)).
    pose proof (frames_apart q p (space_P_frame _ _ _ _ _ _ _ _ _ _ Hd q Hq)
      (fc_frame (ok := ok) _ _ p (vg_ok _ _ _ _ (sp_good _ _ _ _ _ _ _ _ _ _ Hs)) Hp) Hne).
    unfold apart, in_range in *. lia. }
  assert (Hkept : kept src T dst head s L P ns m').
  { intros a [[Ha|[(k & t & Ht & Ha)|(n & Hn & Ha)]]|[(p & Hp & HpP & Ha)|Ha]].
    - apply Hout. split; [by apply (sp_vm_out _ _ _ _ _ _ _ _ _ _ Hs)|]. intros Hr. by apply (Hapart a).
    - assert (HtL : t ∈ L) by (by eapply vg_held; [apply Hs|]).
      apply Hag. split; [by exists t|]. apply (Hfar t); [done| |done]. intros HtP. by eapply (sp_pages _ _ _ _ _ _ _ _ _ _ Hs).
    - assert (HnU : n ∈ U) by (by apply (sp_used _ _ _ _ _ _ _ _ _ _ Hs)).
      apply Hag. split; [eapply (object_frame _ _ _ _ _ _ _ _ _ _ Hs); by exists n|]. intros Hh.
      assert (Hne : hd <> n) by (by intros ->).
      pose proof (space_apart _ _ _ _ _ _ _ _ _ _ Hd hd n (list_elem_of_here _ _) (list_elem_of_further _ _ _ HnU) Hne).
      unfold apart, in_range, sizeof_vmem_area in *. lia.
    - apply Hag. split; [by exists p|]. by apply (Hfar p).
    - by apply Hout. }
  split; [|done]. split; [|exact Hd|].
  - apply (space_other s src root T L P fr U head ns Hs (set_vo s m' al) P' fr' (hd :: U) L'); try done.
    + apply Hd.
    + apply Hd.
    + intros n Hn. by apply list_elem_of_further.
    + intros a Ha. apply Hkept. by left.
  - intros n Hn [->|Hin]%elem_of_cons; [|by apply not_elem_of_nil in Hin].
    by apply Hhd, (sp_used _ _ _ _ _ _ _ _ _ _ Hs).
Qed.

Hypothesis Hpages : pages_held (vm_mem s) T L P.
Hypothesis Hlarge : large_aligned (vm_mem s) T.

(** The tables and the pages of the source after the areas are copied. *)
Lemma kept_entry m' k t i :
  kept src T dst head s L P ns m' -> T !! k = Some t -> 0 <= i < 512 ->
  ld64 m' (entry_addr t i) = ld64 (vm_mem s) (entry_addr t i).
Proof.
  intros Hk Ht Hi. eapply entry_agree; [exact Hk|eapply vg_frame; [apply Hs|exact Ht]|done|].
  intros a Ha. left. right; left. by exists k, t.
Qed.

Lemma find_leaf_kept m' va :
  kept src T dst head s L P ns m' -> find_leaf m' 4 root va = find_leaf (vm_mem s) 4 root va.
Proof.
  intros Hk. pose proof (vg_tree _ _ _ _ (sp_good _ _ _ _ _ _ _ _ _ _ Hs)) as Htr.
  apply (find_leaf_ext (vm_mem s) m' root T va 4 root Htr); [intros; by eapply kept_entry|].
  rewrite prefix_top. apply Htr.
Qed.

Lemma page_copied_kept s2 va :
  kept src T dst head s L P ns (vm_mem s2) -> page_copied s root va -> page_copied s2 root va.
Proof. intros Hk (e & He & Ha). exists e. by rewrite (find_leaf_kept _ va Hk). Qed.

Lemma cloned_from s2 rd m' T' L' L2 va :
  kept src T dst head s L P ns (vm_mem s2) -> (forall p, p ∈ L -> p ∈ L2) ->
  cloned s2 rd root m' T' L' L2 va -> cloned s rd root m' T' L' L va.
Proof.
  intros Hk HL2. pose proof (vg_tree _ _ _ _ (sp_good _ _ _ _ _ _ _ _ _ _ Hs)) as Htr.
  assert (Hroot : T !! (4%nat, prefix 4 va) = Some root) by (rewrite prefix_top; apply Htr).
  unfold cloned. rewrite (find_leaf_kept _ va Hk).
  destruct (find_leaf (vm_mem s) 4 root va) as [[l e]|] eqn:Hf; [|done].
  destruct ((l =? 1)%nat && has e PTE_ALLOC) eqn:Hc; [|done].
  apply andb_true_iff in Hc as [->%Nat.eqb_eq Ha].
  destruct (find_leaf_entry _ _ _ _ _ _ _ _ Htr Hroot Hf) as (t & Ht & He & Hp).
  destruct (Hpages _ t (index 1 va) Ht (index_bounds 1 va)) as [HpL HpP]; [by rewrite <- He..|]. rewrite <- He in HpL, HpP.
  intros (q & Hq & HqL & HqT & Hpg & Hb). exists q. split; [done|]. split; [by intros Hin; apply HqL, HL2|].
  split; [done|]. split; [done|]. intros o Ho. rewrite Hb by done. apply Hk. right; left. exists (entry_frame_of e).
  split; [done|]. split; [done|]. unfold in_range. lia.
Qed.

(** Cloning the translations of two address spaces as [clone_areas_ok] leaves
    them. *)
Lemma clone_tables s2 rd hd L2 P2 fr2 U2 nd :
  both src root T dst rd head hd s2 L2 P2 fr2 U2 ns nd -> kept src T dst head s L P ns (vm_mem s2) ->
  (forall p, p ∈ L -> p ∈ L2) -> rd ∉ L -> fa_bytes (vm_fa s2) = fa_bytes (vm_fa s) ->
  exists r m' T' L', vmem_clone_pages dst root s2 = Ret (r, set_vm s2 m') /\
    (r = - ENOMEM \/ r = 0 /\
     space ok (set_vm s2 m') src root T L' P2 fr2 U2 head ns /\
     space ok (set_vm s2 m') dst rd T' L' P2 fr2 U2 hd nd /\
     (forall va, walk m' 4 root va = walk (vm_mem s2) 4 root va) /\
     (forall n, n ∈ U2 -> area_at m' n = area_at (vm_mem s2) n) /\
     (forall va, cloned s2 rd root m' T' L' L2 va) /\ copies_differ s2 rd root m' (fun _ => True) /\
     (forall p, p ∈ L2 -> p ∈ L') /\ kept src T dst head s L P ns m').
Proof.
  intros [Hs2 Hd2 Hap2] Hk HL2 Hrd Hfa. set (T0 := {[(4%nat, 0) := rd]} : tables).
  pose proof (sp_good _ _ _ _ _ _ _ _ _ _ Hs2) as Hg. pose proof (sp_good _ _ _ _ _ _ _ _ _ _ Hd2) as Hgd.
  assert (HT0 : forall p k, p ∈ L -> T0 !! k <> Some p) by (intros p k Hp [_ <-]%lookup_singleton_Some; done).
  assert (HtL : forall k t, T !! k = Some t -> t ∈ L) by (intros k t Ht; by eapply vg_held; [apply Hs|]).
  destruct (space_vm_kok _ _ _ _ _ _ _ _ _ _ Hd2) as (_ & Hk8 & E8).
  destruct (clone_pages_ok s2 dst rd root T0 T L2 (vg_tree _ _ _ _ Hg)) with (s := s2) (T := T0) (L := L2)
    as (r & m' & T' & L' & Hrun & (_ & Hg' & _) & He & Hres).
  - intros k t Ht. split; [by eapply HL2, HtL|]. intros k'. apply HT0. by eapply HtL.
  - intros p t i Ht Hi e Hp Ha. unfold e in *. rewrite (kept_entry _ _ _ _ Hk Ht Hi) in *.
    destruct (Hpages p t i Ht Hi Hp Ha) as [HpL _]. split; [by apply HL2|]. intros k'. by apply HT0.
  - intros l p t i Ht Hi e Hp Hla. unfold e in *. rewrite (kept_entry _ _ _ _ Hk Ht Hi) in *. by apply (Hlarge l p t i).
  - exact Hk8.
  - intros a Ha. apply (sp_vm_out _ _ _ _ _ _ _ _ _ _ Hd2). rewrite E8 in Ha. unfold in_range in *. lia.
  - apply Hd2.
  - split; [by rewrite set_vm_id|]. split; [done|]. apply vm_effect_refl.
  - intros va. apply (lone_root _ _ va), Hgd.
  - intros l p Hl. unfold T0. apply lookup_singleton_None. intros [= <- _]. lia.
  - exists r, m', T', L'. split; [exact Hrun|]. destruct Hres as [|(Hr & Hcl & Hcd)]; [by left|right]. split; [done|].
    pose proof (space_move s2 dst rd T0 L2 P2 fr2 U2 hd nd Hd2 m' T' L' Hg' He) as Hd3.
    assert (HP2 : agree (frame_byte P2) (vm_mem s2) m').
    { eapply agree_weaken; [apply (ve_data _ _ _ _ _ _ He)|]. intros a (p & Hp & Ha). exists p.
      split; [by apply (proj2 (proj2 (sp_pool _ _ _ _ _ _ _ _ _ _ Hd2)))|]. split; [|done].
      intros k. by apply (sp_pages _ _ _ _ _ _ _ _ _ _ Hd2). }
    assert (Hag : agree (space_byte src T (head :: ns)) (vm_mem s2) m').
    { intros a [Ha|[(k & t & Ht & Ha)|(n & Hn & Ha)]].
      - apply (ve_outside _ _ _ _ _ _ He). by apply (sp_vm_out _ _ _ _ _ _ _ _ _ _ Hs2).
      - apply (ve_data _ _ _ _ _ _ He). exists t. split; [by eapply HL2, HtL|]. split; [|done]. intros k'. by eapply HT0, HtL.
      - apply HP2. apply (space_object_byte _ _ _ _ _ _ _ _ _ _ Hs2). exists n.
        split; [by apply (sp_used _ _ _ _ _ _ _ _ _ _ Hs2)|done]. }
    destruct (space_other s2 src root T L2 P2 fr2 U2 head ns Hs2 (set_vm s2 m') P2 fr2 U2 L') as (Hs3 & Hw3 & _);
      [apply Hd3|apply Hd3|apply (ve_held _ _ _ _ _ _ He)|done|by left|done|exact Hag|].
    split; [exact Hs3|]. split; [exact Hd3|]. split; [exact Hw3|]. split; [|split; [done|split; [done|split]]].
    2:{ apply (ve_held _ _ _ _ _ _ He). }
    2:{ eapply agree_trans; [exact Hk|]. intros a [Ha|[(p & Hp & HpP & Ha)|[Ha _]]]; [by apply Hag| |].
        - apply (ve_data _ _ _ _ _ _ He). exists p. split; [by apply HL2|]. split; [|done]. intros k. by apply HT0.
        - apply (ve_outside _ _ _ _ _ _ He). by rewrite Hfa. }
    intros n Hn. assert (Ho : forall o, 0 <= o <= 32 -> ld64 m' (n + o) = ld64 (vm_mem s2) (n + o)).
    { intros o Ho. eapply ld_agree; [exact HP2|]. intros a Ha. apply (space_object_byte _ _ _ _ _ _ _ _ _ _ Hs2).
      exists n. split; [done|]. unfold in_range, sizeof_vmem_area in *. lia. }
    unfold area_at. by rewrite !Ho by lia.
Qed.

Lemma clone_ok fuel :
  (length ns < fuel)%nat ->
  (exists s', vmem_clone fuel dst src s = Ret (- ENOMEM, s')) \/ vmem_clone fuel dst src s = Halt (Fault NULL) \/
  exists m' al rd hd nd T' L' P' fr' U', vmem_clone fuel dst src s = Ret (0, set_vo s m' al) /\
    space ok (set_vo s m' al) src root T L' P' fr' U' head ns /\
    space ok (set_vo s m' al) dst rd T' L' P' fr' U' hd nd /\
    (forall n, n ∈ head :: ns -> n ∉ hd :: nd) /\
    map (area_at m') nd = rev (map (area_at (vm_mem s)) ns) /\
    (forall n, n ∈ ns -> area_at m' n = area_at (vm_mem s) n) /\
    (forall va, walk m' 4 root va = walk (vm_mem s) 4 root va) /\
    (forall va, cloned s rd root m' T' L' L va) /\ copies_differ s rd root m' (fun _ => True) /\
    (forall p, p ∈ L -> p ∈ L') /\ (forall p, p ∈ P' -> p ∈ P \/ p ∉ L) /\ kept src T dst head s L P ns m'.
Proof.
  intros Hf. unfold vmem_clone.
  destruct clone_init as [[s' Hrun]|[Hrun|(m1 & al1 & rd & hd & P1 & fr1 & L1 & Hrun & Hrd & Hb1 & Hk1 & HL1 & HP1)]].
  { left. exists s'. by kstep Hrun. } { right; left. by apply kbind_Halt. }
  kstep Hrun. set (s1 := set_vo s m1 al1) in *. pose proof (bo_src _ _ _ _ _ _ _ _ _ _ _ _ _ _ Hb1) as Hs1.
  destruct (space_vm_kok _ _ _ _ _ _ _ _ _ _ Hs1) as (Hks & Hks8 & _). cbn [Z.ltb Z.compare].
  kstep (vload_ok _ s1 Hks). rewrite (sp_head _ _ _ _ _ _ _ _ _ _ Hs1). kstep (space_first _ _ _ _ _ _ _ _ _ _ Hs1).
  destruct (clone_areas_ok src root T dst rd head hd ns fuel s1 L1 P1 fr1 (hd :: U) ns [] [] Hb1 eq_refl Hf)
    as [Hrun2|(m2 & al2 & L2 & P2 & fr2 & U2 & nd & Hrun2 & Hb2 & Hk2 & HL2 & HP2 & HU2 & Ha2 & Hmap)].
  { right; left. by apply kbind_Halt. }
  kstep Hrun2. set (s2 := set_vo s1 m2 al2) in *. pose proof (bo_src _ _ _ _ _ _ _ _ _ _ _ _ _ _ Hb2) as Hs2.
  kstep (vload_ok _ s2 Hks8). rewrite (sp_root _ _ _ _ _ _ _ _ _ _ Hs2).
  assert (Hk : kept src T dst head s L P ns (vm_mem s2)) by (by eapply kept_then).
  assert (HLL : forall p, p ∈ L -> p ∈ L2) by auto.
  destruct (clone_tables s2 rd hd L2 P2 fr2 U2 nd Hb2 Hk HLL Hrd eq_refl) as (r & m' & T' & L' & Hrun3 & Hres).
  rewrite Hrun3. destruct Hres as [-> |(-> & Hs3 & Hd3 & Hw & Ha & Hcl & Hcd & HL3 & Hk3)]; [left; by eexists|right; right].
  exists m', al2, rd, hd, nd, T', L', P2, fr2, U2. split; [reflexivity|]. split; [exact Hs3|]. split; [exact Hd3|].
  assert (Has : forall n, n ∈ ns -> area_at (vm_mem s2) n = area_at (vm_mem s) n).
  { intros n Hn. assert (Ho : forall o, 0 <= o <= 32 -> ld64 (vm_mem s2) (n + o) = ld64 (vm_mem s) (n + o)).
    { intros o Ho. eapply ld_agree; [exact Hk|]. intros a Hra. left. right; right. exists n.
      split; [by apply list_elem_of_further|]. unfold in_range, sizeof_vmem_area in *. lia. }
    unfold area_at. by rewrite !Ho by lia. }
  assert (Huse : forall n, n ∈ nd \/ n ∈ ns -> n ∈ U2).
  { intros n [Hn|Hn]; [apply (sp_used _ _ _ _ _ _ _ _ _ _ Hd3)|apply (sp_used _ _ _ _ _ _ _ _ _ _ Hs3)]; by apply list_elem_of_further. }
  split; [apply Hb2|]. split; [|split; [|split; [|split; [|split; [|split; [auto|split; [|exact Hk3]]]]]]].
  - rewrite (map_ext_in (area_at m') (area_at m2)).
    + rewrite Hmap, app_nil_r. f_equal. apply map_ext_in. intros n Hn%list_elem_of_In.
      rewrite <- (Has n Hn). symmetry. apply Ha2. apply list_elem_of_further.
      apply (sp_used _ _ _ _ _ _ _ _ _ _ Hs). by apply list_elem_of_further.
    + intros n Hn%list_elem_of_In. apply Ha, Huse. by left.
  - intros n Hn. rewrite Ha by (apply Huse; by right). by apply Has.
  - intros va. rewrite Hw. eapply walk_ext; [apply Hs|]. intros l t Ht. rewrite (kept_entry _ _ _ _ Hk Ht (index_bounds _ _)). done.
  - intros va. by eapply cloned_from.
  - intros va va' q _ _ Hc Hc'. apply (Hcd va va' q); try done.
    + by eapply page_copied_kept.
    + by eapply page_copied_kept.
  - intros p Hp. destruct (HP2 p Hp) as [Hp1|Hp1]; [by apply HP1|]. right. intros HpL. by apply Hp1, HL1.
Qed.
End Whole.
End CloneSpace.
