(* ===== verification/ExampleRun.v ===== *)
(** * Runs of the code the examples are about

    An address space is made on the allocator of FrameExample.v, gets a region,
    takes a page fault in it and is cloned. What these runs answer is computed
    here, once; SpaceExample.v and FaultExample.v connect it with the theorems. *)

From S2P Require Import Prelude Mem Common DList Buddy Paging FrameAlloc FrameRefine FrameZones FrameSession FrameInit.
From S2P Require Import FrameExample FrameClient Obj ObjSpec Vmem PageTable Destroy Clone.

(** The state a run ends in, and a test of its answer. *)
Definition state_of {S A} (r : res (A * S)) (s : S) : S := match r with Ret (_, s') => s' | Halt _ => s end.
Definition answer {S A} (f : A -> bool) (r : res (A * S)) : bool := match r with Ret (a, _) => f a | Halt _ => false end.

Definition final {S A} (m : K S A) (s : S) : S := state_of (m s) s.
Definition returns {S} (m : K S Z) (s : S) (v : Z) : bool := answer (Z.eqb v) (m s).

Lemma returns_Ret {S} (m : K S Z) (s : S) v : returns m s v = true -> exists s', m s = Ret (v, s').
Proof. unfold returns. destruct (m s) as [[r s']|]; [|done]. intros <-%Z.eqb_eq. by exists s'. Qed.

Lemma final_Ret {S A} (m : K S A) s a s' : m s = Ret (a, s') -> final m s = s'.
Proof. unfold final. by intros ->. Qed.

(** ** The states *)

Definition kvm : Z := KERNEL_SECTIONS_START.
Definition vs0 : vm_state := VmState fa1 (OBJ_ALLOC_DEFINE sizeof_vmem_area) NULL 0.

(** The first address space, in use. *)
Definition vs1 : vm_state := final (vmem_init kvm ;; vmem_switch_to kvm)%K vs0.

(** With a region of four pages. *)
Definition user_base : Z := 0x70000000.
Definition region_run : res (Z * vm_state) := vmem_alloc_pages 1 kvm user_base 4 3 vs1.
Definition vs2 : vm_state := state_of region_run vs1.

(** After a fault in the third page of the region. *)
Definition fault_addr : Z := user_base + 0x2123.
Definition fault_run : res (bool * vm_state) := vmem_handle_pf 2 fault_addr vs2.
Definition after_fault : vm_state := state_of fault_run vs2.

(** Not in use. *)
Definition vs3 : vm_state := VmState (vm_fa after_fault) (vmem_area_alloc after_fault) NULL 0.

Definition vs3_root : Z := ld64 (vm_mem vs3) (vm_pml4 kvm).

(** The tables on the way to the page, and its frame. *)
Definition step_to (l : nat) (t : Z) : Z := default 0 (child (vm_mem vs3) l t (index l fault_addr)).
Definition vs3_pdpt : Z := step_to 4 vs3_root.
Definition vs3_pgdir : Z := step_to 3 vs3_pdpt.
Definition vs3_pgtbl : Z := step_to 2 vs3_pgdir.
Definition vs3_entry : Z := ld64 (vm_mem vs3) (entry_addr vs3_pgtbl (index 1 fault_addr)).
Definition vs3_page : Z := entry_frame_of vs3_entry.

(** The structure of a second space, next to that of the first. *)
Definition kvm2 : Z := kvm + 16.

(** ** What the runs answer *)

Definition is_some_eqb (o : option Z) (v : Z) : bool := match o with Some x => x =? v | None => false end.

Lemma is_some_eqb_eq o v : is_some_eqb o v = true -> o = Some v.
Proof. destruct o; [|done]. by intros ->%Z.eqb_eq. Qed.

Definition leaf_is (o : option (nat * Z)) (k : nat) (e : Z) : bool :=
  match o with Some (l, x) => (l =? k)%nat && (x =? e) | None => false end.

Lemma leaf_is_eq o k e : leaf_is o k e = true -> o = Some (k, e).
Proof. destruct o as [[l x]|]; [|done]. by intros [->%Nat.eqb_eq ->%Z.eqb_eq]%andb_prop. Qed.

Definition marked_is (p e : Z) : bool := negb (has e PTE_PRESENT) || negb (has e PTE_ALLOC) || (entry_frame_of e =? p).

Definition init_returns : bool := returns (vmem_init kvm) vs0 0.
Definition region_returns : bool := answer (Z.eqb 0) region_run.
Definition frame_found : bool := answer (fun r => negb (r =? NULL)) (frame_alloc (vm_fa vs2)).
Definition fault_handled : bool := answer id fault_run.
Definition tables_found : bool :=
  is_some_eqb (child (vm_mem vs3) 4 vs3_root (index 4 fault_addr)) vs3_pdpt &&
  is_some_eqb (child (vm_mem vs3) 3 vs3_pdpt (index 3 fault_addr)) vs3_pgdir &&
  is_some_eqb (child (vm_mem vs3) 2 vs3_pgdir (index 2 fault_addr)) vs3_pgtbl.
Definition owned_is : bool := bool_decide (owned (vm_mem vs3) 4 vs3_root = [vs3_page; vs3_pgtbl; vs3_pgdir; vs3_pdpt]).
Definition owned_distinct : bool := bool_decide (NoDup ([vs3_page; vs3_pgtbl; vs3_pgdir; vs3_pdpt] ++ [vs3_root])).
Definition no_large : bool :=
  forallb (fun t => forallb (fun i => negb (has (ld64 (vm_mem vs3) (entry_addr t i)) PTE_PAGE_SIZE)) (seqZ 0 512))
    ([vs3_page; vs3_pgtbl; vs3_pgdir; vs3_pdpt] ++ [vs3_root]).
Definition marked_page : bool :=
  forallb (fun i => marked_is vs3_page (ld64 (vm_mem vs3) (entry_addr vs3_pgtbl i))) (seqZ 0 512).
Definition clone_returns : bool := returns (vmem_clone 2 kvm2 kvm) vs3 0.
Definition leaf_found : bool := leaf_is (find_leaf (vm_mem vs3) 4 vs3_root fault_addr) 1 vs3_entry.
Definition entry_marked : bool := has vs3_entry PTE_ALLOC.
Definition lower_left : bool := lower_free (vm_mem vs3).

Definition checks : list bool :=
  [init_returns; region_returns; frame_found; fault_handled; tables_found; owned_is; owned_distinct; no_large;
   marked_page; clone_returns; leaf_found; entry_marked; lower_left].

Lemma run_checked : (forallb id checks, allocator_zones (vm_fa vs3)) = (true, allocator_zones fa1).
Proof. vm_compute. reflexivity. Qed.

Lemma run_fst {A} (l : list bool) (z z' : A) b : (forallb id l, z) = (true, z') -> In b l -> b = true.
Proof. intros [= H _] Hb. exact (proj1 (forallb_forall id l) H b Hb). Qed.

Lemma run_snd {A} (b : bool) (z z' : A) : (b, z) = (true, z') -> z = z'.
Proof. by intros [=]. Qed.

Lemma check_ok b : In b checks -> b = true.
Proof. apply (run_fst checks _ _ b run_checked). Qed.

(** By the names of the checks: none of them is computed again. *)
Ltac in_checks :=
  unfold checks;
  repeat match goal with |- In ?b (?c :: _) => first [constr_eq b c; exact (in_eq _ _) | apply in_cons] end.

Lemma vs0_returns : returns (vmem_init kvm) vs0 0 = true.
Proof. change (init_returns = true). apply check_ok. in_checks. Qed.

Lemma vs1_returns : returns (vmem_alloc_pages 1 kvm user_base 4 3) vs1 0 = true.
Proof. change (region_returns = true). apply check_ok. in_checks. Qed.

Lemma vs2_frames : frame_alloc (vm_fa vs2) <> Ret (NULL, vm_fa vs2).
Proof.
  assert (H : frame_found = true) by (apply check_ok; in_checks).
  unfold frame_found in H. intros E. rewrite E in H. discriminate H.
Qed.

Lemma vs2_handled : answer id (vmem_handle_pf 2 fault_addr vs2) = true.
Proof. change (fault_handled = true). apply check_ok. in_checks. Qed.

Lemma vs3_children :
  child (vm_mem vs3) 4 vs3_root (index 4 fault_addr) = Some vs3_pdpt /\
  child (vm_mem vs3) 3 vs3_pdpt (index 3 fault_addr) = Some vs3_pgdir /\
  child (vm_mem vs3) 2 vs3_pgdir (index 2 fault_addr) = Some vs3_pgtbl.
Proof.
  assert (H : tables_found = true) by (apply check_ok; in_checks).
  destruct (andb_prop _ _ H) as [[H4 H3]%andb_prop H2].
  split; [|split]; apply is_some_eqb_eq; [exact H4|exact H3|exact H2].
Qed.

Lemma vs3_owned : owned (vm_mem vs3) 4 vs3_root = [vs3_page; vs3_pgtbl; vs3_pgdir; vs3_pdpt].
Proof. refine (bool_decide_eq_true_1 _ _). change (owned_is = true). apply check_ok. in_checks. Qed.

Lemma vs3_distinct : NoDup ([vs3_page; vs3_pgtbl; vs3_pgdir; vs3_pdpt] ++ [vs3_root]).
Proof. refine (bool_decide_eq_true_1 _ _). change (owned_distinct = true). apply check_ok. in_checks. Qed.

Lemma vs3_no_large :
  forallb (fun t => forallb (fun i => negb (has (ld64 (vm_mem vs3) (entry_addr t i)) PTE_PAGE_SIZE)) (seqZ 0 512))
    ([vs3_page; vs3_pgtbl; vs3_pgdir; vs3_pdpt] ++ [vs3_root]) = true.
Proof. change (no_large = true). apply check_ok. in_checks. Qed.

Lemma vs3_marked_page :
  forallb (fun i => marked_is vs3_page (ld64 (vm_mem vs3) (entry_addr vs3_pgtbl i))) (seqZ 0 512) = true.
Proof. change (marked_page = true). apply check_ok. in_checks. Qed.

Lemma vs3_cloned : returns (vmem_clone 2 kvm2 kvm) vs3 0 = true.
Proof. change (clone_returns = true). apply check_ok. in_checks. Qed.

Lemma vs3_walk : find_leaf (vm_mem vs3) 4 vs3_root fault_addr = Some (1%nat, vs3_entry).
Proof. apply leaf_is_eq. change (leaf_found = true). apply check_ok. in_checks. Qed.

Lemma vs3_marked : has vs3_entry PTE_ALLOC = true.
Proof. change (entry_marked = true). apply check_ok. in_checks. Qed.

Lemma vs3_lower : lower_free (vm_mem vs3) = true.
Proof. change (lower_left = true). apply check_ok. in_checks. Qed.

Lemma vs3_zones : allocator_zones (vm_fa vs3) = allocator_zones fa1.
Proof. exact (run_snd _ _ _ run_checked). Qed.

Lemma fa1_zones : allocator_zones fa1 = [zone1].
Proof. unfold fa1. cbn [allocator_zones]. reflexivity. Qed.

(** [vs3] has the allocator of [after_fault]. *)
Lemma vs3_frames : vm_fa vs3 = vm_fa after_fault.
Proof. unfold vs3. cbn [vm_fa]. reflexivity. Qed.

Lemma vs3_zone : allocator_zones (vm_fa vs3) = [zone1].
Proof. exact (eq_trans vs3_zones fa1_zones). Qed.
