(* ===== verification/SpaceExample.v ===== *)
(** * An address space made by the code

    The states of ExampleRun.v up to the region are well-formed: the instances of
    the theorems are about them. *)

From S2P Require Import Prelude Mem Common DList Buddy Paging FrameAlloc FrameRefine FrameZones FrameSession FrameInit.
From S2P Require Import FrameExample FrameClient Obj ObjSpec Vmem PageTable VmemSpec VmemMap AddrSpace Demand SpaceInit.
From S2P Require Import Destroy Clone ExampleRun.

(** The kernel's sections, and a page before them, are outside the allocator's memory. *)
Lemma sections_outside a : KERNEL_SECTIONS_START - PAGE_SIZE <= a -> ~ fa_bytes fa1 a.
Proof.
  intros Ha (z & Hz & Hb). apply list_elem_of_singleton in Hz as ->.
  assert (HN : (end_addr zone1 - start_addr zone1) / PAGE_SIZE = 12288) by done.
  unfold zone_bytes in Hb. rewrite HN in Hb. destruct Hb as [Hw|[(k & Hk & Hw)|(p & Hp & Hw)]].
  - unfold in_range, zone1, array1, heads_bytes, KERNEL_SECTIONS_START, KERNEL_DIRECT_PHYS_MAPPING_START, PAGE_SIZE in *; simpl zone_addr in Hw. lia.
  - rewrite zone1_bitmap in Hw by done. pose proof (zone1_bitmap_bytes k).
    unfold in_range, region1, KERNEL_SECTIONS_START, KERNEL_DIRECT_PHYS_MAPPING_START, PAGE_SIZE, MAX_ORDER in *. lia.
  - unfold in_range, page_addr, zone1, KERNEL_SECTIONS_START, KERNEL_DIRECT_PHYS_MAPPING_START, PAGE_SIZE in *;
      simpl start_addr in Hw. lia.
Qed.

Lemma kvm_outside a : in_range kvm 16 a -> ~ fa_bytes fa1 a.
Proof. intros [Ha _]. apply sections_outside. unfold kvm, PAGE_SIZE in *. lia. Qed.

Lemma fa1_frames F : frames_ok F fa1 [].
Proof.
  split; [apply fa1_ok|]. intros z Hz. apply list_elem_of_singleton in Hz as ->. split; [by apply Z.ltb_lt|by apply Z.leb_le].
Qed.

(** Frames can be given back while the lower blocks are free. *)
Lemma lower_fine s L : frames_ok True s L -> allocator_zones s = [zone1] -> lower_free (fa_mem s) = true -> frames_fine s L.
Proof. intros H Hz Hlow. split; [exact H|]. exact (lower_free_apart True s _ (proj1 H) Hz Hlow). Qed.

Lemma vs0_pool F : pool_in (frames_ok F) (vm_fa vs0, vmem_area_alloc vs0) [] [] [] [].
Proof.
  split; [apply fa1_frames|]. split; [|done]. split; [done|done|by intros x ?%not_elem_of_nil|constructor].
Qed.

(** Changing the address space in use keeps the invariant. *)
Lemma space_switch {ok : fa_state -> list Z -> Prop} s vm root T L P fr U head ns cur c :
  space ok s vm root T L P fr U head ns ->
  space ok (VmState (vm_fa s) (vmem_area_alloc s) cur c) vm root T L P fr U head ns.
Proof. intros [[] ?????????]. split; done. Qed.

Lemma vs1_space F :
  exists root L P fr h, space (frames_ok F) vs1 kvm root {[(4%nat, 0) := root]} L P fr [h] h [] /\
    (length L <= 2)%nat /\ curr_vmem vs1 = kvm /\ forall va, walk (vm_mem vs1) 4 root va = None.
Proof.
  destruct (returns_Ret _ _ _ vs0_returns) as [s1 Hret].
  destruct (vmem_init_ok vs0 kvm [] [] [] [] (fa1_frames F) (vs0_pool F) eq_refl eq_refl kvm_outside) as
    [[[s' Hrun] _]|[[Hrun _]|(m' & al & root & h & P & fr & L & Hrun & _ & _ & Hsp & Hw & _ & _ & _ & _ & Hlen)]]; rewrite Hrun in Hret; [discriminate Hret|discriminate Hret|].
  clear Hret s1. destruct (space_vm_kok _ _ _ _ _ _ _ _ _ _ Hsp) as (_ & Hk & _).
  set (s1 := set_vo vs0 m' al) in *.
  assert (Hsw : vmem_switch_to kvm s1 =
            Ret (tt, VmState (vm_fa s1) (vmem_area_alloc s1) kvm (VIRT_TO_PHYS (ld64 (vm_mem s1) (vm_pml4 kvm))))).
  { unfold vmem_switch_to. by rewrite (kbind_Ret _ _ _ _ _ (vload_ok (vm_pml4 kvm) s1 Hk)). }
  assert (E : vs1 = VmState (vm_fa s1) (vmem_area_alloc s1) kvm (VIRT_TO_PHYS (ld64 (vm_mem s1) (vm_pml4 kvm)))).
  { assert (Hseq : (vmem_init kvm ;; vmem_switch_to kvm)%K vs0 =
              Ret (tt, VmState (vm_fa s1) (vmem_area_alloc s1) kvm (VIRT_TO_PHYS (ld64 (vm_mem s1) (vm_pml4 kvm))))).
    { etrans; [exact (kbind_Ret (vmem_init kvm) (fun _ => vmem_switch_to kvm) vs0 0 s1 Hrun)|exact Hsw]. }
    exact (final_Ret _ _ _ _ Hseq). }
  rewrite E. exists root, L, P, fr, h. split; [by apply space_switch|]. split; [exact Hlen|]. split; [reflexivity|exact Hw].
Qed.

Lemma vs1_capacity : capacity (vm_fa vs1) = 12288.
Proof. vm_compute. reflexivity. Qed.

(** With a region of four pages. *)
Lemma add_region_space {F : Prop} s root T L P fr U h va size flags :
  space (frames_ok F) s kvm root T L P fr U h [] -> aligned PAGE_SIZE va ->
  returns (vmem_alloc_pages 1 kvm va size flags) s 0 = true ->
  let s' := final (vmem_alloc_pages 1 kvm va size flags) s in
  exists L' P' fr' x, space (frames_ok F) s' kvm root T L' P' fr' (x :: U) h [x] /\
    curr_vmem s' = curr_vmem s /\ (forall a, walk (vm_mem s') 4 root a = walk (vm_mem s) 4 root a) /\
    ld64 (vm_mem s') (x + 16) = u64 va /\ ld64 (vm_mem s') (x + 24) = u64 size.
Proof.
  intros Hsp Hva [s1 Hret]%returns_Ret.
  destruct (alloc_pages_ok s kvm root T L P fr U h [] Hsp 1 va size flags) as
    [[Hrun _]|(x & m' & al & P' & fr' & L' & Hrun & _ & Hsp' & Hf1 & Hf2 & _ & _ & Hw' & _)];
    [exact Hva|simpl; lia|done|rewrite Hrun in Hret; discriminate Hret|].
  cbn zeta. rewrite (final_Ret _ _ _ _ Hrun). by exists L', P', fr', x.
Qed.

Lemma vs2_space F :
  exists root L P fr h x, space (frames_ok F) vs2 kvm root {[(4%nat, 0) := root]} L P fr [x; h] h [x] /\
    curr_vmem vs2 = kvm /\ (forall va, walk (vm_mem vs2) 4 root va = None) /\
    ld64 (vm_mem vs2) (x + 16) = u64 user_base /\ ld64 (vm_mem vs2) (x + 24) = u64 4.
Proof.
  destruct (vs1_space F) as (root & L & P & fr & h & Hsp & _ & Hcur & Hw).
  destruct (add_region_space vs1 root _ L P fr [h] h user_base 4 3 Hsp) as (L' & P' & fr' & x & H1 & H2 & H3 & H4 & H5);
    [by apply Z.mod_divide; vm_compute|apply vs1_returns|].
  exists root, L', P', fr', h, x. split; [exact H1|]. split; [exact (eq_trans H2 Hcur)|].
  split; [|split; [exact H4|exact H5]]. intros va. exact (eq_trans (H3 va) (Hw va)).
Qed.
