(* ===== verification/VmemUnmap.v ===== *)
(** * vmem_unmap_page: one translation less

    The code frees the frame when bit 2 of the entry is set, the value of
    [VMEM_ALLOC]; in an entry that bit is [PTE_USER]. *)

From S2P Require Import Prelude Mem Common DList Buddy Paging FrameAlloc FrameRefine FrameZones FrameSession FrameInit.
From S2P Require Import FrameExample FrameClient Obj ObjSpec Vmem PageTable VmemSpec VmemMap AddrSpace Demand.

(** The way down to a table of the tree. *)
Lemma tree_path m root T l t va :
  tree m root T -> (l <= 3)%nat -> T !! (l, prefix l va) = Some t ->
  exists t0, T !! (S l, prefix (S l) va) = Some t0 /\
    has (ld64 m (entry_addr t0 (index (S l) va))) PTE_PRESENT = true /\
    PHYS_TO_VIRT (PTE_ADDR (ld64 m (entry_addr t0 (index (S l) va)))) = t.
Proof.
  intros Ht Hl Hk. destruct (tr_back _ _ _ Ht l _ _ Hl Hk) as (p & i & t0 & Hp & Hi & Hq & Hc).
  rewrite prefix_index in Hq by done. pose proof (index_bounds (S l) va).
  assert (p = prefix (S l) va) as -> by lia. assert (i = index (S l) va) as -> by lia.
  exists t0. split; [done|]. unfold child in Hc. destruct (has _ PTE_PRESENT); [|done]. cbn [andb] in Hc.
  destruct (large (S l) _); [done|]. by injection Hc as ->.
Qed.

Section Unmap.
Context {F : Prop} {ok : fa_state -> list Z -> Prop} `{!FrameContract F ok}.

(** Clearing the entry of a page. *)
Lemma leaf_clear_ok s root T L t va m' :
  vm_good ok s root T L -> T !! (1%nat, prefix 1 va) = Some t -> m' = st64 (vm_mem s) (entry_addr t (index 1 va)) 0 ->
  vm_good ok (set_vm s m') root T L /\ vm_effect s T L m' T L /\
  forall va', walk m' 4 root va' = if decide (prefix 0 va' = prefix 0 va) then None else walk (vm_mem s) 4 root va'.
Proof.
  intros Hg Ht ->. set (m' := st64 _ _ _). pose proof (vg_tree _ _ _ _ Hg) as Htr.
  pose proof (index_bounds 1 va) as Hix.
  destruct (entry_write_ok s root T L 1 _ t _ 0 m' Hg Ht Hix eq_refl) as [Hok' Heff].
  assert (Hent : forall l0 p0 t0 i0, T !! (l0, p0) = Some t0 -> 0 <= i0 < 512 ->
    ld64 m' (entry_addr t0 i0) = if decide (t0 = t /\ i0 = index 1 va) then 0 else ld64 (vm_mem s) (entry_addr t0 i0)).
  { intros l0 p0 t0 i0 H0 Hi0. unfold m'. by rewrite entry_st by (done || by eapply vg_frame). }
  assert (Htree : tree m' root T).
  { eapply tree_same; [exact Htr|]. intros l0 p0 t0 i0 Hl0 H0 Hi0. apply child_same.
    rewrite (Hent _ _ _ _ H0), decide_False; [done| |done]. intros [-> _].
    injection (tr_inj _ _ _ Htr _ _ _ H0 Ht) as E _. lia. }
  assert (Hclean : clean m' T).
  { eapply clean_same; [apply Hg|]. intros l0 p0 t0 i0 H0 Hi0. rewrite (Hent _ _ _ _ H0 Hi0).
    case_decide; [by right; right|by left]. }
  split; [split; [done|done|apply Hg|done]|]. split; [done|]. intros va'. case_decide as Hpre.
  - pose proof (prefix_same _ _ _ Hpre) as Hps. pose proof (index_same 0 va' va ltac:(lia) Hpre) as Hi.
    rewrite (tree_walk m' root T Htree va' 1 t) by (by rewrite Hps). cbn [walk].
    unfold table_entry, present. rewrite (Hent _ _ _ _ Ht), decide_True by (rewrite ?Hi; done). done.
  - apply (walk_ext (vm_mem s) root T Htr m' va'). intros l0 t0 H0.
    rewrite (Hent _ _ _ _ H0) by apply index_bounds. rewrite decide_False; [done|]. intros [-> Hi].
    injection (tr_inj _ _ _ Htr _ _ _ H0 Ht) as -> Hps. apply Hpre.
    rewrite (prefix_index 0 va'), (prefix_index 0 va) by lia. by rewrite Hps, Hi.
Qed.

(** The frame of the page is taken from [L] if the entry has [PTE_USER]. *)
Lemma unmap_page_ok s root T L1 L2 p vm va t :
  let L := L1 ++ p :: L2 in
  let e := ld64 (vm_mem s) (entry_addr t (index 1 va)) in
  let L' := if has e PTE_USER then L1 ++ L2 else L in
  F -> vm_good ok s root T L -> kok (vm_pml4 vm) 8 = true -> ld64 (vm_mem s) (vm_pml4 vm) = root ->
  T !! (1%nat, prefix 1 va) = Some t -> PHYS_TO_VIRT (PTE_ADDR e) = p -> (forall k, T !! k <> Some p) ->
  exists m', vmem_unmap_page vm va s = Ret (tt, set_vm s m') /\ vm_good ok (set_vm s m') root T L' /\
    agree (fun a => ~ fa_bytes (vm_fa s) a) (vm_mem s) m' /\
    agree (fun a => exists q, q ∈ L1 ++ L2 /\ (forall k, T !! k <> Some q) /\ in_range q PAGE_SIZE a) (vm_mem s) m' /\
    forall va', walk m' 4 root va' = if decide (prefix 0 va' = prefix 0 va) then None else walk (vm_mem s) 4 root va'.
Proof.
  intros L e L' HF Hg Hk Hroot Ht1 Hpe HpT. pose proof (vg_tree _ _ _ _ Hg) as Htr.
  destruct (tree_path _ _ _ 1 t va Htr ltac:(lia) Ht1) as (t2 & Ht2 & Hp2 & Hn2).
  destruct (tree_path _ _ _ 2 t2 va Htr ltac:(lia) Ht2) as (t3 & Ht3 & Hp3 & Hn3).
  destruct (tree_path _ _ _ 3 t3 va Htr ltac:(lia) Ht3) as (t4 & Ht4 & Hp4 & Hn4).
  assert (t4 = root) as ->. { rewrite prefix_top in Ht4. pose proof (tr_root _ _ _ Htr) as Hr. rewrite Ht4 in Hr. by injection Hr. }
  assert (Hload : forall l t0, T !! (l, prefix l va) = Some t0 ->
            entry t0 (index l va) s = Ret (ld64 (vm_mem s) (entry_addr t0 (index l va)), s)).
  { intros l t0 H0. apply vload_ok. destruct (entry_frame t0 (index l va)) as (_ & Hke & _);
      [by eapply vg_frame|apply index_bounds|exact Hke]. }
  unfold vmem_unmap_page. kstep (vload_ok (vm_pml4 vm) s Hk). rewrite Hroot.
  change (PML4E_FROM_ADDR va) with (index 4 va). change (PDPE_FROM_ADDR va) with (index 3 va).
  change (PDE_FROM_ADDR va) with (index 2 va). change (PTE_FROM_ADDR va) with (index 1 va).
  kstep (Hload _ _ Ht4). rewrite Hp4. cbn [negb]. cbv zeta. rewrite Hn4.
  kstep (Hload _ _ Ht3). rewrite Hp3. cbn [negb]. rewrite Hn3.
  kstep (Hload _ _ Ht2). rewrite Hp2. cbn [negb]. rewrite Hn2. kstep (Hload _ _ Ht1). fold e.
  change (has e VMEM_ALLOC) with (has e PTE_USER). unfold L'.
  assert (Hke : kok (entry_addr t (index 1 va)) 8 = true).
  { destruct (entry_frame t (index 1 va)) as (_ & Hke & _); [by eapply vg_frame|apply index_bounds|exact Hke]. }
  destruct (has e PTE_USER) eqn:Hu.
  - rewrite Hpe.
    destruct (fc_free (ok := ok) (vm_fa s) p L1 L2 HF (vg_ok _ _ _ _ Hg)) as (m1 & Hfree & Hok1 & Hag & Hout).
    kstep (in_fa_ok (frame_free p) s tt m1 Hfree). unfold set_entry.
    rewrite (vstore_ok _ 0 (set_vm s m1) Hke), set_vm_set.
    (* the tables are among the other frames *)
    assert (HT : forall k t0, T !! k = Some t0 -> t0 ∈ L1 ++ L2).
    { intros k t0 H0. pose proof (vg_held _ _ _ _ Hg _ _ H0) as Hin. assert (t0 <> p) by (intros ->; by eapply HpT).
      unfold L in Hin. rewrite elem_of_app, elem_of_cons in Hin. rewrite elem_of_app. tauto. }
    assert (Hg1 : vm_good ok (set_vm s m1) root T (L1 ++ L2) /\ forall va', walk m1 4 root va' = walk (vm_mem s) 4 root va').
    { assert (Hent : forall l0 p0 t0 i0, T !! (l0, p0) = Some t0 -> 0 <= i0 < 512 ->
                ld64 m1 (entry_addr t0 i0) = ld64 (vm_mem s) (entry_addr t0 i0)).
      { intros l0 p0 t0 i0 H0 Hi0. eapply entry_agree; [exact Hag|by eapply vg_frame|done|].
        intros a Ha. exists t0. split; [by eapply HT|done]. }
      split; [split; [done| |exact HT|]|].
      - eapply tree_same; [exact Htr|]. intros l0 p0 t0 i0 _ H0 Hi0. apply child_same. by rewrite (Hent _ _ _ _ H0).
      - eapply clean_same; [apply Hg|]. intros l0 p0 t0 i0 H0 Hi0. left. change (vm_mem (set_vm s m1)) with m1. by rewrite (Hent _ _ _ _ H0 Hi0).
      - intros va'. apply (walk_ext _ _ _ Htr). intros l0 t0 H0. rewrite (Hent _ _ _ _ H0) by apply index_bounds. done. }
    destruct Hg1 as [Hg1 Hw1].
    destruct (leaf_clear_ok (set_vm s m1) root T (L1 ++ L2) t va _ Hg1 Ht1 eq_refl) as (Hg2 & He2 & Hw2).
    eexists. split; [reflexivity|]. split; [exact Hg2|]. split; [|split].
    + eapply agree_trans; [exact Hout|]. apply (ve_outside _ _ _ _ _ _ He2).
    + eapply agree_trans; [|apply (ve_data _ _ _ _ _ _ He2)]. eapply agree_weaken; [exact Hag|].
      intros a (q & Hq & _ & Ha). by exists q.
    + intros va'. rewrite Hw2. case_decide; [done|]. apply Hw1.
  - rewrite (kbind_Ret (kret tt) _ s tt s eq_refl). unfold set_entry. rewrite (vstore_ok _ 0 s Hke).
    destruct (leaf_clear_ok s root T L t va _ Hg Ht1 eq_refl) as (Hg2 & He2 & Hw2).
    eexists. split; [reflexivity|]. split; [exact Hg2|]. split; [apply (ve_outside _ _ _ _ _ _ He2)|]. split; [|exact Hw2].
    eapply agree_weaken; [apply (ve_data _ _ _ _ _ _ He2)|]. intros a (q & Hq & H1 & H2). exists q.
    split; [|done]. unfold L. rewrite elem_of_app in Hq. rewrite elem_of_app, elem_of_cons. tauto.
Qed.
End Unmap.
