(* ===== verification/VmemClaims.v ===== *)
(** * Properties of virtual memory

    Translation by the processor's walk, before and after the operations of
    mm/vmem.c, from the allocator of FrameSession.v up; the instances are the
    address spaces of SpaceExample.v. *)

From S2P Require Import Prelude Mem Common DList Buddy Paging FrameAlloc FrameRefine FrameZones FrameSession FrameInit.
From S2P Require Import FrameExample FrameClient Obj ObjSpec Vmem PageTable VmemSpec VmemMap AddrSpace Demand SpaceInit.
From S2P Require Import Destroy Clone ExampleRun SpaceExample VmemUnmap.

Lemma walk_of_root {F ok} `{!FrameContract F ok} s root T L va :
  vm_good ok s root T L -> forall m, page_walk m (VIRT_TO_PHYS root) va = walk m 4 root va.
Proof.
  intros Hg m. pose proof (vg_frame _ _ _ _ _ _ Hg (tr_root _ _ _ (vg_tree _ _ _ _ Hg))) as Hf.
  rewrite page_walk_walk. by destruct (frame_at_phys root Hf) as (_ & _ & ->).
Qed.

(** [C17] Mapping a page: where an address is not mapped, [vmem_map_page] returns;
    when the zones have three frames that are not in use it returns 0, and from
    then on the processor translates the addresses of that page to the frame,
    and all others as before; with fewer it may also answer [-ENOMEM], having
    taken every frame there was, and then changes no translation. It takes at
    most three frames, for tables; the tables stay a tree of frames apart from
    one another, and no frame in use that is not a table is changed. *)
Theorem map_page_translates (F : Prop) s root T L vm va frame flags :
  vm_good (frames_ok F) s root T L -> kok (vm_pml4 vm) 8 = true -> ld64 (vm_mem s) (vm_pml4 vm) = root ->
  canonical va -> aligned PAGE_SIZE va -> 0 <= frame < 2 ^ 48 -> aligned PAGE_SIZE frame ->
  page_walk (vm_mem s) (VIRT_TO_PHYS root) va = None ->
  exists r m' T' L', vmem_map_page vm va frame flags s = Ret (r, set_vm s m') /\
    vm_good (frames_ok F) (set_vm s m') root T' L' /\ vm_effect s T L m' T' L' /\ (length L' <= length L + 3)%nat /\
    (r = - ENOMEM /\ capacity (vm_fa s) <= Z.of_nat (length L) + 2 /\
     (forall va', page_walk m' (VIRT_TO_PHYS root) va' = page_walk (vm_mem s) (VIRT_TO_PHYS root) va') \/
     r = 0 /\ maps_to m' T' va (Z.lor (Z.lor frame PTE_PRESENT) (vmem_convert_flags flags)) /\
     forall va', canonical va' -> page_walk m' (VIRT_TO_PHYS root) va' =
       if decide (va' / PAGE_SIZE = va / PAGE_SIZE) then Some (frame + va' mod PAGE_SIZE)
       else page_walk (vm_mem s) (VIRT_TO_PHYS root) va').
Proof.
  intros Hg Hk Hr Hcan Hal Hfr Hfa Hw. rewrite (walk_of_root _ _ _ _ _ Hg) in Hw.
  destruct (map_page_ok s root T L vm va frame flags Hg Hk Hr Hcan Hal Hfr Hfa Hw)
    as (r & m' & T' & L' & Hrun & Hg' & He & Hlen & Hres).
  exists r, m', T', L'. split; [done|]. split; [done|]. split; [done|]. split; [exact Hlen|].
  destruct Hres as [(-> & [Hfull Hl] & Hw')|(-> & Hm & Hw')]; [left|right]; split_and!; try done; [lia| |]; intros va';
    [|intros Hc]; rewrite !(walk_of_root _ _ _ _ _ Hg); auto.
Qed.

Lemma map_page_translates_witness :
  exists s' root, vmem_map_page kvm user_base 0x200000 VMEM_USER vs1 = Ret (0, s') /\
    page_walk (vm_mem s') root (user_base + 0x123) = Some (0x200000 + 0x123).
Proof.
  destruct (vs1_space True) as (root & L & P & fr & h & Hsp & Hlen & _ & Hw).
  destruct (map_page_translates True vs1 root _ L kvm user_base 0x200000 VMEM_USER
              (sp_good _ _ _ _ _ _ _ _ _ _ Hsp)) as (r & m' & T' & L' & Hrun & _ & _ & _ & Hres).
  - exact (proj1 (proj2 (space_vm_kok _ _ _ _ _ _ _ _ _ _ Hsp))).
  - exact (sp_root _ _ _ _ _ _ _ _ _ _ Hsp).
  - split; [split; [apply Z.leb_le|]; reflexivity|]. intros i Hi.
    rewrite !(testbit_small user_base 31) by (unfold user_base; lia). reflexivity.
  - apply Z.mod_divide; [discriminate|reflexivity].
  - lia.
  - apply Z.mod_divide; [discriminate|reflexivity].
  - rewrite (walk_of_root _ _ _ _ _ (sp_good _ _ _ _ _ _ _ _ _ _ Hsp)). apply Hw.
  - destruct Hres as [(_ & Hfull & _)|(-> & _ & Hm)].
    + exfalso. apply (Z.lt_irrefl 12288). rewrite vs1_capacity in Hfull. lia.
    + exists (set_vm vs1 m'), (VIRT_TO_PHYS root). split; [exact Hrun|].
      etrans; [apply Hm|]; [|rewrite decide_True by reflexivity; reflexivity].
      split; [split; [apply Z.leb_le|]; reflexivity|]. intros i Hi.
      rewrite !(testbit_small (user_base + 0x123) 31) by (unfold user_base; lia). reflexivity.
Defined.

(** [C5] Demand paging: a page fault at an unmapped address of an area is
    handled: when the zones have four frames that are not in use (with fewer it
    may panic, having taken every frame there was), [vmem_handle_pf] returns true, the
    address is then translated to a frame no one held, filled with zeros, with
    the area's rights, and every other translation, every frame in use and the
    areas are as before. *)
Theorem page_fault_maps (F : Prop) s vm root T L P fr U head ns fuel a :
  space (frames_ok F) s vm root T L P fr U head ns -> curr_vmem s = vm -> (length ns < fuel)%nat -> canonical a ->
  find_node (area_has (vm_mem s) a) ns <> NULL -> page_walk (vm_mem s) (VIRT_TO_PHYS root) a = None ->
  frame_alloc (vm_fa s) <> Ret (NULL, vm_fa s) ->
  vmem_handle_pf fuel a s = Halt (Panic "Can't map page") /\ capacity (vm_fa s) <= Z.of_nat (length L) + 3 \/
  exists m' T' L' p, vmem_handle_pf fuel a s = Ret (true, set_vm s m') /\
    space (frames_ok F) (set_vm s m') vm root T' L' P fr U head ns /\ vm_effect s T L m' T' L' /\
    p ∉ L /\ p ∈ L' /\ (forall k, T' !! k <> Some p) /\ (forall b, in_range p PAGE_SIZE b -> rd8 m' b = 0) /\
    maps_to m' T' a (Z.lor (Z.lor (VIRT_TO_PHYS p) PTE_PRESENT)
      (vmem_convert_flags (Z.lor (ld64 (vm_mem s) (find_node (area_has (vm_mem s) a) ns + 32)) VMEM_ALLOC))) /\
    forall va, canonical va -> page_walk m' (VIRT_TO_PHYS root) va =
      if decide (va / PAGE_SIZE = a / PAGE_SIZE) then Some (VIRT_TO_PHYS p + va mod PAGE_SIZE)
      else page_walk (vm_mem s) (VIRT_TO_PHYS root) va.
Proof.
  intros Hsp Hcur Hf Hcan Hfind Hw Hmem. pose proof (sp_good _ _ _ _ _ _ _ _ _ _ Hsp) as Hg.
  rewrite (walk_of_root _ _ _ _ _ Hg) in Hw.
  destruct (handle_pf_ok s vm root T L P fr U head ns Hsp fuel a Hcur Hf Hcan Hfind Hw Hmem)
    as [Hh|(m' & T' & L' & p & H1 & H2 & H3 & H4 & H5 & H6 & H7 & H8 & H9)]; [by left|right].
  exists m', T', L', p. split_and!; try done. intros va Hc. rewrite !(walk_of_root _ _ _ _ _ Hg). by apply H9.
Qed.

Lemma fault_addr_canonical : canonical fault_addr.
Proof.
  split; [split; [apply Z.leb_le|]; reflexivity|]. intros i Hi.
  rewrite !(testbit_small fault_addr 31) by (unfold fault_addr, user_base; lia). reflexivity.
Qed.

Lemma vs2_find m x :
  ld64 m (x + 16) = u64 user_base -> ld64 m (x + 24) = u64 4 -> find_node (area_has m fault_addr) [x] = x.
Proof. intros H1 H2. cbn [find_node]. unfold area_has, area_end. rewrite H1, H2. reflexivity. Qed.

Lemma page_fault_maps_witness :
  exists s', vmem_handle_pf 2 fault_addr vs2 = Ret (true, s') /\
    exists root p, page_walk (vm_mem s') root fault_addr = Some (VIRT_TO_PHYS p + 0x123).
Proof.
  destruct (vs2_space True) as (root & L & P & fr & h & x & Hsp & Hcur & Hw & Hf1 & Hf2).
  destruct (page_fault_maps True vs2 kvm root _ L P fr _ h [x] 2 fault_addr Hsp Hcur ltac:(simpl; lia)
              fault_addr_canonical) as [[H _]|(m' & T' & L' & p & H1 & _ & _ & _ & _ & _ & _ & _ & H2)].
  - rewrite (vs2_find _ x Hf1 Hf2). intros ->.
    pose proof (space_area_ok _ _ _ _ _ _ _ _ _ _ Hsp NULL (list_elem_of_here _ _)) as Hk. discriminate Hk.
  - rewrite (walk_of_root _ _ _ _ _ (sp_good _ _ _ _ _ _ _ _ _ _ Hsp)). apply Hw.
  - exact vs2_frames.
  - pose proof vs2_handled as Hh. rewrite H in Hh. discriminate Hh.
  - exists (set_vm vs2 m'). split; [exact H1|]. exists (VIRT_TO_PHYS root), p.
    etrans; [apply H2, fault_addr_canonical|]. rewrite decide_True by reflexivity. reflexivity.
Defined.

(** The state after the fault: what the next property starts from. *)
Lemma vs2_fault :
  exists s' root T L1 L2 p e, vm_good frames_fine s' root T (L1 ++ p :: L2) /\
    ld64 (vm_mem s') (vm_pml4 kvm) = root /\ maps_to (vm_mem s') T fault_addr e /\
    PHYS_TO_VIRT (PTE_ADDR e) = p /\ (forall k, T !! k <> Some p).
Proof.
  destruct (vs2_space True) as (root & L & P & fr & h & x & Hsp & Hcur & Hw & Hf1 & Hf2).
  pose proof (vs2_find _ x Hf1 Hf2) as Hfind.
  destruct (handle_pf_ok vs2 kvm root _ L P fr _ h [x] Hsp 2 fault_addr Hcur ltac:(simpl; lia) fault_addr_canonical)
    as [[H _]|(m' & T' & L' & p & H1 & H2 & _ & _ & H5 & H6 & _ & H8 & _)].
  - rewrite Hfind. intros ->.
    pose proof (space_area_ok _ _ _ _ _ _ _ _ _ _ Hsp NULL (list_elem_of_here _ _)) as Hk. discriminate Hk.
  - apply Hw.
  - exact vs2_frames.
  - pose proof vs2_handled as Hh. rewrite H in Hh. discriminate Hh.
  - pose proof (sp_good _ _ _ _ _ _ _ _ _ _ H2) as Hg.
    apply list_elem_of_split in H5 as (L1 & L2 & ->).
    exists (set_vm vs2 m'), root, T', L1, L2, p. eexists. split.
    { apply (vm_good_as _ _ _ _ _ _ Hg). assert (E : after_fault = set_vm vs2 m').
      { exact (final_Ret (vmem_handle_pf 2 fault_addr) vs2 true (set_vm vs2 m') H1). }
      pose proof (vg_ok _ _ _ _ Hg) as Hok. rewrite <- E in Hok |- *.
      rewrite <- vs3_frames in Hok |- *. exact (lower_fine (vm_fa vs3) _ Hok vs3_zone vs3_lower). }
    split; [apply (sp_root _ _ _ _ _ _ _ _ _ _ H2)|]. split; [exact H8|]. split; [|exact H6].
    assert (Hin : p ∈ L1 ++ p :: L2) by (apply elem_of_app; right; apply list_elem_of_here).
    apply made_entry_page. exact (fc_frame (ok := frames_ok True) _ _ p (vg_ok _ _ _ _ Hg) Hin).
Qed.

(** [C25] Unmapping a page: while the pairs of buddies in use share no bit of the
    allocator's bitmaps ([frames_fine]), [vmem_unmap_page] returns, the processor no longer
    translates the page, and every other translation and frame is as before.
    Its frame goes back to the allocator exactly when the entry has
    [PTE_USER]; a frame marked [PTE_ALLOC] in a page of the kernel is kept. *)
Theorem unmap_page_clears s root T L1 L2 p vm va e :
  vm_good frames_fine s root T (L1 ++ p :: L2) -> kok (vm_pml4 vm) 8 = true ->
  ld64 (vm_mem s) (vm_pml4 vm) = root -> canonical va ->
  maps_to (vm_mem s) T va e -> PHYS_TO_VIRT (PTE_ADDR e) = p -> (forall k, T !! k <> Some p) ->
  exists m', vmem_unmap_page vm va s = Ret (tt, set_vm s m') /\
    vm_good frames_fine (set_vm s m') root T (if has e PTE_USER then L1 ++ L2 else L1 ++ p :: L2) /\
    agree (fun a => exists q, q ∈ L1 ++ L2 /\ (forall k, T !! k <> Some q) /\ in_range q PAGE_SIZE a) (vm_mem s) m' /\
    forall va', canonical va' -> page_walk m' (VIRT_TO_PHYS root) va' =
      if decide (va' / PAGE_SIZE = va / PAGE_SIZE) then None else page_walk (vm_mem s) (VIRT_TO_PHYS root) va'.
Proof.
  intros Hg Hk Hr Hcan (t & Ht & He) Hp HpT. subst e.
  destruct (unmap_page_ok (ok := frames_fine) s root T L1 L2 p vm va t I Hg Hk Hr Ht Hp HpT)
    as (m' & Hrun & Hg' & _ & Hag & Hw).
  exists m'. split; [done|]. split; [done|]. split; [done|]. intros va' Hc.
  rewrite !(walk_of_root _ _ _ _ _ Hg), Hw.
  destruct (decide (va' / PAGE_SIZE = va / PAGE_SIZE)) as [Hpg|Hpg].
  - by rewrite decide_True by (by apply page_prefix).
  - rewrite decide_False; [done|]. intros E. by apply Hpg, prefix_page.
Qed.

Lemma unmap_page_clears_witness :
  exists s s' root, vmem_unmap_page kvm fault_addr s = Ret (tt, s') /\
    page_walk (vm_mem s') root fault_addr = None.
Proof.
  destruct vs2_fault as (s & root & T & L1 & L2 & p & e & Hg & Hr & Hm & Hp & HpT).
  destruct (unmap_page_clears s root T L1 L2 p kvm fault_addr e Hg) as (m' & Hrun & _ & _ & Hw);
    [reflexivity|exact Hr|exact fault_addr_canonical|exact Hm|exact Hp|exact HpT|].
  exists s, (set_vm s m'), (VIRT_TO_PHYS root). split; [exact Hrun|].
  etrans; [apply Hw, fault_addr_canonical|]. rewrite decide_True by reflexivity. reflexivity.
Defined.
