(* ===== verification/SpaceClaims.v ===== *)
(** * Properties of address spaces: creation, regions, refused faults *)

From S2P Require Import Prelude Mem Common DList Buddy Paging FrameAlloc FrameRefine FrameZones FrameSession FrameInit.
From S2P Require Import FrameExample FrameClient Obj ObjSpec Vmem PageTable VmemSpec VmemMap AddrSpace Demand SpaceInit.
From S2P Require Import Destroy Clone ExampleRun SpaceExample VmemUnmap.

Lemma space_walk {F ok} `{!FrameContract F ok} s vm root T L P fr U head ns va m :
  space ok s vm root T L P fr U head ns -> page_walk m (VIRT_TO_PHYS root) va = walk m 4 root va.
Proof.
  intros Hs. pose proof (sp_good _ _ _ _ _ _ _ _ _ _ Hs) as Hg.
  pose proof (vg_frame _ _ _ _ _ _ Hg (tr_root _ _ _ (vg_tree _ _ _ _ Hg))) as Hf.
  rewrite page_walk_walk. by destruct (frame_at_phys root Hf) as (_ & _ & ->).
Qed.

(** [C26] A new address space is well formed: [vmem_init] answers [-ENOMEM] when
    no frame is left for the top table, dereferences [NULL] when none is left
    for the head of the list of areas, whose allocation it means to test, and
    otherwise leaves a space without areas in which no address is translated,
    made of a frame and an object no one held. *)
Theorem vmem_init_well_formed (F : Prop) s vm P fr U L :
  frames_ok F (vm_fa s) L -> pool_in (frames_ok F) (vm_fa s, vmem_area_alloc s) P fr U L ->
  obj_size (vmem_area_alloc s) = sizeof_vmem_area -> kok vm 16 = true ->
  (forall a, in_range vm 16 a -> ~ fa_bytes (vm_fa s) a) ->
  (exists s', vmem_init vm s = Ret (- ENOMEM, s')) /\ capacity (vm_fa s) <= Z.of_nat (length L) \/
  vmem_init vm s = Halt (Fault NULL) /\ capacity (vm_fa s) <= Z.of_nat (length L) + 1 \/
  exists m' al root head P' fr' L', vmem_init vm s = Ret (0, set_vo s m' al) /\ head ∉ U /\ root ∉ L /\
    space (frames_ok F) (set_vo s m' al) vm root {[(4%nat, 0) := root]} L' P' fr' (head :: U) head [] /\
    forall va, page_walk m' (VIRT_TO_PHYS root) va = None.
Proof.
  intros Hok Hpool Hsz Hvm Hout.
  destruct (vmem_init_ok s vm P fr U L Hok Hpool Hsz Hvm Hout)
    as [H|[H|(m' & al & root & head & P' & fr' & L' & H1 & H2 & H3 & H4 & H5 & _)]]; [by left|by right; left|].
  right; right. exists m', al, root, head, P', fr', L'. split_and!; try done.
  intros va. by rewrite (space_walk _ _ _ _ _ _ _ _ _ _ _ _ H4).
Qed.

Lemma vmem_init_well_formed_witness :
  exists s', vmem_init kvm vs0 = Ret (0, s') /\ exists root, forall va, page_walk (vm_mem s') (VIRT_TO_PHYS root) va = None.
Proof.
  destruct (vmem_init_well_formed True vs0 kvm [] [] [] [] (fa1_frames True) (vs0_pool True) eq_refl eq_refl kvm_outside)
    as [[[s' H] _]|[[H _]|(m' & al & root & head & P' & fr' & L' & H & _ & _ & _ & Hw)]].
  - pose proof vs0_returns as Hr. unfold returns in Hr. rewrite H in Hr. discriminate Hr.
  - pose proof vs0_returns as Hr. unfold returns in Hr. rewrite H in Hr. discriminate Hr.
  - exists (set_vo vs0 m' al). split; [exact H|]. exists root. exact Hw.
Defined.

(** [C27] Regions: [vmem_alloc_pages] panics when an area meets the [pgcnt] bytes
    from the address on; it faults when no memory is left for the area's
    record; otherwise it returns 0 and the address space, still well formed,
    has one area more, the requested one, the others as they were, and
    translates the same addresses. *)
Theorem alloc_pages_adds_region (F : Prop) s vm root T L P fr U head ns fuel virt_addr pgcnt flags :
  space (frames_ok F) s vm root T L P fr U head ns -> aligned PAGE_SIZE virt_addr -> (length ns < fuel)%nat ->
  let meets := existsb (area_meets (vm_mem s) virt_addr (u64 (virt_addr + pgcnt))) ns in
  (meets = true /\ vmem_alloc_pages fuel vm virt_addr pgcnt flags s =
                   Halt (Panic "intersection of virtual regions has occured in vmem")) \/
  (meets = false /\ vmem_alloc_pages fuel vm virt_addr pgcnt flags s = Halt (Fault NULL) /\
   capacity (vm_fa s) <= Z.of_nat (length L)) \/
  meets = false /\
  exists x m' al P' fr' L', vmem_alloc_pages fuel vm virt_addr pgcnt flags s = Ret (0, set_vo s m' al) /\
    x ∉ U /\ space (frames_ok F) (set_vo s m' al) vm root T L' P' fr' (x :: U) head (x :: ns) /\
    ld64 m' (x + 16) = u64 virt_addr /\ ld64 m' (x + 24) = u64 pgcnt /\ ld64 m' (x + 32) = u64 flags /\
    (forall n o, n ∈ ns -> o = 16 \/ o = 24 \/ o = 32 -> ld64 m' (n + o) = ld64 (vm_mem s) (n + o)) /\
    forall va, page_walk m' (VIRT_TO_PHYS root) va = page_walk (vm_mem s) (VIRT_TO_PHYS root) va.
Proof.
  cbv zeta. intros Hs Ha Hf. destruct (existsb _ ns) eqn:Hm; [left|right].
  - split; [done|]. unfold vmem_alloc_pages. rewrite kassert_true by (by apply page_aligned_true).
    kstep (space_intersects _ _ _ _ _ _ _ _ _ _ Hs fuel virt_addr pgcnt Hf). by rewrite Hm.
  - destruct (alloc_pages_ok s vm root T L P fr U head ns Hs fuel virt_addr pgcnt flags Ha Hf Hm)
      as [H|(x & m' & al & P' & fr' & L' & H1 & H2 & H3 & H4 & H5 & H6 & H7 & H8 & _)]; [by left|right].
    split; [done|]. exists x, m', al, P', fr', L'. split_and!; try done.
    + intros n o Hn Ho. apply H7; [|done]. apply (sp_used _ _ _ _ _ _ _ _ _ _ Hs). by apply list_elem_of_further.
    + intros va. by rewrite !(space_walk _ _ _ _ _ _ _ _ _ _ _ _ Hs).
Qed.

Lemma alloc_pages_adds_region_witness :
  exists x s', vmem_alloc_pages 1 kvm user_base 4 3 vs1 = Ret (0, s') /\ ld64 (vm_mem s') (x + 16) = user_base.
Proof.
  destruct (vs1_space True) as (root & L & P & fr & h & Hsp & _).
  assert (Hal : aligned PAGE_SIZE user_base) by (apply Z.mod_divide; [discriminate|reflexivity]).
  destruct (alloc_pages_adds_region True vs1 kvm root _ L P fr [h] h [] 1 user_base 4 3 Hsp Hal ltac:(simpl; lia))
    as [[H _]|[(_ & H & _)|(_ & x & m' & al & P' & fr' & L' & H & _ & _ & H1 & _)]].
  - discriminate H.
  - pose proof vs1_returns as Hr. unfold returns in Hr. rewrite H in Hr. discriminate Hr.
  - exists x, (set_vo vs1 m' al). split; [exact H|]. exact H1.
Defined.

(** A page fault is handled only in an area: where no area of the space in
    use has the address [vmem_handle_pf] returns false and changes nothing,
    and where one has it, it never returns false. *)
Theorem page_fault_refused_iff (F : Prop) s vm root T L P fr U head ns fuel a :
  space (frames_ok F) s vm root T L P fr U head ns -> curr_vmem s = vm -> (length ns < fuel)%nat ->
  if existsb (area_has (vm_mem s) a) ns then forall s', vmem_handle_pf fuel a s <> Ret (false, s')
  else vmem_handle_pf fuel a s = Ret (false, s).
Proof.
  intros Hs Hcur Hf. unfold vmem_handle_pf. rewrite kget_bind, Hcur.
  assert (Hnn : forall n, n ∈ ns -> n <> NULL).
  { intros n Hn ->. pose proof (space_area_ok _ _ _ _ _ _ _ _ _ _ Hs NULL) as Hk.
    discriminate Hk. apply (sp_used _ _ _ _ _ _ _ _ _ _ Hs). by apply list_elem_of_further. }
  rewrite (kbind_Ret _ _ _ _ _ (space_is_mapped _ _ _ _ _ _ _ _ _ _ Hs fuel a Hf)).
  destruct (existsb (area_has (vm_mem s) a) ns) eqn:He.
  - assert (Hn : find_node (area_has (vm_mem s) a) ns <> NULL).
    { intros H. apply existsb_exists in He as (n & Hn & Hp). apply list_elem_of_In in Hn.
      by rewrite (find_node_None _ _ Hnn H n Hn) in Hp. }
    rewrite (proj2 (Z.eqb_neq _ _) Hn). intros s' H.
    apply kbind_inv in H as (v & s1 & _ & H). destruct (VIRT_TO_PHYS v =? 0); [discriminate H|].
    apply kbind_inv in H as (fl & s2 & _ & H). rewrite kget_bind in H.
    apply kbind_inv in H as (st & s3 & _ & H). destruct (st <? 0); discriminate H.
  - assert (Hn : find_node (area_has (vm_mem s) a) ns = NULL).
    { destruct (Z.eq_dec (find_node (area_has (vm_mem s) a) ns) NULL) as [|Hne]; [done|].
      destruct (find_node_Some _ _ Hne) as [H1 H2]. apply not_true_iff_false in He. destruct He.
      apply existsb_exists. eexists. split; [by apply list_elem_of_In|done]. }
    by rewrite Hn.
Qed.

Lemma page_fault_refused_iff_witness : vmem_handle_pf 2 (user_base + 4 * PAGE_SIZE) vs2 = Ret (false, vs2).
Proof.
  destruct (vs2_space True) as (root & L & P & fr & h & x & Hsp & Hcur & _ & Hf1 & Hf2).
  pose proof (page_fault_refused_iff True vs2 kvm root _ L P fr _ h [x] 2 (user_base + 4 * PAGE_SIZE) Hsp Hcur
                ltac:(simpl; lia)) as H.
  assert (E : area_has (vm_mem vs2) (user_base + 4 * PAGE_SIZE) x = false).
  { unfold area_has, area_end. rewrite Hf1, Hf2. reflexivity. }
  cbn [existsb] in H. rewrite E in H. exact H.
Defined.

(** The test for overlaps takes the count of pages for one of bytes: with a
    region of four pages, a region of two pages that begins one page below it
    is accepted, and both then have the page they share. *)
Theorem overlapping_region_accepted :
  returns (vmem_alloc_pages 2 kvm (user_base - PAGE_SIZE) 2 3) vs2 0 = true /\
  let s := final (vmem_alloc_pages 2 kvm (user_base - PAGE_SIZE) 2 3) vs2 in
  match vmem_is_mapped 3 kvm user_base s with
  | Ret (n, _) =>
      negb (n =? NULL) && area_has (vm_mem s) user_base n &&
      match load64 n (vm_mem s) with
      | Ret (next, _) => negb (next =? n) && area_has (vm_mem s) user_base next && (ld64 (vm_mem s) (next + 16) =? user_base)
      | Halt _ => false
      end
  | Halt _ => false
  end = true.
Proof. split; [vm_compute; reflexivity|vm_compute; reflexivity]. Qed.
