(* ===== verification/FaultExample.v ===== *)
(** * An address space with a page

    The space of SpaceExample.v after a page fault in its region, no longer in
    use: its tables and its page are computed and compared with what the
    theorems on page faults say of them. *)

From S2P Require Import Prelude Mem Common DList Buddy Paging FrameAlloc FrameRefine FrameZones FrameSession FrameInit.
From S2P Require Import FrameExample FrameClient Obj ObjSpec Vmem PageTable VmemSpec VmemMap AddrSpace Demand SpaceInit.
From S2P Require Import Destroy Clone CloneSpace ExampleRun SpaceExample VmemUnmap VmemClaims.

(** Following the tables of a tree along an address. *)
Lemma tree_step m root T l t t' va :
  tree m root T -> (1 <= l <= 3)%nat -> T !! (S l, prefix (S l) va) = Some t ->
  child m (S l) t (index (S l) va) = Some t' -> T !! (l, prefix l va) = Some t'.
Proof.
  intros Ht Hl Hk Hc. rewrite prefix_index by lia.
  eapply (tr_child _ _ _ Ht); [lia|exact Hk|apply index_bounds|exact Hc].
Qed.

Lemma space_tables {ok : fa_state -> list Z -> Prop} s vm root T L P fr U head ns va t3 t2 t1 :
  space ok s vm root T L P fr U head ns ->
  child (vm_mem s) 4 root (index 4 va) = Some t3 -> child (vm_mem s) 3 t3 (index 3 va) = Some t2 ->
  child (vm_mem s) 2 t2 (index 2 va) = Some t1 ->
  T !! (3%nat, prefix 3 va) = Some t3 /\ T !! (2%nat, prefix 2 va) = Some t2 /\ T !! (1%nat, prefix 1 va) = Some t1.
Proof.
  intros Hs H3 H2 H1. pose proof (vg_tree _ _ _ _ (sp_good _ _ _ _ _ _ _ _ _ _ Hs)) as Htr.
  assert (E4 : T !! (4%nat, prefix 4 va) = Some root) by (rewrite prefix_top; apply Htr).
  pose proof (tree_step _ _ _ 3 _ _ va Htr ltac:(lia) E4 H3) as E3.
  pose proof (tree_step _ _ _ 2 _ _ va Htr ltac:(lia) E3 H2) as E2.
  by pose proof (tree_step _ _ _ 1 _ _ va Htr ltac:(lia) E2 H1) as E1.
Qed.

Lemma page_or_table (T : tables) (a b c d e q : Z) k1 k2 k3 k4 :
  T !! k1 = Some b -> T !! k2 = Some c -> T !! k3 = Some d -> T !! k4 = Some e ->
  q ∈ [a; b; c; d] ++ [e] -> q = a \/ exists k, T !! k = Some q.
Proof.
  intros H1 H2 H3 H4. cbn [app]. rewrite !elem_of_cons, elem_of_nil.
  intros [->|[->|[->|[->|[->|[]]]]]]; [by left|right; by eexists..].
Qed.

(** The space of [vs3]. *)
Lemma vs3_space :
  exists T L P fr h x, space (frames_ok True) vs3 kvm vs3_root T L P fr [x; h] h [x] /\
    vs3_page ∈ L /\ vs3_page ∉ P /\ forall k, T !! k <> Some vs3_page.
Proof.
  destruct (vs2_space True) as (root & L & P & fr & h & x & Hsp & Hcur & Hw & Hf1 & Hf2).
  destruct (handle_pf_ok vs2 kvm root _ L P fr _ h [x] Hsp 2 fault_addr Hcur ltac:(simpl; lia) fault_addr_canonical)
    as [[H _]|(m' & T' & L' & p & H1 & H2 & _ & H4 & H5 & H6 & _ & H8 & _)].
  - rewrite (vs2_find _ x Hf1 Hf2). intros ->.
    pose proof (space_area_ok _ _ _ _ _ _ _ _ _ _ Hsp NULL (list_elem_of_here _ _)) as Hk. discriminate Hk.
  - apply Hw.
  - exact vs2_frames.
  - pose proof vs2_handled as Hh. rewrite H in Hh. discriminate Hh.
  - assert (E : after_fault = set_vm vs2 m').
    { exact (final_Ret (vmem_handle_pf 2 fault_addr) vs2 true (set_vm vs2 m') H1). }
    assert (Hs3 : space (frames_ok True) vs3 kvm root T' L' P fr [x; h] h [x]).
    { unfold vs3. rewrite E. apply space_switch. exact H2. }
    assert (Hroot : vs3_root = root) by exact (sp_root _ _ _ _ _ _ _ _ _ _ Hs3).
    exists T', L', P, fr, h, x. rewrite Hroot. split; [exact Hs3|].
    enough (vs3_page = p) as ->.
    { split; [exact H5|]. split; [|exact H6]. intros Hp. apply H4. exact (proj2 (proj2 (sp_pool _ _ _ _ _ _ _ _ _ _ Hsp)) p Hp). }
    destruct vs3_children as (C4 & C3 & C2). rewrite Hroot in C4.
    destruct (space_tables _ _ _ _ _ _ _ _ _ _ fault_addr _ _ _ Hs3 C4 C3
      C2) as (_ & _ & Ht1).
    destruct H8 as (t & Ht & He). pose proof (Some_inj _ _ (eq_trans (eq_sym Ht1) Ht)) as Htt. clear Ht.
    assert (Hm : vm_mem vs3 = m') by (unfold vs3; rewrite E; reflexivity).
    unfold vs3_page, vs3_entry. rewrite Hm, Htt, He. apply made_entry_page.
    exact (fc_frame (ok := frames_ok True) _ _ p (vg_ok _ _ _ _ (sp_good _ _ _ _ _ _ _ _ _ _ H2)) H5).
Qed.

(** None of the entries of its tables is large, and the only page marked
    [PTE_ALLOC] is the one of the fault. *)
Lemma marked_is_page p e : marked_is p e = true -> has e PTE_PRESENT = true -> has e PTE_ALLOC = true -> entry_frame_of e = p.
Proof. unfold marked_is. intros H Hp Ha. rewrite Hp, Ha in H. by apply Z.eqb_eq. Qed.

Lemma not_large e l : negb (has e PTE_PAGE_SIZE) = true -> large l e = false.
Proof. intros H%negb_true_iff. destruct l as [|[|[|[|l]]]]; done. Qed.

Section Vs3.
Context (T : tables) (L P fr U : list Z) (h : Z) (ns : list Z).
Hypothesis Hs : space (frames_ok True) vs3 kvm vs3_root T L P fr U h ns.
Hypothesis HpT : forall k, T !! k <> Some vs3_page.

Lemma vs3_table k t : T !! k = Some t -> In t ([vs3_page; vs3_pgtbl; vs3_pgdir; vs3_pdpt] ++ [vs3_root]).
Proof.
  intros Ht. destruct k as [l p]. apply list_elem_of_In. rewrite <- vs3_owned.
  eapply tables_owned; [apply Hs|exact Ht|]. apply elem_of_app. right. apply list_elem_of_here.
Qed.

Lemma vs3_large_aligned : large_aligned (vm_mem vs3) T.
Proof.
  intros l p t i Ht Hi e Hp Hla. pose proof (proj1 (forallb_forall _ _) vs3_no_large t (vs3_table _ _ Ht)) as Hall.
  pose proof (proj1 (forallb_forall _ _) Hall i ltac:(apply list_elem_of_In, elem_of_seqZ; lia)) as He.
  pose proof (not_large _ (S l) He) as Hn. unfold e in Hla. rewrite Hla in Hn. discriminate Hn.
Qed.

Lemma other_level k k' t t' : T !! k = Some t -> T !! k' = Some t' -> k <> k' -> t <> t'.
Proof.
  intros Ht Ht' Hne ->. apply Hne. eapply (tr_inj _ _ _ (vg_tree _ _ _ _ (sp_good _ _ _ _ _ _ _ _ _ _ Hs))); [exact Ht|exact Ht'].
Qed.

Lemma vs3_leaf_table p t : T !! (1%nat, p) = Some t -> t = vs3_pgtbl.
Proof.
  intros Ht. destruct vs3_children as (C4 & C3 & C2).
  destruct (space_tables _ _ _ _ _ _ _ _ _ _ fault_addr _ _ _ Hs C4 C3
    C2) as (T3 & T2 & _).
  pose proof (tr_root _ _ _ (vg_tree _ _ _ _ (sp_good _ _ _ _ _ _ _ _ _ _ Hs))) as T4.
  pose proof (other_level _ _ _ _ Ht T2 ltac:(discriminate)) as N2.
  pose proof (other_level _ _ _ _ Ht T3 ltac:(discriminate)) as N3.
  pose proof (other_level _ _ _ _ Ht T4 ltac:(discriminate)) as N4.
  assert (N1 : t <> vs3_page) by (intros E; apply (HpT (1%nat, p)); rewrite <- E; exact Ht).
  pose proof (vs3_table _ _ Ht) as Hin. revert Hin N1 N2 N3 N4.
  generalize vs3_page, vs3_pgtbl, vs3_pgdir, vs3_pdpt, vs3_root. clear. intros a b c d e Hin N1 N2 N3 N4.
  destruct Hin as [<-|[<-|[<-|[<-|[<-|[]]]]]]; congruence.
Qed.

(** The frames of the tables and of the page. *)
Lemma vs3_owned_held : vs3_page ∈ L -> vs3_page ∉ P ->
  let G := owned (vm_mem vs3) 4 vs3_root ++ [vs3_root] in G ⊆+ L /\ forall p, p ∈ P -> p ∉ G.
Proof.
  intros HpL HpP G. destruct vs3_children as (C4 & C3 & C2).
  destruct (space_tables _ _ _ _ _ _ _ _ _ _ fault_addr _ _ _ Hs C4 C3 C2) as (T3 & T2 & T1).
  pose proof (tr_root _ _ _ (vg_tree _ _ _ _ (sp_good _ _ _ _ _ _ _ _ _ _ Hs))) as T4.
  assert (HG : forall q, q ∈ G -> q = vs3_page \/ exists k, T !! k = Some q).
  { unfold G. rewrite vs3_owned. intros q Hq. exact (page_or_table T _ _ _ _ _ q _ _ _ _ T1 T2 T3 T4 Hq). }
  split.
  - apply NoDup_submseteq; [unfold G; rewrite vs3_owned; exact vs3_distinct|]. intros q Hq. destruct (HG q Hq) as [->|[k Hk]]; [exact HpL|].
    exact (vg_held _ _ _ _ (sp_good _ _ _ _ _ _ _ _ _ _ Hs) k q Hk).
  - intros q Hq Hin. destruct (HG q Hin) as [->|[k Hk]]; [by apply HpP|].
    exact (sp_pages _ _ _ _ _ _ _ _ _ _ Hs q k Hq Hk).
Qed.

Lemma vs3_pages_held : vs3_page ∈ L -> vs3_page ∉ P -> pages_held (vm_mem vs3) T L P.
Proof.
  intros HpL HpP p t i Ht Hi e Hp Ha. unfold e in *. clear e. rewrite (vs3_leaf_table p t Ht) in *.
  pose proof (proj1 (forallb_forall _ _) vs3_marked_page i ltac:(apply list_elem_of_In, elem_of_seqZ; lia)) as He.
  rewrite (marked_is_page _ _ He Hp Ha). split; [exact HpL|exact HpP].
Qed.
End Vs3.

Lemma vs3_outside a : KERNEL_SECTIONS_START - PAGE_SIZE <= a -> ~ fa_bytes (vm_fa vs3) a.
Proof. unfold fa_bytes. rewrite vs3_zones. apply sections_outside. Qed.
