(* ===== verification/LifeClaims.v ===== *)
(** * Properties of the life of an address space: cloning and destruction *)

From S2P Require Import Prelude Mem Common DList Buddy Paging FrameAlloc FrameRefine FrameZones FrameSession FrameInit.
From S2P Require Import FrameExample FrameClient Obj ObjSpec Vmem PageTable VmemSpec VmemMap AddrSpace Demand SpaceInit.
From S2P Require Import Destroy Clone CloneSpace ExampleRun SpaceExample VmemUnmap VmemClaims FaultExample.

(** [C10] Cloning an address space: when the pages marked [PTE_ALLOC] are frames in
    use and large pages lie on frames of their size, [vmem_clone] answers
    [-ENOMEM], or faults when no memory is left for an area's record, or returns
    0 and there is a second well-formed address space, with tables and area
    records of its own, beside the first, which translates as before. The new
    one has the same areas, in the opposite order, and the same translations
    ([cloned]): nothing where the source has nothing; the same physical address
    for pages not marked [PTE_ALLOC] and for large pages; and for each page
    marked so a frame that was not in use before, with the same bytes, and not
    the frame of another page. *)
Theorem clone_isolates (F : Prop) s src root T L P fr U head ns dst fuel :
  space (frames_ok F) s src root T L P fr U head ns -> (length ns < fuel)%nat -> kok dst 16 = true ->
  (forall a, in_range dst 16 a -> ~ fa_bytes (vm_fa s) a /\ ~ in_range src 16 a) ->
  pages_held (vm_mem s) T L P -> large_aligned (vm_mem s) T ->
  (exists s', vmem_clone fuel dst src s = Ret (- ENOMEM, s')) \/ vmem_clone fuel dst src s = Halt (Fault NULL) \/
  exists m' al rd hd nd T' L' P' fr' U', vmem_clone fuel dst src s = Ret (0, set_vo s m' al) /\
    space (frames_ok F) (set_vo s m' al) src root T L' P' fr' U' head ns /\
    space (frames_ok F) (set_vo s m' al) dst rd T' L' P' fr' U' hd nd /\
    (forall n, n ∈ head :: ns -> n ∉ hd :: nd) /\
    map (area_at m') nd = rev (map (area_at (vm_mem s)) ns) /\
    (forall n, n ∈ ns -> area_at m' n = area_at (vm_mem s) n) /\
    (forall va, page_walk m' (VIRT_TO_PHYS root) va = page_walk (vm_mem s) (VIRT_TO_PHYS root) va) /\
    (forall va, cloned s rd root m' T' L' L va) /\ copies_differ s rd root m' (fun _ => True).
Proof.
  intros Hs Hf Hk Hd Hp Hl.
  destruct (clone_ok s src root T L P fr U head ns Hs dst Hk (fun a Ha => proj1 (Hd a Ha)) (fun a Ha => proj2 (Hd a Ha))
    Hp Hl fuel Hf) as [H|[H|(m' & al & rd & hd & nd & T' & L' & P' & fr' & U' & H1 & H2 & H3 & H4 & H5 & H6 & H7 & H8 & H9 & _)]];
    [by left|by right; left|right; right].
  exists m', al, rd, hd, nd, T', L', P', fr', U'. split_and!; try done; try apply H8.
  intros va. rewrite !(walk_of_root _ _ _ _ _ (sp_good _ _ _ _ _ _ _ _ _ _ Hs)). apply H7.
Qed.

Lemma clone_isolates_witness :
  exists s' rd q, vmem_clone 2 kvm2 kvm vs3 = Ret (0, s') /\ q <> vs3_page /\
    walk (vm_mem s') 4 rd fault_addr = Some (VIRT_TO_PHYS q + fault_addr mod PAGE_SIZE).
Proof.
  destruct vs3_space as (T & L & P & fr & h & x & Hs & HpL & HpP & HpT).
  destruct (clone_isolates True vs3 kvm vs3_root T L P fr [x; h] h [x] kvm2 2 Hs) as
    [[s' H]|[H|(m' & al & rd & hd & nd & T' & L' & P' & fr' & U' & H1 & _ & _ & _ & _ & _ & _ & H2 & _)]].
  - apply Nat.lt_succ_diag_r.
  - reflexivity.
  - intros a Ha. split.
    + apply vs3_outside. unfold in_range, kvm2, kvm, PAGE_SIZE in *. lia.
    + unfold in_range, kvm2 in *. lia.
  - exact (vs3_pages_held T L P fr _ h _ Hs HpT HpL HpP).
  - exact (vs3_large_aligned T L P fr _ h _ Hs).
  - pose proof vs3_cloned as Hr. unfold returns in Hr. rewrite H in Hr. discriminate Hr.
  - pose proof vs3_cloned as Hr. unfold returns in Hr. rewrite H in Hr. discriminate Hr.
  - specialize (H2 fault_addr). unfold cloned in H2. rewrite vs3_walk in H2. rewrite vs3_marked in H2.
    destruct H2 as (q & _ & Hq & _ & Hw & _). exists (set_vo vs3 m' al), rd, q. split; [exact H1|]. split; [|exact Hw].
    intros E. apply Hq. rewrite E. exact HpL.
Defined.

(** [C12] Destroying an address space that is not in use, while the pairs of
    buddies in use share no bit of the allocator's bitmaps ([frames_fine]): when the frames of
    the pages marked [PTE_ALLOC] are held, distinct, and neither tables nor
    pages of the pool, [vmem_destroy] returns and gives back exactly these
    frames and every table, each once; every other frame in use and all memory
    outside the allocator's is as before, except the area objects. Of these
    only the head of the list can be had again: it is the only free object
    afterwards, and the objects of the areas are lost. *)
Theorem destroy_returns_frames s vm root T L P fr U head ns fuel :
  space frames_fine s vm root T L P fr U head ns -> curr_vmem s <> vm -> (length ns < fuel)%nat ->
  let G := owned (vm_mem s) 4 root ++ [root] in
  G ⊆+ L -> (forall p, p ∈ P -> p ∉ G) ->
  (forall k t, T !! k = Some t -> t ∈ G) /\
  exists m' L' U', let al' := ObjAlloc head sizeof_vmem_area in
    vmem_destroy fuel vm s = Ret (tt, set_vo s m' al') /\ G ++ L' ≡ₚ L /\
    pool_in frames_fine (set_mem (vm_fa s) m', al') P [head] U' L' /\ U ≡ₚ head :: ns ++ U' /\
    agree (fun a => (frame_byte L' a \/ ~ fa_bytes (vm_fa s) a) /\ ~ object_byte U a) (vm_mem s) m'.
Proof.
  intros Hs Hcur Hf G HG HP. split.
  - intros [l q] t Ht. eapply tables_owned; [apply Hs|exact Ht|]. apply elem_of_app. right. apply list_elem_of_here.
  - by apply (destroy_ok (ok := frames_fine) I s vm root T L P fr U head ns fuel).
Qed.

Lemma destroy_returns_frames_witness :
  exists m' L L' al, vmem_destroy 2 kvm vs3 = Ret (tt, set_vo vs3 m' al) /\
    [vs3_page; vs3_pgtbl; vs3_pgdir; vs3_pdpt; vs3_root] ++ L' ≡ₚ L.
Proof.
  destruct vs3_space as (T & L & P & fr & h & x & Hs & HpL & HpP & HpT).
  destruct (vs3_owned_held T L P fr _ h _ Hs HpL HpP) as [G1 G2].
  assert (Hs' : space frames_fine vs3 kvm vs3_root T L P fr [x; h] h [x]).
  { exact (space_as _ _ _ _ _ _ _ _ _ _ _ _ Hs (lower_fine _ _ (vg_ok _ _ _ _ (sp_good _ _ _ _ _ _ _ _ _ _ Hs)) vs3_zone vs3_lower)). }
  destruct (destroy_returns_frames vs3 kvm vs3_root T L P fr [x; h] h [x] 2 Hs') as (_ & m' & L' & U' & Hrun & HL & _).
  - discriminate.
  - apply Nat.lt_succ_diag_r.
  - exact G1.
  - exact G2.
  - rewrite vs3_owned in HL. exists m', L, L', (ObjAlloc h sizeof_vmem_area). split; [exact Hrun|exact HL].
Defined.
