(* ===== verification/Kst.v ===== *)
(** * The state of the kernel, and control that changes hands

    The components share one memory: [kst] is the state of mm/vmem.c, which
    holds it, with the console and the static variables of sched/sched.c and
    arch/x86. A handler that calls the scheduler is suspended in the middle: a
    [resum] is either a result or a switch of contexts with the rest of the
    handler, run when its context is switched back to. *)

From S2P Require Import Prelude Mem Common DList Buddy Paging FrameAlloc Obj Vmem Multiboot Fb Console Printk.

Record kst := Kst {
  k_vm : vm_state;
  k_con : con;            (* its memory is not used: that of [k_vm] is *)
  k_junk : buffer;        (* what an uninitialised buffer holds *)
  tasks : Z;              (* the address of the task table *)
  sched_timer : Z;
  _current : Z;
  sched_context : Z;      (* the address of the scheduler's arch_thread_t *)
  sched_vmem : Z;         (* the address of the scheduler's vmem_t *)
  tss_rsp0 : Z;
  lapic_ptr : Z;          (* the local APIC's registers, in memory *)
}.

Definition kmem (s : kst) : mem := vm_mem (k_vm s).

Definition in_vm {A} : K vm_state A -> K kst A :=
  klift k_vm (fun v s => Kst v (k_con s) (k_junk s) (tasks s) (sched_timer s) (_current s)
                             (sched_context s) (sched_vmem s) (tss_rsp0 s) (lapic_ptr s)).

Definition con_with (m : mem) (c : con) : con :=
  Con m (con_fb c) (cons_initialized c) (cons_width c) (cons_height c) (cons_curr_row c) (cons_curr_col c).

Definition vm_with (m : mem) (v : vm_state) : vm_state :=
  VmState (FaState m (allocator_zones (vm_fa v)) (allocator_zones_addr (vm_fa v)))
          (vmem_area_alloc v) (curr_vmem v) (cr3 v).

(** Console output: memory goes to the console and back. *)
Definition in_console {A} (m : K con A) : K kst A :=
  klift (fun s => con_with (kmem s) (k_con s))
        (fun c s => Kst (vm_with (con_mem c) (k_vm s)) c (k_junk s) (tasks s) (sched_timer s) (_current s)
                        (sched_context s) (sched_vmem s) (tss_rsp0 s) (lapic_ptr s)) m.

Definition kprintk (fmt : string) (args : list arg) : K kst unit :=
  (let! s := kget in in_console (printk (k_junk s) (chars fmt) args))%K.

(** Loads and stores of the kernel's variables, at their widths. *)
Definition kload (n : nat) (a : Z) : K kst Z := in_vm (in_kmem (load n a)).
Definition kstore (n : nat) (a v : Z) : K kst unit := in_vm (in_kmem (store n a v)).

Definition set_sched_timer (v : Z) : K kst unit :=
  fun s => Ret (tt, Kst (k_vm s) (k_con s) (k_junk s) (tasks s) v (_current s)
                        (sched_context s) (sched_vmem s) (tss_rsp0 s) (lapic_ptr s)).
Definition set_current (v : Z) : K kst unit :=
  fun s => Ret (tt, Kst (k_vm s) (k_con s) (k_junk s) (tasks s) (sched_timer s) v
                        (sched_context s) (sched_vmem s) (tss_rsp0 s) (lapic_ptr s)).
Definition set_tss_rsp0 (v : Z) : K kst unit :=
  fun s => Ret (tt, Kst (k_vm s) (k_con s) (k_junk s) (tasks s) (sched_timer s) (_current s)
                        (sched_context s) (sched_vmem s) v (lapic_ptr s)).

(** Addresses the linker gives. *)
Record symbols := Symbols {
  _phys_start_hh : Z;
  _phys_end_kernel_sections : Z;
  _phys_start_user : Z;
  user_program : Z;
  pop_and_iret : Z;
}.

(** ** Suspended computations *)

(** [Switch prev next k]: the context at [prev] is left for the one at [next];
    [k] is what follows when [prev] is switched back to. *)
Inductive resum (A : Type) : Type :=
  | Done (a : A)
  | Switch (prev next : Z) (k : kst -> res (resum A * kst)).
Arguments Done {A} _.
Arguments Switch {A} _ _ _.

(** A kernel computation that may switch contexts. *)
Definition R (A : Type) : Type := K kst (resum A).

Definition rret {A} (a : A) : R A := kret (Done a).

Fixpoint rcont {A B} (f : A -> R B) (r : resum A) : R B :=
  match r with
  | Done a => f a
  | Switch prev next k =>
      fun s => Ret (Switch prev next (fun s =>
                      match k s with
                      | Ret (r, s) => rcont f r s
                      | Halt h => Halt h
                      end), s)
  end.

Definition rbind {A B} (m : R A) (f : A -> R B) : R B := kbind m (rcont f).

(** A computation that does not switch. *)
Definition rlift {A} (m : K kst A) : R A := kbind m rret.

Notation "'let*' x ':=' m 'in' k" := (rbind m (fun x => k))
  (at level 10, x pattern, m at level 100, k at level 200,
   format "'let*'  x  ':='  m  'in' '//' k") : k_scope.

Lemma rbind_rlift {A B} (m : K kst A) (f : A -> R B) s :
  rbind (rlift m) f s = kbind m f s.
Proof. unfold rbind, rlift, kbind, rret, kret. by destruct (m s) as [[a s']|]. Qed.

Lemma rbind_ret {A B} (m : R A) (f : A -> R B) s a s' :
  m s = Ret (Done a, s') -> rbind m f s = f a s'.
Proof. intros H. unfold rbind, kbind. by rewrite H. Qed.
