(* ===== verification/Arch.v ===== *)
(** * arch/x86: segments, model-specific registers, threads

    The descriptors of the GDT and the values of the system-call registers are
    computed as in x86.c; the kernel stacks of threads are written in memory.
    The registers a context switch saves on the stack are not modelled: who
    runs next is, through [resum]. *)

From S2P Require Import Prelude Mem Common DList Buddy Paging FrameAlloc Obj Vmem Multiboot Fb Console Printk Kst.

(** ** gdt.h *)

Definition GDT_PRESENT : Z := Z.shiftl 1 15.
Definition GDT_SYSTEM : Z := Z.shiftl 1 12.
Definition GDT_GRANULARITY : Z := Z.shiftl 1 23.
Definition GDT_LONG : Z := Z.shiftl 1 21.
Definition GDT_READ : Z := Z.shiftl 1 9.
Definition GDT_DPL_RING3 : Z := Z.shiftl 3 13.
Definition GDT_CODE_SEG : Z := Z.shiftl 1 11.

Definition KERNEL_CODE_SEG : Z := 1.
Definition KERNEL_DATA_SEG : Z := 2.
Definition USER_DATA_SEG : Z := 3.
Definition USER_CODE_SEG : Z := 4.
Definition TSS_SEG : Z := 5.
Definition RPL_RING3 : Z := 3.
Definition RPL_RING0 : Z := 0.

Definition GDT_SEGMENT_SELECTOR (idx rpl : Z) : Z := Z.lor (Z.shiftl idx 3) rpl.

(** ** The descriptor table *)

Record x86_gdt_descriptor := GdtDescriptor { dw0 : Z; dw1 : Z }.

Definition GDT_DESCRIPTOR (base limit flags : Z) : x86_gdt_descriptor :=
  GdtDescriptor
    (u32 (Z.lor (Z.shiftl (Z.land base 0xFFFF) 16) (Z.land limit 0xFFFF)))
    (u32 (Z.lor (Z.lor (Z.lor (Z.lor (Z.land (Z.shiftr base 16) 0xFF) flags) GDT_PRESENT)
                       (Z.shiftl (Z.land (Z.shiftr limit 16) 0xF) 16))
                (Z.shiftl (Z.land (Z.shiftr base 24) 0xFF) 24))).

Definition GDT_DESCRIPTOR_64 (flags : Z) : x86_gdt_descriptor := GDT_DESCRIPTOR 0 0xFFFFF flags.

(** The upper half of a TSS descriptor. *)
Definition TSS_DESCRIPTOR_HIGH (base : Z) : x86_gdt_descriptor :=
  GdtDescriptor (u32 (Z.land (Z.shiftr base 32) 0xFFFFFFFF)) 0.

Definition sizeof_tss : Z := 104.

(** The descriptors of [gdt_init], from index 1 on. *)
Definition gdt_init (tss : Z) : list x86_gdt_descriptor :=
  [ GDT_DESCRIPTOR_64 (Z.lor (Z.lor (Z.lor (Z.lor GDT_GRANULARITY GDT_LONG) GDT_SYSTEM) GDT_CODE_SEG) GDT_READ);
    GDT_DESCRIPTOR_64 (Z.lor (Z.lor GDT_GRANULARITY GDT_SYSTEM) GDT_READ);
    GDT_DESCRIPTOR_64 (Z.lor (Z.lor (Z.lor GDT_GRANULARITY GDT_SYSTEM) GDT_DPL_RING3) GDT_READ);
    GDT_DESCRIPTOR_64 (Z.lor (Z.lor (Z.lor (Z.lor (Z.lor GDT_GRANULARITY GDT_LONG) GDT_SYSTEM)
                                           GDT_DPL_RING3) GDT_CODE_SEG) GDT_READ);
    GDT_DESCRIPTOR tss sizeof_tss
      (Z.lor (Z.lor (Z.lor GDT_GRANULARITY (Z.shiftl 1 20)) (Z.shiftl 9 8)) GDT_PRESENT);
    TSS_DESCRIPTOR_HIGH tss ].

(** ** System-call registers *)

Definition IA32_EFER : Z := 0xc0000080.
Definition IA32_EFER_SCE : Z := Z.shiftl 1 0.
Definition IA32_STAR : Z := 0xc0000081.
Definition IA32_LSTAR : Z := 0xc0000082.
Definition IA32_FMASK : Z := 0xc0000084.
Definition RFLAGS_IF : Z := Z.shiftl 1 9.

(** The model-specific registers, by number. *)
Abbreviation msrs := (gmap Z Z).
Definition x86_rdmsr (msr : Z) (r : msrs) : Z := default 0 (r !! msr).
Definition x86_wrmsr (msr x : Z) (r : msrs) : msrs := <[msr := u64 x]> r.

Definition star_value : Z :=
  let star := u64 (Z.shiftl (GDT_SEGMENT_SELECTOR KERNEL_CODE_SEG RPL_RING0) 32) in
  Z.lor star (u64 (Z.shiftl (GDT_SEGMENT_SELECTOR (USER_DATA_SEG - 1) RPL_RING3) 48)).

Definition syscall_init (syscall_entry : Z) (r : msrs) : msrs :=
  let efer := x86_rdmsr IA32_EFER r in
  let r := x86_wrmsr IA32_EFER (Z.lor efer IA32_EFER_SCE) r in
  let r := x86_wrmsr IA32_LSTAR syscall_entry r in
  let r := x86_wrmsr IA32_FMASK RFLAGS_IF r in
  x86_wrmsr IA32_STAR star_value r.

(** ** The early mapping *)

Definition unmap_early (early_pml4 : Z) : K mem unit :=
  (let pml4_virt := PHYS_TO_VIRT early_pml4 in
   let! e := load64 pml4_virt in
   let pdpd_virt := PHYS_TO_VIRT (Z.land e (Z.lnot 0xFFF)) in
   store64 pdpd_virt 0)%K.

(** ** Threads *)

(** arch_regs_t and on_stack_context_t, by their packed offsets. *)
Definition sizeof_arch_regs : Z := 176.
Definition regs_rsi (regs : Z) : Z := u64 (regs + 80).
Definition regs_rdi (regs : Z) : Z := u64 (regs + 72).
Definition regs_rax (regs : Z) : Z := u64 (regs + 112).
Definition regs_irq_num (regs : Z) : Z := u64 (regs + 120).
Definition regs_rip (regs : Z) : Z := u64 (regs + 136).
Definition regs_cs (regs : Z) : Z := u64 (regs + 144).
Definition regs_rflags (regs : Z) : Z := u64 (regs + 152).
Definition regs_rsp (regs : Z) : Z := u64 (regs + 160).
Definition regs_ss (regs : Z) : Z := u64 (regs + 168).
Definition sizeof_on_stack_context : Z := 56.
Definition ctx_ret_addr (ctx : Z) : Z := u64 (ctx + 48).

(** arch_thread_t. *)
Definition th_kstack_top (th : Z) : Z := th.
Definition th_context_rsp (th : Z) : Z := u64 (th + 8).

Definition allocate_kstack (th : Z) : K kst Z :=
  (let! page := in_vm (in_fa frame_alloc) in
   kstore 8 (th_kstack_top th) page ;;
   let! top := kload 8 (th_kstack_top th) in
   if top =? NULL then kret (- ENOMEM)
   else
     in_vm (in_kmem (memset top 0 PAGE_SIZE)) ;;
     kstore 8 (th_kstack_top th) (u64 (top + PAGE_SIZE)) ;;
     kret 0)%K.

(** The error code, and the registers' address when it is 0. *)
Definition arch_thread_new (sym : symbols) (th : Z) : K kst (Z * Z) :=
  (let! err := allocate_kstack th in
   if err <? 0 then kret (err, NULL)
   else
     let! kstack_top := kload 8 (th_kstack_top th) in
     let regs := u64 (kstack_top - sizeof_arch_regs) in
     kstore 8 (regs_rsp regs) (0x70000000 + 4 * PAGE_SIZE) ;;
     kstore 2 (regs_ss regs) (GDT_SEGMENT_SELECTOR USER_DATA_SEG RPL_RING3) ;;
     kstore 8 (regs_rip regs) (user_program sym) ;;
     kstore 2 (regs_cs regs) (GDT_SEGMENT_SELECTOR USER_CODE_SEG RPL_RING3) ;;
     kstore 8 (regs_rflags regs) RFLAGS_IF ;;
     let onstack_ctx := u64 (regs - sizeof_on_stack_context) in
     kstore 8 (ctx_ret_addr onstack_ctx) (pop_and_iret sym) ;;
     kstore 8 (th_context_rsp th) onstack_ctx ;;
     kret (0, regs))%K.

(** [src] is the current task's thread, its structure's first member. *)
Definition arch_thread_clone_current (sym : symbols) (dst : Z) : K kst (Z * Z) :=
  (let! s := kget in
   kassert (negb (_current s =? NULL)) "sched_current() != NULL" ;;
   let src := _current s in
   let! err := allocate_kstack dst in
   if err <? 0 then kret (err, NULL)
   else
     let! dst_top := kload 8 (th_kstack_top dst) in
     kstore 8 (th_context_rsp dst) (u64 (dst_top - sizeof_arch_regs)) ;;
     let! rsp := kload 8 (th_context_rsp dst) in
     let! src_top := kload 8 (th_kstack_top src) in
     in_vm (in_kmem (memcpy rsp (u64 (src_top - sizeof_arch_regs)) sizeof_arch_regs)) ;;
     let! regs := kload 8 (th_context_rsp dst) in
     kstore 8 (th_context_rsp dst) (u64 (regs - sizeof_on_stack_context)) ;;
     let! ctx := kload 8 (th_context_rsp dst) in
     kstore 8 (ctx_ret_addr ctx) (pop_and_iret sym) ;;
     kret (0, regs))%K.

Definition arch_thread_destroy (th : Z) : K kst unit :=
  (let! top := kload 8 (th_kstack_top th) in
   in_vm (in_fa (frame_free (u64 (top - PAGE_SIZE)))))%K.

(** The stack of the next task, then the switch. *)
Definition arch_thread_switch (prev next : Z) : R unit :=
  (let! top := kload 8 (th_kstack_top next) in
   set_tss_rsp0 top ;;
   kret (Switch prev next (rret tt)))%K.
