(* ===== verification/Sched.v ===== *)
(** * sched/sched.c: the tasks and the scheduler

    The task table is an array in kernel memory; a task is its address. The
    scheduler and the tasks hand control to one another with
    [arch_thread_switch], so the functions that switch are of type [R]. The
    scheduler's endless loop is a loop with fuel over passes of the table. *)

From S2P Require Import Prelude Mem Common DList Buddy Paging FrameAlloc Obj Vmem Multiboot Fb Console Printk Kst Arch.

Definition SCHED_TIMER_PERIOD : Z := 10.
Definition MAX_TASK_COUNT : Z := Z.shiftl 1 16.
Definition PREEMPT_TICKS : Z := 10.

(** state_t. *)
Definition TASK_NOT_ALLOCATED : Z := 0.
Definition TASK_RUNNABLE : Z := 1.
Definition TASK_WAITING : Z := 2.
Definition TASK_ZOMBIE : Z := 3.
Definition TASK_SLEEPING : Z := 4.

(** task_t: the offsets of its members; [state] and [exitcode] are ints. *)
Definition sizeof_task : Z := 96.
Definition task_arch_thread (t : Z) : Z := t.
Definition task_pid (t : Z) : Z := u64 (t + 16).
Definition task_ppid (t : Z) : Z := u64 (t + 24).
Definition task_wait_pid (t : Z) : Z := u64 (t + 32).
Definition task_state (t : Z) : Z := u64 (t + 40).
Definition task_preempt_deadline (t : Z) : Z := u64 (t + 56).
Definition task_sleep_until (t : Z) : Z := u64 (t + 64).
Definition task_vmem (t : Z) : Z := u64 (t + 72).
Definition task_exitcode (t : Z) : Z := u64 (t + 88).

(** &tasks[i]. *)
Definition task_at (s : kst) (i : Z) : Z := u64 (tasks s + sizeof_task * i).

Definition get_state (t : Z) : K kst Z := kload 4 (task_state t).
Definition set_state (t v : Z) : K kst unit := kstore 4 (task_state t) v.

(** while (tasks[curr_pid].state != TASK_NOT_ALLOCATED && curr_pid < MAX_TASK_COUNT). *)
Fixpoint allocate_loop (fuel : nat) (curr_pid : Z) : K kst Z :=
  match fuel with
  | O => khalt NoFuel
  | S fuel =>
      (let! s := kget in
       let! state := get_state (task_at s curr_pid) in
       if negb (state =? TASK_NOT_ALLOCATED) && (curr_pid <? MAX_TASK_COUNT)
       then allocate_loop fuel (curr_pid + 1)
       else kret curr_pid)%K
  end.

Definition sched_allocate_task : K kst Z :=
  (let! curr_pid := allocate_loop (Z.to_nat MAX_TASK_COUNT) 1 in
   if curr_pid =? MAX_TASK_COUNT then kret NULL
   else
     let! s := kget in
     kstore 8 (task_pid (task_at s curr_pid)) curr_pid ;;
     kret (task_at s curr_pid))%K.

(** ** The first task *)

(** for (i = 0; i < KERNEL_DIRECT_PHYS_MAPPING_SIZE / GB; i++), [n] left. *)
Fixpoint map_direct_loop (vm virt_addr phys_addr : Z) (n : nat) : K vm_state Z :=
  match n with
  | O => kret 0
  | S n =>
      (let! err := vmem_map_page_1gb vm virt_addr phys_addr VMEM_WRITE in
       if err <? 0 then kret err
       else map_direct_loop vm (u64 (virt_addr + GB)) (u64 (phys_addr + GB)) n)%K
  end.

Fixpoint map_sections_loop (fuel : nat) (vm virt_addr_curr phys_addr_curr phys_addr_end : Z) : K vm_state Z :=
  match fuel with
  | O => khalt NoFuel
  | S fuel =>
      if phys_addr_curr <? phys_addr_end then
        (let! err := vmem_map_page_2mb vm virt_addr_curr phys_addr_curr VMEM_WRITE in
         if err <? 0 then kret err
         else map_sections_loop fuel vm (u64 (virt_addr_curr + 2 * MB)) (u64 (phys_addr_curr + 2 * MB))
                                phys_addr_end)%K
      else kret 0
  end.

Definition setup_vmem (fuel : nat) (sym : symbols) (vm : Z) : K vm_state Z :=
  (let! err := map_direct_loop vm KERNEL_DIRECT_PHYS_MAPPING_START 0
                 (Z.to_nat (KERNEL_DIRECT_PHYS_MAPPING_SIZE / GB)) in
   if err <? 0 then kret err
   else
     let! err := map_sections_loop fuel vm KERNEL_SECTIONS_START (_phys_start_hh sym)
                   (_phys_end_kernel_sections sym) in
     if err <? 0 then kret err
     else
       let! err := vmem_map_page vm 0x10000 (_phys_start_user sym) VMEM_USER in
       if err <? 0 then kret err else kret 0)%K.

Definition setup_init_task (fuel : nat) (sym : symbols) : K kst Z :=
  (let! new_task := sched_allocate_task in
   if new_task =? NULL then kret (- ENOMEM)
   else
     let! err := in_vm (vmem_init (task_vmem new_task)) in
     if err <? 0 then kret err
     else
       let! err := in_vm (setup_vmem fuel sym (task_vmem new_task)) in
       if err <? 0 then kret err
       else
         let! err := in_vm (vmem_alloc_pages fuel (task_vmem new_task) 0x70000000 4
                              (Z.lor VMEM_USER VMEM_WRITE)) in
         if err <? 0 then kret err
         else
           set_state new_task TASK_RUNNABLE ;;
           let! (err, _) := arch_thread_new sym (task_arch_thread new_task) in
           if err <? 0 then kret err else kret 0)%K.

(** ** Switching *)

Definition sched_switch_to (next : Z) : R unit :=
  (set_current next ;;
   let! s := kget in
   kstore 8 (task_preempt_deadline next) (u64 (sched_timer s + PREEMPT_TICKS)) ;;
   in_vm (vmem_switch_to (task_vmem next)) ;;
   arch_thread_switch (sched_context s) (task_arch_thread next))%K.

Definition sched_switch : R unit :=
  (let! s := kget in
   kassert (negb (_current s =? NULL)) "_current != NULL" ;;
   let prev := _current s in
   set_current NULL ;;
   arch_thread_switch (task_arch_thread prev) (sched_context s))%K.

Definition sched_timer_tick : R unit :=
  (let! s := kget in
   set_sched_timer (u64 (sched_timer s + 1)) ;;
   let! s := kget in
   if _current s =? NULL then rret tt
   else
     let! deadline := kload 8 (task_preempt_deadline (_current s)) in
     if sched_timer s <=? deadline then sched_switch else rret tt)%K.

(** ** The scheduler's loop *)

(** The dying task's memory goes back. *)
Definition reap (fuel : nat) (t : Z) : K kst unit :=
  (let! s := kget in
   in_vm (vmem_switch_to (sched_vmem s)) ;;
   in_vm (vmem_destroy fuel (task_vmem t)) ;;
   arch_thread_destroy (task_arch_thread t) ;;
   let! pid := kload 8 (task_pid t) in
   let! exitcode := kload 4 (task_exitcode t) in
   kprintk "sched: pid %d becomes zombie with exit code %d
" [ANum pid; ANum exitcode])%K.

(** The body of the loop for one task: whether it ran. *)
Definition sched_visit (fuel : nat) (i : Z) : R bool :=
  (let! s := kget in
   let t := task_at s i in
   let! state := get_state t in
   (if state =? TASK_SLEEPING then
      let! sleep_until := kload 8 (task_sleep_until t) in
      if sleep_until <=? sched_timer s then set_state t TASK_RUNNABLE else kret tt
    else kret tt) ;;
   let! state := get_state t in
   if state =? TASK_RUNNABLE then
     let* _ := sched_switch_to t in
     (let! state := get_state t in
      (if state =? TASK_ZOMBIE then reap fuel t else kret tt) ;;
      rret true)%K
   else rret false)%K.

(** for (i = 0; i < MAX_TASK_COUNT; i++), [n] left. *)
Fixpoint sched_pass (fuel : nat) (i : Z) (n : nat) (found : bool) : R bool :=
  match n with
  | O => rret found
  | S n =>
      (let* ran := sched_visit fuel i in
       sched_pass fuel (i + 1) n (found || ran))%K
  end.

(** One round of [for (;;)]: a pass, and a halt until the next interrupt when
    no task ran; the halt has no effect of its own. *)
Fixpoint sched_loop (rounds fuel : nat) : R unit :=
  match rounds with
  | O => khalt NoFuel
  | S rounds =>
      (let* _ := sched_pass fuel 0 (Z.to_nat MAX_TASK_COUNT) false in
       sched_loop rounds fuel)%K
  end.

Definition sched_start (rounds fuel : nat) (sym : symbols) : R unit :=
  (let! err := setup_init_task fuel sym in
   if err <? 0 then panic "cannot allocate init task"
   else
     let! s := kget in
     in_vm (vmem_init_from_current (sched_vmem s)) ;;
     sched_loop rounds fuel)%K.
