(* ===== verification/ProcSpec.v ===== *)
(** * The life of tasks, as the scheduler and the system calls promise it

    An abstract machine over the task table: which task runs, what each task is
    doing in the kernel while it does not, and the events that change this.
    MachineSim.v shows that the kernel's handlers are these events; here are the
    invariants of all runs, in which interrupts arrive in user mode and in the
    scheduler's loop only (Preempt.v is about the others). *)

From stdpp Require Import functions.
From S2P Require Import Prelude Mem Common Sched.

(** [state_t]. *)
Inductive tstate := Free | Runnable | Waiting | Zombie | Sleeping.

#[export] Instance tstate_eq_dec : EqDecision tstate.
Proof. solve_decision. Defined.

Definition state_code (p : tstate) : Z :=
  match p with
  | Free => TASK_NOT_ALLOCATED
  | Runnable => TASK_RUNNABLE
  | Waiting => TASK_WAITING
  | Zombie => TASK_ZOMBIE
  | Sleeping => TASK_SLEEPING
  end.

Record proc := Proc {
  p_state : tstate;
  p_parent : Z;
  p_wait : Z;
  p_exit : Z;
  p_deadline : Z;
  p_wake : Z;
}.

(** Where a task goes on when it runs: in its program, or inside a call. *)
Inductive place := PUser | PSleep | PWait (c : Z) | PDead.

#[export] Instance place_eq_dec : EqDecision place.
Proof. solve_decision. Defined.

Record sys := Sys {
  procs : Z -> proc;
  places : Z -> place;
  clock : Z;
  running : option Z;
}.

Definition st_of (a : sys) (i : Z) : tstate := p_state (procs a i).

(** ** Changes of one entry *)

Definition with_state (x : tstate) (p : proc) : proc := Proc x (p_parent p) (p_wait p) (p_exit p) (p_deadline p) (p_wake p).
Definition with_wait (c : Z) (p : proc) : proc := Proc (p_state p) (p_parent p) c (p_exit p) (p_deadline p) (p_wake p).
Definition with_exit (x : Z) (p : proc) : proc := Proc (p_state p) (p_parent p) (p_wait p) x (p_deadline p) (p_wake p).
Definition with_deadline (d : Z) (p : proc) : proc := Proc (p_state p) (p_parent p) (p_wait p) (p_exit p) d (p_wake p).
Definition with_wake (w : Z) (p : proc) : proc := Proc (p_state p) (p_parent p) (p_wait p) (p_exit p) (p_deadline p) w.
Definition with_parent (q : Z) (p : proc) : proc := Proc (p_state p) q (p_wait p) (p_exit p) (p_deadline p) (p_wake p).

Definition on_proc (i : Z) (f : proc -> proc) (a : sys) : sys :=
  Sys (<[i := f (procs a i)]> (procs a)) (places a) (clock a) (running a).
Definition go (i : Z) (x : place) (a : sys) : sys := Sys (procs a) (<[i := x]> (places a)) (clock a) (running a).
Definition run_as (r : option Z) (a : sys) : sys := Sys (procs a) (places a) (clock a) r.
Definition at_clock (t : Z) (a : sys) : sys := Sys (procs a) (places a) t (running a).

(** ** Events *)

Inductive event :=
  | Tick                              (* the timer's interrupt *)
  | Visit (i : Z)                     (* the scheduler looks at task [i] *)
  | Resume (accepted : bool)          (* a call goes on in the task switched to *)
  | CallSleep (ms : Z)
  | CallExit (code : Z)
  | CallWait (c : Z) (accepted : bool) (* whether the status can be stored *)
  | CallFork (child : Z) (ok : bool)   (* whether there is memory *)
  | CallOther.                         (* getpid, unknown calls, page faults *)

Definition is_free (a : sys) (i : Z) : bool := bool_decide (st_of a i = Free).

Definition can_run (a : sys) (i : Z) : bool :=
  bool_decide (st_of a i = Runnable) || bool_decide (st_of a i = Sleeping) && (p_wake (procs a i) <=? clock a).

(** The end of a wait for the zombie [c]. *)
Definition reaped (c : Z) (accepted : bool) (a : sys) : sys :=
  if accepted then on_proc c (with_state Free) a else a.

Definition waits_for (a : sys) (i c : Z) : bool := bool_decide (st_of a i = Waiting) && (p_wait (procs a i) =? c).

(** The parent of the dying task [i] is woken if it waits for it. *)
Definition wake_parent (i : Z) (a : sys) : sys :=
  let q := p_parent (procs a i) in
  if waits_for a q i then on_proc q (with_state Runnable) a else a.

Definition least_free (a : sys) (i : Z) : bool :=
  (1 <=? i) && (i <? MAX_TASK_COUNT) && is_free a i && forallb (fun j => negb (is_free a j)) (seqZ 1 (i - 1)).

Definition in_table (i : Z) : bool := (0 <=? i) && (i <? MAX_TASK_COUNT).

(** The state after an event, [None] where it cannot happen. *)
Definition happens (e : event) (a : sys) : option sys :=
  match e, running a with
  | Tick, None => Some (at_clock (u64 (clock a + 1)) a)
  | Tick, Some i =>
      if bool_decide (places a i = PUser) then
        let a' := at_clock (u64 (clock a + 1)) a in
        Some (if p_deadline (procs a i) <? clock a' then a' else run_as None a')
      else None
  | Visit i, None =>
      if in_table i then
        Some (if can_run a i then
                run_as (Some i) (on_proc i (fun p => with_deadline (u64 (clock a + PREEMPT_TICKS)) (with_state Runnable p)) a)
              else a)
      else None
  | Resume accepted, Some i =>
      match places a i with
      | PSleep => Some (go i PUser a)
      | PWait c => if bool_decide (st_of a c = Zombie) then Some (reaped c accepted (go i PUser a)) else None
      | _ => None
      end
  | Visit _, Some _ | Resume _, None => None
  | _, None => None
  | e, Some i =>
      if bool_decide (places a i = PUser) then
        match e with
        | CallSleep ms =>
            Some (run_as None (go i PSleep (on_proc i (fun p => with_state Sleeping
              (with_wake (u64 (clock a + ms / SCHED_TIMER_PERIOD)) p)) a)))
        | CallExit code =>
            Some (run_as None (go i PDead (wake_parent i (on_proc i (fun p => with_state Zombie (with_exit (u32 code) p)) a))))
        | CallWait c accepted =>
            if negb (in_table c) then None
            else if negb (p_parent (procs a c) =? i) then Some a
            else if bool_decide (st_of a c = Zombie) then Some (reaped c accepted a)
            else Some (run_as None (go i (PWait c) (on_proc i (fun p => with_wait c (with_state Waiting p)) a)))
        | CallFork child ok =>
            if least_free a child then
              Some (if ok then go child PUser (on_proc child (fun p => with_state Runnable (with_parent i p)) a) else a)
            else None
        | _ => Some a
        end
      else None
  end.

(** All that can happen from a state. *)
Inductive reaches (a : sys) : sys -> Prop :=
  | reaches_refl : reaches a a
  | reaches_step b e c : reaches a b -> happens e b = Some c -> reaches a c.

(** The first task, made by [sched_start]. *)
Definition booted : sys :=
  Sys (<[1 := Proc Runnable 0 0 0 0 0]> (fun _ => Proc Free 0 0 0 0 0)) (fun _ => PUser) 0 None.

(** ** The invariant *)

(** What a task does in the kernel agrees with its entry. *)
Definition place_ok (a : sys) (i : Z) : Prop :=
  match places a i with
  | PUser => st_of a i = Free \/ st_of a i = Runnable
  | PSleep => st_of a i = Sleeping \/ st_of a i = Runnable
  | PWait c => p_wait (procs a i) = c /\
      (st_of a i = Waiting \/ st_of a i = Runnable /\ st_of a c = Zombie /\ p_parent (procs a c) = i)
  | PDead => st_of a i = Zombie \/ st_of a i = Free
  end.

(** [L] are tasks whose wake-up may be lost. *)
Record life_inv_but (L : Z -> Prop) (a : sys) : Prop := {
  li_place i : place_ok a i;
  li_running i : running a = Some i -> 1 <= i < MAX_TASK_COUNT /\ st_of a i = Runnable;
  li_zero : st_of a 0 = Free;
  li_parent i : 1 <= i -> p_parent (procs a i) <> i;
  li_range i : 0 <= p_parent (procs a i) < MAX_TASK_COUNT;
  li_no_lost i c : ~ L i -> st_of a i = Waiting -> p_wait (procs a i) = c -> p_parent (procs a c) = i -> st_of a c <> Zombie;
}.

Definition life_inv : sys -> Prop := life_inv_but (fun _ => False).

Section Lost.
Context {L : Z -> Prop}.

(** Looking at one entry of a changed state. *)
Lemma on_proc_eq i f a : procs (on_proc i f a) i = f (procs a i).
Proof. apply fn_lookup_insert. Qed.
Lemma on_proc_ne i f a j : i <> j -> procs (on_proc i f a) j = procs a j.
Proof. apply fn_lookup_insert_ne. Qed.
Lemma go_eq i x a : places (go i x a) i = x.
Proof. apply fn_lookup_insert. Qed.
Lemma go_ne i x a j : i <> j -> places (go i x a) j = places a j.
Proof. apply fn_lookup_insert_ne. Qed.

(** Events that leave the states, the parents and what is waited for. *)
Lemma life_same a b :
  life_inv_but L a -> (forall i, st_of b i = st_of a i) -> (forall i, p_parent (procs b i) = p_parent (procs a i)) ->
  (forall i, p_wait (procs b i) = p_wait (procs a i)) -> places b = places a ->
  (forall i, running b = Some i -> 1 <= i < MAX_TASK_COUNT /\ st_of b i = Runnable) -> life_inv_but L b.
Proof.
  intros [H1 H2 H3 H4 H6 H5] Es Ep Ew Epl Hr. split; [..|done| | | |].
  - intros i. specialize (H1 i). unfold place_ok in *. rewrite Epl, Es, Ew. case_match; rewrite ?Es, ?Ep; done.
  - by rewrite Es.
  - intros i. rewrite Ep. apply H4.
  - intros i. rewrite Ep. apply H6.
  - intros i c. rewrite !Es, Ew, Ep. apply H5.
Qed.

(** An entry [j] of the state [on_proc i f (go i x a)], by cases. *)
Ltac look i j :=
  destruct (decide (i = j)) as [<-|?];
  rewrite ?on_proc_eq, ?go_eq, ?on_proc_ne, ?go_ne by done.

(** The running task [i] leaves the processor in the state [x]. *)
Lemma life_leave a i f x r :
  life_inv_but L a -> running a = Some i -> (forall p, p_parent (f p) = p_parent p) ->
  (forall p, p_state (f p) <> Runnable) -> (forall p, p_state (f p) <> Zombie) ->
  (forall j, r = Some j -> False) ->
  place_ok (run_as r (go i x (on_proc i f a))) i ->
  (~ L i -> p_state (f (procs a i)) = Waiting -> p_parent (procs a (p_wait (f (procs a i)))) = i -> st_of a (p_wait (f (procs a i))) <> Zombie) ->
  life_inv_but L (run_as r (go i x (on_proc i f a))).
Proof.
  intros [H1 H2 H3 H4 H6 H5] Hr Hf Hf1 Hf2 Hr' Hi Hw. destruct (H2 i Hr) as [Hi1 Hi2].
  split.
  - intros j. destruct (decide (i = j)) as [<-|Hne]; [done|]. specialize (H1 j). unfold place_ok, st_of in *. cbn [run_as places procs] in *.
    rewrite go_ne by done. cbn [go procs]. rewrite on_proc_ne by done. change (places (on_proc i f a) j) with (places a j).
    destruct (places a j); try done. look i c; [|done]. rewrite Hi2 in H1. naive_solver.
  - intros j Hj. by destruct (Hr' j).
  - unfold st_of. cbn [run_as procs go]. rewrite on_proc_ne by lia. apply H3.
  - intros j Hj. cbn [run_as procs go]. look i j; [rewrite Hf|]; by apply H4.
  - intros j. cbn [run_as procs go]. look i j; [rewrite Hf|]; by apply H6.
  - intros j c. unfold st_of. cbn [run_as procs go]. look i j.
    + intros HL A1 <-. look i (p_wait (f (procs a i))); [by intros _ ?%Hf2|by apply Hw].
    + intros HL A1 A2. look i c; [by intros _ ?%Hf2|by apply (H5 j c)].
Qed.

Section Events.
Context (a : sys).
Hypothesis Ha : life_inv_but L a.

Lemma zombie_dead c : st_of a c = Zombie -> places a c = PDead.
Proof. intros Hz. pose proof (li_place _ a Ha c) as H. unfold place_ok in H. rewrite Hz in H. destruct (places a c); naive_solver. Qed.

Lemma waiting_place i : st_of a i = Waiting -> places a i = PWait (p_wait (procs a i)).
Proof.
  intros Hw. pose proof (li_place _ a Ha i) as H. unfold place_ok in H. rewrite Hw in H.
  destruct (places a i); naive_solver.
Qed.

Lemma life_tick t : life_inv_but L (at_clock t a).
Proof. destruct Ha as [H1 H2 H3 H4 H6 H5]. by split. Qed.

Lemma life_idle : life_inv_but L (run_as None a).
Proof. destruct Ha as [H1 H2 H3 H4 H6 H5]. by split. Qed.

(** The call of the running task is over. *)
Lemma life_return i : running a = Some i -> life_inv_but L (go i PUser a).
Proof.
  intros Hr. pose proof (li_running _ a Ha i Hr) as [_ Hi]. destruct Ha as [H1 H2 H3 H4 H6 H5]. split; [|done..].
  intros j. specialize (H1 j). unfold place_ok in *. change (st_of (go i PUser a)) with (st_of a). cbn [go procs].
  look i j; [by right|done].
Qed.

(** A zombie's entry is freed by its parent. *)
Lemma life_reaped i c accepted :
  running a = Some i -> places a i = PUser -> st_of a c = Zombie -> p_parent (procs a c) = i ->
  life_inv_but L (reaped c accepted a).
Proof.
  intros Hr Hp Hz Hc. unfold reaped. destruct accepted; [|done]. pose proof (zombie_dead c Hz) as Hd.
  assert (c <> 0) by (intros ->; rewrite (li_zero _ a Ha) in Hz; done).
  assert (c <> i) by (intros ->; rewrite Hp in Hd; done). destruct Ha as [H1 H2 H3 H4 H6 H5]. split.
  - intros j. specialize (H1 j). unfold place_ok, st_of in *. change (places (on_proc _ _ a)) with (places a).
    look c j; [rewrite Hd; by right|]. destruct (places a j) as [| |d|] eqn:Ej; try done. look c d; [|done].
    destruct H1 as [Hw [?|(_ & _ & Hq)]]; [by auto|]. congruence.
  - intros j Hj. destruct (H2 j Hj) as [Hj1 Hj2]. split; [done|]. unfold st_of. look c j; [congruence|done].
  - unfold st_of. by rewrite on_proc_ne.
  - intros j Hj. look c j; by apply H4.
  - intros j. look c j; by apply H6.
  - intros j d. unfold st_of. look c j; [done|]. look c d; [done|]. apply H5.
Qed.

(** The scheduler runs a task. *)
Lemma life_visit i d :
  in_table i = true -> running a = None -> can_run a i = true ->
  life_inv_but L (run_as (Some i) (on_proc i (fun p => with_deadline d (with_state Runnable p)) a)).
Proof.
  intros Hi Hr Hc. unfold in_table in Hi. apply andb_prop in Hi as [Hi1%Z.leb_le Hi2%Z.ltb_lt].
  assert (Hst : st_of a i = Runnable \/ st_of a i = Sleeping).
  { unfold can_run in Hc. apply orb_prop in Hc as [?%bool_decide_eq_true_1|[?%bool_decide_eq_true_1 _]%andb_prop]; auto. }
  assert (Hi0 : i <> 0) by (intros ->; rewrite (li_zero _ a Ha) in Hst; destruct Hst; done).
  destruct Ha as [H1 H2 H3 H4 H6 H5]. split.
  - intros j. pose proof (H1 i) as Hi. specialize (H1 j). unfold place_ok, st_of in *. cbn [run_as procs places].
    change (places (on_proc _ _ a)) with (places a). look i j.
    + destruct (places a i) as [| |d'|] eqn:Ei; cbn [with_deadline with_state p_state p_wait]; [by auto..| |].
      * destruct H1 as [Hw [Hq|(_ & Hz & Hq)]]; [destruct Hst; congruence|]. split; [done|right]. split; [done|].
        look i d'; [|done]. by destruct Hst; congruence.
      * destruct Hst, H1; congruence.
    + destruct (places a j) as [| |d'|] eqn:Ej; try done. look i d'; [|done].
      destruct H1 as [Hw [?|(_ & Hz & _)]]; [by auto|]. destruct Hst; congruence.
  - intros j [= <-]. split; [lia|]. unfold st_of. cbn [run_as procs]. by rewrite on_proc_eq.
  - unfold st_of. cbn [run_as procs]. by rewrite on_proc_ne.
  - intros j Hj. cbn [run_as procs]. look i j; by apply H4.
  - intros j. cbn [run_as procs]. look i j; by apply H6.
  - intros j c. unfold st_of. cbn [run_as procs]. look i j; [done|]. look i c; [done|]. apply H5.
Qed.

(** A new task takes a free entry. *)
Lemma life_fork i child :
  running a = Some i -> least_free a child = true ->
  life_inv_but L (go child PUser (on_proc child (fun p => with_state Runnable (with_parent i p)) a)).
Proof.
  intros Hr Hl. unfold least_free, is_free in Hl.
  apply andb_prop in Hl as [[[H1%Z.leb_le _]%andb_prop Hf%bool_decide_eq_true_1]%andb_prop _].
  destruct (li_running _ a Ha i Hr) as [Hi Hst]. assert (Hne : child <> i) by congruence.
  destruct Ha as [L1 L2 L3 L4 L6 L5]. split.
  - intros j. specialize (L1 j). unfold place_ok, st_of in *. cbn [go procs].
    change (places (go child PUser (on_proc child (fun p => with_state Runnable (with_parent i p)) a)))
      with (<[child := PUser]> (places a)).
    destruct (decide (child = j)) as [<-|Hj].
    + rewrite fn_lookup_insert, on_proc_eq. by right.
    + rewrite fn_lookup_insert_ne, on_proc_ne by done. destruct (places a j) as [| |d|]; try done.
      look child d; [|done]. destruct L1 as [Hw [?|(_ & Hz & _)]]; [by auto|congruence].
  - intros j Hj. destruct (L2 j Hj) as [Hj1 Hj2]. split; [done|]. unfold st_of. cbn [go procs]. by look child j.
  - unfold st_of. cbn [go procs]. rewrite on_proc_ne by lia. done.
  - intros j Hj. cbn [go procs]. look child j; [by intros E|by apply L4].
  - intros j. cbn [go procs]. look child j; [cbn [with_state with_parent p_parent]; lia|by apply L6].
  - intros j c. unfold st_of. cbn [go procs]. look child j; [done|]. look child c; [done|]. apply L5.
Qed.
End Events.

Lemma life_sleep a i w :
  life_inv_but L a -> running a = Some i -> 
  life_inv_but L (run_as None (go i PSleep (on_proc i (fun p => with_state Sleeping (with_wake w p)) a))).
Proof.
  intros Ha Hr. apply life_leave; try done.
  unfold place_ok, st_of. cbn [run_as procs places]. rewrite go_eq. cbn [go procs]. rewrite on_proc_eq. by left.
Qed.

Lemma life_wait a i c :
  life_inv_but L a -> running a = Some i -> st_of a c <> Zombie ->
  life_inv_but L (run_as None (go i (PWait c) (on_proc i (fun p => with_wait c (with_state Waiting p)) a))).
Proof.
  intros Ha Hr Hz. apply life_leave; try done.
  unfold place_ok, st_of. cbn [run_as procs places]. rewrite go_eq. cbn [go procs]. rewrite on_proc_eq. split; [done|by left].
Qed.

(** Whether [j] is the parent that the exit of [i] wakes. *)
Definition wakes (a : sys) (i j : Z) : bool := (j =? p_parent (procs a i)) && waits_for a j i.

Lemma wakes_true a i j :
  wakes a i j = true -> j = p_parent (procs a i) /\ st_of a j = Waiting /\ p_wait (procs a j) = i.
Proof. unfold wakes, waits_for. intros [->%Z.eqb_eq [?%bool_decide_eq_true_1 ?%Z.eqb_eq]%andb_prop]%andb_prop. done. Qed.

Lemma wakes_intro a i j :
  p_parent (procs a i) = j -> st_of a j = Waiting -> p_wait (procs a j) = i -> wakes a i j = true.
Proof. intros E H E'. unfold wakes, waits_for. by rewrite E, E', (bool_decide_eq_true_2 _ H), !Z.eqb_refl. Qed.

(** The entries after the exit of [i]. *)
Definition exited (a : sys) (i x : Z) : sys :=
  run_as None (go i PDead (wake_parent i (on_proc i (fun p => with_state Zombie (with_exit x p)) a))).

Lemma exited_entry a i x j :
  p_parent (procs a i) <> i ->
  procs (exited a i x) j =
    if decide (j = i) then with_state Zombie (with_exit x (procs a i))
    else if wakes a i j then with_state Runnable (procs a j)
    else procs a j.
Proof.
  intros Hq. unfold exited. cbn [run_as go procs]. set (z := on_proc i _ a). set (q := p_parent (procs a i)) in *.
  assert (Ez : procs z i = with_state Zombie (with_exit x (procs a i))) by apply on_proc_eq.
  assert (En : forall k, i <> k -> procs z k = procs a k) by (intros k Hk; by apply on_proc_ne).
  unfold wake_parent. rewrite Ez. change (p_parent (with_state _ _)) with q.
  replace (waits_for z q i) with (waits_for a q i) by (unfold waits_for, st_of; by rewrite En).
  destruct (decide (j = i)) as [->|Hj].
  - destruct (waits_for a q i); [by rewrite on_proc_ne|done].
  - unfold wakes. fold q. destruct (Z.eqb_spec j q) as [Hjq|Hjq]; cbn [andb].
    + subst j. destruct (waits_for a q i); [by rewrite on_proc_eq, En|by apply En].
    + destruct (waits_for a q i); rewrite ?on_proc_ne by done; by apply En.
Qed.

Lemma exited_place a i x j : places (exited a i x) j = if decide (j = i) then PDead else places a j.
Proof.
  unfold exited. cbn [run_as places]. destruct (decide (j = i)) as [->|Hj]; [by rewrite go_eq|rewrite go_ne by done].
  unfold wake_parent. by case_match.
Qed.

(** A task dies: nobody that waits for it is left waiting. *)
Lemma life_exit a i x : life_inv_but L a -> running a = Some i -> life_inv_but L (exited a i x).
Proof.
  intros Ha Hr. destruct (li_running _ a Ha i Hr) as [Hi Hst]. pose proof (li_parent _ a Ha i ltac:(lia)) as Hq.
  pose proof (fun j => exited_entry a i x j Hq) as E. pose proof (exited_place a i x) as Epl.
  assert (Ep : forall j, p_parent (procs (exited a i x) j) = p_parent (procs a j)).
  { intros j. rewrite E. destruct (decide (j = i)) as [->|]; [done|]. by destruct (wakes a i j). }
  assert (Ew : forall j, p_wait (procs (exited a i x) j) = p_wait (procs a j)).
  { intros j. rewrite E. destruct (decide (j = i)) as [->|]; [done|]. by destruct (wakes a i j). }
  pose proof (fun j => waiting_place a Ha j) as Hwp. destruct Ha as [L1 L2 L3 L4 L6 L5]. split.
  - intros j. specialize (L1 j). unfold place_ok, st_of in *. rewrite Epl, Ew, E.
    destruct (decide (j = i)) as [->|Hj]; [by left|].
    destruct (wakes a i j) eqn:Hw.
    + apply wakes_true in Hw as (-> & Hw1 & Hw2).
      rewrite (Hwp _ Hw1), Hw2. split; [done|right]. split; [done|]. rewrite Ep, E, decide_True by done. done.
    + destruct (places a j) as [| |d|]; try done. destruct L1 as [Hd L1]. split; [done|].
      destruct L1 as [?|(Hj1 & Hz & Hd')]; [by left|right]. split; [done|]. rewrite Ep, E.
      destruct (decide (d = i)) as [->|]; [congruence|]. split; [|done].
      destruct (wakes a i d) eqn:Hw'; [|done]. apply wakes_true in Hw' as (_ & H & _). unfold st_of in H. congruence.
  - done.
  - unfold st_of. rewrite E, decide_False by lia. destruct (wakes a i 0) eqn:Hw; [|done].
    apply wakes_true in Hw as (_ & H & _). rewrite L3 in H. discriminate H.
  - intros j. rewrite Ep. apply L4.
  - intros j. rewrite Ep. apply L6.
  - intros j d. rewrite Ew, Ep. unfold st_of. rewrite !E. destruct (decide (j = i)) as [->|Hj]; [done|].
    destruct (wakes a i j) eqn:Hw; [done|].
    intros HL A1 A2 A3. destruct (decide (d = i)) as [->|Hd].
    + by rewrite (wakes_intro a i j A3 A1 A2) in Hw.
    + destruct (wakes a i d); [done|]. by apply (L5 j d).
Qed.

(** Every event keeps the invariant. *)
Lemma happens_life e a b : life_inv_but L a -> happens e a = Some b -> life_inv_but L b.
Proof.
  intros Ha. unfold happens. destruct e as [|i|acc|ms|code|c acc|child ok|], (running a) as [r|] eqn:Hr; try done.
  - case_bool_decide as Hp; [|done]. intros [= <-]. pose proof (life_tick a Ha (u64 (clock a + 1))) as Ht.
    case_match; [done|by apply life_idle].
  - intros [= <-]. by apply life_tick.
  - destruct (in_table i) eqn:Hi; [|done]. intros [= <-]. destruct (can_run a i) eqn:Hc; [by apply life_visit|done].
  - destruct (places a r) as [| |c|] eqn:Hp; try done; [intros [= <-]; by apply life_return|].
    case_bool_decide as Hz; [|done]. intros [= <-]. pose proof (li_place _ a Ha r) as Hpl. unfold place_ok in Hpl. rewrite Hp in Hpl.
    destruct Hpl as [_ [Hw|(_ & _ & Hc)]]; [pose proof (li_running _ a Ha r Hr); intuition congruence|].
    apply (life_reaped _ (life_return a Ha r Hr) r c acc); [done|apply go_eq|done|done].
  - case_bool_decide; [|done]. intros [= <-]. by apply life_sleep.
  - case_bool_decide; [|done]. intros [= <-]. by apply life_exit.
  - case_bool_decide as Hp; [|done]. destruct (in_table c); [|done]. cbn [negb].
    destruct (Z.eqb_spec (p_parent (procs a c)) r) as [Hc|Hc]; cbn [negb]; [|by intros [= <-]].
    case_bool_decide as Hz; intros [= <-]; [by apply (life_reaped a Ha r)|by apply life_wait].
  - case_bool_decide as Hp; [|done]. destruct (least_free a child) eqn:Hl; [|done]. intros [= <-].
    destruct ok; [by apply life_fork|done].
  - case_bool_decide; [|done]. by intros [= <-].
Qed.

Lemma reaches_life a b : life_inv_but L a -> reaches a b -> life_inv_but L b.
Proof. intros Ha. induction 1; [done|by eapply happens_life]. Qed.

Lemma booted_life : life_inv_but L booted.
Proof.
  split.
  - intros i. unfold place_ok, st_of, booted. cbn [places procs]. destruct (decide (1 = i)) as [<-|?];
      [rewrite fn_lookup_insert; by right|rewrite fn_lookup_insert_ne by done; by left].
  - done.
  - done.
  - intros i Hi. unfold booted. cbn [procs]. destruct (decide (1 = i)) as [<-|?];
      [rewrite fn_lookup_insert; done|rewrite fn_lookup_insert_ne by done; cbn [p_parent]; lia].
  - intros i. unfold booted. cbn [procs]. destruct (decide (1 = i)) as [<-|?];
      [by rewrite fn_lookup_insert|by rewrite fn_lookup_insert_ne].
  - intros i c. unfold st_of, booted. cbn [procs]. destruct (decide (1 = i)) as [<-|?];
      [by rewrite fn_lookup_insert|by rewrite fn_lookup_insert_ne].
Qed.

(** ** A wake-up that is lost is lost for ever *)

(** [i] waits for its child [c], which is dead and did not wake it. *)
Record lost (i c : Z) (a : sys) : Prop := {
  lost_waits : st_of a i = Waiting;
  lost_for : p_wait (procs a i) = c;
  lost_dead : st_of a c = Zombie;
  lost_parent : p_parent (procs a c) = i;
}.

Lemma lost_on i c j f a : j <> i -> j <> c -> lost i c a -> lost i c (on_proc j f a).
Proof. intros Hi Hc [H1 H2 H3 H4]. split; unfold st_of in *; by rewrite on_proc_ne. Qed.

Lemma lost_reaped i c d acc a :
  d <> i -> d <> c -> lost i c a -> lost i c (reaped d acc a).
Proof. intros. unfold reaped. destruct acc; [by apply lost_on|done]. Qed.

(** Tasks in another state are others. *)
Lemma lost_others i c j a : lost i c a -> st_of a j <> Waiting -> st_of a j <> Zombie -> j <> i /\ j <> c.
Proof. intros [H1 _ H3 _] N1 N2. split; intros ->; done. Qed.

(** The dead child belongs to [i]: no other task reaps it. *)
Lemma lost_not_reaped i c r d a : lost i c a -> r <> i -> st_of a d = Zombie -> p_parent (procs a d) = r -> d <> i /\ d <> c.
Proof. intros [H1 _ H3 H4] Hr Hz Hp. split; intros ->; congruence. Qed.

Lemma happens_lost i c e a b : life_inv_but L a -> lost i c a -> happens e a = Some b -> lost i c b.
Proof.
  intros Ha Hl. pose proof (li_running _ a Ha) as Hrun. unfold happens.
  assert (Hre : forall r, running a = Some r -> r <> i /\ r <> c).
  { intros r Hr. destruct (Hrun r Hr) as [_ Hst]. apply (lost_others i c r a Hl); by rewrite Hst. }
  destruct e as [|j|acc|ms|code|d acc|child ok|], (running a) as [r|] eqn:Hr; try done.
  - case_bool_decide; [|done]. intros [= <-]. destruct Hl. by case_match.
  - intros [= <-]. by destruct Hl.
  - destruct (in_table j); [|done]. intros [= <-]. destruct (can_run a j) eqn:Hc; [|done].
    assert (Hj : st_of a j = Runnable \/ st_of a j = Sleeping).
    { unfold can_run in Hc. apply orb_prop in Hc as [?%bool_decide_eq_true_1|[?%bool_decide_eq_true_1 _]%andb_prop]; auto. }
    destruct (lost_others i c j a Hl) as [N1 N2]; [by destruct Hj; congruence..|].
    by destruct (lost_on i c j (fun p => with_deadline (u64 (clock a + PREEMPT_TICKS)) (with_state Runnable p)) a N1 N2 Hl).
  - destruct (Hre r eq_refl) as [N1 N2]. destruct (places a r) as [| |d|] eqn:Hp; try done; [intros [= <-]; by destruct Hl|].
    case_bool_decide as Hz; [|done]. intros [= <-]. pose proof (li_place _ a Ha r) as Hpl. unfold place_ok in Hpl. rewrite Hp in Hpl.
    destruct Hpl as [_ [Hw|(_ & _ & Hd)]]; [destruct (Hrun r eq_refl); congruence|].
    destruct (lost_not_reaped i c r d a Hl N1 Hz Hd). apply lost_reaped; [done|done|by destruct Hl].
  - destruct (Hre r eq_refl) as [N1 N2]. case_bool_decide; [|done]. intros [= <-].
    by destruct (lost_on i c r (fun p => with_state Sleeping (with_wake (u64 (clock a + ms / SCHED_TIMER_PERIOD)) p)) a N1 N2 Hl).
  - destruct (Hre r eq_refl) as [N1 N2]. case_bool_decide; [|done]. intros [= <-].
    set (z := on_proc r _ a). pose proof (lost_on i c r (fun p => with_state Zombie (with_exit (u32 code) p)) a N1 N2 Hl) as Hz.
    fold z in Hz. enough (lost i c (wake_parent r z)) as [] by done. unfold wake_parent.
    destruct (waits_for z _ r) eqn:Hw; [|done]. unfold waits_for in Hw. apply andb_prop in Hw as [Hw1%bool_decide_eq_true_1 Hw2%Z.eqb_eq].
    apply lost_on; [|intros Eq; rewrite Eq, (lost_dead _ _ _ Hz) in Hw1; done|done].
    intros Eq. rewrite Eq, (lost_for _ _ _ Hz) in Hw2. congruence.
  - destruct (Hre r eq_refl) as [N1 N2]. case_bool_decide; [|done]. destruct (in_table d); [|done]. cbn [negb].
    destruct (Z.eqb_spec (p_parent (procs a d)) r) as [Hd|]; cbn [negb]; [|by intros [= <-]].
    case_bool_decide as Hz; intros [= <-].
    + destruct (lost_not_reaped i c r d a Hl N1 Hz Hd). by apply lost_reaped.
    + by destruct (lost_on i c r (fun p => with_wait d (with_state Waiting p)) a N1 N2 Hl).
  - destruct (Hre r eq_refl) as [N1 N2]. case_bool_decide; [|done]. destruct (least_free a child) eqn:Hf; [|done]. intros [= <-].
    destruct ok; [|done]. unfold least_free, is_free in Hf. apply andb_prop in Hf as [[_ Hf%bool_decide_eq_true_1]%andb_prop _].
    destruct (lost_others i c child a Hl) as [M1 M2]; [by rewrite Hf..|].
    by destruct (lost_on i c child (fun p => with_state Runnable (with_parent r p)) a M1 M2 Hl).
  - case_bool_decide; [|done]. by intros [= <-].
Qed.

Lemma reaches_lost i c a b : life_inv_but L a -> lost i c a -> reaches a b -> lost i c b.
Proof. intros Ha Hl H. induction H as [|b e d Hb IH He]; [done|]. apply (happens_lost i c e b d); [by apply (reaches_life a)|done|done]. Qed.
End Lost.
