(* ===== verification/Apic.v ===== *)
(** * drivers/apic.c: the local APIC and its timer

    The local APIC's registers are memory, at [lapic_ptr]; what the hardware
    answers, to a read of a port or of the timer's count, comes from a stream
    of inputs, and what is written to ports is a trace. Whether QEMU_PIT_HACK is
    defined is an argument of the calibration. *)

From S2P Require Import Prelude Mem Common DList Buddy Paging FrameAlloc Obj Vmem Multiboot Fb Console Printk Acpi Kst Arch Sched.

Definition APIC_TIMER_PERIOD : Z := SCHED_TIMER_PERIOD.
Definition CALLIBRATE_PERIOD : Z := 10.

Definition TYPE_LAPIC : Z := 0.
Definition TYPE_IOAPIC : Z := 1.

Definition APIC_TASKPRIOR : Z := 0x80.
Definition APIC_EOI : Z := 0x0B0.
Definition APIC_SPURIOUS : Z := 0x0F0.
Definition APIC_LVT_TMR : Z := 0x320.
Definition APIC_LVT_PERF : Z := 0x340.
Definition APIC_LVT_LINT0 : Z := 0x350.
Definition APIC_LVT_LINT1 : Z := 0x360.
Definition APIC_TMRINITCNT : Z := 0x380.
Definition APIC_TMRCURRCNT : Z := 0x390.
Definition APIC_TMRDIV : Z := 0x3E0.
Definition APIC_DISABLE : Z := 0x10000.
Definition APIC_SW_ENABLE : Z := 0x100.
Definition TMR_PERIODIC : Z := 0x20000.
Definition TMR_DIV_X1 : Z := 0xB.

Definition CMD_BINARY : Z := 0x00.
Definition PIT_COUNTER2 : Z := 0x42.
Definition PIT_CMD : Z := 0x43.
Definition PIT_GATE : Z := 0x61.
Definition CMD_MODE1 : Z := 0x02.
Definition CMD_RW_BOTH : Z := 0x30.
Definition CMD_COUNTER2 : Z := 0x80.
Definition CMD_CH2_IN : Z := 0x01.
Definition CMD_CH2_OUT : Z := 0x20.
Definition PIT_FREQUENCY : Z := 1193182.

(** irq_t. *)
Definition IRQ_PF : Z := 14.
Definition IRQ_TIMER : Z := 32.
Definition IRQ_SPURIOUS : Z := 39.

(** lapic_ptr[idx / 4] = value. *)
Definition lapic_write (lapic_ptr idx value : Z) : K mem unit := store32 (u64 (lapic_ptr + 4 * (idx / 4))) value.

Definition apic_eoi (lapic_ptr : Z) : K mem unit := lapic_write lapic_ptr APIC_EOI 0.

(** ** The driver's state *)

Record apic := Apic {
  ap_acpi : acpi;
  ap_lapic_ptr : Z;
  ap_ioapic_ptr : Z;
  ap_in : nat -> Z;          (* what the hardware answers, in order *)
  ap_clock : nat;            (* how many answers were used *)
  ap_out : list (Z * Z);     (* the ports written, the last first *)
}.

Definition in_ap_acpi {A} : K acpi A -> K apic A :=
  klift ap_acpi (fun a s => Apic a (ap_lapic_ptr s) (ap_ioapic_ptr s) (ap_in s) (ap_clock s) (ap_out s)).
Definition in_ap_mem {A} (m : K mem A) : K apic A := in_ap_acpi (in_acpi_mem m).
Definition ap_mem (s : apic) : mem := con_mem (a_con (ap_acpi s)).

Definition set_lapic_ptr (v : Z) : K apic unit :=
  fun s => Ret (tt, Apic (ap_acpi s) v (ap_ioapic_ptr s) (ap_in s) (ap_clock s) (ap_out s)).
Definition set_ioapic_ptr (v : Z) : K apic unit :=
  fun s => Ret (tt, Apic (ap_acpi s) (ap_lapic_ptr s) v (ap_in s) (ap_clock s) (ap_out s)).

(** The next answer of the hardware. *)
Definition answer : K apic Z :=
  fun s => Ret (ap_in s (ap_clock s),
                Apic (ap_acpi s) (ap_lapic_ptr s) (ap_ioapic_ptr s) (ap_in s) (S (ap_clock s)) (ap_out s)).

Definition x86_outb (port data : Z) : K apic unit :=
  fun s => Ret (tt, Apic (ap_acpi s) (ap_lapic_ptr s) (ap_ioapic_ptr s) (ap_in s) (ap_clock s)
                         ((port, u8 data) :: ap_out s)).
Definition x86_inb (port : Z) : K apic Z := (let! v := answer in kret (u8 v))%K.

Definition lapic_set (idx value : Z) : K apic unit :=
  (let! s := kget in in_ap_mem (lapic_write (ap_lapic_ptr s) idx value))%K.

(** A register that counts is not the memory last written: the read must be of
    a kernel address, and the hardware gives the value. *)
Definition lapic_read (idx : Z) : K apic Z :=
  (let! s := kget in
   in_ap_mem (load32 (u64 (ap_lapic_ptr s + 4 * (idx / 4)))) ;;
   let! v := answer in
   kret (u32 v))%K.

(** ** apic_init *)

(** madt_header_t: the first entry is at offset 44, and an entry's data at 2. *)
Definition madt_lapic_addr (header : Z) : Z := u64 (header + 36).
Definition madt_first_entry (header : Z) : Z := u64 (header + 44).
Definition madt_entry_length (entry : Z) : Z := u64 (entry + 1).
Definition madt_ioapic_address (entry : Z) : Z := u64 (entry + 4).

(** for (;;) over the entries: an entry of length 0 is visited for ever. *)
Fixpoint madt_loop (fuel : nat) (header entry : Z) : K apic unit :=
  match fuel with
  | O => khalt NoFuel
  | S fuel =>
      (let! length := in_ap_mem (load32 (sdt_length header)) in
       if u64 (header + length) <=? entry then kret tt
       else
         let! type := in_ap_mem (load8 entry) in
         (if type =? TYPE_IOAPIC then
            let! address := in_ap_mem (load32 (madt_ioapic_address entry)) in
            set_ioapic_ptr address
          else kret tt) ;;
         let! entry_length := in_ap_mem (load8 (madt_entry_length entry)) in
         madt_loop fuel header (u64 (entry + entry_length)))%K
  end.

(** [signature] is the address of the literal [APIC]. *)
Definition apic_init (fuel : nat) (signature : Z) : K apic unit :=
  (let! header := in_ap_acpi (acpi_lookup signature) in
   if header =? NULL then panic "ACPI MADT not found!"
   else
     let! lapic_addr := in_ap_mem (load32 (madt_lapic_addr header)) in
     set_lapic_ptr (PHYS_TO_VIRT lapic_addr) ;;
     madt_loop fuel header (madt_first_entry header) ;;
     let! s := kget in
     kassert (negb (ap_ioapic_ptr s =? NULL)) "Cannot locate I/O APIC address" ;;
     kassert (negb (ap_lapic_ptr s =? NULL)) "Cannot locate Local APIC address" ;;
     x86_outb (0x20 + 1) 0xFF ;;
     x86_outb (0xA0 + 1) 0xFF ;;
     lapic_set APIC_SPURIOUS (Z.lor IRQ_SPURIOUS APIC_SW_ENABLE) ;;
     lapic_set APIC_LVT_PERF APIC_DISABLE ;;
     lapic_set APIC_LVT_LINT0 APIC_DISABLE ;;
     lapic_set APIC_LVT_LINT1 APIC_DISABLE ;;
     lapic_set APIC_EOI 0 ;;
     lapic_set APIC_TASKPRIOR 0)%K.

(** ** apic_setup_timer *)

(** The two compilations of the wait: without QEMU_PIT_HACK the loop runs while
    the gate is low, with it (the Makefile's default) while it is high. *)
Fixpoint wait_gate (qemu_pit_hack : bool) (fuel : nat) : K apic unit :=
  match fuel with
  | O => khalt NoFuel
  | S fuel =>
      (let! v := x86_inb PIT_GATE in
       let high := negb (Z.land v CMD_CH2_OUT =? 0) in
       if (if qemu_pit_hack then high else negb high) then wait_gate qemu_pit_hack fuel else kret tt)%K
  end.

Definition apic_setup_timer (qemu_pit_hack : bool) (fuel : nat) : K apic unit :=
  (let! s := kget in
   kassert (negb (ap_lapic_ptr s =? NULL)) "lapic_ptr != NULL" ;;
   lapic_set APIC_LVT_TMR IRQ_TIMER ;;
   lapic_set APIC_TMRDIV TMR_DIV_X1 ;;
   x86_outb PIT_CMD (Z.lor (Z.lor (Z.lor CMD_BINARY CMD_MODE1) CMD_RW_BOTH) CMD_COUNTER2) ;;
   let pit_divisor := s32 (PIT_FREQUENCY * CALLIBRATE_PERIOD / 1000) in
   x86_outb PIT_COUNTER2 pit_divisor ;;
   x86_outb PIT_COUNTER2 (Z.shiftr pit_divisor 8) ;;
   let! gate := x86_inb PIT_GATE in
   x86_outb PIT_GATE (Z.land gate (Z.lnot CMD_CH2_IN)) ;;
   let! gate := x86_inb PIT_GATE in
   x86_outb PIT_GATE (Z.lor gate CMD_CH2_IN) ;;
   lapic_set APIC_TMRINITCNT (u32 (-1)) ;;
   wait_gate qemu_pit_hack fuel ;;
   lapic_set APIC_LVT_TMR APIC_DISABLE ;;
   let! count := lapic_read APIC_TMRCURRCNT in
   let cpu_bus_freq := u64 (u32 (u32 (-1) - count) * 1000) / CALLIBRATE_PERIOD in
   lapic_set APIC_TMRINITCNT (u32 (u64 (cpu_bus_freq * APIC_TIMER_PERIOD) / 1000)) ;;
   lapic_set APIC_TMRDIV TMR_DIV_X1 ;;
   lapic_set APIC_LVT_TMR (Z.lor IRQ_TIMER TMR_PERIODIC))%K.
