(* ===== verification/Syscall.v ===== *)
(** * kernel/syscall.c and arch/x86/irq.c: entries into the kernel

    A handler works on the address of the saved registers; the ones that wait
    hand control to the scheduler in the middle. *)

From S2P Require Import Prelude Mem Common DList Buddy Paging FrameAlloc Obj Vmem Multiboot Fb Console Printk Acpi Kst Arch Sched Apic.

Definition SYS_SLEEP : Z := 0.
Definition SYS_FORK : Z := 1.
Definition SYS_GETPID : Z := 2.
Definition SYS_EXIT : Z := 3.
Definition SYS_WAIT : Z := 4.
Definition SYS_MAX : Z := 5.

Definition syscall_arg0 (regs : Z) : K kst Z := kload 8 (regs_rdi regs).
Definition syscall_arg1 (regs : Z) : K kst Z := kload 8 (regs_rsi regs).

Definition sys_sleep (regs : Z) : R Z :=
  (let! ms := syscall_arg0 regs in
   let! s := kget in
   kstore 8 (task_sleep_until (_current s)) (u64 (sched_timer s + ms / SCHED_TIMER_PERIOD)) ;;
   set_state (_current s) TASK_SLEEPING ;;
   let* _ := sched_switch in
   rret 0)%K.

Definition sys_getpid (regs : Z) : R Z :=
  (let! s := kget in
   let! pid := kload 8 (task_pid (_current s)) in
   rret pid)%K.

Definition sys_fork (fuel : nat) (sym : symbols) (parent_regs : Z) : R Z :=
  (let! child := sched_allocate_task in
   let! s := kget in
   let! res := in_vm (vmem_clone fuel (task_vmem child) (task_vmem (_current s))) in
   if res <? 0 then rret res
   else
     let! (res, child_regs) := arch_thread_clone_current sym (task_arch_thread child) in
     if res <? 0 then rret res
     else
       let! s := kget in
       let! ppid := kload 8 (task_pid (_current s)) in
       kstore 8 (task_ppid child) ppid ;;
       set_state child TASK_RUNNABLE ;;
       kstore 8 (regs_rax child_regs) 0 ;;
       let! pid := kload 8 (task_pid child) in
       rret pid)%K.

(** The rest of the handler when the scheduler comes back is [panic_on_reach]. *)
Definition sys_exit (regs : Z) : R Z :=
  (let! code := syscall_arg0 regs in
   let! s := kget in
   let cur := _current s in
   kstore 4 (task_exitcode cur) code ;;
   set_state cur TASK_ZOMBIE ;;
   let! ppid := kload 8 (task_ppid cur) in
   let parent := task_at s ppid in
   let! pstate := get_state parent in
   let! wait_pid := kload 8 (task_wait_pid parent) in
   let! pid := kload 8 (task_pid cur) in
   (if (pstate =? TASK_WAITING) && (wait_pid =? pid) then set_state parent TASK_RUNNABLE else kret tt) ;;
   let* _ := sched_switch in
   panic "reached unreachable")%K.

(** if (status != NULL): [Some err] when the address is refused. *)
Definition write_status (fuel : nat) (status child : Z) : K kst (option Z) :=
  if status =? NULL then kret None
  else
    (let! s := kget in
     let! area := in_vm (vmem_is_mapped fuel (task_vmem (_current s)) status) in
     if area =? NULL then kret (Some (- EINVAL))
     else
       let! flags := in_vm (vload (area_flags area)) in
       if Z.land flags (Z.lor VMEM_USER VMEM_WRITE) =? 0 then kret (Some (- EINVAL))
       else
         let! exitcode := kload 4 (task_exitcode child) in
         in_vm (user_store fuel 4 status exitcode) ;;
         kret None)%K.

Definition sys_wait (fuel : nat) (regs : Z) : R Z :=
  (let! child_pid := syscall_arg0 regs in
   let! s := kget in
   let child := task_at s child_pid in
   let! ppid := kload 8 (task_ppid child) in
   let! pid := kload 8 (task_pid (_current s)) in
   if negb (ppid =? pid) then rret (- ECHILD)
   else
     let! state := get_state child in
     let* _ :=
       (if negb (state =? TASK_ZOMBIE) then
          set_state (_current s) TASK_WAITING ;;
          kstore 8 (task_wait_pid (_current s)) child_pid ;;
          let* _ := sched_switch in
          (let! state := get_state child in
           kassert (state =? TASK_ZOMBIE) "tasks[child_pid].state == TASK_ZOMBIE" ;;
           rret tt)
        else rret tt)%K in
     (let! status := syscall_arg1 regs in
      let! err := write_status fuel status child in
      match err with
      | Some e => rret e
      | None =>
          set_state child TASK_NOT_ALLOCATED ;;
          let! s := kget in
          let! pid := kload 8 (task_pid (_current s)) in
          kprintk "sys_wait: pid %d reaped child with pid %d
" [ANum pid; ANum child_pid] ;;
          rret 0
      end)%K)%K.

(** The result is returned as a [uint64_t]. *)
Definition do_syscall (fuel : nat) (sym : symbols) (sysno regs : Z) : R Z :=
  (let* res :=
     (if SYS_MAX <=? sysno then rret (- ENOSYS)
      else if sysno =? SYS_SLEEP then sys_sleep regs
      else if sysno =? SYS_FORK then sys_fork fuel sym regs
      else if sysno =? SYS_GETPID then sys_getpid regs
      else if sysno =? SYS_EXIT then sys_exit regs
      else sys_wait fuel regs) in
   rret (u64 res))%K.

(** ** Interrupts *)

(** exc_names, by index: [None] past its end, where C reads outside the array. *)
Definition exc_names : list string :=
  [ "Divide error"; "Debug"; "Non-Maskable Interrupt"; "Breakpoint"; "Overflow"; "BOUND Range Exceeded";
    "Invalid Opcode"; "Device Not Available"; "Double Fault"; "Unknown exception"; "Invalid TSS";
    "Segment Not Present"; "Stack Fault"; "General Protection"; "Page Fault"; "Unknown exception";
    "x87 FPU Floating-Point Error"; "Alignment Check"; "Machine Check"; "SIMD Floating-Point Exception";
    "Virtualization Exception"; "Control Protection Exception" ]%string.

Definition get_irq_name {S} (irq_num : Z) : K S string :=
  if irq_num <? 0 then khalt (Undefined "exc_names[irq_num]")
  else if irq_num <=? Z.of_nat (length exc_names) then
    match exc_names !! Z.to_nat irq_num with
    | Some name => kret name
    | None => khalt (Undefined "exc_names[irq_num]")
    end
  else if irq_num =? IRQ_TIMER then kret "Timer"%string
  else if irq_num =? IRQ_SPURIOUS then kret "Spurious"%string
  else kret "Unknown IRQ"%string.

(** apic_eoi. *)
Definition eoi : K kst unit := (let! s := kget in in_vm (in_kmem (apic_eoi (lapic_ptr s))))%K.

Definition timer_handler : R unit := (eoi ;; sched_timer_tick)%K.
Definition spurious_handler : K kst unit := eoi.

(** The registers [dump] prints, by their offset in arch_regs_t. *)
Definition dumped_regs : list Z := [112; 104; 96; 88; 80; 72; 56; 48; 40; 32; 24; 16; 8; 0; 136].

Fixpoint load_regs (ctx : Z) (offs : list Z) : K kst (list arg) :=
  match offs with
  | [] => kret []
  | o :: offs =>
      (let! v := kload 8 (u64 (ctx + o)) in
       let! vs := load_regs ctx offs in
       kret (ANum v :: vs))%K
  end.

Definition dump_format : string :=
  "RAX: 0x%x RBX: 0x%x
RCX: 0x%x RDX: 0x%x
RSI: 0x%x RDI: 0x%x
R8: 0x%x R9: 0x%x
R10: 0x%x R11: 0x%x
R12: 0x%x R13: 0x%x
R14: 0x%x R15: 0x%x
RIP: 0x%x CS: 0x%x
"%string.

Definition dump (cr2 ctx : Z) : K kst unit :=
  (let! irq_num := kload 8 (regs_irq_num ctx) in
   let! name := get_irq_name (s32 irq_num) in
   kprintk "Unhandled IRQ %d [%s]
" [ANum irq_num; AStr (chars name)] ;;
   let! errcode := kload 8 (u64 (ctx + 128)) in
   kprintk "Error code: %d
" [ANum errcode] ;;
   (if irq_num =? IRQ_PF then kprintk "Fault address: %p
" [ANum cr2] else kret tt) ;;
   let! regs := load_regs ctx dumped_regs in
   let! cs := kload 2 (regs_cs ctx) in
   kprintk dump_format (regs ++ [ANum cs]))%K.

(** [cr2] is the register with the address of the last page fault. *)
Definition irq_handler (fuel : nat) (cr2 ctx : Z) : R unit :=
  (let! irq_num := kload 8 (regs_irq_num ctx) in
   let! handled := (if irq_num =? IRQ_PF then in_vm (vmem_handle_pf fuel cr2) else kret false) in
   if handled then rret tt
   else if irq_num =? IRQ_TIMER then timer_handler
   else if irq_num =? IRQ_SPURIOUS then rlift spurious_handler
   else dump cr2 ctx ;; panic "Unhandled IRQ")%K.
