(* ===== verification/User.v ===== *)
(** * sched/user.c: the first user program

    User code is a program over system calls: what it returns, or a call with
    its number and arguments and the rest of the program for each answer. *)

From S2P Require Import Prelude Mem Common DList Buddy Paging FrameAlloc Obj Vmem Multiboot Fb Console Printk Acpi Kst Arch Sched Apic Syscall.

Inductive prog (A : Type) : Type :=
  | Result (a : A)
  | Sys (sysno arg0 arg1 : Z) (k : Z -> prog A).
Arguments Result {A} _.
Arguments Sys {A} _ _ _ _.

Fixpoint pbind {A B} (p : prog A) (f : A -> prog B) : prog B :=
  match p with
  | Result a => f a
  | Sys n a0 a1 k => Sys n a0 a1 (fun r => pbind (k r) f)
  end.

Declare Scope prog_scope.
Delimit Scope prog_scope with P.
Notation "'let!' x ':=' m 'in' k" := (pbind m (fun x => k))
  (at level 10, x pattern, m at level 100, k at level 200,
   format "'let!'  x  ':='  m  'in' '//' k") : prog_scope.

(** SYSCALL0 to SYSCALL2: the answer is an [int64_t]; a register that holds no
    argument is 0. *)
Definition SYSCALL0 (n : Z) : prog Z := Sys n 0 0 (fun res => Result (s64 res)).
Definition SYSCALL1 (n arg0 : Z) : prog Z := Sys n arg0 0 (fun res => Result (s64 res)).
Definition SYSCALL2 (n arg0 arg1 : Z) : prog Z := Sys n arg0 arg1 (fun res => Result (s64 res)).

Definition getpid : prog Z := SYSCALL0 SYS_GETPID.
Definition sleep (arg : Z) : prog Z := SYSCALL1 SYS_SLEEP (u64 arg).
Definition fork : prog Z := SYSCALL0 SYS_FORK.
Definition exit (arg : Z) : prog Z := SYSCALL1 SYS_EXIT (u64 arg).
Definition wait (pid status : Z) : prog Z := SYSCALL2 SYS_WAIT (u64 pid) status.

(** [status] is the address of main's local variable. *)
Definition main (status : Z) : prog Z :=
  (let! child_pid := fork in
   let child_pid := s32 child_pid in
   if child_pid <? 0 then Result (-1)
   else if child_pid =? 0 then
     let! _ := sleep 4000 in
     Result 0
   else
     let! _ := sleep 2000 in
     let! _ := wait child_pid status in
     Result 0)%P.

Definition user_program (status : Z) : prog unit :=
  (let! res := main status in
   let! _ := exit res in
   Result tt)%P.
