(* ===== verification/Early.v ===== *)
(** * boot/early.c: the page tables of the boot

    This code runs with physical addresses, mapped to themselves by boot.asm.
    An access to a physical address is an access to the byte the direct
    mapping shows it at, so that the tables it leaves are the ones the
    processor's [page_walk] reads. *)

From S2P Require Import Prelude Mem Common DList Buddy Paging FrameAlloc Obj Vmem Multiboot Fb Console Printk Kst.

(** The physical addresses of the static tables and variables. *)
Record early_tables := EarlyTables {
  early_pml4 : Z;
  direct_phys_mapping_pdpts : Z;
  higher_half_pdpt : Z;
  higher_half_pgdirs : Z;
  early_data : Z;
}.

Definition KERNEL_DIRECT_PHYS_MAPPING_SIZE_IN_GB : Z := KERNEL_DIRECT_PHYS_MAPPING_SIZE / GB.

(** &table->entries[idx], and the i-th table of an array. *)
Definition phys_entry (table idx : Z) : Z := u64 (table + 8 * idx).
Definition table_at (tables i : Z) : Z := u64 (tables + PAGE_SIZE * i).

Definition early_store (addr v : Z) : K mem unit := store64 (PHYS_TO_VIRT addr) v.

Definition large_entry (phys_addr : Z) : Z :=
  Z.lor (Z.lor (Z.lor phys_addr PTE_PAGE_SIZE) PTE_PRESENT) PTE_WRITEABLE.
Definition link_entry (table : Z) : Z := Z.lor (Z.lor table PTE_PRESENT) PTE_WRITEABLE.

(** for (j = 0; j < 512; j++), [n] rounds left. *)
Fixpoint early_pdpt_loop (pdpt phys_addr j : Z) (n : nat) : K mem unit :=
  match n with
  | O => kret tt
  | S n =>
      (early_store (phys_entry pdpt j) (large_entry phys_addr) ;;
       early_pdpt_loop pdpt (u64 (phys_addr + GB)) (j + 1) n)%K
  end.

(** for (i = 0; i < DIV_ROUNDUP(..., 512); i++), [n] rounds left. *)
Fixpoint early_direct_loop (t : early_tables) (i : Z) (n : nat) : K mem unit :=
  match n with
  | O => kret tt
  | S n =>
      let phys_addr := u64 (i * 512 * GB) in
      let virt_addr := u64 (KERNEL_DIRECT_PHYS_MAPPING_START + phys_addr) in
      let pdpt := table_at (direct_phys_mapping_pdpts t) i in
      (early_pdpt_loop pdpt phys_addr 0 512 ;;
       early_store (phys_entry (early_pml4 t) (PML4E_FROM_ADDR virt_addr)) (link_entry pdpt) ;;
       early_direct_loop t (i + 1) n)%K
  end.

(** while (phys_addr_curr < phys_addr_end); the address the loop ends with. *)
Fixpoint early_sections_loop (fuel : nat) (t : early_tables) (virt_addr_curr phys_addr_curr phys_addr_end : Z) :
    K mem Z :=
  match fuel with
  | O => khalt NoFuel
  | S fuel =>
      if phys_addr_curr <? phys_addr_end then
        let pgdir_idx := u64 (PDPE_FROM_ADDR virt_addr_curr - PDPE_FROM_ADDR KERNEL_SECTIONS_START) in
        let pgdir := table_at (higher_half_pgdirs t) pgdir_idx in
        (early_store (phys_entry pgdir (PDE_FROM_ADDR virt_addr_curr)) (large_entry phys_addr_curr) ;;
         let virt_addr_curr := u64 (virt_addr_curr + 2 * MB) in
         early_store (phys_entry (higher_half_pdpt t) (PDPE_FROM_ADDR virt_addr_curr)) (link_entry pgdir) ;;
         early_sections_loop fuel t virt_addr_curr (u64 (phys_addr_curr + 2 * MB)) phys_addr_end)%K
      else kret virt_addr_curr
  end.

Definition early_setup_paging (fuel : nat) (t : early_tables) (sym : symbols) : K mem unit :=
  (early_direct_loop t 0 (Z.to_nat (DIV_ROUNDUP KERNEL_DIRECT_PHYS_MAPPING_SIZE_IN_GB 512)) ;;
   let! virt_addr_curr := early_sections_loop fuel t KERNEL_SECTIONS_START (_phys_start_hh sym)
                            (_phys_end_kernel_sections sym) in
   early_store (phys_entry (early_pml4 t) (PML4E_FROM_ADDR virt_addr_curr)) (link_entry (higher_half_pdpt t)))%K.

(** The interrupt masks go to ports of the old controller. *)
Definition early_init (fuel : nat) (t : early_tables) (sym : symbols) (mb_early_boot_info : Z) : K mem unit :=
  (early_setup_paging fuel t sym ;;
   early_store (early_data t) (PHYS_TO_VIRT mb_early_boot_info))%K.
