(* ===== verification/EarlySpec.v ===== *)
(** * What the boot's page tables translate *)

From S2P Require Import Prelude Mem Common DList Buddy Paging FrameAlloc FrameRefine FrameZones FrameSession FrameInit.
From S2P Require Import FrameClient Obj Vmem PageTable Multiboot Fb Console Printk Kst Early.

Abbreviation DIRECT := KERNEL_DIRECT_PHYS_MAPPING_START.

(** ** Entries *)

Lemma PTE_WRITEABLE_ok : pte_flags_ok PTE_WRITEABLE.
Proof. intros i Hi. unfold PTE_WRITEABLE. rewrite Z.shiftl_1_l, testbit_pow2 by done. case_bool_decide; [lia|done]. Qed.

Lemma large_entry_ok phys :
  0 <= phys < 2 ^ 48 -> aligned PAGE_SIZE phys ->
  let e := large_entry phys in
  has e PTE_PRESENT = true /\ has e PTE_PAGE_SIZE = true /\ PTE_ADDR e = phys /\ u64 e = e.
Proof.
  intros Hp Ha. unfold large_entry.
  rewrite <- (Z.lor_assoc phys), (Z.lor_comm PTE_PAGE_SIZE), Z.lor_assoc.
  exact (made_entry phys PTE_PAGE_SIZE PTE_WRITEABLE Hp Ha PTE_WRITEABLE_ok ltac:(done) (or_intror eq_refl)).
Qed.

Lemma link_entry_ok table :
  0 <= table < 2 ^ 48 -> aligned PAGE_SIZE table ->
  let e := link_entry table in
  has e PTE_PRESENT = true /\ has e PTE_PAGE_SIZE = false /\ PTE_ADDR e = table /\ u64 e = e.
Proof. intros Hp Ha. exact (made_page_entry table PTE_WRITEABLE Hp Ha PTE_WRITEABLE_ok ltac:(done)). Qed.

(** Entry [idx] of the table at the physical address [tbl]. *)
Definition E (m : mem) (tbl idx : Z) : Z := ld64 m (DIRECT + tbl + 8 * idx).

(** A page of physical memory the direct mapping shows. *)
Definition phys_ok (p n : Z) : Prop := 0 <= p /\ p + n <= 2 ^ 46 /\ aligned PAGE_SIZE p.

Lemma early_store_ok tbl idx v m :
  phys_ok tbl PAGE_SIZE -> 0 <= idx < 512 ->
  early_store (phys_entry tbl idx) v m = Ret (tt, st64 m (DIRECT + tbl + 8 * idx) v).
Proof.
  intros (H1 & H2 & _) Hi. unfold PAGE_SIZE in H2. unfold early_store, phys_entry, PHYS_TO_VIRT, DIRECT.
  rewrite (u64_small (tbl + _)), u64_small by lia.
  replace (0xffff888000000000 + (tbl + 8 * idx)) with (0xffff888000000000 + tbl + 8 * idx) by lia.
  apply store_ok, kok_true; unfold KERNEL_HIGHER_HALF_START; lia.
Qed.

Lemma E_st m tbl idx v tbl' idx' :
  apart (tbl + 8 * idx) 8 (tbl' + 8 * idx') 8 ->
  E (st64 m (DIRECT + tbl + 8 * idx) v) tbl' idx' = E m tbl' idx'.
Proof. intros H. unfold E. apply ld64_st64_ne. unfold apart in *. lia. Qed.

Lemma E_st_same m tbl idx v : E (st64 m (DIRECT + tbl + 8 * idx) v) tbl idx = u64 v.
Proof. apply ld64_st64_same. Qed.

Lemma E_agree P m m' tbl idx :
  agree P m m' -> (forall a, in_range (DIRECT + tbl + 8 * idx) 8 a -> P a) -> E m' tbl idx = E m tbl idx.
Proof. intros H HP. apply (ld_agree 8 P); [done|exact HP]. Qed.

Lemma phys_aligned k n : aligned PAGE_SIZE k -> aligned PAGE_SIZE (k + PAGE_SIZE * n).
Proof. intros H. apply aligned_add; [done|]. rewrite Z.mul_comm. apply aligned_mul_l. Qed.

Lemma GB_aligned n : aligned PAGE_SIZE (n * GB).
Proof. change GB with (262144 * PAGE_SIZE). rewrite Z.mul_assoc. apply aligned_mul_l. Qed.

(** ** The direct mapping *)

Lemma early_pdpt_loop_ok pdpt n j g m :
  phys_ok pdpt PAGE_SIZE -> 0 <= j -> j + Z.of_nat n = 512 -> 0 <= g -> (g + Z.of_nat n) * GB < 2 ^ 48 ->
  exists m', early_pdpt_loop pdpt (g * GB) j n m = Ret (tt, m') /\
    (forall k, j <= k < 512 -> E m' pdpt k = large_entry ((g + (k - j)) * GB)) /\
    agree (fun a => ~ in_range (DIRECT + pdpt + 8 * j) (8 * Z.of_nat n) a) m m'.
Proof.
  intros Hp. revert j g m; induction n as [|n IH]; intros j g m Hj Hn Hg Hb; cbn [early_pdpt_loop].
  { exists m. split; [done|]. split; [lia|done]. }
  rewrite (kbind_Ret _ _ _ _ _ (early_store_ok pdpt j _ m Hp ltac:(lia))).
  set (m1 := st64 m (DIRECT + pdpt + 8 * j) (large_entry (g * GB))).
  replace (u64 (g * GB + GB)) with ((g + 1) * GB) by (rewrite u64_small; unfold GB in *; lia).
  destruct (IH (j + 1) (g + 1) m1) as (m' & H1 & H2 & H3); [lia|lia|lia|unfold GB in *; lia|].
  exists m'. split; [exact H1|]. split.
  - intros k Hk. destruct (Z.eq_dec k j) as [->|Hne].
    + rewrite (E_agree _ m1 m' pdpt j H3) by (unfold in_range; lia). unfold m1. rewrite E_st_same.
      rewrite Z.sub_diag, Z.add_0_r. apply large_entry_ok; [unfold GB in *; lia|apply GB_aligned].
    + rewrite H2 by lia. f_equal. lia.
  - apply (agree_trans _ _ m1).
    + eapply agree_weaken; [apply (st_agree 8)|]. unfold in_range. intros a Ha. lia.
    + eapply agree_weaken; [exact H3|]. unfold in_range. intros a Ha. lia.
Qed.

Section Tables.
Context (t : early_tables).

Record tables_ok : Prop := {
  to_pml4 : phys_ok (early_pml4 t) PAGE_SIZE;
  to_pdpts : phys_ok (direct_phys_mapping_pdpts t) (128 * PAGE_SIZE);
  to_hh : phys_ok (higher_half_pdpt t) PAGE_SIZE;
  to_dirs : phys_ok (higher_half_pgdirs t) (2 * PAGE_SIZE);
  to_apart : pairwise (fun a b => apart a.1 a.2 b.1 b.2)
    [(early_pml4 t, PAGE_SIZE); (direct_phys_mapping_pdpts t, 128 * PAGE_SIZE);
     (higher_half_pdpt t, PAGE_SIZE); (higher_half_pgdirs t, 2 * PAGE_SIZE)];
}.

Hypothesis Ht : tables_ok.

Lemma tables_apart :
  let '(a, b, c, d) := (early_pml4 t, direct_phys_mapping_pdpts t, higher_half_pdpt t, higher_half_pgdirs t) in
  apart a 4096 b (128 * 4096) /\ apart a 4096 c 4096 /\ apart a 4096 d (2 * 4096) /\
  apart b (128 * 4096) c 4096 /\ apart b (128 * 4096) d (2 * 4096) /\ apart c 4096 d (2 * 4096).
Proof.
  destruct (to_apart Ht) as (H1 & H2 & H3 & _). change PAGE_SIZE with 4096 in *.
  split_and!; [apply (H1 (_, _))|apply (H1 (_, _))|apply (H1 (_, _))|apply (H2 (_, _))|apply (H2 (_, _))|apply (H3 (_, _))];
    repeat (apply list_elem_of_here || apply list_elem_of_further).
Qed.

Lemma PML4E_direct k : 0 <= k < 128 -> PML4E_FROM_ADDR (DIRECT + k * 512 * GB) = 273 + k.
Proof.
  intros Hk. unfold PML4E_FROM_ADDR, DIRECT, GB. change 0x1ff with (Z.ones 9).
  rewrite Z.land_ones, Z.shiftr_div_pow2 by lia. Z.to_euclidean_division_equations. lia.
Qed.

Lemma early_direct_loop_ok n i m :
  0 <= i -> i + Z.of_nat n = 128 ->
  exists m', early_direct_loop t i n m = Ret (tt, m') /\
    (forall k j, i <= k < 128 -> 0 <= j < 512 ->
       E m' (direct_phys_mapping_pdpts t + PAGE_SIZE * k) j = large_entry ((k * 512 + j) * GB)) /\
    (forall k, i <= k < 128 ->
       E m' (early_pml4 t) (273 + k) = link_entry (direct_phys_mapping_pdpts t + PAGE_SIZE * k)) /\
    agree (fun a => ~ in_range (DIRECT + direct_phys_mapping_pdpts t + PAGE_SIZE * i) (PAGE_SIZE * Z.of_nat n) a /\
                    ~ in_range (DIRECT + early_pml4 t + 8 * (273 + i)) (8 * Z.of_nat n) a) m m'.
Proof.
  destruct tables_apart as (Ap & _). pose proof (to_pml4 Ht) as Hp4. pose proof (to_pdpts Ht) as Hd.
  unfold apart in Ap. destruct Hd as (D1 & D2 & D3).
  revert i m; induction n as [|n IH]; intros i m Hi Hn; cbn [early_direct_loop].
  { exists m. split; [done|]. split; [lia|]. split; [lia|done]. }
  set (d := direct_phys_mapping_pdpts t) in *. set (p4 := early_pml4 t) in *.
  rewrite (u64_small (i * 512 * GB)) by (unfold GB; lia).
  rewrite (u64_small (DIRECT + i * 512 * GB)) by (unfold GB, DIRECT; lia). rewrite PML4E_direct by lia.
  unfold table_at. rewrite (u64_small (d + PAGE_SIZE * i)) by (unfold PAGE_SIZE in *; lia).
  set (pd := d + PAGE_SIZE * i).
  assert (Hpd : phys_ok pd PAGE_SIZE).
  { unfold pd. split_and!; [unfold PAGE_SIZE; lia|unfold PAGE_SIZE in *; lia|by apply phys_aligned]. }
  destruct (early_pdpt_loop_ok pd 512 0 (i * 512) m Hpd) as (m1 & H1 & H2 & H3);
    [lia|lia|lia|unfold GB; lia|].
  kstep H1. rewrite (kbind_Ret _ _ _ _ _ (early_store_ok p4 (273 + i) _ m1 Hp4 ltac:(lia))).
  set (m2 := st64 m1 (DIRECT + p4 + 8 * (273 + i)) (link_entry pd)).
  destruct (IH (i + 1) m2) as (m' & J1 & J2 & J3 & J4); [lia|lia|].
  exists m'. unfold PAGE_SIZE in *. split; [exact J1|]. split; [|split].
  - intros k j Hk Hj. destruct (Z.eq_dec k i) as [->|]; [|apply J2; lia]. fold pd.
    rewrite (E_agree _ m2 m' pd j J4) by (unfold in_range, pd in *; lia).
    unfold m2. rewrite E_st by (unfold apart, pd; lia). rewrite H2 by lia. f_equal. lia.
  - intros k Hk. destruct (Z.eq_dec k i) as [->|]; [|apply J3; lia]. fold pd.
    rewrite (E_agree _ m2 m' p4 (273 + i) J4) by (unfold in_range in *; lia).
    unfold m2. rewrite E_st_same. apply link_entry_ok; [lia|apply Hpd].
  - apply (agree_trans _ _ m1); [|apply (agree_trans _ _ m2)].
    + eapply agree_weaken; [exact H3|]. unfold in_range, pd. intros a Ha. lia.
    + eapply agree_weaken; [apply (st_agree 8)|]. unfold in_range. intros a Ha. lia.
    + eapply agree_weaken; [exact J4|]. unfold in_range. intros a Ha. lia.
Qed.

(** ** The kernel's sections *)

Lemma PDE_sections k : 0 <= k < 512 -> PDE_FROM_ADDR (KERNEL_SECTIONS_START + k * (2 * MB)) = k.
Proof.
  intros Hk. unfold PDE_FROM_ADDR, KERNEL_SECTIONS_START, MB. change 0x1ff with (Z.ones 9).
  rewrite Z.land_ones, Z.shiftr_div_pow2 by lia. Z.to_euclidean_division_equations. lia.
Qed.

Lemma PDPE_sections x : 0 <= x < GB -> PDPE_FROM_ADDR (KERNEL_SECTIONS_START + x) = 510.
Proof.
  intros Hk. unfold PDPE_FROM_ADDR, KERNEL_SECTIONS_START, GB in *. change 0x1ff with (Z.ones 9).
  rewrite Z.land_ones, Z.shiftr_div_pow2 by lia. Z.to_euclidean_division_equations. lia.
Qed.

Lemma PML4E_sections x : 0 <= x < GB -> PML4E_FROM_ADDR (KERNEL_SECTIONS_START + x) = 511.
Proof.
  intros Hk. unfold PML4E_FROM_ADDR, KERNEL_SECTIONS_START, GB in *. change 0x1ff with (Z.ones 9).
  rewrite Z.land_ones, Z.shiftr_div_pow2 by lia.
  rewrite <- (Z.div_unique (0xffffffff80000000 + x) (2 ^ 39) 33554431 (0x7f80000000 + x)); [done|left; lia|lia].
Qed.

Context (start end_ N : Z).
Hypothesis Hstart : 0 <= start < 2 ^ 46.
Hypothesis Haligned : aligned (2 * MB) start.
Hypothesis HN : 1 <= N <= 511.
Hypothesis Hend : start + (N - 1) * (2 * MB) < end_ <= start + N * (2 * MB).

Lemma sections_aligned k : aligned PAGE_SIZE (start + k * (2 * MB)).
Proof.
  apply (aligned_trans PAGE_SIZE (2 * MB)); [by exists 512|]. apply aligned_add; [done|apply aligned_mul_l].
Qed.

Lemma early_sections_loop_ok fuel n k m :
  0 <= k -> k + Z.of_nat n = N -> (n < fuel)%nat ->
  exists m', early_sections_loop fuel t (KERNEL_SECTIONS_START + k * (2 * MB)) (start + k * (2 * MB)) end_ m =
      Ret (KERNEL_SECTIONS_START + N * (2 * MB), m') /\
    (forall j, k <= j < N -> E m' (higher_half_pgdirs t) j = large_entry (start + j * (2 * MB))) /\
    ((0 < n)%nat -> E m' (higher_half_pdpt t) 510 = link_entry (higher_half_pgdirs t)) /\
    agree (fun a => ~ in_range (DIRECT + higher_half_pgdirs t + 8 * k) (8 * Z.of_nat n) a /\
                    ~ in_range (DIRECT + higher_half_pdpt t + 8 * 510) 8 a) m m'.
Proof.
  destruct tables_apart as (_ & _ & _ & _ & _ & Ap). unfold apart in Ap.
  pose proof (to_hh Ht) as Hh. pose proof (to_dirs Ht) as (D1 & D2 & D3).
  set (gd := higher_half_pgdirs t) in *. set (hp := higher_half_pdpt t) in *.
  assert (Hgd : phys_ok gd PAGE_SIZE) by (split_and!; [done|unfold PAGE_SIZE in *; lia|done]).
  revert fuel k m; induction n as [|n IH]; intros fuel k m Hk Hn Hf; (destruct fuel as [|fuel]; [lia|]);
    cbn [early_sections_loop].
  { replace k with N by lia. rewrite (proj2 (Z.ltb_ge _ end_)) by lia. exists m.
    split; [done|]. split; [lia|]. split; [lia|done]. }
  rewrite (proj2 (Z.ltb_lt _ end_)) by (unfold MB in *; lia).
  rewrite PDPE_sections by (unfold GB, MB; lia).
  replace (PDPE_FROM_ADDR KERNEL_SECTIONS_START) with 510 by reflexivity.
  change (u64 (510 - 510)) with 0. fold gd hp. unfold table_at. rewrite Z.mul_0_r, Z.add_0_r.
  rewrite (u64_small gd) by (unfold PAGE_SIZE in *; lia). rewrite PDE_sections by lia.
  rewrite (kbind_Ret _ _ _ _ _ (early_store_ok gd k _ m Hgd ltac:(lia))).
  set (m1 := st64 m (DIRECT + gd + 8 * k) _).
  rewrite (u64_small (KERNEL_SECTIONS_START + k * (2 * MB) + 2 * MB)) by (unfold KERNEL_SECTIONS_START, MB; lia).
  replace (KERNEL_SECTIONS_START + k * (2 * MB) + 2 * MB) with (KERNEL_SECTIONS_START + (k + 1) * (2 * MB)) by lia.
  rewrite PDPE_sections by (unfold GB, MB; lia).
  rewrite (kbind_Ret _ _ _ _ _ (early_store_ok hp 510 _ m1 Hh ltac:(lia))).
  set (m2 := st64 m1 (DIRECT + hp + 8 * 510) _).
  rewrite (u64_small (start + k * (2 * MB) + 2 * MB)) by (unfold MB; lia).
  replace (start + k * (2 * MB) + 2 * MB) with (start + (k + 1) * (2 * MB)) by lia.
  destruct (IH fuel (k + 1) m2) as (m' & J1 & J2 & J3 & J4); [lia|lia|lia|].
  assert (H2 : E m2 hp 510 = link_entry gd).
  { unfold m2. rewrite E_st_same. apply link_entry_ok; [unfold PAGE_SIZE in *; lia|apply Hgd]. }
  exists m'. unfold PAGE_SIZE in *. split; [exact J1|]. split; [|split].
  - intros j Hj. destruct (Z.eq_dec j k) as [->|]; [|apply J2; lia].
    rewrite (E_agree _ m2 m' gd k J4) by (unfold in_range in *; lia).
    unfold m2. rewrite E_st by (unfold apart; lia). unfold m1. rewrite E_st_same.
    apply large_entry_ok; [unfold MB; lia|apply sections_aligned].
  - intros _. destruct n as [|n]; [|apply J3; lia].
    destruct fuel as [|fuel]; [lia|]. cbn [early_sections_loop] in J1.
    rewrite (proj2 (Z.ltb_ge _ end_)) in J1 by (replace (k + 1) with N by lia; lia). by injection J1 as _ <-.
  - apply (agree_trans _ _ m1); [|apply (agree_trans _ _ m2)].
    + eapply agree_weaken; [apply (st_agree 8)|]. unfold in_range. intros a Ha. lia.
    + eapply agree_weaken; [apply (st_agree 8)|]. unfold in_range. intros a Ha. lia.
    + eapply agree_weaken; [exact J4|]. unfold in_range. intros a Ha. lia.
Qed.
End Tables.
Arguments to_pml4 {t} _.
Arguments to_pdpts {t} _.
Arguments to_hh {t} _.
Arguments to_dirs {t} _.
Arguments to_apart {t} _.


(** ** The walks *)

Lemma entry_addr_phys tbl idx :
  phys_ok tbl PAGE_SIZE -> 0 <= idx < 512 -> entry_addr (PHYS_TO_VIRT tbl) idx = DIRECT + tbl + 8 * idx.
Proof.
  intros (H1 & H2 & _) Hi. unfold entry_addr, PHYS_TO_VIRT, PAGE_SIZE in *.
  rewrite (u64_small (DIRECT + tbl)), u64_small by (unfold DIRECT; lia). done.
Qed.

Lemma table_entry_link m tbl idx table :
  phys_ok tbl PAGE_SIZE -> 0 <= idx < 512 -> phys_ok table PAGE_SIZE -> E m tbl idx = link_entry table ->
  exists e, table_entry m (PHYS_TO_VIRT tbl) idx = Some e /\ PTE_ADDR e = table /\ has e PTE_PAGE_SIZE = false.
Proof.
  intros Ht Hi (T1 & T2 & T3) He. exists (link_entry table). unfold PAGE_SIZE in T2.
  destruct (link_entry_ok table) as (H1 & H2 & H3 & _); [lia|done|].
  unfold table_entry, present. rewrite entry_addr_phys by done. fold (E m tbl idx). by rewrite He, H1.
Qed.

Lemma table_entry_large m tbl idx phys :
  phys_ok tbl PAGE_SIZE -> 0 <= idx < 512 -> 0 <= phys < 2 ^ 48 -> aligned PAGE_SIZE phys ->
  E m tbl idx = large_entry phys ->
  exists e, table_entry m (PHYS_TO_VIRT tbl) idx = Some e /\ PTE_ADDR e = phys /\ has e PTE_PAGE_SIZE = true.
Proof.
  intros Ht Hi Hp Ha He. exists (large_entry phys).
  destruct (large_entry_ok phys Hp Ha) as (H1 & H2 & H3 & _).
  unfold table_entry, present. rewrite entry_addr_phys by done. fold (E m tbl idx). by rewrite He, H1.
Qed.

Section Walk.
Context (t : early_tables) (start N : Z) (m : mem).
Hypothesis Ht : tables_ok t.
Hypothesis Hstart : 0 <= start < 2 ^ 46.
Hypothesis Haligned : aligned (2 * MB) start.
Hypothesis HN : 1 <= N <= 511.
Hypothesis Hpdpts : forall k j, 0 <= k < 128 -> 0 <= j < 512 ->
  E m (direct_phys_mapping_pdpts t + PAGE_SIZE * k) j = large_entry ((k * 512 + j) * GB).
Hypothesis Hpml4 : forall k, 0 <= k < 128 ->
  E m (early_pml4 t) (273 + k) = link_entry (direct_phys_mapping_pdpts t + PAGE_SIZE * k).
Hypothesis Hlast : E m (early_pml4 t) 511 = link_entry (higher_half_pdpt t).
Hypothesis Hhh : E m (higher_half_pdpt t) 510 = link_entry (higher_half_pgdirs t).
Hypothesis Hdirs : forall j, 0 <= j < N -> E m (higher_half_pgdirs t) j = large_entry (start + j * (2 * MB)).

Lemma walk_direct x : 0 <= x < 2 ^ 46 -> page_walk m (early_pml4 t) (DIRECT + x) = Some x.
Proof.
  intros Hx. set (k := x / 2 ^ 39). set (j := x / GB mod 512).
  assert (Hk : 0 <= k < 128) by (unfold k; Z.to_euclidean_division_equations; lia).
  assert (Hj : 0 <= j < 512) by (apply Z.mod_pos_bound; lia).
  assert (I4 : PML4E_FROM_ADDR (DIRECT + x) = 273 + k).
  { unfold PML4E_FROM_ADDR, k, DIRECT. change 0x1ff with (Z.ones 9).
    rewrite Z.land_ones, Z.shiftr_div_pow2 by lia. Z.to_euclidean_division_equations. lia. }
  assert (I3 : PDPE_FROM_ADDR (DIRECT + x) = j).
  { unfold PDPE_FROM_ADDR, j, DIRECT, GB. change 0x1ff with (Z.ones 9).
    rewrite Z.land_ones, Z.shiftr_div_pow2 by lia.
    replace (0xffff888000000000 + x) with (x + 33554193 * 512 * 2 ^ 30) by lia.
    rewrite Z.div_add by lia. by rewrite Z.mod_add. }
  pose proof (to_pdpts Ht) as (D1 & D2 & D3).
  assert (Hpd : phys_ok (direct_phys_mapping_pdpts t + PAGE_SIZE * k) PAGE_SIZE).
  { split_and!; [unfold PAGE_SIZE; lia|unfold PAGE_SIZE in *; lia|by apply phys_aligned]. }
  unfold page_walk. rewrite I4, I3.
  destruct (table_entry_link m (early_pml4 t) (273 + k) _ (to_pml4 Ht) ltac:(lia) Hpd (Hpml4 k Hk))
    as (e4 & E4 & A4 & _).
  rewrite E4. cbn [mbind option_bind]. rewrite A4.
  destruct (table_entry_large m _ j ((k * 512 + j) * GB) Hpd Hj ltac:(unfold GB; lia) (GB_aligned _) (Hpdpts k j Hk Hj))
    as (e3 & E3 & A3 & S3).
  rewrite E3. cbn [mbind option_bind]. rewrite S3, A3. f_equal.
  rewrite ROUNDDOWN_spec by (unfold GB; lia). rewrite Z.div_mul by (unfold GB; lia).
  unfold k, j, GB, DIRECT. replace (0xffff888000000000 + x) with (x + 33554193 * 512 * 2 ^ 30) by lia.
  rewrite Z.mod_add by lia. change (2 ^ 39) with (2 ^ 30 * 512). rewrite <- Z.div_div by lia.
  pose proof (Z_div_mod_eq_full x (2 ^ 30)). pose proof (Z_div_mod_eq_full (x / 2 ^ 30) 512). lia.
Qed.

Lemma walk_sections x : 0 <= x < N * (2 * MB) ->
  page_walk m (early_pml4 t) (KERNEL_SECTIONS_START + x) = Some (start + x).
Proof.
  intros Hx. set (j := x / (2 * MB)).
  assert (Hj : 0 <= j < N) by (unfold j, MB in *; Z.to_euclidean_division_equations; lia).
  assert (I2 : PDE_FROM_ADDR (KERNEL_SECTIONS_START + x) = j).
  { unfold PDE_FROM_ADDR, KERNEL_SECTIONS_START, j, MB in *. change 0x1ff with (Z.ones 9).
    rewrite Z.land_ones, Z.shiftr_div_pow2 by lia.
    replace (0xffffffff80000000 + x) with (x + 17179869182 * 512 * 2 ^ 21) by lia.
    rewrite Z.div_add by lia. rewrite Z.mod_add by lia. change (2 * 2 ^ 20) with (2 ^ 21) in *.
    apply Z.mod_small. lia. }
  pose proof (to_dirs Ht) as (D1 & D2 & D3).
  assert (Hgd : phys_ok (higher_half_pgdirs t) PAGE_SIZE) by (split_and!; [done|unfold PAGE_SIZE in *; lia|done]).
  unfold page_walk. rewrite PML4E_sections, PDPE_sections, I2 by (unfold MB, GB in *; lia).
  destruct (table_entry_link m (early_pml4 t) 511 _ (to_pml4 Ht) ltac:(lia) (to_hh Ht) Hlast) as (e4 & E4 & A4 & _).
  rewrite E4. cbn [mbind option_bind]. rewrite A4.
  destruct (table_entry_link m (higher_half_pdpt t) 510 _ (to_hh Ht) ltac:(lia) Hgd Hhh) as (e3 & E3 & A3 & S3).
  rewrite E3. cbn [mbind option_bind]. rewrite S3, A3.
  destruct (table_entry_large m _ j (start + j * (2 * MB)) Hgd ltac:(lia) ltac:(unfold MB; lia) (sections_aligned _ Haligned _) (Hdirs j Hj))
    as (e2 & E2 & A2 & S2).
  rewrite E2. cbn [mbind option_bind]. rewrite S2, A2. f_equal.
  destruct Haligned as [q Hq]. rewrite ROUNDDOWN_spec by (unfold MB in *; lia).
  replace (start + j * (2 * MB)) with ((q + j) * (2 * MB)) by lia. rewrite Z.div_mul by (unfold MB; lia).
  unfold j, MB, KERNEL_SECTIONS_START in *.
  replace (0xffffffff80000000 + x) with (x + 17179869182 * 512 * (2 * 2 ^ 20)) by lia.
  rewrite Z.mod_add by lia. pose proof (Z_div_mod_eq_full x (2 * 2 ^ 20)). lia.
Qed.
End Walk.

Lemma early_setup_paging_ok t sym N fuel m :
  tables_ok t -> let start := _phys_start_hh sym in let end_ := _phys_end_kernel_sections sym in
  0 <= start < 2 ^ 46 -> aligned (2 * MB) start -> 1 <= N <= 511 ->
  start + (N - 1) * (2 * MB) < end_ <= start + N * (2 * MB) -> N < Z.of_nat fuel ->
  exists m', early_setup_paging fuel t sym m = Ret (tt, m') /\
    (forall x, 0 <= x < 2 ^ 46 -> page_walk m' (early_pml4 t) (DIRECT + x) = Some x) /\
    (forall x, 0 <= x < N * (2 * MB) -> page_walk m' (early_pml4 t) (KERNEL_SECTIONS_START + x) = Some (start + x)).
Proof.
  cbv zeta. intros Ht Hs Ha HN He Hf. set (start := _phys_start_hh sym) in *.
  destruct (tables_apart t Ht) as (A1 & A2 & A3 & A4 & A5 & A6). unfold apart in *.
  destruct (to_pml4 Ht) as (P1 & P2 & P3). destruct (to_pdpts Ht) as (D1 & D2 & D3).
  destruct (to_hh Ht) as (H1 & H2 & H3). destruct (to_dirs Ht) as (G1 & G2 & G3). unfold PAGE_SIZE in *.
  unfold early_setup_paging.
  replace (Z.to_nat (DIV_ROUNDUP KERNEL_DIRECT_PHYS_MAPPING_SIZE_IN_GB 512)) with 128%nat by (by vm_compute).
  destruct (early_direct_loop_ok t Ht 128 0 m) as (m1 & L1 & L2 & L3 & _); [lia|lia|].
  kstep L1.
  destruct (early_sections_loop_ok t Ht start (_phys_end_kernel_sections sym) N Hs Ha HN He fuel (Z.to_nat N) 0 m1)
    as (m2 & S1 & S2 & S3 & S4); [lia|lia|lia|].
  rewrite !Z.mul_0_l, !Z.add_0_r in S1. kstep S1.
  rewrite PML4E_sections by (unfold GB, MB; lia).
  rewrite (early_store_ok _ 511 _ m2 (to_pml4 Ht)) by lia.
  eexists. split; [reflexivity|]. set (m' := st64 m2 _ _).
  assert (Hkeep : forall tbl idx, 0 <= idx < 512 ->
            (tbl + 4096 <= higher_half_pgdirs t \/ higher_half_pgdirs t + 2 * 4096 <= tbl) ->
            (tbl + 4096 <= higher_half_pdpt t \/ higher_half_pdpt t + 4096 <= tbl) ->
            (tbl = early_pml4 t /\ idx <> 511) \/ (tbl + 4096 <= early_pml4 t \/ early_pml4 t + 4096 <= tbl) ->
            E m' tbl idx = E m1 tbl idx).
  { intros tbl idx Hi B1 B2 B3. unfold m'. rewrite E_st by (unfold apart; lia).
    apply (E_agree _ _ _ _ _ S4). unfold in_range. lia. }
  assert (W1 : forall k j, 0 <= k < 128 -> 0 <= j < 512 ->
            E m' (direct_phys_mapping_pdpts t + PAGE_SIZE * k) j = large_entry ((k * 512 + j) * GB)).
  { intros k j Hk Hj. unfold PAGE_SIZE in *. rewrite Hkeep by lia. by apply L2. }
  assert (W2 : forall k, 0 <= k < 128 ->
            E m' (early_pml4 t) (273 + k) = link_entry (direct_phys_mapping_pdpts t + PAGE_SIZE * k)).
  { intros k Hk. unfold PAGE_SIZE in *. rewrite Hkeep by lia. by apply L3. }
  assert (W3 : E m' (early_pml4 t) 511 = link_entry (higher_half_pdpt t)).
  { unfold m'. rewrite E_st_same. apply link_entry_ok; [lia|done]. }
  assert (W4 : E m' (higher_half_pdpt t) 510 = link_entry (higher_half_pgdirs t)).
  { unfold m'. rewrite E_st by (unfold apart; lia). apply S3. lia. }
  assert (W5 : forall j, 0 <= j < N -> E m' (higher_half_pgdirs t) j = large_entry (start + j * (2 * MB))).
  { intros j Hj. unfold m'. rewrite E_st by (unfold apart; lia). apply S2. lia. }
  split; intros x Hx; [eapply walk_direct|eapply walk_sections]; eassumption.
Qed.
