(* ===== verification/BootSpec.v ===== *)
(** * The boot information's tags and the calibration of the timer

    For the timer in both builds, with QEMU_PIT_HACK and without. *)

From S2P Require Import Prelude Mem Common DList Buddy Paging FrameAlloc Obj Vmem Multiboot Fb Console Printk Acpi Kst Arch Sched Apic.

(** ** The tags of the boot information *)

(** The tags from an address on, each with its type, up to the end tag. *)
Inductive tag_chain (m : mem) : Z -> list (Z * Z) -> Prop :=
  | tag_end a : kok a 8 = true -> ld 4 m a = MB_TAG_END -> tag_chain m a []
  | tag_next a type rest :
      kok a 8 = true -> ld 4 m a = type -> type <> MB_TAG_END ->
      tag_chain m (ROUNDUP (u64 (a + ld 4 m (a + 4))) MB_TAG_ALIGNMENT) rest ->
      tag_chain m a ((a, type) :: rest).

(** The last tag of a type, or [old]. *)
Definition last_tag (type old : Z) (l : list (Z * Z)) : Z :=
  fold_left (fun acc e => if e.2 =? type then e.1 else acc) l old.

Lemma tag_fields m a : kok a 8 = true -> tag_type a m = Ret (ld 4 m a, m) /\ tag_size a m = Ret (ld 4 m (a + 4), m).
Proof.
  intros Hk. pose proof (proj1 (kok_spec _ _) Hk) as [K1 K2]. unfold KERNEL_HIGHER_HALF_START in K1.
  unfold tag_type, tag_size. rewrite u64_small by lia.
  split; apply load_ok; (apply (kok_sub a 8); [done|lia|lia]).
Qed.

Lemma mb_tags_loop_ok fuel m a l st :
  tag_chain m a l -> (length l < fuel)%nat ->
  mb_tags_loop fuel st a m =
    Ret (MbState (mb_boot_info st) (last_tag MB_TAG_FB (mb_fb_info st) l) (last_tag MB_TAG_MEMMAP (mb_memmap_info st) l)
                 (last_tag MB_TAG_RSDP_V1 (mb_acpi_rsdp_v1 st) l) (last_tag MB_TAG_RSDP_V2 (mb_acpi_rsdp_v2 st) l), m).
Proof.
  intros Hc. revert fuel st; induction Hc as [a Hk He|a type rest Hk Ht Hne Hc IH]; intros fuel st Hf;
    (destruct fuel as [|fuel]; [cbn in Hf; lia|]); cbn [mb_tags_loop];
    destruct (tag_fields m a Hk) as [H1 H2]; kstep H1; kstep H2.
  - rewrite He. cbn. by destruct st.
  - rewrite Ht, (proj2 (Z.eqb_neq _ _)) by done. rewrite IH by (cbn in Hf; lia). do 2 f_equal.
    unfold mb_record_tag. destruct st as [info fb mm v1 v2]. unfold last_tag. cbn [fold_left fst snd].
    unfold MB_TAG_MEMMAP, MB_TAG_FB, MB_TAG_RSDP_V1, MB_TAG_RSDP_V2.
    destruct (Z.eqb_spec type 6) as [->|]; [done|]. destruct (Z.eqb_spec type 8) as [->|]; [done|].
    destruct (Z.eqb_spec type 14) as [->|]; [done|]. by destruct (Z.eqb_spec type 15) as [->|].
Qed.

(** A tag of size 0 at an aligned address is followed by itself. *)
Lemma mb_tags_loop_stuck fuel m a st :
  kok a 16 = true -> aligned 8 a -> ld 4 m a <> MB_TAG_END -> ld 4 m (a + 4) = 0 ->
  mb_tags_loop fuel st a m = Halt NoFuel.
Proof.
  intros Hk Ha Ht Hs. revert st; induction fuel as [|fuel IH]; intros st; [done|]. cbn [mb_tags_loop].
  pose proof (proj1 (kok_spec _ _) Hk) as [K1 K2]. unfold KERNEL_HIGHER_HALF_START in K1.
  destruct (tag_fields m a) as [H1 H2]; [by apply (kok_sub a 16); [|lia|lia]|]. kstep H1. kstep H2.
  rewrite (proj2 (Z.eqb_neq _ _)) by done. rewrite Hs, Z.add_0_r, u64_small by lia.
  unfold MB_TAG_ALIGNMENT. rewrite ROUNDUP_id by (done || lia). apply IH.
Qed.

(** ** The timer *)

(** The registers of the local APIC: a page from [p] on. *)
Definition lapic_ok (p : Z) : Prop := kok p PAGE_SIZE = true.

Definition ap_with (m : mem) (s : apic) : apic :=
  Apic (Acpi (Con m (con_fb (a_con (ap_acpi s))) (cons_initialized (a_con (ap_acpi s))) (cons_width (a_con (ap_acpi s)))
                  (cons_height (a_con (ap_acpi s))) (cons_curr_row (a_con (ap_acpi s))) (cons_curr_col (a_con (ap_acpi s))))
             (a_junk (ap_acpi s)) (rsdt (ap_acpi s)) (xsdt (ap_acpi s)))
       (ap_lapic_ptr s) (ap_ioapic_ptr s) (ap_in s) (ap_clock s) (ap_out s).

Lemma in_ap_mem_ok {A} (m : K mem A) s a m' : m (ap_mem s) = Ret (a, m') -> in_ap_mem m s = Ret (a, ap_with m' s).
Proof. intros H. unfold in_ap_mem, in_ap_acpi, in_acpi_mem, in_acpi_con, in_fb, klift, ap_mem in *. by rewrite H. Qed.

Lemma lapic_reg p idx : lapic_ok p -> 0 <= idx < PAGE_SIZE - 3 -> idx mod 4 = 0 ->
  u64 (p + 4 * (idx / 4)) = p + idx /\ kok (p + idx) 4 = true.
Proof.
  intros Hp Hi Hm. pose proof (proj1 (kok_spec _ _) Hp) as [K1 K2]. unfold KERNEL_HIGHER_HALF_START, PAGE_SIZE in *.
  pose proof (Z_div_mod_eq_full idx 4). replace (4 * (idx / 4)) with idx by lia. split; [apply u64_small; lia|].
  by apply (kok_sub p 4096); [|lia|lia].
Qed.

Lemma lapic_set_ok s idx v :
  lapic_ok (ap_lapic_ptr s) -> 0 <= idx < PAGE_SIZE - 3 -> idx mod 4 = 0 ->
  lapic_set idx v s = Ret (tt, ap_with (st 4 (ap_mem s) (ap_lapic_ptr s + idx) v) s).
Proof.
  intros Hp Hi Hm. destruct (lapic_reg _ idx Hp Hi Hm) as [E1 E2]. unfold lapic_set. rewrite kget_bind.
  apply in_ap_mem_ok. unfold lapic_write. rewrite E1. by apply store_ok.
Qed.

(** The answers of the hardware from the current one on. *)
Definition reply (s : apic) (k : nat) : Z := ap_in s (ap_clock s + k)%nat.

Definition gate_high (v : Z) : bool := negb (Z.land (u8 v) CMD_CH2_OUT =? 0).

Definition with_clock (n : nat) (s : apic) : apic :=
  Apic (ap_acpi s) (ap_lapic_ptr s) (ap_ioapic_ptr s) (ap_in s) n (ap_out s).

(** What the wait ends with: the gate high, or with QEMU_PIT_HACK the gate low. *)
Definition gate_passed (qemu_pit_hack : bool) (v : Z) : bool :=
  if qemu_pit_hack then negb (gate_high v) else gate_high v.

(** The wait ends at the first answer it is for. *)
Lemma wait_gate_ok hack n fuel s :
  gate_passed hack (reply s n) = true -> (forall k, (k < n)%nat -> gate_passed hack (reply s k) = false) ->
  (n < fuel)%nat ->
  wait_gate hack fuel s = Ret (tt, with_clock (ap_clock s + S n) s).
Proof.
  revert fuel s; induction n as [|n IH]; intros fuel s Hn Hk Hf; (destruct fuel as [|fuel]; [lia|]); cbn [wait_gate].
  - unfold x86_inb, answer, kbind, kret. unfold reply, gate_passed, gate_high in Hn. rewrite Nat.add_0_r in Hn.
    cbv zeta. replace (if hack then _ else _) with false by (by destruct hack, (Z.land _ _ =? 0)).
    unfold with_clock. by rewrite Nat.add_1_r.
  - pose proof (Hk 0%nat ltac:(lia)) as H0. unfold reply, gate_passed, gate_high in H0. rewrite Nat.add_0_r in H0.
    unfold x86_inb, answer. unfold kbind at 1 2. unfold kret at 1. cbv zeta.
    replace (if hack then negb (Z.land _ _ =? 0) else _) with true by (by destruct hack, (Z.land _ _ =? 0)).
    rewrite IH; [| | |lia].
    + unfold with_clock. cbn. do 3 f_equal. lia.
    + unfold reply in *. cbn. by replace (S (ap_clock s + n)) with (ap_clock s + S n)%nat by lia.
    + intros k Hkn. specialize (Hk (S k) ltac:(lia)). unfold reply in *. cbn.
      by replace (S (ap_clock s + k)) with (ap_clock s + S k)%nat by lia.
Qed.

Lemma u32_idem x : u32 (u32 x) = u32 x.
Proof. unfold u32. by rewrite Z.mod_mod. Qed.

(** The calibration over one timer period gives back the measured ticks. *)
Lemma calibration count : 0 <= count < 2 ^ 32 ->
  u32 (u64 (u64 (u32 (u32 (-1) - count) * 1000) / CALLIBRATE_PERIOD * APIC_TIMER_PERIOD) / 1000) = 2 ^ 32 - 1 - count.
Proof.
  intros Hc. unfold CALLIBRATE_PERIOD, APIC_TIMER_PERIOD, SCHED_TIMER_PERIOD.
  change (u32 (-1)) with (2 ^ 32 - 1). unfold u32 at 2. rewrite (Z.mod_small (2 ^ 32 - 1 - count)) by lia.
  set (x := 2 ^ 32 - 1 - count). assert (Hx : 0 <= x < 2 ^ 32) by (unfold x; lia).
  rewrite (u64_small (x * 1000)) by lia.
  replace (x * 1000) with (x * 100 * 10) by lia. rewrite Z.div_mul by lia.
  rewrite u64_small by lia. replace (x * 100 * 10) with (x * 1000) by lia. rewrite Z.div_mul by lia.
  unfold u32. apply Z.mod_small. lia.
Qed.

Definition out_with (port data : Z) (s : apic) : apic :=
  Apic (ap_acpi s) (ap_lapic_ptr s) (ap_ioapic_ptr s) (ap_in s) (ap_clock s) ((port, u8 data) :: ap_out s).

Lemma outb_ok port data s : x86_outb port data s = Ret (tt, out_with port data s).
Proof. done. Qed.

Lemma inb_ok port s : x86_inb port s = Ret (u8 (reply s 0), with_clock (S (ap_clock s)) s).
Proof. unfold x86_inb, answer, kbind, kret, reply. by rewrite Nat.add_0_r. Qed.

Lemma lapic_read_ok s idx :
  lapic_ok (ap_lapic_ptr s) -> 0 <= idx < PAGE_SIZE - 3 -> idx mod 4 = 0 ->
  lapic_read idx s = Ret (u32 (reply s 0), with_clock (S (ap_clock s)) (ap_with (ap_mem s) s)).
Proof.
  intros Hp Hi Hm. destruct (lapic_reg _ idx Hp Hi Hm) as [E1 E2]. unfold lapic_read. rewrite kget_bind, E1.
  rewrite (kbind_Ret _ _ _ _ _ (in_ap_mem_ok _ s _ _ (load_ok 4 _ (ap_mem s) E2))).
  unfold answer, kbind, kret, reply. by rewrite Nat.add_0_r.
Qed.

Lemma ap_mem_with m s : ap_mem (ap_with m s) = m.
Proof. done. Qed.

Lemma ld4_range m a : 0 <= ld 4 m a < 2 ^ 32.
Proof. apply (ld_range 4). Qed.

(** The bytes the calibration writes to the counter's ports, the last first:
    the mode of channel 2, the low and the high byte of the divisor 11931, which
    is 10 ms, and the gate taken low and high again. *)
Definition pit_writes (s : apic) : list (Z * Z) :=
  [(0x61, u8 (Z.lor (u8 (reply s 1)) 1)); (0x61, u8 (Z.land (u8 (reply s 0)) (Z.lnot 1)));
   (0x42, 11931 / 256); (0x42, 11931 mod 256); (0x43, 0xB2)].

Lemma apic_setup_timer_ok hack fuel s n :
  lapic_ok (ap_lapic_ptr s) -> gate_passed hack (reply s (2 + n)) = true ->
  (forall k, (k < n)%nat -> gate_passed hack (reply s (2 + k)) = false) -> (n < fuel)%nat ->
  exists s', apic_setup_timer hack fuel s = Ret (tt, s') /\
    ap_out s' = pit_writes s ++ ap_out s /\ ap_clock s' = (ap_clock s + 4 + n)%nat /\
    let reg i := ld 4 (ap_mem s') (ap_lapic_ptr s + i) in
    reg APIC_TMRINITCNT = 2 ^ 32 - 1 - u32 (reply s (3 + n)) /\
    reg APIC_LVT_TMR = Z.lor IRQ_TIMER TMR_PERIODIC /\ reg APIC_TMRDIV = TMR_DIV_X1 /\
    agree (fun a => ~ in_range (ap_lapic_ptr s + APIC_LVT_TMR) 4 a /\ ~ in_range (ap_lapic_ptr s + APIC_TMRINITCNT) 4 a /\
                    ~ in_range (ap_lapic_ptr s + APIC_TMRDIV) 4 a) (ap_mem s) (ap_mem s').
Proof.
  intros Hp Hn Hk Hf. pose proof (proj1 (kok_spec _ _) Hp) as [K1 K2]. unfold KERNEL_HIGHER_HALF_START in K1.
  unfold apic_setup_timer. rewrite kget_bind, kassert_true by (apply negb_true_iff, Z.eqb_neq; unfold NULL; lia).
  rewrite (kbind_Ret _ _ _ _ _ (lapic_set_ok s APIC_LVT_TMR _ Hp ltac:(done) ltac:(done))).
  set (s1 := ap_with _ s). assert (P1 : lapic_ok (ap_lapic_ptr s1)) by exact Hp.
  rewrite (kbind_Ret _ _ _ _ _ (lapic_set_ok s1 APIC_TMRDIV _ P1 ltac:(done) ltac:(done))).
  set (s2 := ap_with _ s1).
  rewrite !(kbind_Ret _ _ _ _ _ (outb_ok _ _ _)). set (s3 := out_with _ _ _).
  rewrite (kbind_Ret _ _ _ _ _ (inb_ok _ s3)), (kbind_Ret _ _ _ _ _ (outb_ok _ _ _)). set (s4 := out_with _ _ _).
  rewrite (kbind_Ret _ _ _ _ _ (inb_ok _ s4)), (kbind_Ret _ _ _ _ _ (outb_ok _ _ _)). set (s5 := out_with _ _ _).
  assert (P5 : lapic_ok (ap_lapic_ptr s5)) by exact Hp.
  rewrite (kbind_Ret _ _ _ _ _ (lapic_set_ok s5 APIC_TMRINITCNT _ P5 ltac:(done) ltac:(done))).
  set (s6 := ap_with _ s5).
  assert (C6 : forall k, reply s6 k = reply s (2 + k)).
  { intros k. unfold reply. change (ap_in s6) with (ap_in s). change (ap_clock s6) with (S (S (ap_clock s))). f_equal. lia. }
  rewrite (kbind_Ret _ _ _ _ _ (wait_gate_ok hack n fuel s6 ltac:(by rewrite C6) ltac:(intros; rewrite C6; by apply Hk) Hf)).
  set (s7 := with_clock _ s6). assert (P7 : lapic_ok (ap_lapic_ptr s7)) by exact Hp.
  rewrite (kbind_Ret _ _ _ _ _ (lapic_set_ok s7 APIC_LVT_TMR _ P7 ltac:(done) ltac:(done))).
  set (s8 := ap_with _ s7). assert (P8 : lapic_ok (ap_lapic_ptr s8)) by exact Hp.
  rewrite (kbind_Ret _ _ _ _ _ (lapic_read_ok s8 APIC_TMRCURRCNT P8 ltac:(done) ltac:(done))). cbv zeta.
  assert (C8 : reply s8 0 = reply s (3 + n)).
  { unfold reply. change (ap_in s8) with (ap_in s). change (ap_clock s8) with (S (S (ap_clock s)) + S n)%nat. f_equal. lia. }
  rewrite C8, calibration by (unfold u32; apply Z.mod_pos_bound; lia).
  set (count := 2 ^ 32 - 1 - _). set (s9 := with_clock _ _). assert (P9 : lapic_ok (ap_lapic_ptr s9)) by exact Hp.
  rewrite (kbind_Ret _ _ _ _ _ (lapic_set_ok s9 APIC_TMRINITCNT _ P9 ltac:(done) ltac:(done))).
  set (s10 := ap_with _ s9). assert (P10 : lapic_ok (ap_lapic_ptr s10)) by exact Hp.
  rewrite (kbind_Ret _ _ _ _ _ (lapic_set_ok s10 APIC_TMRDIV _ P10 ltac:(done) ltac:(done))).
  set (s11 := ap_with _ s10). assert (P11 : lapic_ok (ap_lapic_ptr s11)) by exact Hp.
  rewrite (lapic_set_ok s11 APIC_LVT_TMR _ P11 ltac:(done) ltac:(done)).
  eexists. split; [reflexivity|]. set (p := ap_lapic_ptr s). cbv zeta.
  split.
  { unfold pit_writes. replace (reply s 1) with (reply s4 0); [reflexivity|].
    unfold reply. change (ap_in s4) with (ap_in s). change (ap_clock s4) with (S (ap_clock s)). f_equal. lia. }
  split; [change (S (S (S (ap_clock s)) + S n) = (ap_clock s + 4 + n)%nat); lia|].
  change (ap_lapic_ptr s11) with p. rewrite ap_mem_with. unfold s11. rewrite ap_mem_with.
  change (ap_lapic_ptr s10) with p. unfold s10. rewrite ap_mem_with. change (ap_lapic_ptr s9) with p.
  change (ap_mem s9) with (ap_mem s8). unfold s8. rewrite ap_mem_with.
  change (ap_lapic_ptr s7) with p. change (ap_mem s7) with (ap_mem s6). unfold s6. rewrite ap_mem_with.
  change (ap_lapic_ptr s5) with p. change (ap_mem s5) with (ap_mem s2). unfold s2. rewrite ap_mem_with.
  change (ap_lapic_ptr s1) with p. unfold s1. rewrite ap_mem_with.
  assert (Hcount : 0 <= count < 2 ^ 32).
  { unfold count, u32. pose proof (Z.mod_pos_bound (reply s (3 + n)) 4294967296). lia. }
  unfold APIC_LVT_TMR, APIC_TMRDIV, APIC_TMRINITCNT. split_and!.
  - rewrite !(ld_st_ne 4 4 _ (p + 800)), !(ld_st_ne 4 4 _ (p + 992)) by (unfold apart; lia).
    rewrite (ld_st_same 4). apply Z.mod_small. lia.
  - rewrite (ld_st_same 4). done.
  - rewrite (ld_st_ne 4 4 _ (p + 800)) by (unfold apart; lia). rewrite (ld_st_same 4). done.
  - repeat (eapply agree_trans; [|eapply agree_weaken; [apply (st_agree 4)|intros a Ha; unfold in_range in *; lia]]).
    done.
Qed.
