(* ===== verification/KMain.v ===== *)
(** * kernel/kernel.c: the way up to the scheduler

    [kmain] runs the initialisations in order, each on the part of the state
    it owns, and the memory they share goes from one to the next. *)

From S2P Require Import Prelude Mem Common DList Buddy Paging FrameAlloc Obj Vmem Multiboot Fb Console Printk Acpi Kst Arch Sched Apic.

(** The addresses of the kernel's static data, what the linker defines, and the
    option the Makefile compiles in unless RELEASE is set. *)
Record layout := Layout {
  l_sym : symbols;
  l_zones : Z;            (* allocator_zones *)
  l_tss : Z;
  l_early_pml4 : Z;
  l_syscall_entry : Z;
  l_apic_signature : Z;   (* the literal "APIC" *)
  l_tasks : Z;
  l_sched_context : Z;
  l_sched_vmem : Z;
  l_qemu_pit_hack : bool; (* QEMU_PIT_HACK is defined *)
}.

(** What the boot loader and the hardware give. *)
Record machine := Machine {
  m_mem : mem;
  m_msrs : msrs;
  m_cr3 : Z;
  m_junk : buffer;
  m_in : nat -> Z;
}.

(** arch_init: the descriptors are a value; the loads of the tables into the
    processor's registers and irq_init, which fills the gates, are assembly. *)
Definition arch_init (l : layout) (r : msrs) : K mem (list x86_gdt_descriptor * msrs) :=
  (unmap_early (l_early_pml4 l) ;;
   kret (gdt_init (l_tss l), syscall_init (l_syscall_entry l) r))%K.

Definition con_of (m : mem) (fb : fb_state) : con := Con m fb false 0 0 0 0.
Definition no_tags : mb_state := MbState 0 0 0 0 0.

(** The text of a region's type. *)
Definition region_name (type : Z) : string :=
  if type =? MB_MEMMAP_TYPE_RAM then "[RAM]       "
  else if type =? MB_MEMMAP_TYPE_ACPI then "[ACPI]      "
  else if type =? MB_MEMMAP_TYPE_HIBER then "[HIBER]     "
  else if type =? MB_MEMMAP_TYPE_DEFECTIVE then "[DEFECTIVE] "
  else "[RESERVED]  ".

Definition con_mem_run {A} (m : K mem A) : K con A := in_fb (fun _ => m).
Definition cprintk (junk : buffer) (fmt : string) (args : list arg) : K con unit := printk junk (chars fmt) args.

Fixpoint dump_memmap_loop (fuel : nat) (junk : buffer) (mb : mb_state) (it : Z) : K con unit :=
  match fuel with
  | O => khalt NoFuel
  | S fuel =>
      (let! (memmap_entry, it) := con_mem_run (mb_memmap_iter_next mb it) in
       if memmap_entry =? NULL then kret tt
       else
         cprintk junk "mem region: " [] ;;
         let! type := con_mem_run (entry_type memmap_entry) in
         cprintk junk (region_name type) [] ;;
         let! base := con_mem_run (entry_base_addr memmap_entry) in
         let! length := con_mem_run (entry_length memmap_entry) in
         cprintk junk "%p - %p len=0x%x
" [ANum base; ANum (u64 (base + length)); ANum length] ;;
         dump_memmap_loop fuel junk mb it)%K
  end.

Definition dump_memmap (fuel : nat) (junk : buffer) (mb : mb_state) : K con unit :=
  (let! it := con_mem_run (mb_memmap_iter_init mb) in
   cprintk junk "Multiboot memory map:
" [] ;;
   dump_memmap_loop fuel junk mb it)%K.

(** The whole of frame_alloc_init: the zones, made in the array at [zones], and
    the line printed. *)
Definition frame_alloc_init (fuel : nat) (junk : buffer) (mb : mb_state) (phys_end_kernel_sections zones : Z) : K con fa_state :=
  fun c =>
    match frame_alloc_init_zones fuel mb phys_end_kernel_sections (FaState (con_mem c) [] zones) with
    | Halt h => Halt h
    | Ret (pgcnt, fa) =>
        match cprintk junk "Frame allocator initialized with %d frames
" [ANum pgcnt] (con_with (fa_mem fa) c) with
        | Halt h => Halt h
        | Ret (_, c) => Ret (FaState (con_mem c) (allocator_zones fa) (allocator_zones_addr fa), c)
        end
    end.

Definition HEAVENOS_VERSION : string := "hw4-dev".

(** From the entry to the end of [apic_setup_timer]: the console and the
    drivers, with the boot information. *)
Definition kmain_drivers (fuel : nat) (l : layout) (junk : buffer) (mb : mb_state) : K apic unit :=
  (in_ap_acpi (in_acpi_con (cons_init ;;
     cprintk junk "HeavenOS version %s
" [AStr (chars HEAVENOS_VERSION)])) ;;
   in_ap_acpi (acpi_init mb) ;;
   apic_init fuel (l_apic_signature l) ;;
   apic_setup_timer (l_qemu_pit_hack l) fuel)%K.

(** The state the scheduler starts in. *)
Definition kst_of (l : layout) (w : machine) (fa : fa_state) (a : apic) : kst :=
  Kst (VmState fa (OBJ_ALLOC_DEFINE sizeof_vmem_area) NULL (m_cr3 w)) (a_con (ap_acpi a)) (m_junk w)
      (l_tasks l) 0 NULL (l_sched_context l) (l_sched_vmem l) 0 (ap_lapic_ptr a).

Definition run {S A} (m : K S A) (s : S) : res (A * S) := m s.

(** [sched_start] never returns; the panic after it is for the case it does. *)
Definition kmain (fuel rounds : nat) (l : layout) (early_data : Z) (w : machine) : res (resum unit * kst) :=
  match run (arch_init l (m_msrs w)) (m_mem w) with
  | Halt h => Halt h
  | Ret (_, m) =>
  match run (mb_parse_boot_info fuel no_tags early_data) m with
  | Halt h => Halt h
  | Ret (mb, m) =>
  match run (fb_init mb) m with
  | Halt h => Halt h
  | Ret (fb, m) =>
  match run (kmain_drivers fuel l (m_junk w) mb)
            (Apic (Acpi (con_of m fb) (m_junk w) NULL NULL) NULL NULL (m_in w) 0 []) with
  | Halt h => Halt h
  | Ret (_, a) =>
  match run (dump_memmap fuel (m_junk w) mb) (a_con (ap_acpi a)) with
  | Halt h => Halt h
  | Ret (_, c) =>
  match run (frame_alloc_init fuel (m_junk w) mb (_phys_end_kernel_sections (l_sym l)) (l_zones l)) c with
  | Halt h => Halt h
  | Ret (fa, c) =>
      run (rbind (sched_start rounds fuel (l_sym l)) (fun _ => panic "manually initiated panic"))
          (kst_of l w fa (Apic (Acpi c (m_junk w) (rsdt (ap_acpi a)) (xsdt (ap_acpi a)))
                               (ap_lapic_ptr a) (ap_ioapic_ptr a) (ap_in a) (ap_clock a) (ap_out a)))
  end end end end end end.
