(* ===== verification/SchedSpec.v ===== *)
(** * The task table, the scheduler's choices and the hand-over between tasks *)

From S2P Require Import Prelude Mem Common DList Buddy Paging FrameAlloc Obj Vmem Multiboot Fb FbSpec Console Printk PrintkSpec ConsoleSpec.
From S2P Require Import Kst Arch Sched.

(** ** Running on the kernel's state *)

Definition set_kmem (s : kst) (m : mem) : kst :=
  Kst (vm_with m (k_vm s)) (k_con s) (k_junk s) (tasks s) (sched_timer s) (_current s)
      (sched_context s) (sched_vmem s) (tss_rsp0 s) (lapic_ptr s).

Lemma set_kmem_id s : set_kmem s (kmem s) = s.
Proof. by destruct s as [[[]]]. Qed.
Lemma kmem_set s m : kmem (set_kmem s m) = m.
Proof. done. Qed.

Lemma kload_ok n a s : kok a (Z.of_nat n) = true -> kload n a s = Ret (ld n (kmem s) a, s).
Proof.
  intros H. unfold kload, in_vm, in_kmem, in_fa, in_mem, klift. rewrite load_ok by done. by destruct s as [[[]]].
Qed.
Lemma kstore_ok n a v s : kok a (Z.of_nat n) = true -> kstore n a v s = Ret (tt, set_kmem s (st n (kmem s) a v)).
Proof. intros H. unfold kstore, in_vm, in_kmem, in_fa, in_mem, klift. by rewrite store_ok. Qed.

Lemma bind_kload {B} n a (f : Z -> K kst B) s :
  kok a (Z.of_nat n) = true -> kbind (kload n a) f s = f (ld n (kmem s) a) s.
Proof. intros H. by rewrite (kbind_Ret _ _ _ _ _ (kload_ok n a s H)). Qed.
Lemma bind_kstore {B} n a v (f : unit -> K kst B) s :
  kok a (Z.of_nat n) = true -> kbind (kstore n a v) f s = f tt (set_kmem s (st n (kmem s) a v)).
Proof. intros H. by rewrite (kbind_Ret _ _ _ _ _ (kstore_ok n a v s H)). Qed.

(** ** The table *)

(** The table and one entry past its end, which the search reads. *)
Definition table_kok (s : kst) : Prop := kok (tasks s) (sizeof_task * (MAX_TASK_COUNT + 1)) = true.
Definition task_slot (s : kst) (i : Z) : Z := tasks s + sizeof_task * i.

Lemma task_slot_at s i : table_kok s -> 0 <= i <= MAX_TASK_COUNT -> task_at s i = task_slot s i.
Proof.
  intros H Hi. pose proof (proj1 (kok_spec _ _) H) as [K1 K2]. unfold KERNEL_HIGHER_HALF_START in K1.
  unfold task_at, task_slot. unfold MAX_TASK_COUNT, sizeof_task in *. change (Z.shiftl 1 16) with 65536 in *.
  apply u64_small. lia.
Qed.

(** The fields of a slot: where they are, and that they can be read. *)
Lemma slot_field s i o n :
  table_kok s -> 0 <= i <= MAX_TASK_COUNT -> 0 <= o -> o + n <= sizeof_task -> 0 < n ->
  u64 (task_slot s i + o) = task_slot s i + o /\ kok (task_slot s i + o) n = true.
Proof.
  intros H Hi Ho Hn Hn0. unfold table_kok in H. pose proof (proj1 (kok_spec _ _) H) as [K1 K2]. unfold KERNEL_HIGHER_HALF_START in K1.
  unfold task_slot. unfold MAX_TASK_COUNT, sizeof_task in *. change (Z.shiftl 1 16) with 65536 in *.
  split; [apply u64_small; lia|]. apply (kok_sub _ _ _ _ H); lia.
Qed.

Definition state_of (m : mem) (t : Z) : Z := ld 4 m (t + 40).
Definition pid_of (m : mem) (t : Z) : Z := ld64 m (t + 16).
Definition ppid_of (m : mem) (t : Z) : Z := ld64 m (t + 24).
Definition wait_of (m : mem) (t : Z) : Z := ld64 m (t + 32).
Definition deadline_of (m : mem) (t : Z) : Z := ld64 m (t + 56).
Definition sleep_of (m : mem) (t : Z) : Z := ld64 m (t + 64).
Definition exitcode_of (m : mem) (t : Z) : Z := ld 4 m (t + 88).

(** A slot as the operations see it: a task structure in kernel memory. *)
Definition task_ok (t : Z) : Prop := kok t sizeof_task = true.

Lemma task_field t o n : task_ok t -> 0 <= o -> 0 < n -> o + n <= sizeof_task ->
  u64 (t + o) = t + o /\ kok (t + o) n = true.
Proof.
  intros H Ho Hn0 Hn. unfold task_ok in H. pose proof (proj1 (kok_spec _ _) H) as [K1 K2]. unfold KERNEL_HIGHER_HALF_START in K1.
  split; [apply u64_small; lia|]. apply (kok_sub _ _ _ _ H); lia.
Qed.

Lemma slot_ok s i : table_kok s -> 0 <= i < MAX_TASK_COUNT -> task_ok (task_slot s i).
Proof.
  intros H Hi. unfold task_ok. rewrite <- (Z.add_0_r (task_slot s i)).
  apply (slot_field s i 0 sizeof_task H); unfold sizeof_task; lia.
Qed.

Lemma task_slots_apart s i j : i <> j -> apart (task_slot s i) sizeof_task (task_slot s j) sizeof_task.
Proof. intros H. unfold apart, task_slot, sizeof_task. lia. Qed.

Section Task.
Context (t : Z) (s : kst).
Hypothesis Ht : task_ok t.

Lemma get_state_ok : get_state t s = Ret (state_of (kmem s) t, s).
Proof. destruct (task_field t 40 4 Ht) as [E K]; [done..|]. unfold get_state, task_state. rewrite E. by apply kload_ok. Qed.
Lemma set_state_ok v : set_state t v s = Ret (tt, set_kmem s (st 4 (kmem s) (t + 40) v)).
Proof. destruct (task_field t 40 4 Ht) as [E K]; [done..|]. unfold set_state, task_state. rewrite E. by apply kstore_ok. Qed.
Lemma load_pid_ok : kload 8 (task_pid t) s = Ret (pid_of (kmem s) t, s).
Proof. destruct (task_field t 16 8 Ht) as [E K]; [done..|]. unfold task_pid. rewrite E. by apply kload_ok. Qed.
Lemma load_ppid_ok : kload 8 (task_ppid t) s = Ret (ppid_of (kmem s) t, s).
Proof. destruct (task_field t 24 8 Ht) as [E K]; [done..|]. unfold task_ppid. rewrite E. by apply kload_ok. Qed.
Lemma load_wait_ok : kload 8 (task_wait_pid t) s = Ret (wait_of (kmem s) t, s).
Proof. destruct (task_field t 32 8 Ht) as [E K]; [done..|]. unfold task_wait_pid. rewrite E. by apply kload_ok. Qed.
Lemma load_deadline_ok : kload 8 (task_preempt_deadline t) s = Ret (deadline_of (kmem s) t, s).
Proof. destruct (task_field t 56 8 Ht) as [E K]; [done..|]. unfold task_preempt_deadline. rewrite E. by apply kload_ok. Qed.
Lemma load_sleep_ok : kload 8 (task_sleep_until t) s = Ret (sleep_of (kmem s) t, s).
Proof. destruct (task_field t 64 8 Ht) as [E K]; [done..|]. unfold task_sleep_until. rewrite E. by apply kload_ok. Qed.
Lemma store_pid_ok v : kstore 8 (task_pid t) v s = Ret (tt, set_kmem s (st64 (kmem s) (t + 16) v)).
Proof. destruct (task_field t 16 8 Ht) as [E K]; [done..|]. unfold task_pid. rewrite E. by apply kstore_ok. Qed.
Lemma store_ppid_ok v : kstore 8 (task_ppid t) v s = Ret (tt, set_kmem s (st64 (kmem s) (t + 24) v)).
Proof. destruct (task_field t 24 8 Ht) as [E K]; [done..|]. unfold task_ppid. rewrite E. by apply kstore_ok. Qed.
Lemma store_wait_ok v : kstore 8 (task_wait_pid t) v s = Ret (tt, set_kmem s (st64 (kmem s) (t + 32) v)).
Proof. destruct (task_field t 32 8 Ht) as [E K]; [done..|]. unfold task_wait_pid. rewrite E. by apply kstore_ok. Qed.
Lemma store_deadline_ok v : kstore 8 (task_preempt_deadline t) v s = Ret (tt, set_kmem s (st64 (kmem s) (t + 56) v)).
Proof. destruct (task_field t 56 8 Ht) as [E K]; [done..|]. unfold task_preempt_deadline. rewrite E. by apply kstore_ok. Qed.
Lemma store_sleep_ok v : kstore 8 (task_sleep_until t) v s = Ret (tt, set_kmem s (st64 (kmem s) (t + 64) v)).
Proof. destruct (task_field t 64 8 Ht) as [E K]; [done..|]. unfold task_sleep_until. rewrite E. by apply kstore_ok. Qed.
Lemma store_exitcode_ok v : kstore 4 (task_exitcode t) v s = Ret (tt, set_kmem s (st 4 (kmem s) (t + 88) v)).
Proof. destruct (task_field t 88 4 Ht) as [E K]; [done..|]. unfold task_exitcode. rewrite E. by apply kstore_ok. Qed.
End Task.

(** ** sched_allocate_task *)

Lemma allocate_loop_ok s n i :
  table_kok s -> 1 <= i -> i + Z.of_nat n = MAX_TASK_COUNT + 1 -> (0 < n)%nat ->
  exists k, allocate_loop n i s = Ret (k, s) /\ i <= k <= MAX_TASK_COUNT /\
    (k < MAX_TASK_COUNT -> state_of (kmem s) (task_slot s k) = TASK_NOT_ALLOCATED) /\
    (forall j, i <= j < k -> state_of (kmem s) (task_slot s j) <> TASK_NOT_ALLOCATED).
Proof.
  intros Ht. revert i; induction n as [|n IH]; intros i Hi Hn H0; [lia|]. cbn [allocate_loop].
  rewrite kget_bind, task_slot_at by (done || lia).
  destruct (slot_field s i 40 4 Ht ltac:(lia) ltac:(done) ltac:(done) ltac:(done)) as [E K].
  unfold get_state, task_state. rewrite E. rewrite bind_kload by exact K.
  fold (state_of (kmem s) (task_slot s i)).
  destruct (Z.eqb_spec (state_of (kmem s) (task_slot s i)) TASK_NOT_ALLOCATED) as [Hs|Hs]; cbn [negb andb].
  - exists i. split; [done|]. split; [lia|]. split; [done|]. lia.
  - destruct (Z.ltb_spec i MAX_TASK_COUNT) as [Hlt|Hge].
    + destruct (IH (i + 1)) as (k & H1 & H2 & H3 & H4); [lia|lia|lia|].
      exists k. split; [done|]. split; [lia|]. split; [done|]. intros j Hj.
      destruct (Z.eq_dec j i) as [->|]; [done|]. apply H4. lia.
    + exists i. split; [done|]. split; [lia|]. split; [lia|]. lia.
Qed.

Lemma sched_allocate_task_ok s :
  table_kok s ->
  (exists i, 1 <= i < MAX_TASK_COUNT /\ state_of (kmem s) (task_slot s i) = TASK_NOT_ALLOCATED /\
     (forall j, 1 <= j < i -> state_of (kmem s) (task_slot s j) <> TASK_NOT_ALLOCATED) /\
     sched_allocate_task s = Ret (task_slot s i, set_kmem s (st64 (kmem s) (task_slot s i + 16) i))) \/
  (forall j, 1 <= j < MAX_TASK_COUNT -> state_of (kmem s) (task_slot s j) <> TASK_NOT_ALLOCATED) /\
  sched_allocate_task s = Ret (NULL, s).
Proof.
  intros Ht. unfold sched_allocate_task.
  destruct (allocate_loop_ok s (Z.to_nat MAX_TASK_COUNT) 1 Ht) as (k & H1 & H2 & H3 & H4);
    [lia|rewrite Z2Nat.id by done; lia|by apply Nat.ltb_lt; vm_compute|].
  kstep H1. destruct (Z.eqb_spec k MAX_TASK_COUNT) as [->|Hne]; [by right|left].
  exists k. split; [lia|]. split; [apply H3; lia|]. split; [done|].
  rewrite kget_bind, task_slot_at by (done || lia).
  rewrite (kbind_Ret _ _ _ _ _ (store_pid_ok _ s (slot_ok s k Ht ltac:(lia)) k)). done.
Qed.

(** ** Switching *)

(** The state a task is switched to in. *)
Definition switched (s : kst) (next : Z) : kst :=
  let m := st64 (kmem s) (next + 56) (u64 (sched_timer s + PREEMPT_TICKS)) in
  Kst (VmState (FaState m (allocator_zones (vm_fa (k_vm s))) (allocator_zones_addr (vm_fa (k_vm s))))
               (vmem_area_alloc (k_vm s)) (next + 72) (VIRT_TO_PHYS (ld64 m (next + 80))))
      (k_con s) (k_junk s) (tasks s) (sched_timer s) next (sched_context s) (sched_vmem s) (ld64 m next) (lapic_ptr s).

(** The state the scheduler is switched back to in. *)
Definition handed_back (s : kst) : kst :=
  Kst (k_vm s) (k_con s) (k_junk s) (tasks s) (sched_timer s) NULL (sched_context s) (sched_vmem s)
      (ld64 (kmem s) (sched_context s)) (lapic_ptr s).

Definition ticked (s : kst) : kst :=
  Kst (k_vm s) (k_con s) (k_junk s) (tasks s) (u64 (sched_timer s + 1)) (_current s) (sched_context s)
      (sched_vmem s) (tss_rsp0 s) (lapic_ptr s).

Lemma in_vm_switch_ok s vm :
  kok (vm_pml4 vm) 8 = true ->
  in_vm (vmem_switch_to vm) s =
    Ret (tt, Kst (VmState (vm_fa (k_vm s)) (vmem_area_alloc (k_vm s)) vm (VIRT_TO_PHYS (ld64 (kmem s) (vm_pml4 vm))))
                 (k_con s) (k_junk s) (tasks s) (sched_timer s) (_current s) (sched_context s) (sched_vmem s)
                 (tss_rsp0 s) (lapic_ptr s)).
Proof.
  intros H. unfold in_vm, klift, vmem_switch_to, vload, in_kmem, in_fa, in_mem, klift, kbind.
  rewrite load_ok by done. by destruct s as [[[]]].
Qed.

Lemma sched_switch_to_ok s next :
  task_ok next ->
  sched_switch_to next s = Ret (Switch (sched_context s) next (rret tt), switched s next).
Proof.
  intros Hn. unfold sched_switch_to, set_current. unfold kbind at 1. rewrite kget_bind. cbn [sched_timer sched_context].
  set (s1 := Kst (k_vm s) _ _ _ _ next _ _ _ _).
  rewrite (kbind_Ret _ _ _ _ _ (store_deadline_ok next s1 Hn _)).
  set (m := st64 _ _ _). destruct (task_field next 72 8 Hn ltac:(done) ltac:(done) ltac:(done)) as [E1 K1].
  destruct (task_field next 80 8 Hn ltac:(done) ltac:(done) ltac:(done)) as [E2 K2].
  assert (Ev : vm_pml4 (task_vmem next) = next + 80).
  { unfold vm_pml4, task_vmem. rewrite E1. replace (next + 72 + 8) with (next + 80) by lia. exact E2. }
  rewrite (kbind_Ret _ _ _ _ _ (in_vm_switch_ok (set_kmem s1 m) (task_vmem next) ltac:(rewrite Ev; exact K2))).
  unfold arch_thread_switch, th_kstack_top, task_arch_thread.
  destruct (task_field next 0 8 Hn ltac:(done) ltac:(done) ltac:(done)) as [E0 K0]. rewrite Z.add_0_r in E0, K0.
  rewrite bind_kload by exact K0. rewrite Ev. unfold task_vmem. rewrite E1. reflexivity.
Qed.

Lemma sched_switch_ok s :
  _current s <> NULL -> kok (sched_context s) 8 = true ->
  sched_switch s = Ret (Switch (_current s) (sched_context s) (rret tt), handed_back s).
Proof.
  intros Hc Hk. unfold sched_switch. rewrite kget_bind.
  rewrite kassert_true by (by apply negb_true_iff, Z.eqb_neq). unfold set_current. unfold kbind at 1.
  unfold arch_thread_switch, th_kstack_top, task_arch_thread. rewrite bind_kload by exact Hk. reflexivity.
Qed.

Lemma sched_switch_idle s : _current s = NULL -> sched_switch s = Halt (Panic "_current != NULL").
Proof. intros Hc. unfold sched_switch. rewrite kget_bind, Hc. done. Qed.

(** ** The timer *)

Lemma sched_timer_tick_ok s :
  (_current s <> NULL -> task_ok (_current s)) -> kok (sched_context s) 8 = true ->
  sched_timer_tick s =
    if (_current s =? NULL) || (deadline_of (kmem s) (_current s) <? u64 (sched_timer s + 1))
    then Ret (Done tt, ticked s)
    else Ret (Switch (_current s) (sched_context s) (rret tt), handed_back (ticked s)).
Proof.
  intros Ht Hk. unfold sched_timer_tick. rewrite kget_bind. unfold set_sched_timer. unfold kbind at 1.
  rewrite kget_bind. fold (ticked s). change (_current (ticked s)) with (_current s).
  destruct (Z.eqb_spec (_current s) NULL) as [Hc|Hc]; cbn [orb]; [done|].
  rewrite (kbind_Ret _ _ _ _ _ (load_deadline_ok (_current s) (ticked s) (Ht Hc))).
  change (kmem (ticked s)) with (kmem s). change (sched_timer (ticked s)) with (u64 (sched_timer s + 1)).
  rewrite Z.ltb_antisym. destruct (u64 (sched_timer s + 1) <=? deadline_of (kmem s) (_current s)); cbn [negb]; [|done].
  by rewrite sched_switch_ok.
Qed.

(** ** One task of the scheduler's pass *)

(** The state after a sleeping task whose time has come is woken. *)
Definition woken (s : kst) (t : Z) : kst :=
  if (state_of (kmem s) t =? TASK_SLEEPING) && (sleep_of (kmem s) t <=? sched_timer s)
  then set_kmem s (st 4 (kmem s) (t + 40) TASK_RUNNABLE) else s.

Definition may_run (s : kst) (t : Z) : bool :=
  (state_of (kmem s) t =? TASK_RUNNABLE) ||
  (state_of (kmem s) t =? TASK_SLEEPING) && (sleep_of (kmem s) t <=? sched_timer s).

Lemma state_of_st m t v : 0 <= v < 2 ^ 32 -> state_of (st 4 m (t + 40) v) t = v.
Proof. intros Hv. unfold state_of. rewrite (ld_st_same 4). by apply Z.mod_small. Qed.

Lemma woken_state s t : (state_of (kmem (woken s t)) t =? TASK_RUNNABLE) = may_run s t.
Proof.
  unfold woken, may_run. destruct (Z.eqb_spec (state_of (kmem s) t) TASK_SLEEPING) as [E|E]; cbn [andb].
  - rewrite E. cbn [Z.eqb TASK_SLEEPING TASK_RUNNABLE]. destruct (_ <=? _); cbn [orb Pos.eqb].
    + rewrite kmem_set, state_of_st by done. done.
    + by rewrite E.
  - by rewrite orb_false_r.
Qed.

(** What runs when the scheduler is switched back to after task [t]. *)
Definition after_task (fuel : nat) (t : Z) : R bool :=
  (let! state := get_state t in
   (if state =? TASK_ZOMBIE then reap fuel t else kret tt) ;;
   rret true)%K.

Lemma sched_visit_ok fuel i s :
  table_kok s -> 0 <= i < MAX_TASK_COUNT ->
  let t := task_slot s i in
  if may_run s t
  then exists k, sched_visit fuel i s = Ret (Switch (sched_context s) t k, switched (woken s t) t) /\
         forall s', k s' = after_task fuel t s'
  else sched_visit fuel i s = Ret (Done false, s).
Proof.
  intros Ht Hi. cbv zeta. set (t := task_slot s i). assert (Hs : task_ok t) by (by apply slot_ok).
  assert (Hw : (let! state := get_state t in
      (if state =? TASK_SLEEPING then
         let! sleep_until := kload 8 (task_sleep_until t) in
         if sleep_until <=? sched_timer s then set_state t TASK_RUNNABLE else kret tt
       else kret tt))%K s = Ret (tt, woken s t)).
  { rewrite (kbind_Ret _ _ _ _ _ (get_state_ok t s Hs)). unfold woken.
    destruct (state_of (kmem s) t =? TASK_SLEEPING); cbn [andb]; [|done].
    rewrite (kbind_Ret _ _ _ _ _ (load_sleep_ok t s Hs)).
    destruct (_ <=? _); [|done]. by apply set_state_ok. }
  unfold sched_visit. rewrite kget_bind, task_slot_at by (done || lia). fold t. cbv zeta.
  rewrite <- kbind_assoc. rewrite (kbind_Ret _ _ _ _ _ Hw).
  rewrite (kbind_Ret _ _ _ _ _ (get_state_ok t (woken s t) Hs)). rewrite woken_state.
  destruct (may_run s t) eqn:Em.
  - unfold rbind. rewrite (kbind_Ret _ _ _ _ _ (sched_switch_to_ok (woken s t) t Hs)). cbn [rcont].
    assert (Ec : sched_context (woken s t) = sched_context s) by (unfold woken; by case_match).
    rewrite Ec. eexists. split; [reflexivity|]. done.
  - unfold rret, kret. do 2 f_equal. unfold woken. unfold may_run in Em. apply orb_false_iff in Em as [_ Em].
    by rewrite Em.
Qed.
