(* ===== verification/SyscallSpec.v ===== *)
(** * How wait and exit meet *)

From S2P Require Import Prelude Mem Common DList Buddy Paging FrameAlloc Obj Vmem Multiboot Fb FbSpec Console Printk PrintkSpec ConsoleSpec.
From S2P Require Import VmemSpec Acpi Kst Arch Sched Apic Syscall SchedSpec.

(** The saved registers are kernel memory. *)
Definition regs_ok (regs : Z) : Prop := kok regs sizeof_arch_regs = true.

Lemma reg_field regs o : regs_ok regs -> 0 <= o -> o + 8 <= sizeof_arch_regs ->
  u64 (regs + o) = regs + o /\ kok (regs + o) 8 = true.
Proof.
  intros H Ho Hn. unfold regs_ok in H. pose proof (proj1 (kok_spec _ _) H) as [K1 K2].
  unfold KERNEL_HIGHER_HALF_START in K1. split; [apply u64_small; lia|]. apply (kok_sub _ _ _ _ H); lia.
Qed.

Lemma arg0_ok regs s : regs_ok regs -> syscall_arg0 regs s = Ret (ld64 (kmem s) (regs + 72), s).
Proof. intros H. destruct (reg_field regs 72 H) as [E K]; [done..|]. unfold syscall_arg0, regs_rdi. rewrite E. by apply kload_ok. Qed.
Lemma arg1_ok regs s : regs_ok regs -> syscall_arg1 regs s = Ret (ld64 (kmem s) (regs + 80), s).
Proof. intros H. destruct (reg_field regs 80 H) as [E K]; [done..|]. unfold syscall_arg1, regs_rsi. rewrite E. by apply kload_ok. Qed.

(** ** Printing on the kernel's state *)

Definition printing_ok (s : kst) : Prop :=
  cons_ok (con_with (kmem s) (k_con s)) /\ length (k_junk s) = PRINTK_BUF_SIZE.

Lemma kprintk_ok fmt args s :
  printing_ok s -> fmt_ok (chars fmt) true args = true ->
  exists m c, kprintk fmt args s =
      Ret (tt, Kst (vm_with m (k_vm s)) c (k_junk s) (tasks s) (sched_timer s) (_current s)
                   (sched_context s) (sched_vmem s) (tss_rsp0 s) (lapic_ptr s)) /\
    agree (fun a => ~ on_screen (con_fb (k_con s)) a) (kmem s) m /\ con_fb c = con_fb (k_con s) /\ cons_ok c.
Proof.
  intros [Hc Hj] Hf. unfold kprintk. rewrite kget_bind. unfold in_console, klift.
  destruct (printk_safe (k_junk s) (chars fmt) args Hf Hj _ Hc) as ([] & c' & H1 & H2 & Hs).
  rewrite H1. exists (con_mem c'), c'. split; [done|]. split; [apply Hs|]. split; [apply Hs|done].
Qed.

(** ** wait and exit *)

(** The fields of a task the calls read, which others leave alone while it is
    not running. *)
Definition task_facts (m : mem) (t : Z) : Z * Z * Z * Z * Z :=
  (state_of m t, pid_of m t, ppid_of m t, wait_of m t, exitcode_of m t).

(** A store in one slot is not seen in another, nor in another field. *)
Lemma facts_apart n m t o v t' :
  0 <= o -> o + Z.of_nat n <= sizeof_task -> apart t sizeof_task t' sizeof_task ->
  task_facts (st n m (t + o) v) t' = task_facts m t'.
Proof.
  intros Ho Hn Ha. unfold task_facts, state_of, pid_of, ppid_of, wait_of, exitcode_of, apart, sizeof_task in *.
  by rewrite !(ld_st_ne n 4), !(ld_st_ne n 8) by (unfold apart; lia).
Qed.

(** Resolve the loads of a chain of stores at known distances. *)
Ltac field_simp :=
  unfold state_of, pid_of, ppid_of, wait_of, exitcode_of;
  repeat first
    [ rewrite (ld_st_same 4) | rewrite ld64_st64_same
    | rewrite (ld_st_ne 4 4) by (unfold apart in *; lia) | rewrite (ld_st_ne 8 4) by (unfold apart in *; lia)
    | rewrite (ld_st_ne 4 8) by (unfold apart in *; lia) | rewrite (ld_st_ne 8 8) by (unfold apart in *; lia) ].

(** What becomes of the address given for the exit code [code]: there is none; no
    area of the caller's space [vm] has it, or one without the rights; or the code
    is stored there, when the store returns. *)
Definition status_accepted (m : mem) (area : Z) : bool :=
  negb (area =? NULL) && negb (Z.land (ld64 m (area_flags area)) (Z.lor VMEM_USER VMEM_WRITE) =? 0).

Definition status_area (fuel : nat) (vm status : Z) (s : kst) (area : Z) : Prop :=
  status <> NULL /\ vmem_is_mapped fuel vm status (k_vm s) = Ret (area, k_vm s) /\
  (area <> NULL -> kok (area_flags area) 8 = true).

Inductive status_result (fuel : nat) (vm status code : Z) (s : kst) : option Z -> kst -> Prop :=
  | status_none : status = NULL -> status_result fuel vm status code s None s
  | status_refused area :
      status_area fuel vm status s area -> status_accepted (kmem s) area = false ->
      status_result fuel vm status code s (Some (- EINVAL)) s
  | status_stored area s' :
      status_area fuel vm status s area -> status_accepted (kmem s) area = true ->
      in_vm (user_store fuel 4 status code) s = Ret (tt, s') ->
      status_result fuel vm status code s None s'.

Lemma in_vm_fields {A} (m : K vm_state A) s a s' :
  in_vm m s = Ret (a, s') -> tasks s' = tasks s /\ _current s' = _current s /\ k_con s' = k_con s /\ k_junk s' = k_junk s.
Proof. unfold in_vm, klift. destruct (m (k_vm s)) as [[x v]|]; [|done]. by intros [= _ <-]. Qed.

Lemma status_result_fields fuel vm status code s e s' :
  status_result fuel vm status code s e s' ->
  (forall err, e = Some err -> err = - EINVAL /\ s' = s) /\
  tasks s' = tasks s /\ _current s' = _current s /\ k_con s' = k_con s /\ k_junk s' = k_junk s.
Proof.
  intros [H|area H1 H2|area s1 H1 H2 H3]; (split; [by intros err [= <-]|]); [done|done|by eapply in_vm_fields].
Qed.

Lemma write_status_result fuel status code child s e s' t :
  task_ok t -> task_ok child -> _current s = t -> exitcode_of (kmem s) child = code ->
  status_result fuel (t + 72) status code s e s' -> write_status fuel status child s = Ret (e, s').
Proof.
  intros Ht Hc Hcur Hcode Hr. unfold write_status.
  assert (Hvm : task_vmem t = t + 72) by (unfold task_vmem; by destruct (task_field t 72 16 Ht) as [-> _]).
  assert (Ha : forall area, status_area fuel (t + 72) status s area ->
    (status =? NULL) = false /\ in_vm (vmem_is_mapped fuel (task_vmem (_current s)) status) s = Ret (area, s)).
  { intros area (Hn & Hm & _). split; [by apply Z.eqb_neq|]. rewrite Hcur, Hvm. unfold in_vm, klift. rewrite Hm. by destruct s. }
  destruct Hr as [->|area Har Hacc|area s' Har Hacc Hst]; [done| |];
    destruct (Ha area Har) as [-> Hm]; destruct Har as (_ & _ & Hk); rewrite kget_bind, (kbind_Ret _ _ _ _ _ Hm);
    unfold status_accepted in Hacc; destruct (Z.eqb_spec area NULL) as [->|Hne]; [done| |done|];
    cbn [negb andb] in Hacc;
    (assert (Hl : in_vm (vload (area_flags area)) s = Ret (ld64 (kmem s) (area_flags area), s))
       by (unfold in_vm, klift; rewrite (vload_ok _ (k_vm s) (Hk Hne)); by destruct s));
    rewrite (kbind_Ret _ _ _ _ _ Hl); destruct (_ =? 0); try done.
  destruct (task_field child 88 4 Hc) as [E K]; [done..|]. unfold task_exitcode. rewrite E.
  rewrite (kbind_Ret _ _ _ _ _ (kload_ok 4 (child + 88) s K)).
  change (ld 4 (kmem s) (child + 88)) with (exitcode_of (kmem s) child). rewrite Hcode.
  by rewrite (kbind_Ret _ _ _ _ _ Hst).
Qed.

(** What is left of [sys_wait] once the child is known to be dead. *)
Definition wait_finish (fuel : nat) (regs child child_pid : Z) : R Z :=
  (let! status := syscall_arg1 regs in
   let! err := write_status fuel status child in
   match err with
   | Some e => rret e
   | None =>
       set_state child TASK_NOT_ALLOCATED ;;
       let! s := kget in
       let! pid := kload 8 (task_pid (_current s)) in
       kprintk "sys_wait: pid %d reaped child with pid %d
" [ANum pid; ANum child_pid] ;;
       rret 0
   end)%K.

(** What it does before, in the task [t]: it gives the processor away, and when
    it has it again asserts that the child is dead. *)
Definition wait_block (t child child_pid : Z) : R unit :=
  (set_state t TASK_WAITING ;;
   kstore 8 (task_wait_pid t) child_pid ;;
   let* _ := sched_switch in
   (let! state := get_state child in
    kassert (state =? TASK_ZOMBIE) "tasks[child_pid].state == TASK_ZOMBIE" ;;
    rret tt))%K.

Section Wait.
Context (fuel : nat) (s : kst) (p c regs : Z).
Hypothesis Htab : table_kok s.
Hypothesis Hp : 0 <= p < MAX_TASK_COUNT.
Hypothesis Hc : 0 <= c < MAX_TASK_COUNT.
Hypothesis Hpc : p <> c.
Hypothesis Hregs : regs_ok regs.
Hypothesis Hcur : _current s = task_slot s p.

Lemma wait_prefix (f : Z -> R Z) :
  ld64 (kmem s) (regs + 72) = c ->
  (let! child_pid := syscall_arg0 regs in f child_pid)%K s = f c s.
Proof. intros E. rewrite (kbind_Ret _ _ _ _ _ (arg0_ok regs s Hregs)). by rewrite E. Qed.

Lemma task_slot_nonnull i : 0 <= i < MAX_TASK_COUNT -> task_slot s i <> NULL.
Proof.
  intros Hi. pose proof (proj1 (kok_spec _ _) (slot_ok s i Htab Hi)) as [K _]. unfold KERNEL_HIGHER_HALF_START, NULL in *. lia.
Qed.

(** The parent gives the processor away as a waiting task. *)
Lemma wait_block_ok :
  kok (sched_context s) 8 = true ->
  let m := st64 (st 4 (kmem s) (task_slot s p + 40) TASK_WAITING) (task_slot s p + 32) c in
  exists k, rbind (wait_block (task_slot s p) (task_slot s c) c) (fun _ => wait_finish fuel regs (task_slot s c) c) s =
      Ret (Switch (task_slot s p) (sched_context s) k, handed_back (set_kmem s m)) /\
    forall s', k s' = if state_of (kmem s') (task_slot s c) =? TASK_ZOMBIE then wait_finish fuel regs (task_slot s c) c s'
                      else Halt (Panic "tasks[child_pid].state == TASK_ZOMBIE").
Proof.
  intros Hk m. pose proof (slot_ok s p Htab Hp) as Hpo. pose proof (slot_ok s c Htab Hc) as Hco.
  set (s1 := set_kmem s (st 4 (kmem s) (task_slot s p + 40) TASK_WAITING)).
  assert (Hsw : sched_switch (set_kmem s m) =
            Ret (Switch (task_slot s p) (sched_context s) (rret tt), handed_back (set_kmem s m))).
  { rewrite sched_switch_ok; [by rewrite <- Hcur| |done]. change (_current (set_kmem s m)) with (_current s).
    rewrite Hcur. by apply task_slot_nonnull. }
  unfold wait_block. unfold rbind at 1. rewrite kbind_assoc, (kbind_Ret _ _ _ _ _ (set_state_ok _ s Hpo _)).
  rewrite kbind_assoc, (kbind_Ret _ _ _ _ _ (store_wait_ok _ s1 Hpo _)). change (set_kmem s1 _) with (set_kmem s m).
  unfold rbind at 1. rewrite kbind_assoc, (kbind_Ret _ _ _ _ _ Hsw). unfold kbind at 1. cbn [rcont].
  eexists. split; [reflexivity|]. intros s'. unfold rret at 1, kret at 1. cbn [rcont].
  rewrite (kbind_Ret _ _ _ _ _ (get_state_ok _ s' Hco)). by destruct (_ =? TASK_ZOMBIE).
Qed.

(** The parent is suspended until its child dies. *)
Lemma sys_wait_blocks :
  ld64 (kmem s) (regs + 72) = c -> ppid_of (kmem s) (task_slot s c) = pid_of (kmem s) (task_slot s p) ->
  state_of (kmem s) (task_slot s c) <> TASK_ZOMBIE -> kok (sched_context s) 8 = true ->
  let m := st64 (st 4 (kmem s) (task_slot s p + 40) TASK_WAITING) (task_slot s p + 32) c in
  exists k, sys_wait fuel regs s =
      Ret (Switch (task_slot s p) (sched_context s) k, handed_back (set_kmem s m)) /\
    forall s', k s' = if state_of (kmem s') (task_slot s c) =? TASK_ZOMBIE then wait_finish fuel regs (task_slot s c) c s'
                      else Halt (Panic "tasks[child_pid].state == TASK_ZOMBIE").
Proof.
  intros Harg Hpp Hz Hk m. pose proof (slot_ok s p Htab Hp) as Hpo. pose proof (slot_ok s c Htab Hc) as Hco.
  unfold sys_wait. rewrite wait_prefix by done. rewrite kget_bind, task_slot_at by (done || lia). cbv zeta.
  rewrite (kbind_Ret _ _ _ _ _ (load_ppid_ok _ s Hco)). rewrite Hcur.
  rewrite (kbind_Ret _ _ _ _ _ (load_pid_ok _ s Hpo)). rewrite Hpp, Z.eqb_refl. cbn [negb].
  rewrite (kbind_Ret _ _ _ _ _ (get_state_ok _ s Hco)). rewrite (proj2 (Z.eqb_neq _ _) Hz). cbn [negb].
  exact (wait_block_ok Hk).
Qed.

(** A child that is dead already: the parent goes on at once. *)
Lemma sys_wait_zombie :
  ld64 (kmem s) (regs + 72) = c -> ppid_of (kmem s) (task_slot s c) = pid_of (kmem s) (task_slot s p) ->
  state_of (kmem s) (task_slot s c) = TASK_ZOMBIE ->
  sys_wait fuel regs s = wait_finish fuel regs (task_slot s c) c s.
Proof.
  intros Harg Hpp Hz. pose proof (slot_ok s p Htab Hp) as Hpo. pose proof (slot_ok s c Htab Hc) as Hco.
  unfold sys_wait. rewrite wait_prefix by done. rewrite kget_bind, task_slot_at by (done || lia). cbv zeta.
  rewrite (kbind_Ret _ _ _ _ _ (load_ppid_ok _ s Hco)). rewrite Hcur.
  rewrite (kbind_Ret _ _ _ _ _ (load_pid_ok _ s Hpo)). rewrite Hpp, Z.eqb_refl. cbn [negb].
  rewrite (kbind_Ret _ _ _ _ _ (get_state_ok _ s Hco)). rewrite Hz. reflexivity.
Qed.

(** Waiting for someone else's child. *)
Lemma sys_wait_not_child :
  ld64 (kmem s) (regs + 72) = c -> ppid_of (kmem s) (task_slot s c) <> pid_of (kmem s) (task_slot s p) ->
  sys_wait fuel regs s = Ret (Done (- ECHILD), s).
Proof.
  intros Harg Hpp. pose proof (slot_ok s p Htab Hp) as Hpo. pose proof (slot_ok s c Htab Hc) as Hco.
  unfold sys_wait. rewrite wait_prefix by done. rewrite kget_bind, task_slot_at by (done || lia). cbv zeta.
  rewrite (kbind_Ret _ _ _ _ _ (load_ppid_ok _ s Hco)). rewrite Hcur.
  rewrite (kbind_Ret _ _ _ _ _ (load_pid_ok _ s Hpo)). by rewrite (proj2 (Z.eqb_neq _ _) Hpp).
Qed.

(** The child is reaped once its code is delivered: its slot is free again. *)
Lemma wait_finish_ok s4 :
  write_status fuel (ld64 (kmem s) (regs + 80)) (task_slot s c) s = Ret (None, s4) ->
  tasks s4 = tasks s -> _current s4 = _current s -> printing_ok s4 ->
  (forall a, in_range (task_slot s c) sizeof_task a -> ~ on_screen (con_fb (k_con s4)) a) ->
  exists s', wait_finish fuel regs (task_slot s c) c s = Ret (Done 0, s') /\
    state_of (kmem s') (task_slot s c) = TASK_NOT_ALLOCATED /\ _current s' = _current s.
Proof.
  intros Hst Ht4 Hc4 Hpr Hscr. pose proof (slot_ok s p Htab Hp) as Hpo. pose proof (slot_ok s c Htab Hc) as Hco.
  unfold wait_finish. rewrite (kbind_Ret _ _ _ _ _ (arg1_ok regs s Hregs)).
  rewrite (kbind_Ret _ _ _ _ _ Hst). rewrite (kbind_Ret _ _ _ _ _ (set_state_ok _ s4 Hco _)).
  set (s1 := set_kmem s4 _). rewrite kget_bind. change (_current s1) with (_current s4). rewrite Hc4, Hcur.
  rewrite (kbind_Ret _ _ _ _ _ (load_pid_ok _ s1 Hpo)).
  destruct (kprintk_ok "sys_wait: pid %d reaped child with pid %d
" [ANum (pid_of (kmem s1) (task_slot s p)); ANum c] s1) as (m & cn & H1 & H2 & _); [|reflexivity|].
  { destruct Hpr as [[] ?]. split; [|done]. split; done. }
  rewrite (kbind_Ret _ _ _ _ _ H1). eexists. split; [reflexivity|]. split; [|by rewrite <- Hcur, <- Hc4].
  cbn [kmem k_vm vm_mem vm_with vm_fa fa_mem]. unfold state_of.
  rewrite (ld_agree 4 _ _ _ _ H2); [unfold s1; by rewrite kmem_set, (ld_st_same 4)|].
  intros a Ha. apply Hscr. unfold in_range, sizeof_task in *. lia.
Qed.

(** The address for the code is refused: the child stays as it is. *)
Lemma wait_finish_refused e s4 :
  write_status fuel (ld64 (kmem s) (regs + 80)) (task_slot s c) s = Ret (Some e, s4) ->
  wait_finish fuel regs (task_slot s c) c s = Ret (Done e, s4).
Proof.
  intros Hst. unfold wait_finish. rewrite (kbind_Ret _ _ _ _ _ (arg1_ok regs s Hregs)).
  by rewrite (kbind_Ret _ _ _ _ _ Hst).
Qed.
End Wait.

Section Exit.
Context (s : kst) (p c regs : Z).
Hypothesis Htab : table_kok s.
Hypothesis Hp : 0 <= p < MAX_TASK_COUNT.
Hypothesis Hc : 0 <= c < MAX_TASK_COUNT.
Hypothesis Hpc : p <> c.
Hypothesis Hregs : regs_ok regs.
Hypothesis Hcur : _current s = task_slot s c.
Hypothesis Hpp : ppid_of (kmem s) (task_slot s c) = p.

(** A task dies: it is a zombie with its exit code, its parent is woken exactly
    if it waits for it, and running it again is a panic. *)
Lemma sys_exit_ok :
  kok (sched_context s) 8 = true ->
  let woken := (state_of (kmem s) (task_slot s p) =? TASK_WAITING) &&
               (wait_of (kmem s) (task_slot s p) =? pid_of (kmem s) (task_slot s c)) in
  let m1 := st 4 (st 4 (kmem s) (task_slot s c + 88) (ld64 (kmem s) (regs + 72))) (task_slot s c + 40) TASK_ZOMBIE in
  let m2 := if woken then st 4 m1 (task_slot s p + 40) TASK_RUNNABLE else m1 in
  exists k, sys_exit regs s = Ret (Switch (task_slot s c) (sched_context s) k, handed_back (set_kmem s m2)) /\
    forall s', k s' = Halt (Panic "reached unreachable").
Proof.
  intros Hk wk m1 m2. pose proof (slot_ok s p Htab Hp) as Hpo. pose proof (slot_ok s c Htab Hc) as Hco.
  pose proof (SchedSpec.task_slots_apart s p c Hpc) as Hap. unfold sizeof_task in Hap.
  unfold sys_exit. rewrite (kbind_Ret _ _ _ _ _ (arg0_ok regs s Hregs)). rewrite kget_bind, Hcur. cbv zeta.
  rewrite (kbind_Ret _ _ _ _ _ (store_exitcode_ok _ s Hco _)). set (s1 := set_kmem s _).
  rewrite (kbind_Ret _ _ _ _ _ (set_state_ok _ s1 Hco _)). set (s2 := set_kmem s1 _).
  rewrite (kbind_Ret _ _ _ _ _ (load_ppid_ok _ s2 Hco)).
  assert (E1 : ppid_of (kmem s2) (task_slot s c) = p).
  { rewrite <- Hpp. change (kmem s2) with m1. unfold m1. by field_simp. }
  rewrite E1, task_slot_at by (done || lia).
  rewrite (kbind_Ret _ _ _ _ _ (get_state_ok _ s2 Hpo)). rewrite (kbind_Ret _ _ _ _ _ (load_wait_ok _ s2 Hpo)).
  rewrite (kbind_Ret _ _ _ _ _ (load_pid_ok _ s2 Hco)).
  assert (E2 : (state_of (kmem s2) (task_slot s p) =? TASK_WAITING) &&
               (wait_of (kmem s2) (task_slot s p) =? pid_of (kmem s2) (task_slot s c)) = wk).
  { unfold wk. change (kmem s2) with m1. unfold m1. by field_simp. }
  rewrite E2.
  assert (E3 : (if wk then set_state (task_slot s p) TASK_RUNNABLE else kret tt) s2 = Ret (tt, set_kmem s m2)).
  { unfold m2. destruct wk; [by rewrite (set_state_ok _ s2 Hpo)|done]. }
  rewrite (kbind_Ret _ _ _ _ _ E3).
  assert (Hsw : sched_switch (set_kmem s m2) =
            Ret (Switch (task_slot s c) (sched_context s) (rret tt), handed_back (set_kmem s m2))).
  { rewrite sched_switch_ok; [by rewrite <- Hcur| |done]. change (_current (set_kmem s m2)) with (_current s).
    rewrite Hcur. by apply task_slot_nonnull. }
  unfold rbind. unfold kbind at 1. rewrite Hsw. cbn [rcont]. eexists. split; [reflexivity|]. done.
Qed.
End Exit.

(** ** sleep *)

Lemma sys_sleep_ok s t regs :
  regs_ok regs -> task_ok t -> _current s = t -> t <> NULL -> kok (sched_context s) 8 = true ->
  let m := st 4 (st64 (kmem s) (t + 64) (u64 (sched_timer s + ld64 (kmem s) (regs + 72) / SCHED_TIMER_PERIOD)))
             (t + 40) TASK_SLEEPING in
  exists k, sys_sleep regs s = Ret (Switch t (sched_context s) k, handed_back (set_kmem s m)) /\
    forall s', k s' = Ret (Done 0, s').
Proof.
  intros Hregs Ht Hcur Hnn Hk m. unfold sys_sleep.
  rewrite (kbind_Ret _ _ _ _ _ (arg0_ok regs s Hregs)). rewrite kget_bind, Hcur.
  rewrite (kbind_Ret _ _ _ _ _ (store_sleep_ok t s Ht _)). set (s1 := set_kmem s _).
  rewrite (kbind_Ret _ _ _ _ _ (set_state_ok t s1 Ht _)).
  assert (Hsw : sched_switch (set_kmem s m) = Ret (Switch t (sched_context s) (rret tt), handed_back (set_kmem s m))).
  { rewrite sched_switch_ok; [change (_current (set_kmem s m)) with (_current s); by rewrite Hcur| |done].
    change (_current (set_kmem s m)) with (_current s). by rewrite Hcur. }
  unfold rbind. rewrite (kbind_Ret _ _ _ _ _ Hsw). cbn [rcont]. eexists. split; [reflexivity|]. done.
Qed.

(** ** The dispatcher *)

(** What [do_syscall] makes of a call's result. *)
Lemma do_call_ok (X : R Z) s r s' : X s = Ret (r, s') ->
  rbind X (fun v => rret (u64 v)) s = rcont (fun v => rret (u64 v)) r s'.
Proof. intros H. unfold rbind. by rewrite (kbind_Ret _ _ _ _ _ H). Qed.

Lemma do_call_inv (X : R Z) s r s' : rbind X (fun v => rret (u64 v)) s = Ret (r, s') ->
  exists r1 s1, X s = Ret (r1, s1) /\ rcont (fun v => rret (u64 v)) r1 s1 = Ret (r, s').
Proof. intros (r1 & s1 & H1 & H)%kbind_inv. by exists r1, s1. Qed.
