(* ===== verification/FirstSpace.v ===== *)
(** * The address space of the first task

    [setup_vmem] maps the physical memory, the kernel's sections and the page of
    the user program into an address space without mappings. *)

From S2P Require Import Prelude Mem Common DList Buddy Paging FrameAlloc FrameRefine FrameZones FrameSession FrameInit.
From S2P Require Import FrameExample FrameClient Obj ObjSpec Vmem PageTable VmemSpec VmemMap AddrSpace Demand SpaceInit.
From S2P Require Import Multiboot Fb Console Printk Kst Arch Sched.

(** ** Large pages of canonical addresses *)

Lemma canonical_half va : canonical va -> 0 <= va < 2 ^ 47 \/ 2 ^ 64 - 2 ^ 47 <= va < 2 ^ 64.
Proof.
  intros [Hr Hb]. change two64 with (2 ^ 64) in Hr. destruct (Z.testbit va 47) eqn:E.
  - right. split; [|lia]. assert (H : Z.lnot (va mod 2 ^ 64) mod 2 ^ 64 < 2 ^ 47); [|rewrite (Z.mod_small va) in H by lia; unfold Z.lnot in H;
      Z.to_euclidean_division_equations; lia].
    apply bits_bound; [lia|]. intros i Hi. destruct (Z.ltb_spec i 64).
    + rewrite Z.mod_pow2_bits_low, Z.lnot_spec, Z.mod_pow2_bits_low by lia.
      destruct (decide (i = 47)) as [->|]; [by rewrite E|]. by rewrite Hb by lia.
    + apply Z.mod_pow2_bits_high. lia.
  - left. split; [lia|]. apply bits_bound; [lia|]. intros i Hi. destruct (Z.ltb_spec i 64).
    + destruct (decide (i = 47)) as [->|]; [done|]. by rewrite Hb by lia.
    + apply (testbit_small va 64); lia.
Qed.

(** Numbers of pages of 4 KB, 2 MB and 1 GB, of addresses. *)
Definition page_bytes (k : nat) : Z := 2 ^ (12 + 9 * Z.of_nat k).

Lemma prefix_iff k va va' :
  (k <= 2)%nat -> canonical va -> canonical va' ->
  prefix k va' = prefix k va <-> va' / page_bytes k = va / page_bytes k.
Proof.
  intros Hk H%canonical_half H'%canonical_half. unfold prefix, page_bytes.
  destruct k as [|[|[|k]]]; [..|lia]; cbn [Z.of_nat Pos.of_succ_nat]; Z.to_euclidean_division_equations; lia.
Qed.

(** The addresses of an aligned page. *)
Lemma page_iff_range k va va' :
  aligned (page_bytes k) va -> va' / page_bytes k = va / page_bytes k <-> va <= va' < va + page_bytes k.
Proof.
  intros [q ->]. assert (0 < page_bytes k) by (apply pow2_pos; lia). rewrite Z.div_mul by lia. split; intros H'.
  - pose proof (Z.div_mod va' (page_bytes k) ltac:(lia)). pose proof (Z.mod_pos_bound va' (page_bytes k) ltac:(lia)). lia.
  - symmetry. apply (Z.div_unique _ _ _ (va' - q * page_bytes k)); lia.
Qed.

(** Where an entry made for a frame leads. *)
Lemma made_leaf k frame extra flags va va' :
  (k <= 2)%nat -> 0 <= frame < 2 ^ 48 -> aligned (page_bytes k) frame -> aligned (page_bytes k) va ->
  extra = 0 \/ extra = PTE_PAGE_SIZE -> va <= va' < va + page_bytes k ->
  leaf (S k) (Z.lor (Z.lor (Z.lor frame PTE_PRESENT) extra) (vmem_convert_flags flags)) va' = va' - va + frame.
Proof.
  intros Hk Hf Ha Hva Hex Hin.
  assert (Hpa : aligned PAGE_SIZE frame).
  { eapply aligned_trans; [|exact Ha]. destruct k as [|[|[|k]]]; [by exists 1|by exists 512|by exists (512 * 512)|lia]. }
  destruct (made_entry frame extra (vmem_convert_flags flags) Hf Hpa) as (_ & _ & E & _);
    [apply convert_flags_ok|apply convert_flags_range|done|].
  assert (Hm : va' mod page_bytes k = va' - va).
  { destruct Hva as [q ->]. symmetry. apply (Z.mod_unique _ _ q); lia. }
  assert (Hr : ROUNDDOWN frame (page_bytes k) = frame).
  { unfold page_bytes. rewrite ROUNDDOWN_spec by lia. destruct Ha as [q ->]. unfold page_bytes. rewrite Z.div_mul by lia. lia. }
  unfold leaf. rewrite E. destruct k as [|[|[|k]]]; [| | |lia].
  - change PAGE_SIZE with (page_bytes 0). lia.
  - change (2 * MB) with (page_bytes 1). lia.
  - change GB with (page_bytes 2). lia.
Qed.

(** ** Ranges of addresses *)

(** [m] translates the [len] bytes from [v] to those from [p], and the rest as [m0] does. *)
Definition covers (root : Z) (m0 m : mem) (v p len : Z) : Prop := forall va, canonical va ->
  walk m 4 root va = if decide (v <= va < v + len) then Some (va - v + p) else walk m0 4 root va.

Lemma covers_nil root m v p : covers root m m v p 0.
Proof. intros va _. by rewrite decide_False by lia. Qed.

Lemma covers_app root m0 m1 m2 v p a b :
  0 <= a -> 0 <= b -> covers root m0 m1 v p a -> covers root m1 m2 (v + a) (p + a) b -> covers root m0 m2 v p (a + b).
Proof.
  intros Ha Hb H1 H2 va Hc. rewrite H2, H1 by done. repeat case_decide; try done; try lia. f_equal. lia.
Qed.

(** Addresses of the upper half are canonical. *)
Lemma upper_canonical va : KERNEL_HIGHER_HALF_START <= va < two64 -> canonical va.
Proof.
  intros H. change two64 with (2 ^ 64) in *. unfold KERNEL_HIGHER_HALF_START in H. split; [lia|]. intros i Hi.
  assert (Hb : forall j, 47 <= j < 64 -> Z.testbit va j = true).
  { intros j Hj. apply Z.testbit_true; [lia|]. replace (va / 2 ^ j) with (2 ^ (64 - j) - 1); [|symmetry].
    - replace (2 ^ (64 - j)) with (2 * 2 ^ (63 - j)) by (rewrite <- Z.pow_succ_r by lia; f_equal; lia).
      replace (2 * 2 ^ (63 - j) - 1) with (1 + (2 ^ (63 - j) - 1) * 2) by lia. by rewrite Z.mod_add.
    - assert (H64 : 2 ^ 64 = 2 ^ (64 - j) * 2 ^ j) by (rewrite <- Z.pow_add_r by lia; f_equal; lia).
      assert (2 ^ 47 <= 2 ^ j) by (apply Z.pow_le_mono_r; lia).
      symmetry. apply (Z.div_unique _ _ _ (va - (2 ^ (64 - j) - 1) * 2 ^ j)); lia. }
  rewrite !Hb by lia. done.
Qed.

(** ** What the first task sees *)

(** The linker's symbols: sections of [N] pages of 2 MB, and the page of the
    user program. *)
Record symbols_ok (sym : symbols) (N : nat) : Prop := {
  sy_start : aligned (2 * MB) (_phys_start_hh sym) /\ 0 <= _phys_start_hh sym;
  sy_end : _phys_end_kernel_sections sym = _phys_start_hh sym + Z.of_nat N * (2 * MB) /\ _phys_end_kernel_sections sym <= 2 ^ 48;
  sy_size : Z.of_nat N * (2 * MB) < KERNEL_SECTIONS_SIZE;
  sy_user : aligned PAGE_SIZE (_phys_start_user sym) /\ 0 <= _phys_start_user sym < 2 ^ 48;
}.

Definition user_text : Z := 0x10000.

Definition first_map (sym : symbols) (N : nat) (va : Z) : option Z :=
  if decide (KERNEL_DIRECT_PHYS_MAPPING_START <= va < KERNEL_DIRECT_PHYS_MAPPING_START + KERNEL_DIRECT_PHYS_MAPPING_SIZE)
  then Some (va - KERNEL_DIRECT_PHYS_MAPPING_START)
  else if decide (KERNEL_SECTIONS_START <= va < KERNEL_SECTIONS_START + Z.of_nat N * (2 * MB))
  then Some (va - KERNEL_SECTIONS_START + _phys_start_hh sym)
  else if decide (user_text <= va < user_text + PAGE_SIZE) then Some (va - user_text + _phys_start_user sym)
  else None.

Section Setup.
Context {F : Prop} {ok : fa_state -> list Z -> Prop} `{!FrameContract F ok} `{!FrameSource ok}.
Context (vm root : Z).
Hypothesis Hvm : kok (vm_pml4 vm) 8 = true.

(** The places of the tables, of level [l] and above, on the way to an address of a range. *)
Definition on_way (l : nat) (v len : Z) (k : nat * Z) : Prop :=
  (l <= k.1)%nat /\ exists va, v <= va < v + len /\ k.2 = prefix k.1 va.

Lemma on_way_sub l l' v len v' len' k :
  (l' <= l)%nat -> v' <= v -> v + len <= v' + len' -> on_way l v len k -> on_way l' v' len' k.
Proof. intros ??? [Hl (va & Hva & E)]. split; [lia|]. exists va. split; [lia|done]. Qed.

(** What mapping does to the tables: new ones are at the places [K], and all new
    frames are tables. *)
Record grown (K : nat * Z -> Prop) (s : vm_state) (T : tables) (L : list Z) (m' : mem) (T' : tables) (L' : list Z) : Prop := {
  gr_good : vm_good ok (set_vm s m') root T' L';
  gr_effect : vm_effect s T L m' T' L';
  gr_new : forall k, T' !! k <> None -> T !! k <> None \/ K k;
  gr_count : tables_only T L T' L';
}.

Lemma grown_refl K s T L : vm_good ok s root T L -> grown K s T L (vm_mem s) T L.
Proof. intros Hg. split; [by rewrite set_vm_id|apply vm_effect_refl|by left|done]. Qed.

Lemma grown_trans K s T L m1 T1 L1 m2 T2 L2 :
  grown K s T L m1 T1 L1 -> grown K (set_vm s m1) T1 L1 m2 T2 L2 -> grown K s T L m2 T2 L2.
Proof.
  intros [A1 A2 A3 A4] [B1 B2 B3 B4]. split; [done|by eapply vm_effect_trans| |by eapply tables_only_trans].
  intros k Hk. destruct (B3 k Hk) as [H|H]; [by apply A3|by right].
Qed.

Lemma grown_mono (K K' : nat * Z -> Prop) s T L m' T' L' :
  (forall k, K k -> K' k) -> grown K s T L m' T' L' -> grown K' s T L m' T' L'.
Proof. intros HK [A1 A2 A3 A4]. split; [done..| |done]. intros k Hk. destruct (A3 k Hk); [by left|right; by apply HK]. Qed.

(** The number of frames taken, by the places of the new tables. *)
Lemma grown_length (ks : list (nat * Z)) s T L m' T' L' :
  grown (fun k => k ∈ ks) s T L m' T' L' -> (length L' <= length L + length ks)%nat.
Proof.
  intros [_ He Hn Hc]. unfold tables_only in Hc. pose proof (ve_tables _ _ _ _ _ _ He) as Hsub.
  assert (H : (size T' <= size T + length ks)%nat); [|lia].
  rewrite <- !(size_dom (D := gset (nat * Z))).
  assert (Hs : dom T' ⊆ dom T ∪ (list_to_set ks : gset (nat * Z))).
  { intros k Hk%elem_of_dom. destruct (Hn k) as [H|H].
    - intros E. rewrite E in Hk. by destruct Hk.
    - apply elem_of_union_l, elem_of_dom. by destruct (T !! k).
    - apply elem_of_union_r. by apply elem_of_list_to_set. }
  apply subseteq_size in Hs. rewrite size_union_alt in Hs.
  assert (size (list_to_set ks ∖ dom T : gset (nat * Z)) <= length ks)%nat; [|lia].
  trans (size (list_to_set ks : gset (nat * Z))); [apply subseteq_size; set_solver|].
  clear. induction ks as [|k ks IH]; cbn [list_to_set length]; [by rewrite size_empty|].
  rewrite size_union_alt, size_singleton. trans (S (size (list_to_set ks : gset (nat * Z)))); [|lia].
  apply le_n_S, subseteq_size. set_solver.
Qed.

(** Memory ran out, or the range is mapped. *)
Definition range_mapped (l : nat) (s : vm_state) (T : tables) (L : list Z) (v p len r : Z) (m' : mem) (T' : tables) (L' : list Z) : Prop :=
  grown (on_way l v len) s T L m' T' L' /\
  (r = - ENOMEM /\ capacity (vm_fa s) <= Z.of_nat (length L') \/ r = 0 /\ covers root (vm_mem s) m' v p len).

Lemma mapped_range k s T L va frame extra flags r m' T' L' :
  (k <= 2)%nat -> 0 <= frame < 2 ^ 48 -> aligned (page_bytes k) frame -> aligned (page_bytes k) va -> canonical va ->
  extra = 0 \/ extra = PTE_PAGE_SIZE ->
  mapped ok s root T L (S k) va (Z.lor (Z.lor (Z.lor frame PTE_PRESENT) extra) (vmem_convert_flags flags)) r m' T' L' ->
  range_mapped (S k) s T L va frame (page_bytes k) r m' T' L'.
Proof.
  intros Hk Hf Ha Hva Hc Hex (Hg & He & Hn & Ht & _ & Hres). split.
  - split; [done|done| |done]. intros x Hx. destruct (Hn x Hx) as [H|(j & Hj & ->)]; [by left|right].
    split; [done|]. exists va. split; [|done]. assert (0 < page_bytes k) by (apply pow2_pos; lia). lia.
  - destruct Hres as [(-> & [Hfull _] & _)|(-> & _ & Hw)]; [by left|right]. split; [done|]. intros va' Hc'. rewrite Hw.
    rewrite Nat.sub_succ, Nat.sub_0_r. pose proof (prefix_iff k va va' Hk Hc Hc') as H1. pose proof (page_iff_range k va va' Hva) as H2.
    case_decide as D1; case_decide as D2; [|tauto|tauto|done]. f_equal. by apply made_leaf.
Qed.

(** The pointer to the root is outside the frames. *)
Definition root_at (s : vm_state) : Prop :=
  ld64 (vm_mem s) (vm_pml4 vm) = root /\ forall a, in_range (vm_pml4 vm) 8 a -> ~ fa_bytes (vm_fa s) a.

Lemma root_kept K s T L m' T' L' : grown K s T L m' T' L' -> root_at s -> root_at (set_vm s m').
Proof.
  intros [_ [_ _ He _ _] _ _] [H1 H2]. split; [|done]. rewrite <- H1. eapply ld_agree; [exact He|]. intros a Ha. apply H2. done.
Qed.

(** A loop that maps page after page: one page, then the rest. *)
Lemma range_cons k s T L v p len r1 m1 T1 L1 r m' T' L' :
  0 <= len -> range_mapped (S k) s T L v p (page_bytes k) r1 m1 T1 L1 -> r1 = 0 ->
  range_mapped (S k) (set_vm s m1) T1 L1 (v + page_bytes k) (p + page_bytes k) len r m' T' L' ->
  range_mapped (S k) s T L v p (page_bytes k + len) r m' T' L'.
Proof.
  intros Hlen [G1 [[? _]|[_ C1]]] -> [G2 C2]; [done|]. assert (0 < page_bytes k) by (apply pow2_pos; lia). split.
  { eapply grown_trans; (eapply grown_mono; [|done]); intros x; apply on_way_sub; lia. }
  destruct C2 as [?|[-> C2]]; [by left|right]. split; [done|].
  apply (covers_app root _ m1); [apply Z.lt_le_incl, pow2_pos; lia|done|done|exact C2].
Qed.

(** What a loop over the pages of size [k] from [v] needs. *)
Record room (k : nat) (s : vm_state) (T : tables) (L : list Z) (v p len : Z) : Prop := {
  rm_good : vm_good ok s root T L;
  rm_root : root_at s;
  rm_virt : KERNEL_HIGHER_HALF_START <= v /\ v + len < two64;
  rm_phys : 0 <= p /\ p + len <= 2 ^ 48;
  rm_aligned : aligned (page_bytes k) v /\ aligned (page_bytes k) p;
  rm_free : forall va, v <= va < v + len -> walk (vm_mem s) 4 root va = None;
  rm_tables : forall q, T !! (k, q) = None;
}.

Lemma room_next k s T L v p len r1 m1 T1 L1 :
  0 <= len -> range_mapped (S k) s T L v p (page_bytes k) r1 m1 T1 L1 -> r1 = 0 ->
  room k s T L v p (page_bytes k + len) -> room k (set_vm s m1) T1 L1 (v + page_bytes k) (p + page_bytes k) len.
Proof.
  intros Hlen [G1 [[? _]|[_ C1]]] -> [H1 H2 H3 H4 [H5 H5'] H6 H7]; [done|].
  assert (0 < page_bytes k) by (apply pow2_pos; lia). split; try lia.
  - apply G1.
  - by eapply root_kept.
  - split; by apply aligned_add; [|exists 1; lia].
  - intros va Hva. change (vm_mem (set_vm s m1)) with m1. rewrite C1 by (apply upper_canonical; lia).
    rewrite decide_False by lia. apply H6. lia.
  - intros q. destruct (T1 !! (k, q)) eqn:E; [|done]. exfalso. destruct (gr_new _ _ _ _ _ _ _ G1 (k, q)) as [H0|H0];
      [by rewrite E|by apply H0|destruct H0 as [H0 _]; simpl in H0; lia].
Qed.

Lemma page_bytes_GB : page_bytes 2 = GB. Proof. done. Qed.
Lemma page_bytes_2MB : page_bytes 1 = 2 * MB. Proof. done. Qed.

(** One page of a loop. *)
Lemma room_canonical k s T L v p len : room k s T L v p len -> 0 < len -> canonical v.
Proof. intros H Hl. apply upper_canonical. pose proof (rm_virt _ _ _ _ _ _ _ H). lia. Qed.

Lemma map_1gb_range s T L v p len :
  room 2 s T L v p len -> GB <= len ->
  exists r m' T' L', vmem_map_page_1gb vm v p VMEM_WRITE s = Ret (r, set_vm s m') /\ range_mapped 3 s T L v p GB r m' T' L'.
Proof.
  intros H Hl. pose proof H as [Hg [Hr _] Hv Hp [Ha Ha'] Hf Ht]. assert (0 < GB) by done.
  destruct (map_page_1gb_mapped s root T L vm v p VMEM_WRITE Hg Hvm Hr Ha ltac:(lia) Ha') as (r & m' & T' & L' & Hrun & Hm);
    [apply Hf; lia|apply Ht|]. exists r, m', T', L'. split; [exact Hrun|].
  apply (mapped_range 2 s T L v p PTE_PAGE_SIZE VMEM_WRITE); [lia|lia|done|done|eapply room_canonical; [done|lia]|by right|exact Hm].
Qed.

Lemma map_2mb_range s T L v p len :
  room 1 s T L v p len -> 2 * MB <= len ->
  exists r m' T' L', vmem_map_page_2mb vm v p VMEM_WRITE s = Ret (r, set_vm s m') /\
    range_mapped 2 s T L v p (2 * MB) r m' T' L'.
Proof.
  intros H Hl. pose proof H as [Hg [Hr _] Hv Hp [Ha Ha'] Hf Ht]. assert (0 < MB) by done.
  destruct (map_page_2mb_mapped s root T L vm v p VMEM_WRITE Hg Hvm Hr Ha ltac:(lia) Ha') as (r & m' & T' & L' & Hrun & Hm);
    [apply Hf; lia|apply Ht|]. exists r, m', T', L'. split; [exact Hrun|].
  apply (mapped_range 1 s T L v p PTE_PAGE_SIZE VMEM_WRITE); [lia|lia|done|done|eapply room_canonical; [done|lia]|by right|exact Hm].
Qed.

Lemma range_nil k s T L v p : vm_good ok s root T L -> range_mapped k s T L v p 0 0 (vm_mem s) T L.
Proof. intros Hg. split; [by apply grown_refl|]. right. split; [done|apply covers_nil]. Qed.

Lemma map_direct_loop_ok n : forall s T L v p,
  room 2 s T L v p (Z.of_nat n * GB) ->
  exists r m' T' L', map_direct_loop vm v p n s = Ret (r, set_vm s m') /\
    range_mapped 3 s T L v p (Z.of_nat n * GB) r m' T' L'.
Proof.
  induction n as [|n IH]; intros s T L v p H.
  - exists 0, (vm_mem s), T, L. rewrite set_vm_id. split; [done|]. apply range_nil, H.
  - assert (En : Z.of_nat (S n) * GB = GB + Z.of_nat n * GB) by lia. rewrite En in *.
    assert (HG : 0 < GB) by done. pose proof (rm_virt _ _ _ _ _ _ _ H). pose proof (rm_phys _ _ _ _ _ _ _ H).
    destruct (map_1gb_range s T L v p _ H) as (r & m1 & T1 & L1 & Hrun & Hr); [lia|]. cbn [map_direct_loop]. kstep Hrun.
    destruct (proj2 Hr) as [[-> Hfull]|[-> _]].
    + exists (- ENOMEM), m1, T1, L1. split; [done|]. split; [|by left].
      eapply grown_mono; [|apply Hr]. intros x. apply on_way_sub; lia.
    + cbn [Z.ltb Z.compare]. unfold KERNEL_HIGHER_HALF_START in *. rewrite !u64_small by lia.
      destruct (IH (set_vm s m1) T1 L1 (v + GB) (p + GB)) as (r & m' & T' & L' & Hrun' & Hr');
        [by apply (room_next 2 s T L v p _ 0 m1 T1 L1); [lia|..]|].
      exists r, m', T', L'. rewrite set_vm_set in Hrun'. split; [exact Hrun'|].
      apply (range_cons 2 s T L v p _ 0 m1 T1 L1); [lia|done|done|exact Hr'].
Qed.

Lemma map_sections_loop_ok n : forall fuel s T L v p pend,
  room 1 s T L v p (Z.of_nat n * (2 * MB)) -> (n < fuel)%nat ->
  p + (Z.of_nat n - 1) * (2 * MB) < pend <= p + Z.of_nat n * (2 * MB) ->
  exists r m' T' L', map_sections_loop fuel vm v p pend s = Ret (r, set_vm s m') /\
    range_mapped 2 s T L v p (Z.of_nat n * (2 * MB)) r m' T' L'.
Proof.
  induction n as [|n IH]; intros fuel s T L v p pend H Hf Hend; (destruct fuel as [|fuel]; [lia|]); cbn [map_sections_loop].
  - rewrite (proj2 (Z.ltb_ge _ _)) by lia. exists 0, (vm_mem s), T, L. rewrite set_vm_id. split; [done|]. apply range_nil, H.
  - assert (En : Z.of_nat (S n) * (2 * MB) = 2 * MB + Z.of_nat n * (2 * MB)) by lia. rewrite En in *.
    assert (HG : 0 < MB) by done. pose proof (rm_virt _ _ _ _ _ _ _ H). pose proof (rm_phys _ _ _ _ _ _ _ H).
    rewrite (proj2 (Z.ltb_lt _ _)) by lia.
    destruct (map_2mb_range s T L v p _ H) as (r & m1 & T1 & L1 & Hrun & Hr); [lia|]. kstep Hrun.
    destruct (proj2 Hr) as [[-> Hfull]|[-> _]].
    + exists (- ENOMEM), m1, T1, L1. split; [done|]. split; [|by left].
      eapply grown_mono; [|apply Hr]. intros x. apply on_way_sub; lia.
    + cbn [Z.ltb Z.compare]. unfold KERNEL_HIGHER_HALF_START in *. rewrite !u64_small by lia.
      destruct (IH fuel (set_vm s m1) T1 L1 (v + 2 * MB) (p + 2 * MB) pend) as (r & m' & T' & L' & Hrun' & Hr');
        [by apply (room_next 1 s T L v p _ 0 m1 T1 L1); [lia|..]|lia|lia|].
      exists r, m', T', L'. rewrite set_vm_set in Hrun'. split; [exact Hrun'|].
      apply (range_cons 1 s T L v p _ 0 m1 T1 L1); [lia|done|done|exact Hr'].
Qed.

(** Where [setup_vmem] makes tables: 128 for the direct mapping, 3 for the
    kernel's sections, 3 for the page of the user program. *)
Definition setup_places : list (nat * Z) :=
  ((fun i => (3%nat, 273 + Z.of_nat i)) <$> seq 0 128) ++
  [(3%nat, 511); (2%nat, 262142); (2%nat, 262143); (3%nat, 0); (2%nat, 0); (1%nat, 0)].

Definition setup_way (k : nat * Z) : Prop :=
  on_way 3 KERNEL_DIRECT_PHYS_MAPPING_START KERNEL_DIRECT_PHYS_MAPPING_SIZE k \/
  on_way 2 KERNEL_SECTIONS_START KERNEL_SECTIONS_SIZE k \/ on_way 1 user_text PAGE_SIZE k.

Lemma setup_way_places k : setup_way k -> (k.1 <= 3)%nat -> k ∈ setup_places.
Proof.
  destruct k as [l q]. cbn [fst]. unfold setup_places. rewrite elem_of_app, !elem_of_cons.
  intros [[Hl (va & Hva & E)]|[[Hl (va & Hva & E)]|[Hl (va & Hva & E)]]] Hk; cbn [fst snd] in *; unfold prefix in E;
    unfold KERNEL_DIRECT_PHYS_MAPPING_START, KERNEL_DIRECT_PHYS_MAPPING_SIZE, KERNEL_SECTIONS_START, KERNEL_SECTIONS_SIZE,
      user_text, PAGE_SIZE in Hva.
  - left. assert (l = 3%nat) as -> by lia. apply list_elem_of_fmap. exists (Z.to_nat (q - 273)).
    cbn [Z.of_nat Pos.of_succ_nat] in E.
    assert (273 <= q < 401) by (Z.to_euclidean_division_equations; lia). rewrite elem_of_seq. split; [f_equal; lia|lia].
  - right. assert (l = 2%nat \/ l = 3%nat) as [-> | ->] by lia; cbn [Z.of_nat Pos.of_succ_nat] in E.
    + assert (q = 262142 \/ q = 262143) as [-> | ->] by (Z.to_euclidean_division_equations; lia); tauto.
    + assert (q = 511) as -> by (Z.to_euclidean_division_equations; lia). tauto.
  - right. assert (l = 1%nat \/ l = 2%nat \/ l = 3%nat) as [-> |[-> | ->]] by lia; cbn [Z.of_nat Pos.of_succ_nat] in E;
      assert (q = 0) as -> by (Z.to_euclidean_division_equations; lia); tauto.
Qed.

Lemma setup_length s T L m' T' L' :
  vm_good ok s root T L -> grown setup_way s T L m' T' L' -> (length L' <= length L + 134)%nat.
Proof.
  intros Hg G. apply (grown_length setup_places s T L m' T' L'). destruct G as [G1 G2 G3 G4]. split; [done|done| |done].
  intros k Hk. destruct (G3 k Hk) as [H|H]; [by left|]. destruct (T' !! k) as [t|] eqn:E; [|done]. destruct k as [l q].
  destruct (tr_top _ _ _ (vg_tree _ _ _ _ G1) l q t E) as [[_ H4] H0]. destruct (decide (l = 4%nat)) as [->|Hl].
  - left. rewrite H0 by done. rewrite (tr_root _ _ _ (vg_tree _ _ _ _ Hg)). done.
  - right. apply setup_way_places; [done|simpl; lia].
Qed.

Lemma setup_vmem_ok fuel sym N s T L :
  vm_good ok s root T L -> root_at s -> (forall l q, (l <= 2)%nat -> T !! (l, q) = None) ->
  (forall va, walk (vm_mem s) 4 root va = None) -> symbols_ok sym N -> (N < fuel)%nat ->
  exists r m' T' L', setup_vmem fuel sym vm s = Ret (r, set_vm s m') /\
    vm_good ok (set_vm s m') root T' L' /\ vm_effect s T L m' T' L' /\
    (length L' <= length L + 134)%nat /\
    (r = - ENOMEM /\ capacity (vm_fa s) <= Z.of_nat (length L') \/
     r = 0 /\ forall va, canonical va -> walk m' 4 root va = first_map sym N va).
Proof.
  intros Hg Hr HT Hw [[Y1 Y2] [Y3 Y4] Y5 [Y6 Y7]] Hf. unfold setup_vmem.
  assert (En : Z.of_nat (Z.to_nat (KERNEL_DIRECT_PHYS_MAPPING_SIZE / GB)) * GB = KERNEL_DIRECT_PHYS_MAPPING_SIZE)
    by (rewrite Z2Nat.id by (by apply Z.leb_le); reflexivity).
  set (n := Z.to_nat _) in *. clearbody n.
  assert (R1 : room 2 s T L KERNEL_DIRECT_PHYS_MAPPING_START 0 (Z.of_nat n * GB)).
  { rewrite En. split; [done|done|by split; [apply Z.leb_le|apply Z.ltb_lt]|by split; apply Z.leb_le| |intros; apply Hw|intros; by apply HT].
    split; [exists 17179746816; reflexivity|by exists 0]. }
  destruct (map_direct_loop_ok n s T L _ _ R1) as (r1 & m1 & T1 & L1 & Hrun1 & [G1 C1]). kstep Hrun1. rewrite En in C1.
  assert (W1 : grown setup_way s T L m1 T1 L1).
  { eapply grown_mono; [|exact G1]. intros k Hk. left. by rewrite En in Hk. }
  destruct C1 as [[-> Hfull]|[-> C1]].
  { exists (- ENOMEM), m1, T1, L1. split; [done|]. split; [apply G1|]. split; [apply G1|]. split; [by eapply setup_length|by left]. }
  cbn [Z.ltb Z.compare].
  assert (R2 : room 1 (set_vm s m1) T1 L1 KERNEL_SECTIONS_START (_phys_start_hh sym) (Z.of_nat N * (2 * MB))).
  { unfold KERNEL_SECTIONS_SIZE in Y5. unfold KERNEL_SECTIONS_START, KERNEL_HIGHER_HALF_START.
    split; [apply G1|by eapply root_kept|unfold KERNEL_HIGHER_HALF_START; lia|lia|split; [exists 8796093021184; reflexivity|done]| |].
    - intros va Hva. change (vm_mem (set_vm s m1)) with m1.
      rewrite C1 by (apply upper_canonical; unfold KERNEL_HIGHER_HALF_START; lia).
      rewrite decide_False; [apply Hw|]. unfold KERNEL_DIRECT_PHYS_MAPPING_START, KERNEL_DIRECT_PHYS_MAPPING_SIZE. lia.
    - intros q. destruct (T1 !! (1%nat, q)) eqn:E; [|done]. exfalso. destruct (gr_new _ _ _ _ _ _ _ G1 (1%nat, q)) as [H0|H0];
        [by rewrite E|by apply H0, HT; lia|destruct H0 as [H0 _]; simpl in H0; lia]. }
  destruct (map_sections_loop_ok N fuel (set_vm s m1) T1 L1 _ _ (_phys_end_kernel_sections sym) R2 Hf) as
    (r2 & m2 & T2 & L2 & Hrun2 & [G2 C2]); [assert (0 < MB) by done; lia|]. kstep Hrun2. rewrite set_vm_set.
  assert (W2 : grown setup_way (set_vm s m1) T1 L1 m2 T2 L2).
  { eapply grown_mono; [|exact G2]. intros k Hk. right; left. eapply on_way_sub; [| | |exact Hk]; lia. }
  pose proof (grown_trans _ _ _ _ _ _ _ _ _ _ W1 W2) as G12.
  destruct C2 as [[-> Hfull]|[-> C2]].
  { exists (- ENOMEM), m2, T2, L2. split; [done|]. split; [apply G12|]. split; [apply G12|]. split; [by eapply setup_length|by left]. }
  cbn [Z.ltb Z.compare].
  assert (Hc : canonical user_text).
  { split; [done|]. intros i Hi. rewrite !(testbit_small _ 17) by (done || lia). done. }
  assert (Hnone : walk m2 4 root user_text = None).
  { change (vm_mem (set_vm s m1)) with m1 in C2. rewrite C2, C1 by done. rewrite !decide_False; [apply Hw| |];
    unfold user_text, KERNEL_SECTIONS_START, KERNEL_DIRECT_PHYS_MAPPING_START; lia. }
  destruct (root_kept _ _ _ _ _ _ _ G12 Hr) as [Hr2 _].
  destruct (map_page_mapped (set_vm s m2) root T2 L2 vm user_text (_phys_start_user sym) VMEM_USER) as (r3 & m3 & T3 & L3 & Hrun3 & Hm3);
    [apply G12|done|done|by exists 16|done|done|done|].
  fold user_text. kstep Hrun3. rewrite set_vm_set.
  rewrite <- (Z.lor_0_r (Z.lor (_phys_start_user sym) PTE_PRESENT)) in Hm3.
  apply (mapped_range 0) in Hm3 as [G3 C3]; [|lia|done|done|by exists 16|done|by left].
  apply (grown_mono _ setup_way) in G3; [|by intros k Hk; right; right].
  pose proof (grown_trans _ _ _ _ _ _ _ _ _ _ G12 G3) as G.
  exists r3, m3, T3, L3. split; [destruct C3 as [[-> _]|[-> _]]; done|]. split; [apply G|]. split; [apply G|].
  split; [by eapply setup_length|]. destruct C3 as [[-> Hfull]|[-> C3]]; [by left|right]. split; [done|]. intros va Hva. change (page_bytes 0) with PAGE_SIZE in C3.
  change (vm_mem (set_vm s m2)) with m2 in C3. change (vm_mem (set_vm s m1)) with m1 in C2. rewrite C3, C2, C1, Hw by done.
  unfold first_map.
  unfold KERNEL_SECTIONS_SIZE in Y5. unfold user_text, KERNEL_SECTIONS_START, KERNEL_DIRECT_PHYS_MAPPING_START, KERNEL_DIRECT_PHYS_MAPPING_SIZE, PAGE_SIZE in *.
  repeat case_decide; try done; try lia. by rewrite Z.add_0_r.
Qed.
End Setup.
