(* ===== verification/Thread.v ===== *)
(** * Kernel stacks of threads

    A thread's kernel stack is a frame of its own; a new thread's saved registers
    and the return address of its first switch are at the top of it. *)

From S2P Require Import Prelude Mem Common DList Buddy Paging FrameAlloc FrameRefine FrameZones FrameSession FrameInit.
From S2P Require Import FrameExample FrameClient Obj Vmem PageTable VmemSpec.
From S2P Require Import Multiboot Fb FbSpec Console Printk PrintkSpec ConsoleSpec Kst Arch Sched SchedSpec.

Lemma set_kmem_set s m m' : set_kmem (set_kmem s m) m' = set_kmem s m'.
Proof. done. Qed.

(** Loads after stores at known distances. *)
Ltac thread_fields :=
  repeat first
    [ rewrite ld64_st64_same | rewrite (ld_st_same 2) | rewrite (ld_st_same 8)
    | rewrite (ld_st_ne 8 8) by (unfold apart; lia) | rewrite (ld_st_ne 2 8) by (unfold apart; lia)
    | rewrite (ld_st_ne 8 2) by (unfold apart; lia) | rewrite (ld_st_ne 2 2) by (unfold apart; lia) ].

Section Thread.
Context {F : Prop} {ok : fa_state -> list Z -> Prop} `{!FrameContract F ok} `{!FrameSource ok}.
Context (s : kst) (L : list Z) (th : Z).
Let fa : fa_state := vm_fa (k_vm s).
Hypothesis Hok : ok fa L.
Hypothesis Hth : kok th 16 = true.
Hypothesis Hout : forall a, in_range th 16 a -> ~ fa_bytes fa a.

(** The stack [p] is made and maybe written; nothing else is, but the thread. *)
Record stack_made (p : Z) (m : mem) : Prop := {
  sm_new : p ∉ L;
  sm_ok : ok (set_mem fa m) (p :: L);
  sm_frames : agree (frame_byte L) (kmem s) m;
  sm_outside : agree (fun a => ~ fa_bytes fa a /\ ~ in_range th 16 a) (kmem s) m;
}.

Lemma stack_frame p m : stack_made p m -> frame_at p.
Proof. intros H. eapply fc_frame; [apply H|apply list_elem_of_here]. Qed.

Lemma stack_inside p m a : stack_made p m -> in_range p PAGE_SIZE a -> fa_bytes fa a.
Proof. intros H Ha. apply (fc_inside (ok := ok) (set_mem fa m) (p :: L)); [apply H|]. exists p. split; [apply list_elem_of_here|done]. Qed.

Lemma stack_apart p m : stack_made p m -> apart th 16 p PAGE_SIZE.
Proof.
  intros H. destruct (decide (apart th 16 p PAGE_SIZE)) as [|Hn]; [done|]. exfalso. unfold apart, PAGE_SIZE in Hn.
  apply (Hout (Z.max th p)); [unfold in_range; lia|]. apply (stack_inside p m); [done|]. unfold in_range, PAGE_SIZE. lia.
Qed.

(** Writes on the stack and in the thread. *)
Lemma stack_agree p m m' :
  stack_made p m -> agree (fun a => ~ in_range p PAGE_SIZE a /\ ~ in_range th 16 a) m m' -> stack_made p m'.
Proof.
  intros H Hag. pose proof H as [H1 H2 H3 H4]. split; [done|..].
  - apply (fc_keep (ok := ok) (set_mem fa m) (p :: L) m' H2). eapply agree_weaken; [exact Hag|].
    intros a [Ha Hn]. split; [|by intros ?%Hout]. intros Hp. apply Hn. exists p. split; [apply list_elem_of_here|done].
  - eapply agree_trans; [exact H3|]. eapply agree_weaken; [exact Hag|]. intros a (q & Hq & Ha). split.
    + intros Hp. assert (Hne : q <> p) by (by intros ->).
      assert (Hqf : frame_at q) by (eapply fc_frame; [exact Hok|done]).
      pose proof (frames_apart q p Hqf (stack_frame p m H) Hne). unfold apart, in_range in *. lia.
    + intros Ht. apply (Hout a Ht). apply (fc_inside (ok := ok) fa L); [done|by exists q].
  - eapply agree_trans; [exact H4|]. eapply agree_weaken; [exact Hag|]. intros a [Ha Hn]. split; [|done].
    intros Hp. by eapply Ha, stack_inside.
Qed.

Lemma stack_store p m n a v :
  stack_made p m -> p <= a /\ a + Z.of_nat n <= p + PAGE_SIZE \/ th <= a /\ a + Z.of_nat n <= th + 16 ->
  stack_made p (st n m a v).
Proof.
  intros H Ha. eapply stack_agree; [exact H|]. eapply agree_weaken; [apply st_agree|].
  intros b [H1 H2] Hb. unfold in_range in *. lia.
Qed.

Lemma th_fields : th_context_rsp th = th + 8 /\ kok th 8 = true /\ kok (th + 8) 8 = true.
Proof.
  pose proof (proj1 (kok_spec _ _) Hth) as [H1 H2]. unfold th_context_rsp. assert (KERNEL_HIGHER_HALF_START > 0) by done.
  rewrite u64_small by lia. split; [done|]. split; (eapply kok_sub; [exact Hth|lia..]).
Qed.

Lemma allocate_kstack_ok :
  (exists s', allocate_kstack th s = Ret (- ENOMEM, s')) /\ capacity fa <= Z.of_nat (length L) \/
  exists p m, allocate_kstack th s = Ret (0, set_kmem s m) /\ stack_made p m /\ ld64 m th = p + PAGE_SIZE /\
    forall a, in_range p PAGE_SIZE a -> rd8 m a = 0.
Proof.
  destruct th_fields as (_ & Hk0 & _). unfold allocate_kstack, th_kstack_top.
  destruct (fc_alloc (ok := ok) fa L Hok) as [[Hnull Hfull]|(p & m1 & Hrun & Hp0 & HpL & Hok1 & Hag & Hout1 & Hzero)].
  { left. split; [|exact Hfull]. assert (E : in_vm (in_fa frame_alloc) s = Ret (NULL, s)).
    { unfold in_vm, in_fa, klift. change (vm_fa (k_vm s)) with fa. rewrite Hnull. by destruct s as [[]]. }
    rewrite (kbind_Ret _ _ _ _ _ E). rewrite (kbind_Ret _ _ _ _ _ (kstore_ok 8 th NULL s Hk0)).
    rewrite (kbind_Ret _ _ _ _ _ (kload_ok 8 th _ Hk0)). rewrite kmem_set.
    change (ld 8 (st 8 (kmem s) th NULL) th) with (ld64 (st64 (kmem s) th NULL) th). rewrite ld64_st64_same. by eexists. }
  right. assert (E : in_vm (in_fa frame_alloc) s = Ret (p, set_kmem s m1)).
  { unfold in_vm, in_fa, klift. change (vm_fa (k_vm s)) with fa. by rewrite Hrun. }
  rewrite (kbind_Ret _ _ _ _ _ E). rewrite (kbind_Ret _ _ _ _ _ (kstore_ok 8 th p _ Hk0)). rewrite kmem_set, set_kmem_set.
  assert (M1 : stack_made p m1).
  { split; [done|done|exact Hag|]. eapply agree_weaken; [exact Hout1|]. by intros a [Ha _]. }
  pose proof (stack_frame p m1 M1) as [Fa Fl Fh]. unfold KERNEL_DIRECT_PHYS_MAPPING_START, KERNEL_DIRECT_PHYS_MAPPING_SIZE in *.
  pose proof (stack_store p m1 8 th p M1 ltac:(lia)) as M2. set (m2 := st 8 m1 th p) in *.
  rewrite (kbind_Ret _ _ _ _ _ (kload_ok 8 th _ Hk0)). rewrite kmem_set.
  change (ld 8 m2 th) with (ld64 (st64 m1 th p) th). rewrite ld64_st64_same, u64_small by (unfold PAGE_SIZE in *; lia).
  rewrite (proj2 (Z.eqb_neq p NULL)) by done.
  destruct (memset_ok p 0 PAGE_SIZE m2) as (m3 & Hset & Hfill);
    [done|by apply (frame_at_kok p); [eapply stack_frame|..]|].
  assert (E3 : in_vm (in_kmem (memset p 0 PAGE_SIZE)) (set_kmem s m2) = Ret (tt, set_kmem s m3)).
  { unfold in_vm, in_kmem, in_fa, in_mem, klift. change (fa_mem (vm_fa (k_vm (set_kmem s m2)))) with m2. by rewrite Hset. }
  rewrite (kbind_Ret _ _ _ _ _ E3). rewrite (kbind_Ret _ _ _ _ _ (kstore_ok 8 th _ _ Hk0)). rewrite kmem_set, set_kmem_set.
  assert (M3 : stack_made p m3).
  { eapply stack_agree; [exact M2|]. eapply agree_weaken; [by eapply filled_agree|]. by intros a []. }
  pose proof (stack_store p m3 8 th (u64 (p + PAGE_SIZE)) M3 ltac:(lia)) as M4.
  exists p, (st 8 m3 th (u64 (p + PAGE_SIZE))). split; [done|]. split; [done|]. split.
  - change (ld64 (st64 m3 th (u64 (p + PAGE_SIZE))) th = p + PAGE_SIZE). rewrite ld64_st64_same, !u64_small; unfold PAGE_SIZE in *; try lia.
    rewrite u64_small; lia.
  - intros a Ha. rewrite rd8_st_out by (pose proof (stack_apart p m3 M3); unfold apart, in_range in *; lia).
    rewrite Hfill, decide_True by done. done.
Qed.

(** A thread that the scheduler can switch to: on its stack, whose top is the
    end of the saved registers, lies the return address of [context_switch]. *)
Record switchable (sym : symbols) (regs : Z) (m : mem) : Prop := {
  sw_top : ld64 m th = regs + sizeof_arch_regs;
  sw_rsp : ld64 m (th + 8) = regs - sizeof_on_stack_context;
  sw_return : ld64 m (regs - sizeof_on_stack_context + 48) = u64 (pop_and_iret sym);
}.

(** The registers of a thread that starts in the user program. *)
Record starts (sym : symbols) (regs : Z) (m : mem) : Prop := {
  st_rip : ld64 m (regs + 136) = u64 (user_program sym);
  st_rsp : ld64 m (regs + 160) = 0x70000000 + 4 * PAGE_SIZE;
  st_cs : ld 2 m (regs + 144) = GDT_SEGMENT_SELECTOR USER_CODE_SEG RPL_RING3;
  st_ss : ld 2 m (regs + 168) = GDT_SEGMENT_SELECTOR USER_DATA_SEG RPL_RING3;
  st_rflags : ld64 m (regs + 152) = RFLAGS_IF;
  st_others : forall a, in_range regs 128 a -> rd8 m a = 0;
}.

(** The stack's frame as the callers see it. *)
Lemma stack_bounds p m : stack_made p m -> KERNEL_HIGHER_HALF_START <= p /\ p + PAGE_SIZE < two64 /\
  forall a n, p <= a -> 0 <= n -> a + n <= p + PAGE_SIZE -> kok a n = true.
Proof.
  intros H. pose proof (stack_frame p m H) as Hf. pose proof Hf as [_ H1 H2].
  unfold KERNEL_DIRECT_PHYS_MAPPING_START, KERNEL_DIRECT_PHYS_MAPPING_SIZE, KERNEL_HIGHER_HALF_START in *.
  split; [lia|]. split; [lia|]. intros a n H3 H4 H5. by eapply frame_at_kok.
Qed.

Lemma arch_thread_new_ok sym :
  (exists r s', arch_thread_new sym th s = Ret ((- ENOMEM, r), s')) /\ capacity fa <= Z.of_nat (length L) \/
  exists p m, let regs := p + PAGE_SIZE - sizeof_arch_regs in
    arch_thread_new sym th s = Ret ((0, regs), set_kmem s m) /\ stack_made p m /\
    switchable sym regs m /\ starts sym regs m.
Proof.
  destruct th_fields as (E8 & Hk0 & Hk8). unfold arch_thread_new.
  destruct allocate_kstack_ok as [[[s' H] Hfull]|(p & m & H & M & Ht & Hz)]; rewrite (kbind_Ret _ _ _ _ _ H); [left; split; [by eexists _, _|done]|].
  right. cbn [Z.ltb Z.compare]. unfold th_kstack_top. rewrite (kbind_Ret _ _ _ _ _ (kload_ok 8 th _ Hk0)). rewrite kmem_set.
  change (ld 8 m th) with (ld64 m th). rewrite Ht, E8. destruct (stack_bounds p m M) as (B1 & B2 & Bk).
  pose proof (stack_apart p m M) as Hap. unfold KERNEL_HIGHER_HALF_START in B1.
  unfold regs_rsp, regs_ss, regs_rip, regs_cs, regs_rflags, ctx_ret_addr. unfold sizeof_arch_regs, sizeof_on_stack_context, PAGE_SIZE in *.
  set (regs := p + 4096 - 176). rewrite (u64_small regs) by lia.
  rewrite !(u64_small (regs + _)) by lia. rewrite (u64_small (regs - 56)) by lia. rewrite (u64_small (regs - 56 + 48)) by lia.
  rewrite bind_kstore by (apply Bk; lia). rewrite bind_kstore by (apply Bk; lia). rewrite bind_kstore by (apply Bk; lia).
  rewrite bind_kstore by (apply Bk; lia). rewrite bind_kstore by (apply Bk; lia). rewrite bind_kstore by (apply Bk; lia).
  rewrite bind_kstore by exact Hk8. rewrite !kmem_set, !set_kmem_set.
  match goal with |- context [set_kmem s ?x] => set (m' := x) end.
  exists p, m'. split; [reflexivity|]. split; [|split].
  - unfold m'. repeat (apply stack_store; [|unfold PAGE_SIZE; lia]). exact M.
  - unfold m', apart in *. split; unfold sizeof_arch_regs, sizeof_on_stack_context; thread_fields.
    + rewrite Ht. unfold regs. lia.
    + rewrite u64_small; lia.
    + done.
  - unfold m', apart in *. split; thread_fields; try done. intros a Ha. unfold in_range in Ha.
    rewrite !rd8_st_out by (cbn [Z.of_nat Pos.of_succ_nat]; lia). apply Hz. unfold in_range, PAGE_SIZE. lia.
Qed.

(** The current task's thread, on the stack [q]. *)
Section Clone.
Context (sym : symbols) (q : Z).
Hypothesis Hcur : _current s <> NULL.
Hypothesis Hck : kok (_current s) 8 = true.
Hypothesis Hcout : forall a, in_range (_current s) 8 a -> ~ fa_bytes fa a /\ ~ in_range th 16 a.
Hypothesis Hq : q ∈ L.
Hypothesis Htop : ld64 (kmem s) (_current s) = q + PAGE_SIZE.

Lemma arch_thread_clone_ok :
  (exists r s', arch_thread_clone_current sym th s = Ret ((- ENOMEM, r), s')) \/
  exists p m, let regs := p + PAGE_SIZE - sizeof_arch_regs in
    arch_thread_clone_current sym th s = Ret ((0, regs), set_kmem s m) /\ stack_made p m /\ switchable sym regs m /\
    forall o, 0 <= o < sizeof_arch_regs -> rd8 m (regs + o) = rd8 (kmem s) (q + PAGE_SIZE - sizeof_arch_regs + o).
Proof.
  destruct th_fields as (E8 & Hk0 & Hk8). unfold arch_thread_clone_current. rewrite kget_bind.
  rewrite kassert_true by (by apply negb_true_iff, Z.eqb_neq).
  destruct allocate_kstack_ok as [[[s' H] _]|(p & m & H & M & Ht & Hz)]; rewrite (kbind_Ret _ _ _ _ _ H); [left; by eexists _, _|].
  right. cbn [Z.ltb Z.compare]. unfold th_kstack_top. rewrite E8.
  assert (Hqf : frame_at q) by (eapply fc_frame; [exact Hok|done]). pose proof Hqf as [_ Q1 Q2].
  assert (Hqp : apart q PAGE_SIZE p PAGE_SIZE).
  { apply frames_apart; [done|by eapply stack_frame|]. intros ->. by apply (sm_new _ _ M). }
  destruct (stack_bounds p m M) as (B1 & B2 & Bk). pose proof (stack_apart p m M) as Hap.
  unfold KERNEL_DIRECT_PHYS_MAPPING_START, KERNEL_DIRECT_PHYS_MAPPING_SIZE, KERNEL_HIGHER_HALF_START in *.
  assert (Hcur_ld : forall m', agree (fun a => ~ fa_bytes fa a /\ ~ in_range th 16 a) (kmem s) m' -> ld64 m' (_current s) = q + PAGE_SIZE).
  { intros m' Hag. rewrite <- Htop. eapply ld_agree; [exact Hag|]. intros a Ha. by apply Hcout. }
  rewrite bind_kload by done. rewrite kmem_set, Ht. unfold sizeof_arch_regs, sizeof_on_stack_context, PAGE_SIZE in *.
  set (regs := p + 4096 - 176). rewrite (u64_small regs) by lia.
  rewrite bind_kstore by done. rewrite kmem_set, set_kmem_set. set (m1 := st 8 m (th + 8) regs).
  assert (M1 : stack_made p m1) by (apply stack_store; [done|unfold PAGE_SIZE; lia]).
  assert (Er : ld64 m1 (th + 8) = regs) by (unfold m1; rewrite ld64_st64_same; apply u64_small; lia).
  rewrite bind_kload by done. rewrite kmem_set, Er.
  rewrite bind_kload by done. rewrite kmem_set, (Hcur_ld m1 (sm_outside _ _ M1)). rewrite (u64_small (q + 4096 - 176)) by lia.
  destruct (memcpy_ok regs (q + 4096 - 176) 176 m1) as (m2 & Hcp & Hcopy);
    [done|apply Bk; lia|apply (frame_at_kok q); unfold PAGE_SIZE; (done || lia)|unfold apart in *; lia|].
  assert (Ecp : in_vm (in_kmem (memcpy regs (q + 4096 - 176) 176)) (set_kmem s m1) = Ret (tt, set_kmem s m2)).
  { unfold in_vm, in_kmem, in_fa, in_mem, klift. change (fa_mem (vm_fa (k_vm (set_kmem s m1)))) with m1. by rewrite Hcp. }
  rewrite (kbind_Ret _ _ _ _ _ Ecp).
  assert (M2 : stack_made p m2).
  { eapply stack_agree; [exact M1|]. intros a [Ha _]. rewrite Hcopy, decide_False; [done|].
    unfold in_range, PAGE_SIZE in *. lia. }
  assert (Hth2 : forall o, 0 <= o <= 8 -> ld64 m2 (th + o) = ld64 m1 (th + o)).
  { intros o Ho. apply ld_ext. intros a Ha. rewrite Hcopy, decide_False; [done|]. unfold apart, in_range in *. lia. }
  rewrite bind_kload by done. rewrite kmem_set. rewrite Hth2, Er by lia.
  rewrite (u64_small (regs - 56)) by lia.
  rewrite bind_kstore by done. rewrite kmem_set, set_kmem_set. set (m3 := st 8 m2 (th + 8) (regs - 56)).
  rewrite bind_kload by done. rewrite kmem_set. unfold m3 at 1. rewrite ld64_st64_same, (u64_small (regs - 56)) by lia.
  unfold ctx_ret_addr. rewrite (u64_small (regs - 56 + 48)) by lia. rewrite bind_kstore by (apply Bk; lia).
  rewrite kmem_set, set_kmem_set. set (m4 := st 8 m3 _ _).
  exists p, m4. split; [done|]. split; [|split].
  - unfold m4, m3. repeat (apply stack_store; [|unfold PAGE_SIZE; lia]). exact M2.
  - unfold m4, m3, apart in *. split; unfold sizeof_arch_regs, sizeof_on_stack_context; thread_fields.
    + rewrite <- (Z.add_0_r th), Hth2 by lia. unfold m1. rewrite Z.add_0_r. thread_fields. rewrite Ht. unfold regs. lia.
    + rewrite u64_small; lia.
    + done.
  - intros o Ho. unfold m4, m3, apart in *. rewrite !rd8_st_out by (cbn [Z.of_nat Pos.of_succ_nat]; lia).
    rewrite Hcopy, decide_True by (unfold in_range; lia). replace (p + 4096 - 176 + o - regs) with o by lia.
    apply (sm_frames _ _ M1). exists q.
    split; [done|]. unfold in_range, PAGE_SIZE. lia.
Qed.
End Clone.
End Thread.
