(* ===== verification/FirstTask.v ===== *)
(** * The first task

    [setup_init_task] takes the first entry of the table, makes its address space
    (FirstSpace.v) with an area for the stack, and its thread (Thread.v). *)

From S2P Require Import Prelude Mem Common DList Buddy Paging FrameAlloc FrameRefine FrameZones FrameSession FrameInit.
From S2P Require Import FrameExample FrameClient Obj ObjSpec Vmem PageTable VmemSpec VmemMap AddrSpace Demand SpaceInit.
From S2P Require Import Destroy Clone CloneSpace.
From S2P Require Import Multiboot Fb FbSpec Console Printk PrintkSpec ConsoleSpec Acpi Kst Arch Sched Apic Syscall SchedSpec SyscallSpec FirstSpace Thread.

Definition set_kvm (s : kst) (v : vm_state) : kst :=
  Kst v (k_con s) (k_junk s) (tasks s) (sched_timer s) (_current s) (sched_context s) (sched_vmem s) (tss_rsp0 s) (lapic_ptr s).

Lemma in_vm_ok {A} (c : K vm_state A) s a v : c (k_vm s) = Ret (a, v) -> in_vm c s = Ret (a, set_kvm s v).
Proof. intros H. unfold in_vm, klift. by rewrite H. Qed.

Lemma in_vm_halt {A} (c : K vm_state A) s h : c (k_vm s) = Halt h -> in_vm c s = Halt h.
Proof. intros H. unfold in_vm, klift. by rewrite H. Qed.

Section FirstTask.
Context {F : Prop} {ok : fa_state -> list Z -> Prop} `{!FrameContract F ok}.

(** Writes that leave the frames in use leave the pool. *)
Lemma pool_keep fa al P fr U L m' L' :
  pool_in ok (fa, al) P fr U L -> ok (set_mem fa m') L' -> (forall p, p ∈ L -> p ∈ L') -> agree (frame_byte L) (fa_mem fa) m' ->
  pool_in ok (set_mem fa m', al) P fr U L'.
Proof.
  intros (H0 & [H1 H2 H3 H4] & HPL) Hok HL Hag. cbn [fst snd] in *. split; [done|]. split; [|intros p Hp; by apply HL, HPL].
  split; try done. eapply chain_agree; [exact Hag| |exact H2]. intros x b Hx Hb.
  destruct (slot_byte (obj_size al) P H1 x b 8) as (p & Hp & Hpa); [apply H3; set_solver|lia|done|].
  exists p. split; [by apply HPL|done].
Qed.

(** The kernel's variables of tasks are outside the allocator's memory. *)
Definition table_outside (s : kst) : Prop :=
  forall a, in_range (tasks s) (sizeof_task * (MAX_TASK_COUNT + 1)) a -> ~ fa_bytes (vm_fa (k_vm s)) a.

Lemma slot_outside s i a : table_outside s -> 0 <= i <= MAX_TASK_COUNT -> in_range (task_slot s i) sizeof_task a ->
  ~ fa_bytes (vm_fa (k_vm s)) a.
Proof.
  intros H Hi Ha. apply H. unfold MAX_TASK_COUNT in *. change (Z.shiftl 1 16) with 65536 in *.
  unfold in_range, task_slot, sizeof_task in *. lia.
Qed.

(** ** The address space *)

Definition stack_base : Z := 0x70000000.

Definition first_space_made (sym : symbols) (N : nat) (v : vm_state) (vm : Z) (L : list Z) : Prop :=
  exists root T P fr U head x, space ok v vm root T L P fr U head [x] /\
    area_at (vm_mem v) x = (stack_base, 4, Z.lor VMEM_USER VMEM_WRITE) /\
    forall va, canonical va -> walk (vm_mem v) 4 root va = first_map sym N va.

Section Space.
Context `{!FrameSource ok} (v : vm_state) (vm : Z) (P fr U L : list Z) (sym : symbols) (N : nat) (fuel : nat).
Hypothesis Hpool : pool_in ok (vm_fa v, vmem_area_alloc v) P fr U L.
Hypothesis Hsize : obj_size (vmem_area_alloc v) = sizeof_vmem_area.
Hypothesis Hvm : kok vm 16 = true.
Hypothesis Hout : forall a, in_range vm 16 a -> ~ fa_bytes (vm_fa v) a.
Hypothesis Hsym : symbols_ok sym N.
Hypothesis Hfuel : (N < fuel)%nat.

(** Fewer than [n] frames are left. *)
Definition frames_short (n : Z) : Prop := capacity (vm_fa v) < Z.of_nat (length L) + n.

(** The three calls of [setup_init_task] on an address space. *)
Lemma first_space_ok :
  (exists v', vmem_init vm v = Ret (- ENOMEM, v')) /\ frames_short 1 \/
  vmem_init vm v = Halt (Fault NULL) /\ frames_short 2 \/
  exists v1, vmem_init vm v = Ret (0, v1) /\
  ((exists v', setup_vmem fuel sym vm v1 = Ret (- ENOMEM, v')) /\ frames_short 137 \/
   exists v2, setup_vmem fuel sym vm v1 = Ret (0, v2) /\
   (vmem_alloc_pages fuel vm stack_base 4 (Z.lor VMEM_USER VMEM_WRITE) v2 = Halt (Fault NULL) /\ frames_short 137 \/
    exists m al L', vmem_alloc_pages fuel vm stack_base 4 (Z.lor VMEM_USER VMEM_WRITE) v2 = Ret (0, set_vo v m al) /\
      (forall p, p ∈ L -> p ∈ L') /\ agree (fun a => ~ fa_bytes (vm_fa v) a /\ ~ in_range vm 16 a) (vm_mem v) m /\
      (length L' <= length L + 137)%nat /\ first_space_made sym N (set_vo v m al) vm L')).
Proof.
  destruct (vmem_init_ok v vm P fr U L (proj1 Hpool) Hpool Hsize Hvm Hout) as
    [[H Hfull]|[[H Hfull]|(m1 & al & root & head & P1 & fr1 & L1 & H & Hh & Hr & Hs1 & Hw1 & HL1 & _ & Hag1 & Ho1 & Hlen1)]].
  { left. split; [exact H|unfold frames_short; lia]. }
  { right; left. split; [exact H|unfold frames_short; lia]. }
  right; right. exists (set_vo v m1 al). split; [exact H|].
  destruct (space_vm_kok _ _ _ _ _ _ _ _ _ _ Hs1) as (_ & Hk & E).
  destruct (setup_vmem_ok vm root Hk fuel sym N (set_vo v m1 al) {[(4%nat, 0) := root]} L1) as (r & m2 & T2 & L2 & H2 & Hg2 & He2 & Hlen2 & Hres);
    [apply Hs1| | |exact Hw1|done|done|].
  { split; [apply Hs1|]. rewrite E. intros a Ha. apply (sp_vm_out _ _ _ _ _ _ _ _ _ _ Hs1). unfold in_range in *. lia. }
  { intros l q Hl. apply lookup_singleton_ne. intros [= <- _]. lia. }
  change (vm_fa (set_vo v m1 al)) with (set_mem (vm_fa v) m1) in Hres. change (capacity (set_mem (vm_fa v) m1)) with (capacity (vm_fa v)) in Hres.
  destruct Hres as [[-> Hfull]|[-> Hmap]]; [left; split; [by eexists|unfold frames_short; lia]|right]. exists (set_vm (set_vo v m1 al) m2). split; [exact H2|].
  pose proof (space_move _ _ _ _ _ _ _ _ _ _ Hs1 m2 T2 L2 Hg2 He2) as Hs2.
  destruct (alloc_pages_ok _ _ _ _ _ _ _ _ _ _ Hs2 fuel stack_base 4 (Z.lor VMEM_USER VMEM_WRITE)) as
    [[H3 Hfull]|(x & m3 & al3 & P3 & fr3 & L3 & H3 & Hx & Hs3 & A1 & A2 & A3 & _ & Hw3 & HL3 & Ho3 & Hlen3)];
    [by exists 458752|simpl; lia|done|left; split; [done|]|right].
  { change (capacity (vm_fa v) <= Z.of_nat (length L2)) in Hfull. unfold frames_short. lia. }
  exists m3, al3, L3. split; [exact H3|]. split; [intros p Hp; by apply HL3, (ve_held _ _ _ _ _ _ He2), HL1|]. split.
  - intros a [Ha Hv]. trans (rd8 m2 a); [by apply Ho3|]. trans (rd8 m1 a); [by apply (ve_outside _ _ _ _ _ _ He2)|by apply Ho1].
  - split; [lia|]. exists root, T2, P3, fr3, (x :: head :: U), head, x. split; [exact Hs3|]. split.
    + unfold area_at. cbn [vm_mem set_vo vm_fa set_mem fa_mem]. by rewrite A1, A2, A3.
    + intros va Hc. cbn [vm_mem set_vo vm_fa set_mem fa_mem]. rewrite Hw3. by apply Hmap.
Qed.
End Space.

(** Writes outside the frames in use and outside what an address space depends on
    leave it. *)
Lemma space_kept v vm root T L P fr U head ns m' L' :
  space ok v vm root T L P fr U head ns -> ok (set_mem (vm_fa v) m') L' -> (forall p, p ∈ L -> p ∈ L') ->
  agree (fun a => frame_byte L a \/ in_range vm 16 a) (vm_mem v) m' ->
  space ok (set_vm v m') vm root T L' P fr U head ns /\
  (forall va, walk m' 4 root va = walk (vm_mem v) 4 root va) /\ forall n, n ∈ ns -> area_at m' n = area_at (vm_mem v) n.
Proof.
  intros Hs Hok HL Hag. apply (space_other v vm root T L P fr U head ns Hs (set_vm v m') P fr U L').
  - eapply pool_keep; [apply Hs|done|done|]. eapply agree_weaken; [exact Hag|]. intros a Ha. by left.
  - apply Hs.
  - done.
  - done.
  - by left.
  - done.
  - eapply agree_weaken; [exact Hag|]. intros a Ha. destruct (space_byte_where _ _ _ _ _ _ _ _ _ _ a Hs Ha); [by right|by left].
Qed.

Lemma made_ok sym N v vm L : first_space_made sym N v vm L -> ok (vm_fa v) L.
Proof. intros (root & T & P & fr & U & head & x & Hs & _). apply (vg_ok _ _ _ _ (sp_good _ _ _ _ _ _ _ _ _ _ Hs)). Qed.

Lemma made_kept sym N v vm L m' L' :
  first_space_made sym N v vm L -> ok (set_mem (vm_fa v) m') L' -> (forall p, p ∈ L -> p ∈ L') ->
  agree (fun a => frame_byte L a \/ in_range vm 16 a) (vm_mem v) m' -> first_space_made sym N (set_vm v m') vm L'.
Proof.
  intros (root & T & P & fr & U & head & x & Hs & Ha & Hw) Hok HL Hag.
  destruct (space_kept v vm root T L P fr U head [x] m' L' Hs Hok HL Hag) as (Hs' & Hw' & Ha').
  exists root, T, P, fr, U, head, x. split; [done|]. split.
  - change (vm_mem (set_vm v m')) with m'. by rewrite Ha' by apply list_elem_of_here.
  - intros va Hc. change (vm_mem (set_vm v m')) with m'. by rewrite Hw', Hw.
Qed.

(** ** setup_init_task *)

Section Boot.
Context `{!FrameSource ok} (s : kst) (L P fr U : list Z) (sym : symbols) (N fuel : nat).
Hypothesis Htab : table_kok s.
Hypothesis Hout : table_outside s.
Hypothesis Hpool : pool_in ok (vm_fa (k_vm s), vmem_area_alloc (k_vm s)) P fr U L.
Hypothesis Hsize : obj_size (vmem_area_alloc (k_vm s)) = sizeof_vmem_area.
Hypothesis Hfree : state_of (kmem s) (task_slot s 1) = TASK_NOT_ALLOCATED.
Hypothesis Hsym : symbols_ok sym N.
Hypothesis Hfuel : (N < fuel)%nat.
Let t : Z := task_slot s 1.

(** What of its entry is written: thread and number, state, address space. *)
Definition first_written (a : Z) : Prop := in_range t 24 a \/ in_range (t + 40) 4 a \/ in_range (t + 72) 16 a.

(** The first task, ready to be run by the scheduler. *)
Record first_task (s' : kst) : Prop := {
  ft_variables : tasks s' = tasks s /\ sched_context s' = sched_context s /\ lapic_ptr s' = lapic_ptr s /\
    k_con s' = k_con s /\ k_junk s' = k_junk s /\ sched_timer s' = sched_timer s /\ _current s' = _current s;
  ft_state : state_of (kmem s') t = TASK_RUNNABLE;
  ft_pid : pid_of (kmem s') t = 1;
  ft_others : agree (fun a => ~ fa_bytes (vm_fa (k_vm s)) a /\ ~ first_written a) (kmem s) (kmem s');
  ft_thread : exists p L', first_space_made sym N (k_vm s') (t + 72) L' /\ p ∈ L' /\
    let regs := p + PAGE_SIZE - sizeof_arch_regs in switchable t sym regs (kmem s') /\ starts sym regs (kmem s');
}.

Lemma one_in_table : 0 <= 1 < MAX_TASK_COUNT.
Proof. split; [done|by apply Z.ltb_lt]. Qed.

Lemma first_allocated : sched_allocate_task s = Ret (t, set_kmem s (st64 (kmem s) (t + 16) 1)).
Proof.
  destruct (sched_allocate_task_ok s Htab) as [(i & Hi & Hs & Hj & H)|[H _]].
  - destruct (Z.eq_dec i 1) as [->|Hne]; [exact H|]. exfalso. apply (Hj 1); [lia|done].
  - exfalso. apply (H 1); [split; [lia|apply one_in_table]|done].
Qed.

(** The number of frames it takes: the top table and 134 tables, two pages of
    areas' records, a stack. *)
Definition first_task_frames : Z := 138.

Lemma setup_init_task_ok :
  ((exists s', setup_init_task fuel sym s = Ret (- ENOMEM, s')) \/ setup_init_task fuel sym s = Halt (Fault NULL)) /\
    capacity (vm_fa (k_vm s)) < Z.of_nat (length L) + first_task_frames \/
  exists s', setup_init_task fuel sym s = Ret (0, s') /\ first_task s'.
Proof.
  pose proof (slot_ok s 1 Htab one_in_table) as Hto. fold t in Hto.
  assert (Htout : forall a, in_range t sizeof_task a -> ~ fa_bytes (vm_fa (k_vm s)) a).
  { intros a. apply slot_outside; [done|]. pose proof one_in_table. lia. }
  unfold setup_init_task. rewrite (kbind_Ret _ _ _ _ _ first_allocated).
  rewrite (proj2 (Z.eqb_neq t NULL)) by (by apply (task_slot_nonnull s Htab 1 one_in_table)).
  set (s1 := set_kmem s _). destruct (task_field t 72 16 Hto) as [E72 K72]; [done..|]. unfold task_vmem. rewrite E72.
  assert (Hag1 : agree (fun a => ~ in_range t sizeof_task a) (kmem s) (kmem s1)).
  { unfold s1. rewrite kmem_set. eapply agree_weaken; [apply st_agree|]. intros a Ha Hr. apply Ha. unfold in_range, sizeof_task in *. lia. }
  assert (Hpool1 : pool_in ok (vm_fa (k_vm s1), vmem_area_alloc (k_vm s1)) P fr U L).
  { eapply pool_keep; [exact Hpool| |done|].
    - apply (fc_outside (ok := ok) (vm_fa (k_vm s)) L (kmem s1)); [apply Hpool|]. eapply agree_weaken; [exact Hag1|].
      intros a Ha Hr. by apply (Htout a Hr).
    - eapply agree_weaken; [exact Hag1|]. intros a Ha Hr. apply (Htout a Hr).
      apply (fc_inside (ok := ok) (vm_fa (k_vm s)) L); [apply Hpool|done]. }
  destruct (first_space_ok (k_vm s1) (t + 72) P fr U L sym N fuel Hpool1 Hsize K72) as
    [[[v' H] Hsh]|[[H Hsh]|(v1 & H & H')]]; unfold frames_short in *; change (vm_fa (k_vm s1)) with (set_mem (vm_fa (k_vm s)) (kmem s1)) in *;
    try change (capacity (set_mem (vm_fa (k_vm s)) (kmem s1))) with (capacity (vm_fa (k_vm s))) in *; [|done|done|..].
  { intros a Ha. apply Htout. unfold in_range, sizeof_task in *. lia. }
  { left. split; [left|unfold first_task_frames; lia]. rewrite (kbind_Ret _ _ _ _ _ (in_vm_ok _ _ _ _ H)). by eexists. }
  { left. split; [right|unfold first_task_frames; lia]. by apply kbind_Halt, in_vm_halt. }
  rewrite (kbind_Ret _ _ _ _ _ (in_vm_ok _ _ _ _ H)). cbn [Z.ltb Z.compare].
  destruct H' as [[[v' H'] Hsh]|(v2 & H' & H'')].
  { left. split; [left|unfold first_task_frames; lia]. rewrite (kbind_Ret _ _ _ _ _ (in_vm_ok _ (set_kvm s1 v1) _ _ H')). by eexists. }
  rewrite (kbind_Ret _ _ _ _ _ (in_vm_ok _ (set_kvm s1 v1) _ _ H')). cbn [Z.ltb Z.compare]. change (set_kvm (set_kvm s1 v1) v2) with (set_kvm s1 v2).
  fold stack_base. destruct H'' as [[H'' Hsh]|(m3 & al & L3 & H'' & HL3 & Ho3 & Hlen3 & Hmade)].
  { left. split; [right|unfold first_task_frames; lia]. by apply kbind_Halt, in_vm_halt. }
  rewrite (kbind_Ret _ _ _ _ _ (in_vm_ok _ (set_kvm s1 v2) _ _ H'')). cbn [Z.ltb Z.compare].
  change (set_kvm (set_kvm s1 v2) _) with (set_kvm s1 (set_vo (k_vm s1) m3 al)). set (s3 := set_kvm s1 _).
  rewrite (kbind_Ret _ _ _ _ _ (set_state_ok t s3 Hto _)). change (kmem s3) with m3. set (m4 := st 4 m3 (t + 40) TASK_RUNNABLE).
  set (s4 := set_kmem s3 m4).
  assert (Hag4 : agree (fun a => ~ in_range (t + 40) 4 a) m3 m4) by (apply (st_agree 4)).
  assert (Hin3 : forall a, frame_byte L3 a -> fa_bytes (vm_fa (k_vm s)) a).
  { intros a. apply (fc_inside (ok := ok) (set_mem (vm_fa (k_vm s)) m3) L3). exact (made_ok _ _ _ _ _ Hmade). }
  assert (Hok4 : ok (vm_fa (k_vm s4)) L3).
  { apply (fc_outside (ok := ok) (set_mem (vm_fa (k_vm s)) m3) L3 m4); [exact (made_ok _ _ _ _ _ Hmade)|].
    eapply agree_weaken; [exact Hag4|]. intros a Ha Hr. apply (Htout a); [|done]. unfold in_range, sizeof_task in *. lia. }
  assert (Hmade4 : first_space_made sym N (k_vm s4) (t + 72) L3).
  { apply (made_kept sym N _ (t + 72) L3 m4 L3 Hmade); [exact Hok4|done|]. eapply agree_weaken; [exact Hag4|].
    intros a Ha Hr. destruct Ha as [Ha|Ha]; [apply (Htout a); [|by apply Hin3]|]; unfold in_range, sizeof_task in *; lia. }
  destruct (task_field t 0 16 Hto) as [_ K0]; [done..|]. rewrite Z.add_0_r in K0.
  assert (Hthout : forall a, in_range t 16 a -> ~ fa_bytes (vm_fa (k_vm s)) a).
  { intros a Ha. apply Htout. unfold in_range, sizeof_task in *. lia. }
  unfold task_arch_thread. destruct (arch_thread_new_ok s4 L3 t Hok4 K0 Hthout sym) as [[(r & s' & Hr) Hsh]|(p & m5 & Hr & M & Hsw & Hst)].
  { change (capacity (vm_fa (k_vm s)) <= Z.of_nat (length L3)) in Hsh.
    left. split; [left|unfold first_task_frames; lia]. rewrite (kbind_Ret _ _ _ _ _ Hr). by eexists. }
  right. rewrite (kbind_Ret _ _ _ _ _ Hr). cbn [Z.ltb Z.compare]. eexists. split; [reflexivity|].
  assert (Ho5 : agree (fun a => ~ fa_bytes (vm_fa (k_vm s)) a /\ ~ in_range t 16 a) m4 m5) by exact (sm_outside _ _ _ _ _ M).
  split.
  - done.
  - unfold state_of. rewrite kmem_set. trans (ld 4 m4 (t + 40)).
    + eapply ld_agree; [exact Ho5|]. intros a Ha. split; [apply Htout|]; unfold in_range, sizeof_task in *; lia.
    + unfold m4. by rewrite (ld_st_same 4).
  - unfold pid_of. rewrite kmem_set. trans (ld64 m4 (t + 16)); [|trans (ld64 m3 (t + 16))].
    + eapply ld_agree; [exact Ho5|]. intros a Ha. split; [apply Htout|]; unfold in_range, sizeof_task in *; lia.
    + unfold m4. apply ld_st_ne. unfold apart. lia.
    + trans (ld64 (kmem s1) (t + 16)); [|unfold s1; by rewrite kmem_set, ld64_st64_same].
      eapply ld_agree; [exact Ho3|]. intros a Ha. split; [apply Htout|]; unfold in_range, sizeof_task in *; lia.
  - rewrite kmem_set. unfold first_written. intros a [Ha Ht]. trans (rd8 m4 a); [|trans (rd8 m3 a); [|trans (rd8 (kmem s1) a)]].
    + apply Ho5. split; [done|]. unfold in_range in *. lia.
    + apply Hag4. unfold in_range in *. lia.
    + apply Ho3. split; [done|]. unfold in_range in *. lia.
    + unfold s1. rewrite kmem_set. apply (st_agree 8). unfold in_range in *. lia.
  - exists p, (p :: L3). split; [|split; [apply list_elem_of_here|by split]].
    apply (made_kept sym N (k_vm s4) (t + 72) L3 m5 (p :: L3) Hmade4); [exact (sm_ok _ _ _ _ _ M)|by intros; apply list_elem_of_further|].
    intros a [Ha|Ha]; [by apply (sm_frames _ _ _ _ _ M)|]. apply Ho5. split; [apply Htout|]; unfold in_range, sizeof_task in *; lia.
Qed.
End Boot.
End FirstTask.
