(* ===== verification/Fork.v ===== *)
(** * fork: a second task like the current one

    [sys_fork] takes the free entry of least number, clones the address space
    (CloneSpace.v) and the thread (Thread.v) of the current task into it, and
    makes it runnable. *)

From S2P Require Import Prelude Mem Common DList Buddy Paging FrameAlloc FrameRefine FrameZones FrameSession FrameInit.
From S2P Require Import FrameExample FrameClient Obj ObjSpec Vmem PageTable VmemSpec VmemMap AddrSpace Demand SpaceInit.
From S2P Require Import Destroy Clone CloneSpace.
From S2P Require Import Multiboot Fb FbSpec Console Printk PrintkSpec ConsoleSpec Acpi Kst Arch Sched Apic Syscall SchedSpec SyscallSpec.
From S2P Require Import FirstSpace Thread FirstTask.

Section Fork.
Context {F : Prop} {ok : fa_state -> list Z -> Prop} `{!FrameContract F ok} `{!FrameSource ok}.

(** ** What is the same when the frames in use are *)

Section Moved.
Context (s : vm_state) (root : Z) (T : tables) (L P : list Z) (m1 : mem).
Hypothesis Hg : vm_good ok s root T L.
Hypothesis Hag : agree (frame_byte L) (vm_mem s) m1.

Lemma moved_entry k t i : T !! k = Some t -> 0 <= i < 512 -> ld64 m1 (entry_addr t i) = ld64 (vm_mem s) (entry_addr t i).
Proof.
  intros Ht Hi. eapply entry_agree; [exact Hag|by eapply vg_frame|done|]. intros a Ha. exists t. split; [by eapply vg_held|done].
Qed.

Lemma moved_pages : pages_held (vm_mem s) T L P -> pages_held m1 T L P.
Proof. intros H p t i Ht Hi. rewrite (moved_entry _ _ _ Ht Hi). by apply (H p t i). Qed.

Lemma moved_large : large_aligned (vm_mem s) T -> large_aligned m1 T.
Proof. intros H l p t i Ht Hi. rewrite (moved_entry _ _ _ Ht Hi). by apply (H l p t i). Qed.

Lemma moved_leaf va : find_leaf m1 4 root va = find_leaf (vm_mem s) 4 root va.
Proof.
  apply (find_leaf_ext (vm_mem s) m1 root T va 4 root (vg_tree _ _ _ _ Hg)); [intros; by eapply moved_entry|].
  rewrite prefix_top. apply Hg.
Qed.

(** A copy of the pages, told from the state before the move and after it. *)
Lemma moved_cloned rd m2 m3 T' L2 L3 va :
  pages_held (vm_mem s) T L P -> (forall p, p ∈ L2 -> p ∈ L3) -> agree (frame_byte L2) m2 m3 -> walk m3 4 rd va = walk m2 4 rd va ->
  cloned (set_vm s m1) rd root m2 T' L2 L va -> cloned s rd root m3 T' L3 L va.
Proof.
  intros Hp HL Hag2 Hw. unfold cloned, page_is. change (vm_mem (set_vm s m1)) with m1. rewrite moved_leaf, Hw.
  destruct (find_leaf (vm_mem s) 4 root va) as [[l e]|] eqn:Hf; [|done].
  destruct ((l =? 1)%nat && has e PTE_ALLOC) eqn:Hc; [|done]. apply andb_true_iff in Hc as [->%Nat.eqb_eq Ha].
  assert (Hroot : T !! (4%nat, prefix 4 va) = Some root) by (rewrite prefix_top; apply Hg).
  destruct (find_leaf_entry _ _ _ _ _ _ _ _ (vg_tree _ _ _ _ Hg) Hroot Hf) as (t & Ht & He & Hpr).
  destruct (Hp _ t (index 1 va) Ht (index_bounds 1 va)) as [HeL _]; [by rewrite <- He..|]. rewrite <- He in HeL.
  intros (q & Hq & HqL & HqT & Hqw & Hb). exists q. split; [by apply HL|]. split; [done|]. split; [done|]. split; [done|].
  intros o Ho. rewrite Hag2, Hb, Hag; [done|exists (entry_frame_of e)|done|exists q]; (split; [done|unfold in_range; lia]).
Qed.
End Moved.

(** ** The call *)

Context (s : kst) (i : Z) (root : Z) (T : tables) (L P fr U : list Z) (head : Z) (ns : list Z) (q : Z) (sym : symbols) (fuel : nat).
Let t : Z := task_slot s i.
Let preg : Z := q + PAGE_SIZE - sizeof_arch_regs.

(** The current task, with its space and its stack [q]. *)
Record forkable : Prop := {
  fk_table : table_kok s;
  fk_outside : table_outside s;
  fk_index : 1 <= i < MAX_TASK_COUNT;
  fk_current : _current s = t;
  fk_state : state_of (kmem s) t = TASK_RUNNABLE;
  fk_pid : pid_of (kmem s) t = i;
  fk_space : space ok (k_vm s) (t + 72) root T L P fr U head ns;
  fk_pages : pages_held (kmem s) T L P;
  fk_large : large_aligned (kmem s) T;
  fk_stack : q ∈ L /\ q ∉ P;
  fk_top : ld64 (kmem s) t = q + PAGE_SIZE;
}.

(** The child is like its parent. *)
Record child_like (j : Z) (s' : kst) : Prop := {
  cl_index : 1 <= j < MAX_TASK_COUNT /\ state_of (kmem s) (task_slot s j) = TASK_NOT_ALLOCATED /\
    forall k, 1 <= k < j -> state_of (kmem s) (task_slot s k) <> TASK_NOT_ALLOCATED;
  cl_variables : tasks s' = tasks s /\ _current s' = _current s /\ sched_timer s' = sched_timer s /\ sched_context s' = sched_context s;
  cl_entry : state_of (kmem s') (task_slot s j) = TASK_RUNNABLE /\ pid_of (kmem s') (task_slot s j) = j /\
    ppid_of (kmem s') (task_slot s j) = i;
  cl_others : agree (fun a => ~ fa_bytes (vm_fa (k_vm s)) a /\ ~ in_range (task_slot s j) sizeof_task a) (kmem s) (kmem s');
  cl_thread : exists p, p ∉ L /\ let regs := p + PAGE_SIZE - sizeof_arch_regs in
    switchable (task_slot s j) sym regs (kmem s') /\ ld64 (kmem s') (regs + 112) = 0 /\
    (forall o, 0 <= o < sizeof_arch_regs -> ~ 112 <= o < 120 -> rd8 (kmem s') (regs + o) = rd8 (kmem s) (preg + o));
  cl_parent : forall a, in_range q PAGE_SIZE a -> rd8 (kmem s') a = rd8 (kmem s) a;
  cl_spaces : exists rd hd nd T' L' P' fr' U',
    space ok (k_vm s') (t + 72) root T L' P' fr' U' head ns /\
    space ok (k_vm s') (task_slot s j + 72) rd T' L' P' fr' U' hd nd /\
    map (area_at (kmem s')) nd = rev (map (area_at (kmem s)) ns) /\
    (forall va, walk (kmem s') 4 root va = walk (kmem s) 4 root va) /\
    (forall va, cloned (k_vm s) rd root (kmem s') T' L' L va);
}.

Section Child.
Hypothesis Hfk : forkable.
Context (j : Z).
Hypothesis Hj : 1 <= j < MAX_TASK_COUNT.
Hypothesis Hfree : state_of (kmem s) (task_slot s j) = TASK_NOT_ALLOCATED.
Let tj : Z := task_slot s j.
Let m1 : mem := st64 (kmem s) (tj + 16) j.
Let s1 : kst := set_kmem s m1.

Lemma child_entries : task_ok tj /\ task_ok t /\ tj <> NULL /\ t <> NULL /\
  (forall a, in_range tj sizeof_task a -> ~ fa_bytes (vm_fa (k_vm s)) a /\ ~ in_range t sizeof_task a) /\
  (forall a, in_range t sizeof_task a -> ~ fa_bytes (vm_fa (k_vm s)) a /\ ~ in_range tj sizeof_task a).
Proof.
  destruct Hfk as [K1 K2 K3 K4 K5 _ _ _ _ _ _]. assert (Hne : i <> j) by (intros <-; unfold t in K5; rewrite Hfree in K5; discriminate K5).
  assert (Hap : forall a, in_range tj sizeof_task a -> ~ in_range t sizeof_task a).
  { unfold tj, t, in_range, task_slot, sizeof_task. intros a Ha. lia. }
  split; [apply slot_ok; [done|lia]|]. split; [apply slot_ok; [done|lia]|].
  split; [apply (task_slot_nonnull s K1 j); lia|]. split; [apply (task_slot_nonnull s K1 i); lia|].
  split; intros a Ha; (split; [eapply slot_outside; [done| |exact Ha]; lia|]).
  - by apply Hap.
  - intros Ha'. by apply (Hap a).
Qed.

Lemma child_numbered :
  agree (fun a => ~ in_range tj sizeof_task a) (kmem s) m1 /\ agree (frame_byte L) (kmem s) m1 /\
  space ok (k_vm s1) (t + 72) root T L P fr U head ns /\ (forall va, walk m1 4 root va = walk (kmem s) 4 root va) /\
  forall n, n ∈ ns -> area_at m1 n = area_at (kmem s) n.
Proof.
  destruct child_entries as (_ & _ & _ & _ & Ej & Et). pose proof (fk_space Hfk) as Hs.
  pose proof (vg_ok _ _ _ _ (sp_good _ _ _ _ _ _ _ _ _ _ Hs)) as Hok.
  assert (A1 : agree (fun a => ~ in_range tj sizeof_task a) (kmem s) m1).
  { eapply agree_weaken; [apply (st_agree 8)|]. unfold in_range, sizeof_task. lia. }
  assert (A2 : agree (frame_byte L) (kmem s) m1).
  { eapply agree_weaken; [exact A1|]. intros a Ha Hr. apply (proj1 (Ej a Hr)). by apply (fc_inside (ok := ok) (vm_fa (k_vm s)) L). }
  split; [done|]. split; [done|].
  apply (space_kept (k_vm s) (t + 72) root T L P fr U head ns m1 L Hs); [|done|].
  - apply (fc_outside (ok := ok) (vm_fa (k_vm s)) L m1 Hok). eapply agree_weaken; [exact A1|]. intros a Ha Hr. by apply (proj1 (Ej a Hr)).
  - eapply agree_weaken; [exact A1|]. intros a Ha Hr. destruct (Ej a Hr) as [H1 H2]. destruct Ha as [Ha|Ha].
    + apply H1. by apply (fc_inside (ok := ok) (vm_fa (k_vm s)) L).
    + apply H2. unfold in_range, sizeof_task in *. lia.
Qed.

(** Both address spaces, as the clone leaves them or later. *)
Record spaces_like (s' : vm_state) (L' : list Z) : Prop := {
  sl_held : forall p, p ∈ L -> p ∈ L';
  sl_stack : forall a, in_range q PAGE_SIZE a -> rd8 (vm_mem s') a = rd8 (kmem s) a;
  sl_spaces : exists rd hd nd T' P' fr' U',
    space ok s' (t + 72) root T L' P' fr' U' head ns /\
    space ok s' (tj + 72) rd T' L' P' fr' U' hd nd /\
    map (area_at (vm_mem s')) nd = rev (map (area_at (kmem s)) ns) /\
    (forall va, walk (vm_mem s') 4 root va = walk (kmem s) 4 root va) /\
    (forall va, cloned (k_vm s) rd root (vm_mem s') T' L' L va);
}.

(** Later: writes outside the frames then in use, and not to the structures. *)
Lemma spaces_later s' L' m' L'' :
  fa_bytes (vm_fa s') = fa_bytes (vm_fa (k_vm s)) -> spaces_like s' L' -> ok (set_mem (vm_fa s') m') L'' -> (forall p, p ∈ L' -> p ∈ L'') ->
  agree (fun a => frame_byte L' a \/ in_range (t + 72) 16 a \/ in_range (tj + 72) 16 a) (vm_mem s') m' ->
  spaces_like (set_vm s' m') L''.
Proof.
  intros Hfa [H1 H2 (rd & hd & nd & T' & P' & fr' & U' & Hs & Hd & Ha & Hw & Hc)] Hok HL Hag.
  destruct (space_kept s' (t + 72) root T L' P' fr' U' head ns m' L'' Hs Hok HL) as (Hs' & Hw' & _).
  { eapply agree_weaken; [exact Hag|]. intros a [|]; auto. }
  destruct (space_kept s' (tj + 72) rd T' L' P' fr' U' hd nd m' L'' Hd Hok HL) as (Hd' & Hwd' & Had').
  { eapply agree_weaken; [exact Hag|]. intros a [|]; auto. }
  split; [auto| |].
  - intros a Hr. change (vm_mem (set_vm s' m')) with m'. rewrite <- H2 by done. apply Hag. left. exists q.
    split; [by apply H1, (fk_stack Hfk)|done].
  - exists rd, hd, nd, T', P', fr', U'. change (vm_mem (set_vm s' m')) with m'. split; [done|]. split; [done|]. split; [|split].
    + rewrite <- Ha. apply map_ext_in. intros n Hn%list_elem_of_In. by apply Had'.
    + intros va. by rewrite Hw'.
    + intros va. eapply (moved_cloned (k_vm s) root T L P (kmem s)); [apply (fk_space Hfk)|done|apply (fk_pages Hfk)|exact HL| |apply Hwd'|].
      * eapply agree_weaken; [exact Hag|]. intros a Hb. by left.
      * replace (set_vm (k_vm s) (kmem s)) with (k_vm s) by (unfold kmem; by rewrite set_vm_id). apply Hc.
Qed.

Lemma child_cloned :
  (length ns < fuel)%nat -> let c := in_vm (vmem_clone fuel (tj + 72) (t + 72)) s1 in
  (exists s', c = Ret (- ENOMEM, s')) \/ c = Halt (Fault NULL) \/
  exists m2 al L', c = Ret (0, set_kvm s1 (set_vo (k_vm s1) m2 al)) /\ spaces_like (set_vo (k_vm s1) m2 al) L' /\
    agree (fun a => ~ fa_bytes (vm_fa (k_vm s)) a /\ ~ in_range (tj + 72) 16 a) m1 m2.
Proof.
  intros Hf c. destruct child_entries as (Hto & Hti & _ & _ & Ej & Et). destruct child_numbered as (A1 & A2 & Hs & Hw & Ha).
  pose proof (fk_space Hfk) as Hs0. destruct (task_field tj 72 16 Hto) as [_ Kj]; [done..|].
  assert (Hjo : forall a, in_range (tj + 72) 16 a -> ~ fa_bytes (vm_fa (k_vm s1)) a).
  { intros a Hr. apply Ej. unfold in_range, sizeof_task in *. lia. }
  assert (Hji : forall a, in_range (tj + 72) 16 a -> ~ in_range (t + 72) 16 a).
  { intros a Hr Hr'. apply (proj2 (Ej a ltac:(unfold in_range, sizeof_task in *; lia))). unfold in_range, sizeof_task in *. lia. }
  assert (Hp1 : pages_held m1 T L P) by (by eapply (moved_pages (k_vm s)); [apply Hs0|exact A2|apply Hfk]).
  assert (Hl1 : large_aligned m1 T) by (by eapply (moved_large (k_vm s)); [apply Hs0|exact A2|apply Hfk]).
  destruct (clone_ok (k_vm s1) (t + 72) root T L P fr U head ns Hs (tj + 72) Kj Hjo Hji Hp1 Hl1 fuel Hf) as
    [[v H]|[H|(m2 & al & rd & hd & nd & T' & L' & P' & fr' & U' & H & B1 & B2 & B3 & B4 & B5 & B6 & B7 & B8 & B9 & B10 & B11)]].
  - left. eexists. by apply in_vm_ok.
  - right; left. by apply in_vm_halt.
  - right; right. exists m2, al, L'. split; [by apply in_vm_ok|]. split; [split|].
    + done.
    + intros a Hr. trans (rd8 m1 a).
      * apply B11. right; left. exists q. split; [apply (fk_stack Hfk)|]. split; [apply (fk_stack Hfk)|done].
      * apply A2. exists q. split; [apply (fk_stack Hfk)|done].
    + exists rd, hd, nd, T', P', fr', U'. split; [done|]. split; [done|]. change (vm_mem (set_vo (k_vm s1) m2 al)) with m2. split; [|split].
      * rewrite B4. f_equal. apply map_ext_in. intros n Hn%list_elem_of_In. by apply Ha.
      * intros va. rewrite B6. apply Hw.
      * intros va. by eapply (moved_cloned (k_vm s) root T L P m1); [apply Hs0|exact A2|apply Hfk|auto| | |apply B7].
    + eapply agree_weaken; [exact B11|]. intros a Hr. by right; right.
Qed.

(** The thread, and the last stores. *)
Section Last.
Context (m2 : mem) (al : obj_alloc) (L' : list Z).
Let s2 : kst := set_kvm s1 (set_vo (k_vm s1) m2 al).
Hypothesis Hsl : spaces_like (k_vm s2) L'.
Hypothesis Hag2 : agree (fun a => ~ fa_bytes (vm_fa (k_vm s)) a /\ ~ in_range (tj + 72) 16 a) m1 m2.
Context (p : Z) (m3 : mem).
Let regs : Z := p + PAGE_SIZE - sizeof_arch_regs.
Hypothesis Hst : stack_made (ok := ok) s2 L' tj p m3.
Hypothesis Hsw : switchable tj sym regs m3.
Hypothesis Hcopy : forall o, 0 <= o < sizeof_arch_regs -> rd8 m3 (regs + o) = rd8 m2 (preg + o).

Definition fork_stores : mem := st 8 (st 4 (st64 m3 (tj + 24) i) (tj + 40) TASK_RUNNABLE) (regs + 112) 0.

Lemma stack_in_page : p <= regs - sizeof_on_stack_context /\ regs + sizeof_arch_regs = p + PAGE_SIZE.
Proof. unfold regs, sizeof_on_stack_context, sizeof_arch_regs, PAGE_SIZE. lia. Qed.

Lemma fork_stores_agree :
  agree (fun a => ~ in_range (tj + 24) 8 a /\ ~ in_range (tj + 40) 4 a /\ ~ in_range (regs + 112) 8 a) m3 fork_stores.
Proof. intros a (H1 & H2 & H3). unfold fork_stores. by rewrite !rd8_st_out by (cbn [Z.of_nat Pos.of_succ_nat]; unfold in_range in *; lia). Qed.

Lemma entry_off_stack : apart tj sizeof_task p PAGE_SIZE.
Proof.
  destruct child_entries as (_ & _ & _ & _ & Ej & _).
  destruct (decide (apart tj sizeof_task p PAGE_SIZE)) as [|Hn]; [done|]. exfalso. unfold apart, PAGE_SIZE, sizeof_task in Hn.
  apply (proj1 (Ej (Z.max tj p) ltac:(unfold in_range, sizeof_task; lia))).
  apply (stack_inside s2 L' tj p m3 _ Hst). unfold in_range, PAGE_SIZE. lia.
Qed.

(** What neither the allocators nor the child own. *)
Lemma fork_others : agree (fun a => ~ fa_bytes (vm_fa (k_vm s)) a /\ ~ in_range tj sizeof_task a) (kmem s) fork_stores.
Proof.
  intros a [Ha Hr]. trans (rd8 m3 a); [|trans (rd8 m2 a); [|trans (rd8 m1 a)]].
  - apply fork_stores_agree. split_and!; [unfold in_range, sizeof_task in *; lia..|]. intros Hp. apply Ha.
    apply (stack_inside s2 L' tj p m3 _ Hst). pose proof stack_in_page. unfold in_range, regs, sizeof_arch_regs, sizeof_on_stack_context in *. lia.
  - apply (sm_outside _ _ _ _ _ Hst). split; [done|]. unfold in_range, sizeof_task in *. lia.
  - apply Hag2. split; [done|]. unfold in_range, sizeof_task in *. lia.
  - destruct child_numbered as (A1 & _). by apply A1.
Qed.

(** The child's entry. *)
Lemma fork_entry_is :
  state_of fork_stores tj = TASK_RUNNABLE /\ pid_of m3 tj = j /\ pid_of fork_stores tj = j /\ ppid_of fork_stores tj = i.
Proof.
  destruct child_entries as (_ & _ & _ & _ & Ej & _). pose proof entry_off_stack as Hap. pose proof stack_in_page as Hp.
  unfold MAX_TASK_COUNT in Hj. pose proof (fk_index Hfk) as Hi. unfold MAX_TASK_COUNT in Hi. change (Z.shiftl 1 16) with 65536 in *.
  assert (E3 : pid_of m3 tj = j).
  { unfold pid_of. trans (ld64 m2 (tj + 16)); [|trans (ld64 m1 (tj + 16))].
    - eapply ld_agree; [apply (sm_outside _ _ _ _ _ Hst)|]. intros a Ha. split; [apply Ej|]; unfold in_range, sizeof_task in *; lia.
    - eapply ld_agree; [exact Hag2|]. intros a Ha. split; [apply Ej|]; unfold in_range, sizeof_task in *; lia.
    - unfold m1. rewrite ld64_st64_same. apply u64_small. lia. }
  unfold apart, regs, sizeof_task, sizeof_arch_regs, sizeof_on_stack_context, PAGE_SIZE in *.
  split; [|split; [exact E3|split]].
  - unfold state_of, fork_stores, regs, sizeof_arch_regs, PAGE_SIZE. rewrite (ld_st_ne 8 4) by (unfold apart; lia). by rewrite (ld_st_same 4).
  - rewrite <- E3. unfold pid_of, fork_stores, regs, sizeof_arch_regs, PAGE_SIZE. rewrite !ld_st_ne by (unfold apart; lia). done.
  - unfold ppid_of, fork_stores, regs, sizeof_arch_regs, PAGE_SIZE. rewrite !ld_st_ne by (unfold apart; lia).
    rewrite ld64_st64_same. apply u64_small. lia.
Qed.

(** The child's stack. *)
Lemma fork_stack :
  switchable tj sym regs fork_stores /\ ld64 fork_stores (regs + 112) = 0 /\
  forall o, 0 <= o < sizeof_arch_regs -> ~ 112 <= o < 120 -> rd8 fork_stores (regs + o) = rd8 (kmem s) (preg + o).
Proof.
  pose proof entry_off_stack as Hap. pose proof stack_in_page as Hp. destruct Hsw as [W1 W2 W3].
  unfold apart, sizeof_task, sizeof_arch_regs, sizeof_on_stack_context, PAGE_SIZE in *.
  split; [split|split].
  - etrans; [|exact W1]. unfold fork_stores. rewrite !ld_st_ne by (unfold apart; lia). done.
  - etrans; [|exact W2]. unfold fork_stores. rewrite !ld_st_ne by (unfold apart; lia). done.
  - etrans; [|exact W3]. unfold fork_stores, sizeof_on_stack_context. rewrite !ld_st_ne by (unfold apart; lia). done.
  - unfold fork_stores. by rewrite (ld_st_same 8).
  - intros o Ho Hn. trans (rd8 m3 (regs + o)); [|trans (rd8 m2 (preg + o))].
    + apply fork_stores_agree. unfold in_range. lia.
    + by apply Hcopy.
    + apply (sl_stack _ _ Hsl). unfold in_range, preg, sizeof_arch_regs, PAGE_SIZE. lia.
Qed.

(** The address spaces. *)
Lemma fork_spaces : spaces_like (set_vm (k_vm s2) fork_stores) (p :: L').
Proof.
  destruct child_entries as (_ & _ & _ & _ & Ej & Et). pose proof entry_off_stack as Hap. pose proof stack_in_page as Hp.
  pose proof (sm_ok _ _ _ _ _ Hst) as Hok3.
  assert (Hold : forall a, frame_byte L' a -> ~ in_range p PAGE_SIZE a /\ fa_bytes (vm_fa (k_vm s)) a).
  { intros a (x & Hx & Ha). assert (Hne : x <> p) by (intros ->; by apply (sm_new _ _ _ _ _ Hst)). split.
    - pose proof (frames_apart x p) as Hxp. unfold apart, in_range in *.
      assert (Hxf : frame_at x) by (apply (fc_frame (ok := ok) _ _ x Hok3); by apply list_elem_of_further).
      pose proof (Hxp Hxf (stack_frame s2 L' tj p m3 Hst) Hne). lia.
    - apply (fc_inside (ok := ok) _ (p :: L') a Hok3). exists x. split; [by apply list_elem_of_further|done]. }
  assert (Hnp : forall a, ~ in_range p PAGE_SIZE a -> ~ in_range (regs + 112) 8 a).
  { intros a Ha Hr. apply Ha. unfold in_range, regs, sizeof_arch_regs, PAGE_SIZE in *. lia. }
  assert (Hns : forall a, ~ fa_bytes (vm_fa (k_vm s)) a -> ~ in_range (regs + 112) 8 a).
  { intros a Ha. apply Hnp. intros Hr. by apply Ha, (stack_inside s2 L' tj p m3). }
  apply (spaces_later (k_vm s2) L' fork_stores (p :: L') eq_refl Hsl).
  - apply (fc_keep (ok := ok) (set_mem (vm_fa (k_vm s2)) m3) (p :: L') fork_stores Hok3).
    eapply agree_weaken; [apply fork_stores_agree|]. intros a [Ha Hn]. split_and!.
    + intros Hr. apply (proj1 (Ej a ltac:(unfold in_range, sizeof_task in *; lia))). exact Ha.
    + intros Hr. apply (proj1 (Ej a ltac:(unfold in_range, sizeof_task in *; lia))). exact Ha.
    + apply Hnp. intros Hr. apply Hn. exists p. split; [apply list_elem_of_here|done].
  - intros x Hx. by apply list_elem_of_further.
  - intros a Ha. trans (rd8 m3 a).
    + apply fork_stores_agree. destruct Ha as [Ha|[Ha|Ha]].
      * destruct (Hold a Ha) as [H1 H2]. split_and!; [| |by apply Hnp];
          intros Hr; apply (proj1 (Ej a ltac:(unfold in_range, sizeof_task in *; lia))); exact H2.
      * assert (Ha' : in_range t sizeof_task a) by (unfold in_range, sizeof_task in *; lia). destruct (Et a Ha') as [H1 H2].
        split_and!; [| |by apply Hns]; intros Hr; apply H2; unfold in_range, sizeof_task in *; lia.
      * assert (Ha' : in_range tj sizeof_task a) by (unfold in_range, sizeof_task in *; lia). destruct (Ej a Ha') as [H1 _].
        split_and!; [| |by apply Hns]; unfold in_range in *; lia.
    + destruct Ha as [Ha|Ha]; [by apply (sm_frames _ _ _ _ _ Hst)|]. apply (sm_outside _ _ _ _ _ Hst). destruct Ha as [Ha|Ha].
      * destruct (Et a ltac:(unfold in_range, sizeof_task in *; lia)) as [H1 H2]. split; [exact H1|].
        intros Hr. apply H2. unfold in_range, sizeof_task in *. lia.
      * split; [apply (Ej a); unfold in_range, sizeof_task in *; lia|]. unfold in_range in *. lia.
Qed.
End Last.
End Child.

Lemma fork_ok :
  forkable -> (exists k, 1 <= k < MAX_TASK_COUNT /\ state_of (kmem s) (task_slot s k) = TASK_NOT_ALLOCATED) -> (length ns < fuel)%nat ->
  (exists r s', sys_fork fuel sym preg s = Ret (Done r, s') /\ r < 0) \/
  sys_fork fuel sym preg s = Halt (Fault NULL) \/
  exists j s', sys_fork fuel sym preg s = Ret (Done j, s') /\ child_like j s'.
Proof.
  intros Hfk (k & Hk & Hks) Hf. unfold sys_fork.
  destruct (sched_allocate_task_ok s (fk_table Hfk)) as [(j & Hj & Hjs & Hjl & Hal)|[Hno _]]; [|by destruct (Hno k)].
  rewrite (kbind_Ret _ _ _ _ _ Hal). set (m1 := st64 _ _ _). set (s1 := set_kmem s m1). rewrite kget_bind.
  change (_current s1) with (_current s). rewrite (fk_current Hfk).
  destruct (child_entries Hfk j Hj Hjs) as (Hto & Hti & Hjn & Htn & Ej & Et).
  destruct (task_field (task_slot s j) 72 16 Hto) as [E72 _]; [done..|].
  destruct (task_field t 72 16 Hti) as [F72 _]; [done..|]. unfold task_vmem. rewrite E72, F72.
  pose proof (child_cloned Hfk j Hj Hjs Hf) as Hcl. cbv zeta in Hcl. fold m1 in Hcl. fold s1 in Hcl. fold t in Hcl.
  destruct Hcl as [[s' H]|[H|(m2 & al & L' & H & Hsl & Hag2)]].
  { left. rewrite (kbind_Ret _ _ _ _ _ H). by eexists _, _. }
  { right; left. apply kbind_Halt. exact H. }
  rewrite (kbind_Ret _ _ _ _ _ H). cbn [Z.ltb Z.compare]. set (s2 := set_kvm s1 (set_vo (k_vm s1) m2 al)).
  assert (H2t : agree (fun a => in_range t sizeof_task a) (kmem s) m2).
  { intros a Ha. destruct (Et a Ha) as [H1 H2]. trans (rd8 m1 a).
    - apply Hag2. split; [exact H1|]. intros Hr. apply H2. unfold in_range, sizeof_task in *. lia.
    - destruct (child_numbered Hfk j Hj Hjs) as (A1 & _). by apply A1. }
  assert (Hok2 : ok (vm_fa (k_vm s2)) L').
  { destruct (sl_spaces _ _ _ Hsl) as (rd & hd & nd & T' & P' & fr' & U' & Hs2 & _). apply (vg_ok _ _ _ _ (sp_good _ _ _ _ _ _ _ _ _ _ Hs2)). }
  destruct (task_field (task_slot s j) 0 16 Hto) as [_ K0]; [done..|]. rewrite Z.add_0_r in K0.
  destruct (task_field t 0 8 Hti) as [_ Kt]; [done..|]. rewrite Z.add_0_r in Kt.
  unfold task_arch_thread.
  destruct (arch_thread_clone_ok s2 L' (task_slot s j) Hok2 K0) with (sym := sym) (q := q) as
    [(r & s' & Hr)|(p & m3 & Hr & Hst & Hsw & Hcopy)].
  - intros a Ha. apply (proj1 (Ej a ltac:(unfold in_range, sizeof_task in *; lia))).
  - change (_current s2) with (_current s). by rewrite (fk_current Hfk).
  - change (_current s2) with (_current s). by rewrite (fk_current Hfk).
  - change (_current s2) with (_current s). rewrite (fk_current Hfk). intros a Ha.
    destruct (Et a ltac:(unfold in_range, sizeof_task in *; lia)) as [H1 H2]. split; [exact H1|].
    intros Hb. apply H2. unfold in_range, sizeof_task in *. lia.
  - apply (sl_held _ _ _ Hsl), (fk_stack Hfk).
  - change (_current s2) with (_current s). rewrite (fk_current Hfk), <- (fk_top Hfk). eapply ld_agree; [exact H2t|].
    intros a Ha. unfold in_range, sizeof_task in *. lia.
  - left. rewrite (kbind_Ret _ _ _ _ _ Hr). by eexists _, _.
  - right; right. rewrite (kbind_Ret _ _ _ _ _ Hr). cbn [Z.ltb Z.compare]. rewrite kget_bind.
    set (s3 := set_kmem s2 m3). change (_current s3) with (_current s). rewrite (fk_current Hfk).
    rewrite (kbind_Ret _ _ _ _ _ (load_pid_ok t s3 Hti)).
    assert (Hp3 : pid_of (kmem s3) t = i).
    { rewrite <- (fk_pid Hfk). unfold pid_of, s3. rewrite kmem_set. trans (ld64 m2 (t + 16)).
      - eapply ld_agree; [apply (sm_outside _ _ _ _ _ Hst)|]. intros a Ha.
        destruct (Et a ltac:(unfold in_range, sizeof_task in *; lia)) as [H1 H2]. split; [exact H1|].
        intros Hb. apply H2. unfold in_range, sizeof_task in *. lia.
      - eapply ld_agree; [exact H2t|]. intros a Ha. unfold in_range, sizeof_task in *. lia. }
    rewrite Hp3. rewrite (kbind_Ret _ _ _ _ _ (store_ppid_ok _ s3 Hto _)). set (s4 := set_kmem s3 _).
    rewrite (kbind_Ret _ _ _ _ _ (set_state_ok _ s4 Hto _)). set (s5 := set_kmem s4 _).
    assert (Hreg : regs_ok (p + PAGE_SIZE - sizeof_arch_regs)).
    { apply (frame_at_kok p); [by eapply stack_frame|unfold PAGE_SIZE, sizeof_arch_regs; lia..]. }
    destruct (reg_field _ 112 Hreg) as [E K]; [done..|]. unfold regs_rax. rewrite E. rewrite bind_kstore by exact K.
    set (s6 := set_kmem s5 _). rewrite (kbind_Ret _ _ _ _ _ (load_pid_ok _ s6 Hto)).
    assert (E6 : s6 = set_kmem s2 (fork_stores j p m3)).
    { unfold s6, s5, s4, s3. rewrite !kmem_set, !set_kmem_set. reflexivity. }
    rewrite E6, kmem_set. clearbody s6 s5 s4.
    destruct (fork_entry_is Hfk j Hj Hjs m2 al L' Hag2 p m3 Hst) as (B1 & _ & B2 & B3). rewrite B2.
    eexists j, _. split; [reflexivity|]. destruct (fork_stack Hfk j Hj Hjs m2 al L' Hsl p m3 Hst Hsw Hcopy) as (C1 & C2 & C3).
    destruct (fork_spaces Hfk j Hj Hjs m2 al L' Hsl p m3 Hst) as [D1 D2 (rd & hd & nd & T' & P' & fr' & U' & D)].
    split.
    + done.
    + done.
    + done.
    + exact (fork_others Hfk j Hj Hjs m2 al L' Hag2 p m3 Hst).
    + exists p. split; [|by split]. intros Hp. by apply (sm_new _ _ _ _ _ Hst), (sl_held _ _ _ Hsl).
    + exact D2.
    + exists rd, hd, nd, T', (p :: L'), P', fr', U'. exact D.
Qed.
End Fork.
