(* ===== verification/Machine.v ===== *)
(** * The machine: a processor that changes hands

    The kernel's state, what each context goes on with, and which context has
    the processor. The steps are runs of the handlers: the scheduler's visit of
    a task, system calls and interrupts of the task in user mode, and what is
    left of a handler when its context is switched back to. Interrupts in the
    middle of a handler are the subject of Preempt.v. *)

From stdpp Require Import functions.
From S2P Require Import Prelude Mem Common DList Buddy Paging FrameAlloc Obj Vmem Multiboot Fb FbSpec Console Printk PrintkSpec ConsoleSpec.
From S2P Require Import Acpi Kst Arch Sched Apic Syscall SchedSpec SyscallSpec.

(** A suspended computation, as [Switch] holds it. *)
Definition rest (A : Type) : Type := kst -> res (resum A * kst).

(** What a context goes on with. *)
Inductive kont :=
  | KUser                              (* user mode: any call or interrupt *)
  | KTick (k : rest unit)              (* an interrupt's handler, entered from user mode *)
  | KCall (k : rest Z)                 (* a system call *)
  | KLook (i : Z)                      (* the scheduler, before its look at task [i] *)
  | KVisit (i : Z) (k : rest bool).    (* the scheduler, after task [i] has run *)

Record machine := Machine {
  m_s : kst;
  m_kont : Z -> kont;   (* by the address of the context *)
  m_at : Z;             (* the context that has the processor *)
}.

(** A handler run in the context that has the processor has returned, or has
    given the processor away: then the rest of it waits in the context the
    switch names. *)
Definition put {A} (wrap : rest A -> kont) (fin : kont) (M : machine) (r : resum A) (s : kst) : machine :=
  match r with
  | Done _ => Machine s (<[m_at M := fin]> (m_kont M)) (m_at M)
  | Switch prev next k => Machine s (<[prev := wrap k]> (m_kont M)) next
  end.

(** The scheduler goes round the table. *)
Definition next_index (i : Z) : Z := if i + 1 <? MAX_TASK_COUNT then i + 1 else 0.

(** A child's context starts in user mode: its kernel stack holds a copy of its
    parent's registers below the address of [pop_and_iret]. *)
Definition forked (sysno : Z) (r : resum Z) (M : machine) : machine :=
  match r with
  | Done v => if (sysno =? SYS_FORK) && (0 <=? s64 v)
              then Machine (m_s M) (<[task_at (m_s M) v := KUser]> (m_kont M)) (m_at M) else M
  | Switch _ _ _ => M
  end.

(** ** What memory management leaves alone

    The addresses of the task table, and states that differ only outside it and
    in the places [X]. *)
Definition in_tasks (s : kst) (a : Z) : Prop := in_range (tasks s) (sizeof_task * (MAX_TASK_COUNT + 1)) a.

Record same (X : Z -> Prop) (s s' : kst) : Prop := {
  sm_tasks : tasks s' = tasks s;
  sm_timer : sched_timer s' = sched_timer s;
  sm_current : _current s' = _current s;
  sm_context : sched_context s' = sched_context s;
  sm_lapic : lapic_ptr s' = lapic_ptr s;
  sm_screen : con_fb (k_con s') = con_fb (k_con s);
  sm_printing : printing_ok s -> printing_ok s';
  sm_mem : agree (fun a => in_tasks s a /\ ~ X a) (kmem s) (kmem s');
}.

Definition nothing (a : Z) : Prop := False.

(** The thread and the address space in a task's entry. *)
Definition owned_fields (t a : Z) : Prop := in_range t 16 a \/ in_range (t + 72) 16 a.

(** An error code is an [int]. *)
Definition int_range (r : Z) : Prop := - 2 ^ 31 <= r < 2 ^ 31.

(** The allocations of a fork stay out of the table, but for the child's thread
    and address space, and its registers are not in the table. *)
Definition fork_contained (fuel : nat) (sym : symbols) (s : kst) : Prop :=
  forall child s1, sched_allocate_task s = Ret (child, s1) ->
  forall r s2, in_vm (vmem_clone fuel (task_vmem child) (task_vmem (_current s1))) s1 = Ret (r, s2) ->
    same (owned_fields child) s1 s2 /\ int_range r /\
  forall r' regs s3, arch_thread_clone_current sym (task_arch_thread child) s2 = Ret ((r', regs), s3) ->
    same (owned_fields child) s2 s3 /\ int_range r' /\ (0 <= r' -> regs_ok regs /\ apart regs sizeof_arch_regs (tasks s) (sizeof_task * (MAX_TASK_COUNT + 1))).

(** The frees of a task's end stay out of the table. *)
Definition reap_contained (fuel : nat) (t : Z) (s : kst) : Prop :=
  forall s1, in_vm (vmem_switch_to (sched_vmem s)) s = Ret (tt, s1) ->
  forall s2, in_vm (vmem_destroy fuel (task_vmem t)) s1 = Ret (tt, s2) -> same nothing s1 s2 /\
  forall s3, arch_thread_destroy (task_arch_thread t) s2 = Ret (tt, s3) -> same nothing s2 s3.

(** The store of an exit code to a user's address does. *)
Definition store_contained (fuel : nat) (s : kst) : Prop :=
  forall a v s', in_vm (user_store fuel 4 a v) s = Ret (tt, s') -> same nothing s s'.

(** A page fault's mapping does. *)
Definition fault_contained (fuel : nat) (cr2 : Z) (s : kst) : Prop :=
  forall b s', in_vm (vmem_handle_pf fuel cr2) s = Ret (b, s') -> same nothing s s'.

(** The saved registers of an entry into the kernel. *)
Definition entered (regs : Z) (s s1 : kst) : Prop :=
  regs_ok regs /\ same nothing s s1.

(** ** Steps *)

Section Steps.
Context (fuel : nat) (sym : symbols).

Inductive mstep : machine -> machine -> Prop :=
  | S_visit M i r s :
      m_kont M (m_at M) = KLook i -> sched_visit fuel i (m_s M) = Ret (r, s) ->
      mstep M (put (KVisit i) (KLook (next_index i)) M r s)
  | S_back M i k r s :
      m_kont M (m_at M) = KVisit i k ->
      (state_of (kmem (m_s M)) (task_at (m_s M) i) = TASK_ZOMBIE -> reap_contained fuel (task_at (m_s M) i) (m_s M)) -> k (m_s M) = Ret (r, s) ->
      mstep M (put (KVisit i) (KLook (next_index i)) M r s)
  | S_call M sysno regs s1 r s :
      m_kont M (m_at M) = KUser -> entered regs (m_s M) s1 -> 0 <= sysno ->
      (sysno = SYS_FORK -> fork_contained fuel sym s1) -> (sysno = SYS_WAIT -> store_contained fuel s1) ->
      (sysno = SYS_WAIT -> 0 <= ld64 (kmem s1) (regs + 72) < MAX_TASK_COUNT) ->
      do_syscall fuel sym sysno regs s1 = Ret (r, s) ->
      mstep M (forked sysno r (put KCall KUser M r s))
  | S_return M k r s :
      m_kont M (m_at M) = KCall k -> store_contained fuel (m_s M) -> k (m_s M) = Ret (r, s) ->
      mstep M (put KCall KUser M r s)
  | S_irq M x cr2 ctx s1 r s :
      m_kont M (m_at M) = x -> x = KUser \/ (exists i, x = KLook i) ->
      entered ctx (m_s M) s1 -> fault_contained fuel cr2 s1 ->
      irq_handler fuel cr2 ctx s1 = Ret (r, s) ->
      mstep M (put KTick x M r s)
  | S_tock M k r s :
      m_kont M (m_at M) = KTick k -> k (m_s M) = Ret (r, s) ->
      mstep M (put KTick KUser M r s)
  | S_user M s :
      m_kont M (m_at M) = KUser -> same nothing (m_s M) s ->
      mstep M (Machine s (m_kont M) (m_at M)).

Inductive mreach (M : machine) : machine -> Prop :=
  | mreach_refl : mreach M M
  | mreach_step M1 M2 : mreach M M1 -> mstep M1 M2 -> mreach M M2.
End Steps.
