(* ===== verification/MachineSim.v ===== *)
(** * The machine's steps are events in the life of tasks

    [rep a M]: the machine [M] is in the abstract state [a] of ProcSpec.v: the
    task table holds its entries, and each context goes on where [a] says. Every
    step of the machine is an event, or none. *)

From stdpp Require Import functions.
From S2P Require Import Prelude Mem Common DList Buddy Paging FrameAlloc Obj Vmem Multiboot Fb FbSpec Console Printk PrintkSpec ConsoleSpec.
From S2P Require Import VmemSpec Acpi Kst Arch Sched Apic Syscall SchedSpec SyscallSpec ProcSpec Machine.

(** ** Entries of the task table *)

(** The entry of task [i] at [t] is [p]. *)
Record entry_is (m : mem) (t : Z) (i : Z) (p : proc) : Prop := {
  en_state : state_of m t = state_code (p_state p);
  en_parent : ppid_of m t = p_parent p;
  en_wait : wait_of m t = p_wait p;
  en_exit : exitcode_of m t = p_exit p;
  en_deadline : deadline_of m t = p_deadline p;
  en_wake : sleep_of m t = p_wake p;
  en_pid : p_state p <> Free -> pid_of m t = i;
}.

Lemma state_code_eqb x y : (state_code x =? state_code y) = bool_decide (x = y).
Proof. by destruct x, y. Qed.

Lemma state_is m t i p x : entry_is m t i p -> (state_of m t =? state_code x) = bool_decide (p_state p = x).
Proof. intros H. rewrite (en_state _ _ _ _ H). apply state_code_eqb. Qed.

(** Memory that has the same fields has the same entry. *)
Lemma entry_is_agree m m' t i p :
  agree (fun a => in_range (t + 16) 56 a \/ in_range (t + 88) 8 a) m m' -> entry_is m t i p -> entry_is m' t i p.
Proof.
  intros Hm [H1 H2 H3 H4 H5 H6 H7].
  assert (E : forall o n, 16 <= o -> o + Z.of_nat n <= 72 -> ld n m' (t + o) = ld n m (t + o)).
  { intros o n Ho Hn. apply (ld_agree n _ _ _ _ Hm). intros a Ha. left. unfold in_range in *. lia. }
  assert (E' : ld 4 m' (t + 88) = ld 4 m (t + 88)).
  { apply (ld_agree 4 _ _ _ _ Hm). intros a Ha. right. unfold in_range in *. lia. }
  unfold state_of, ppid_of, wait_of, exitcode_of, deadline_of, sleep_of, pid_of in *.
  split; unfold state_of, ppid_of, wait_of, exitcode_of, deadline_of, sleep_of, pid_of; rewrite ?E' by lia; rewrite ?E by lia; done.
Qed.

Ltac entry_store :=
  intros [H1 H2 H3 H4 H5 H6 H7]; split; cbn [with_state with_wait with_exit with_deadline with_wake with_parent
    p_state p_parent p_wait p_exit p_deadline p_wake] in *;
  unfold deadline_of, sleep_of, state_of, pid_of, ppid_of, wait_of, exitcode_of in *; field_simp; try done.

Section EntryStores.
Context (m : mem) (t i : Z) (p : proc).

Lemma entry_state x :
  (x <> Free -> pid_of m t = i) -> entry_is m t i p -> entry_is (st 4 m (t + 40) (state_code x)) t i (with_state x p).
Proof. intros Hp. entry_store. destruct x; done. Qed.
Lemma entry_wait c : 0 <= c < two64 -> entry_is m t i p -> entry_is (st64 m (t + 32) c) t i (with_wait c p).
Proof. intros Hc. entry_store. by apply u64_small. Qed.
Lemma entry_exit x : entry_is m t i p -> entry_is (st 4 m (t + 88) x) t i (with_exit (u32 x) p).
Proof. entry_store. Qed.
Lemma entry_deadline d : 0 <= d < two64 -> entry_is m t i p -> entry_is (st64 m (t + 56) d) t i (with_deadline d p).
Proof. intros Hd. entry_store. by apply u64_small. Qed.
Lemma entry_wake w : 0 <= w < two64 -> entry_is m t i p -> entry_is (st64 m (t + 64) w) t i (with_wake w p).
Proof. intros Hd. entry_store. by apply u64_small. Qed.
Lemma entry_parent q : 0 <= q < two64 -> entry_is m t i p -> entry_is (st64 m (t + 24) q) t i (with_parent q p).
Proof. intros Hd. entry_store. by apply u64_small. Qed.
(** The number of a free entry is not looked at. *)
Lemma entry_pid : 0 <= i < two64 -> entry_is m t i p -> entry_is (st64 m (t + 16) i) t i p.
Proof. intros Hi. entry_store. intros _. by apply u64_small. Qed.
End EntryStores.

(** The whole table, at [base]. *)
Definition slot_of (base i : Z) : Z := base + sizeof_task * i.
Definition table_is (m : mem) (base : Z) (f : Z -> proc) : Prop :=
  forall i, 0 <= i < MAX_TASK_COUNT -> entry_is m (slot_of base i) i (f i).

(** A store in one entry. *)
Lemma table_store n m base f i o v p :
  table_is m base f -> 0 <= o -> o + Z.of_nat n <= sizeof_task ->
  entry_is (st n m (slot_of base i + o) v) (slot_of base i) i p ->
  table_is (st n m (slot_of base i + o) v) base (<[i := p]> f).
Proof.
  intros Ht Ho Hn Hi j Hj. destruct (decide (i = j)) as [<-|Hne]; [by rewrite fn_lookup_insert|].
  rewrite fn_lookup_insert_ne by done. eapply entry_is_agree; [|by apply Ht].
  intros a Ha. apply (st_agree n m). unfold slot_of, sizeof_task, in_range in *. lia.
Qed.

Lemma table_again m base f i p q : table_is m base (<[i := p]> (<[i := q]> f)) -> table_is m base (<[i := p]> f).
Proof.
  intros H j Hj. specialize (H j Hj). destruct (decide (i = j)) as [<-|Hne].
  - by rewrite fn_lookup_insert in *.
  - by rewrite !fn_lookup_insert_ne in * by done.
Qed.

(** ** States that have the same table *)

Lemma same_refl X s : same X s s.
Proof. split; done. Qed.

Lemma same_trans X s1 s2 s3 : same X s1 s2 -> same X s2 s3 -> same X s1 s3.
Proof.
  intros [A1 A2 A3 A4 A5 A6 A7 A8] [B1 B2 B3 B4 B5 B6 B7 B8]. split; try congruence; [by auto|].
  eapply agree_trans; [exact A8|]. unfold in_tasks in *. rewrite A1 in B8. exact B8.
Qed.

Lemma same_weaken (X Y : Z -> Prop) s s' : (forall a, X a -> Y a) -> same X s s' -> same Y s s'.
Proof.
  intros HX [H1 H2 H3 H4 H5 H6 H7 H8]. split; try done. eapply agree_weaken; [exact H8|].
  intros a [Ha Hn]. split; [done|]. by intros Hx%HX.
Qed.

Lemma in_tasks_entry s i a :
  0 <= i < MAX_TASK_COUNT -> in_range (slot_of (tasks s) i) sizeof_task a -> in_tasks s a.
Proof. unfold in_tasks, in_range, slot_of, sizeof_task. lia. Qed.

(** The places of a task's thread and address space are not among the fields. *)
Lemma owned_fields_apart base i j a :
  in_range (slot_of base j + 16) 56 a \/ in_range (slot_of base j + 88) 8 a -> ~ owned_fields (slot_of base i) a.
Proof. unfold owned_fields, in_range, slot_of, sizeof_task. lia. Qed.

Lemma table_same_but (X : Z -> Prop) s s' f :
  (forall j a, in_range (slot_of (tasks s) j + 16) 56 a \/ in_range (slot_of (tasks s) j + 88) 8 a -> ~ X a) ->
  same X s s' -> table_is (kmem s) (tasks s) f -> table_is (kmem s') (tasks s') f.
Proof.
  intros HX Hs Ht i Hi. rewrite (sm_tasks _ _ _ Hs). eapply entry_is_agree; [|by apply Ht].
  intros a Ha. apply (sm_mem _ _ _ Hs). split; [|by eapply HX].
  apply (in_tasks_entry s i); [done|]. unfold in_range, sizeof_task in *. lia.
Qed.

Lemma table_same s s' f : same nothing s s' -> table_is (kmem s) (tasks s) f -> table_is (kmem s') (tasks s') f.
Proof. apply table_same_but. by intros j a _ []. Qed.

Lemma table_same_child s s' f i :
  same (owned_fields (slot_of (tasks s) i)) s s' -> table_is (kmem s) (tasks s) f -> table_is (kmem s') (tasks s') f.
Proof. apply table_same_but. intros j a. apply owned_fields_apart. Qed.

(** ** What the kernel's layout promises *)

Record laid_out (s : kst) : Prop := {
  lo_table : table_kok s;
  lo_context : kok (sched_context s) 8 = true;
  lo_context_apart : forall i, 0 <= i < MAX_TASK_COUNT -> sched_context s <> slot_of (tasks s) i;
  lo_printing : printing_ok s;
  lo_screen : forall a, in_tasks s a -> ~ on_screen (con_fb (k_con s)) a;
  lo_lapic : apart (u64 (lapic_ptr s + APIC_EOI)) 4 (tasks s) (sizeof_task * (MAX_TASK_COUNT + 1));
}.

Lemma laid_out_same X s s' : same X s s' -> laid_out s -> laid_out s'.
Proof.
  intros [E1 E2 E3 E4 E5 E6 E7 E8] [L1 L2 L3 L4 L5 L6].
  split; [unfold table_kok in *; by rewrite E1|by rewrite E4|by rewrite E1, E4|by apply E7| |by rewrite E1, E5].
  unfold in_tasks in *. by rewrite E1, E6.
Qed.

(** A step that only writes the table, or changes the clock or who runs. *)
Definition at_table (s s' : kst) : Prop :=
  tasks s' = tasks s /\ sched_context s' = sched_context s /\ lapic_ptr s' = lapic_ptr s /\
  k_con s' = k_con s /\ k_junk s' = k_junk s.

Lemma laid_out_at s s' : at_table s s' -> laid_out s -> laid_out s'.
Proof.
  intros (E1 & E2 & E3 & E4 & E5) [L1 L2 L3 L4 L5 L6].
  split; [unfold table_kok in *; by rewrite E1|by rewrite E2|by rewrite E1, E2| | |by rewrite E1, E3].
  - unfold printing_ok in *. rewrite E4, E5. destruct L4 as [[] ?]. by split.
  - unfold in_tasks in *. by rewrite E1, E4.
Qed.

(** ** The relation *)

(** The task at [t] goes on as its place says. *)
Definition kont_is (fuel : nat) (base : Z) (x : place) (k : kont) : Prop :=
  match x with
  | PUser => k = KUser \/ exists r, k = KTick r /\ forall s, r s = Ret (Done tt, s)
  | PSleep => exists r, k = KCall r /\ forall s, r s = Ret (Done 0, s)
  | PWait c => exists r regs, k = KCall r /\ regs_ok regs /\ 0 <= c < MAX_TASK_COUNT /\
      forall s, r s = if state_of (kmem s) (slot_of base c) =? TASK_ZOMBIE
                      then rbind (wait_finish fuel regs (slot_of base c) c) (fun v => rret (u64 v)) s
                      else Halt (Panic "tasks[child_pid].state == TASK_ZOMBIE")
  | PDead => exists r, k = KCall r (* it never runs *)
  end.

(** The scheduler, at work or waiting for task [i] to give the processor back. *)
Definition sched_at (fuel : nat) (base : Z) (r : option Z) (k : kont) : Prop :=
  match k with
  | KLook i => 0 <= i < MAX_TASK_COUNT /\ r = None
  | KVisit i k => 0 <= i < MAX_TASK_COUNT /\ (r = None \/ r = Some i) /\ forall s, k s = after_task fuel (slot_of base i) s
  | _ => False
  end.

Record rep (fuel : nat) (a : sys) (M : machine) : Prop := {
  rp_layout : laid_out (m_s M);
  rp_table : table_is (kmem (m_s M)) (tasks (m_s M)) (procs a);
  rp_clock : sched_timer (m_s M) = clock a;
  rp_running : _current (m_s M) = match running a with Some i => slot_of (tasks (m_s M)) i | None => NULL end;
  rp_at : m_at M = match running a with Some i => slot_of (tasks (m_s M)) i | None => sched_context (m_s M) end;
  rp_sched : sched_at fuel (tasks (m_s M)) (running a) (m_kont M (sched_context (m_s M)));
  rp_konts i : 1 <= i < MAX_TASK_COUNT -> st_of a i <> Free ->
    kont_is fuel (tasks (m_s M)) (places a i) (m_kont M (slot_of (tasks (m_s M)) i));
}.

(** ** Who has the processor *)

Lemma kont_is_task fuel base x k : kont_is fuel base x k -> (forall i, k <> KLook i) /\ (forall i r, k <> KVisit i r).
Proof.
  destruct x; cbn [kont_is]; [intros [->|(r & -> & _)]|intros (r & -> & _)|intros (r & regs & -> & _)|intros (r & ->)]; done.
Qed.

Section AnyLost.
Context {L : Z -> Prop}.

Section At.
Context (fuel : nat) (a : sys) (M : machine).
Hypothesis Ha : life_inv_but L a.
Hypothesis Hr : rep fuel a M.

Lemma slot_inj base i j : slot_of base i = slot_of base j -> i = j.
Proof. unfold slot_of, sizeof_task. lia. Qed.

Lemma running_kont i : running a = Some i -> kont_is fuel (tasks (m_s M)) (places a i) (m_kont M (m_at M)).
Proof.
  intros Hi. destruct (li_running _ a Ha i Hi) as [Hi1 Hi2]. rewrite (rp_at _ _ _ Hr), Hi.
  apply (rp_konts _ _ _ Hr i Hi1). congruence.
Qed.

Lemma at_sched k : m_kont M (m_at M) = k -> (exists i, k = KLook i) \/ (exists i r, k = KVisit i r) ->
  running a = None /\ m_at M = sched_context (m_s M) /\ sched_at fuel (tasks (m_s M)) None k.
Proof.
  intros Hk Hkk. destruct (running a) as [i|] eqn:Hi.
  - pose proof (running_kont i Hi) as H. rewrite Hk in H.
    apply kont_is_task in H as [H1 H2]. destruct Hkk as [[j Hj]|(j & r & Hj)]; [by destruct (H1 j)|by destruct (H2 j r)].
  - pose proof (rp_at _ _ _ Hr) as H1. pose proof (rp_sched _ _ _ Hr) as H2. rewrite Hi in H1, H2. rewrite <- H1, Hk in H2. done.
Qed.

Lemma at_task k : m_kont M (m_at M) = k -> k = KUser \/ (exists r, k = KTick r) \/ (exists r, k = KCall r) ->
  exists i, running a = Some i /\ 1 <= i < MAX_TASK_COUNT /\ st_of a i = Runnable /\
    m_at M = slot_of (tasks (m_s M)) i /\ _current (m_s M) = slot_of (tasks (m_s M)) i /\
    kont_is fuel (tasks (m_s M)) (places a i) k.
Proof.
  intros Hk Hkk. destruct (running a) as [i|] eqn:Hi.
  - exists i. destruct (li_running _ a Ha i Hi) as [Hi1 Hi2]. pose proof (running_kont i Hi) as H. rewrite Hk in H.
    pose proof (rp_at _ _ _ Hr) as H1. pose proof (rp_running _ _ _ Hr) as H2. rewrite Hi in H1, H2. done.
  - pose proof (rp_at _ _ _ Hr) as H1. pose proof (rp_sched _ _ _ Hr) as H2. rewrite Hi in H1, H2. rewrite <- H1, Hk in H2.
    destruct Hkk as [->|[[? ->]|[? ->]]]; done.
Qed.

Lemma kont_user base x : kont_is fuel base x KUser -> x = PUser.
Proof. destruct x; cbn [kont_is]; [done|intros (? & ? & _)|intros (? & ? & ? & _)|intros (? & ?)]; done. Qed.

(** What is set for one context is not set for another. *)
Lemma kont_sched (f : Z -> kont) x i :
  0 <= i < MAX_TASK_COUNT -> <[sched_context (m_s M) := x]> f (slot_of (tasks (m_s M)) i) = f (slot_of (tasks (m_s M)) i).
Proof. intros Hi. apply fn_lookup_insert_ne. apply (lo_context_apart _ (rp_layout _ _ _ Hr) i Hi). Qed.

Lemma kont_task (f : Z -> kont) x i :
  0 <= i < MAX_TASK_COUNT -> <[slot_of (tasks (m_s M)) i := x]> f (sched_context (m_s M)) = f (sched_context (m_s M)).
Proof. intros Hi. apply fn_lookup_insert_ne. intros E. by apply (lo_context_apart _ (rp_layout _ _ _ Hr) i Hi). Qed.

Lemma kont_other base (f : Z -> kont) x i j : i <> j -> <[slot_of base i := x]> f (slot_of base j) = f (slot_of base j).
Proof. intros Hne. apply fn_lookup_insert_ne. by intros E%slot_inj. Qed.
End At.

Lemma entry_same_state m t i p : entry_is m t i p -> entry_is m t i (with_state (p_state p) p).
Proof. by destruct p. Qed.

Lemma task_slot_of s i : task_slot s i = slot_of (tasks s) i.
Proof. done. Qed.

Lemma slot_task_ok s i : table_kok s -> 0 <= i < MAX_TASK_COUNT -> task_ok (slot_of (tasks s) i).
Proof. apply slot_ok. Qed.

(** ** The scheduler's visit *)

Lemma may_run_can a s i :
  table_is (kmem s) (tasks s) (procs a) -> sched_timer s = clock a -> 0 <= i < MAX_TASK_COUNT ->
  may_run s (slot_of (tasks s) i) = can_run a i.
Proof.
  intros Ht Hc Hi. pose proof (Ht i Hi) as He. unfold may_run, can_run, st_of.
  change TASK_RUNNABLE with (state_code Runnable). change TASK_SLEEPING with (state_code Sleeping).
  rewrite (state_is _ _ _ _ Runnable He), (state_is _ _ _ _ Sleeping He), (en_wake _ _ _ _ He), Hc. done.
Qed.

Lemma woken_table a s i :
  table_is (kmem s) (tasks s) (procs a) -> sched_timer s = clock a -> 0 <= i < MAX_TASK_COUNT -> can_run a i = true ->
  table_is (kmem (woken s (slot_of (tasks s) i))) (tasks s) (<[i := with_state Runnable (procs a i)]> (procs a)).
Proof.
  intros Ht Hc Hi Hr. pose proof (Ht i Hi) as He. unfold woken.
  change TASK_SLEEPING with (state_code Sleeping). rewrite (state_is _ _ _ _ Sleeping He), (en_wake _ _ _ _ He), Hc. unfold can_run, st_of in Hr.
  destruct (bool_decide (p_state (procs a i) = Sleeping) && (p_wake (procs a i) <=? clock a)) eqn:E.
  - rewrite kmem_set. apply table_store; [done|lia|done|]. apply (entry_state _ _ _ _ Runnable); [|done].
    intros _. apply (en_pid _ _ _ _ He). apply andb_prop in E as [E%bool_decide_eq_true_1 _]. congruence.
  - rewrite orb_false_r in Hr. apply bool_decide_eq_true_1 in Hr. intros j Hj. destruct (decide (i = j)) as [<-|Hne].
    + rewrite fn_lookup_insert, <- Hr. by apply entry_same_state.
    + rewrite fn_lookup_insert_ne by done. by apply Ht.
Qed.

Lemma woken_at s t : at_table s (woken s t) /\ sched_timer (woken s t) = sched_timer s.
Proof. unfold woken. by case_match. Qed.

Lemma sim_visit fuel a M i r s :
  life_inv_but L a -> rep fuel a M -> m_kont M (m_at M) = KLook i -> sched_visit fuel i (m_s M) = Ret (r, s) ->
  exists a', happens (Visit i) a = Some a' /\ rep fuel a' (put (KVisit i) (KLook (next_index i)) M r s).
Proof.
  intros Ha Hr Hk Hrun. destruct (at_sched fuel a M Ha Hr (KLook i) Hk (or_introl (ex_intro _ i eq_refl))) as (Hn & Hat & Hs). cbn [sched_at] in Hs. destruct Hs as [Hi _].
  destruct Hr as [L1 L2 L3 L4 L5 L6 L7]. unfold happens. rewrite Hn.
  assert (in_table i = true) as -> by (unfold in_table; apply andb_true_intro; split; [apply Z.leb_le|apply Z.ltb_lt]; lia).
  pose proof (sched_visit_ok fuel i (m_s M) (lo_table _ L1) Hi) as H. cbv zeta in H. rewrite task_slot_of in H.
  rewrite (may_run_can a) in H by done. set (t := slot_of (tasks (m_s M)) i) in *. destruct (can_run a i) eqn:Hc.
  - destruct H as (k & H & Hafter). rewrite H in Hrun. injection Hrun as <- <-. eexists. split; [done|].
    destruct (woken_at (m_s M) t) as [Hw Hwt]. pose proof Hw as (W1 & W2 & W3 & W4 & W5).
    set (w := woken (m_s M) t) in *. cbn [put]. split; cbn [m_s m_kont m_at].
    + eapply (laid_out_at (m_s M)); [|done]. by unfold at_table.
    + change (kmem (switched w t)) with (st64 (kmem w) (t + 56) (u64 (sched_timer w + PREEMPT_TICKS))).
      change (tasks (switched w t)) with (tasks w). rewrite W1, Hwt, L3. cbn [run_as on_proc procs].
      pose proof (woken_table a (m_s M) i L2 L3 Hi Hc) as Htab. fold t w in Htab.
      apply (table_again _ _ _ _ _ (with_state Runnable (procs a i))).
      apply table_store; [done|lia|done|]. apply entry_deadline; [apply u64_range|].
      pose proof (Htab i Hi) as He. by rewrite fn_lookup_insert in He.
    + cbn [run_as on_proc clock]. rewrite <- L3. exact Hwt.
    + cbn [run_as running]. change (tasks (switched w t)) with (tasks w). by rewrite W1.
    + cbn [run_as running m_at m_s]. change (tasks (switched w t)) with (tasks w). by rewrite W1.
    + cbn [m_s m_kont run_as running]. change (tasks (switched w t)) with (tasks w).
      change (sched_context (switched w t)) with (sched_context w). rewrite W1, W2, fn_lookup_insert.
      split; [done|]. split; [by right|]. exact Hafter.
    + intros j Hj Hst. cbn [m_s m_kont run_as places]. change (tasks (switched w t)) with (tasks w). rewrite W1.
      change (places (on_proc _ _ a)) with (places a). rewrite fn_lookup_insert_ne by (apply (lo_context_apart _ L1); lia).
      apply L7; [done|]. revert Hst. unfold st_of. cbn [run_as procs]. destruct (decide (i = j)) as [<-|Hne].
      * intros _. unfold can_run, st_of in Hc. intros E. rewrite E in Hc. done.
      * by rewrite on_proc_ne.
  - rewrite H in Hrun. injection Hrun as <- <-. exists a. split; [done|]. cbn [put]. rewrite Hn in *. split; cbn [m_s m_kont m_at].
    + done.
    + done.
    + done.
    + by rewrite Hn.
    + by rewrite Hn.
    + rewrite Hn, Hat, fn_lookup_insert. split; [|done]. unfold next_index. case_match; lia.
    + intros j Hj Hst. rewrite Hat, fn_lookup_insert_ne by (apply (lo_context_apart _ L1); lia). by apply L7.
Qed.

(** ** Runs that only read, print or hand memory back *)

Lemma kload_inv n a s v s' : kload n a s = Ret (v, s') -> s' = s /\ v = ld n (kmem s) a.
Proof.
  destruct (kok a (Z.of_nat n)) eqn:E; [rewrite kload_ok by done; intros [=]; done|].
  unfold kload, in_vm, in_kmem, in_fa, in_mem, klift. by rewrite load_fault.
Qed.

Lemma printing_con s s' : k_con s' = k_con s -> k_junk s' = k_junk s -> printing_ok s -> printing_ok s'.
Proof. unfold printing_ok. intros -> ->. intros [[] ?]. by split. Qed.

Lemma switch_same vm s u s1 : in_vm (vmem_switch_to vm) s = Ret (u, s1) -> same nothing s s1.
Proof.
  destruct (kok (vm_pml4 vm) 8) eqn:E.
  - rewrite in_vm_switch_ok by done. intros [= _ <-]. by split.
  - unfold in_vm, klift, vmem_switch_to, vload, in_kmem, in_fa, in_mem, klift, kbind. by rewrite load_fault.
Qed.

(** A message changes the screen. *)
Lemma kprintk_same fmt args s :
  laid_out s -> fmt_ok (chars fmt) true args = true ->
  exists s', kprintk fmt args s = Ret (tt, s') /\ same nothing s s'.
Proof.
  intros HL Hf. destruct (kprintk_ok fmt args s (lo_printing _ HL) Hf) as (m & c & H1 & H2 & H3 & H4).
  eexists. split; [exact H1|]. split; try done.
  - intros [_ Hj]. split; [|done]. destruct H4. by split.
  - eapply agree_weaken; [exact H2|]. intros a [Ha _]. by apply (lo_screen _ HL).
Qed.

Lemma reap_same fuel t s s' :
  laid_out s -> reap_contained fuel t s -> reap fuel t s = Ret (tt, s') -> same nothing s s'.
Proof.
  intros HL Hc. unfold reap. rewrite kget_bind. intros ([] & s1 & H1 & H)%kbind_inv.
  pose proof (switch_same _ _ _ _ H1) as S1. apply kbind_inv in H as ([] & s2 & H2 & H). apply kbind_inv in H as ([] & s3 & H3 & H).
  destruct (Hc s1 H1 s2 H2) as [S2 S3]. specialize (S3 s3 H3).
  assert (S : same nothing s s3) by (eapply same_trans; [exact S1|eapply same_trans; [exact S2|exact S3]]).
  apply kbind_inv in H as (pid & s4 & [-> _]%kload_inv & H). apply kbind_inv in H as (x & s5 & [-> _]%kload_inv & H).
  destruct (kprintk_same "sched: pid %d becomes zombie with exit code %d
" [ANum pid; ANum x] s3 (laid_out_same _ _ _ S HL) eq_refl) as (s6 & H6 & S6).
  rewrite H6 in H. injection H as <-. eapply same_trans; [exact S|exact S6].
Qed.

(** ** Steps that leave the table *)

Lemma rep_same fuel a M s : rep fuel a M -> same nothing (m_s M) s -> rep fuel a (Machine s (m_kont M) (m_at M)).
Proof.
  intros [L1 L2 L3 L4 L5 L6 L7] S. pose proof S as [E1 E2 E3 E4 E5 E6 E7 E8]. split; cbn [m_s m_kont m_at].
  - by eapply laid_out_same.
  - by eapply table_same.
  - by rewrite E2.
  - by rewrite E1, E3.
  - by rewrite E1, E4.
  - by rewrite E1, E4.
  - by rewrite E1.
Qed.

(** The scheduler goes on to the next task. *)
Lemma rep_look fuel a M i :
  rep fuel a M -> running a = None -> 0 <= i < MAX_TASK_COUNT ->
  rep fuel a (Machine (m_s M) (<[m_at M := KLook i]> (m_kont M)) (m_at M)).
Proof.
  intros Hr Hn Hi. pose proof Hr as [L1 L2 L3 L4 L5 L6 L7]. rewrite Hn in *. split; cbn [m_s m_kont m_at]; rewrite ?Hn; try done.
  - rewrite L5, fn_lookup_insert. done.
  - intros j Hj Hst. rewrite L5, fn_lookup_insert_ne by (apply (lo_context_apart _ L1); lia). by apply L7.
Qed.

(** The running task is in its program again. *)
Lemma rep_user fuel a M i :
  rep fuel a M -> running a = Some i -> 0 <= i < MAX_TASK_COUNT -> places a i = PUser ->
  rep fuel a (Machine (m_s M) (<[m_at M := KUser]> (m_kont M)) (m_at M)).
Proof.
  intros Hr Hn Hi Hp. pose proof Hr as [L1 L2 L3 L4 L5 L6 L7]. rewrite Hn in *. split; cbn [m_s m_kont m_at]; rewrite ?Hn; try done.
  - rewrite L5, (kont_task fuel a M Hr) by done. done.
  - intros j Hj Hst. rewrite L5. destruct (decide (i = j)) as [<-|Hne].
    + rewrite fn_lookup_insert, Hp. by left.
    + rewrite kont_other by done. by apply L7.
Qed.

Lemma next_index_range i : 0 <= i < MAX_TASK_COUNT -> 0 <= next_index i < MAX_TASK_COUNT.
Proof. unfold next_index. case_match; lia. Qed.

Lemma after_task_same fuel t s r s' :
  task_ok t -> laid_out s -> (state_of (kmem s) t = TASK_ZOMBIE -> reap_contained fuel t s) -> after_task fuel t s = Ret (r, s') ->
  r = Done true /\ same nothing s s'.
Proof.
  intros Ht HL Hc. unfold after_task. rewrite (kbind_Ret _ _ _ _ _ (get_state_ok t s Ht)).
  intros ([] & s1 & H1 & H)%kbind_inv. injection H as <- <-. split; [done|].
  destruct (Z.eqb_spec (state_of (kmem s) t) TASK_ZOMBIE); [by eapply reap_same; [|apply Hc|]|]. injection H1 as <-. apply same_refl.
Qed.

Lemma sim_back fuel a M i k r s :
  life_inv_but L a -> rep fuel a M -> m_kont M (m_at M) = KVisit i k ->
  (state_of (kmem (m_s M)) (task_at (m_s M) i) = TASK_ZOMBIE -> reap_contained fuel (task_at (m_s M) i) (m_s M)) ->
  k (m_s M) = Ret (r, s) -> rep fuel a (put (KVisit i) (KLook (next_index i)) M r s).
Proof.
  intros Ha Hr Hk Hc Hrun.
  destruct (at_sched fuel a M Ha Hr (KVisit i k) Hk (or_intror (ex_intro _ i (ex_intro _ k eq_refl)))) as (Hn & Hat & Hs).
  destruct Hs as (Hi & _ & Hafter). pose proof (rp_layout _ _ _ Hr) as HL. pose proof (lo_table _ HL) as Ht.
  rewrite task_slot_at in Hc by (done || lia). rewrite Hafter in Hrun.
  destruct (after_task_same fuel _ _ _ _ (slot_task_ok _ _ Ht Hi) HL Hc Hrun) as [-> S]. cbn [put].
  apply (rep_look fuel a (Machine s (m_kont M) (m_at M))); [by apply rep_same|done|by apply next_index_range].
Qed.

Lemma sim_tock fuel a M k r s :
  life_inv_but L a -> rep fuel a M -> m_kont M (m_at M) = KTick k -> k (m_s M) = Ret (r, s) -> rep fuel a (put KTick KUser M r s).
Proof.
  intros Ha Hr Hk Hrun.
  destruct (at_task fuel a M Ha Hr (KTick k) Hk (or_intror (or_introl (ex_intro _ k eq_refl)))) as (i & Hn & Hi & _ & _ & _ & Hki).
  destruct (places a i) eqn:Hp; cbn [kont_is] in Hki.
  - destruct Hki as [?|(k' & [= <-] & Hret)]; [done|]. rewrite Hret in Hrun. injection Hrun as <- <-. cbn [put].
    apply (rep_user fuel a M i); [done|done|lia|done].
  - by destruct Hki as (? & ? & _).
  - by destruct Hki as (? & ? & ? & _).
  - by destruct Hki as (? & ?).
Qed.

(** ** The end of a wait *)

Definition reads {S A} (m : K S A) : Prop := forall s v s', m s = Ret (v, s') -> s' = s.

Lemma reads_bind {S A B} (m : K S A) (f : A -> K S B) : reads m -> (forall v, reads (f v)) -> reads (kbind m f).
Proof. intros Hm Hf s v s' (x & s1 & H1 & H)%kbind_inv. apply Hm in H1 as ->. by apply Hf in H. Qed.

Lemma reads_ret {S A} (v : A) : reads (kret (S := S) v).
Proof. by intros s w s' [= _ <-]. Qed.

Lemma reads_vload a : reads (vload a).
Proof.
  intros s v s'. destruct (kok a 8) eqn:E; [rewrite vload_ok by done; by intros [=]|].
  unfold vload, in_kmem, in_fa, in_mem, klift. by rewrite load_fault.
Qed.

Lemma reads_is_mapped fuel vm a : reads (vmem_is_mapped fuel vm a).
Proof.
  unfold vmem_is_mapped. apply reads_bind; [apply reads_vload|]. intros head. apply reads_bind; [apply reads_vload|].
  intros node. revert node. induction fuel as [|fuel IH]; intros node; [done|]. cbn [is_mapped_loop].
  apply reads_bind; [apply reads_vload|]. intros h. case_match; [apply reads_ret|].
  apply reads_bind; [apply reads_vload|]. intros b. apply reads_bind; [apply reads_vload|]. intros n.
  case_match; [apply reads_ret|]. apply reads_bind; [apply reads_vload|]. intros x. apply IH.
Qed.

Lemma reads_in_vm {A} (m : K vm_state A) : reads m -> reads (in_vm m).
Proof.
  intros Hm s v s'. unfold in_vm, klift. destruct (m (k_vm s)) as [[x vm']|h] eqn:E; [|done].
  apply Hm in E as ->. destruct s. by intros [= _ <-].
Qed.

Lemma write_status_same fuel status child s e s' :
  store_contained fuel s -> write_status fuel status child s = Ret (e, s') -> same nothing s s'.
Proof.
  intros Hc. unfold write_status. destruct (status =? NULL); [intros [= _ <-]; apply same_refl|]. rewrite kget_bind.
  intros (area & s1 & H1 & H)%kbind_inv. apply (reads_in_vm _ (reads_is_mapped _ _ _)) in H1 as ->.
  destruct (area =? NULL); [injection H as _ <-; apply same_refl|].
  apply kbind_inv in H as (flags & s1 & H1 & H). apply (reads_in_vm _ (reads_vload _)) in H1 as ->.
  destruct (_ =? 0); [injection H as _ <-; apply same_refl|].
  apply kbind_inv in H as (x & s1 & [-> _]%kload_inv & H). apply kbind_inv in H as ([] & s1 & H1 & H).
  injection H as _ <-. by apply Hc in H1.
Qed.

(** The child's entry is freed exactly if the call returns 0. *)
Lemma wait_finish_same fuel regs p c s r s' :
  laid_out s -> 0 <= p < MAX_TASK_COUNT -> 0 <= c < MAX_TASK_COUNT -> _current s = slot_of (tasks s) p ->
  regs_ok regs -> store_contained fuel s ->
  rbind (wait_finish fuel regs (slot_of (tasks s) c) c) (fun v => rret (u64 v)) s = Ret (r, s') ->
  (exists v, r = Done v) /\
  (same nothing s s' \/ exists s1, same nothing s s1 /\
     same nothing (set_kmem s1 (st 4 (kmem s1) (slot_of (tasks s) c + 40) TASK_NOT_ALLOCATED)) s').
Proof.
  intros HL Hp Hcr Hcur Hregs Hc. set (t := slot_of (tasks s) c). pose proof (lo_table _ HL) as Ht.
  pose proof (slot_task_ok s c Ht Hcr) as Hto. unfold wait_finish.
  intros (q & s1 & H1 & H)%kbind_inv. rewrite (kbind_Ret _ _ _ _ _ (arg1_ok regs s Hregs)) in H1.
  apply kbind_inv in H1 as (e & s2 & H2 & H1). pose proof (write_status_same _ _ _ _ _ _ Hc H2) as S2.
  destruct e as [e|].
  - injection H1 as <- <-. injection H as <- <-. split; [by eexists|by left].
  - rewrite (kbind_Ret _ _ _ _ _ (set_state_ok _ s2 Hto _)) in H1. set (s3 := set_kmem s2 _) in H1.
    rewrite kget_bind in H1. apply kbind_inv in H1 as (pid & s4 & [-> _]%kload_inv & H1).
    assert (L3 : laid_out s3) by (apply (laid_out_at s2); [done|by eapply laid_out_same]).
    destruct (kprintk_same "sys_wait: pid %d reaped child with pid %d
" [ANum pid; ANum c] s3 L3 eq_refl) as (s5 & H5 & S5).
    apply kbind_inv in H1 as ([] & s6 & H6 & H1). rewrite H5 in H6. injection H6 as <-.
    injection H1 as <- <-. injection H as <- <-. split; [by eexists|right]. by exists s2.
Qed.

(** One entry of the table is changed. *)
Lemma rep_entry fuel a M j f s :
  rep fuel a M -> at_table (m_s M) s -> sched_timer s = sched_timer (m_s M) -> _current s = _current (m_s M) ->
  table_is (kmem s) (tasks s) (procs (on_proc j f a)) -> (st_of a j = Free -> p_state (f (procs a j)) = Free) ->
  rep fuel (on_proc j f a) (Machine s (m_kont M) (m_at M)).
Proof.
  intros [L1 L2 L3 L4 L5 L6 L7] Hs Ht Hc Htab Hf. pose proof Hs as (E1 & E2 & E3 & E4 & E5).
  split; cbn [m_s m_kont m_at]; rewrite ?E1, ?E2; try done.
  - by eapply laid_out_at.
  - rewrite E1 in Htab. done.
  - by rewrite Ht.
  - by rewrite Hc.
  - intros i Hi Hst. apply L7; [done|]. intros E. apply Hst. unfold st_of in *. destruct (decide (j = i)) as [<-|?].
    + rewrite on_proc_eq. by apply Hf.
    + by rewrite on_proc_ne.
Qed.

Lemma rep_state fuel a M j x :
  rep fuel a M -> 0 <= j < MAX_TASK_COUNT -> st_of a j <> Free ->
  rep fuel (on_proc j (with_state x) a)
    (Machine (set_kmem (m_s M) (st 4 (kmem (m_s M)) (slot_of (tasks (m_s M)) j + 40) (state_code x))) (m_kont M) (m_at M)).
Proof.
  intros Hr Hj Hst. apply rep_entry; try done.
  - apply table_store; [apply Hr|lia|done|]. apply entry_state; [|by apply Hr].
    intros _. apply (en_pid _ _ _ _ (rp_table _ _ _ Hr j Hj)). exact Hst.
Qed.

Lemma rep_finish fuel a M regs p c r s :
  rep fuel a M -> running a = Some p -> 0 <= p < MAX_TASK_COUNT -> 0 <= c < MAX_TASK_COUNT ->
  st_of a c = Zombie -> regs_ok regs -> store_contained fuel (m_s M) ->
  rbind (wait_finish fuel regs (slot_of (tasks (m_s M)) c) c) (fun v => rret (u64 v)) (m_s M) = Ret (r, s) ->
  exists accepted v, r = Done v /\ rep fuel (reaped c accepted a) (Machine s (m_kont M) (m_at M)).
Proof.
  intros Hr Hp Hpr Hc Hz Hregs Hst Hrun. pose proof (rp_running _ _ _ Hr) as Hcur. rewrite Hp in Hcur.
  destruct (wait_finish_same fuel regs p c (m_s M) r s (rp_layout _ _ _ Hr) Hpr Hc Hcur Hregs Hst Hrun)
    as ([v ->] & [S|(s1 & S1 & S2)]).
  - exists false, v. split; [done|]. by apply rep_same.
  - exists true, v. split; [done|]. pose proof (rep_same fuel a M s1 Hr S1) as R1.
    pose proof (rep_state fuel a _ c Free R1 Hc ltac:(congruence)) as R2. cbn [m_s m_kont m_at] in R2.
    rewrite (sm_tasks _ _ _ S1) in R2. exact (rep_same _ _ _ s R2 S2).
Qed.

Lemma sim_return fuel a M k r s :
  life_inv_but L a -> rep fuel a M -> m_kont M (m_at M) = KCall k -> store_contained fuel (m_s M) -> k (m_s M) = Ret (r, s) ->
  exists accepted a', happens (Resume accepted) a = Some a' /\ rep fuel a' (put KCall KUser M r s).
Proof.
  intros Ha Hr Hk Hst Hrun.
  destruct (at_task fuel a M Ha Hr (KCall k) Hk (or_intror (or_intror (ex_intro _ k eq_refl)))) as (i & Hn & Hi & Hsi & _ & _ & Hki).
  assert (Hgo : rep fuel (go i PUser a) (Machine (m_s M) (<[m_at M := KUser]> (m_kont M)) (m_at M))).
  { pose proof Hr as [L1 L2 L3 L4 L5 L6 L7]. rewrite Hn in *. split; cbn [m_s m_kont m_at go running procs]; rewrite ?Hn; try done.
    - rewrite L5, (kont_task fuel a M Hr) by lia. done.
    - intros j Hj Hst'. rewrite L5. destruct (decide (i = j)) as [<-|Hne].
      + rewrite fn_lookup_insert, go_eq. by left.
      + rewrite kont_other, go_ne by done. by apply L7. }
  unfold happens. rewrite Hn. destruct (places a i) as [| |c|] eqn:Hp; cbn [kont_is] in Hki.
  - destruct Hki as [?|(k' & ? & _)]; done.
  - destruct Hki as (k' & [= <-] & Hret). rewrite Hret in Hrun. injection Hrun as <- <-. exists false.
    eexists. split; [done|]. exact Hgo.
  - destruct Hki as (k' & regs & [= <-] & Hregs & Hc & Hret). rewrite Hret in Hrun.
    change TASK_ZOMBIE with (state_code Zombie) in Hrun. rewrite (state_is _ _ c _ Zombie (rp_table _ _ _ Hr c Hc)) in Hrun.
    fold (st_of a c) in Hrun. destruct (bool_decide (st_of a c = Zombie)) eqn:Hz; [|done].
    destruct (rep_finish fuel (go i PUser a) _ regs i c r s Hgo Hn ltac:(lia) Hc
                (bool_decide_eq_true_1 _ Hz) Hregs Hst Hrun) as (acc & v & -> & Hrep).
    exists acc. eexists. split; [done|]. exact Hrep.
  - pose proof (li_place _ a Ha i) as Hpl. unfold place_ok in Hpl. rewrite Hp, Hsi in Hpl. by destruct Hpl.
Qed.

(** ** Giving the processor back *)

(** Task [i] leaves the processor to the scheduler, to go on as [k] says. *)
Lemma rep_handed fuel a a' M i k :
  rep fuel a M -> running a = Some i -> 0 <= i < MAX_TASK_COUNT ->
  procs a' = procs a -> clock a' = clock a -> running a' = None -> (forall j, i <> j -> places a' j = places a j) ->
  kont_is fuel (tasks (m_s M)) (places a' i) k ->
  rep fuel a' (Machine (handed_back (m_s M)) (<[slot_of (tasks (m_s M)) i := k]> (m_kont M)) (sched_context (m_s M))).
Proof.
  intros Hr Hn Hi Ep Ec En Epl Hk. pose proof Hr as [L1 L2 L3 L4 L5 L6 L7]. rewrite Hn in *.
  split; cbn [m_s m_kont m_at handed_back tasks sched_context sched_timer _current k_vm]; rewrite ?En, ?Ec; try done.
  - apply (laid_out_at (m_s M)); [repeat split|done].
  - change (kmem (handed_back (m_s M))) with (kmem (m_s M)). by rewrite Ep.
  - rewrite (kont_task fuel a M Hr) by done. destruct (m_kont M (sched_context (m_s M))); try done.
    + by destruct L6.
    + destruct L6 as (H1 & _ & H2). split; [done|]. split; [by left|done].
  - intros j Hj Hst. unfold st_of in Hst. rewrite Ep in Hst. destruct (decide (i = j)) as [<-|Hne].
    + by rewrite fn_lookup_insert.
    + rewrite kont_other, Epl by done. by apply L7.
Qed.

(** The clock goes on. *)
Lemma rep_ticked fuel a M :
  rep fuel a M -> rep fuel (at_clock (u64 (clock a + 1)) a) (Machine (ticked (m_s M)) (m_kont M) (m_at M)).
Proof.
  intros [L1 L2 L3 L4 L5 L6 L7]. split; try done.
  - apply (laid_out_at (m_s M)); [repeat split|done].
  - cbn [m_s ticked sched_timer at_clock clock]. by rewrite L3.
Qed.

Lemma eoi_same s s' : laid_out s -> eoi s = Ret (tt, s') -> same nothing s s'.
Proof.
  intros HL. unfold eoi. rewrite kget_bind. unfold in_vm, in_kmem, in_fa, in_mem, klift, apic_eoi, lapic_write, store32, store.
  change (4 * (APIC_EOI / 4)) with APIC_EOI. pose proof (lo_lapic _ HL) as Ha. destruct (kok _ _); [|done].
  intros [= <-]. split; try done.
  - by apply printing_con.
  - cbn. eapply agree_weaken; [apply st_agree|]. intros a [Hin _] Hw. unfold in_tasks, in_range, apart in *. lia.
Qed.

Definition ticks (a : sys) (i : Z) : sys :=
  let a' := at_clock (u64 (clock a + 1)) a in if p_deadline (procs a i) <? clock a' then a' else run_as None a'.

(** The timer, in a task's program. *)
Lemma rep_tick fuel a M i r s :
  rep fuel a M -> running a = Some i -> 1 <= i < MAX_TASK_COUNT -> places a i = PUser -> m_kont M (m_at M) = KUser ->
  sched_timer_tick (m_s M) = Ret (r, s) -> rep fuel (ticks a i) (put KTick KUser M r s).
Proof.
  intros Hr Hn Hi Hp Hk Hrun. pose proof Hr as [L1 L2 L3 L4 L5 L6 L7]. rewrite Hn in L4, L5.
  pose proof (lo_table _ L1) as Ht. pose proof (slot_task_ok _ i Ht ltac:(lia)) as Hto.
  pose proof (task_slot_nonnull (m_s M) Ht i ltac:(lia)) as Hnn. rewrite task_slot_of in Hnn.
  rewrite sched_timer_tick_ok in Hrun by (rewrite ?L4; by try apply L1). rewrite L4 in Hrun.
  rewrite (proj2 (Z.eqb_neq _ _) Hnn) in Hrun. cbn [orb] in Hrun.
  rewrite (en_deadline _ _ _ _ (L2 i ltac:(lia))), L3 in Hrun. unfold ticks. cbn [at_clock clock].
  pose proof (rep_ticked fuel a M Hr) as Rt. destruct (_ <? _); injection Hrun as <- <-; cbn [put].
  - apply (rep_user fuel _ (Machine (ticked (m_s M)) (m_kont M) (m_at M)) i); [done|done|lia|done].
  - refine (rep_handed fuel _ (run_as None (at_clock (u64 (clock a + 1)) a)) _ i (KTick (rret tt)) Rt Hn _ eq_refl eq_refl eq_refl _ _);
      [lia|done|].
    cbn [run_as at_clock places]. rewrite Hp. right. by eexists.
Qed.

Lemma sim_irq fuel a M x cr2 ctx s1 r s :
  life_inv_but L a -> rep fuel a M -> m_kont M (m_at M) = x -> x = KUser \/ (exists i, x = KLook i) ->
  entered ctx (m_s M) s1 -> fault_contained fuel cr2 s1 -> irq_handler fuel cr2 ctx s1 = Ret (r, s) ->
  exists a', reaches a a' /\ rep fuel a' (put KTick x M r s).
Proof.
  intros Ha Hr Hk Hx [Hregs S1] Hf. pose proof (rep_same fuel a M s1 Hr S1) as R1. unfold irq_handler.
  intros (n & s2 & [-> _]%kload_inv & H)%kbind_inv. apply kbind_inv in H as (handled & s2 & H2 & H).
  assert (S2 : same nothing s1 s2).
  { destruct (n =? IRQ_PF); [by apply Hf in H2|]. injection H2 as _ <-. apply same_refl. }
  pose proof (rep_same fuel a _ s2 R1 S2) as R2. cbn [m_s m_kont m_at] in R2. clear R1 H2.
  assert (Hdone : forall s', rep fuel a (Machine s' (m_kont M) (m_at M)) -> rep fuel a (put KTick x M (Done tt) s')).
  { intros s' R. cbn [put]. destruct Hx as [->|[i ->]].
    - destruct (at_task fuel a M Ha Hr KUser Hk (or_introl eq_refl)) as (i & Hn & Hi & _ & _ & _ & Hki).
      apply (rep_user fuel a (Machine s' (m_kont M) (m_at M)) i); [done|done|lia|by eapply kont_user].
    - destruct (at_sched fuel a M Ha Hr (KLook i) Hk (or_introl (ex_intro _ i eq_refl))) as (Hn & Hat & Hi & _).
      by apply (rep_look fuel a (Machine s' (m_kont M) (m_at M))). }
  destruct handled; [injection H as <- <-; exists a; split; [constructor|by apply Hdone]|].
  destruct (n =? IRQ_TIMER); [|destruct (n =? IRQ_SPURIOUS)].
  - apply kbind_inv in H as ([] & s3 & H3 & H). pose proof (eoi_same _ _ (rp_layout _ _ _ R2) H3) as S3.
    pose proof (rep_same fuel a _ s3 R2 S3) as R3. cbn [m_s m_kont m_at] in R3. clear R2 H3.
    destruct Hx as [->|[i ->]].
    + destruct (at_task fuel a M Ha Hr KUser Hk (or_introl eq_refl)) as (i & Hn & Hi & _ & _ & _ & Hki%kont_user).
      exists (ticks a i). split.
      * eapply (reaches_step _ _ Tick); [constructor|]. unfold happens. by rewrite Hn, (bool_decide_eq_true_2 _ Hki).
      * by apply (rep_tick fuel a _ i r s R3).
    + destruct (at_sched fuel a M Ha Hr (KLook i) Hk (or_introl (ex_intro _ i eq_refl))) as (Hn & Hat & Hi & _).
      pose proof (rp_running _ _ _ R3) as Hc. rewrite Hn in Hc. cbn [m_s] in Hc.
      rewrite sched_timer_tick_ok in H by (rewrite ?Hc; try done; apply (lo_context _ (rp_layout _ _ _ R3))).
      rewrite Hc in H. injection H as <- <-. exists (at_clock (u64 (clock a + 1)) a). split.
      * eapply (reaches_step _ _ Tick); [constructor|]. unfold happens. by rewrite Hn.
      * cbn [put]. apply (rep_look fuel _ (Machine (ticked s3) (m_kont M) (m_at M))); [|done|done].
        by apply (rep_ticked fuel a _ R3).
  - apply kbind_inv in H as ([] & s3 & H3 & H). injection H as <- <-. exists a. split; [constructor|].
    apply Hdone. apply (rep_same fuel a _ s3 R2). by apply eoi_same; [apply R2|].
  - by apply kbind_inv in H as (? & ? & _ & H).
Qed.

(** ** System calls *)

(** The rest of a call, with its answer as an unsigned number. *)
Definition call_rest (k : rest Z) : rest Z :=
  fun s => match k s with Ret (r, s) => rcont (fun v => rret (u64 v)) r s | Halt h => Halt h end.

Lemma rbind_run {A B} (X Y : R A) (f : A -> R B) s : X s = Y s -> rbind X f s = rbind Y f s.
Proof. intros H. unfold rbind, kbind. by rewrite H. Qed.

Section Calls.
Context (fuel : nat) (sym : symbols) (a : sys) (M : machine) (i : Z) (regs : Z).
Hypothesis Ha : life_inv_but L a.
Hypothesis Hr : rep fuel a M.
Hypothesis Hn : running a = Some i.
Hypothesis Hpl : places a i = PUser.
Hypothesis Hregs : regs_ok regs.
Let s := m_s M.
Let t := slot_of (tasks s) i.

Lemma call_range : 1 <= i < MAX_TASK_COUNT.
Proof. by destruct (li_running _ a Ha i Hn). Qed.

Lemma call_current : _current s = t.
Proof. pose proof (rp_running _ _ _ Hr) as H. by rewrite Hn in H. Qed.

Lemma call_task : task_ok t.
Proof. apply slot_task_ok; [apply Hr|pose proof call_range; lia]. Qed.

Lemma call_at : m_at M = t.
Proof. pose proof (rp_at _ _ _ Hr) as H. by rewrite Hn in H. Qed.

Lemma call_nonnull : t <> NULL.
Proof. apply (task_slot_nonnull s (lo_table _ (rp_layout _ _ _ Hr))). pose proof call_range. lia. Qed.

(** The memory [m] after the stores of a call, then a hand-over. *)
Lemma rep_call_leave f x m k :
  table_is m (tasks s) (procs (on_proc i f a)) -> p_state (f (procs a i)) <> Free ->
  kont_is fuel (tasks s) x k ->
  rep fuel (run_as None (go i x (on_proc i f a)))
    (Machine (handed_back (set_kmem s m)) (<[t := k]> (m_kont M)) (sched_context s)).
Proof.
  intros Hm Hf Hk. destruct (li_running _ a Ha i Hn) as [Hi Hst]. 
  assert (R : rep fuel (on_proc i f a) (Machine (set_kmem s m) (m_kont M) (m_at M))).
  { apply rep_entry; try done. by rewrite Hst. }
  refine (rep_handed fuel _ (run_as None (go i x (on_proc i f a))) _ i k R Hn _ eq_refl eq_refl eq_refl _ _); [lia| |].
  - intros j Hj. cbn [run_as places]. by rewrite go_ne.
  - cbn [run_as places]. by rewrite go_eq.
Qed.

Lemma sim_sleep r s' :
  rbind (sys_sleep regs) (fun v => rret (u64 v)) s = Ret (r, s') ->
  rep fuel (run_as None (go i PSleep (on_proc i (fun p => with_state Sleeping
    (with_wake (u64 (clock a + ld64 (kmem s) (regs + 72) / SCHED_TIMER_PERIOD)) p)) a))) (put KCall KUser M r s').
Proof.
  pose proof call_range as Hi. pose proof (rp_table _ _ _ Hr) as Htab. fold s in Htab.
  destruct (sys_sleep_ok s t regs Hregs call_task call_current call_nonnull (lo_context _ (rp_layout _ _ _ Hr))) as (k & H & Hk).
  rewrite (do_call_ok _ _ _ _ H). set (w := u64 _) in *. intros [= <- <-]. cbn [put].
  rewrite <- (rp_clock _ _ _ Hr). fold s w.
  apply (rep_call_leave (fun p => with_state Sleeping (with_wake w p))).
  - cbn [on_proc procs]. apply (table_again _ _ _ _ _ (with_wake w (procs a i))).
    assert (Htab1 : table_is (st64 (kmem s) (t + 64) w) (tasks s) (<[i := with_wake w (procs a i)]> (procs a))).
    { apply table_store; [done|lia|done|]. apply entry_wake; [apply u64_range|apply Htab; lia]. }
    apply table_store; [done|lia|done|]. pose proof (Htab1 i ltac:(lia)) as He. rewrite fn_lookup_insert in He.
    apply (entry_state _ _ _ _ Sleeping); [|done]. intros _. apply (en_pid _ _ _ _ He).
    destruct (li_running _ a Ha i Hn) as [_ Hst]. unfold st_of in Hst. cbn [with_wake p_state]. congruence.
  - done.
  - eexists. split; [reflexivity|]. intros s2. cbn beta. by rewrite Hk.
Qed.
Lemma wake_parent_after f :
  (forall p, p_parent (f p) = p_parent p) -> p_parent (procs a i) <> i ->
  wake_parent i (on_proc i f a) =
    if waits_for a (p_parent (procs a i)) i then on_proc (p_parent (procs a i)) (with_state Runnable) (on_proc i f a)
    else on_proc i f a.
Proof.
  intros Hf Hq. unfold wake_parent. rewrite on_proc_eq, Hf. unfold waits_for, st_of. by rewrite on_proc_ne.
Qed.

Lemma sim_exit r s' :
  rbind (sys_exit regs) (fun v => rret (u64 v)) s = Ret (r, s') ->
  rep fuel (exited a i (u32 (ld64 (kmem s) (regs + 72)))) (put KCall KUser M r s').
Proof.
  pose proof call_range as Hi. pose proof (rp_table _ _ _ Hr) as Htab. fold s in Htab.
  pose proof (li_parent _ a Ha i ltac:(lia)) as Hq. pose proof (li_range _ a Ha i) as Hqr.
  set (q := p_parent (procs a i)) in *. destruct (li_running _ a Ha i Hn) as [_ Hst].
  pose proof (Htab i ltac:(lia)) as Hei. pose proof (Htab q Hqr) as Heq.
  destruct (sys_exit_ok s q i regs (lo_table _ (rp_layout _ _ _ Hr)) Hqr ltac:(lia) Hq Hregs call_current
              (en_parent _ _ _ _ Hei) (lo_context _ (rp_layout _ _ _ Hr))) as (k & H & Hk). rewrite !task_slot_of in H.
  rewrite (do_call_ok _ _ _ _ H). intros [= <- <-]. cbn [put].
  set (x := ld64 (kmem s) (regs + 72)) in *.
  rewrite (en_wait _ _ _ _ Heq), (en_pid _ _ _ _ Hei) by (unfold st_of in Hst; congruence).
  fold t. set (m1 := st 4 _ (t + 40) _).
  change TASK_WAITING with (state_code Waiting). rewrite (state_is _ _ _ _ Waiting Heq). fold (st_of a q). fold (waits_for a q i).
  set (f := fun p => with_state Zombie (with_exit (u32 x) p)).
  assert (R1 : rep fuel (on_proc i f a) (Machine (set_kmem s m1) (m_kont M) (m_at M))).
  { apply rep_entry; try done; [|by rewrite Hst]. rewrite kmem_set. cbn [on_proc procs].
    apply (table_again _ _ _ _ _ (with_exit (u32 x) (procs a i))).
    assert (Htab1 : table_is (st 4 (kmem s) (t + 88) x) (tasks s) (<[i := with_exit (u32 x) (procs a i)]> (procs a))).
    { apply table_store; [done|lia|done|]. apply entry_exit. done. }
    apply table_store; [done|lia|done|]. pose proof (Htab1 i ltac:(lia)) as He. rewrite fn_lookup_insert in He.
    apply (entry_state _ _ _ _ Zombie); [|done]. intros _. apply (en_pid _ _ _ _ He).
    unfold st_of in Hst. cbn [with_exit p_state]. congruence. }
  set (m2 := if waits_for a q i then _ else m1).
  assert (R2 : rep fuel (wake_parent i (on_proc i f a)) (Machine (set_kmem s m2) (m_kont M) (m_at M))).
  { rewrite (wake_parent_after f) by done. fold q. unfold m2. destruct (waits_for a q i) eqn:Hw; [|done].
    apply (rep_state fuel _ _ q Runnable R1 Hqr). unfold st_of. rewrite on_proc_ne by done.
    apply andb_prop in Hw as [Hw%bool_decide_eq_true_1 _]. unfold st_of in Hw. congruence. }
  assert (En : running (wake_parent i (on_proc i f a)) = Some i) by (unfold wake_parent; destruct (waits_for (on_proc i f a) _ _); exact Hn).
  assert (Epl : places (wake_parent i (on_proc i f a)) = places a) by (unfold wake_parent; by destruct (waits_for (on_proc i f a) _ _)).
  refine (rep_handed fuel _ (exited a i (u32 x)) _ i _ R2 En _ eq_refl eq_refl eq_refl _ _); [lia| |].
  - intros j Hj. unfold exited. cbn [run_as places]. by rewrite go_ne.
  - unfold exited. cbn [run_as places]. rewrite go_eq. by eexists.
Qed.

(** Waiting for someone else's child is refused. *)
Lemma sim_wait r s' (c : Z) :
  ld64 (kmem s) (regs + 72) = c -> 0 <= c < MAX_TASK_COUNT -> store_contained fuel s ->
  rbind (sys_wait fuel regs) (fun v => rret (u64 v)) s = Ret (r, s') ->
  exists accepted a', happens (CallWait c accepted) a = Some a' /\ rep fuel a' (put KCall KUser M r s').
Proof.
  intros Hc Hcr Hstore. pose proof call_range as Hi. pose proof (rp_table _ _ _ Hr) as Htab. fold s in Htab.
  pose proof (lo_table _ (rp_layout _ _ _ Hr)) as Ht. fold s in Ht. destruct (li_running _ a Ha i Hn) as [_ Hst].
  pose proof (Htab i ltac:(lia)) as Hei. pose proof (Htab c Hcr) as Hec.
  assert (Hpid : pid_of (kmem s) t = i) by (apply (en_pid _ _ _ _ Hei); unfold st_of in Hst; congruence).
  unfold happens. rewrite Hn, (bool_decide_eq_true_2 _ Hpl).
  assert (in_table c = true) as -> by (unfold in_table; apply andb_true_intro; split; [apply Z.leb_le|apply Z.ltb_lt]; lia).
  cbn [negb]. destruct (Z.eqb_spec (p_parent (procs a c)) i) as [Hp|Hp]; cbn [negb].
  - assert (Hpp : ppid_of (kmem s) (slot_of (tasks s) c) = pid_of (kmem s) t) by (rewrite (en_parent _ _ _ _ Hec); congruence).
    assert (Hne : c <> i) by (intros ->; by apply (li_parent _ a Ha i ltac:(lia))).
    case_bool_decide as Hz.
    + assert (Hzs : state_of (kmem s) (slot_of (tasks s) c) = TASK_ZOMBIE).
      { rewrite (en_state _ _ _ _ Hec). unfold st_of in Hz. by rewrite Hz. }
      rewrite (rbind_run _ _ _ _ (sys_wait_zombie fuel s i c regs Ht ltac:(lia) Hcr Hregs call_current Hc Hpp Hzs)).
      rewrite task_slot_of. intros H.
      destruct (rep_finish fuel a M regs i c r s' Hr Hn ltac:(lia) Hcr Hz Hregs Hstore H) as (acc & v & -> & R).
      exists acc. eexists. split; [done|]. cbn [put].
      apply (rep_user fuel _ (Machine s' (m_kont M) (m_at M)) i); [done| |lia|]; unfold reaped; by destruct acc.
    + assert (Hzs : state_of (kmem s) (slot_of (tasks s) c) <> TASK_ZOMBIE).
      { rewrite (en_state _ _ _ _ Hec). unfold st_of in Hz. by destruct (p_state (procs a c)). }
      destruct (sys_wait_blocks fuel s i c regs Ht ltac:(lia) Hcr Hregs call_current Hc Hpp Hzs
                  (lo_context _ (rp_layout _ _ _ Hr))) as (k & H & Hk). rewrite !task_slot_of in H, Hk.
      rewrite (do_call_ok _ _ _ _ H). intros [= <- <-]. exists false. eexists. split; [done|]. cbn [put]. fold t.
      set (f := fun p => with_wait c (with_state Waiting p)).
      apply (rep_call_leave f (PWait c)); [|done|].
      * cbn [on_proc procs]. apply (table_again _ _ _ _ _ (with_state Waiting (procs a i))).
        assert (Htab1 : table_is (st 4 (kmem s) (t + 40) TASK_WAITING) (tasks s) (<[i := with_state Waiting (procs a i)]> (procs a))).
        { apply table_store; [done|lia|done|]. apply (entry_state _ _ _ _ Waiting); [|done]. by intros _. }
        apply table_store; [done|lia|done|]. pose proof (Htab1 i ltac:(lia)) as He. rewrite fn_lookup_insert in He.
        apply entry_wait; [|done]. unfold MAX_TASK_COUNT in Hcr. change (Z.shiftl 1 16) with 65536 in Hcr. lia.
      * eexists _, regs. split; [reflexivity|]. split; [done|]. split; [done|]. intros s2. cbn beta. rewrite Hk.
        destruct (_ =? TASK_ZOMBIE); [|done]. unfold rbind, kbind. by destruct (wait_finish _ _ _ _ _) as [[]|].
  - assert (Hpp : ppid_of (kmem s) (slot_of (tasks s) c) <> pid_of (kmem s) t) by (rewrite (en_parent _ _ _ _ Hec); congruence).
    rewrite (do_call_ok _ _ _ _ (sys_wait_not_child fuel s i c regs Ht ltac:(lia) Hcr Hregs call_current Hc Hpp)).
    intros [= <- <-]. exists false, a. split; [done|]. by apply (rep_user fuel a M i); [done|done|lia|].
Qed.
End Calls.

(** ** Fork *)

Lemma clone_null_faults fuel src s : exists h, in_vm (vmem_clone fuel (task_vmem NULL) src) s = Halt h.
Proof.
  unfold in_vm, klift. cut (exists h, vmem_clone fuel (task_vmem NULL) src (k_vm s) = Halt h); [intros [h ->]; by eexists|].
  unfold vmem_clone, vmem_init. unfold kbind at 1 2. destruct (in_fa frame_alloc (k_vm s)) as [[p v]|h]; [|by eexists].
  eexists. by apply kbind_Halt.
Qed.

Lemma rep_same_child fuel a M s j :
  rep fuel a M -> same (owned_fields (slot_of (tasks (m_s M)) j)) (m_s M) s -> rep fuel a (Machine s (m_kont M) (m_at M)).
Proof.
  intros [L1 L2 L3 L4 L5 L6 L7] S. pose proof S as [E1 E2 E3 E4 E5 E6 E7 E8]. split; cbn [m_s m_kont m_at].
  - by eapply laid_out_same.
  - by eapply table_same_child.
  - by rewrite E2.
  - by rewrite E1, E3.
  - by rewrite E1, E4.
  - by rewrite E1, E4.
  - by rewrite E1.
Qed.

(** Memory with the same entries. *)
Lemma rep_mem fuel a M m :
  rep fuel a M -> table_is m (tasks (m_s M)) (procs a) -> rep fuel a (Machine (set_kmem (m_s M) m) (m_kont M) (m_at M)).
Proof.
  intros [L1 L2 L3 L4 L5 L6 L7] Hm. split; try done. apply (laid_out_at (m_s M)); [repeat split|done].
Qed.

Lemma table_keep m base f i : table_is m base (<[i := f i]> f) -> table_is m base f.
Proof.
  intros H j Hj. specialize (H j Hj). destruct (decide (i = j)) as [<-|Hne];
    [by rewrite fn_lookup_insert in H|by rewrite fn_lookup_insert_ne in H].
Qed.

(** The number in an entry. *)
Lemma same_pid s s' i j :
  same (owned_fields (slot_of (tasks s) j)) s s' -> 0 <= i < MAX_TASK_COUNT ->
  pid_of (kmem s') (slot_of (tasks s) i) = pid_of (kmem s) (slot_of (tasks s) i).
Proof.
  intros S Hi. apply (ld_agree 8 _ _ _ _ (sm_mem _ _ _ S)). intros x Hx. split.
  - apply (in_tasks_entry s i x Hi). unfold in_range, sizeof_task in *. lia.
  - apply (owned_fields_apart (tasks s) j i). left. unfold in_range in *. lia.
Qed.

(** The table has a least free entry as the search finds it. *)
Lemma least_free_of a m base j :
  table_is m base (procs a) -> 1 <= j < MAX_TASK_COUNT -> state_of m (slot_of base j) = TASK_NOT_ALLOCATED ->
  (forall k, 1 <= k < j -> state_of m (slot_of base k) <> TASK_NOT_ALLOCATED) -> least_free a j = true.
Proof.
  intros Ht Hj Hs Hk. unfold least_free, is_free.
  assert (E : forall k, 0 <= k < MAX_TASK_COUNT -> (state_of m (slot_of base k) =? TASK_NOT_ALLOCATED) = bool_decide (st_of a k = Free)).
  { intros k Hkr. change TASK_NOT_ALLOCATED with (state_code Free). by apply (state_is _ _ k _ Free), Ht. }
  rewrite (proj2 (Z.leb_le _ _)), (proj2 (Z.ltb_lt _ _)) by lia. rewrite <- E, Hs by lia. cbn [andb Z.eqb].
  apply forallb_forall. intros k Hkin. apply list_elem_of_In, elem_of_seqZ in Hkin. rewrite <- E by lia.
  apply negb_true_iff, Z.eqb_neq, Hk. lia.
Qed.

#[local] Transparent u64.
Lemma s64_u64_int r : int_range r -> s64 (u64 r) = r.
Proof. unfold int_range, s64, u64. intros H. Z.to_euclidean_division_equations. lia. Qed.
#[local] Opaque u64.

Section Fork.
Context (fuel : nat) (sym : symbols) (a : sys) (M : machine) (i : Z) (regs : Z).
Hypothesis Ha : life_inv_but L a.
Hypothesis Hr : rep fuel a M.
Hypothesis Hn : running a = Some i.
Hypothesis Hpl : places a i = PUser.

(** The child's entry after a fork. *)
Definition as_child (i : Z) (p : proc) : proc := with_state Runnable (with_parent i p).

(** The last stores of a fork. *)
Lemma fork_entry M' j creg :
  rep fuel a M' -> 1 <= j < MAX_TASK_COUNT -> st_of a j = Free -> pid_of (kmem (m_s M')) (slot_of (tasks (m_s M')) j) = j ->
  regs_ok creg -> apart creg sizeof_arch_regs (tasks (m_s M')) (sizeof_task * (MAX_TASK_COUNT + 1)) ->
  let t := slot_of (tasks (m_s M')) j in
  exists s', (kstore 8 (task_ppid t) i ;; set_state t TASK_RUNNABLE ;; kstore 8 (regs_rax creg) 0 ;;
              let! pid := kload 8 (task_pid t) in rret pid)%K (m_s M') = Ret (Done j, s') /\
    tasks s' = tasks (m_s M') /\ sched_context s' = sched_context (m_s M') /\
    laid_out s' /\ sched_timer s' = sched_timer (m_s M') /\ _current s' = _current (m_s M') /\
    table_is (kmem s') (tasks (m_s M')) (<[j := as_child i (procs a j)]> (procs a)).
Proof.
  intros R Hj Hf Hpid Hc Hap t. set (s := m_s M') in *. pose proof (lo_table _ (rp_layout _ _ _ R)) as Ht. fold s in Ht.
  pose proof (slot_task_ok s j Ht ltac:(lia)) as Hto. fold t in Hto. pose proof (rp_table _ _ _ R) as Htab. fold s in Htab.
  destruct (li_running _ a Ha i Hn) as [Hi _]. unfold MAX_TASK_COUNT in Hi. change (Z.shiftl 1 16) with 65536 in Hi.
  rewrite (kbind_Ret _ _ _ _ _ (store_ppid_ok t s Hto _)). set (s1 := set_kmem s _).
  rewrite (kbind_Ret _ _ _ _ _ (set_state_ok t s1 Hto _)). set (s2 := set_kmem s1 _).
  destruct (reg_field creg 112 Hc ltac:(done) ltac:(done)) as [E K].
  assert (Hst : kstore 8 (regs_rax creg) 0 s2 = Ret (tt, set_kmem s2 (st 8 (kmem s2) (creg + 112) 0))).
  { unfold regs_rax. rewrite E. by apply kstore_ok. }
  rewrite (kbind_Ret _ _ _ _ _ Hst). set (s3 := set_kmem s2 _). rewrite (kbind_Ret _ _ _ _ _ (load_pid_ok t s3 Hto)).
  assert (T1 : table_is (kmem s1) (tasks s) (<[j := with_parent i (procs a j)]> (procs a))).
  { apply table_store; [done|lia|done|]. apply entry_parent; [lia|apply Htab; lia]. }
  assert (P1 : pid_of (kmem s1) t = j) by (rewrite <- Hpid; unfold s1; rewrite kmem_set; by field_simp).
  assert (T2 : table_is (kmem s2) (tasks s) (<[j := as_child i (procs a j)]> (procs a))).
  { apply (table_again _ _ _ _ _ (with_parent i (procs a j))). apply table_store; [done|lia|done|].
    apply (entry_state _ _ _ _ Runnable); [done|]. pose proof (T1 j ltac:(lia)) as He. by rewrite fn_lookup_insert in He. }
  assert (T3 : table_is (kmem s3) (tasks s) (<[j := as_child i (procs a j)]> (procs a))).
  { intros k Hk. eapply entry_is_agree; [|apply T2, Hk]. intros x Hx. apply (st_agree 8 (kmem s2)).
    unfold in_range, apart, slot_of, sizeof_task, sizeof_arch_regs in *. lia. }
  assert (P3 : pid_of (kmem s3) t = j).
  { apply (en_pid _ _ _ (as_child i (procs a j))); [|done]. pose proof (T3 j ltac:(lia)) as He. by rewrite fn_lookup_insert in He. }
  rewrite P3. exists s3. split_and!; try done. apply (laid_out_at s); [repeat split|apply R].
Qed.

(** The child starts in its program. *)
Lemma rep_forked M' s' j :
  rep fuel a M' -> m_kont M' = m_kont M -> m_at M' = m_at M -> 1 <= j < MAX_TASK_COUNT -> st_of a j = Free ->
  tasks s' = tasks (m_s M') -> sched_context s' = sched_context (m_s M') ->
  laid_out s' -> sched_timer s' = sched_timer (m_s M') -> _current s' = _current (m_s M') ->
  table_is (kmem s') (tasks (m_s M')) (<[j := as_child i (procs a j)]> (procs a)) ->
  rep fuel (go j PUser (on_proc j (as_child i) a))
    (Machine s' (<[task_at s' j := KUser]> (<[m_at M := KUser]> (m_kont M))) (m_at M)).
Proof.
  intros R Ek Eat Hj Hf Et Ectx HL Eti Ec Htab. pose proof R as [L1 L2 L3 L4 L5 L6 L7]. rewrite Hn in *.
  destruct (li_running _ a Ha i Hn) as [Hi Hst]. assert (Hne : i <> j) by congruence.
  rewrite task_slot_at by (by apply HL || lia). rewrite task_slot_of. rewrite Et. rewrite <- Ek, <- Eat.
  rewrite <- Et in Htab. split; cbn [m_s m_kont m_at go on_proc running procs clock places]; rewrite ?Et, ?Ectx, ?Hn; try done.
  - by rewrite Et in Htab.
  - by rewrite Eti.
  - by rewrite Ec.
  - rewrite (kont_task fuel a M' R) by lia. rewrite L5, (kont_task fuel a M' R) by lia. done.
  - intros k Hk Hs. destruct (decide (j = k)) as [<-|Hjk].
    + rewrite !fn_lookup_insert. by left.
    + rewrite kont_other by done. rewrite L5. unfold st_of in Hs. cbn [go procs] in Hs. rewrite on_proc_ne in Hs by done.
      destruct (decide (i = k)) as [<-|Hik].
      * rewrite fn_lookup_insert, fn_lookup_insert_ne, Hpl by done. by left.
      * rewrite kont_other, fn_lookup_insert_ne by done. by apply L7.
Qed.

#[local] Opaque sched_allocate_task vmem_clone arch_thread_clone_current.

Lemma sim_fork r s' :
  fork_contained fuel sym (m_s M) -> rbind (sys_fork fuel sym regs) (fun v => rret (u64 v)) (m_s M) = Ret (r, s') ->
  exists child ok a', happens (CallFork child ok) a = Some a' /\ rep fuel a' (forked SYS_FORK r (put KCall KUser M r s')).
Proof.
  intros Hc (r1 & s1 & H & Hres)%do_call_inv. unfold sys_fork in H. apply kbind_inv in H as (child & sa & Hal & H).
  rewrite kget_bind in H. apply kbind_inv in H as (rc & sb & Hcl & H). set (s := m_s M) in *.
  destruct (li_running _ a Ha i Hn) as [Hi Hst]. pose proof (rp_table _ _ _ Hr) as Htab. fold s in Htab.
  pose proof (lo_table _ (rp_layout _ _ _ Hr)) as Ht. fold s in Ht.
  destruct (sched_allocate_task_ok s Ht) as [(j & Hj & Hjs & Hjl & Ha1)|[_ Ha1]]; rewrite Ha1 in Hal; injection Hal as <- <-.
  2:{ destruct (clone_null_faults fuel (task_vmem (_current s)) s) as [h Hh]. by rewrite Hh in Hcl. }
  destruct (Hc _ _ Ha1 rc sb Hcl) as (S2 & Ir & Hc3). set (sa := set_kmem s _) in *. rewrite task_slot_of in *.
  assert (Hlf : least_free a j = true) by (apply (least_free_of a (kmem s) (tasks s)); done).
  assert (Hf : st_of a j = Free).
  { unfold least_free, is_free in Hlf. by apply andb_prop in Hlf as [[_ ?%bool_decide_eq_true_1]%andb_prop _]. }
  assert (R1 : rep fuel a (Machine sa (m_kont M) (m_at M))).
  { apply (rep_mem fuel a M); [done|]. apply (table_keep _ _ _ j). apply table_store; [done|lia|done|].
    unfold MAX_TASK_COUNT in Hj. change (Z.shiftl 1 16) with 65536 in Hj. apply entry_pid; [lia|].
    apply Htab. unfold MAX_TASK_COUNT. change (Z.shiftl 1 16) with 65536. lia. }
  pose proof (rep_same_child fuel a _ sb j R1 S2) as R2. cbn [m_s m_kont m_at] in R2.
  exists j. unfold happens. rewrite Hn, (bool_decide_eq_true_2 _ Hpl), Hlf.
  assert (Hfail : forall v s2, int_range v -> v < 0 -> rep fuel a (Machine s2 (m_kont M) (m_at M)) ->
            rep fuel a (forked SYS_FORK (Done (u64 v)) (put KCall KUser M (Done (u64 v)) s2))).
  { intros v s2 Hv Hv0 R. cbn [put forked m_s]. rewrite s64_u64_int by done. rewrite (proj2 (Z.leb_gt 0 v)) by lia.
    rewrite andb_false_r. apply (rep_user fuel a (Machine s2 (m_kont M) (m_at M)) i); [done|done|lia|done]. }
  destruct (Z.ltb_spec rc 0) as [Hrc|Hrc].
  { injection H as <- <-. injection Hres as <- <-. exists false, a. split; [done|]. by apply Hfail. }
  apply kbind_inv in H as ([r' creg] & sc & Hth & H). destruct (Hc3 r' creg sc Hth) as (S3 & Ir' & Hreg).
  assert (E2 : tasks sb = tasks s) by apply (sm_tasks _ _ _ S2). assert (E3 : tasks sc = tasks s) by (rewrite <- E2; apply (sm_tasks _ _ _ S3)).
  assert (R3 : rep fuel a (Machine sc (m_kont M) (m_at M))).
  { apply (rep_same_child fuel a _ sc j R2). cbn [m_s]. by rewrite E2. }
  destruct (Z.ltb_spec r' 0) as [Hr'|Hr'].
  { injection H as <- <-. injection Hres as <- <-. exists false, a. split; [done|]. by apply Hfail. }
  destruct (Hreg Hr') as [Hcr Hap]. rewrite kget_bind in H. pose proof (rp_running _ _ _ R3) as Hcur. rewrite Hn in Hcur. cbn [m_s] in Hcur.
  rewrite Hcur in H. pose proof (lo_table _ (rp_layout _ _ _ R3)) as Ht3. cbn [m_s] in Ht3.
  rewrite (kbind_Ret _ _ _ _ _ (load_pid_ok _ sc (slot_task_ok sc i Ht3 ltac:(lia)))) in H.
  pose proof (en_pid _ _ _ _ (rp_table _ _ _ R3 i ltac:(lia)) ltac:(unfold st_of in Hst; congruence)) as Hip. cbn [m_s] in Hip.
  rewrite Hip in H.
  assert (Hpid : pid_of (kmem sc) (slot_of (tasks sc) j) = j).
  { assert (P3 : pid_of (kmem sc) (slot_of (tasks sb) j) = pid_of (kmem sb) (slot_of (tasks sb) j)).
    { apply (same_pid sb sc j j); [by rewrite E2|lia]. }
    assert (P2 : pid_of (kmem sb) (slot_of (tasks s) j) = pid_of (kmem sa) (slot_of (tasks s) j)).
    { apply (same_pid sa sb j j); [exact S2|lia]. }
    rewrite E2 in P3. rewrite E3, P3, P2. unfold sa. rewrite kmem_set. unfold pid_of. rewrite ld64_st64_same. apply u64_small.
    unfold MAX_TASK_COUNT in Hj. change (Z.shiftl 1 16) with 65536 in Hj. lia. }
  destruct (fork_entry _ j creg R3 Hj Hf Hpid Hcr ltac:(cbn [m_s]; by rewrite E3)) as (sd & Hd & D1 & D2 & D3 & D4 & D5 & D6). cbn [m_s] in *.
  rewrite <- E3 in H. rewrite Hd in H. injection H as <- <-. injection Hres as <- <-.
  exists true. eexists. split; [done|]. cbn [put forked m_s m_kont m_at].
  unfold MAX_TASK_COUNT in Hj. change (Z.shiftl 1 16) with 65536 in Hj.
  rewrite s64_u64_int by (unfold int_range; lia). rewrite (proj2 (Z.leb_le 0 j)) by lia. rewrite u64_small by lia.
  cbn [andb Z.eqb SYS_FORK]. 
  refine (rep_forked (Machine sc (m_kont M) (m_at M)) sd j R3 eq_refl eq_refl _ Hf D1 D2 D3 D4 D5 D6).
  unfold MAX_TASK_COUNT. change (Z.shiftl 1 16) with 65536. lia.
Qed.
End Fork.

(** ** Every step *)

(** Calls that change nothing. *)
Lemma sim_other fuel a M i v s :
  rep fuel a M -> running a = Some i -> 1 <= i < MAX_TASK_COUNT -> places a i = PUser -> s = m_s M ->
  rep fuel a (put KCall KUser M (Done v) s).
Proof. intros Hr Hn Hi Hp ->. apply (rep_user fuel a M i); [done|done|lia|done]. Qed.

Lemma sim_call fuel sym a M sysno regs s1 r s :
  life_inv_but L a -> rep fuel a M -> m_kont M (m_at M) = KUser -> entered regs (m_s M) s1 -> 0 <= sysno ->
  (sysno = SYS_FORK -> fork_contained fuel sym s1) -> (sysno = SYS_WAIT -> store_contained fuel s1) ->
  (sysno = SYS_WAIT -> 0 <= ld64 (kmem s1) (regs + 72) < MAX_TASK_COUNT) ->
  do_syscall fuel sym sysno regs s1 = Ret (r, s) ->
  exists a', reaches a a' /\ rep fuel a' (forked sysno r (put KCall KUser M r s)).
Proof.
  intros Ha Hr0 Hk [Hregs S1] Hs0 Hfork Hstore Harg Hrun.
  destruct (at_task fuel a M Ha Hr0 KUser Hk (or_introl eq_refl)) as (i & Hn & Hi & Hst & _ & _ & Hp%kont_user).
  pose proof (rep_same fuel a M s1 Hr0 S1) as Hr. set (M1 := Machine s1 (m_kont M) (m_at M)) in *.
  assert (Hput : put KCall KUser M r s = put KCall KUser M1 r s) by done. rewrite Hput. clear Hput.
  assert (Hone : forall e b, happens e a = Some b -> reaches a b).
  { intros e b He. eapply reaches_step; [constructor|exact He]. }
  assert (Hnf : sysno <> SYS_FORK -> forall N, forked sysno r N = N).
  { intros Hne N. unfold forked. destruct r; [|done]. by rewrite (proj2 (Z.eqb_neq _ _) Hne). }
  unfold do_syscall in Hrun. destruct (Z.leb_spec SYS_MAX sysno) as [Hmax|Hmax].
  { injection Hrun as <- <-. exists a. split; [constructor|].
    rewrite Hnf by (unfold SYS_MAX, SYS_FORK in *; lia). by apply (sim_other fuel a M1 i). }
  destruct (Z.eqb_spec sysno SYS_SLEEP) as [->|N0].
  { pose proof (sim_sleep fuel a M1 i regs Ha Hr Hn Hregs r s Hrun) as R. eexists. rewrite Hnf by done. split; [|exact R].
    apply (Hone (CallSleep (ld64 (kmem s1) (regs + 72)))). unfold happens. by rewrite Hn, (bool_decide_eq_true_2 _ Hp). }
  destruct (Z.eqb_spec sysno SYS_FORK) as [->|N1].
  { destruct (sim_fork fuel sym a M1 i regs Ha Hr Hn Hp r s (Hfork eq_refl) Hrun) as (child & ok & a' & H & R).
    exists a'. split; [by eapply Hone|exact R]. }
  rewrite Hnf by done. destruct (Z.eqb_spec sysno SYS_GETPID) as [->|N2].
  { apply do_call_inv in Hrun as (r1 & s2 & H & Hres). unfold sys_getpid in H. rewrite kget_bind in H.
    apply kbind_inv in H as (pid & s3 & [-> _]%kload_inv & H). injection H as <- <-. injection Hres as <- <-.
    exists a. split; [constructor|]. by apply (sim_other fuel a M1 i). }
  destruct (Z.eqb_spec sysno SYS_EXIT) as [->|N3].
  { pose proof (sim_exit fuel a M1 i regs Ha Hr Hn Hregs r s Hrun) as R. eexists. split; [|exact R].
    apply (Hone (CallExit (ld64 (kmem s1) (regs + 72)))). unfold happens. by rewrite Hn, (bool_decide_eq_true_2 _ Hp). }
  assert (sysno = SYS_WAIT) as -> by (unfold SYS_WAIT, SYS_MAX, SYS_SLEEP, SYS_FORK, SYS_GETPID, SYS_EXIT in *; lia).
  destruct (sim_wait fuel a M1 i regs Ha Hr Hn Hp Hregs r s _ eq_refl (Harg eq_refl) (Hstore eq_refl) Hrun) as (acc & a' & H & R).
  exists a'. split; [by eapply Hone|exact R].
Qed.

(** Every step of the machine is an event in the life of the tasks, or none. *)
Lemma sim_step fuel sym a M M' :
  life_inv_but L a -> rep fuel a M -> mstep fuel sym M M' -> exists a', reaches a a' /\ rep fuel a' M'.
Proof.
  intros Ha Hr Hs.
  assert (Hone : forall e b, happens e a = Some b -> reaches a b).
  { intros e b He. eapply reaches_step; [constructor|exact He]. }
  destruct Hs as [M i r s H1 H2|M i k r s H1 H2 H3|M n regs s1 r s H1 H2 H3 H4 H5 H6 H7|M k r s H1 H2 H3
                 |M x cr2 ctx s1 r s H1 H2 H3 H4 H5|M k r s H1 H2|M s H1 H2].
  - destruct (sim_visit fuel a M i r s Ha Hr H1 H2) as (a' & He & R). exists a'. split; [by eapply Hone|done].
  - exists a. split; [constructor|by eapply sim_back].
  - by eapply sim_call.
  - destruct (sim_return fuel a M k r s Ha Hr H1 H2 H3) as (acc & a' & He & R). exists a'. split; [by eapply Hone|done].
  - by eapply sim_irq.
  - exists a. split; [constructor|by eapply sim_tock].
  - exists a. split; [constructor|by apply rep_same].
Qed.

Lemma reaches_trans a b c : reaches a b -> reaches b c -> reaches a c.
Proof. intros Hab Hbc. induction Hbc; [done|by eapply reaches_step]. Qed.

Lemma sim_reach fuel sym a M M' :
  life_inv_but L a -> rep fuel a M -> mreach fuel sym M M' -> exists a', reaches a a' /\ life_inv_but L a' /\ rep fuel a' M'.
Proof.
  intros Ha Hr. induction 1 as [|M1 M2 _ (b & Hb & Hbi & Hbr) Hstep]; [exists a; split; [constructor|done]|].
  destruct (sim_step fuel sym b M1 M2 Hbi Hbr Hstep) as (c & Hc & Hcr). exists c.
  split; [by eapply reaches_trans|]. split; [by eapply reaches_life|done].
Qed.
End AnyLost.
