(* ===== verification/Reap.v ===== *)
(** * The end of a task

    The scheduler's [reap] gives back a dying task's address space (Destroy.v)
    and its kernel stack, and reports it. *)

From S2P Require Import Prelude Mem Common DList Buddy Paging FrameAlloc FrameRefine FrameZones FrameSession FrameInit.
From S2P Require Import FrameExample FrameClient Obj ObjSpec Vmem PageTable VmemSpec VmemMap AddrSpace Demand SpaceInit Destroy.
From S2P Require Import Multiboot Fb FbSpec Console Printk PrintkSpec ConsoleSpec Acpi Kst Arch Sched Apic Syscall SchedSpec SyscallSpec.
From S2P Require Import FirstSpace Thread FirstTask Machine MachineSim.

Lemma load_exitcode_ok t s : task_ok t -> kload 4 (task_exitcode t) s = Ret (exitcode_of (kmem s) t, s).
Proof. intros Ht. destruct (task_field t 88 4 Ht) as [E K]; [done..|]. unfold task_exitcode. rewrite E. by apply kload_ok. Qed.

Lemma set_kvm_id s : set_kvm s (k_vm s) = s.
Proof. by destruct s. Qed.

Section Reap.
Context {F : Prop} {ok : fa_state -> list Z -> Prop} `{!FrameContract F ok}.

(** A frame that is not the pool's goes back: the pool is as before. *)
Lemma pool_release fa al P fr U A q B m' :
  pool_in ok (fa, al) P fr U (A ++ q :: B) -> q ∉ P -> ok (set_mem fa m') (A ++ B) ->
  agree (frame_byte (A ++ B)) (fa_mem fa) m' -> pool_in ok (set_mem fa m', al) P fr U (A ++ B).
Proof.
  intros (H0 & [H1 H2 H3 H4] & HPL) Hq Hok Hag. cbn [fst snd] in *.
  assert (HP : forall p, p ∈ P -> p ∈ A ++ B).
  { intros p Hp. specialize (HPL p Hp). rewrite elem_of_app, elem_of_cons in HPL. rewrite elem_of_app.
    destruct HPL as [|[->|]]; [by left|done|by right]. }
  split; [done|]. split; [|done]. split; try done.
  eapply chain_agree; [exact Hag| |exact H2]. intros x b Hx Hb.
  destruct (slot_byte (obj_size al) P H1 x b 8) as (p & Hp & Hpa); [apply H3; set_solver|lia|done|].
  exists p. split; [by apply HP|done].
Qed.

Context (HF : F) (s : kst) (i : Z) (root : Z) (T : tables) (L P fr U : list Z) (head : Z) (ns : list Z) (q : Z) (fuel : nat).
Let t : Z := task_slot s i.
Let G : list Z := owned (kmem s) 4 root ++ [root].

(** A dead task, not in use any more. *)
Record reapable : Prop := {
  rp_laid : laid_out s;
  rp_outside : table_outside s;
  rp_index : 1 <= i < MAX_TASK_COUNT;
  rp_space : space ok (k_vm s) (t + 72) root T L P fr U head ns;
  rp_others : kok (vm_pml4 (sched_vmem s)) 8 = true /\ sched_vmem s <> t + 72;
  rp_screen : forall a, on_screen (con_fb (k_con s)) a -> ~ fa_bytes (vm_fa (k_vm s)) a;
  rp_owned : G ⊆+ L /\ forall p, p ∈ P -> p ∉ G;
  rp_stack : q ∈ L /\ q ∉ G /\ q ∉ P;
  rp_top : ld64 (kmem s) t = q + PAGE_SIZE;
}.

(** Other holders' frames, and memory that is not the allocator's. *)
Definition others (L' : list Z) (a : Z) : Prop :=
  (exists p, p ∈ L' /\ p ∉ P /\ in_range p PAGE_SIZE a) \/ ~ fa_bytes (vm_fa (k_vm s)) a.

(** After the frees. *)
Record freed (s' : kst) (L' U' : list Z) : Prop := {
  fd_frames : G ++ q :: L' ≡ₚ L;
  fd_pool : pool_in ok (vm_fa (k_vm s'), vmem_area_alloc (k_vm s')) P [head] U' L';
  fd_objects : U ≡ₚ head :: ns ++ U';
  fd_vmem : curr_vmem (k_vm s') = sched_vmem s;
}.

Hypothesis Hr : reapable.
Hypothesis Hfuel : (length ns < fuel)%nat.

Lemma reap_entry : task_ok t /\ forall a, in_range t sizeof_task a -> ~ fa_bytes (vm_fa (k_vm s)) a.
Proof.
  pose proof (rp_index Hr). split; [apply slot_ok; [apply (rp_laid Hr)|lia]|].
  intros a. apply (slot_outside s i a (rp_outside Hr)). lia.
Qed.

(** The three calls. *)
Lemma reap_frees : exists v m m' L' U', let al := ObjAlloc head sizeof_vmem_area in
  vmem_switch_to (sched_vmem s) (k_vm s) = Ret (tt, v) /\ vm_fa v = vm_fa (k_vm s) /\
  vmem_destroy fuel (t + 72) v = Ret (tt, set_vo v m al) /\
  arch_thread_destroy t (set_kvm s (set_vo v m al)) = Ret (tt, set_kvm s (set_vo v m' al)) /\
  freed (set_kvm s (set_vo v m' al)) L' U' /\ agree (others L') (kmem s) m' /\
  agree (fun a => ~ fa_bytes (vm_fa (k_vm s)) a) (kmem s) m.
Proof.
  destruct reap_entry as [Hto Hout]. destruct (rp_others Hr) as [Hk Hne]. destruct (rp_owned Hr) as [HGL HGP].
  destruct (rp_stack Hr) as (HqL & HqG & HqP).
  set (v := VmState (vm_fa (k_vm s)) (vmem_area_alloc (k_vm s)) (sched_vmem s) (VIRT_TO_PHYS (ld64 (kmem s) (vm_pml4 (sched_vmem s))))).
  assert (Hsw : vmem_switch_to (sched_vmem s) (k_vm s) = Ret (tt, v)).
  { unfold vmem_switch_to. by rewrite (kbind_Ret _ _ _ _ _ (vload_ok (vm_pml4 (sched_vmem s)) (k_vm s) Hk)). }
  assert (Hs : space ok v (t + 72) root T L P fr U head ns) by (destruct (rp_space Hr) as [[] ?????????]; by split).
  destruct (destroy_ok HF v (t + 72) root T L P fr U head ns fuel Hs Hne Hfuel HGL HGP) as (m & L' & U' & Hrun & HL & Hp & HU & Hag).
  assert (HqL' : q ∈ L').
  { assert (H : q ∈ (owned (vm_mem v) 4 root ++ [root]) ++ L') by (rewrite HL; exact HqL).
    apply elem_of_app in H as [H|H]; [by destruct HqG|done]. }
  apply list_elem_of_split in HqL' as (A & B & ->). pose proof (proj1 Hp) as Hok. cbn [fst] in Hok.
  destruct (fc_free (ok := ok) (set_mem (vm_fa v) m) q A B HF Hok) as (m' & Hfree & Hok' & Hf1 & Hf2).
  assert (Hobj : forall a, object_byte U a -> frame_byte P a) by (intros a; by eapply (space_object_byte _ _ _ _ _ _ _ _ _ _ Hs)).
  assert (Hobf : forall a, object_byte U a -> fa_bytes (vm_fa (k_vm s)) a).
  { intros a Ha. apply (fc_inside (ok := ok) (vm_fa (k_vm s)) L); [apply (vg_ok _ _ _ _ (sp_good _ _ _ _ _ _ _ _ _ _ (rp_space Hr)))|].
    by eapply (object_frame _ _ _ _ _ _ _ _ _ _ Hs). }
  assert (Hag1 : agree (fun a => ~ fa_bytes (vm_fa (k_vm s)) a) (kmem s) m).
  { eapply agree_weaken; [exact Hag|]. intros a Ha. split; [by right|]. by intros Hb%Hobf. }
  destruct (task_field t 0 8 Hto) as [_ K0]; [done..|]. rewrite Z.add_0_r in K0.
  assert (Et : ld64 m t = q + PAGE_SIZE).
  { rewrite <- (rp_top Hr). eapply ld_agree; [exact Hag1|]. intros a Ha. apply Hout. unfold in_range, sizeof_task in *. lia. }
  pose proof (fc_frame (ok := ok) _ _ q (vg_ok _ _ _ _ (sp_good _ _ _ _ _ _ _ _ _ _ Hs)) HqL) as [_ Q1 Q2].
  exists v, m, m', (A ++ B), U'. split; [exact Hsw|]. split; [done|]. split; [exact Hrun|]. split; [|split; [split|split]].
  - unfold arch_thread_destroy, th_kstack_top. set (s3 := set_kvm s _). rewrite bind_kload by exact K0.
    change (ld 8 (kmem s3) t) with (ld64 m t). rewrite Et. replace (q + PAGE_SIZE - PAGE_SIZE) with q by lia.
    rewrite u64_small by (unfold KERNEL_DIRECT_PHYS_MAPPING_START, KERNEL_DIRECT_PHYS_MAPPING_SIZE, PAGE_SIZE in *; lia).
    unfold in_vm, in_fa, klift. change (vm_fa (k_vm s3)) with (set_mem (vm_fa v) m). by rewrite Hfree.
  - unfold G. change (owned (kmem s) 4 root) with (owned (vm_mem v) 4 root). rewrite <- HL. apply Permutation_app_head, Permutation_middle.
  - by apply (pool_release (set_mem (vm_fa v) m) (ObjAlloc head sizeof_vmem_area) P [head] U' A q B m').
  - exact HU.
  - done.
  - assert (HAB : forall p, p ∈ A ++ B -> p ∈ A ++ q :: B).
    { intros p. rewrite !elem_of_app, elem_of_cons. tauto. }
    assert (HABL : forall p, p ∈ A ++ B -> p ∈ L) by (intros p Hin; rewrite <- HL; apply elem_of_app; right; by apply HAB).
    intros a Ha. trans (rd8 m a).
    + destruct Ha as [(p & Hp1 & Hp2 & Ha)|Ha]; [|by apply Hf2]. apply Hf1. by exists p.
    + destruct Ha as [(p & Hp1 & Hp2 & Ha)|Ha]; [|by apply Hag1]. apply Hag. split; [left; exists p; split; [by apply HAB|done]|].
      intros (p' & Hp' & Ha')%Hobj. assert (Hpp : p <> p') by (by intros ->).
      pose proof (frames_apart p p' (fc_frame (ok := ok) _ _ p (vg_ok _ _ _ _ (sp_good _ _ _ _ _ _ _ _ _ _ Hs)) (HABL p Hp1))
        (space_P_frame _ _ _ _ _ _ _ _ _ _ Hs p' Hp') Hpp). unfold apart, in_range in *. lia.
  - exact Hag1.
Qed.

(** What the frees leave of the kernel's state. *)
Lemma same_kvm v v' :
  agree (fun a => ~ fa_bytes (vm_fa (k_vm s)) a) (vm_mem v) (vm_mem v') -> same nothing (set_kvm s v) (set_kvm s v').
Proof.
  intros Hag. split; try done.
  - intros [Hc Hj]. split; [|done]. destruct Hc. by split.
  - eapply agree_weaken; [exact Hag|]. intros a [Ha _]. by apply (rp_outside Hr).
Qed.

Lemma vmem_of : task_vmem t = t + 72.
Proof. destruct reap_entry as [Hto _]. unfold task_vmem. by destruct (task_field t 72 16 Hto) as [-> _]. Qed.

Lemma reap_is_contained : reap_contained fuel t s.
Proof.
  destruct reap_frees as (v & m & m' & L' & U' & H1 & Hv & H2 & H3 & _ & Hag' & Hag). intros s1 E1.
  rewrite (in_vm_ok _ _ _ _ H1) in E1. injection E1 as <-. intros s2 E2. rewrite vmem_of in E2.
  rewrite (in_vm_ok _ (set_kvm s v) _ _ H2) in E2. injection E2 as <-.
  change (set_kvm (set_kvm s v) ?x) with (set_kvm s x).
  assert (Hm' : agree (fun a => ~ fa_bytes (vm_fa (k_vm s)) a) (kmem s) m').
  { eapply agree_weaken; [exact Hag'|]. intros a Ha. by right. }
  split.
  - apply same_kvm. unfold vm_mem. rewrite Hv. exact Hag.
  - intros s3 E3. unfold task_arch_thread in E3. rewrite H3 in E3. injection E3 as <-. apply same_kvm.
    intros a Ha. trans (rd8 (kmem s) a); [by apply Hm'|]. symmetry. by apply Hag.
Qed.

Lemma reap_ok : exists s' L' U', reap fuel t s = Ret (tt, s') /\ freed s' L' U' /\ same nothing s s' /\
  agree (fun a => others L' a /\ ~ on_screen (con_fb (k_con s)) a) (kmem s) (kmem s').
Proof.
  destruct reap_frees as (v & m & m' & L' & U' & H1 & Hv & H2 & H3 & Hfd & Hag' & Hag). destruct reap_entry as [Hto Hout].
  unfold reap. rewrite kget_bind. rewrite (kbind_Ret _ _ _ _ _ (in_vm_ok _ _ _ _ H1)). rewrite vmem_of.
  rewrite (kbind_Ret _ _ _ _ _ (in_vm_ok _ (set_kvm s v) _ _ H2)). change (set_kvm (set_kvm s v) ?x) with (set_kvm s x).
  unfold task_arch_thread. rewrite (kbind_Ret _ _ _ _ _ H3). set (v' := set_vo v m' (ObjAlloc head sizeof_vmem_area)) in *.
  rewrite (kbind_Ret _ _ _ _ _ (load_pid_ok t _ Hto)), (kbind_Ret _ _ _ _ _ (load_exitcode_ok t _ Hto)).
  assert (S3 : same nothing s (set_kvm s v')).
  { rewrite <- (set_kvm_id s) at 1. apply same_kvm. eapply agree_weaken; [exact Hag'|]. intros a Ha. by right. }
  pose proof (sm_printing _ _ _ S3 (lo_printing _ (rp_laid Hr))) as Hpr.
  match goal with |- context [kprintk ?f ?l (set_kvm s v')] => destruct (kprintk_ok f l (set_kvm s v') Hpr eq_refl) as (m4 & c & H4 & Hm4 & Hc1 & Hc2) end.
  assert (Hm4' : agree (fun a => ~ on_screen (con_fb (k_con s)) a) m' m4) by exact Hm4.
  eexists _, L', U'. split; [exact H4|]. destruct Hfd as [F1 F2 F3 F4]. split; [|split].
  - split; [exact F1| |exact F3|exact F4].
    change (pool_in ok (set_mem (vm_fa v') m4, vmem_area_alloc v') P [head] U' L').
    pose proof (proj1 F2) as Hok. cbn [fst] in Hok. change (vm_fa (k_vm (set_kvm s v'))) with (vm_fa v') in *.
    eapply pool_keep; [exact F2| |done|].
    + apply (fc_outside (ok := ok) (vm_fa v') L' m4 Hok). eapply agree_weaken; [exact Hm4'|]. intros a Ha Hsc.
      apply (rp_screen Hr a Hsc). rewrite <- Hv. exact Ha.
    + eapply agree_weaken; [exact Hm4'|]. intros a Ha Hsc.
      apply (rp_screen Hr a Hsc). rewrite <- Hv. by apply (fc_inside (ok := ok) (vm_fa v') L').
  - eapply same_trans; [exact S3|]. split; try done.
    + intros [_ Hj]. split; [|done]. destruct Hc2. by split.
    + eapply agree_weaken; [exact Hm4'|]. intros a [Ha _]. by apply (lo_screen _ (rp_laid Hr)).
  - intros a [Ha Hs]. trans (rd8 m' a); [by apply Hm4'|by apply Hag'].
Qed.
End Reap.
