(* ===== verification/Preempt.v ===== *)
(** * Interrupts inside system calls

    The entry of a system call turns interrupts on (arch/x86/syscall.asm) before
    it calls [do_syscall], so the timer can take the processor away between any
    two accesses of a handler. Here the handlers that share the task table are
    translated with these points in between: [run []] is the handler undisturbed,
    [run sch] has an interrupt before each access at which [sch] says so. *)

From S2P Require Import Prelude Mem Common DList Buddy Paging FrameAlloc Obj Vmem Multiboot Fb FbSpec Console Printk PrintkSpec ConsoleSpec.
From S2P Require Import Acpi Kst Arch Sched Apic Syscall SchedSpec SyscallSpec.

(** ** Handlers with the points at which they can be interrupted *)

(** A handler: its result, an access after which it goes on, or a switch. *)
Inductive pgm (A : Type) : Type :=
  | PRet (a : A)
  | PAct (m : kst -> res (pgm A * kst))
  | PSwitch (prev next : Z) (k : pgm A).
Arguments PRet {A} _.
Arguments PAct {A} _.
Arguments PSwitch {A} _ _ _.

Fixpoint pseq {A B} (p : pgm A) (f : A -> pgm B) : pgm B :=
  match p with
  | PRet a => f a
  | PAct m => PAct (fun s => match m s with Ret (q, s') => Ret (pseq q f, s') | Halt h => Halt h end)
  | PSwitch prev next k => PSwitch prev next (pseq k f)
  end.

(** One access, in which no interrupt arrives. *)
Definition act {A} (m : K kst A) : pgm A :=
  PAct (fun s => match m s with Ret (a, s') => Ret (PRet a, s') | Halt h => Halt h end).

Fixpoint of_resum {A} (r : resum A) : pgm A :=
  match r with
  | Done a => PRet a
  | Switch prev next k =>
      PSwitch prev next (PAct (fun s => match k s with Ret (r, s') => Ret (of_resum r, s') | Halt h => Halt h end))
  end.

(** A call into the scheduler. *)
Definition hand {A} (m : R A) : pgm A :=
  PAct (fun s => match m s with Ret (r, s') => Ret (of_resum r, s') | Halt h => Halt h end).

Declare Scope pgm_scope.
Delimit Scope pgm_scope with G.
Notation "'let!' x ':=' m 'in' k" := (pseq m (fun x => k))
  (at level 10, x pattern, m at level 100, k at level 200,
   format "'let!'  x  ':='  m  'in' '//' k") : pgm_scope.
Notation "m ';;' k" := (pseq m (fun _ => k))
  (at level 100, k at level 200, right associativity) : pgm_scope.

(** Running a handler: the timer's interrupt arrives before the accesses at
    which [sch] has [true], and no more once it is used up. *)
Fixpoint run {A} (p : pgm A) (sch : list bool) : R A :=
  match p with
  | PRet a => rret a
  | PSwitch prev next k => fun s => Ret (Switch prev next (run k sch), s)
  | PAct m =>
      let go sch := fun s => match m s with Ret (q, s') => run q sch s' | Halt h => Halt h end in
      match sch with
      | true :: sch => rbind timer_handler (fun _ => go sch)
      | false :: sch => go sch
      | [] => go []
      end
  end.

(** ** The handlers *)

Definition sys_sleep_p (regs : Z) : pgm Z :=
  (let! ms := act (syscall_arg0 regs) in
   let! s := act kget in
   act (kstore 8 (task_sleep_until (_current s)) (u64 (sched_timer s + ms / SCHED_TIMER_PERIOD))) ;;
   act (set_state (_current s) TASK_SLEEPING) ;;
   hand sched_switch ;;
   PRet 0)%G.

Definition sys_exit_p (regs : Z) : pgm Z :=
  (let! code := act (syscall_arg0 regs) in
   let! s := act kget in
   let cur := _current s in
   act (kstore 4 (task_exitcode cur) code) ;;
   act (set_state cur TASK_ZOMBIE) ;;
   let! ppid := act (kload 8 (task_ppid cur)) in
   let parent := task_at s ppid in
   let! pstate := act (get_state parent) in
   let! wait_pid := act (kload 8 (task_wait_pid parent)) in
   let! pid := act (kload 8 (task_pid cur)) in
   (if (pstate =? TASK_WAITING) && (wait_pid =? pid) then act (set_state parent TASK_RUNNABLE) else PRet tt) ;;
   hand sched_switch ;;
   act (panic "reached unreachable"))%G.

(** if (tasks[child_pid].state != TASK_ZOMBIE), in the task [t]. *)
Definition wait_block_p (t child child_pid : Z) : pgm unit :=
  (act (set_state t TASK_WAITING) ;;
   act (kstore 8 (task_wait_pid t) child_pid) ;;
   hand sched_switch ;;
   let! state := act (get_state child) in
   act (kassert (state =? TASK_ZOMBIE) "tasks[child_pid].state == TASK_ZOMBIE"))%G.

(** From [int* status = ...] on. *)
Definition wait_finish_p (fuel : nat) (regs child child_pid : Z) : pgm Z :=
  (let! status := act (syscall_arg1 regs) in
   let! err := act (write_status fuel status child) in
   match err with
   | Some e => PRet e
   | None =>
       act (set_state child TASK_NOT_ALLOCATED) ;;
       let! s := act kget in
       let! pid := act (kload 8 (task_pid (_current s))) in
       act (kprintk "sys_wait: pid %d reaped child with pid %d
" [ANum pid; ANum child_pid]) ;;
       PRet 0
   end)%G.

Definition sys_wait_p (fuel : nat) (regs : Z) : pgm Z :=
  (let! child_pid := act (syscall_arg0 regs) in
   let! s := act kget in
   let child := task_at s child_pid in
   let! ppid := act (kload 8 (task_ppid child)) in
   let! pid := act (kload 8 (task_pid (_current s))) in
   if negb (ppid =? pid) then PRet (- ECHILD)
   else
     let! state := act (get_state child) in
     (if negb (state =? TASK_ZOMBIE) then wait_block_p (_current s) child child_pid else PRet tt) ;;
     wait_finish_p fuel regs child child_pid)%G.

(** ** When no interrupt arrives *)

(** The same behaviour: the same results, and at a switch the same behaviour
    in every state it can be resumed in. *)
Inductive behaves {A} : res (resum A * kst) -> res (resum A * kst) -> Prop :=
  | bh_done a s : behaves (Ret (Done a, s)) (Ret (Done a, s))
  | bh_halt h : behaves (Halt h) (Halt h)
  | bh_switch prev next k k' s :
      (forall s', behaves (k s') (k' s')) -> behaves (Ret (Switch prev next k, s)) (Ret (Switch prev next k', s)).

Definition req {A} (m m' : R A) : Prop := forall s, behaves (m s) (m' s).

Fixpoint behaves_same {A} (r : resum A) : forall s, behaves (Ret (r, s)) (Ret (r, s)) :=
  match r with
  | Done a => bh_done a
  | Switch prev next k => fun s =>
      bh_switch prev next k k s (fun s' =>
        match k s' as x return behaves x x with
        | Ret rs => match rs as y return behaves (Ret y) (Ret y) with (r', s'') => behaves_same r' s'' end
        | Halt h => bh_halt h
        end)
  end.

#[export] Instance behaves_equiv {A} : Equivalence (@behaves A).
Proof.
  split.
  - intros [[r s]|h]; [apply behaves_same|constructor].
  - intros x y H. induction H; constructor; auto.
  - intros x y z H. revert z. induction H as [| |p n k k' s H IH]; intros z Hz; [done|done|].
    inversion Hz; subst; constructor; auto.
Qed.

#[export] Instance req_equiv {A} : Equivalence (@req A).
Proof.
  split; unfold req.
  - intros m s. reflexivity.
  - intros m m' H s. by symmetry.
  - intros m1 m2 m3 H1 H2 s. etransitivity; [apply H1|apply H2].
Qed.

(** What goes on after the same behaviour. *)
Lemma behaves_cont {A B} (f f' : A -> R B) : (forall a, req (f a) (f' a)) ->
  forall x y, behaves x y ->
  behaves (match x with Ret (r, s) => rcont f r s | Halt h => Halt h end)
          (match y with Ret (r, s) => rcont f' r s | Halt h => Halt h end).
Proof.
  intros Hf x y H. induction H as [a s|h|p n k k' s H IH]; [apply Hf|constructor|]. cbn [rcont].
  constructor. intros s'. apply IH.
Qed.

#[export] Instance rbind_proper {A B} : Proper (req ==> pointwise_relation A req ==> req) (@rbind A B).
Proof. intros m m' Hm f f' Hf s. apply (behaves_cont f f' Hf _ _ (Hm s)). Qed.

#[export] Instance kbind_proper {A B} (m : K kst A) :
  Proper (pointwise_relation A req ==> req) (fun f => kbind (B := resum B) m f).
Proof. intros f f' Hf s. unfold kbind. destruct (m s) as [[a s']|h]; [apply Hf|constructor]. Qed.

(** Programs are trees under the functions in them: induction on them. *)
Lemma pgm_ind' {A} (P : pgm A -> Prop) :
  (forall a, P (PRet a)) ->
  (forall m, (forall s q s', m s = Ret (q, s') -> P q) -> P (PAct m)) ->
  (forall prev next k, P k -> P (PSwitch prev next k)) -> forall p, P p.
Proof.
  intros H1 H2 H3. fix IH 1. intros [a|m|prev next k]; [apply H1| |apply H3, IH].
  apply H2. intros s q s' E.
  assert (H : match m s with Ret (q, _) => P q | Halt _ => True end) by (destruct (m s) as [[q0 s0]|h]; [apply IH|exact I]).
  by rewrite E in H.
Qed.

Lemma resum_ind' {A} (P : resum A -> Prop) :
  (forall a, P (Done a)) ->
  (forall prev next k, (forall s r s', k s = Ret (r, s') -> P r) -> P (Switch prev next k)) -> forall r, P r.
Proof.
  intros H1 H2. fix IH 1. intros [a|prev next k]; [apply H1|].
  apply H2. intros s r s' E.
  assert (H : match k s with Ret (r, _) => P r | Halt _ => True end) by (destruct (k s) as [[r0 s0]|h]; [apply IH|exact I]).
  by rewrite E in H.
Qed.

Lemma run_seq {A B} (p : pgm A) (f : A -> pgm B) :
  req (run (pseq p f) []) (rbind (run p []) (fun a => run (f a) [])).
Proof.
  induction p as [a|m IH|prev next k IH] using pgm_ind'; intros s; [reflexivity| |].
  - cbn [pseq run]. destruct (m s) as [[q s']|h] eqn:E; [|unfold rbind, kbind; rewrite E; constructor].
    unfold rbind, kbind. rewrite E. apply (IH _ _ _ E).
  - cbn [pseq run]. unfold rbind, kbind. cbn [rcont]. constructor. intros s'. apply IH.
Qed.

Lemma run_resum {A} (r : resum A) s : behaves (run (of_resum r) [] s) (Ret (r, s)).
Proof.
  revert s. induction r as [a|prev next k IH] using resum_ind'; intros s; [constructor|].
  cbn [of_resum run]. constructor. intros s'. cbn [run]. destruct (k s') as [[r s'']|h] eqn:E; [|constructor].
  apply (IH _ _ _ E).
Qed.

Lemma run_hand {A} (m : R A) : req (run (hand m) []) m.
Proof. intros s. cbn [run hand]. destruct (m s) as [[r s']|h]; [apply run_resum|constructor]. Qed.

(** An access and what follows it. *)
Lemma run_act {A B} (m : K kst A) (f : A -> pgm B) :
  req (run (pseq (act m) f) []) (kbind m (fun a => run (f a) [])).
Proof. intros s. cbn [act pseq run]. unfold kbind. destruct (m s) as [[a s']|h]; [reflexivity|constructor]. Qed.

Lemma run_hands {A B} (m : R A) (f : A -> pgm B) :
  req (run (pseq (hand m) f) []) (rbind m (fun a => run (f a) [])).
Proof. rewrite run_seq. by rewrite run_hand. Qed.

Lemma run_ret {A} (a : A) : req (run (PRet a) []) (rret a).
Proof. done. Qed.

Lemma rbind_assoc {A B C} (m : R A) (f : A -> R B) (g : B -> R C) :
  req (rbind (rbind m f) g) (rbind m (fun a => rbind (f a) g)).
Proof.
  intros s. unfold rbind at 2 3 4. unfold rbind at 1. unfold kbind. destruct (m s) as [[r s']|h]; [|constructor].
  revert s'. induction r as [a|prev next k IH] using resum_ind'; intros s'; [done|].
  cbn [rcont]. constructor. intros s''. destruct (k s'') as [[r s3]|h] eqn:E; [|constructor]. apply (IH _ _ _ E).
Qed.

Lemma rbind_kbind {A B C} (m : K kst A) (f : A -> R B) (g : B -> R C) :
  req (rbind (kbind m f) g) (kbind m (fun a => rbind (f a) g)).
Proof. intros s. unfold rbind, kbind. by destruct (m s) as [[a s']|h]. Qed.

Lemma rbind_rret {A B} (a : A) (f : A -> R B) : req (rbind (rret a) f) (f a).
Proof. done. Qed.

Lemma kbind_req {A B} (m : K kst A) (f f' : A -> R B) :
  (forall a, req (f a) (f' a)) -> req (kbind m f) (kbind m f').
Proof. intros H. by apply kbind_proper. Qed.

Lemma rbind_req {A B} (m : R A) (f f' : A -> R B) :
  (forall a, req (f a) (f' a)) -> req (rbind m f) (rbind m f').
Proof. intros H. apply rbind_proper; [done|exact H]. Qed.

(** Go through a handler access by access. *)
Ltac undisturbed :=
  repeat (cbv beta zeta;
    first [ rewrite run_act; apply kbind_req; intros ?
          | rewrite run_hands; apply rbind_req; intros ?
          | rewrite rbind_kbind; first [apply kbind_req; intros ?|idtac]
          | rewrite run_ret ]).

Lemma sleep_undisturbed regs : req (run (sys_sleep_p regs) []) (sys_sleep regs).
Proof. unfold sys_sleep_p, sys_sleep. undisturbed. done. Qed.

Lemma run_halt {A} (m : K kst A) h : (forall s, m s = Halt h) -> req (run (act m) []) (khalt h).
Proof. intros H s. cbn [act run]. rewrite H. constructor. Qed.

Lemma run_skip {B} (f : unit -> pgm B) : req (run (pseq (PRet tt) f) []) (kbind (kret tt) (fun _ => run (f tt) [])).
Proof. done. Qed.

Lemma exit_undisturbed regs : req (run (sys_exit_p regs) []) (sys_exit regs).
Proof.
  unfold sys_exit_p, sys_exit. undisturbed. destruct (_ && _); [undisturbed|rewrite run_skip; apply kbind_req; intros _; undisturbed];
    by apply run_halt.
Qed.

Lemma run_last {A} (m : K kst A) : req (run (act m) []) (kbind m rret).
Proof. intros s. cbn [act run]. unfold kbind. by destruct (m s) as [[a s']|h]; constructor. Qed.

Lemma finish_undisturbed fuel regs child c : req (run (wait_finish_p fuel regs child c) []) (wait_finish fuel regs child c).
Proof. unfold wait_finish_p, wait_finish. undisturbed. case_match; undisturbed; done. Qed.

Lemma block_undisturbed t child c : req (run (wait_block_p t child c) []) (wait_block t child c).
Proof. unfold wait_block_p, wait_block. undisturbed. rewrite run_last. apply kbind_req. by intros []. Qed.

Lemma wait_undisturbed fuel regs : req (run (sys_wait_p fuel regs) []) (sys_wait fuel regs).
Proof.
  unfold sys_wait_p, sys_wait. undisturbed. destruct (negb _); [done|]. undisturbed.
  rewrite run_seq. apply rbind_proper; [|intros []; apply finish_undisturbed].
  destruct (negb _); [apply block_undisturbed|done].
Qed.

(** ** When the timer takes the processor *)

(** Where the interrupt does not come, and where it does. *)
Lemma run_quiet {A B} (m : K kst A) (f : A -> pgm B) sch s :
  run (pseq (act m) f) (false :: sch) s = kbind m (fun a => run (f a) sch) s.
Proof. cbn [act pseq run]. unfold kbind. by destruct (m s) as [[a s']|h]. Qed.

Lemma run_interrupted {A} (p : pgm A) m s t ctx s' :
  p = PAct m -> timer_handler s = Ret (Switch t ctx (rret tt), s') ->
  exists k, run p [true] s = Ret (Switch t ctx k, s') /\ forall s2, k s2 = run p [] s2.
Proof.
  intros -> H. cbn [run]. unfold rbind, kbind. rewrite H. cbn [rcont]. eexists. split; [reflexivity|]. done.
Qed.

(** The local APIC's register is kernel memory away from the task table. *)
Definition lapic_ok (s : kst) : Prop :=
  kok (u64 (lapic_ptr s + APIC_EOI)) 4 = true /\
  apart (u64 (lapic_ptr s + APIC_EOI)) 4 (tasks s) (sizeof_task * (MAX_TASK_COUNT + 1)).

Lemma eoi_ok s : lapic_ok s -> eoi s = Ret (tt, set_kmem s (st 4 (kmem s) (u64 (lapic_ptr s + APIC_EOI)) 0)).
Proof.
  intros [Hk _]. unfold eoi. rewrite kget_bind. apply (kstore_ok 4 _ 0 s). exact Hk.
Qed.

Lemma slot_facts_apart m e v s i :
  0 <= i < MAX_TASK_COUNT -> apart e 4 (tasks s) (sizeof_task * (MAX_TASK_COUNT + 1)) ->
  task_facts (st 4 m e v) (task_slot s i) = task_facts m (task_slot s i) /\
  deadline_of (st 4 m e v) (task_slot s i) = deadline_of m (task_slot s i).
Proof.
  intros Hi Ha. unfold MAX_TASK_COUNT in *. change (Z.shiftl 1 16) with 65536 in *.
  unfold task_facts, deadline_of, task_slot, sizeof_task in *. by field_simp.
Qed.

(** The timer interrupts a task whose deadline is not past: the task is
    suspended, and the table is as it was. *)
Lemma timer_suspends s i :
  table_kok s -> 0 <= i < MAX_TASK_COUNT -> _current s = task_slot s i -> kok (sched_context s) 8 = true -> lapic_ok s ->
  u64 (sched_timer s + 1) <= deadline_of (kmem s) (task_slot s i) ->
  exists s', timer_handler s = Ret (Switch (task_slot s i) (sched_context s) (rret tt), s') /\
    tasks s' = tasks s /\ sched_context s' = sched_context s /\
    forall j, 0 <= j < MAX_TASK_COUNT -> task_facts (kmem s') (task_slot s j) = task_facts (kmem s) (task_slot s j).
Proof.
  intros Ht Hi Hc Hk HL Hd. pose proof (slot_ok s i Ht Hi) as Hto. destruct (slot_facts_apart (kmem s) _ 0 s i Hi (proj2 HL)) as [_ Ed].
  unfold timer_handler. rewrite (kbind_Ret _ _ _ _ _ (eoi_ok s HL)). set (s1 := set_kmem s _) in *.
  rewrite sched_timer_tick_ok; [|change (_current s1) with (_current s); by rewrite Hc|done].
  change (_current s1) with (_current s). change (sched_timer s1) with (sched_timer s). change (sched_context s1) with (sched_context s).
  rewrite Hc. change (kmem s1) with (st 4 (kmem s) (u64 (lapic_ptr s + APIC_EOI)) 0). rewrite Ed.
  rewrite (proj2 (Z.eqb_neq _ _)) by (by apply task_slot_nonnull). rewrite (proj2 (Z.ltb_ge _ _)) by done. cbn [orb].
  eexists. split; [reflexivity|]. split; [done|]. split; [done|]. intros j Hj. apply (slot_facts_apart _ _ _ _ _ Hj (proj2 HL)).
Qed.

(** ** Handlers that finish, however often they are interrupted *)

(** The handler finishes with a result in [P] if the processor comes back to it
    in states that satisfy [I]. *)
Inductive finishes {A} (P : A -> Prop) (I : kst -> Prop) : res (resum A * kst) -> Prop :=
  | fin_done a s : P a -> I s -> finishes P I (Ret (Done a, s))
  | fin_switch prev next k s :
      (forall s', I s' -> finishes P I (k s')) -> finishes P I (Ret (Switch prev next k, s)).

(** A task has the processor. *)
Record has_processor (s : kst) : Prop := {
  hp_task : task_ok (_current s);
  hp_some : _current s <> NULL;
  hp_context : kok (sched_context s) 8 = true;
  hp_lapic : kok (u64 (lapic_ptr s + APIC_EOI)) 4 = true;
}.

Lemma timer_finishes {A} (P : A -> Prop) (f : unit -> R A) s :
  has_processor s -> (forall s, has_processor s -> finishes P has_processor (f tt s)) ->
  finishes P has_processor (rbind timer_handler f s).
Proof.
  intros [H1 H2 H3 H4] Hf. unfold rbind, timer_handler. rewrite kbind_assoc.
  assert (E : eoi s = Ret (tt, set_kmem s (st 4 (kmem s) (u64 (lapic_ptr s + APIC_EOI)) 0)))
    by (unfold eoi; rewrite kget_bind; by apply (kstore_ok 4 _ 0 s)).
  rewrite (kbind_Ret _ _ _ _ _ E). set (s1 := set_kmem s _).
  assert (T : sched_timer_tick s1 = if (_current s1 =? NULL) || (deadline_of (kmem s1) (_current s1) <? u64 (sched_timer s1 + 1))
      then Ret (Done tt, ticked s1) else Ret (Switch (_current s1) (sched_context s1) (rret tt), handed_back (ticked s1)))
    by (by apply sched_timer_tick_ok).
  unfold kbind. rewrite T. destruct (_ || _); [by apply Hf|]. cbn [rcont]. constructor. exact Hf.
Qed.

Section Finishes.
Context {A : Type} (P : A -> Prop).

Lemma act_finishes {B} (Q : B -> Prop) (m : K kst B) (f : B -> pgm A) :
  (forall s, has_processor s -> exists b s', m s = Ret (b, s') /\ Q b /\ has_processor s') ->
  (forall b, Q b -> forall sch s, has_processor s -> finishes P has_processor (run (f b) sch s)) ->
  forall sch s, has_processor s -> finishes P has_processor (run (pseq (act m) f) sch s).
Proof.
  intros Hm Hf. assert (Hq : forall sch s, has_processor s -> finishes P has_processor (run (pseq (act m) f) (false :: sch) s)).
  { intros sch s Hs. rewrite run_quiet. destruct (Hm s Hs) as (b & s' & E & Hb & Hs'). rewrite (kbind_Ret _ _ _ _ _ E). by apply Hf. }
  intros [|[] sch] s Hs; [exact (Hq [] s Hs)| |by apply Hq].
  apply (timer_finishes P (fun _ => run (pseq (act m) f) (false :: sch)) s Hs). apply Hq.
Qed.

Lemma hand_finishes (f : unit -> pgm A) :
  (forall sch s, has_processor s -> finishes P has_processor (run (f tt) sch s)) ->
  forall sch s, has_processor s -> finishes P has_processor (run (pseq (hand sched_switch) f) sch s).
Proof.
  intros Hf. assert (Hq : forall sch s, has_processor s -> finishes P has_processor (run (pseq (hand sched_switch) f) (false :: sch) s)).
  { intros sch s [H1 H2 H3 H4]. cbn [hand pseq run]. rewrite (sched_switch_ok s H2 H3). cbn [of_resum pseq run]. constructor.
    assert (Hr : forall sch s, has_processor s -> finishes P has_processor (run (pseq (act (kret tt)) f) sch s))
      by (apply (act_finishes (fun _ => True)); [by eauto|intros [] _; exact Hf]).
    exact (Hr sch). }
  intros [|[] sch] s Hs; [exact (Hq [] s Hs)| |by apply Hq].
  apply (timer_finishes P (fun _ => run (pseq (hand sched_switch) f) (false :: sch)) s Hs). apply Hq.
Qed.

Lemma ret_finishes a : P a -> forall sch s, has_processor s -> finishes P has_processor (run (PRet a) sch s).
Proof. intros Ha [] s Hs; by constructor. Qed.
End Finishes.

Lemma stored_processor s m : has_processor s -> has_processor (set_kmem s m).
Proof. by intros []. Qed.

Lemma sleep_finishes regs sch s :
  regs_ok regs -> has_processor s -> finishes (eq 0) has_processor (run (sys_sleep_p regs) sch s).
Proof.
  intros Hregs. revert sch s. unfold sys_sleep_p.
  apply (act_finishes _ (fun _ => True)); [intros s Hs; rewrite arg0_ok by done; eauto|]. intros ms _.
  apply (act_finishes _ (fun s => task_ok (_current s))).
  { intros s Hs. exists s, s. split; [done|]. split; [apply Hs|done]. }
  intros s0 Ht. apply (act_finishes _ (fun _ => True)).
  { intros s Hs. rewrite store_sleep_ok by done. eexists _, _. split; [done|]. split; [done|by apply stored_processor]. }
  intros [] _. apply (act_finishes _ (fun _ => True)).
  { intros s Hs. rewrite set_state_ok by done. eexists _, _. split; [done|]. split; [done|by apply stored_processor]. }
  intros [] _. apply hand_finishes. by apply ret_finishes.
Qed.
