(* ===== verification/BootClaims.v ===== *)
(** * Properties of the boot: early paging, the firmware's tables, the timer *)

From S2P Require Import Prelude Mem Common DList Buddy Paging FrameAlloc FrameRefine FrameZones FrameSession FrameInit.
From S2P Require Import FrameClient Obj Vmem PageTable Multiboot Fb FbSpec Console Printk PrintkSpec ConsoleSpec.
From S2P Require Import Acpi AcpiSpec Kst Arch Sched Apic Early EarlySpec BootSpec KMain.

(** [C20] The page tables of the boot: when [early_setup_paging] returns, the
    processor translates the direct mapping to all 64 TB of physical memory,
    and the kernel's sections, of up to 1022 MB, to where they were loaded. *)
Theorem early_paging_translates t sym N fuel m :
  tables_ok t -> 0 <= _phys_start_hh sym < 2 ^ 46 -> aligned (2 * MB) (_phys_start_hh sym) -> 1 <= N <= 511 ->
  _phys_start_hh sym + (N - 1) * (2 * MB) < _phys_end_kernel_sections sym <= _phys_start_hh sym + N * (2 * MB) ->
  N < Z.of_nat fuel ->
  exists m', early_setup_paging fuel t sym m = Ret (tt, m') /\
    (forall x, 0 <= x < KERNEL_DIRECT_PHYS_MAPPING_SIZE ->
       page_walk m' (early_pml4 t) (KERNEL_DIRECT_PHYS_MAPPING_START + x) = Some x) /\
    (forall x, 0 <= x < N * (2 * MB) ->
       page_walk m' (early_pml4 t) (KERNEL_SECTIONS_START + x) = Some (_phys_start_hh sym + x)).
Proof. intros Ht Hs Ha HN He Hf. by apply early_setup_paging_ok. Qed.

Definition tables0 : early_tables := EarlyTables 0x201000 0x203000 0x283000 0x284000 0x286000.
Definition sym0 : symbols := Symbols 0x400000 0x900000 0x300000 0x10000 (KERNEL_SECTIONS_START + 0x1000).

Lemma tables0_ok : tables_ok tables0.
Proof.
  split; unfold phys_ok, PAGE_SIZE; cbn.
  - split; [done|]. split; [done|by exists 513].
  - split; [done|]. split; [done|by exists 515].
  - split; [done|]. split; [done|by exists 643].
  - split; [done|]. split; [done|by exists 644].
  - split_and!; try done; intros y Hy; unfold apart;
      repeat (apply elem_of_cons in Hy as [->|Hy]; [cbn; lia|]); by apply elem_of_nil in Hy.
Qed.

Lemma early_paging_translates_witness :
  exists m', early_setup_paging 10 tables0 sym0 ∅ = Ret (tt, m') /\
    page_walk m' (early_pml4 tables0) (KERNEL_DIRECT_PHYS_MAPPING_START + 0x12345678) = Some 0x12345678 /\
    page_walk m' (early_pml4 tables0) (KERNEL_SECTIONS_START + 0x234567) = Some (_phys_start_hh sym0 + 0x234567).
Proof.
  destruct (early_paging_translates tables0 sym0 3 10 ∅) as (m' & H1 & H2 & H3);
    [exact tables0_ok|done|by exists 2|done|done|done|].
  exists m'. split; [exact H1|]. split.
  - refine (H2 0x12345678 _). unfold KERNEL_DIRECT_PHYS_MAPPING_SIZE. lia.
  - refine (H3 0x234567 _). unfold MB. lia.
Defined.

(** The root table acpi_lookup searches, and the width of its entries. *)
Definition root_table (s : acpi) : Z := if xsdt s =? NULL then rsdt s else xsdt s.
Definition root_width (s : acpi) : nat := if xsdt s =? NULL then 4 else 8.
Definition root_entry (s : acpi) : Z -> Z := if xsdt s =? NULL then rsdt_entry (rsdt s) else xsdt_entry (xsdt s).

(** [C32] Looking up a table: [acpi_lookup] gives the first table of the XSDT, or
    without one of the RSDT, that has the signature, if its bytes add up to a
    multiple of 256, and [NULL] otherwise: a valid table behind an invalid one
    of the same signature is not found. Nothing is changed. *)
Theorem acpi_lookup_first s signature :
  let m := con_mem (a_con s) in let r := root_table s in
  r <> NULL -> kok signature 4 = true -> kok r 8 = true -> kok r (table_len m r) = true -> 36 <= table_len m r ->
  let tables := listed m (root_width s) (root_entry s) 0
                       (Z.to_nat ((table_len m r - 36) / Z.of_nat (root_width s))) in
  Forall (table_ok m) tables ->
  acpi_lookup signature s = Ret (lookup_spec m signature tables, s).
Proof.
  cbv zeta. unfold root_table, root_width, root_entry. intros Hr Hs Hk Hlen H36 Ht.
  pose proof (proj1 (kok_spec _ _) Hs) as [S1 S2]. unfold KERNEL_HIGHER_HALF_START in S1.
  unfold acpi_lookup. rewrite kassert_true by (apply negb_true_iff, Z.eqb_neq; lia). rewrite kget_bind.
  destruct (Z.eqb_spec (xsdt s) NULL) as [E|E]; cbn [negb].
  all: try rewrite (proj2 (Z.eqb_neq (rsdt s) NULL) Hr); cbn [negb].
  all: pose proof (proj1 (kok_spec _ _) Hlen) as [L1 L2]; unfold KERNEL_HIGHER_HALF_START in L1;
    apply in_acpi_mem_ok; unfold acpi_rsdt_lookup, acpi_xsdt_lookup; kstep (table_len_ok (con_mem (a_con s)) _ Hk); cbv zeta;
    unfold sizeof_sdt_header; rewrite u64_small by lia; apply sdt_lookup_loop_ok; [done| |done].
  all: intros k Hki; rewrite Z.add_0_l; unfold rsdt_entry, xsdt_entry, sizeof_sdt_header;
    rewrite Z2Nat.id in Hki by (apply Z.div_pos; lia).
  - change (Z.of_nat 4) with 4 in *.
    assert (4 * k + 4 <= table_len (con_mem (a_con s)) (rsdt s) - 36) by (Z.to_euclidean_division_equations; lia).
    rewrite u64_small by lia.
    apply (kok_sub (rsdt s) (table_len (con_mem (a_con s)) (rsdt s))); [done|lia|lia].
  - change (Z.of_nat 8) with 8 in *.
    assert (8 * k + 8 <= table_len (con_mem (a_con s)) (xsdt s) - 36) by (Z.to_euclidean_division_equations; lia).
    rewrite u64_small by lia.
    apply (kok_sub (xsdt s) (table_len (con_mem (a_con s)) (xsdt s))); [done|lia|lia].
Qed.

(** An XSDT at the physical address 0x1000 with a FACP and an APIC table; the
    signature is at the end of the kernel half. *)
Definition firmware : mem :=
  let at_ a := KERNEL_DIRECT_PHYS_MAPPING_START + a in
  let m := st 4 (st 4 ∅ (at_ 0x1000) 0x54445358) (at_ 0x1004) 52 in
  let m := st 8 (st 8 m (at_ 0x1024) 0x2000) (at_ 0x102c) 0x3000 in
  let m := st 4 (st 4 m (at_ 0x2000) 0x50434146) (at_ 0x2004) 36 in
  let m := st 4 (st 4 m (at_ 0x3000) 0x43495041) (at_ 0x3004) 44 in
  let m := wr8 m (at_ 0x3009) 183 in
  st 4 m KERNEL_SECTIONS_START 0x43495041.
Definition firmware_acpi : acpi :=
  Acpi (Con firmware (FbState false 0 0 0 0 0) false 0 0 0 0) (replicate 11 0) NULL
       (KERNEL_DIRECT_PHYS_MAPPING_START + 0x1000).

Lemma acpi_lookup_first_witness :
  acpi_lookup KERNEL_SECTIONS_START firmware_acpi = Ret (KERNEL_DIRECT_PHYS_MAPPING_START + 0x3000, firmware_acpi).
Proof.
  assert (E : lookup_spec firmware KERNEL_SECTIONS_START
                (listed firmware 8 (xsdt_entry (KERNEL_DIRECT_PHYS_MAPPING_START + 0x1000)) 0 2) =
              KERNEL_DIRECT_PHYS_MAPPING_START + 0x3000) by (vm_compute; reflexivity).
  rewrite <- E. refine (acpi_lookup_first firmware_acpi KERNEL_SECTIONS_START _ _ _ _ _ _).
  - vm_compute. discriminate.
  - vm_compute. reflexivity.
  - vm_compute. reflexivity.
  - vm_compute. reflexivity.
  - apply Z.leb_le. vm_compute. reflexivity.
  - change (Forall (table_ok firmware)
      [PHYS_TO_VIRT (ld 8 firmware (KERNEL_DIRECT_PHYS_MAPPING_START + 0x1024));
       PHYS_TO_VIRT (ld 8 firmware (KERNEL_DIRECT_PHYS_MAPPING_START + 0x102c))]).
    constructor; [|constructor; [|constructor]]; (split; [vm_compute; reflexivity|]);
      (split; [vm_compute; reflexivity|]); apply Z.ltb_lt; vm_compute; reflexivity.
Defined.

Lemma drivers_stop fuel l junk mb s :
  length (a_junk (ap_acpi s)) = PRINTK_BUF_SIZE -> exists h, kmain_drivers fuel l junk mb s = Halt h.
Proof.
  intros Hj. unfold kmain_drivers. unfold kbind at 1.
  set (c := (cons_init ;; _)%K).
  destruct (in_ap_acpi (in_acpi_con c) s) as [[u s1]|h] eqn:E1; [|by exists h].
  assert (J1 : a_junk (ap_acpi s1) = a_junk (ap_acpi s)).
  { unfold in_ap_acpi, in_acpi_con, klift in E1. destruct (c (a_con (ap_acpi s))) as [[a c1]|]; [|done].
    by injection E1 as _ <-. }
  destruct (acpi_init_stops mb (ap_acpi s1)) as [h H]; [congruence|].
  exists h. apply kbind_Halt. by apply klift_Halt.
Qed.

(** [C39] The boot does not get past [acpi_init]: it ends by printing where the
    table is with [%p], and no kernel address fits the buffer. Whatever the
    firmware gives, the drivers never come up; with valid tables and a working
    screen the overflow is the way the boot ends. *)
Theorem boot_overflows_printk_buffer fuel l junk mb s :
  length (a_junk (ap_acpi s)) = PRINTK_BUF_SIZE ->
  (exists h, kmain_drivers fuel l junk mb s = Halt h) /\
  (forall t, xsdt_ready (con_mem (a_con (ap_acpi s))) mb t -> cons_ok (a_con (ap_acpi s)) ->
     acpi_init mb (ap_acpi s) = Halt (Undefined "buf[i]")).
Proof.
  intros Hj. split; [by apply drivers_stop|]. intros t Hx Hc. by apply (acpi_xsdt_init_overflows mb _ t).
Qed.

(** A root pointer whose bytes add up to 256, with the XSDT of [firmware]. *)
Definition rsdp_tag : Z := KERNEL_DIRECT_PHYS_MAPPING_START + 0x4000.
Definition booted : mem :=
  let p := rsdp_tag + 8 in
  let m := st 8 (st 8 firmware p 0x2052545020445352) (p + 8) 0x0000000000000000 in
  let m := wr8 (st 8 (st 4 m (p + 20) 36) (p + 24) 0x1000) (p + 8) 225 in
  let m := wr8 m (p + 32) 204 in
  wr8 m (KERNEL_DIRECT_PHYS_MAPPING_START + 0x1009) (- byte_sum m (KERNEL_DIRECT_PHYS_MAPPING_START + 0x1000) 52).
Definition screen80 : con := Con booted (FbState true KERNEL_HIGHER_HALF_START 640 200 2560 512000) true 80 25 0 0.
Definition drivers0 : apic :=
  Apic (Acpi screen80 (replicate 11 0) NULL NULL) NULL NULL (fun _ => 0) 0 [].
Definition layout0 : layout := Layout sym0 0 0 0 0 0 0 0 0 true.

Lemma booted_ready :
  xsdt_ready booted (MbState 0 0 0 0 rsdp_tag) (KERNEL_DIRECT_PHYS_MAPPING_START + 0x1000).
Proof.
  split; cbn [mb_acpi_rsdp_v2].
  - split; [done|]. by vm_compute.
  - cbv zeta. split; [apply Z.ltb_lt; by vm_compute|by vm_compute].
  - by vm_compute.
  - cbv zeta. by vm_compute.
  - by vm_compute.
  - split; [|by vm_compute]. split; [by vm_compute|]. split; [by vm_compute|apply Z.ltb_lt; by vm_compute].
Qed.

Lemma screen80_ok : cons_ok screen80.
Proof.
  split; [|reflexivity|..]; [|cbn; unfold FONT_WIDTH, FONT_HEIGHT; lia..].
  split; cbn; unfold KERNEL_HIGHER_HALF_START; try lia; done.
Qed.

Lemma boot_overflows_printk_buffer_witness :
  acpi_init (MbState 0 0 0 0 rsdp_tag) (ap_acpi drivers0) = Halt (Undefined "buf[i]").
Proof.
  refine (proj2 (boot_overflows_printk_buffer 10 layout0 (replicate 11 0) (MbState 0 0 0 0 rsdp_tag) drivers0 _)
                (KERNEL_DIRECT_PHYS_MAPPING_START + 0x1000) _ _).
  - reflexivity.
  - exact booted_ready.
  - exact screen80_ok.
Defined.




(** [C28] Reading the boot information: with a chain of tags up to an end tag,
    [mb_parse_boot_info] returns and each pointer is the last tag of its type,
    or what it was; a tag of size 0 is read for ever. *)
Theorem boot_info_parsed st early_data m info l :
  kok early_data 8 = true -> ld64 m early_data = info -> info + 8 < two64 ->
  (forall fuel, tag_chain m (info + 8) l -> (length l < fuel)%nat ->
     mb_parse_boot_info fuel st early_data m =
       Ret (MbState info (last_tag MB_TAG_FB (mb_fb_info st) l) (last_tag MB_TAG_MEMMAP (mb_memmap_info st) l)
              (last_tag MB_TAG_RSDP_V1 (mb_acpi_rsdp_v1 st) l) (last_tag MB_TAG_RSDP_V2 (mb_acpi_rsdp_v2 st) l), m)) /\
  (forall fuel, kok (info + 8) 16 = true -> aligned 8 info -> ld 4 m (info + 8) <> MB_TAG_END ->
     ld 4 m (info + 8 + 4) = 0 -> mb_parse_boot_info fuel st early_data m = Halt NoFuel).
Proof.
  intros Hk Hi Hr. pose proof (ld64_range m early_data) as Hr0. rewrite Hi in Hr0.
  pose proof (proj1 (kok_spec _ _) Hk) as [K1 K2]. unfold KERNEL_HIGHER_HALF_START in K1.
  assert (Hp : forall fuel, mb_parse_boot_info fuel st early_data m =
    mb_tags_loop fuel (MbState info (mb_fb_info st) (mb_memmap_info st) (mb_acpi_rsdp_v1 st) (mb_acpi_rsdp_v2 st))
      (info + 8) m).
  { intros fuel. unfold mb_parse_boot_info. rewrite kassert_true by (apply negb_true_iff, Z.eqb_neq; lia).
    rewrite bind_load by done. unfold boot_info_header_size. rewrite Hi, u64_small by lia. done. }
  split.
  - intros fuel Hc Hf. rewrite Hp. by rewrite (mb_tags_loop_ok fuel m (info + 8) l).
  - intros fuel Hk2 Ha Ht Hs. rewrite Hp. apply mb_tags_loop_stuck; try done.
    apply aligned_add; [done|by exists 1].
Qed.

(** A memory-map tag, a framebuffer tag of 33 bytes, and the end. *)
Definition tags0 : mem :=
  let a := KERNEL_DIRECT_PHYS_MAPPING_START in
  let m := st 8 ∅ KERNEL_SECTIONS_START a in
  let m := st 4 (st 4 m (a + 8) 6) (a + 12) 40 in
  let m := st 4 (st 4 m (a + 48) 8) (a + 52) 33 in
  st 4 m (a + 88) 0.

Lemma boot_info_parsed_witness :
  let a := KERNEL_DIRECT_PHYS_MAPPING_START in
  mb_parse_boot_info 3 no_tags KERNEL_SECTIONS_START tags0 = Ret (MbState a (a + 48) (a + 8) 0 0, tags0).
Proof.
  cbv zeta.
  refine (proj1 (boot_info_parsed no_tags KERNEL_SECTIONS_START tags0 KERNEL_DIRECT_PHYS_MAPPING_START
           [(KERNEL_DIRECT_PHYS_MAPPING_START + 8, 6); (KERNEL_DIRECT_PHYS_MAPPING_START + 48, 8)] _ _ _) 3%nat _ _).
  - reflexivity.
  - vm_compute. reflexivity.
  - apply Z.ltb_lt. vm_compute. reflexivity.
  - apply tag_next; [reflexivity|vm_compute; reflexivity|discriminate|].
    replace (ROUNDUP _ _) with (KERNEL_DIRECT_PHYS_MAPPING_START + 48) by (vm_compute; reflexivity).
    apply tag_next; [reflexivity|vm_compute; reflexivity|discriminate|].
    replace (ROUNDUP _ _) with (KERNEL_DIRECT_PHYS_MAPPING_START + 88) by (vm_compute; reflexivity).
    apply tag_end; [reflexivity|vm_compute; reflexivity].
  - apply Nat.ltb_lt. reflexivity.
Defined.
