(* ===== verification/SchedClaims.v ===== *)
(** * Properties of the scheduler and of the system calls *)

From S2P Require Import Prelude Mem Common DList Buddy Paging FrameAlloc Obj Vmem Multiboot Fb FbSpec Console Printk PrintkSpec ConsoleSpec.
From S2P Require Import VmemSpec Acpi Kst Arch Sched Apic Syscall SchedSpec SyscallSpec.

(** ** An instance: a table of tasks at the start of the kernel's sections *)

Definition table0 : Z := KERNEL_SECTIONS_START.
Definition context0 : Z := KERNEL_SECTIONS_START + 0x1000000.
Definition regs_a : Z := KERNEL_SECTIONS_START + 0x2000000.
Definition regs_b : Z := KERNEL_SECTIONS_START + 0x3000000.
Definition slot0 (i : Z) : Z := table0 + sizeof_task * i.
Definition fb0 : fb_state := FbState true KERNEL_HIGHER_HALF_START 640 200 2560 512000.
Definition con0 : con := Con ∅ fb0 true 80 25 0 0.

Definition kst_with (m : mem) (cur : Z) : kst :=
  Kst (VmState (FaState m [] 0) (OBJ_ALLOC_DEFINE sizeof_vmem_area) NULL 0) con0 (replicate 11 0) table0 100 cur
      context0 0 0 0.

(** Task 1 waits, its child 2 runs; [regs_a] and [regs_b] are their registers. *)
Definition family : mem :=
  let m := st 8 (st 4 ∅ (slot0 1 + 40) TASK_RUNNABLE) (slot0 1 + 16) 1 in
  let m := st 8 (st 8 (st 4 m (slot0 2 + 40) TASK_RUNNABLE) (slot0 2 + 16) 2) (slot0 2 + 24) 1 in
  st 8 (st 8 m (regs_a + 72) 2) (regs_b + 72) 7.

Lemma table0_kok m cur : table_kok (kst_with m cur).
Proof. reflexivity. Qed.

(** Allocating a task gives the free entry of least number, from 1 on, marks
    it with its number, and changes nothing else; [NULL] only if all are taken,
    and then nothing is changed. *)
Theorem allocate_task_least s :
  table_kok s ->
  (exists i, 1 <= i < MAX_TASK_COUNT /\ state_of (kmem s) (task_slot s i) = TASK_NOT_ALLOCATED /\
     (forall j, 1 <= j < i -> state_of (kmem s) (task_slot s j) <> TASK_NOT_ALLOCATED) /\
     sched_allocate_task s = Ret (task_slot s i, set_kmem s (st64 (kmem s) (task_slot s i + 16) i))) \/
  (forall j, 1 <= j < MAX_TASK_COUNT -> state_of (kmem s) (task_slot s j) <> TASK_NOT_ALLOCATED) /\
  sched_allocate_task s = Ret (NULL, s).
Proof. apply sched_allocate_task_ok. Qed.

Lemma allocate_task_least_witness :
  exists s', sched_allocate_task (kst_with family (slot0 1)) = Ret (slot0 3, s').
Proof.
  destruct (allocate_task_least (kst_with family (slot0 1)) (table0_kok _ _))
    as [(i & Hi & Hs & Hj & H)|[H _]].
  - destruct (Z.eq_dec i 3) as [->|Hne]; [eexists; exact H|]. exfalso.
    destruct (Z.lt_ge_cases i 3) as [Hlt|Hge].
    + assert (i = 1 \/ i = 2) as [-> | ->] by lia; vm_compute in Hs; discriminate Hs.
    + apply (Hj 3); [lia|]. vm_compute. reflexivity.
  - exfalso. apply (H 3); [split; [apply Z.leb_le|]; reflexivity|]. vm_compute. reflexivity.
Defined.

(** [C21] The scheduler's choice: a task is switched to exactly when it is
    runnable or its sleep is over; it runs with its own address space, kernel
    stack and a fresh deadline, as [_current]. Any other task is left as it
    is. When the scheduler is switched back to, it goes on after the task. *)
Theorem sched_visit_runs_iff fuel i s :
  table_kok s -> 0 <= i < MAX_TASK_COUNT ->
  let t := task_slot s i in
  if may_run s t
  then exists k s', sched_visit fuel i s = Ret (Switch (sched_context s) t k, s') /\
         (forall r, k r = after_task fuel t r) /\
         _current s' = t /\ state_of (kmem s') t = TASK_RUNNABLE /\ curr_vmem (k_vm s') = t + 72 /\
         cr3 (k_vm s') = VIRT_TO_PHYS (ld64 (kmem s) (t + 80)) /\ tss_rsp0 s' = ld64 (kmem s) t /\
         deadline_of (kmem s') t = u64 (sched_timer s + PREEMPT_TICKS)
  else sched_visit fuel i s = Ret (Done false, s).
Proof.
  intros Ht Hi. cbv zeta. set (t := task_slot s i). pose proof (sched_visit_ok fuel i s Ht Hi) as H. cbv zeta in H.
  fold t in H. pose proof (woken_state s t) as Hws. destruct (may_run s t); [|done].
  destruct H as (k & H & Hk). apply Z.eqb_eq in Hws.
  exists k, (switched (woken s t) t). split; [exact H|]. split; [exact Hk|].
  assert (Hm : kmem (switched (woken s t) t) = st64 (kmem (woken s t)) (t + 56) (u64 (sched_timer (woken s t) + PREEMPT_TICKS)))
    by done.
  assert (Htm : sched_timer (woken s t) = sched_timer s) by (unfold woken; by case_match).
  assert (Hwk : forall o, o = 0 \/ o = 80 -> ld64 (kmem (woken s t)) (t + o) = ld64 (kmem s) (t + o)).
  { intros o Ho. unfold woken. case_match; [|done]. rewrite kmem_set. apply (ld_st_ne 4 8). unfold apart. lia. }
  split; [done|]. split; [|split; [done|split; [|split]]].
  - rewrite Hm, <- Hws. unfold state_of. apply (ld_st_ne 8 4). unfold apart. lia.
  - change (cr3 _) with (VIRT_TO_PHYS (ld64 (kmem (switched (woken s t) t)) (t + 80))).
    rewrite Hm, ld64_st64_ne by (unfold apart; lia). by rewrite (Hwk 80) by auto.
  - change (tss_rsp0 _) with (ld64 (kmem (switched (woken s t) t)) t).
    rewrite Hm, ld64_st64_ne by (unfold apart; lia). pose proof (Hwk 0 ltac:(auto)) as H0. by rewrite Z.add_0_r in H0.
  - rewrite Hm. unfold deadline_of. rewrite ld64_st64_same, Htm. apply u64_small, u64_range.
Qed.

Lemma sched_visit_runs_iff_witness :
  exists k s', sched_visit 1 2 (kst_with family NULL) = Ret (Switch context0 (slot0 2) k, s') /\ _current s' = slot0 2.
Proof.
  pose proof (sched_visit_runs_iff 1 2 (kst_with family NULL) (table0_kok _ _) ltac:(split; [apply Z.leb_le|]; reflexivity)) as H.
  cbv zeta in H. replace (may_run _ _) with true in H by (vm_compute; reflexivity).
  destruct H as (k & s' & H1 & _ & H2 & _). exists k, s'. split; [exact H1|exact H2].
Defined.

(** [C40] Preemption is inverted: a task that is switched to gets a deadline ten
    ticks ahead; from then on the timer switches away from the current task at
    every tick at which the clock has not passed the deadline, the first one
    included, and at no tick after it. With no current task a tick only counts. *)
Theorem tick_preempts_before_deadline s t :
  task_ok t -> kok (sched_context s) 8 = true -> 0 <= sched_timer s -> sched_timer s + PREEMPT_TICKS < two64 ->
  deadline_of (kmem (switched s t)) t = sched_timer s + PREEMPT_TICKS /\
  sched_timer_tick (switched s t) =
    Ret (Switch t (sched_context s) (rret tt), handed_back (ticked (switched s t))) /\
  forall s', sched_context s' = sched_context s ->
    (_current s' = t -> sched_timer_tick s' =
       if u64 (sched_timer s' + 1) <=? deadline_of (kmem s') t
       then Ret (Switch t (sched_context s) (rret tt), handed_back (ticked s')) else Ret (Done tt, ticked s')) /\
    (_current s' = NULL -> sched_timer_tick s' = Ret (Done tt, ticked s')).
Proof.
  intros Ht Hk H0 Hb. pose proof (proj1 (kok_spec _ _) Ht) as [K1 _]. unfold KERNEL_HIGHER_HALF_START in K1.
  assert (Hd : deadline_of (kmem (switched s t)) t = sched_timer s + PREEMPT_TICKS).
  { change (kmem (switched s t)) with (st64 (kmem s) (t + 56) (u64 (sched_timer s + PREEMPT_TICKS))).
    unfold deadline_of. rewrite ld64_st64_same, (u64_small (sched_timer s + _)) by (unfold PREEMPT_TICKS in *; lia).
    rewrite u64_small; [done|unfold PREEMPT_TICKS in *; lia]. }
  assert (Hall : forall s', sched_context s' = sched_context s ->
    (_current s' = t -> sched_timer_tick s' =
       if u64 (sched_timer s' + 1) <=? deadline_of (kmem s') t
       then Ret (Switch t (sched_context s) (rret tt), handed_back (ticked s')) else Ret (Done tt, ticked s')) /\
    (_current s' = NULL -> sched_timer_tick s' = Ret (Done tt, ticked s'))).
  { intros s' Hctx. split; intros Hc; rewrite sched_timer_tick_ok by (rewrite ?Hc, ?Hctx; done); rewrite Hc; [|done].
    rewrite (proj2 (Z.eqb_neq t NULL)) by (unfold NULL; lia). cbn [orb]. rewrite Hctx, Z.ltb_antisym.
    by destruct (u64 (sched_timer s' + 1) <=? deadline_of (kmem s') t). }
  split; [exact Hd|]. split; [|exact Hall].
  rewrite (proj1 (Hall (switched s t) eq_refl) eq_refl), Hd. change (sched_timer (switched s t)) with (sched_timer s).
  unfold PREEMPT_TICKS in *. rewrite u64_small by lia. by rewrite (proj2 (Z.leb_le _ _)) by lia.
Qed.

(** The state at another time. *)
Definition at_clock (n : Z) (s : kst) : kst :=
  Kst (k_vm s) (k_con s) (k_junk s) (tasks s) n (_current s) (sched_context s) (sched_vmem s) (tss_rsp0 s) (lapic_ptr s).

(** Switched to at 100, task 2 is switched away from at once and still at its
    deadline, 110, but not at the tick after it. *)
Lemma tick_preempts_before_deadline_witness :
  let s := switched (kst_with family NULL) (slot0 2) in
  sched_timer_tick s = Ret (Switch (slot0 2) context0 (rret tt), handed_back (ticked s)) /\
  sched_timer_tick (at_clock 109 s) = Ret (Switch (slot0 2) context0 (rret tt), handed_back (ticked (at_clock 109 s))) /\
  sched_timer_tick (at_clock 110 s) = Ret (Done tt, ticked (at_clock 110 s)).
Proof.
  intros s. destruct (tick_preempts_before_deadline (kst_with family NULL) (slot0 2)) as (Hd & H1 & H);
    [reflexivity|reflexivity|apply Z.leb_le; reflexivity|apply Z.ltb_lt; reflexivity|].
  fold s in Hd, H1. split; [exact H1|]. split.
  - rewrite (proj1 (H (at_clock 109 s) eq_refl) eq_refl). change (kmem (at_clock 109 s)) with (kmem s). rewrite Hd. reflexivity.
  - rewrite (proj1 (H (at_clock 110 s) eq_refl) eq_refl). change (kmem (at_clock 110 s)) with (kmem s). rewrite Hd. reflexivity.
Defined.

Lemma slot_tasks s s' i : tasks s' = tasks s -> task_slot s' i = task_slot s i.
Proof. intros H. unfold task_slot. by rewrite H. Qed.

Lemma table_tasks s s' : tasks s' = tasks s -> table_kok s -> table_kok s'.
Proof. intros H. unfold table_kok. by rewrite H. Qed.

(** [C16] A parent that waits is woken by the exit of its child, when no interrupt
    arrives inside the two calls: [wait] suspends the parent; when the child later
    exits it becomes a zombie with its exit code, the parent becomes runnable, and
    the child can never run again; when the parent runs, [wait] ends as its status
    address says ([status_result]): without one, or when the child's code is
    stored there, it returns 0 and the child's entry is free; when no area of the
    caller has the address, or one without the rights, it returns [-EINVAL] and
    the child stays a zombie. In between other tasks may do anything that leaves
    the entries of the two alone. *)
Theorem exit_wakes_waiting_parent fuel s1 p c r1 :
  table_kok s1 -> 0 <= p < MAX_TASK_COUNT -> 0 <= c < MAX_TASK_COUNT -> p <> c -> regs_ok r1 ->
  let tp := task_slot s1 p in let tc := task_slot s1 c in let ctx := sched_context s1 in
  _current s1 = tp -> kok ctx 8 = true -> ld64 (kmem s1) (r1 + 72) = c ->
  pid_of (kmem s1) tp = p -> pid_of (kmem s1) tc = c -> ppid_of (kmem s1) tc = p ->
  state_of (kmem s1) tc <> TASK_ZOMBIE ->
  exists k s1', sys_wait fuel r1 s1 = Ret (Switch tp ctx k, s1') /\ state_of (kmem s1') tp = TASK_WAITING /\
  forall s2 r2, tasks s2 = tasks s1 -> sched_context s2 = ctx -> _current s2 = tc -> regs_ok r2 ->
    task_facts (kmem s2) tp = task_facts (kmem s1') tp -> task_facts (kmem s2) tc = task_facts (kmem s1') tc ->
    exists k2 s2', sys_exit r2 s2 = Ret (Switch tc ctx k2, s2') /\ (forall s, k2 s = Halt (Panic "reached unreachable")) /\
      state_of (kmem s2') tc = TASK_ZOMBIE /\ exitcode_of (kmem s2') tc = u32 (ld64 (kmem s2) (r2 + 72)) /\
      may_run s2' tp = true /\
    forall s3 e s4, tasks s3 = tasks s1 -> _current s3 = tp -> task_facts (kmem s3) tc = task_facts (kmem s2') tc ->
      printing_ok s3 -> (forall a, in_range tc sizeof_task a -> ~ on_screen (con_fb (k_con s3)) a) ->
      status_result fuel (tp + 72) (ld64 (kmem s3) (r1 + 80)) (u32 (ld64 (kmem s2) (r2 + 72))) s3 e s4 ->
      match e with
      | None => exists s3', k s3 = Ret (Done 0, s3') /\ state_of (kmem s3') tc = TASK_NOT_ALLOCATED
      | Some err => err = - EINVAL /\ k s3 = Ret (Done (- EINVAL), s3) /\ state_of (kmem s3) tc = TASK_ZOMBIE
      end.
Proof.
  intros Htab Hp Hc Hpc Hr1 tp tc ctx Hcur Hk Harg Hpid Hcid Hpp Hz.
  pose proof (SchedSpec.task_slots_apart s1 p c Hpc) as Hap. fold tp tc in Hap. unfold sizeof_task in Hap.
  destruct (sys_wait_blocks fuel s1 p c r1 Htab Hp Hc Hr1 Hcur Harg ltac:(fold tp tc; congruence) Hz Hk) as (k & H1 & Hk1).
  fold tp tc ctx in H1, Hk1. set (m1 := st64 _ _ _) in H1.
  exists k. eexists. split; [exact H1|]. cbn [handed_back set_kmem k_vm].
  change (kmem (handed_back (set_kmem s1 m1))) with m1.
  assert (W1 : state_of m1 tp = TASK_WAITING) by (unfold m1; by field_simp).
  assert (W2 : wait_of m1 tp = c) by (unfold m1; field_simp; apply u64_small; unfold MAX_TASK_COUNT in Hc;
                                       change (Z.shiftl 1 16) with 65536 in Hc; lia).
  assert (W3 : pid_of m1 tc = c) by (rewrite <- Hcid; unfold m1; by field_simp).
  assert (W4 : ppid_of m1 tc = p) by (rewrite <- Hpp; unfold m1; by field_simp).
  split; [done|]. intros s2 r2 T2 C2 Cur2 Hr2 F1 F2. unfold task_facts in F1, F2.
  injection F1 as A1 A2 A3 A4 A5. injection F2 as B1 B2 B3 B4 B5.
  destruct (sys_exit_ok s2 p c r2) as (k2 & H2 & Hk2);
    [by eapply table_tasks|done|done|done|done|by rewrite (slot_tasks s1)|rewrite (slot_tasks s1) by done; exact (eq_trans B3 W4)|by rewrite C2|].
  rewrite !(slot_tasks s1 s2) in H2 by done. fold tp tc in H2. rewrite A1, W1, A4, W2, B2, W3, !Z.eqb_refl in H2.
  cbn [andb] in H2. rewrite C2 in H2. set (m2 := st 4 _ (tp + 40) _) in H2.
  exists k2. eexists. split; [exact H2|]. split; [exact Hk2|].
  change (kmem (handed_back (set_kmem s2 m2))) with m2.
  assert (X1 : state_of m2 tc = TASK_ZOMBIE) by (unfold m2; by field_simp).
  split; [exact X1|]. split; [unfold m2; by field_simp|]. split.
  { unfold may_run. change (kmem (handed_back (set_kmem s2 m2))) with m2.
    replace (state_of m2 tp) with TASK_RUNNABLE by (unfold m2; by field_simp). done. }
  intros s3 e s4 T3 Cur3 F3 Hpr Hscr Hres. unfold task_facts in F3. injection F3 as D1 _ _ _ D5.
  rewrite Hk1. rewrite (proj2 (Z.eqb_eq _ _)) by congruence.
  assert (Hcode : exitcode_of (kmem s3) tc = u32 (ld64 (kmem s2) (r2 + 72))) by (rewrite D5; unfold m2; by field_simp).
  pose proof (write_status_result fuel _ _ tc s3 e s4 tp (slot_ok s1 p Htab Hp) (slot_ok s1 c Htab Hc) Cur3 Hcode Hres) as Hw.
  pose proof (table_tasks s1 s3 T3 Htab) as Htab3. destruct e as [e|].
  - destruct (proj1 (status_result_fields _ _ _ _ _ _ _ Hres) e eq_refl) as [-> ->].
    split; [done|]. split; [|by rewrite D1].
    pose proof (slot_tasks s1 s3 c T3) as Etc. fold tc in Etc. rewrite <- Etc.
    eapply wait_finish_refused; [exact Hr1|]. by rewrite Etc.
  - destruct (status_result_fields _ _ _ _ _ _ _ Hres) as (_ & E1 & E2 & E3 & E4).
    destruct (wait_finish_ok fuel s3 p c r1) with (s4 := s4) as (s3' & H3 & H4 & _);
      [done|done|done|done|by rewrite (slot_tasks s1)|by rewrite (slot_tasks s1)|done|done| | |].
    + unfold printing_ok in *. rewrite E3, E4. destruct Hpr as [[] ?]. by split.
    + rewrite (slot_tasks s1), E3 by done. exact Hscr.
    + rewrite (slot_tasks s1) in H3, H4 by done. by exists s3'.
Qed.

Lemma con0_ok m : cons_ok (con_with m con0).
Proof.
  split; [|reflexivity|..]; [|cbn; unfold FONT_WIDTH, FONT_HEIGHT; lia..].
  split; cbn; unfold KERNEL_HIGHER_HALF_START; try lia; done.
Qed.

Lemma off_screen i a : 0 <= i < MAX_TASK_COUNT -> in_range (slot0 i) sizeof_task a -> ~ on_screen fb0 a.
Proof.
  intros Hi. unfold on_screen, in_range, slot0, table0, fb0, KERNEL_SECTIONS_START, KERNEL_HIGHER_HALF_START, sizeof_task.
  cbn [fb_addr fb_pitch fb_height]. lia.
Qed.

Lemma far_facts m i v : 0 <= i < MAX_TASK_COUNT ->
  task_facts (st64 m (regs_a + 80) v) (slot0 i) = task_facts m (slot0 i).
Proof.
  intros Hi. unfold MAX_TASK_COUNT in Hi. change (Z.shiftl 1 16) with 65536 in Hi.
  unfold task_facts, regs_a, slot0, table0, sizeof_task, KERNEL_SECTIONS_START. by field_simp.
Qed.

(** The space of task 1 without areas, and an address as the status. *)
Definition areas0 : Z := KERNEL_SECTIONS_START + 0x3800000.
Definition no_areas (m : mem) : mem := st64 (st64 (st64 m (slot0 1 + 72) areas0) areas0 areas0) (regs_a + 80) 0x7000.

Lemma no_areas_facts m : task_facts (kmem (kst_with (no_areas m) (slot0 1))) (slot0 2) = task_facts m (slot0 2).
Proof.
  change (task_facts (no_areas m) (slot0 2) = task_facts m (slot0 2)).
  unfold no_areas, task_facts, regs_a, areas0, slot0, table0, sizeof_task, KERNEL_SECTIONS_START. by field_simp.
Qed.

Lemma no_areas_area m : let s := kst_with (no_areas m) (slot0 1) in
  status_area 1 (slot0 1 + 72) (ld64 (kmem s) (regs_a + 80)) s NULL.
Proof.
  intros s. change (kmem s) with (no_areas m).
  assert (E1 : ld64 (no_areas m) (regs_a + 80) = 0x7000) by (unfold no_areas; by rewrite ld64_st64_same).
  assert (E2 : ld64 (no_areas m) (slot0 1 + 72) = areas0).
  { unfold no_areas, regs_a, areas0, slot0, table0, sizeof_task, KERNEL_SECTIONS_START. by field_simp. }
  assert (E3 : ld64 (no_areas m) areas0 = areas0).
  { unfold no_areas, regs_a, areas0, KERNEL_SECTIONS_START. by field_simp. }
  rewrite E1. split; [done|]. split; [|done]. unfold vmem_is_mapped.
  rewrite (kbind_Ret _ _ _ _ _ (vload_ok (slot0 1 + 72) (k_vm s) eq_refl)). change (vm_mem (k_vm s)) with (no_areas m). rewrite E2.
  rewrite (kbind_Ret _ _ _ _ _ (vload_ok areas0 (k_vm s) eq_refl)). change (vm_mem (k_vm s)) with (no_areas m). rewrite E3.
  cbn [is_mapped_loop]. rewrite (kbind_Ret _ _ _ _ _ (vload_ok (slot0 1 + 72) (k_vm s) eq_refl)).
  change (vm_mem (k_vm s)) with (no_areas m). by rewrite E2.
Qed.

(** Task 1 waits for task 2, which exits with code 7. *)
Lemma exit_wakes_waiting_parent_witness :
  exists k s1' k2 s2' s3', sys_wait 1 regs_a (kst_with family (slot0 1)) = Ret (Switch (slot0 1) context0 k, s1') /\
    sys_exit regs_b (kst_with (kmem s1') (slot0 2)) = Ret (Switch (slot0 2) context0 k2, s2') /\
    k (kst_with (st64 (kmem s2') (regs_a + 80) 0) (slot0 1)) = Ret (Done 0, s3') /\
    k (kst_with (no_areas (kmem s2')) (slot0 1)) = Ret (Done (- EINVAL), kst_with (no_areas (kmem s2')) (slot0 1)).
Proof.
  destruct (exit_wakes_waiting_parent 1 (kst_with family (slot0 1)) 1 2 regs_a (table0_kok _ _)
              ltac:(split; [apply Z.leb_le|]; reflexivity) ltac:(split; [apply Z.leb_le|]; reflexivity) ltac:(discriminate))
    as (k & s1' & H1 & _ & H).
  - reflexivity.
  - reflexivity.
  - reflexivity.
  - vm_compute. reflexivity.
  - vm_compute. reflexivity.
  - vm_compute. reflexivity.
  - vm_compute. reflexivity.
  - vm_compute. discriminate.
  - destruct (H (kst_with (kmem s1') (slot0 2)) regs_b eq_refl eq_refl eq_refl eq_refl eq_refl eq_refl)
      as (k2 & s2' & H2 & _ & _ & _ & _ & Hf).
    set (sn := kst_with (st64 (kmem s2') (regs_a + 80) 0) (slot0 1)).
    destruct (Hf sn None sn eq_refl eq_refl) as (s3' & H3 & _).
    + apply (far_facts (kmem s2') 2). split; [apply Z.leb_le|]; reflexivity.
    + split; [apply con0_ok|reflexivity].
    + intros a. apply off_screen. split; [apply Z.leb_le|]; reflexivity.
    + apply status_none. apply (ld64_st64_same (kmem s2') (regs_a + 80) 0).
    + destruct (Hf (kst_with (no_areas (kmem s2')) (slot0 1)) (Some (- EINVAL)) (kst_with (no_areas (kmem s2')) (slot0 1)) eq_refl eq_refl)
        as (_ & H4 & _).
      * apply no_areas_facts.
      * split; [apply con0_ok|reflexivity].
      * intros a. apply off_screen. split; [apply Z.leb_le|]; reflexivity.
      * apply (status_refused _ _ _ _ _ NULL); [apply no_areas_area|reflexivity].
      * exists k, s1', k2, s2', s3'. split; [exact H1|]. split; [exact H2|]. split; [exact H3|exact H4].
Defined.

(** Bad requests: a number past the last call is answered [-ENOSYS], and a
    wait for a task that is not a child of the caller [-ECHILD], as unsigned
    numbers; neither changes anything. *)
Theorem bad_requests_refused fuel sym sysno regs s p c :
  table_kok s -> 0 <= p < MAX_TASK_COUNT -> 0 <= c < MAX_TASK_COUNT -> regs_ok regs ->
  _current s = task_slot s p -> ld64 (kmem s) (regs + 72) = c ->
  ppid_of (kmem s) (task_slot s c) <> pid_of (kmem s) (task_slot s p) ->
  do_syscall fuel sym SYS_WAIT regs s = Ret (Done (two64 - ECHILD), s) /\
  (SYS_MAX <= sysno -> do_syscall fuel sym sysno regs s = Ret (Done (two64 - ENOSYS), s)).
Proof.
  intros Htab Hp Hc Hr Hcur Harg Hpp. split.
  - unfold do_syscall. change (SYS_MAX <=? SYS_WAIT) with false. cbn [Z.eqb Pos.eqb SYS_WAIT SYS_SLEEP SYS_FORK SYS_GETPID SYS_EXIT].
    by rewrite (rbind_ret _ _ _ _ _ (sys_wait_not_child fuel s p c regs Htab Hp Hc Hr Hcur Harg Hpp)).
  - intros Hn. unfold do_syscall. by rewrite (proj2 (Z.leb_le _ _) Hn).
Qed.

Lemma bad_requests_refused_witness :
  do_syscall 1 (Symbols 0 0 0 0 0) SYS_WAIT regs_a (kst_with family (slot0 2)) =
    Ret (Done (two64 - ECHILD), kst_with family (slot0 2)).
Proof.
  refine (proj1 (bad_requests_refused 1 (Symbols 0 0 0 0 0) 9 regs_a (kst_with family (slot0 2)) 2 2 (table0_kok _ _) _ _ _ _ _ _)).
  - split; [apply Z.leb_le|]; reflexivity.
  - split; [apply Z.leb_le|]; reflexivity.
  - reflexivity.
  - reflexivity.
  - vm_compute. reflexivity.
  - vm_compute. discriminate.
Defined.

(** A fork with a full table: the entry [NULL] is not tested for, so that
    the copy of the address space is built at address 72 and the kernel faults
    storing its first pointer, at address 80. *)
Theorem fork_full_table_faults fuel sym regs s page fa :
  table_kok s -> (forall j, 1 <= j < MAX_TASK_COUNT -> state_of (kmem s) (task_slot s j) <> TASK_NOT_ALLOCATED) ->
  frame_alloc (vm_fa (k_vm s)) = Ret (page, fa) ->
  do_syscall fuel sym SYS_FORK regs s = Halt (Fault 80).
Proof.
  intros Htab Hfull Hfa. unfold do_syscall. change (SYS_MAX <=? SYS_FORK) with false.
  cbn [Z.eqb Pos.eqb SYS_WAIT SYS_SLEEP SYS_FORK SYS_GETPID SYS_EXIT]. apply kbind_Halt. unfold sys_fork.
  destruct (sched_allocate_task_ok s Htab) as [(i & Hi & Hs & _)|[_ H]]; [by destruct (Hfull i Hi)|].
  kstep H. rewrite kget_bind. apply kbind_Halt. unfold in_vm. apply klift_Halt. unfold vmem_clone.
  apply kbind_Halt. unfold vmem_init.
  assert (Hin : in_fa frame_alloc (k_vm s) = Ret (page, VmState fa (vmem_area_alloc (k_vm s)) (curr_vmem (k_vm s)) (cr3 (k_vm s)))).
  { unfold in_fa, klift. by rewrite Hfa. }
  kstep Hin. apply kbind_Halt. reflexivity.
Qed.

(** Every entry from 1 to [n] is runnable. *)
Fixpoint crowd (n : nat) : mem :=
  match n with
  | O => ∅
  | S n => st 4 (crowd n) (slot0 (Z.of_nat (S n)) + 40) TASK_RUNNABLE
  end.

Lemma crowd_state n j : 1 <= j <= Z.of_nat n -> state_of (crowd n) (slot0 j) = TASK_RUNNABLE.
Proof.
  induction n as [|n IH]; intros Hj; [lia|]. cbn [crowd]. destruct (Z.eq_dec j (Z.of_nat (S n))) as [->|Hne].
  - by rewrite state_of_st.
  - rewrite <- IH by lia. unfold state_of, slot0, sizeof_task. apply (ld_st_ne 4 4). unfold apart. lia.
Qed.

Lemma no_zones m : frame_alloc (FaState m [] 0) = Ret (NULL, FaState m [] 0).
Proof. reflexivity. Qed.

Definition full_table : mem := crowd (Z.to_nat 65536).

Lemma full_table_taken j : 1 <= j < MAX_TASK_COUNT -> state_of full_table (slot0 j) <> TASK_NOT_ALLOCATED.
Proof.
  intros Hj. unfold full_table. rewrite crowd_state; [discriminate|].
  unfold MAX_TASK_COUNT in Hj. change (Z.shiftl 1 16) with 65536 in Hj. lia.
Qed.

#[local] Opaque full_table.

Lemma fork_full_table_faults_witness :
  do_syscall 1 (Symbols 0 0 0 0 0) SYS_FORK regs_a (kst_with full_table (slot0 1)) = Halt (Fault 80).
Proof.
  exact (fork_full_table_faults 1 (Symbols 0 0 0 0 0) regs_a (kst_with full_table (slot0 1)) NULL
           (FaState full_table [] 0) (table0_kok _ _) full_table_taken (no_zones full_table)).
Defined.
