(* ===== verification/ForkExample.v ===== *)
(** * A task to fork, and to reap

    Task 1 of a table with no other task has the address space of FaultExample.v
    and a frame of its own as kernel stack. *)

From S2P Require Import Prelude Mem Common DList Buddy Paging FrameAlloc FrameRefine FrameZones FrameSession FrameInit.
From S2P Require Import FrameExample FrameClient Obj ObjSpec Vmem PageTable VmemSpec VmemMap AddrSpace Demand SpaceInit.
From S2P Require Import Destroy Clone CloneSpace ExampleRun SpaceExample FaultExample.
From S2P Require Import Multiboot Fb FbSpec Console Printk PrintkSpec ConsoleSpec Acpi Kst Arch Sched Apic Syscall SchedSpec SyscallSpec.
From S2P Require Import SchedClaims Machine MachineSim FirstSpace Thread FirstTask Fork Reap.

(** The linker's symbols of the examples. *)
Definition boot_syms : symbols := Symbols (2 * MB) (4 * MB) (4 * MB) (KERNEL_SECTIONS_START + 0x100000) (KERNEL_SECTIONS_START + 0x1000).

Definition fork_table : Z := kvm - 72 - sizeof_task.
Definition run_value (r : res (Z * fa_state)) : Z := match r with Ret (p, _) => p | Halt _ => NULL end.
Definition run_frames (r : res (Z * fa_state)) (s : fa_state) : fa_state := match r with Ret (_, s') => s' | Halt _ => s end.

Definition stack_run : res (Z * fa_state) := frame_alloc (vm_fa vs3).
Definition stack0 : Z := run_value stack_run.
Definition with_frames (fa : fa_state) (v : vm_state) : vm_state := VmState fa (vmem_area_alloc v) (curr_vmem v) (cr3 v).
Definition vs4 : vm_state := with_frames (run_frames stack_run (vm_fa vs3)) vs3.

(** Task 1 has the space at [kvm] and that stack; the other entries are free. *)
Definition entry1 : Z := fork_table + sizeof_task.
Definition with_entry (m : mem) (e top : Z) : mem := st 8 (st 4 (st 8 m e top) (e + 40) TASK_RUNNABLE) (e + 16) 1.
Definition parent_mem : mem := with_entry (vm_mem vs4) entry1 (stack0 + PAGE_SIZE).
Definition forking : kst :=
  Kst (set_vm vs4 parent_mem) con0 (replicate 11 0) fork_table 0 entry1 context0 (KERNEL_SECTIONS_START + 0x1100000) 0 0.

Definition call_answer (r : res (resum Z * kst)) : Z := match r with Ret (Done v, _) => v | _ => -1 end.
Definition second_state : Z := ld 4 (vm_mem vs4) (fork_table + 2 * sizeof_task + 40).

(** An address space with a frame taken. *)
Lemma space_frame_taken v vm root T L P fr U h ns (r := frame_alloc (vm_fa v)) :
  space (frames_ok True) v vm root T L P fr U h ns -> run_value r <> NULL ->
  exists m, with_frames (run_frames r (vm_fa v)) v = set_vm v m /\ run_value r ∉ L /\
    space (frames_ok True) (set_vm v m) vm root T (run_value r :: L) P fr U h ns /\ agree (frame_byte L) (vm_mem v) m.
Proof.
  intros Hs Hr. destruct (fc_alloc (ok := frames_ok True) (vm_fa v) L (vg_ok _ _ _ _ (sp_good _ _ _ _ _ _ _ _ _ _ Hs))) as
    [[H _]|(p & m & H & _ & HpL & Hok & Hag & Hout & _)].
  - destruct Hr. unfold r. by rewrite H.
  - unfold r. rewrite H. cbn [run_value run_frames]. exists m. split; [by destruct v|]. split; [done|]. split; [|done].
    apply (space_kept v vm root T L P fr U h ns m (p :: L) Hs Hok); [by intros x Hx; apply list_elem_of_further|].
    intros a [Ha|Ha]; [by apply Hag|]. apply Hout. by apply (sp_vm_out _ _ _ _ _ _ _ _ _ _ Hs).
Qed.

Lemma fork_checked :
  (stack0 =? NULL, second_state, call_answer (sys_fork 2 boot_syms (stack0 + PAGE_SIZE - sizeof_arch_regs) forking), lower_free parent_mem) =
  (false, 0, 2, true).
Proof. vm_compute. reflexivity. Qed.

Lemma checked_parts (p x y : Z) (b : bool) : (p =? NULL, x, y, b) = (false, 0, 2, true) -> p <> NULL /\ x = 0 /\ y = 2 /\ b = true.
Proof. intros [= H ? ? ?]. split; [by apply Z.eqb_neq|done]. Qed.

Lemma fork_run :
  stack0 <> NULL /\ second_state = 0 /\ call_answer (sys_fork 2 boot_syms (stack0 + PAGE_SIZE - sizeof_arch_regs) forking) = 2 /\
  lower_free parent_mem = true.
Proof. exact (checked_parts _ _ _ _ fork_checked). Qed.

Lemma second_free : state_of (kmem forking) (task_slot forking 2) = TASK_NOT_ALLOCATED.
Proof.
  change (ld 4 parent_mem (fork_table + 2 * sizeof_task + 40) = 0). destruct fork_run as (_ & H2 & _). rewrite <- H2. unfold parent_mem, with_entry, second_state, entry1, sizeof_task.
  generalize (vm_mem vs4), (stack0 + PAGE_SIZE), fork_table. intros m x b. rewrite !ld_st_ne by (unfold apart; lia). done.
Qed.

(** The entry of task 1, written below the structure of its space. *)
Lemma with_entry_fields m e top : 0 <= top < two64 -> let m' := with_entry m e top in
  ld64 m' e = top /\ state_of m' e = TASK_RUNNABLE /\ pid_of m' e = 1 /\ agree (fun a => ~ in_range e 44 a) m m'.
Proof.
  intros Ht m'. unfold m', with_entry, state_of, pid_of. split_and!.
  - rewrite !ld_st_ne by (unfold apart; lia). rewrite ld64_st64_same. by apply u64_small.
  - rewrite (ld_st_ne 8 4) by (unfold apart; lia). by rewrite (ld_st_same 4).
  - by rewrite (ld_st_same 8).
  - intros a Ha. unfold in_range in Ha. by rewrite !rd8_st_out by (cbn [Z.of_nat Pos.of_succ_nat]; lia).
Qed.

Lemma space_entry_written v root T L P fr U h ns e top :
  space (frames_ok True) v kvm root T L P fr U h ns -> (forall a, in_range e 44 a -> ~ fa_bytes (vm_fa v) a) -> e + 44 <= kvm ->
  0 <= top < two64 -> let m := with_entry (vm_mem v) e top in
  space (frames_ok True) (set_vm v m) kvm root T L P fr U h ns /\ agree (frame_byte L) (vm_mem v) m.
Proof.
  intros Hs Hout He Htop m. destruct (with_entry_fields (vm_mem v) e top Htop) as (_ & _ & _ & Hag). fold m in Hag.
  pose proof (vg_ok _ _ _ _ (sp_good _ _ _ _ _ _ _ _ _ _ Hs)) as Hok.
  assert (Hf : agree (frame_byte L) (vm_mem v) m).
  { eapply agree_weaken; [exact Hag|]. intros a Ha Hr. apply (Hout a Hr). by apply (fc_inside (ok := frames_ok True) (vm_fa v) L). }
  split; [|exact Hf]. apply (space_kept v kvm root T L P fr U h ns m L Hs).
  - apply (fc_outside (ok := frames_ok True) (vm_fa v) L m Hok). eapply agree_weaken; [exact Hag|]. intros a Ha Hr. by apply (Hout a).
  - done.
  - intros a [Ha|Ha]; [by apply Hf|]. apply Hag. unfold in_range in *. lia.
Qed.

Lemma set_vm_bytes v m : fa_bytes (vm_fa (set_vm v m)) = fa_bytes (vm_fa v).
Proof. done. Qed.

Lemma set_vm_zones v m : allocator_zones (vm_fa (set_vm v m)) = allocator_zones (vm_fa v).
Proof. done. Qed.

Lemma set_vm_mem v m : vm_mem (set_vm v m) = m.
Proof. done. Qed.

Lemma pages_more m T L L' P : (forall p, p ∈ L -> p ∈ L') -> pages_held m T L P -> pages_held m T L' P.
Proof. intros HL H p t i Ht Hi e Hp Ha. destruct (H p t i Ht Hi Hp Ha) as [H1 H2]. split; [by apply HL|done]. Qed.

Lemma table_outside_at s : (forall a, in_range (tasks s) (sizeof_task * (MAX_TASK_COUNT + 1)) a -> ~ fa_bytes (vm_fa (k_vm s)) a) -> table_outside s.
Proof. done. Qed.

Lemma two_tasks : 1 <= 2 < MAX_TASK_COUNT.
Proof. split; [done|by apply Z.ltb_lt]. Qed.

Lemma one_task : 1 <= 1 < MAX_TASK_COUNT.
Proof. split; [done|by apply Z.ltb_lt]. Qed.

(** The allocator's memory is above the screen. *)
Lemma fa1_below a : on_screen fb0 a -> ~ fa_bytes fa1 a.
Proof.
  intros Ha (z & Hz & Hb). apply list_elem_of_singleton in Hz as ->.
  assert (HN : (end_addr zone1 - start_addr zone1) / PAGE_SIZE = 12288) by done.
  unfold on_screen, fb0 in Ha. cbn [fb_addr fb_pitch fb_height] in Ha. unfold KERNEL_HIGHER_HALF_START in Ha.
  unfold zone_bytes in Hb. rewrite HN in Hb. destruct Hb as [Hw|[(k & Hk & Hw)|(p & Hp & Hw)]].
  - unfold in_range, zone1, array1, heads_bytes, KERNEL_DIRECT_PHYS_MAPPING_START in *; simpl zone_addr in Hw. lia.
  - rewrite zone1_bitmap in Hw by done. pose proof (zone1_bitmap_bytes k).
    unfold in_range, region1, KERNEL_DIRECT_PHYS_MAPPING_START in *. lia.
  - unfold in_range, page_addr, zone1, KERNEL_DIRECT_PHYS_MAPPING_START, PAGE_SIZE in *; simpl start_addr in Hw. lia.
Qed.

(** What the task of [forking] holds. *)
Lemma forking_parts : exists T L P fr h x, let m := parent_mem in
  space (frames_ok True) (set_vm vs4 m) kvm vs3_root T (stack0 :: L) P fr [x; h] h [x] /\ stack0 ∉ L /\ stack0 ∉ P /\
  pages_held m T (stack0 :: L) P /\ large_aligned m T /\
  owned m 4 vs3_root ++ [vs3_root] ⊆+ L /\ (forall p, p ∈ P -> p ∉ owned m 4 vs3_root ++ [vs3_root]) /\
  ld64 m entry1 = stack0 + PAGE_SIZE /\ state_of m entry1 = TASK_RUNNABLE /\ pid_of m entry1 = 1 /\
  forall a, KERNEL_SECTIONS_START - PAGE_SIZE <= a -> ~ fa_bytes (vm_fa vs4) a.
Proof.
  destruct vs3_space as (T & L & P & fr & h & x & Hs & HpL & HpP & HpT).
  destruct (space_frame_taken vs3 kvm vs3_root T L P fr [x; h] h [x] Hs (proj1 fork_run)) as (m & E & HqL & Hs4 & Hag4).
  fold stack_run in E, HqL, Hs4. fold stack0 in HqL, Hs4. change (vs4 = set_vm vs3 m) in E. rewrite <- E in Hs4.
  pose proof (vg_ok _ _ _ _ (sp_good _ _ _ _ _ _ _ _ _ _ Hs4)) as Hok4.
  pose proof (fc_frame (ok := frames_ok True) _ _ stack0 Hok4 (list_elem_of_here _ _)) as [Fa Fl Fh].
  assert (Hfab : fa_bytes (vm_fa vs4) = fa_bytes (vm_fa vs3)) by (rewrite E; apply set_vm_bytes).
  assert (Hout : forall a, KERNEL_SECTIONS_START - PAGE_SIZE <= a -> ~ fa_bytes (vm_fa vs4) a) by (rewrite Hfab; exact vs3_outside).
  assert (Htop : 0 <= stack0 + PAGE_SIZE < two64).
  { unfold KERNEL_DIRECT_PHYS_MAPPING_START, KERNEL_DIRECT_PHYS_MAPPING_SIZE, PAGE_SIZE in *. lia. }
  destruct (space_entry_written vs4 vs3_root T (stack0 :: L) P fr [x; h] h [x] entry1 (stack0 + PAGE_SIZE) Hs4) as [Hs5 Hag5].
  { intros a Ha. apply Hout. unfold in_range, entry1, fork_table, kvm, sizeof_task, PAGE_SIZE in *. lia. }
  { by apply Z.leb_le. }
  { exact Htop. }
  fold parent_mem in Hs5, Hag5. destruct (with_entry_fields (vm_mem vs4) entry1 (stack0 + PAGE_SIZE) Htop) as (B1 & B2 & B3 & _).
  fold parent_mem in B1, B2, B3.
  assert (Hm4 : vm_mem vs4 = m) by (rewrite E; apply set_vm_mem).
  pose proof (vg_tree _ _ _ _ (sp_good _ _ _ _ _ _ _ _ _ _ Hs)) as Htr.
  assert (Hown : owned parent_mem 4 vs3_root = owned (vm_mem vs3) 4 vs3_root).
  { apply (owned_ext (vm_mem vs3) parent_mem vs3_root T 4 0 vs3_root Htr); [|apply Htr]. intros k t i Ht Hi.
    rewrite (moved_entry (ok := frames_ok True) vs4 vs3_root T (stack0 :: L) parent_mem (sp_good _ _ _ _ _ _ _ _ _ _ Hs4) Hag5 k t i Ht Hi).
    rewrite Hm4. exact (moved_entry (ok := frames_ok True) vs3 vs3_root T L m (sp_good _ _ _ _ _ _ _ _ _ _ Hs) Hag4 k t i Ht Hi). }
  exists T, L, P, fr, h, x. cbv zeta. rewrite Hown.
  assert (HqP : stack0 ∉ P) by (intros Hq; apply HqL; exact (proj2 (proj2 (sp_pool _ _ _ _ _ _ _ _ _ _ Hs)) _ Hq)).
  destruct (vs3_owned_held T L P fr [x; h] h [x] Hs HpL HpP) as [HG1 HG2].
  split; [exact Hs5|]. split; [exact HqL|]. split; [exact HqP|]. split; [|split; [|]].
  - apply (moved_pages (ok := frames_ok True) vs4 vs3_root T (stack0 :: L) P parent_mem); [apply Hs4|exact Hag5|]. rewrite Hm4.
    apply (pages_more m T L); [intros y Hy; by apply list_elem_of_further|].
    apply (moved_pages (ok := frames_ok True) vs3 vs3_root T L P m); [apply Hs|exact Hag4|]. exact (vs3_pages_held T L P fr _ h _ Hs HpT HpL HpP).
  - apply (moved_large (ok := frames_ok True) vs4 vs3_root T (stack0 :: L) parent_mem); [apply Hs4|exact Hag5|]. rewrite Hm4.
    apply (moved_large (ok := frames_ok True) vs3 vs3_root T L m); [apply Hs|exact Hag4|]. exact (vs3_large_aligned T L P fr _ h _ Hs).
  - split; [exact HG1|]. split; [exact HG2|]. split; [exact B1|]. split; [exact B2|]. split; [exact B3|exact Hout].
Qed.

Lemma forking_outside : (forall a, KERNEL_SECTIONS_START - PAGE_SIZE <= a -> ~ fa_bytes (vm_fa vs4) a) -> table_outside forking.
Proof.
  intros Hout. apply table_outside_at. intros a Ha. change (k_vm forking) with (set_vm vs4 parent_mem). rewrite set_vm_bytes. apply Hout.
  change (tasks forking) with fork_table in Ha. unfold in_range, fork_table, kvm, sizeof_task, PAGE_SIZE in *. lia.
Qed.

(** The current task of [forking] can be forked. *)
Lemma forking_forkable : exists T L P fr U h x,
  forkable (ok := frames_ok True) forking 1 vs3_root T L P fr U h [x] stack0.
Proof.
  destruct forking_parts as (T & L & P & fr & h & x & Hs & HqL & HqP & Hp & Hl & _ & _ & B1 & B2 & B3 & Hout).
  exists T, (stack0 :: L), P, fr, [x; h], h, x. split.
  - reflexivity.
  - exact (forking_outside Hout).
  - exact one_task.
  - exact eq_refl.
  - exact B2.
  - exact B3.
  - exact Hs.
  - exact Hp.
  - exact Hl.
  - split; [apply list_elem_of_here|exact HqP].
  - exact B1.
Qed.

Lemma vs4_zones : allocator_zones (vm_fa vs4) = [zone1].
Proof.
  destruct vs3_space as (T3 & L3 & P3 & fr3 & h3 & x3 & Hs3 & _).
  destruct (space_frame_taken vs3 kvm vs3_root T3 L3 P3 fr3 [x3; h3] h3 [x3] Hs3 (proj1 fork_run)) as (m & E & _).
  fold stack_run in E. change (vs4 = set_vm vs3 m) in E. rewrite E, set_vm_zones. exact vs3_zone.
Qed.

Lemma forking_fine L : frames_ok True (vm_fa (set_vm vs4 parent_mem)) L -> frames_fine (vm_fa (set_vm vs4 parent_mem)) L.
Proof.
  intros H. apply lower_fine; [exact H|rewrite set_vm_zones; exact vs4_zones|].
  change (lower_free parent_mem = true). exact (proj2 (proj2 (proj2 fork_run))).
Qed.

(** The screen is outside the allocator's memory, and so are the kernel's variables. *)
Lemma screen_outside a : on_screen fb0 a -> ~ fa_bytes (vm_fa vs4) a.
Proof.
  destruct forking_parts as (T & L & P & fr & h & x & Hs & _). pose proof (vg_ok _ _ _ _ (sp_good _ _ _ _ _ _ _ _ _ _ Hs)) as Hok.
  change (vm_fa (set_vm vs4 parent_mem)) with (set_mem (vm_fa vs4) parent_mem) in Hok.
  intros Ha Hb. apply (fa1_below a Ha). assert (Hz : fa_bytes (vm_fa vs4) = fa_bytes fa1).
  { unfold fa_bytes. by rewrite vs4_zones, fa1_zones. }
  by rewrite <- Hz.
Qed.

Lemma forking_laid_out : laid_out forking.
Proof.
  split.
  - reflexivity.
  - reflexivity.
  - intros i Hi. change (slot_of (tasks forking) i) with (fork_table + sizeof_task * i). change (sched_context forking) with context0.
    unfold MAX_TASK_COUNT, context0, fork_table, kvm, sizeof_task in *. change (Z.shiftl 1 16) with 65536 in Hi. lia.
  - split; [apply con0_ok|reflexivity].
  - intros a Ha. unfold in_tasks in Ha. change (tasks forking) with fork_table in Ha. change (con_fb (k_con forking)) with fb0.
    unfold on_screen, in_range, fork_table, kvm, fb0, KERNEL_SECTIONS_START, KERNEL_HIGHER_HALF_START, sizeof_task in *.
    cbn [fb_addr fb_pitch fb_height]. lia.
  - left. change (u64 (lapic_ptr forking + APIC_EOI)) with 176. change (tasks forking) with fork_table.
    unfold fork_table, kvm, sizeof_task, KERNEL_SECTIONS_START. lia.
Qed.

Lemma forking_vmem : kok (vm_pml4 (sched_vmem forking)) 8 = true /\ sched_vmem forking <> task_slot forking 1 + 72.
Proof.
  change (sched_vmem forking) with (KERNEL_SECTIONS_START + 0x1100000). change (task_slot forking 1) with (fork_table + sizeof_task * 1).
  split; [reflexivity|]. unfold fork_table, kvm, sizeof_task. lia.
Qed.

(** Were it dead, it could be reaped. *)
Lemma forking_reapable : exists T L P fr U h x,
  reapable (ok := frames_fine) forking 1 vs3_root T L P fr U h [x] stack0.
Proof.
  destruct forking_parts as (T & L & P & fr & h & x & Hs & HqL & HqP & _ & _ & G1 & G2 & B1 & _ & _ & Hout).
  exists T, (stack0 :: L), P, fr, [x; h], h, x. split.
  - exact forking_laid_out.
  - exact (forking_outside Hout).
  - exact one_task.
  - exact (space_as _ _ _ _ _ _ _ _ _ _ _ _ Hs (forking_fine _ (vg_ok _ _ _ _ (sp_good _ _ _ _ _ _ _ _ _ _ Hs)))).
  - exact forking_vmem.
  - intros a Ha. change (k_vm forking) with (set_vm vs4 parent_mem). rewrite set_vm_bytes. apply (screen_outside a Ha).
  - split; [exact (submseteq_cons stack0 _ _ G1)|exact G2].
  - split; [apply list_elem_of_here|]. split; [|exact HqP]. intros Hq. apply HqL. exact (elem_of_submseteq _ _ _ Hq G1).
  - exact B1.
Qed.
