(* ===== verification/MachineClaims.v ===== *)
(** * Properties of all runs of the machine

    A run here is one of [mreach]: interrupts arrive in user programs and in the
    scheduler's loop, never inside a system call, which the kernel would allow;
    the number given to [wait] is one of the table, which the kernel does not
    test; and what memory management writes, and what is stored for a user, is
    outside the task table. What interrupts inside calls do is the subject of
    PreemptClaims.v, and some of it contradicts what is shown here. *)

From stdpp Require Import functions.
From S2P Require Import Prelude Mem Common DList Buddy Paging FrameAlloc Obj Vmem Multiboot Fb FbSpec Console Printk PrintkSpec ConsoleSpec.
From S2P Require Import VmemSpec Acpi Kst Arch Sched Apic Syscall SchedSpec SyscallSpec SchedClaims ProcSpec Machine MachineSim.


(** [C11] No wake-up is lost: at every moment of a run of the machine of Machine.v,
    whose interrupts do not arrive inside system calls, a task that waits for
    a child of its own waits for one that is not dead: the child's exit has not
    happened, or has made the parent runnable. *)
Theorem no_wakeup_lost fuel sym a M M' :
  life_inv a -> rep fuel a M -> mreach fuel sym M M' ->
  forall i c, 1 <= i < MAX_TASK_COUNT -> 0 <= c < MAX_TASK_COUNT ->
    let m := kmem (m_s M') in let t := slot_of (tasks (m_s M')) in
    state_of m (t i) = TASK_WAITING -> wait_of m (t i) = c -> ppid_of m (t c) = i ->
    state_of m (t c) <> TASK_ZOMBIE.
Proof.
  intros Ha Hr Hm i c Hi Hc m t Hw Hwc Hp. destruct (sim_reach fuel sym a M M' Ha Hr Hm) as (b & _ & Hb & R).
  pose proof (rp_table _ _ _ R i ltac:(lia)) as Ei. pose proof (rp_table _ _ _ R c Hc) as Ec. fold m in Ei, Ec.
  assert (Hz : st_of b c <> Zombie).
  { apply (li_no_lost _ b Hb i c).
    - by intros [].
    - apply (bool_decide_eq_true_1 _). unfold st_of. rewrite <- (state_is _ _ _ _ Waiting Ei). unfold t in Hw. by rewrite Hw.
    - rewrite <- (en_wait _ _ _ _ Ei). exact Hwc.
    - rewrite <- (en_parent _ _ _ _ Ec). exact Hp. }
  intros E. apply Hz, (bool_decide_eq_true_1 _). unfold st_of. rewrite <- (state_is _ _ _ _ Zombie Ec). unfold t in E. by rewrite E.
Qed.

(** [C13] A call that goes on is at a good place, in the runs of the machine of
    Machine.v, whose interrupts do not arrive inside system calls and whose
    memory management stays out of the task table: when a task suspended in the
    kernel has the processor again, its sleep returns 0, or its wait finds the
    child it waited for dead, so that the assertion after the switch holds and
    the call goes on to free the child's entry. No task that has died has the
    processor again in such a run. (With an interrupt between the two stores of
    [sys_wait] the assertion can fail.) *)
Theorem resumed_call_in_place fuel sym a M M' k :
  life_inv a -> rep fuel a M -> mreach fuel sym M M' -> m_kont M' (m_at M') = KCall k ->
  let m := kmem (m_s M') in let t := slot_of (tasks (m_s M')) in
  exists i, 1 <= i < MAX_TASK_COUNT /\ m_at M' = t i /\ state_of m (t i) = TASK_RUNNABLE /\
    (k (m_s M') = Ret (Done 0, m_s M') \/
     exists c regs, 0 <= c < MAX_TASK_COUNT /\ state_of m (t c) = TASK_ZOMBIE /\ ppid_of m (t c) = i /\
       k (m_s M') = rbind (wait_finish fuel regs (t c) c) (fun v => rret (u64 v)) (m_s M')).
Proof.
  intros Ha Hr Hm Hk m t. destruct (sim_reach fuel sym a M M' Ha Hr Hm) as (b & _ & Hb & R).
  destruct (at_task fuel b M' Hb R (KCall k) Hk (or_intror (or_intror (ex_intro _ k eq_refl)))) as (i & Hn & Hi & Hst & Hat & _ & Hki).
  pose proof (rp_table _ _ _ R i ltac:(lia)) as Ei. exists i. split; [done|]. split; [done|].
  split; [unfold st_of in Hst; unfold m, t; rewrite (en_state _ _ _ _ Ei), Hst; done|].
  pose proof (li_place _ b Hb i) as Hpl. unfold place_ok in Hpl. rewrite Hst in Hpl.
  destruct (places b i) as [| |c|] eqn:Hp; cbn [kont_is] in Hki.
  - destruct Hki as [?|(r & ? & _)]; done.
  - destruct Hki as (r & [= <-] & Hret). left. apply Hret.
  - destruct Hki as (r & regs & [= <-] & _ & Hc & Hret). right. exists c, regs. destruct Hpl as [_ [?|(_ & Hz & Hpc)]]; [done|].
    pose proof (rp_table _ _ _ R c Hc) as Ec. assert (Hzs : state_of m (t c) = TASK_ZOMBIE).
    { unfold m, t. rewrite (en_state _ _ _ _ Ec). unfold st_of in Hz. by rewrite Hz. }
    split; [done|]. split; [done|]. split; [unfold m, t; by rewrite (en_parent _ _ _ _ Ec)|].
    rewrite Hret. unfold m, t in Hzs. by rewrite Hzs.
  - by destruct Hpl.
Qed.

(** ** An instance: a parent and its child *)

(** Tasks 1 and 2, the second a child of the first. *)
Definition parent_and_child (st1 st2 : tstate) (pl1 pl2 : place) : sys :=
  Sys (<[1 := Proc st1 0 2 0 0 0]> (<[2 := Proc st2 1 0 0 0 0]> (fun _ => Proc Free 0 0 0 0 0)))
      (<[1 := pl1]> (<[2 := pl2]> (fun _ => PUser))) 100 None.

Definition family_mem (st1 st2 : tstate) : mem :=
  let m := st 8 (st 8 (st 4 ∅ (slot0 1 + 40) (state_code st1)) (slot0 1 + 16) 1) (slot0 1 + 32) 2 in
  let m := st 8 (st 8 (st 4 m (slot0 2 + 40) (state_code st2)) (slot0 2 + 16) 2) (slot0 2 + 24) 1 in
  st 8 m (regs_a + 72) 2.

Lemma slot0_of i : slot0 i = slot_of table0 i.
Proof. done. Qed.

Lemma empty_ld n a : ld n ∅ a = 0.
Proof. revert a. induction n as [|n IH]; intros a; [done|]. change (rd8 ∅ a + 256 * ld n ∅ (a + 1) = 0). by rewrite IH. Qed.

Lemma family_table st1 st2 f :
  f 1 = Proc st1 0 2 0 0 0 -> f 2 = Proc st2 1 0 0 0 0 -> (forall i, i <> 1 -> i <> 2 -> f i = Proc Free 0 0 0 0 0) ->
  table_is (family_mem st1 st2) table0 f.
Proof.
  intros F1 F2 F3 i Hi. unfold MAX_TASK_COUNT in Hi. change (Z.shiftl 1 16) with 65536 in Hi.
  unfold family_mem, regs_a, slot0, table0, sizeof_task, KERNEL_SECTIONS_START.
  destruct (decide (i = 1)) as [->|N1]; [|destruct (decide (i = 2)) as [->|N2]]; [rewrite F1|rewrite F2|rewrite F3 by done];
    split; unfold slot_of, sizeof_task, deadline_of, sleep_of; cbn [p_state p_parent p_wait p_exit p_deadline p_wake];
    field_simp; rewrite ?empty_ld; first [done | by intros [] | by destruct st1, st2].
Qed.

(** The machine at the scheduler's look at task 1, with the contexts [k1], [k2]. *)
Definition family_machine (st1 st2 : tstate) (k1 k2 : kont) : machine :=
  Machine (kst_with (family_mem st1 st2) NULL)
    (<[context0 := KLook 1]> (<[slot0 1 := k1]> (<[slot0 2 := k2]> (fun _ => KUser)))) context0.

Lemma table0_off_screen a : in_range table0 (sizeof_task * (MAX_TASK_COUNT + 1)) a -> ~ on_screen fb0 a.
Proof.
  unfold on_screen, in_range, table0, fb0, KERNEL_SECTIONS_START, KERNEL_HIGHER_HALF_START, sizeof_task.
  cbn [fb_addr fb_pitch fb_height]. lia.
Qed.

Lemma context0_apart i : 0 <= i < MAX_TASK_COUNT -> context0 <> slot0 i.
Proof.
  unfold MAX_TASK_COUNT, context0, slot0, table0, sizeof_task. change (Z.shiftl 1 16) with 65536. lia.
Qed.

Lemma family_laid_out m : laid_out (kst_with m NULL).
Proof.
  split.
  - apply table0_kok.
  - done.
  - apply context0_apart.
  - split; [apply con0_ok|done].
  - intros a. apply table0_off_screen.
  - left. change (u64 (lapic_ptr (kst_with m NULL) + APIC_EOI)) with 176. cbn [tasks kst_with]. unfold table0, KERNEL_SECTIONS_START. lia.
Qed.

Lemma family_rep fuel st1 st2 pl1 pl2 k1 k2 :
  kont_is fuel table0 pl1 k1 -> kont_is fuel table0 pl2 k2 ->
  rep fuel (parent_and_child st1 st2 pl1 pl2) (family_machine st1 st2 k1 k2).
Proof.
  intros H1 H2. split; cbn [m_s m_kont m_at family_machine]; try done.
  - apply family_laid_out.
  - apply family_table; cbn [parent_and_child procs].
    + apply fn_lookup_insert.
    + rewrite fn_lookup_insert_ne by done. apply fn_lookup_insert.
    + intros i N1 N2. by rewrite !fn_lookup_insert_ne by done.
  - intros i Hi Hst. cbn [tasks kst_with]. change (slot_of table0 i) with (slot0 i).
    rewrite fn_lookup_insert_ne by (apply context0_apart; lia).
    unfold st_of in Hst. cbn [parent_and_child procs places] in *.
    destruct (decide (1 = i)) as [<-|N1]; [by rewrite !fn_lookup_insert|]. rewrite !(fn_lookup_insert_ne _ 1) in * by done.
    rewrite (fn_lookup_insert_ne _ (slot0 1)) by (change (slot_of table0 1 <> slot_of table0 i); by intros E%slot_inj).
    destruct (decide (2 = i)) as [<-|N2]; [by rewrite !fn_lookup_insert|]. by rewrite fn_lookup_insert_ne in Hst.
Qed.

Lemma family_life {L} st1 st2 pl1 pl2 :
  place_ok (parent_and_child st1 st2 pl1 pl2) 1 -> place_ok (parent_and_child st1 st2 pl1 pl2) 2 ->
  (~ L 1 -> st1 = Waiting -> st2 <> Zombie) -> (st2 = Waiting -> False) ->
  life_inv_but L (parent_and_child st1 st2 pl1 pl2).
Proof.
  intros H1 H2 H3 H4. split.
  - intros i. destruct (decide (1 = i)) as [<-|N1]; [done|]. destruct (decide (2 = i)) as [<-|N2]; [done|].
    unfold place_ok, st_of. cbn [parent_and_child procs places]. rewrite !fn_lookup_insert_ne by done. by left.
  - done.
  - done.
  - intros i Hi. cbn [parent_and_child procs]. destruct (decide (1 = i)) as [<-|N1]; [by rewrite fn_lookup_insert|].
    rewrite fn_lookup_insert_ne by done. destruct (decide (2 = i)) as [<-|N2]; [by rewrite fn_lookup_insert|].
    rewrite fn_lookup_insert_ne by done. cbn [p_parent]. lia.
  - intros i. cbn [parent_and_child procs]. destruct (decide (1 = i)) as [<-|N1]; [by rewrite fn_lookup_insert|].
    rewrite fn_lookup_insert_ne by done. destruct (decide (2 = i)) as [<-|N2]; [by rewrite fn_lookup_insert|].
    by rewrite fn_lookup_insert_ne.
  - intros i c. unfold st_of. cbn [parent_and_child procs]. destruct (decide (1 = i)) as [<-|N1].
    + rewrite fn_lookup_insert. cbn [p_state p_wait]. intros HL Hw <-. rewrite fn_lookup_insert_ne, fn_lookup_insert by done.
      intros _. by apply H3.
    + rewrite fn_lookup_insert_ne by done. destruct (decide (2 = i)) as [<-|N2].
      * rewrite fn_lookup_insert. cbn [p_state]. by intros _ ?%H4.
      * by rewrite fn_lookup_insert_ne.
Qed.

(** ** Runs of the instance *)

Lemma visit_runs fuel sym M i :
  m_kont M (m_at M) = KLook i -> table_kok (m_s M) -> 0 <= i < MAX_TASK_COUNT ->
  let t := slot_of (tasks (m_s M)) i in may_run (m_s M) t = true ->
  exists k, mstep fuel sym M
    (Machine (switched (woken (m_s M) t) t) (<[sched_context (m_s M) := KVisit i k]> (m_kont M)) t).
Proof.
  intros Hk Ht Hi t Hm. pose proof (sched_visit_ok fuel i (m_s M) Ht Hi) as H. cbv zeta in H. rewrite task_slot_of in H.
  fold t in H. rewrite Hm in H. destruct H as (k & H & _). exists k. exact (S_visit fuel sym M i _ _ Hk H).
Qed.

Lemma visit_skips fuel sym M i :
  m_kont M (m_at M) = KLook i -> table_kok (m_s M) -> 0 <= i < MAX_TASK_COUNT ->
  may_run (m_s M) (slot_of (tasks (m_s M)) i) = false ->
  mstep fuel sym M (Machine (m_s M) (<[m_at M := KLook (next_index i)]> (m_kont M)) (m_at M)).
Proof.
  intros Hk Ht Hi Hm. pose proof (sched_visit_ok fuel i (m_s M) Ht Hi) as H. cbv zeta in H. rewrite task_slot_of, Hm in H.
  exact (S_visit fuel sym M i _ _ Hk H).
Qed.

(** What is left of the parent's wait for task 2. *)
Definition wait_kont (fuel : nat) : rest Z := fun s =>
  if state_of (kmem s) (slot0 2) =? TASK_ZOMBIE
  then rbind (wait_finish fuel regs_a (slot0 2) 2) (fun v => rret (u64 v)) s
  else Halt (Panic "tasks[child_pid].state == TASK_ZOMBIE").

Lemma wait_kont_is fuel : kont_is fuel table0 (PWait 2) (KCall (wait_kont fuel)).
Proof. exists (wait_kont fuel), regs_a. split; [done|]. split; [done|]. split; [split; [done|]|done]. by apply Z.ltb_lt. Qed.

Definition waiting_family : sys := parent_and_child Waiting Runnable (PWait 2) PUser.
Definition waiting_machine (fuel : nat) : machine := family_machine Waiting Runnable (KCall (wait_kont fuel)) KUser.

Lemma waiting_life : life_inv waiting_family.
Proof. apply family_life; [split; [done|by left]|by right|done|done]. Qed.

Lemma waiting_rep fuel : rep fuel waiting_family (waiting_machine fuel).
Proof. apply family_rep; [apply wait_kont_is|by left]. Qed.

Definition no_symbols : symbols := Symbols 0 0 0 0 0.

(** The scheduler passes over the parent and runs the child. *)
Lemma child_runs fuel : exists M, mreach fuel no_symbols (waiting_machine fuel) M /\ m_at M = slot0 2 /\
  tasks (m_s M) = table0 /\ state_of (kmem (m_s M)) (slot0 1) = TASK_WAITING /\ wait_of (kmem (m_s M)) (slot0 1) = 2 /\
  ppid_of (kmem (m_s M)) (slot0 2) = 1.
Proof.
  assert (S1 : mstep fuel no_symbols (waiting_machine fuel)
    (Machine (kst_with (family_mem Waiting Runnable) NULL) (<[context0 := KLook 2]> (m_kont (waiting_machine fuel))) context0)).
  { apply (visit_skips fuel no_symbols (waiting_machine fuel) 1); [apply fn_lookup_insert|apply table0_kok| |by vm_compute].
    split; [done|by apply Z.ltb_lt]. }
  destruct (visit_runs fuel no_symbols (Machine (kst_with (family_mem Waiting Runnable) NULL)
              (<[context0 := KLook 2]> (m_kont (waiting_machine fuel))) context0) 2) as [k S2];
    [apply fn_lookup_insert|apply table0_kok|split; [done|by apply Z.ltb_lt]|by vm_compute|].
  eexists. split; [eapply mreach_step; [eapply mreach_step; [constructor|exact S1]|exact S2]|].
  split; [done|]. split; [done|]. split; [by vm_compute|]. split; by vm_compute.
Qed.

Lemma no_wakeup_lost_witness : exists M, mreach 5 no_symbols (waiting_machine 5) M /\ m_at M = slot0 2 /\
  state_of (kmem (m_s M)) (slot0 1) = TASK_WAITING /\ state_of (kmem (m_s M)) (slot0 2) <> TASK_ZOMBIE.
Proof.
  destruct (child_runs 5) as (M & HM & Hat & Et & H1 & H2 & H3). exists M. split; [exact HM|]. split; [exact Hat|]. split; [exact H1|].
  pose proof (no_wakeup_lost 5 no_symbols waiting_family _ M waiting_life (waiting_rep 5) HM 1 2) as H. rewrite Et in H.
  apply H; [split; [apply Z.leb_le|apply Z.ltb_lt]; reflexivity|split; [apply Z.leb_le|apply Z.ltb_lt]; reflexivity|exact H1|exact H2|exact H3].
Defined.


(** The parent woken, its child dead. *)
Definition woken_family : sys := parent_and_child Runnable Zombie (PWait 2) PDead.
Definition dead_kont : rest Z := fun _ => Halt (Panic "reached unreachable").
Definition woken_machine (fuel : nat) : machine := family_machine Runnable Zombie (KCall (wait_kont fuel)) (KCall dead_kont).

Lemma woken_life : life_inv woken_family.
Proof. apply family_life; [split; [done|right; done]|by left|done|done]. Qed.

Lemma woken_rep fuel : rep fuel woken_family (woken_machine fuel).
Proof. apply family_rep; [apply wait_kont_is|by exists dead_kont]. Qed.

Lemma resumed_call_in_place_witness : exists M i, mreach 5 no_symbols (woken_machine 5) M /\
  m_kont M (m_at M) = KCall (wait_kont 5) /\ state_of (kmem (m_s M)) (slot_of (tasks (m_s M)) i) = TASK_RUNNABLE.
Proof.
  destruct (visit_runs 5 no_symbols (woken_machine 5) 1) as [k S1];
    [apply fn_lookup_insert|apply table0_kok|split; [apply Z.leb_le|apply Z.ltb_lt]; reflexivity|vm_compute; reflexivity|].
  match type of S1 with mstep _ _ _ ?M => assert (HM : mreach 5 no_symbols (woken_machine 5) M) by (eapply mreach_step; [constructor|exact S1]);
    assert (Hk : m_kont M (m_at M) = KCall (wait_kont 5)) end.
  { cbn [m_kont m_at woken_machine family_machine m_s sched_context kst_with tasks]. change (slot_of table0 1) with (slot0 1).
    rewrite fn_lookup_insert_ne by (apply context0_apart; split; [apply Z.leb_le|apply Z.ltb_lt]; reflexivity).
    rewrite fn_lookup_insert_ne by (apply context0_apart; split; [apply Z.leb_le|apply Z.ltb_lt]; reflexivity).
    apply fn_lookup_insert. }
  destruct (resumed_call_in_place 5 no_symbols woken_family _ _ _ woken_life (woken_rep 5) HM Hk) as (i & _ & _ & Hs & _).
  eexists _, i. split; [exact HM|]. split; [exact Hk|exact Hs].
Defined.
