(* ===== verification/FirstClaims.v ===== *)
(** * Properties of the first task *)

From stdpp Require Import functions.
From S2P Require Import Prelude Mem Common DList Buddy Paging FrameAlloc FrameRefine FrameZones FrameSession FrameInit.
From S2P Require Import FrameExample FrameClient Obj ObjSpec Vmem PageTable VmemSpec VmemMap AddrSpace Demand SpaceInit ExampleRun SpaceExample.
From S2P Require Import Multiboot Fb FbSpec Console Printk PrintkSpec ConsoleSpec Acpi Kst Arch Sched Apic Syscall SchedSpec SyscallSpec.
From S2P Require Import SchedClaims ProcSpec Machine MachineSim MachineClaims FirstSpace Thread FirstTask Fork Reap ForkExample.

(** [C4] The first task: with [first_task_frames] frames of the allocator's zones not
    in use, [setup_init_task] returns 0; with fewer it may also answer [-ENOMEM],
    or fault when no memory is left for an area's record. When it returns 0 the
    task 1 is ready to be switched to: runnable, with a well-formed address
    space that translates the direct mapping of all physical memory, the
    kernel's sections and the page of the user program, and nothing else, and
    that has the area of the stack; with a kernel stack of its own, on which
    [context_switch] finds the address of [pop_and_iret] and below it the
    registers of ring 3 at the program's entry. No other variable of the kernel
    is written. *)
Theorem first_task_ready (F : Prop) s L P fr U sym N fuel :
  table_kok s -> table_outside s -> pool_in (frames_ok F) (vm_fa (k_vm s), vmem_area_alloc (k_vm s)) P fr U L ->
  obj_size (vmem_area_alloc (k_vm s)) = sizeof_vmem_area -> state_of (kmem s) (task_slot s 1) = TASK_NOT_ALLOCATED ->
  symbols_ok sym N -> (N < fuel)%nat ->
  ((exists s', setup_init_task fuel sym s = Ret (- ENOMEM, s')) \/ setup_init_task fuel sym s = Halt (Fault NULL)) /\
    capacity (vm_fa (k_vm s)) < Z.of_nat (length L) + first_task_frames \/
  exists s', setup_init_task fuel sym s = Ret (0, s') /\ first_task (ok := frames_ok F) s sym N s'.
Proof. intros H1 H2 H3 H4 H5 H6 H7. by apply (setup_init_task_ok s L P fr U sym N fuel). Qed.

(** Memory that is zero. *)
Lemma zero_ld n m a : (forall x, in_range a (Z.of_nat n) x -> rd8 m x = 0) -> ld n m a = 0.
Proof. intros H. rewrite <- (empty_ld n a). apply ld_ext. intros x Hx. by rewrite H. Qed.


(** ** The kernel from its start *)

(** Before [sched_start]: an empty table that the allocator does not hand out, an
    empty pool of areas, and a clock that has not ticked. *)
Record before_start (F : Prop) (s : kst) (L : list Z) : Prop := {
  bs_layout : laid_out s;
  bs_outside : table_outside s;
  bs_pool : pool_in (frames_ok F) (vm_fa (k_vm s), vmem_area_alloc (k_vm s)) [] [] [] L;
  bs_size : obj_size (vmem_area_alloc (k_vm s)) = sizeof_vmem_area;
  bs_empty : forall a, in_tasks s a -> rd8 (kmem s) a = 0;
  bs_clock : sched_timer s = 0;
  bs_nobody : _current s = NULL;
}.

Lemma one_entry s : in_range (task_slot s 1) sizeof_task (task_slot s 1 + 40) /\ forall a, in_range (task_slot s 1) sizeof_task a -> in_tasks s a.
Proof.
  split; [unfold in_range, sizeof_task; lia|]. intros a. apply (in_tasks_entry s 1). split; [done|by apply Z.ltb_lt].
Qed.

Lemma empty_free s : (forall a, in_tasks s a -> rd8 (kmem s) a = 0) -> state_of (kmem s) (task_slot s 1) = TASK_NOT_ALLOCATED.
Proof.
  intros Hz. change (ld 4 (kmem s) (task_slot s 1 + 40) = 0). apply zero_ld. intros x Hx. apply Hz, (proj2 (one_entry s)).
  unfold in_range, sizeof_task in *. lia.
Qed.



(** ** An instance: the allocator of FrameExample.v, and an empty table *)

Definition unstarted : kst :=
  Kst vs0 con0 (replicate 11 0) table0 0 NULL context0 (KERNEL_SECTIONS_START + 0x1100000) 0 0.

Lemma boot_syms_ok : symbols_ok boot_syms 1.
Proof. split; [split; [by exists 1|done]|done|done|split; [by exists 1024|done]]. Qed.

Lemma mem1_low a : KERNEL_SECTIONS_START <= a -> rd8 mem1 a = 0.
Proof.
  intros Ha. unfold rd8. destruct (mem1 !! a) as [v|] eqn:E; [|done]. exfalso.
  assert (H : forallb (fun x => x.1 <? KERNEL_SECTIONS_START) (map_to_list mem1) = true) by (vm_compute; reflexivity).
  apply elem_of_map_to_list in E. rewrite forallb_forall in H. apply list_elem_of_In in E. specialize (H _ E). simpl in H. lia.
Qed.

Lemma unstarted_table a : in_tasks unstarted a -> KERNEL_SECTIONS_START <= a.
Proof. by intros [Ha _]. Qed.

Lemma unstarted_before F : before_start F unstarted [].
Proof.
  split; try done.
  - destruct (family_laid_out mem1) as [H1 H2 H3 [H4 H5] H6 H7]. by split.
  - intros a Ha. apply unstarted_table in Ha. apply sections_outside. unfold PAGE_SIZE. lia.
  - apply vs0_pool.
  - intros a Ha. by apply mem1_low, unstarted_table.
Qed.

(** It has frames enough. *)
Lemma unstarted_room : ~ capacity (vm_fa (k_vm unstarted)) < Z.of_nat (length ([] : list Z)) + first_task_frames.
Proof. change (capacity (vm_fa (k_vm unstarted))) with (capacity fa1). unfold capacity. rewrite fa1_zones. by apply Z.nlt_ge, Z.leb_le. Qed.


Lemma first_task_ready_witness :
  exists s', setup_init_task 2 boot_syms unstarted = Ret (0, s') /\ first_task (ok := frames_ok True) unstarted boot_syms 1 s'.
Proof.
  pose proof (unstarted_before True) as H.
  destruct (first_task_ready True unstarted [] [] [] [] boot_syms 1 2) as [[_ Hfull]|Hs].
  - apply (lo_table _ (bs_layout _ _ _ H)).
  - apply (bs_outside _ _ _ H).
  - apply (bs_pool _ _ _ H).
  - apply (bs_size _ _ _ H).
  - apply empty_free, (bs_empty _ _ _ H).
  - exact boot_syms_ok.
  - lia.
  - by destruct unstarted_room.
  - exact Hs.
Defined.






