(* ===== verification/StartClaims.v ===== *)
(** * Properties of the kernel's start

    The frame allocator made from the boot loader's memory map, and the state
    [kmain] hands to the scheduler. *)

From S2P Require Import Prelude Mem Common DList Buddy Paging FrameAlloc FrameRefine FrameZones FrameSession FrameInit FrameClient FrameBoot.
From S2P Require Import Obj ObjSpec Vmem Multiboot Fb FbSpec Console Printk PrintkSpec ConsoleSpec Acpi Kst Arch Sched Apic KMain SchedSpec SyscallSpec SchedClaims MachineSim.
From S2P Require Import MachineClaims FirstSpace FirstTask ForkExample FirstClaims.

(** The line printed at the end of [frame_alloc_init] leaves the allocator as it is,
    when the screen is not in its memory. *)
Record init_printed (C : Prop) (fb : fb_state) (fa : fa_state) (fa2 : fa_state) (c2 : con) : Prop := {
  ip_zones : allocator_zones fa2 = allocator_zones fa;
  ip_ready : frames_ok C fa2 [];
  ip_memory : fa_mem fa2 = con_mem c2;
  ip_console : cons_ok c2 /\ con_fb c2 = fb;
  ip_screen : agree (fun a => ~ on_screen fb a) (fa_mem fa) (fa_mem fa2);
}.

Lemma init_prints C fuel junk mb phys_end zones c n fa :
  frame_alloc_init_zones fuel mb phys_end (FaState (con_mem c) [] zones) = Ret (n, fa) -> frames_ok C fa [] ->
  length junk = PRINTK_BUF_SIZE -> cons_ok c -> (forall a, on_screen (con_fb c) a -> ~ fa_bytes fa a) ->
  exists fa2 c2, frame_alloc_init fuel junk mb phys_end zones c = Ret (fa2, c2) /\ init_printed C (con_fb c) fa fa2 c2.
Proof.
  intros Hrun Hok Hj Hc Hout. unfold frame_alloc_init, cprintk. rewrite Hrun.
  destruct (printk_safe junk (chars "Frame allocator initialized with %d frames
") [ANum n] eq_refl Hj (con_with (fa_mem fa) c)) as ([] & c2 & H1 & H2 & H3 & _ & _ & H4).
  { destruct Hc. by split. }
  rewrite H1. exists (set_mem fa (con_mem c2)), c2. split; [done|]. split; [done| |done|done|exact H4].
  apply (fc_outside (ok := frames_ok C) fa [] (con_mem c2) Hok). eapply agree_weaken; [exact H4|].
  intros a Ha Hs. by apply (Hout a).
Qed.


(** The state the scheduler starts in does not change with what is printed. *)
Definition set_console (a : apic) (c : con) : apic :=
  Apic (Acpi c (a_junk (ap_acpi a)) (rsdt (ap_acpi a)) (xsdt (ap_acpi a))) (ap_lapic_ptr a) (ap_ioapic_ptr a) (ap_in a) (ap_clock a) (ap_out a).

Lemma before_start_printed F lay w fa a fa2 c2 :
  before_start F (kst_of lay w fa a) [] -> init_printed F (con_fb (a_con (ap_acpi a))) fa fa2 c2 ->
  before_start F (kst_of lay w fa2 (set_console a c2)) [].
Proof.
  intros [[L1 L2 L3 L4 L5 L6] B2 B3 B4 B5 B6 B7] [P1 P2 P3 [P4 P5] P6].
  assert (Hfb : fa_bytes fa2 = fa_bytes fa) by (unfold fa_bytes; by rewrite P1). split.
  - split; [exact L1|exact L2|exact L3| | |exact L6].
    + destruct L4 as [_ L4]. split; [|exact L4]. destruct P4. by split.
    + intros x Hx. change (con_fb (k_con (kst_of lay w fa2 (set_console a c2)))) with (con_fb c2). rewrite P5. by apply L5.
  - intros x Hx. change (~ fa_bytes fa2 x). rewrite Hfb. by apply B2.
  - destruct B3 as (_ & B3 & B3'). split; [exact P2|]. by split; [destruct B3; by split|].
  - exact B4.
  - intros x Hx. change (rd8 (fa_mem fa2) x = 0). rewrite P6; [by apply (B5 x)|]. by apply (L5 x).
  - exact B6.
  - exact B7.
Qed.

(** [C7] From the memory map to the scheduler: when the map and the kernel's
    variables are as the boot loader and the linker lay them out, the allocator
    that [frame_alloc_init] makes gives [sched_start] the state that the
    theorems of the first task and of the life of tasks begin with; also once
    the number of frames is printed, on a screen that is not in the regions. *)
Theorem boot_before_start lay w a mb es l m fuel :
  boot_memory m mb es l (_phys_end_kernel_sections (l_sym lay)) -> array_ok (l_zones lay) -> (length l < fuel)%nat ->
  laid_out (kst_of lay w (FaState m [] (l_zones lay)) a) ->
  KERNEL_SECTIONS_START <= l_tasks lay ->
  apart (l_zones lay) (sizeof_zone * Z.of_nat MAX_ZONE_COUNT) (l_tasks lay) (sizeof_task * (MAX_TASK_COUNT + 1)) ->
  (forall x, in_range (l_tasks lay) (sizeof_task * (MAX_TASK_COUNT + 1)) x -> rd8 m x = 0) ->
  exists n fa, frame_alloc_init_zones fuel mb (_phys_end_kernel_sections (l_sym lay)) (FaState m [] (l_zones lay)) = Ret (n, fa) /\
    before_start False (kst_of lay w fa a) [] /\
    let c := con_with m (a_con (ap_acpi a)) in
    ((forall x, on_screen (con_fb c) x -> ~ fa_bytes fa x) ->
     exists fa2 c2, frame_alloc_init fuel (m_junk w) mb (_phys_end_kernel_sections (l_sym lay)) (l_zones lay) c = Ret (fa2, c2) /\
       before_start False (kst_of lay w fa2 (set_console a c2)) []).
Proof.
  intros Hb Harr Hf Hl Ht Hap Hz.
  destruct (frame_alloc_init_ok False mb es l _ (FaState m [] (l_zones lay)) Hb Harr ltac:(done) fuel eq_refl Hf)
    as (n & fa & Hrun & [_ _ _ Hok Hw Ho]).
  exists n, fa. split; [exact Hrun|]. cbn [fa_mem allocator_zones_addr] in Hw, Ho.
  assert (Hout : forall x, in_range (l_tasks lay) (sizeof_task * (MAX_TASK_COUNT + 1)) x -> ~ fa_bytes fa x).
  { intros x Hx [Hxa|Hxa]%Hw; unfold array_byte, apart, in_range in *; lia. }
  assert (Hbs : before_start False (kst_of lay w fa a) []).
  { split.
    - destruct Hl as [L1 L2 L3 [[C1 C2 C3 C4 C5 C6] L4] L5 L6]. split; [exact L1|exact L2|exact L3| |exact L5|exact L6].
      by split.
    - exact Hout.
    - split; [exact Hok|]. split; [by split; [|done|intros x Hx; by apply not_elem_of_nil in Hx|constructor]|].
      intros p Hp. by apply not_elem_of_nil in Hp.
    - done.
    - intros x Hx. change (rd8 (fa_mem fa) x = 0). rewrite (Ho x (Hout x Hx)). by apply Hz.
    - done.
    - done. }
  split; [exact Hbs|]. intros c Hsc. destruct Hl as [_ _ _ [Hc Hj] _ _].
  destruct (init_prints False fuel (m_junk w) mb (_phys_end_kernel_sections (l_sym lay)) (l_zones lay) c n fa Hrun Hok Hj Hc Hsc)
    as (fa2 & c2 & H & Hp). exists fa2, c2. split; [exact H|]. exact (before_start_printed False lay w fa a fa2 c2 Hbs Hp).
Qed.

(** ** An instance: 127 megabytes above the first, and the kernel's image below four *)

Definition info0 : Z := KERNEL_DIRECT_PHYS_MAPPING_START + 0x10000.
Definition mb0 : mb_state := MbState info0 0 (info0 + 8) 0 0.
Definition map0 : list map_entry := [(0, 0x9f000, 1); (0x100000, 0x7f00000, 1); (0x8000000, 0x10000, 2)].

Fixpoint put_entries (a : Z) (l : list map_entry) (m : mem) : mem :=
  match l with
  | [] => m
  | (b, n, t) :: l => put_entries (a + 24) l (st 4 (st64 (st64 m a b) (a + 8) n) (a + 16) t)
  end.
Definition boot_mem : mem :=
  put_entries (info0 + 24) map0 (st 4 (st 4 (st 4 (st 4 ∅ info0 104) (info0 + 8) MB_TAG_MEMMAP) (info0 + 12) 88) (info0 + 16) 24).

Lemma map0_at : memmap_at boot_mem mb0 24 map0.
Proof.
  split; try done. intros i e Hi. do 3 (destruct i as [|i]; [injection Hi as <-; vm_compute; repeat split|]). done.
Qed.

Lemma map0_kept :
  kept_regions (reserved_end boot_mem mb0 (4 * MB)) map0 = [(KERNEL_DIRECT_PHYS_MAPPING_START + 0x400000, 31744)].
Proof. vm_compute. reflexivity. Qed.

Lemma map0_boot : boot_memory boot_mem mb0 24 map0 (4 * MB).
Proof.
  split.
  - split; [done|done|split; done|exact map0_at].
  - done.
  - repeat constructor; done.
  - rewrite map0_kept. apply Nat.leb_le. reflexivity.
  - rewrite map0_kept. by intros x ->%list_elem_of_singleton.
  - rewrite map0_kept. split; [|exact I]. intros y Hy. by apply not_elem_of_nil in Hy.
Qed.

(** The region is clear: all that is written lies below it. *)
Lemma boot_mem_below a : KERNEL_DIRECT_PHYS_MAPPING_START + 0x400000 <= a -> rd8 boot_mem a = 0.
Proof.
  intros Ha. unfold rd8. destruct (boot_mem !! a) as [v|] eqn:E; [|done]. exfalso.
  assert (H : forallb (fun x => x.1 <? KERNEL_DIRECT_PHYS_MAPPING_START + 0x400000) (map_to_list boot_mem) = true) by (vm_compute; reflexivity).
  apply elem_of_map_to_list in E. rewrite forallb_forall in H. apply list_elem_of_In in E. specialize (H _ E). cbn [fst] in H. lia.
Qed.


Definition zones0 : Z := KERNEL_SECTIONS_START + 0x4000000.
Definition layout0 : layout := Layout boot_syms zones0 0 0 0 0 table0 context0 (KERNEL_SECTIONS_START + 0x1100000) true.

Lemma zones0_ok : array_ok zones0.
Proof. by split. Qed.


Definition machine0 : machine := Machine boot_mem ∅ 0 (replicate 11 0) (fun _ => 0).
Definition apic0 : apic := Apic (Acpi con0 (replicate 11 0) NULL NULL) NULL NULL (fun _ => 0) 0 [].

Lemma boot_mem_low a : KERNEL_SECTIONS_START <= a -> rd8 boot_mem a = 0.
Proof. intros Ha. apply boot_mem_below. unfold KERNEL_SECTIONS_START, KERNEL_DIRECT_PHYS_MAPPING_START in *. lia. Qed.

Lemma boot_before_start_witness :
  exists n fa, frame_alloc_init_zones 4 mb0 (4 * MB) (FaState boot_mem [] zones0) = Ret (n, fa) /\
    before_start False (kst_of layout0 machine0 fa apic0) [].
Proof.
  destruct (boot_before_start layout0 machine0 apic0 mb0 24 map0 boot_mem 4 map0_boot zones0_ok) as (n & fa & H & Hb & _).
  - apply Nat.ltb_lt. reflexivity.
  - destruct (family_laid_out boot_mem) as [L1 L2 L3 [L4 L5] L6 L7].
    split; [exact L1|exact L2|exact L3|split; [exact L4|exact L5]|exact L6|exact L7].
  - apply Z.leb_le. reflexivity.
  - right. apply Z.leb_le. reflexivity.
  - intros x [Hx _]. apply boot_mem_low. exact Hx.
  - exists n, fa. split; [exact H|exact Hb].
Defined.
