(* ===== verification/TaskClaims.v ===== *)
(** * Properties of the start and the end of a task *)

From S2P Require Import Prelude Mem Common DList Buddy Paging FrameAlloc FrameRefine FrameZones FrameSession FrameInit.
From S2P Require Import FrameExample FrameClient Obj ObjSpec Vmem PageTable VmemSpec VmemMap AddrSpace Demand SpaceInit.
From S2P Require Import Destroy Clone CloneSpace ExampleRun SpaceExample FaultExample.
From S2P Require Import Multiboot Fb FbSpec Console Printk PrintkSpec ConsoleSpec Acpi Kst Arch Sched Apic Syscall SchedSpec SyscallSpec.
From S2P Require Import SchedClaims Machine MachineSim FirstSpace Thread FirstTask Fork Reap ForkExample.

(** [C3] A fork makes a task like its parent: when an entry of the table is free,
    [sys_fork] of a task with a well-formed address space and a kernel stack
    answers an error for lack of memory, or faults when no memory is left for an
    area's record, or answers the number [j] of the free entry of least number,
    and then: task [j] is runnable and its parent is the current task; it has a
    kernel stack of its own, a frame not in use before, on which [context_switch]
    finds the address of [pop_and_iret] and below it the parent's saved
    registers, but for [rax], which is 0; it has an address space of its own that
    is a copy of the parent's ([cloned]); the parent's address space and its
    stack are as before; and nothing else outside the allocators' memory is
    written. *)
Theorem fork_makes_child (F : Prop) s i root T L P fr U head ns q sym fuel :
  forkable (ok := frames_ok F) s i root T L P fr U head ns q ->
  (exists k, 1 <= k < MAX_TASK_COUNT /\ state_of (kmem s) (task_slot s k) = TASK_NOT_ALLOCATED) -> (length ns < fuel)%nat ->
  let regs := q + PAGE_SIZE - sizeof_arch_regs in
  (exists r s', sys_fork fuel sym regs s = Ret (Done r, s') /\ r < 0) \/
  sys_fork fuel sym regs s = Halt (Fault NULL) \/
  exists j s', sys_fork fuel sym regs s = Ret (Done j, s') /\
    child_like (ok := frames_ok F) s i root T L head ns q sym j s'.
Proof. intros H1 H2 H3 regs. exact (fork_ok s i root T L P fr U head ns q sym fuel H1 H2 H3). Qed.

Lemma fork_answered (r : res (resum Z * kst)) (C : Z -> kst -> Prop) :
  call_answer r = 2 ->
  (exists v s', r = Ret (Done v, s') /\ v < 0) \/ r = Halt (Fault NULL) \/ (exists j s', r = Ret (Done j, s') /\ C j s') ->
  exists s', r = Ret (Done 2, s') /\ C 2 s'.
Proof.
  intros Ha [(v & s' & -> & Hv)|[->|(j & s' & -> & Hc)]]; cbn [call_answer] in Ha; [lia|done|]. rewrite Ha in Hc. rewrite Ha. by exists s'.
Qed.

Lemma fork_makes_child_witness :
  exists T L h x s', sys_fork 2 boot_syms (stack0 + PAGE_SIZE - sizeof_arch_regs) forking = Ret (Done 2, s') /\
    child_like (ok := frames_ok True) forking 1 vs3_root T L h [x] stack0 boot_syms 2 s'.
Proof.
  destruct forking_forkable as (T & L & P & fr & U & h & x & Hfk). exists T, L, h, x.
  refine (fork_answered _ (child_like (ok := frames_ok True) forking 1 vs3_root T L h [x] stack0 boot_syms) (proj1 (proj2 (proj2 fork_run))) _).
  exact (fork_makes_child True forking 1 vs3_root T L P fr U h [x] stack0 boot_syms 2 Hfk
    (ex_intro _ 2 (conj two_tasks second_free)) (Nat.lt_succ_diag_r 1)).
Defined.

(** [C6] A dead task gives everything back, while the pairs of buddies in use share
    no bit of the allocator's bitmaps ([frames_fine]): when the frames of its tables and of
    its pages marked [PTE_ALLOC] are held, and its kernel stack is a frame of its
    own, the scheduler's [reap] returns and frees exactly these frames, each
    once; the pool of areas stays well-formed; other holders' frames, and all
    memory outside the allocator's but the screen, are as before. No part of the
    task table is written: the condition on reaping of the machine's steps
    ([S_back]) holds. *)
Theorem reap_returns_everything s i root T L P fr U head ns q fuel :
  reapable (ok := frames_fine) s i root T L P fr U head ns q -> (length ns < fuel)%nat ->
  reap_contained fuel (task_slot s i) s /\
  exists s' L' U', reap fuel (task_slot s i) s = Ret (tt, s') /\
    freed (ok := frames_fine) s root L P U head ns q s' L' U' /\ same nothing s s' /\
    agree (fun a => others s P L' a /\ ~ on_screen (con_fb (k_con s)) a) (kmem s) (kmem s').
Proof.
  intros H1 H2. split.
  - exact (reap_is_contained (ok := frames_fine) I s i root T L P fr U head ns q fuel H1 H2).
  - exact (reap_ok (ok := frames_fine) I s i root T L P fr U head ns q fuel H1 H2).
Qed.

Lemma reap_returns_everything_witness :
  exists s' L L', reap 2 (task_slot forking 1) forking = Ret (tt, s') /\
    (owned (kmem forking) 4 vs3_root ++ [vs3_root]) ++ stack0 :: L' ≡ₚ L /\ same nothing forking s'.
Proof.
  destruct forking_reapable as (T & L & P & fr & U & h & x & Hr).
  destruct (reap_returns_everything forking 1 vs3_root T L P fr U h [x] stack0 2 Hr (Nat.lt_succ_diag_r 1)) as
    (_ & s' & L' & U' & H1 & H2 & H3 & _).
  exists s', L, L'. split; [exact H1|]. split; [exact (fd_frames _ _ _ _ _ _ _ _ _ _ _ H2)|exact H3].
Defined.
