(* ===== verification/PreemptClaims.v ===== *)
(** * Properties of system calls that are interrupted *)

From stdpp Require Import functions.
From S2P Require Import Prelude Mem Common DList Buddy Paging FrameAlloc Obj Vmem Multiboot Fb FbSpec Console Printk PrintkSpec ConsoleSpec.
From S2P Require Import Acpi Kst Arch Sched Apic Syscall SchedSpec SyscallSpec SchedClaims ProcSpec Machine MachineSim MachineClaims Preempt.

(** [C23] A call that no interrupt disturbs is the call as it is written: with an
    empty schedule, sleep, exit and wait, cut up at their accesses, give in every
    state what [sys_sleep], [sys_exit] and [sys_wait] give, and at a switch go
    on the same way in every state they can find. *)
Theorem undisturbed_calls fuel regs :
  req (run (sys_sleep_p regs) []) (sys_sleep regs) /\
  req (run (sys_exit_p regs) []) (sys_exit regs) /\
  req (run (sys_wait_p fuel regs) []) (sys_wait fuel regs).
Proof. split; [apply sleep_undisturbed|]. split; [apply exit_undisturbed|apply wait_undisturbed]. Qed.

(** Suspensions with the same behaviour. *)
Lemma behaves_switch {A} (x : res (resum A * kst)) prev next k s :
  behaves x (Ret (Switch prev next k, s)) -> exists k', x = Ret (Switch prev next k', s) /\ forall s', behaves (k' s') (k s').
Proof. inversion 1; subst. by eexists. Qed.

(** [C14] An interrupt can lose a wake-up: the timer suspends a parent in [wait]
    after it has read that its child lives and before it is marked as waiting.
    The child exits meanwhile, finds that nobody waits, and is a zombie. The
    parent goes on and gives the processor away as a task that waits for it. *)
Theorem interrupted_wait_loses_wakeup fuel s1 p c r1 :
  table_kok s1 -> 0 <= p < MAX_TASK_COUNT -> 0 <= c < MAX_TASK_COUNT -> p <> c -> regs_ok r1 ->
  let tp := task_slot s1 p in let tc := task_slot s1 c in let ctx := sched_context s1 in
  _current s1 = tp -> kok ctx 8 = true -> ld64 (kmem s1) (r1 + 72) = c ->
  pid_of (kmem s1) tp = p -> ppid_of (kmem s1) tc = p ->
  state_of (kmem s1) tp = TASK_RUNNABLE -> state_of (kmem s1) tc <> TASK_ZOMBIE ->
  lapic_ok s1 -> u64 (sched_timer s1 + 1) <= deadline_of (kmem s1) tp ->
  exists k s1', run (sys_wait_p fuel r1) [false; false; false; false; false; true] s1 = Ret (Switch tp ctx k, s1') /\
  forall s2 r2, tasks s2 = tasks s1 -> sched_context s2 = ctx -> _current s2 = tc -> regs_ok r2 ->
    task_facts (kmem s2) tp = task_facts (kmem s1') tp -> task_facts (kmem s2) tc = task_facts (kmem s1') tc ->
    exists k2 s2', sys_exit r2 s2 = Ret (Switch tc ctx k2, s2') /\ state_of (kmem s2') tc = TASK_ZOMBIE /\
      task_facts (kmem s2') tp = task_facts (kmem s1) tp /\
  forall s3, tasks s3 = tasks s1 -> sched_context s3 = ctx -> _current s3 = tp ->
    task_facts (kmem s3) tc = task_facts (kmem s2') tc ->
    exists k3 s3', k s3 = Ret (Switch tp ctx k3, s3') /\
      state_of (kmem s3') tp = TASK_WAITING /\ wait_of (kmem s3') tp = c /\
      state_of (kmem s3') tc = TASK_ZOMBIE /\ ppid_of (kmem s3') tc = p.
Proof.
  intros Htab Hp Hc Hpc Hr1 tp tc ctx Hcur Hk Harg Hpid Hpp Hst Hz HL Hd.
  pose proof (SchedSpec.task_slots_apart s1 p c Hpc) as Hap. fold tp tc in Hap. unfold sizeof_task in Hap.
  pose proof (slot_ok s1 p Htab Hp) as Hpo. pose proof (slot_ok s1 c Htab Hc) as Hco. fold tp in Hpo. fold tc in Hco.
  destruct (timer_suspends s1 p Htab Hp Hcur Hk HL Hd) as (s1' & Ht & T1 & C1 & F1). fold tp ctx in Ht.
  assert (Hrun : run (sys_wait_p fuel r1) [false; false; false; false; false; true] s1 =
    run (pseq (wait_block_p tp tc c) (fun _ => wait_finish_p fuel r1 tc c)) [true] s1).
  { unfold sys_wait_p. rewrite run_quiet, (kbind_Ret _ _ _ _ _ (arg0_ok r1 s1 Hr1)), Harg.
    rewrite run_quiet, kget_bind, task_slot_at by (done || lia). cbv zeta. fold tc.
    rewrite run_quiet, (kbind_Ret _ _ _ _ _ (load_ppid_ok _ s1 Hco)), Hcur. fold tp.
    rewrite run_quiet, (kbind_Ret _ _ _ _ _ (load_pid_ok _ s1 Hpo)), Hpp, Hpid, Z.eqb_refl. cbn [negb].
    rewrite run_quiet, (kbind_Ret _ _ _ _ _ (get_state_ok _ s1 Hco)), (proj2 (Z.eqb_neq _ _) Hz). done. }
  destruct (run_interrupted (pseq (wait_block_p tp tc c) (fun _ => wait_finish_p fuel r1 tc c)) _ s1 tp ctx s1' eq_refl Ht)
    as (k & Hk1 & Hgo). exists k, s1'. rewrite Hrun. split; [exact Hk1|].
  intros s2 r2 T2 C2 Cur2 Hr2 G1 G2.
  pose proof (F1 p Hp) as Fp. pose proof (F1 c Hc) as Fc. fold tp in Fp. fold tc in Fc.
  rewrite Fp in G1. rewrite Fc in G2. pose proof G1 as G1'.
  unfold task_facts in G1', G2. injection G1' as A1 A2 A3 A4 A5. injection G2 as B1 B2 B3 B4 B5.
  destruct (sys_exit_ok s2 p c r2) as (k2 & H2 & _);
    [by eapply table_tasks|done|done|done|done|by rewrite (slot_tasks s1)|
     rewrite (slot_tasks s1) by done; exact (eq_trans B3 Hpp)|by rewrite C2|].
  rewrite !(slot_tasks s1 s2) in H2 by done. fold tp tc in H2, A1. rewrite A1, Hst, C2 in H2.
  change (TASK_RUNNABLE =? TASK_WAITING) with false in H2. cbn [andb] in H2. set (m2 := st 4 _ (tc + 40) _) in H2.
  exists k2. eexists. split; [exact H2|]. change (kmem (handed_back (set_kmem s2 m2))) with m2.
  assert (X1 : state_of m2 tc = TASK_ZOMBIE) by (unfold m2; by field_simp). split; [exact X1|].
  assert (X2 : ppid_of m2 tc = p) by (rewrite <- Hpp, <- B3; unfold m2; by field_simp).
  split.
  { assert (Ha : apart tc sizeof_task tp sizeof_task) by (unfold apart in *; unfold sizeof_task; lia).
    rewrite <- G1. unfold m2. by rewrite !facts_apart. }
  intros s3 T3 C3 Cur3 F3. unfold task_facts in F3. injection F3 as D1 _ D3 _ _.
  destruct (wait_block_ok fuel s3 p c r1) as (k3 & H3 & _);
    [by eapply table_tasks|done|done|by rewrite (slot_tasks s1)|by rewrite C3|].
  rewrite !(slot_tasks s1 s3) in H3 by done. fold tp tc in H3. rewrite C3 in H3.
  assert (Hb : req (run (pseq (wait_block_p tp tc c) (fun _ => wait_finish_p fuel r1 tc c)) [])
                   (rbind (wait_block tp tc c) (fun _ => wait_finish fuel r1 tc c))).
  { rewrite run_seq. apply rbind_proper; [apply block_undisturbed|]. intros []. apply finish_undisturbed. }
  specialize (Hb s3). rewrite <- Hgo, H3 in Hb. apply behaves_switch in Hb as (k3' & Hk3 & _). exists k3'. eexists.
  split; [exact Hk3|]. cbn [handed_back set_kmem k_vm].
  set (m3 := st64 _ _ _) in *. change (kmem (handed_back (set_kmem s3 m3))) with m3.
  split; [unfold m3; by field_simp|]. split.
  { unfold m3; field_simp. apply u64_small. unfold MAX_TASK_COUNT in Hc. change (Z.shiftl 1 16) with 65536 in Hc. lia. }
  split; [rewrite <- X1, <- D1|rewrite <- X2, <- D3]; unfold m3; by field_simp.
Qed.

(** [C24] An interrupted exit never finishes: the timer suspends a dying task after
    it is marked as a zombie and before its parent is woken. The scheduler
    passes over the task, which is dead, and over its parent, which waits for
    it, in this state and in all that leave the entries of the two alone. *)
Theorem interrupted_exit_loses_wakeup fuel s p c r :
  table_kok s -> 0 <= p < MAX_TASK_COUNT -> 0 <= c < MAX_TASK_COUNT -> p <> c -> regs_ok r ->
  let tp := task_slot s p in let tc := task_slot s c in let ctx := sched_context s in
  _current s = tc -> kok ctx 8 = true -> ppid_of (kmem s) tc = p ->
  state_of (kmem s) tp = TASK_WAITING -> wait_of (kmem s) tp = c ->
  lapic_ok s -> u64 (sched_timer s + 1) <= deadline_of (kmem s) tc ->
  exists k s', run (sys_exit_p r) [false; false; false; false; true] s = Ret (Switch tc ctx k, s') /\
    state_of (kmem s') tc = TASK_ZOMBIE /\ exitcode_of (kmem s') tc = u32 (ld64 (kmem s) (r + 72)) /\
    task_facts (kmem s') tp = task_facts (kmem s) tp /\
  forall s2, tasks s2 = tasks s ->
    task_facts (kmem s2) tp = task_facts (kmem s') tp -> task_facts (kmem s2) tc = task_facts (kmem s') tc ->
    sched_visit fuel p s2 = Ret (Done false, s2) /\ sched_visit fuel c s2 = Ret (Done false, s2).
Proof.
  intros Htab Hp Hc Hpc Hr tp tc ctx Hcur Hk Hpp Hw Hwc HL Hd.
  pose proof (SchedSpec.task_slots_apart s p c Hpc) as Hap. fold tp tc in Hap.
  assert (Ha : apart tc sizeof_task tp sizeof_task) by (unfold apart in *; lia). unfold sizeof_task in Hap.
  pose proof (slot_ok s c Htab Hc) as Hco. fold tc in Hco.
  set (s1 := set_kmem s (st 4 (kmem s) (tc + 88) (ld64 (kmem s) (r + 72)))).
  set (s2 := set_kmem s1 (st 4 (kmem s1) (tc + 40) TASK_ZOMBIE)).
  assert (Hrun : exists f, run (sys_exit_p r) [false; false; false; false; true] s =
    run (pseq (act (kload 8 (task_ppid tc))) f) [true] s2).
  { eexists. unfold sys_exit_p. rewrite run_quiet, (kbind_Ret _ _ _ _ _ (arg0_ok r s Hr)).
    rewrite run_quiet, kget_bind, Hcur. cbv zeta.
    rewrite run_quiet, (kbind_Ret _ _ _ _ _ (store_exitcode_ok _ s Hco _)). fold s1.
    rewrite run_quiet, (kbind_Ret _ _ _ _ _ (set_state_ok _ s1 Hco _)). reflexivity. }
  destruct Hrun as [f Hrun].
  destruct (timer_suspends s2 c Htab Hc Hcur Hk HL) as (s' & Ht & T1 & C1 & F1).
  { change (sched_timer s2) with (sched_timer s). eapply Z.le_trans; [exact Hd|].
    unfold s2, s1. rewrite !kmem_set. change (task_slot _ c) with tc. unfold deadline_of. field_simp. done. }
  destruct (run_interrupted (pseq (act (kload 8 (task_ppid tc))) f) _ s2 _ _ s' eq_refl Ht) as (k & Hk1 & _).
  pose proof (F1 p Hp) as Fp. pose proof (F1 c Hc) as Fc. change (task_slot s2 p) with tp in Fp.
  change (task_slot s2 c) with tc in Fc, Hk1.
  unfold s2, s1 in Fp. rewrite !kmem_set, !facts_apart in Fp by done.
  assert (X : state_of (kmem s2) tc = TASK_ZOMBIE) by (unfold s2; rewrite kmem_set; by field_simp).
  assert (X' : exitcode_of (kmem s2) tc = u32 (ld64 (kmem s) (r + 72))) by (unfold s2, s1; rewrite !kmem_set; by field_simp).
  pose proof Fc as Fc'. unfold task_facts in Fc'. injection Fc' as A1 _ _ _ A5.
  exists k, s'. rewrite Hrun. split; [exact Hk1|]. split; [congruence|]. split; [congruence|]. split; [done|].
  intros s3 T3 G1 G2. rewrite Fp in G1. unfold task_facts in G1, G2. injection G1 as B1 _ _ _ _. injection G2 as D1 _ _ _ _.
  assert (N : forall i, 0 <= i < MAX_TASK_COUNT -> state_of (kmem s3) (task_slot s i) = TASK_WAITING \/
                state_of (kmem s3) (task_slot s i) = TASK_ZOMBIE -> sched_visit fuel i s3 = Ret (Done false, s3)).
  { intros i Hi Hst. pose proof (sched_visit_ok fuel i s3 (table_tasks s s3 T3 Htab) Hi) as H. cbv zeta in H.
    rewrite (slot_tasks s s3) in H by done. unfold may_run in H. by destruct Hst as [E|E]; rewrite E in H. }
  split; apply N; [done|left; fold tp; congruence|done|right]. change (task_slot s c) with tc. congruence.
Qed.

(** [C15] A wake-up that is lost stays lost as long as no further call is cut up: from a
    machine in which a task waits for its child, which is dead, in every run of
    the machine of Machine.v, whose interrupts arrive in programs and in the
    scheduler but not inside system calls, and whose memory management stays out
    of the task table, the task waits and the child is never reaped, whatever the
    other tasks, the scheduler and the timer do. Neither has the processor again.
    (A fork that is interrupted can give the child's entry to another task: such
    runs are not covered.) *)
Theorem lost_wakeup_is_final fuel sym a M M' i c :
  life_inv_but (eq i) a -> rep fuel a M -> 0 <= i < MAX_TASK_COUNT -> 0 <= c < MAX_TASK_COUNT ->
  let t := slot_of (tasks (m_s M)) in let m := kmem (m_s M) in
  state_of m (t i) = TASK_WAITING -> wait_of m (t i) = c -> state_of m (t c) = TASK_ZOMBIE -> ppid_of m (t c) = i ->
  mreach fuel sym M M' ->
  let t' := slot_of (tasks (m_s M')) in let m' := kmem (m_s M') in
  state_of m' (t' i) = TASK_WAITING /\ state_of m' (t' c) = TASK_ZOMBIE /\ m_at M' <> t' i /\ m_at M' <> t' c.
Proof.
  intros Ha Hr Hi Hc t m Hw Hwc Hz Hp Hm t' m'.
  assert (Hl : lost i c a).
  { pose proof (rp_table _ _ _ Hr i Hi) as Ei. pose proof (rp_table _ _ _ Hr c Hc) as Ec. split.
    - apply (bool_decide_eq_true_1 _). unfold st_of. rewrite <- (state_is _ _ _ _ Waiting Ei). fold m t. by rewrite Hw.
    - by rewrite <- (en_wait _ _ _ _ Ei).
    - apply (bool_decide_eq_true_1 _). unfold st_of. rewrite <- (state_is _ _ _ _ Zombie Ec). fold m t. by rewrite Hz.
    - by rewrite <- (en_parent _ _ _ _ Ec). }
  destruct (sim_reach fuel sym a M M' Ha Hr Hm) as (b & Hb & Hbi & R).
  pose proof (reaches_lost i c a b Ha Hl Hb) as [L1 L2 L3 L4].
  pose proof (rp_table _ _ _ R i Hi) as Ei. pose proof (rp_table _ _ _ R c Hc) as Ec.
  split; [unfold t', m'; rewrite (en_state _ _ _ _ Ei); unfold st_of in L1; by rewrite L1|].
  split; [unfold t', m'; rewrite (en_state _ _ _ _ Ec); unfold st_of in L3; by rewrite L3|].
  assert (N : forall j, 0 <= j < MAX_TASK_COUNT -> st_of b j <> Runnable -> m_at M' <> t' j).
  { intros j Hj Hst E. rewrite (rp_at _ _ _ R) in E. destruct (running b) as [r|] eqn:Hn.
    - destruct (li_running _ b Hbi r Hn) as [_ Hrr]. apply slot_inj in E. by subst.
    - by apply (lo_context_apart _ (rp_layout _ _ _ R) j Hj). }
  split; apply N; (done || congruence).
Qed.

(** [C22] A sleep returns 0 however often it is interrupted: whatever the schedule
    of interrupts, if each time the processor comes back to the task (and not to
    another), [sys_sleep] ends after finitely many switches with the result 0,
    and no assertion fails on the way. *)
Theorem interrupted_sleep_returns regs sch s :
  regs_ok regs -> has_processor s -> finishes (eq 0) has_processor (run (sys_sleep_p regs) sch s).
Proof. apply sleep_finishes. Qed.

(** ** Instances *)

(** The instance of SchedClaims.v with a local APIC, and a deadline for both tasks. *)
Definition kst_lapic (m : mem) (cur : Z) : kst :=
  Kst (VmState (FaState m [] 0) (OBJ_ALLOC_DEFINE sizeof_vmem_area) NULL 0) con0 (replicate 11 0) table0 100 cur
      context0 0 0 (KERNEL_SECTIONS_START + 0x4000000).

Definition timed (m : mem) : mem := st64 (st64 m (slot0 1 + 56) 110) (slot0 2 + 56) 110.

Lemma kst_lapic_ok m cur : lapic_ok (kst_lapic m cur).
Proof.
  split; [reflexivity|]. right. cbn [kst_lapic lapic_ptr tasks].
  apply Z.leb_le. reflexivity.
Qed.

Lemma interrupted_wait_loses_wakeup_witness :
  exists k s1' k2 s2' k3 s3',
    run (sys_wait_p 1 regs_a) [false; false; false; false; false; true] (kst_lapic (timed family) (slot0 1)) =
      Ret (Switch (slot0 1) context0 k, s1') /\
    sys_exit regs_b (kst_lapic (kmem s1') (slot0 2)) = Ret (Switch (slot0 2) context0 k2, s2') /\
    k (kst_lapic (kmem s2') (slot0 1)) = Ret (Switch (slot0 1) context0 k3, s3') /\
    state_of (kmem s3') (slot0 1) = TASK_WAITING /\ state_of (kmem s3') (slot0 2) = TASK_ZOMBIE.
Proof.
  destruct (interrupted_wait_loses_wakeup 1 (kst_lapic (timed family) (slot0 1)) 1 2 regs_a)
    as (k & s1' & H1 & H); [reflexivity|split; [apply Z.leb_le|apply Z.ltb_lt]; reflexivity|
      split; [apply Z.leb_le|apply Z.ltb_lt]; reflexivity|discriminate|reflexivity|reflexivity|reflexivity|
      vm_compute; reflexivity|vm_compute; reflexivity|vm_compute; reflexivity|vm_compute; reflexivity|vm_compute; discriminate|
      apply kst_lapic_ok|apply Z.leb_le; vm_compute; reflexivity|].
  destruct (H (kst_lapic (kmem s1') (slot0 2)) regs_b eq_refl eq_refl eq_refl eq_refl eq_refl eq_refl) as (k2 & s2' & H2 & _ & _ & Hf).
  destruct (Hf (kst_lapic (kmem s2') (slot0 1)) eq_refl eq_refl eq_refl eq_refl) as (k3 & s3' & H3 & W1 & _ & W2 & _).
  exists k, s1', k2, s2', k3, s3'. split; [exact H1|]. split; [exact H2|]. split; [exact H3|]. split; [exact W1|exact W2].
Defined.

(** Task 1 waits for task 2. *)
Definition waited_family : mem := timed (st64 (st 4 family (slot0 1 + 40) TASK_WAITING) (slot0 1 + 32) 2).

Lemma interrupted_exit_loses_wakeup_witness :
  exists k s', run (sys_exit_p regs_b) [false; false; false; false; true] (kst_lapic waited_family (slot0 2)) =
      Ret (Switch (slot0 2) context0 k, s') /\
    sched_visit 1 1 (kst_lapic (kmem s') NULL) = Ret (Done false, kst_lapic (kmem s') NULL).
Proof.
  destruct (interrupted_exit_loses_wakeup 1 (kst_lapic waited_family (slot0 2)) 1 2 regs_b)
    as (k & s' & H1 & _ & _ & _ & H); [reflexivity|split; [apply Z.leb_le|apply Z.ltb_lt]; reflexivity|
      split; [apply Z.leb_le|apply Z.ltb_lt]; reflexivity|discriminate|reflexivity|reflexivity|reflexivity|
      vm_compute; reflexivity|vm_compute; reflexivity|vm_compute; reflexivity|
      apply kst_lapic_ok|apply Z.leb_le; vm_compute; reflexivity|].
  destruct (H (kst_lapic (kmem s') NULL) eq_refl eq_refl eq_refl) as [Hv _].
  exists k, s'. split; [exact H1|exact Hv].
Defined.

(** The parent waits for a child that is dead. *)
Definition lost_family : sys := parent_and_child Waiting Zombie (PWait 2) PDead.
Definition lost_machine (fuel : nat) : machine := family_machine Waiting Zombie (KCall (wait_kont fuel)) (KCall dead_kont).

Lemma lost_life : life_inv_but (eq 1) lost_family.
Proof. apply family_life; [split; [done|by left]|by left|done|done]. Qed.

Lemma lost_rep fuel : rep fuel lost_family (lost_machine fuel).
Proof. apply family_rep; [apply wait_kont_is|by exists dead_kont]. Qed.

(** The scheduler passes over the parent. *)
Lemma lost_wakeup_is_final_witness : exists M', mreach 5 no_symbols (lost_machine 5) M' /\
  m_kont M' context0 = KLook 2 /\ let t' := slot_of (tasks (m_s M')) in
  state_of (kmem (m_s M')) (t' 1) = TASK_WAITING /\ state_of (kmem (m_s M')) (t' 2) = TASK_ZOMBIE /\
  m_at M' <> t' 1 /\ m_at M' <> t' 2.
Proof.
  assert (S1 : mstep 5 no_symbols (lost_machine 5)
    (Machine (kst_with (family_mem Waiting Zombie) NULL) (<[context0 := KLook 2]> (m_kont (lost_machine 5))) context0)).
  { apply (visit_skips 5 no_symbols (lost_machine 5) 1); [apply fn_lookup_insert|apply table0_kok| |vm_compute; reflexivity].
    split; [apply Z.leb_le|apply Z.ltb_lt]; reflexivity. }
  eexists. split; [eapply mreach_step; [constructor|exact S1]|]. split; [apply fn_lookup_insert|].
  refine (lost_wakeup_is_final 5 no_symbols lost_family (lost_machine 5) _ 1 2 lost_life (lost_rep 5) _ _ _ _ _ _ _);
    [split; [apply Z.leb_le|apply Z.ltb_lt]; reflexivity|split; [apply Z.leb_le|apply Z.ltb_lt]; reflexivity|
     vm_compute; reflexivity|vm_compute; reflexivity|vm_compute; reflexivity|vm_compute; reflexivity|
     eapply mreach_step; [constructor|exact S1]].
Defined.

Lemma interrupted_sleep_returns_witness :
  finishes (eq 0) has_processor (run (sys_sleep_p regs_a) [false; true; true; false; true; true] (kst_lapic (timed family) (slot0 1))).
Proof.
  apply (interrupted_sleep_returns regs_a); [reflexivity|]. split; [reflexivity|discriminate|reflexivity|reflexivity].
Defined.
