(* ===== verification/BaseClaims.v ===== *)
(** * Properties of the base components: memory functions, lists, addresses *)

From S2P Require Import Prelude Mem Common DList Buddy Paging.

(** [memmove] copies as if all bytes were read before any is written,
    whatever the overlap, the alignment and the direction it chooses, and
    writes nothing else. *)
Theorem memmove_simultaneous dst src n m :
  0 <= n -> kok dst n = true -> kok src n = true ->
  exists m', memmove dst src n m = Ret (tt, m') /\
    forall a, rd8 m' a = if decide (in_range dst n a) then rd8 m (src + (a - dst)) else rd8 m a.
Proof. intros Hn Hd Hs. by apply memmove_ok. Qed.

(** Overlapping ranges, the destination eight bytes up. *)
Lemma memmove_simultaneous_witness :
  exists m', memmove (KERNEL_HIGHER_HALF_START + 8) KERNEL_HIGHER_HALF_START 24 ∅ = Ret (tt, m') /\
    rd8 m' (KERNEL_HIGHER_HALF_START + 8) = rd8 ∅ KERNEL_HIGHER_HALF_START.
Proof.
  destruct (memmove_simultaneous (KERNEL_HIGHER_HALF_START + 8) KERNEL_HIGHER_HALF_START 24 ∅)
    as (m' & Hrun & Hm); [lia|reflexivity|reflexivity|].
  exists m'. split; [exact Hrun|]. rewrite Hm. reflexivity.
Defined.

(** [C38] The ring operations on memory are the list operations: inserting after
    the head of a ring of nodes [l1 ++ l2] makes it [new :: l1 ++ l2],
    extracting a node [x] between [l1] and [l2] makes it [l1 ++ l2], and no
    byte outside the nodes of the ring and the new one changes. *)
Theorem list_ring_operations m h l1 x l2 new :
  dll m h (l1 ++ x :: l2) -> node_ok new ->
  (forall a, a ∈ h :: l1 ++ x :: l2 -> apart new 16 a 16) ->
  (exists m1, list_insert_after h new m = Ret (tt, m1) /\ dll m1 h (new :: l1 ++ x :: l2) /\
     agree (fun a => forall y, y ∈ h :: new :: l1 ++ x :: l2 -> ~ in_range y 16 a) m m1) /\
  (exists m2, list_extract x m = Ret (tt, m2) /\ dll m2 h (l1 ++ l2) /\
     agree (fun a => forall y, y ∈ h :: l1 ++ x :: l2 -> ~ in_range y 16 a) m m2).
Proof.
  intros Hd Hnew Hap. split.
  - eexists. split; [by eapply list_insert_after_run|]. split; [by apply insert_mem_dll|].
    apply insert_mem_agree. intros a Ha. split; [|split]; apply Ha; try set_solver.
    pose proof (node_first_elem h (l1 ++ x :: l2)). set_solver.
  - eexists. split; [by eapply list_extract_run|]. split; [by eapply extract_mem_dll|].
    apply extract_mem_agree. intros a Ha.
    pose proof (node_last_elem h l1). pose proof (node_first_elem h l2).
    split; apply Ha; set_solver.
Qed.

(** A ring of one node at the base of the kernel half. *)
Lemma list_ring_operations_witness :
  exists m m2, dll m KERNEL_HIGHER_HALF_START [KERNEL_HIGHER_HALF_START + 16] /\
    list_extract (KERNEL_HIGHER_HALF_START + 16) m = Ret (tt, m2) /\ dll m2 KERNEL_HIGHER_HALF_START [].
Proof.
  assert (H0 : node_ok KERNEL_HIGHER_HALF_START) by reflexivity.
  assert (H1 : node_ok (KERNEL_HIGHER_HALF_START + 16)) by reflexivity.
  assert (H2 : node_ok (KERNEL_HIGHER_HALF_START + 32)) by reflexivity.
  pose proof (list_init_dll ∅ _ H0) as Hnil.
  assert (Hd : dll (insert_mem (list_init_mem ∅ KERNEL_HIGHER_HALF_START) KERNEL_HIGHER_HALF_START
                      (KERNEL_HIGHER_HALF_START + 16) KERNEL_HIGHER_HALF_START)
                   KERNEL_HIGHER_HALF_START [KERNEL_HIGHER_HALF_START + 16]).
  { apply (insert_mem_dll _ _ [] _ Hnil H1). intros a Ha. apply list_elem_of_singleton in Ha.
    subst a. right. lia. }
  destruct (list_ring_operations _ KERNEL_HIGHER_HALF_START [] (KERNEL_HIGHER_HALF_START + 16) []
              (KERNEL_HIGHER_HALF_START + 32) Hd H2) as [_ (m2 & Hrun & Hd2 & _)].
  - intros a [->|Ha]%elem_of_cons; [right; lia|]. apply list_elem_of_singleton in Ha. subst a. right. lia.
  - eexists _, m2. split; [exact Hd|]. split; [exact Hrun|exact Hd2].
Defined.

(** A virtual address is its four table indices and its offset: [MAKE_ADDR]
    of indices in range gives them back, and every address the processor
    accepts is [MAKE_ADDR] of its own indices. *)
Theorem MAKE_ADDR_roundtrip :
  (forall m p d t o, 0 <= m < 512 -> 0 <= p < 512 -> 0 <= d < 512 -> 0 <= t < 512 -> 0 <= o < 4096 ->
     let va := MAKE_ADDR m p d t o in
     PML4E_FROM_ADDR va = m /\ PDPE_FROM_ADDR va = p /\ PDE_FROM_ADDR va = d /\
     PTE_FROM_ADDR va = t /\ va mod PAGE_SIZE = o /\ canonical va) /\
  (forall va, canonical va ->
     MAKE_ADDR (PML4E_FROM_ADDR va) (PDPE_FROM_ADDR va) (PDE_FROM_ADDR va) (PTE_FROM_ADDR va)
               (va mod PAGE_SIZE) = va).
Proof.
  split.
  - intros m p d t o Hm Hp Hd Ht Ho va. split_and!.
    + by apply MAKE_ADDR_PML4E.
    + by apply MAKE_ADDR_PDPE.
    + by apply MAKE_ADDR_PDE.
    + by apply MAKE_ADDR_PTE.
    + by apply MAKE_ADDR_offset.
    + by apply MAKE_ADDR_canonical.
  - intros va Hva. by apply MAKE_ADDR_of_indices.
Qed.

(** Rounding: [ROUNDDOWN] is the greatest multiple not above the address and
    [ROUNDUP] the least not below it, unless the latter passes the end of the
    address space. *)
Theorem rounding_extremal a n :
  0 < n -> 0 <= a -> a + n - 1 < two64 ->
  (aligned n (ROUNDDOWN a n) /\ ROUNDDOWN a n <= a /\ forall b, aligned n b -> b <= a -> b <= ROUNDDOWN a n) /\
  (aligned n (ROUNDUP a n) /\ a <= ROUNDUP a n /\ forall b, aligned n b -> a <= b -> ROUNDUP a n <= b).
Proof.
  intros Hn Ha Hend.
  pose proof (ROUNDDOWN_bounds a n Hn ltac:(lia)) as Hd. pose proof (ROUNDUP_bounds a n Hn Ha Hend) as Hu.
  pose proof (ROUNDDOWN_aligned a n Hn ltac:(lia)) as Hda. pose proof (ROUNDUP_aligned a n Hn Ha Hend) as Hua.
  split; (split; [done|split; [lia|]]); intros b Hb Hab.
  - destruct (Z.le_gt_cases b (ROUNDDOWN a n)) as [|Hgt]; [done|].
    destruct (aligned_ne_apart n b (ROUNDDOWN a n) Hn Hb Hda); lia.
  - destruct (Z.le_gt_cases (ROUNDUP a n) b) as [|Hgt]; [done|].
    destruct (aligned_ne_apart n b (ROUNDUP a n) Hn Hb Hua); lia.
Qed.

Lemma rounding_extremal_witness :
  ROUNDDOWN 5000 4096 = 4096 /\ forall b, aligned 4096 b -> 5000 <= b -> ROUNDUP 5000 4096 <= b.
Proof.
  destruct (rounding_extremal 5000 4096) as [_ (_ & _ & H)]; [lia..|]. split; [reflexivity|exact H].
Defined.
