(* ===== verification/ConsoleClaims.v ===== *)
(** * Properties of the output path: printk, console, framebuffer *)

From S2P Require Import Prelude Mem Common Paging Multiboot Fb FbSpec Console Printk PrintkSpec ConsoleSpec Panic.

(** A console on a screen of 80 by 25 cells just above the kernel half's base. *)
Definition fb80 : fb_state := FbState true KERNEL_HIGHER_HALF_START 640 200 2560 512000.
Definition con80 : con := Con ∅ fb80 true 80 25 24 79.
Definition junk11 : buffer := replicate 11 0.

Lemma fb80_ok : fb_ok fb80.
Proof. split; cbn; unfold KERNEL_HIGHER_HALF_START; try lia; done. Qed.

Lemma con80_ok : cons_ok con80.
Proof.
  split; [apply fb80_ok|reflexivity|..]; split; try reflexivity; apply Z.leb_le; reflexivity.
Qed.

(** [C37] Printing a number and reading it back gives the number: for any base up
    to sixteen, [bprintu64] leaves at its offset the digits of [a], the most
    significant first and without leading zeros, returns their count and
    changes nothing else in the buffer. *)
Theorem bprintu64_roundtrip base a pre old post m :
  2 <= base <= 16 -> length old = m -> (0 < m <= 64)%nat -> 0 <= a < base ^ Z.of_nat m ->
  exists l rest, bprintu64 (length pre) a base (pre ++ old ++ post) =
      Ret (length l, pre ++ l ++ rest ++ post) /\
    old = take (length l) old ++ rest /\ decode base l = a /\ Forall (is_digit base) l /\
    (a <> 0 -> forall c l', l = c :: l' -> digit_val c <> 0).
Proof.
  intros Hb Hold Hm Ha.
  destruct (bprintu64_ok base Hb a pre old post m Hold Hm Ha) as (l & rest & H1 & H2 & _ & H3 & H4 & H5).
  by exists l, rest.
Qed.

Lemma bprintu64_roundtrip_witness :
  exists l rest, bprintu64 0 4294967295 10 junk11 = Ret (length l, l ++ rest) /\
    decode 10 l = 4294967295.
Proof.
  destruct (bprintu64_roundtrip 10 4294967295 [] junk11 [] 11) as (l & rest & Hrun & _ & Hd & _);
    [lia|reflexivity|lia|lia|].
  exists l, rest. cbn [length app] in Hrun. rewrite !app_nil_r in Hrun. split; [exact Hrun|exact Hd].
Defined.

(** [C34] [printk] is confined to the screen: with a format of ASCII text and 'u',
    'x', 'd' and 's' conversions only, whose arguments are of the right kind and
    whose strings are ASCII, it returns, whatever the numbers (its buffer is large
    enough for 32 bits), keeps the cursor on the grid and changes no byte outside
    the screen. Conversions 'p' and 'i' are excluded: for a kernel address, and at
    the start of a format, they are undefined. *)
Theorem printk_confined junk fmt args c :
  fmt_ok fmt true args = true -> length junk = PRINTK_BUF_SIZE -> cons_ok c ->
  exists c', printk junk fmt args c = Ret (tt, c') /\ cons_ok c' /\
    agree (fun a => ~ on_screen (con_fb c) a) (con_mem c) (con_mem c').
Proof.
  intros Hf Hj Hc. destruct (printk_safe junk fmt args Hf Hj c Hc) as ([] & c' & H1 & H2 & H3).
  exists c'. split; [done|]. split; [done|]. apply H3.
Qed.

Lemma printk_confined_witness :
  exists c', printk junk11 (chars "pid %d: %s 0x%x") [ANum (-2147483648); AStr (chars "zombie"); ANum 255] con80
    = Ret (tt, c') /\ cons_ok c'.
Proof.
  destruct (printk_confined junk11 (chars "pid %d: %s 0x%x")
              [ANum (-2147483648); AStr (chars "zombie"); ANum 255] con80) as (c' & H1 & H2 & _);
    [reflexivity|reflexivity|apply con80_ok|]. exists c'. split; [exact H1|exact H2].
Defined.

(** A pointer does not fit the buffer: [%p] of an address with more than
    nine hexadecimal digits, which every kernel address has, writes past its
    eleven bytes. *)
Theorem printk_pointer_overflows junk ptr rest args c :
  length junk = PRINTK_BUF_SIZE -> 16 ^ 9 <= ptr < two64 -> cons_initialized c = true ->
  printk junk (chars "%p" ++ rest) (ANum ptr :: args) c = Halt (Undefined "buf[i]").
Proof.
  intros Hj Hp Hc. rewrite printk_unfold by done. change (chars "%p" ++ rest) with (37 :: 112 :: rest).
  cbn [vprintk_loop]. change (37 =? 37) with true. cbn [negb].
  unfold conversion. cbn [Z.eqb Pos.eqb].
  unfold next_num, next_arg, in_buf, klift, kbind. cbn [p_args p_buf]. unfold kret. cbn [p_buf].
  rewrite (u64_small ptr) by lia. by rewrite bprintptr_overflow by (done || lia).
Qed.

Lemma printk_pointer_overflows_witness :
  printk junk11 (chars "%p" ++ chars " found") [ANum KERNEL_DIRECT_PHYS_MAPPING_START] con80
    = Halt (Undefined "buf[i]").
Proof.
  apply printk_pointer_overflows; [reflexivity|split; [apply Z.leb_le|]; reflexivity|reflexivity].
Defined.

(** The conversion [%i] is undefined when it comes first: it leaves [size]
    without a value, which is read after every conversion. *)
Theorem printk_errcode_uninitialised junk err rest args c :
  cons_ok c -> length junk = PRINTK_BUF_SIZE -> err = - EINVAL \/ err = - ENOMEM \/ err = - ENOSYS ->
  printk junk (chars "%i" ++ rest) (ANum err :: args) c = Halt (Undefined "size").
Proof.
  intros Hc Hj Herr. rewrite printk_unfold by apply Hc. change (chars "%i" ++ rest) with (37 :: 105 :: rest).
  cbn [vprintk_loop]. change (37 =? 37) with true. cbn [negb].
  unfold conversion. cbn [Z.eqb Pos.eqb].
  assert (Hs : exists str, errcode_str (- s32 err) = Some str /\ forallb ascii_char str = true).
  { destruct Herr as [-> | [-> | ->]]; eexists; (split; [reflexivity|reflexivity]). }
  destruct Hs as (str & Hs & Hascii).
  destruct (print_color_safe str FB_COLOR_WHITE FB_COLOR_BLACK Hascii c Hc) as (u & c1 & H1 & _).
  unfold next_num, next_arg, in_con, klift, kbind, kret. cbn [p_args p_con p_buf p_size].
  rewrite Hs. cbn [p_con]. rewrite H1. reflexivity.
Qed.

Lemma printk_errcode_uninitialised_witness :
  printk junk11 (chars "%i" ++ []) [ANum (- ENOMEM)] con80 = Halt (Undefined "size").
Proof.
  apply printk_errcode_uninitialised; [apply con80_ok|reflexivity|right; left; reflexivity].
Defined.

(** A printable character is drawn as its glyph in the cell of the cursor,
    and only there; then the cursor moves one column right. *)
Theorem putchar_draws_glyph c ch fg bg :
  cons_ok c -> 0 <= ch < 128 -> ch <> 10 -> ch <> 13 -> cons_curr_col c + 1 < cons_width c ->
  exists glyph c', font !! Z.to_nat ch = Some glyph /\ cons_putchar_color ch fg bg c = Ret (tt, c') /\
    cons_curr_row c' = cons_curr_row c /\ cons_curr_col c' = cons_curr_col c + 1 /\
    (forall r bits x, glyph !! r = Some bits -> 0 <= x < 8 ->
       pixel (con_mem c') (con_fb c) (8 * cons_curr_col c + x) (8 * cons_curr_row c + Z.of_nat r) =
       u32 (if Z.testbit bits x then fg else bg)) /\
    agree (fun a => ~ rect_byte (con_fb c) (8 * cons_curr_col c) (8 * cons_curr_row c) 8 8 a)
          (con_mem c) (con_mem c').
Proof.
  intros Hc Hch Hn Hr Hcol. pose proof Hc as [Hfb Hi [Hw1 Hw2] _ _ Hc0].
  destruct (fo_bytes _ Hfb) as (Hb & _ & Hp31). pose proof (fo_pitch _ Hfb). unfold FONT_WIDTH in Hw2.
  destruct (draw_char_ok c ch fg bg Hc Hch) as (glyph & m' & Hg & _ & Hrun & Hpix & Hag).
  exists glyph. eexists. split; [exact Hg|]. split.
  - unfold cons_putchar_color, kget. cbn [kbind]. rewrite kassert_true by done.
    rewrite (proj2 (Z.eqb_neq ch 10)), (proj2 (Z.eqb_neq ch 13)) by done. kstep Hrun.
    unfold set_col, kget, kbind. cbn.
    replace (s32 (cons_curr_col c + 1)) with (cons_curr_col c + 1)
      by (unfold s32; rewrite Z.mod_small; lia).
    rewrite (proj2 (Z.eqb_neq _ _)) by lia. reflexivity.
  - cbn. split; [done|]. split; [done|]. split; [exact Hpix|exact Hag].
Qed.

Definition con80_home : con := Con ∅ fb80 true 80 25 0 0.

Lemma putchar_draws_glyph_witness :
  exists glyph c', font !! Z.to_nat 65 = Some glyph /\
    cons_putchar_color 65 FB_COLOR_WHITE FB_COLOR_BLACK con80_home = Ret (tt, c') /\ cons_curr_col c' = 1.
Proof.
  destruct (putchar_draws_glyph con80_home 65 FB_COLOR_WHITE FB_COLOR_BLACK)
    as (glyph & c' & H1 & H2 & _ & H3 & _); [|lia|lia|lia|reflexivity|].
  - split; [apply fb80_ok|reflexivity|..]; split; try reflexivity; apply Z.leb_le; reflexivity.
  - exists glyph, c'. split; [exact H1|]. split; [exact H2|exact H3].
Defined.

(** A character from 128 up is a negative [char], and its glyph is looked up
    four billion rows past the font. *)
Theorem putchar_negative_char_undefined c ch fg bg :
  cons_initialized c = true -> -128 <= ch < 0 ->
  cons_putchar_color ch fg bg c = Halt (Undefined "font[(unsigned int)c]").
Proof.
  intros Hc Hch. unfold cons_putchar_color, kget. cbn [kbind]. rewrite kassert_true by done.
  rewrite (proj2 (Z.eqb_neq ch 10)), (proj2 (Z.eqb_neq ch 13)) by lia.
  apply kbind_Halt. unfold draw_char. by rewrite font_none.
Qed.

Lemma putchar_negative_char_undefined_witness :
  cons_putchar_color (-23) FB_COLOR_WHITE FB_COLOR_BLACK con80 = Halt (Undefined "font[(unsigned int)c]").
Proof. apply putchar_negative_char_undefined; [reflexivity|lia]. Defined.

(** Scrolling by [height] rows: what was [height] rows lower comes up byte
    for byte, the rows that come in are filled, and nothing outside the screen
    changes. *)
Theorem scroll_moves_rows fb height color m :
  fb_ok fb -> 0 <= height <= fb_height fb ->
  exists m', fb_scroll_up fb height color m = Ret (tt, m') /\
    (forall o, 0 <= o < (fb_height fb - height) * fb_pitch fb ->
       rd8 m' (fb_addr fb + o) = rd8 m (fb_addr fb + height * fb_pitch fb + o)) /\
    (forall x y, 0 <= x < fb_width fb -> fb_height fb - height <= y < fb_height fb ->
       pixel m' fb x y = u32 color) /\
    agree (fun a => ~ on_screen fb a) m m'.
Proof. intros Hfb Hh. by apply fb_scroll_up_ok. Qed.

Lemma scroll_moves_rows_witness :
  exists m', fb_scroll_up fb80 8 FB_COLOR_BLACK ∅ = Ret (tt, m') /\ pixel m' fb80 639 199 = 0.
Proof.
  destruct (scroll_moves_rows fb80 8 FB_COLOR_BLACK ∅) as (m' & H1 & _ & H2 & _);
    [apply fb80_ok|cbn; lia|]. exists m'. split; [exact H1|]. rewrite H2; [reflexivity|cbn; lia|cbn; lia].
Defined.

(** A panic is reported, and does not panic again: with a message whose
    conversions are 'u', 'x', 'd' or 's' and agree with its arguments, on a ready
    console, [__panic] stops with its own message: no assertion of the output
    path fails on the way, and what it prints changes no byte outside the
    screen. *)
Theorem panic_reports j1 j2 j3 location msg args c :
  buffers_ok j1 j2 j3 -> forallb ascii_char location = true -> fmt_ok (chars msg) true args = true -> cons_ok c ->
  __panic j1 j2 j3 location msg args c = Halt (Panic msg) /\
  exists c', panic_message j1 j2 j3 location (chars msg) args c = Ret (tt, c') /\ cons_ok c' /\
    agree (fun a => ~ on_screen (con_fb c) a) (con_mem c) (con_mem c').
Proof.
  intros Hb Hl Hf Hc. destruct (panic_message_ok j1 j2 j3 location (chars msg) args c Hb Hl Hf Hc) as (c' & H1 & H2 & H3).
  split; [unfold __panic; by rewrite (kbind_Ret _ _ _ _ _ H1)|]. exists c'. split; [done|]. split; [done|apply H3].
Qed.

Lemma panic_reports_witness :
  __panic junk11 junk11 junk11 (chars "arch/x86/irq.c:59") "Unhandled IRQ" [] con80 = Halt (Panic "Unhandled IRQ").
Proof.
  destruct (panic_reports junk11 junk11 junk11 (chars "arch/x86/irq.c:59") "Unhandled IRQ" [] con80) as [H _];
    [by split_and!|reflexivity|reflexivity|apply con80_ok|exact H].
Defined.

(** The panics whose message names an address. *)
Definition pointer_panics : list string :=
  ["frames_free on unknown address %p"; "intersection of virtual regions has occured in vmem at %p";
   "alloc-free mismatch in vmem at %p"]%string.

Lemma pointer_panics_text msg : In msg pointer_panics ->
  exists text, chars msg = text ++ chars "%p" /\ Forall (fun ch => ch <> 37) text /\ forallb ascii_char text = true.
Proof.
  intros Hm. destruct Hm as [<-|[<-|[<-|[]]]];
    [exists (chars "frames_free on unknown address ")|exists (chars "intersection of virtual regions has occured in vmem at ")
    |exists (chars "alloc-free mismatch in vmem at ")]; (split; [reflexivity|split; [|reflexivity]]);
    repeat constructor; discriminate.
Qed.

(** Three panics do not come to their end: the messages of [frames_free], of
    [vmem_alloc_pages] and of [vmem_free_pages] print an address with [%p], and
    when it has more than nine hexadecimal digits, as the kernel's addresses
    have, the conversion writes past [vprintk_color]'s buffer before the
    processor stops. *)
Theorem panic_pointer_undefined j1 j2 j3 location msg ptr c :
  In msg pointer_panics -> buffers_ok j1 j2 j3 -> forallb ascii_char location = true -> cons_ok c -> 16 ^ 9 <= ptr < two64 ->
  __panic j1 j2 j3 location msg [ANum ptr] c = Halt (Undefined "buf[i]").
Proof.
  intros Hm Hb Hl Hc Hp. destruct (pointer_panics_text msg Hm) as (text & E & Ht & Ha). unfold __panic. apply kbind_Halt.
  rewrite E. by apply panic_message_pointer.
Qed.

Lemma panic_pointer_undefined_witness :
  __panic junk11 junk11 junk11 (chars "mm/frame_alloc.c:113") "frames_free on unknown address %p" [ANum KERNEL_SECTIONS_START] con80
    = Halt (Undefined "buf[i]").
Proof.
  apply panic_pointer_undefined;
    [left; reflexivity|by split_and!|reflexivity|apply con80_ok|split; [apply Z.leb_le|apply Z.ltb_lt]; reflexivity].
Defined.
